(* ===== verification/_CoqProject ===== *)
-Q . S2P
Prelude.v
CLayout.v
Bytes.v
KBase.v
KNet.v
KTask.v
KCgroup.v
KNetRefs.v
KTaskRefs.v
KernelTypes.v
BpfRuntime.v
Monitor.v
ProbeObjects.v
GoLib.v
Duration.v
PathMatch.v
Core.v
Helpers.v
Channel.v
Correlator.v
Wire.v
PortExpr.v
Rule.v
Engine.v
Sequence.v
Lateness.v
LoadRules.v
Json.v
Output.v
Resolver.v
Main.v
Pipeline.v
Progress.v
Flow.v
Sequential.v
System.v
Turns.v
Fairness.v
Shutdown.v
Startup.v
RuleFiles.v
Age.v
