(* ===== verification/Prelude.v ===== *)
(** * A verification of eBPF-monitor

    eBPF-monitor watches Docker containers: eBPF probes ([bpf/monitor.c]) write
    a fixed-size record for every TCP connect, TCP accept, file open and program
    execution into a ring buffer; a Go program ([cmd/main.go], [internal/])
    reads the records, pairs connects with accepts, names the containers, and
    hands the events to a JSON printer and to a rule engine.  All source paths
    below are relative to src/.

    ** How the parts interact, and where each is modelled

    - [Prelude] (this file): Go results ([go], a value or a run-time panic),
      integer ranges, list lemmas, the tactic [go_inv].  [CLayout]: C types with
      sizes, alignments and bit offsets as the x86-64 ABI computes them, and
      designators ([offset_size]).  [Bytes]: bytes, little-endian integers, byte
      ranges.  [Channel]: Go channels (capacity, contents, closed).
    - [KBase], [KNet], [KTask], [KCgroup], [KNetRefs], [KTaskRefs]: the types of
      bpf/headers/vmlinux.h that the probes' objects consist of, one definition
      per type with the header's members in order; [KernelTypes] collects them
      in the environment [kernel_type] and reads objects in memory by them.
    - [BpfRuntime]: the eBPF helpers and libbpf macros the probes call, which are
      not in the repository, as the class [bpf_runtime] with the laws
      [bpf_runtime_laws]; the instance [header_runtime] is a memory laid out by
      the header's types.  [Monitor]: bpf/monitor.c.  [struct_event] is the
      record, each probe a function from its invocation, the (stale) bytes of its
      reservation and its argument to a [verdict].  [ProbeObjects]: what the
      probes report of the kernel's objects in such a memory.
    - [Wire]: internal/ebpf/types.go, [ParseEvent] on the record's bytes.
    - [GoLib], [Duration], [PathMatch]: what the program uses of Go's strings,
      strconv, time, utf8 and path packages.  A string is its bytes, a time its
      nanoseconds since the Unix epoch.
    - [Core], [Helpers]: internal/core and internal/helpers.
    - [Correlator]: internal/correlator/correlator.go.  The map of pending
      connections is a [gmap]; each method is one step, the mutex making it so.
    - [PortExpr], [Rule], [Engine]: internal/ruleengine.  [Engine] keeps the
      threshold windows and sequence trackers; the alerts raised so far are a
      list; [Sequence] says what the trackers detect.  [LoadRules]: reading the
      rules folder, the YAML decoder being a parameter.
    - [Resolver]: internal/resolver/resolver.go; Docker and the file system are
      the record [host].  [Json], [Output]: internal/output/output.go and the
      JSON that encoding/json makes of its values.
    - [Main]: the main loop and the filter of cmd/main.go.  [Pipeline]: all its
      goroutines as one transition system ([sys_step], [reachable]) over the five
      channels they share: the reader, the forwarder of the correlator's events,
      the fan-out, the engine (a step for each rule applied and each alert sent),
      the output loop (a step for each value its select receives), the ticker,
      the Docker monitor and the signal handler; a failed read exits.
      [Progress]: termination and freedom from deadlock of that system; [Flow]:
      the events on their way through it, and the way from a probe to the output;
      [Shutdown]: the signal handler on a program at rest.
    - [Sequential]: a sequential reference of the whole program, three folds over
      what it takes up, and the refinement of the goroutines to it.  [System]: the
      probes, running concurrently, the ring buffer (an interface with laws and an
      instance) and the goroutines as one machine.  [Fairness]: infinite runs of
      the goroutines, on the facts of single steps in [Turns].  [Lateness]:
      thresholds on events that come late; [Age]: how late they come.
      [Startup]: what [main] does before, up to the state [sys_start].
    - [RuleFiles]: the rules of the folder rules/, one definition per file.

    ** What the theorems show

    - The two languages agree: [ParseEvent] reads every member of [struct event]
      where the C compiler puts it; and of a TCP socket and of task structures
      laid out by the header the probes report the members they should
      ([ProbeObjects]).
    - Each probe ignores, drops or submits exactly as written, with the exact
      record ([Monitor]); composed with the reader, an open or an execution
      becomes an event that does not depend on the ring buffer's old bytes, and
      a connection seen at both ends becomes exactly one event ([Main]).
    - The correlator refines one small automaton per address quadruple, for any
      interleaving with other connections and clean-ups.
    - The engine refines a specification per rule: a rule's alerts are those its
      own matches call for, threshold windows being sliding windows when the
      matches come in time order, and windows wrong by no more than the lateness
      when they do not ([Lateness]).  The time-out bounds the lateness of
      connections, and so what the rules of the repository can miss or invent,
      as long as the reader and the ticker keep up ([Age]).  Matching denotes
      what a rule says; patterns of literals and stars mean the usual
      thing although the matcher never backtracks to an earlier star; group keys
      separate what they should; port expressions print and parse, as texts and,
      but for negation and wildcards, as YAML lists.  The engine is loaded with
      the rules of the files called .yml or .yaml, and no others ([LoadRules]).
    - The sequence trackers refine a three-state automaton per group, among any
      other rules: every alert is explained by consecutive steps in order within
      the window, and a full sequence within the window raises one if its group
      stood at its start before it; a group that waits for a late step misses the
      next sequence ([stale_start_misses]).  This is for an engine with a tracker
      map ([Sequence]); the one [New] makes has none.
    - In every interleaving of the goroutines the printer and the engine are
      sent the same filtered and enriched events, and the printer the alerts the
      engine raises, which for each rule are those its specification calls for;
      before a signal nothing panics but the causes named ([Pipeline]).
    - The steps that need nothing from outside are bounded by the work left, and
      before a signal they end only when every channel is empty and everything
      received has been handled: no deadlock although the channels are bounded
      ([Progress]).
    - No interleaving loses, repeats or invents an event; so an open, an execution
      or a connection that the probes submit while the program is at rest gives
      exactly one event on the output and in the engine ([Flow]).
    - In every interleaving, signals included, the goroutines are at each point
      where the sequential reference is on what they have taken up ([Sequential]).
      So what comes out of the whole, left to come to rest, is a function of the
      probes that got a slot, the clean-ups and the cache, and of the rules
      ([System]); thresholds on opens and executions then are exact.
    - While work keeps coming, every fair run outputs whatever it takes up, and the
      alerts it calls for, at some later point ([Fairness]).
    - Startup stops at the first failure with status -1, and attaches each
      program where its section in the C source says ([Startup]).
    - The rules of the repository are well formed, so the theorems about the
      engine apply to them; what two of them detect is spelt out ([RuleFiles]).
    - Every printed line is one line of JSON whose members are, by name, those
      that the tags give to the fields of its value.
    - What the code does at its edges, as theorems: a loaded rule with a sequence
      panics at the first matching step ([New] makes no tracker map); with a map,
      the last step alone raises the alert; a wildcard port matches no port, and a
      list of ports drops negations; a rules folder that does not exist panics,
      one that cannot be listed loads as empty; the output loop never returns; the resolver panics without a unified cgroup
      line and never forgets a container; shutting down can panic while events
      are in flight, loses what is in the channels and exits with status -1, but
      is clean at rest as long as the Docker monitor does not fail ([Shutdown]).

    ** Bounds and fuel

    Loops that are not structural take the length of their input as fuel; the
    theorems about them ([matchPattern_glob], [ParsePortExpr_show],
    [init_bootTime_btime]) show that it suffices.  Integers are [Z] within their
    width, wrapped where the code can leave it ([uwrap], [swrap]); times are
    unbounded, which holds for the years that occur.

    ** What is not modelled

    The command-line flags, log messages, the Docker client, the cilium/ebpf
    library (its answers are the record [environment] of [Startup] and the labels
    [LRead], [LReadErr]), the YAML decoder, and the types of vmlinux.h that no
    probe object contains or points to.  A handler under a mutex is one step, and
    so is the application of a rule, whose alerts are then sent one by one; an
    update of the resolver's cache, which locks for each entry, is one step too,
    several steps when it comes as several Docker events.  The local time zone is
    one fixed offset: changes to and from summer time are left out.
    [BPF_CORE_READ] of the parent's [comm] array is taken to give its bytes. *)

From stdpp Require Export base tactics gmap strings list.
From Stdlib Require Export ZArith NArith Lia.
From Stdlib Require Export Ascii Sorted.

(** ** Results of Go code: a value or a run-time panic *)

(** The ways a Go statement of this program can panic. *)
Inductive panic : Type :=
| NilDeref            (* nil pointer or nil interface dereference *)
| NilMapWrite         (* assignment to an entry of a nil map *)
| IndexOutOfRange     (* slice or array index out of range *)
| SendOnClosed        (* send on a closed channel *)
| CloseClosed.        (* close of a closed channel *)

#[export] Instance panic_eq_dec : EqDecision panic.
Proof. solve_decision. Defined.

Inductive go (A : Type) : Type :=
| Ret (a : A)
| Panic (p : panic).
Arguments Ret {A} a.
Arguments Panic {A} p.

#[export] Instance go_eq_dec `{EqDecision A} : EqDecision (go A).
Proof. solve_decision. Defined.

#[export] Instance go_ret : MRet go := fun A a => Ret a.
#[export] Instance go_bind : MBind go := fun A B f m =>
  match m with Ret a => f a | Panic p => Panic p end.
#[export] Instance go_fmap : FMap go := fun A B f m =>
  match m with Ret a => Ret (f a) | Panic p => Panic p end.

Lemma go_bind_ret {A B} (f : A -> go B) (a : A) : Ret a ≫= f = f a.
Proof. reflexivity. Qed.

Lemma go_bind_Ret_inv {A B} (m : go A) (f : A -> go B) b :
  m ≫= f = Ret b -> exists a, m = Ret a /\ f a = Ret b.
Proof. destruct m as [a|p]; [eauto | discriminate]. Qed.

(** Take apart a run [H : m ≫= f = Ret _] into its steps, and the equation of
    its result. *)
Ltac go_inv H :=
  let x := fresh "x" in let Hx := fresh "Hx" in
  apply go_bind_Ret_inv in H as (x & Hx & H); try (injection H as H; subst).

(** ** Machine-width integers: an unsigned [w]-bit value is a [Z] in [0, 2^w) *)

Definition uwrap (w v : Z) : Z := (v mod 2 ^ w)%Z.
Definition swrap (w v : Z) : Z := ((v + 2 ^ (w - 1)) mod 2 ^ w - 2 ^ (w - 1))%Z.
Definition in_u (w v : Z) : Prop := (0 <= v < 2 ^ w)%Z.
Definition in_s (w v : Z) : Prop := (- 2 ^ (w - 1) <= v < 2 ^ (w - 1))%Z.

(** ** Lists *)

Lemma map_injective {A B} (f : A -> B) :
  (forall x y, f x = f y -> x = y) -> forall l l', map f l = map f l' -> l = l'.
Proof.
  intros Hf l. induction l as [|x l IH]; intros [|y l'] H; try discriminate; [reflexivity|].
  injection H as Hx Hl. f_equal; auto.
Qed.

Lemma sublist_StronglySorted {A} (R : A -> A -> Prop) l l' :
  l `sublist_of` l' -> StronglySorted R l' -> StronglySorted R l.
Proof.
  induction 1 as [|x l l' Hs IH|x l l' Hs IH]; intros H; [constructor|..];
    apply StronglySorted_inv in H as [H Hall]; [|by apply IH].
  constructor; [by apply IH|]. rewrite Forall_forall in *. intros y Hy. apply Hall.
  by apply (elem_of_sublist l l').
Qed.

(** The list without the longest run at its front that satisfies [p]. *)
Fixpoint drop_while {A} (p : A -> bool) (l : list A) : list A :=
  match l with
  | x :: l' => if p x then drop_while p l' else l
  | [] => []
  end.

Lemma drop_while_split {A} (p : A -> bool) l :
  exists gone, l = gone ++ drop_while p l /\ Forall (fun x => p x = true) gone /\
    forall x, head (drop_while p l) = Some x -> p x = false.
Proof.
  induction l as [|y l (gone & Heq & Hg & Hh)]; [by exists []|]. simpl. destruct (p y) eqn:Hy.
  - exists (y :: gone). split_and!; [by rewrite Heq at 1|by constructor|done].
  - exists []. split_and!; [done..|]. by intros x [= <-].
Qed.

Lemma map_sublist {A B} (f : A -> B) l l' : l `sublist_of` l' -> map f l `sublist_of` map f l'.
Proof. induction 1; simpl; by constructor. Qed.

Lemma filter_sublist {A} (p : A -> bool) l : List.filter p l `sublist_of` l.
Proof.
  induction l as [|x l IH]; [apply sublist_nil_l|]. simpl.
  destruct (p x); [by apply sublist_skip|by apply sublist_cons].
Qed.

Lemma filter_sublist_mono {A} (p : A -> bool) l l' :
  l `sublist_of` l' -> List.filter p l `sublist_of` List.filter p l'.
Proof.
  induction 1 as [|x l l' _ IH|x l l' _ IH]; [apply sublist_nil_l|..]; simpl; destruct (p x); try done;
    [by apply sublist_skip|by apply sublist_cons].
Qed.

Lemma StronglySorted_filter (f : Z -> bool) (ts : list Z) :
  StronglySorted Z.le ts -> StronglySorted Z.le (List.filter f ts).
Proof. apply sublist_StronglySorted, filter_sublist. Qed.

Lemma StronglySorted_prefix (R : Z -> Z -> Prop) (l l' : list Z) :
  StronglySorted R (l ++ l') -> StronglySorted R l.
Proof. apply sublist_StronglySorted. by apply sublist_inserts_r. Qed.

Lemma StronglySorted_snoc_inv (l : list Z) (x : Z) :
  StronglySorted Z.le (l ++ [x]) -> StronglySorted Z.le l /\ Forall (fun t => (t <= x)%Z) l.
Proof.
  induction l as [|y l IH]; simpl; intros H; [repeat constructor|].
  apply StronglySorted_inv in H as [H Hall]. destruct (IH H) as [Hs Hx].
  apply Forall_app in Hall as [Hl Hx']. inversion Hx' as [|a q Hle Hn]; subst.
  split; constructor; assumption.
Qed.

Lemma StronglySorted_snoc (l : list Z) (x : Z) :
  StronglySorted Z.le l -> Forall (fun t => (t <= x)%Z) l -> StronglySorted Z.le (l ++ [x]).
Proof.
  induction 1 as [|y l Hs IH Hall]; intros Hx; simpl; [repeat constructor|].
  apply Forall_cons_1 in Hx as [Hy Hx]. constructor; [by apply IH|].
  apply Forall_app. split; [exact Hall|]. by constructor.
Qed.

Lemma filter_filter_weaker {A} (f g : A -> bool) l :
  (forall x, g x = true -> f x = true) -> List.filter g (List.filter f l) = List.filter g l.
Proof.
  intros H. induction l as [|x l IH]; [reflexivity|]. simpl.
  destruct (f x) eqn:Hf; simpl; [by rewrite IH|].
  destruct (g x) eqn:Hg; [|exact IH]. rewrite H in Hf by assumption. discriminate.
Qed.

Lemma filter_filter_and {A} (p q : A -> bool) l :
  List.filter p (List.filter q l) = List.filter (fun x => q x && p x) l.
Proof. induction l as [|x l IH]; [done|]. simpl. destruct (q x); simpl; [by rewrite IH|done]. Qed.

Lemma StronglySorted_map_filter {A} (R : Z -> Z -> Prop) (f : A -> Z) (p : A -> bool) l :
  StronglySorted R (map f l) -> StronglySorted R (map f (List.filter p l)).
Proof. apply sublist_StronglySorted, map_sublist, filter_sublist. Qed.

Lemma omap_eq_all {A B} (f g : A -> option B) l :
  Forall (fun x => is_Some (f x) <-> is_Some (g x)) l ->
  omap f l = omap g l <-> Forall (fun x => f x = g x) l.
Proof.
  assert (Hc : forall h : A -> option B, forall x l, omap h (x :: l) =
    match h x with Some y => y :: omap h l | None => omap h l end) by reflexivity.
  induction 1 as [|x l Hx _ IH]; [split; [constructor|done]|].
  rewrite !Hc, Forall_cons, <- IH. destruct (f x) as [y|], (g x) as [z|].
  - split; [intros [= ? ?]; split; congruence|]. intros [[= ?] ?]. congruence.
  - destruct Hx as [Hx _]. destruct Hx; [by eexists|discriminate].
  - destruct Hx as [_ Hx]. destruct Hx; [by eexists|discriminate].
  - split; [done|]. by intros [_ ?].
Qed.
