(* ===== verification/CLayout.v ===== *)
(** * C data layout

    A deep embedding of the C object types that [bpf/headers/vmlinux.h] and
    [bpf/monitor.c] declare, and the layout rules the eBPF target gives them
    (little-endian, 64-bit pointers, natural alignment, bit-fields packed from
    the low bit and never straddling a unit of their declared type).  The
    header is generated with every padding spelled out, so no attribute is
    needed.  Offsets and extents are counted in bits, sizes in bytes. *)

From S2P Require Import Prelude.

Open Scope N_scope.

Inductive isize := I8 | I16 | I32 | I64 | I128.
Inductive sign := Signed | Unsigned.
Inductive comp_kind := KStruct | KUnion.

Inductive ctype : Type :=
| CVoid
| CInt (sg : sign) (sz : isize)
| CPtr (target : string)
| CArr (elt : ctype) (len : N)
| CEnum (tag : string) (rep : isize) (enumerators : list (string * Z))
| CComp (k : comp_kind) (tag : string) (members : list member)
with member : Type :=
| Mem (name : string) (t : ctype)
| Bits (name : string) (t : ctype) (width : N).

(** The C spelling of the types the declarations use. *)
Definition c_char := CInt Signed I8.
Definition c_schar := CInt Signed I8.
Definition c_uchar := CInt Unsigned I8.
Definition c_bool := CInt Unsigned I8.
Definition c_short := CInt Signed I16.
Definition c_ushort := CInt Unsigned I16.
Definition c_int := CInt Signed I32.
Definition c_uint := CInt Unsigned I32.
Definition c_long := CInt Signed I64.
Definition c_ulong := CInt Unsigned I64.
Definition c_llong := CInt Signed I64.
Definition c_ullong := CInt Unsigned I64.
Definition c_int128 := CInt Signed I128.
Definition c_uint128 := CInt Unsigned I128.
Definition ptr := CPtr.
Definition Struct := CComp KStruct.
Definition Union := CComp KUnion.

Declare Scope clayout_scope.
Delimit Scope clayout_scope with clayout.
Notation "n ⦂ t" := (Mem n t) (at level 60, no associativity) : clayout_scope.
Notation "n ⦂⟨ w ⟩ t" := (Bits n t w)
  (at level 60, w at level 9, t at level 60, no associativity) : clayout_scope.

Definition member_name (m : member) : string :=
  match m with Mem n _ | Bits n _ _ => n end.
Definition member_type (m : member) : ctype :=
  match m with Mem _ t | Bits _ t _ => t end.

Definition isize_bytes (s : isize) : N :=
  match s with I8 => 1 | I16 => 2 | I32 => 4 | I64 => 8 | I128 => 16 end.

(** ** Placement of the members of one composite *)

(** What placement needs to know of a member: a whole object of a size and an
    alignment in bytes, or a bit-field slice of a unit of that type. *)
Inductive shape :=
| Whole (sz al : N)
| Slice (sz al width : N) (named : bool).

Definition align_up (n a : N) : N := (n + (a - 1)) / a * a.

Definition shape_align (s : shape) : N :=
  match s with
  | Whole _ al => al
  | Slice _ al _ named => if named then al else 1
  end.

Definition shape_bits (s : shape) : N :=
  match s with Whole sz _ => 8 * sz | Slice _ _ w _ => w end.

(** The bit at which a member starts when the members before it end at [pos]. *)
Definition place (pos : N) (s : shape) : N :=
  match s with
  | Whole _ al => align_up pos (8 * al)
  | Slice sz al w _ =>
      if w =? 0 then align_up pos (8 * al)
      else if pos mod (8 * al) + w <=? 8 * sz then pos
      else align_up pos (8 * al)
  end.

(** Start bits of all members, and the bit after the last one. *)
Fixpoint place_struct (pos : N) (ss : list shape) : list N * N :=
  match ss with
  | [] => ([], pos)
  | s :: ss =>
      let o := place pos s in
      let '(os, e) := place_struct (o + shape_bits s) ss in
      (o :: os, e)
  end.

Definition place_members (k : comp_kind) (ss : list shape) : list N * N :=
  match k with
  | KStruct => place_struct 0 ss
  | KUnion => (map (fun _ => 0) ss, foldr N.max 0 (map shape_bits ss))
  end.

Definition members_align (ss : list shape) : N := foldr N.max 1 (map shape_align ss).

Definition members_size (k : comp_kind) (ss : list shape) : N :=
  align_up (snd (place_members k ss)) (8 * members_align ss) / 8.

(** ** Size and alignment of a type *)

Definition member_shape (size_align : ctype -> N * N) (m : member) : shape :=
  match m with
  | Mem _ t => let '(sz, al) := size_align t in Whole sz al
  | Bits n t w =>
      let '(sz, al) := size_align t in
      Slice sz al w (negb (bool_decide (n = EmptyString)))
  end.

Fixpoint size_align (t : ctype) : N * N :=
  match t with
  | CVoid => (1, 1)
  | CInt _ s => (isize_bytes s, isize_bytes s)
  | CPtr _ => (8, 8)
  | CArr e n => let '(sz, al) := size_align e in (sz * n, al)
  | CEnum _ s _ => (isize_bytes s, isize_bytes s)
  | CComp k _ ms =>
      let ss := map (member_shape size_align) ms in
      (members_size k ss, members_align ss)
  end.

Definition sizeof (t : ctype) : N := fst (size_align t).
Definition alignof (t : ctype) : N := snd (size_align t).
Definition shapes (ms : list member) : list shape := map (member_shape size_align) ms.

(** ** Member designators *)

(** A located member: the bit it starts at, its extent in bits, whether it is a
    bit-field, its declared type. *)
Record located := Located {
  loc_bit : N; loc_bits : N; loc_slice : bool; loc_type : ctype
}.

Definition is_slice (m : member) : bool :=
  match m with Mem _ _ => false | Bits _ _ _ => true end.

(** A location inside a member that starts at bit [o]. *)
Definition shift_loc (o : N) (l : located) : located :=
  Located (o + loc_bit l) (loc_bits l) (loc_slice l) (loc_type l).

(** [find_field t f] locates the member [f] of [t], looking through the
    anonymous structures and unions of [t] as C does. *)
Fixpoint find_field (t : ctype) (f : string) : option located :=
  match t with
  | CComp k _ ms =>
      (fix go (ms : list member) (os : list N) : option located :=
         match ms, os with
         | m :: ms, o :: os =>
             if bool_decide (member_name m = f) then
               Some (Located o (shape_bits (member_shape size_align m))
                       (is_slice m) (member_type m))
             else
               match m with
               | Mem EmptyString t' =>
                   match find_field t' f with
                   | Some l => Some (shift_loc o l)
                   | None => go ms os
                   end
               | _ => go ms os
               end
         | _, _ => None
         end) ms (fst (place_members k (shapes ms)))
  | _ => None
  end.

(** A designator [a.b.c]; nothing can be selected from a bit-field. *)
Fixpoint resolve (t : ctype) (path : list string) : option located :=
  match path with
  | [] => None
  | [f] => find_field t f
  | f :: path =>
      match find_field t f with
      | Some l =>
          if loc_slice l then None
          else option_map (shift_loc (loc_bit l)) (resolve (loc_type l) path)
      | None => None
      end
  end.

(** [offsetof(T, path)] in bytes, and the size of the designated object. *)
Definition offset_size (t : ctype) (path : list string) : option (N * N) :=
  match resolve t path with
  | Some l => Some (loc_bit l / 8, loc_bits l / 8)
  | None => None
  end.

(** ** Lemmas: alignment arithmetic *)

Lemma align_up_ge n a : 0 < a -> n <= align_up n a.
Proof.
  intros Ha. unfold align_up.
  pose proof (N.div_mod (n + (a - 1)) a ltac:(lia)).
  pose proof (N.mod_lt (n + (a - 1)) a ltac:(lia)). nia.
Qed.

Lemma align_up_divide n a : (a | align_up n a).
Proof. exists ((n + (a - 1)) / a). reflexivity. Qed.

Lemma pow2_divide a b : a <= b -> (2 ^ a | 2 ^ b).
Proof.
  intros H. exists (2 ^ (b - a)). rewrite <- N.pow_add_r. f_equal. lia.
Qed.

(** A power of two: what every alignment is. *)
Definition pow2 (n : N) : Prop := exists k, n = 2 ^ k.

Lemma pow2_pos n : pow2 n -> 0 < n.
Proof. intros [k ->]. apply N.neq_0_lt_0, N.pow_nonzero. lia. Qed.

Lemma pow2_max a b : pow2 a -> pow2 b -> pow2 (N.max a b).
Proof. intros Ha Hb. destruct (N.max_spec a b) as [[_ ->]|[_ ->]]; assumption. Qed.

Lemma pow2_le_divide a b : pow2 a -> pow2 b -> a <= b -> (a | b).
Proof.
  intros [i ->] [j ->] H. apply pow2_divide.
  destruct (N.le_gt_cases i j) as [|Hlt]; [assumption|].
  apply (N.pow_lt_mono_r 2) in Hlt; lia.
Qed.

Lemma pow2_isize s : pow2 (isize_bytes s).
Proof. destruct s; [exists 0|exists 1|exists 2|exists 3|exists 4]; reflexivity. Qed.

Create HintDb layout.
#[export] Hint Resolve pow2_isize pow2_max pow2_pos align_up_divide : layout.

(** ** Induction over nested members *)

Definition member_forall (P : ctype -> Prop) (m : member) : Prop := P (member_type m).

Lemma ctype_nested_ind (P : ctype -> Prop)
  (Hvoid : P CVoid)
  (Hint : forall sg sz, P (CInt sg sz))
  (Hptr : forall s, P (CPtr s))
  (Harr : forall e n, P e -> P (CArr e n))
  (Henum : forall tag rep cs, P (CEnum tag rep cs))
  (Hcomp : forall k tag ms, Forall (member_forall P) ms -> P (CComp k tag ms)) :
  forall t, P t.
Proof.
  fix IH 1. intros [| sg sz | s | e n | tag rep cs | k tag ms];
    [apply Hvoid | apply Hint | apply Hptr | apply Harr, IH | apply Henum | apply Hcomp].
  induction ms as [|[nm t|nm t w] ms IHms]; constructor;
    [apply IH | exact IHms | apply IH | exact IHms].
Qed.

Lemma size_align_comp k tag ms :
  size_align (CComp k tag ms) = (members_size k (shapes ms), members_align (shapes ms)).
Proof. reflexivity. Qed.

(** ** Every alignment is a power of two; sizes are multiples of alignments *)

Definition shape_ok (s : shape) : Prop :=
  pow2 (shape_align s) /\ match s with Whole sz al | Slice sz al _ _ => pow2 al end.

Lemma members_align_pow2 ss : Forall shape_ok ss -> pow2 (members_align ss).
Proof.
  induction 1 as [|s ss [Hs _] _ IH]; [exists 0; reflexivity|].
  unfold members_align in *. simpl. auto with layout.
Qed.

Lemma members_align_ge ss s : s ∈ ss -> shape_align s <= members_align ss.
Proof.
  unfold members_align. induction 1 as [|? s' ss _ IH]; simpl; lia.
Qed.

Lemma member_shape_ok m : pow2 (alignof (member_type m)) -> shape_ok (member_shape size_align m).
Proof.
  destruct m as [n t|n t w]; simpl; unfold alignof; destruct (size_align t) as [sz al];
    simpl; intros H; split; try assumption.
  simpl. destruct (negb _); [assumption | exists 0; reflexivity].
Qed.

Lemma alignof_pow2 t : pow2 (alignof t).
Proof.
  induction t as [| | | e n IH | | k tag ms IH] using ctype_nested_ind;
    unfold alignof in *; simpl; auto with layout.
  - exists 0; reflexivity.
  - exists 3; reflexivity.
  - destruct (size_align e); exact IH.
  - apply members_align_pow2. induction IH as [|m ms Hm _ IHms]; constructor; [|exact IHms].
    apply member_shape_ok, Hm.
Qed.

Lemma shapes_ok ms : Forall shape_ok (shapes ms).
Proof.
  induction ms as [|m ms IH]; constructor; [|exact IH].
  apply member_shape_ok, alignof_pow2.
Qed.
#[export] Hint Resolve alignof_pow2 shapes_ok members_align_pow2 : layout.

Lemma members_size_bits k ss :
  8 * members_size k ss = align_up (snd (place_members k ss)) (8 * members_align ss).
Proof.
  unfold members_size. destruct (align_up_divide (snd (place_members k ss)) (8 * members_align ss))
    as [q ->].
  replace (q * (8 * members_align ss)) with (q * members_align ss * 8) by lia.
  rewrite N.div_mul by lia. lia.
Qed.

Lemma sizeof_multiple t : (alignof t | sizeof t).
Proof.
  induction t as [| | | e n IH | | k tag ms IH] using ctype_nested_ind;
    unfold alignof, sizeof in *; simpl; try apply N.divide_refl.
  - destruct (size_align e). simpl in *. by apply N.divide_mul_l.
  - fold (shapes ms).
    pose proof (members_size_bits k (shapes ms)) as H.
    destruct (align_up_divide (snd (place_members k (shapes ms)))
                (8 * members_align (shapes ms))) as [q Hq].
    exists q. lia.
Qed.

(** ** Placement: order, disjointness, containment, alignment *)

Lemma place_ge pos s : shape_ok s -> pos <= place pos s.
Proof.
  intros [_ Hal]. destruct s as [sz al|sz al w nm]; simpl in *; apply pow2_pos in Hal.
  - apply align_up_ge. lia.
  - destruct (w =? 0); [apply align_up_ge; lia|].
    destruct (_ <=? _); [lia | apply align_up_ge; lia].
Qed.

Lemma length_place_struct ss : forall pos, length (fst (place_struct pos ss)) = length ss.
Proof.
  induction ss as [|s ss IH]; intros pos; [reflexivity|]. simpl.
  specialize (IH (place pos s + shape_bits s)).
  destruct (place_struct _ ss). simpl in *. congruence.
Qed.

Lemma length_place_members k ss : length (fst (place_members k ss)) = length ss.
Proof. destruct k; [apply length_place_struct | apply length_map]. Qed.

(** One step of [place_struct], as an equation. *)
Lemma place_struct_cons pos s ss :
  place_struct pos (s :: ss) =
  (place pos s :: fst (place_struct (place pos s + shape_bits s) ss),
   snd (place_struct (place pos s + shape_bits s) ss)).
Proof. simpl. by destruct (place_struct _ ss). Qed.

Lemma place_struct_end_ge ss : forall pos,
  Forall shape_ok ss -> pos <= snd (place_struct pos ss).
Proof.
  induction ss as [|s ss IH]; intros pos Hok; [simpl; lia|].
  inversion Hok as [|? ? Hs Hss]; subst. rewrite place_struct_cons. simpl.
  specialize (IH (place pos s + shape_bits s) Hss). pose proof (place_ge pos s Hs). lia.
Qed.

(** The [i]-th member starts where [place] puts it after some earlier end. *)
Lemma place_struct_lookup ss : forall pos i o s,
  Forall shape_ok ss ->
  fst (place_struct pos ss) !! i = Some o -> ss !! i = Some s ->
  exists p, pos <= p /\ o = place p s /\ o + shape_bits s <= snd (place_struct pos ss).
Proof.
  induction ss as [|s0 ss IH]; intros pos i o s Hok Ho Hs; [discriminate Hs|].
  inversion Hok as [|? ? Hs0 Hss]; subst. rewrite place_struct_cons in *. simpl in *.
  pose proof (place_ge pos s0 Hs0). destruct i as [|i]; simpl in *; simplify_eq.
  - exists pos. pose proof (place_struct_end_ge ss (place pos s + shape_bits s) Hss).
    split_and!; lia || reflexivity.
  - destruct (IH _ i o s Hss Ho Hs) as (p & Hp & -> & He). exists p. split_and!; lia || reflexivity.
Qed.

Lemma place_struct_disjoint ss : forall pos i j oi oj si sj,
  Forall shape_ok ss -> (i < j)%nat ->
  fst (place_struct pos ss) !! i = Some oi -> ss !! i = Some si ->
  fst (place_struct pos ss) !! j = Some oj -> ss !! j = Some sj ->
  oi + shape_bits si <= oj.
Proof.
  induction ss as [|s0 ss IH]; intros pos i j oi oj si sj Hok Hij Hoi Hsi Hoj Hsj;
    [discriminate Hsi|].
  inversion Hok as [|? ? Hs0 Hss]; subst. rewrite place_struct_cons in *. simpl in *.
  destruct j as [|j]; [lia|]. destruct i as [|i]; simpl in *; simplify_eq.
  - destruct (place_struct_lookup ss _ j oj sj Hss Hoj Hsj) as (p & Hp & -> & _).
    assert (shape_ok sj) by (eapply Forall_lookup_1; eassumption).
    pose proof (place_ge p sj ltac:(assumption)). lia.
  - eapply (IH _ i j); eauto; lia.
Qed.

Lemma union_end_ge ss s : s ∈ ss -> shape_bits s <= foldr N.max 0 (map shape_bits ss).
Proof. induction 1; simpl; lia. Qed.

(** Every member of a composite lies inside it, and starts on a multiple of its
    alignment unless it is a bit-field. *)
Lemma member_contained k tag ms i o m :
  fst (place_members k (shapes ms)) !! i = Some o -> ms !! i = Some m ->
  o + shape_bits (member_shape size_align m) <= 8 * sizeof (CComp k tag ms) /\
  (is_slice m = false -> (8 * alignof (member_type m) | o)).
Proof.
  intros Ho Hm. unfold sizeof. rewrite size_align_comp. simpl.
  rewrite members_size_bits.
  assert (Hs : shapes ms !! i = Some (member_shape size_align m))
    by (unfold shapes; rewrite list_lookup_fmap, Hm; reflexivity).
  pose proof (shapes_ok ms) as Hok.
  assert (0 < 8 * members_align (shapes ms))
    by (pose proof (pow2_pos _ (members_align_pow2 _ Hok)); lia).
  pose proof (align_up_ge (snd (place_members k (shapes ms)))
                (8 * members_align (shapes ms)) ltac:(assumption)).
  destruct k; simpl in *.
  - destruct (place_struct_lookup _ _ _ _ _ Hok Ho Hs) as (p & _ & -> & He).
    split; [lia|]. destruct m as [n t|n t w]; simpl; [intros _|discriminate].
    unfold alignof. destruct (size_align t). apply align_up_divide.
  - rewrite list_lookup_fmap, Hs in Ho. simpl in Ho. simplify_eq.
    pose proof (union_end_ge _ _ (list_elem_of_lookup_2 _ _ _ Hs)).
    split; [lia | intros _; apply N.divide_0_r].
Qed.

Lemma member_align_divides k tag ms i m :
  ms !! i = Some m -> is_slice m = false ->
  (alignof (member_type m) | alignof (CComp k tag ms)).
Proof.
  intros Hm Hsl. apply pow2_le_divide; auto with layout.
  unfold alignof at 2. rewrite size_align_comp. simpl.
  assert (Hs : shapes ms !! i = Some (member_shape size_align m))
    by (unfold shapes; rewrite list_lookup_fmap, Hm; reflexivity).
  pose proof (members_align_ge _ _ (list_elem_of_lookup_2 _ _ _ Hs)) as H.
  destruct m as [n t|n t w]; [|discriminate]. simpl in *. unfold alignof.
  destruct (size_align t). exact H.
Qed.

(** ** Soundness of designators *)

(** [l] designates an object inside [t]: its extent lies within [t] and, unless
    it is a bit-field, it is a whole object of its type at an aligned place. *)
Definition loc_ok (t : ctype) (l : located) : Prop :=
  loc_bit l + loc_bits l <= 8 * sizeof t /\
  (loc_slice l = false ->
     loc_bits l = 8 * sizeof (loc_type l) /\
     (8 * alignof (loc_type l) | loc_bit l) /\
     (alignof (loc_type l) | alignof t)).

Definition member_placed (T : ctype) (m : member) (o : N) : Prop :=
  loc_ok T (Located o (shape_bits (member_shape size_align m)) (is_slice m) (member_type m)).

Lemma members_placed k tag ms :
  Forall2 (member_placed (CComp k tag ms)) ms (fst (place_members k (shapes ms))).
Proof.
  apply Forall2_same_length_lookup. split.
  { rewrite length_place_members. unfold shapes. by rewrite length_map. }
  intros i m o Hm Ho. destruct (member_contained k tag ms i o m Ho Hm) as [Hin Hal].
  split; simpl; [exact Hin|]. intros Hsl. split_and!; [|by apply Hal|].
  - destruct m; [|discriminate]. simpl. unfold sizeof. by destruct (size_align t).
  - by eapply member_align_divides.
Qed.

Lemma shift_loc_ok T o t' l :
  loc_ok T (Located o (8 * sizeof t') false t') -> loc_ok t' l -> loc_ok T (shift_loc o l).
Proof.
  intros [Hin Hw] [Hin' Hw']. simpl in *.
  destruct (Hw eq_refl) as (_ & Ho & Hd). split; simpl; [lia|]. intros Hsl.
  destruct (Hw' Hsl) as (Hb & Hal & Hd'). split_and!; [exact Hb| |by etrans].
  apply N.divide_add_r; [|exact Hal].
  etrans; [|exact Ho]. by apply N.mul_divide_mono_l.
Qed.

Lemma find_field_ok t : forall f l, find_field t f = Some l -> loc_ok t l.
Proof.
  induction t as [| | | | | k tag ms IH] using ctype_nested_ind; intros f l; try discriminate.
  pose proof (members_placed k tag ms) as Hpl. simpl. revert Hpl IH.
  generalize (fst (place_members k (shapes ms))). generalize (CComp k tag ms) as T.
  clear. intros T. induction ms as [|m ms IHms]; intros os Hpl IH; [by destruct os|].
  destruct os as [|o os]; [discriminate|].
  apply Forall2_cons_1 in Hpl as [Hm Hpl]. apply Forall_cons_1 in IH as [IHm IH].
  case_bool_decide; [intros [= <-]; exact Hm|].
  destruct m as [[|c n] t|n t w]; [|by apply IHms..].
  destruct (find_field t f) as [l'|] eqn:E; [intros [= <-]|by apply IHms].
  apply shift_loc_ok with t; [|by apply (IHm f)].
  unfold member_placed in Hm. simpl in Hm. unfold sizeof. by destruct (size_align t).
Qed.

Lemma resolve_ok path : forall t l, resolve t path = Some l -> loc_ok t l.
Proof.
  induction path as [|f [|g path] IH]; intros t l; [discriminate|apply find_field_ok|].
  change (resolve t (f :: g :: path)) with
    (match find_field t f with
     | Some l =>
         if loc_slice l then None
         else option_map (shift_loc (loc_bit l)) (resolve (loc_type l) (g :: path))
     | None => None
     end).
  destruct (find_field t f) as [[o b sl t']|] eqn:E; cbn [loc_slice loc_type loc_bit]; [|discriminate].
  destruct sl; [discriminate|].
  destruct (resolve t' (g :: path)) as [l'|] eqn:E'; cbn [option_map]; [|discriminate].
  intros [= <-]. apply shift_loc_ok with t'; [|by apply IH].
  apply find_field_ok in E as Hl. destruct Hl as [Hin Hw].
  destruct (Hw eq_refl) as [Hb Hrest]. simpl in *. subst b. split; assumption.
Qed.

(** A whole member is designated at a byte offset, inside the object. *)
Lemma offset_size_ok t path o n :
  offset_size t path = Some (o, n) -> o + n <= sizeof t.
Proof.
  unfold offset_size. destruct (resolve t path) as [l|] eqn:E; [|discriminate].
  intros H. injection H as <- <-. destruct (resolve_ok _ _ _ E) as [Hin _].
  pose proof (N.Div0.mul_div_le (loc_bit l) 8).
  pose proof (N.Div0.mul_div_le (loc_bits l) 8). lia.
Qed.
