(* ===== verification/Bytes.v ===== *)
(** * Bytes, little-endian integers, byte ranges

    A byte is an [ascii], so that byte buffers and Go strings (which are byte
    sequences) share their elements.  Integers are stored little-endian, as the
    eBPF target and Go's [binary.LittleEndian] do. *)

From S2P Require Import Prelude.

Open Scope Z_scope.

Definition byte := ascii.
Definition NUL : byte := Ascii.zero.
Definition byte_val (b : byte) : Z := Z.of_N (N_of_ascii b).
Definition byte_of (v : Z) : byte := ascii_of_N (Z.to_N (v mod 256)).

(** The [n] low-order bytes of [v], least significant first. *)
Fixpoint le_encode (n : nat) (v : Z) : list byte :=
  match n with
  | O => []
  | S n => byte_of v :: le_encode n (v / 256)
  end.

Fixpoint le_decode (bs : list byte) : Z :=
  match bs with
  | [] => 0
  | b :: bs => byte_val b + 256 * le_decode bs
  end.

(** The bytes of [buf] from [off], [len] of them. *)
Definition slice (off len : nat) (buf : list byte) : list byte := take len (drop off buf).

(** [buf] with the bytes from [off] overwritten by [data]. *)
Definition splice (off : nat) (data buf : list byte) : list byte :=
  take off buf ++ data ++ drop (off + length data) buf.

(** The bytes before the first NUL: the C string a buffer holds. *)
Fixpoint until_nul (bs : list byte) : list byte :=
  match bs with
  | [] => []
  | b :: bs => if decide (b = NUL) then [] else b :: until_nul bs
  end.

(** ** Byte values *)

Lemma byte_val_range b : 0 <= byte_val b < 256.
Proof.
  unfold byte_val. pose proof (N_ascii_bounded b). lia.
Qed.

Lemma byte_val_of v : byte_val (byte_of v) = v mod 256.
Proof.
  unfold byte_val, byte_of. pose proof (Z.mod_pos_bound v 256 ltac:(lia)).
  rewrite N_ascii_embedding by lia. lia.
Qed.

Lemma byte_of_val b : byte_of (byte_val b) = b.
Proof.
  unfold byte_of. rewrite Z.mod_small by apply byte_val_range.
  unfold byte_val. rewrite N2Z.id. apply ascii_N_embedding.
Qed.

(** ** Round trips *)

Lemma length_le_encode n : forall v, length (le_encode n v) = n.
Proof. induction n as [|n IH]; intros v; simpl; [reflexivity|]. by rewrite IH. Qed.

Lemma le_decode_encode n : forall v, le_decode (le_encode n v) = v mod 256 ^ Z.of_nat n.
Proof.
  induction n as [|n IH]; intros v; simpl le_encode; simpl le_decode.
  - by rewrite Z.mod_1_r.
  - rewrite byte_val_of, IH, Nat2Z.inj_succ, Z.pow_succ_r by lia.
    rewrite Z.rem_mul_r; lia.
Qed.

Lemma le_decode_encode_small n v :
  0 <= v < 256 ^ Z.of_nat n -> le_decode (le_encode n v) = v.
Proof. intros H. rewrite le_decode_encode. by apply Z.mod_small. Qed.

Lemma le_encode_decode bs : le_encode (length bs) (le_decode bs) = bs.
Proof.
  induction bs as [|b bs IH]; [reflexivity|]. simpl.
  pose proof (byte_val_range b) as Hb.
  f_equal.
  - rewrite <- (byte_of_val b) at 2. unfold byte_of.
    rewrite (Z.mul_comm 256), Z_mod_plus_full, (Z.mod_small (byte_val b)) by lia. reflexivity.
  - rewrite (Z.mul_comm 256), Z.div_add, Z.div_small, Z.add_0_l by lia. exact IH.
Qed.

Lemma le_decode_range bs : 0 <= le_decode bs < 256 ^ Z.of_nat (length bs).
Proof.
  induction bs as [|b bs IH]; [simpl; lia|].
  rewrite length_cons, Nat2Z.inj_succ, Z.pow_succ_r by lia. simpl.
  pose proof (byte_val_range b). lia.
Qed.

(** ** Byte ranges *)

Lemma length_splice off data buf :
  (off + length data <= length buf)%nat -> length (splice off data buf) = length buf.
Proof. intros H. unfold splice. rewrite !length_app, length_take, length_drop. lia. Qed.

Lemma length_slice off len buf :
  (off + len <= length buf)%nat -> length (slice off len buf) = len.
Proof. intros H. unfold slice. rewrite length_take, length_drop. lia. Qed.

Lemma slice_splice_same off data buf :
  (off + length data <= length buf)%nat -> slice off (length data) (splice off data buf) = data.
Proof.
  intros H. unfold slice, splice.
  rewrite drop_app_ge by (rewrite length_take; lia). rewrite length_take.
  replace (off - off `min` length buf)%nat with 0%nat by lia. simpl.
  apply take_app_length.
Qed.

Lemma slice_splice_before off len off' data buf :
  (off + len <= off' <= length buf)%nat ->
  slice off len (splice off' data buf) = slice off len buf.
Proof.
  intros H. unfold slice, splice.
  rewrite drop_app_le by (rewrite length_take; lia).
  rewrite take_app_le by (rewrite length_drop, length_take; lia).
  rewrite <- (take_drop off' buf) at 2.
  rewrite drop_app_le by (rewrite length_take; lia).
  rewrite take_app_le by (rewrite length_drop, length_take; lia). reflexivity.
Qed.

Lemma slice_splice_after off len off' data buf :
  (off' + length data <= off <= length buf)%nat ->
  slice off len (splice off' data buf) = slice off len buf.
Proof.
  intros H. unfold slice, splice. f_equal.
  rewrite drop_app_ge by (rewrite length_take; lia). rewrite length_take.
  rewrite drop_app_ge by lia. rewrite drop_drop. f_equal. lia.
Qed.
