(* ===== verification/KBase.v ===== *)
(** * Kernel types used by both sides

    The C types of [bpf/headers/vmlinux.h] that are embedded, by value, both in
    the socket objects of [KNet] and in the task objects of [KTask]: scalar
    typedefs, lists, locks, counters, timers.  One definition per declaration,
    members in the order of the declaration. *)

From S2P Require Import Prelude.
From S2P Require Import CLayout.

Open Scope N_scope.
Open Scope clayout_scope.

Definition typedef___u64 : ctype :=
  c_ullong.

Definition typedef___u32 : ctype :=
  c_uint.

Definition typedef___u16 : ctype :=
  c_ushort.

Definition struct_hlist_node : ctype :=
  Struct "hlist_node" [
    "next" ⦂ (ptr "struct hlist_node");
    "pprev" ⦂ (ptr "struct hlist_node *")].

Definition typedef___u8 : ctype :=
  c_uchar.

Definition typedef___s64 : ctype :=
  c_llong.

Definition typedef_s64 : ctype :=
  typedef___s64.

Definition typedef_atomic64_t : ctype :=
  Struct "" [
    "counter" ⦂ typedef_s64].

Definition typedef_u32 : ctype :=
  typedef___u32.

Definition typedef_atomic_t : ctype :=
  Struct "" [
    "counter" ⦂ c_int].

Definition struct_refcount_struct : ctype :=
  Struct "refcount_struct" [
    "refs" ⦂ typedef_atomic_t].

Definition typedef_refcount_t : ctype :=
  struct_refcount_struct.

Definition typedef___s32 : ctype :=
  c_int.

Definition typedef_u8 : ctype :=
  typedef___u8.

Definition typedef_u16 : ctype :=
  typedef___u16.

Definition struct_qspinlock : ctype :=
  Struct "qspinlock" [
    "" ⦂ (Union "" [
      "val" ⦂ typedef_atomic_t;
      "" ⦂ (Struct "" [
        "locked" ⦂ typedef_u8;
        "pending" ⦂ typedef_u8]);
      "" ⦂ (Struct "" [
        "locked_pending" ⦂ typedef_u16;
        "tail" ⦂ typedef_u16])])].

Definition typedef_arch_spinlock_t : ctype :=
  struct_qspinlock.

Definition struct_raw_spinlock : ctype :=
  Struct "raw_spinlock" [
    "raw_lock" ⦂ typedef_arch_spinlock_t].

Definition struct_spinlock : ctype :=
  Struct "spinlock" [
    "" ⦂ (Union "" [
      "rlock" ⦂ struct_raw_spinlock])].

Definition typedef_spinlock_t : ctype :=
  struct_spinlock.

Definition struct_list_head : ctype :=
  Struct "list_head" [
    "next" ⦂ (ptr "struct list_head");
    "prev" ⦂ (ptr "struct list_head")].

Definition struct_wait_queue_head : ctype :=
  Struct "wait_queue_head" [
    "lock" ⦂ typedef_spinlock_t;
    "head" ⦂ struct_list_head].

Definition typedef_wait_queue_head_t : ctype :=
  struct_wait_queue_head.

Definition struct_rb_root : ctype :=
  Struct "rb_root" [
    "rb_node" ⦂ (ptr "struct rb_node")].

Definition struct_page_frag : ctype :=
  Struct "page_frag" [
    "page" ⦂ (ptr "struct page");
    "offset" ⦂ typedef___u32;
    "size" ⦂ typedef___u32].

Definition struct_timer_list : ctype :=
  Struct "timer_list" [
    "entry" ⦂ struct_hlist_node;
    "expires" ⦂ c_ulong;
    "function" ⦂ (ptr "function");
    "flags" ⦂ typedef_u32].

Definition typedef___kernel_uid32_t : ctype :=
  c_uint.

Definition typedef_uid_t : ctype :=
  typedef___kernel_uid32_t.

Definition typedef_kuid_t : ctype :=
  Struct "" [
    "val" ⦂ typedef_uid_t].

Definition typedef_u64 : ctype :=
  typedef___u64.

Definition typedef_bool : ctype :=
  c_bool.

Definition typedef_ktime_t : ctype :=
  typedef_s64.

Definition struct_callback_head : ctype :=
  Struct "callback_head" [
    "next" ⦂ (ptr "struct callback_head");
    "func" ⦂ (ptr "function")].

Definition struct_rb_node : ctype :=
  Struct "rb_node" [
    "__rb_parent_color" ⦂ c_ulong;
    "rb_right" ⦂ (ptr "struct rb_node");
    "rb_left" ⦂ (ptr "struct rb_node")].

Definition struct_timerqueue_node : ctype :=
  Struct "timerqueue_node" [
    "node" ⦂ struct_rb_node;
    "expires" ⦂ typedef_ktime_t].

Definition struct_hrtimer : ctype :=
  Struct "hrtimer" [
    "node" ⦂ struct_timerqueue_node;
    "_softexpires" ⦂ typedef_ktime_t;
    "function" ⦂ (ptr "function");
    "base" ⦂ (ptr "struct hrtimer_clock_base");
    "state" ⦂ typedef_u8;
    "is_rel" ⦂ typedef_u8;
    "is_soft" ⦂ typedef_u8;
    "is_hard" ⦂ typedef_u8].

Definition typedef_atomic_long_t : ctype :=
  typedef_atomic64_t.

Definition struct_hlist_head : ctype :=
  Struct "hlist_head" [
    "first" ⦂ (ptr "struct hlist_node")].

Definition typedef_raw_spinlock_t : ctype :=
  struct_raw_spinlock.

Definition struct_prev_cputime : ctype :=
  Struct "prev_cputime" [
    "utime" ⦂ typedef_u64;
    "stime" ⦂ typedef_u64;
    "lock" ⦂ typedef_raw_spinlock_t].

Definition struct_seqcount : ctype :=
  Struct "seqcount" [
    "sequence" ⦂ c_uint].

Definition typedef_seqcount_t : ctype :=
  struct_seqcount.

Definition struct_optimistic_spin_queue : ctype :=
  Struct "optimistic_spin_queue" [
    "tail" ⦂ typedef_atomic_t].

Definition struct_mutex : ctype :=
  Struct "mutex" [
    "owner" ⦂ typedef_atomic_long_t;
    "wait_lock" ⦂ typedef_raw_spinlock_t;
    "osq" ⦂ struct_optimistic_spin_queue;
    "wait_list" ⦂ struct_list_head].

Definition struct_seqcount_spinlock : ctype :=
  Struct "seqcount_spinlock" [
    "seqcount" ⦂ typedef_seqcount_t].

Definition typedef_seqcount_spinlock_t : ctype :=
  struct_seqcount_spinlock.

(** The tagged structures and unions of this file, by their C name. *)
Definition KBase_types : list (string * ctype) := [
  ("struct hlist_node", struct_hlist_node);
  ("struct refcount_struct", struct_refcount_struct);
  ("struct qspinlock", struct_qspinlock);
  ("struct raw_spinlock", struct_raw_spinlock);
  ("struct spinlock", struct_spinlock);
  ("struct list_head", struct_list_head);
  ("struct wait_queue_head", struct_wait_queue_head);
  ("struct rb_root", struct_rb_root);
  ("struct page_frag", struct_page_frag);
  ("struct timer_list", struct_timer_list);
  ("struct callback_head", struct_callback_head);
  ("struct rb_node", struct_rb_node);
  ("struct timerqueue_node", struct_timerqueue_node);
  ("struct hrtimer", struct_hrtimer);
  ("struct hlist_head", struct_hlist_head);
  ("struct prev_cputime", struct_prev_cputime);
  ("struct seqcount", struct_seqcount);
  ("struct optimistic_spin_queue", struct_optimistic_spin_queue);
  ("struct mutex", struct_mutex);
  ("struct seqcount_spinlock", struct_seqcount_spinlock)].
