(* ===== verification/KNet.v ===== *)
(** * Socket types

    [struct sock] and [struct tcp_sock] of [bpf/headers/vmlinux.h], which the
    [tcp_connect] and [inet_csk_accept] probes read, with every type they
    embed by value. *)

From S2P Require Import Prelude.
From S2P Require Import CLayout.
From S2P Require Import KBase.

Open Scope N_scope.
Open Scope clayout_scope.

Definition typedef___addrpair : ctype :=
  typedef___u64.

Definition typedef___be32 : ctype :=
  typedef___u32.

Definition typedef___portpair : ctype :=
  typedef___u32.

Definition typedef___be16 : ctype :=
  typedef___u16.

Definition typedef_possible_net_t : ctype :=
  Struct "" [
    "net" ⦂ (ptr "struct net")].

Definition struct_in6_addr : ctype :=
  Struct "in6_addr" [
    "in6_u" ⦂ (Union "" [
      "u6_addr8" ⦂ (CArr typedef___u8 16);
      "u6_addr16" ⦂ (CArr typedef___be16 8);
      "u6_addr32" ⦂ (CArr typedef___be32 4)])].

Definition struct_hlist_nulls_node : ctype :=
  Struct "hlist_nulls_node" [
    "next" ⦂ (ptr "struct hlist_nulls_node");
    "pprev" ⦂ (ptr "struct hlist_nulls_node *")].

Definition struct_sock_common : ctype :=
  Struct "sock_common" [
    "" ⦂ (Union "" [
      "skc_addrpair" ⦂ typedef___addrpair;
      "" ⦂ (Struct "" [
        "skc_daddr" ⦂ typedef___be32;
        "skc_rcv_saddr" ⦂ typedef___be32])]);
    "" ⦂ (Union "" [
      "skc_hash" ⦂ c_uint;
      "skc_u16hashes" ⦂ (CArr typedef___u16 2)]);
    "" ⦂ (Union "" [
      "skc_portpair" ⦂ typedef___portpair;
      "" ⦂ (Struct "" [
        "skc_dport" ⦂ typedef___be16;
        "skc_num" ⦂ typedef___u16])]);
    "skc_family" ⦂ c_ushort;
    "skc_state" ⦂ c_uchar;
    "skc_reuse" ⦂⟨ 4 ⟩ c_uchar;
    "skc_reuseport" ⦂⟨ 1 ⟩ c_uchar;
    "skc_ipv6only" ⦂⟨ 1 ⟩ c_uchar;
    "skc_net_refcnt" ⦂⟨ 1 ⟩ c_uchar;
    "skc_bound_dev_if" ⦂ c_int;
    "" ⦂ (Union "" [
      "skc_bind_node" ⦂ struct_hlist_node;
      "skc_portaddr_node" ⦂ struct_hlist_node]);
    "skc_prot" ⦂ (ptr "struct proto");
    "skc_net" ⦂ typedef_possible_net_t;
    "skc_v6_daddr" ⦂ struct_in6_addr;
    "skc_v6_rcv_saddr" ⦂ struct_in6_addr;
    "skc_cookie" ⦂ typedef_atomic64_t;
    "" ⦂ (Union "" [
      "skc_flags" ⦂ c_ulong;
      "skc_listener" ⦂ (ptr "struct sock");
      "skc_tw_dr" ⦂ (ptr "struct inet_timewait_death_row")]);
    "skc_dontcopy_begin" ⦂ (CArr c_int 0);
    "" ⦂ (Union "" [
      "skc_node" ⦂ struct_hlist_node;
      "skc_nulls_node" ⦂ struct_hlist_nulls_node]);
    "skc_tx_queue_mapping" ⦂ c_ushort;
    "skc_rx_queue_mapping" ⦂ c_ushort;
    "" ⦂ (Union "" [
      "skc_incoming_cpu" ⦂ c_int;
      "skc_rcv_wnd" ⦂ typedef_u32;
      "skc_tw_rcv_nxt" ⦂ typedef_u32]);
    "skc_refcnt" ⦂ typedef_refcount_t;
    "skc_dontcopy_end" ⦂ (CArr c_int 0);
    "" ⦂ (Union "" [
      "skc_rxhash" ⦂ typedef_u32;
      "skc_window_clamp" ⦂ typedef_u32;
      "skc_tw_snd_nxt" ⦂ typedef_u32])].

Definition struct_sk_buff_list : ctype :=
  Struct "sk_buff_list" [
    "next" ⦂ (ptr "struct sk_buff");
    "prev" ⦂ (ptr "struct sk_buff")].

Definition struct_sk_buff_head : ctype :=
  Struct "sk_buff_head" [
    "" ⦂ (Union "" [
      "" ⦂ (Struct "" [
        "next" ⦂ (ptr "struct sk_buff");
        "prev" ⦂ (ptr "struct sk_buff")]);
      "list" ⦂ struct_sk_buff_list]);
    "qlen" ⦂ typedef___u32;
    "lock" ⦂ typedef_spinlock_t].

Definition typedef_socket_lock_t : ctype :=
  Struct "" [
    "slock" ⦂ typedef_spinlock_t;
    "owned" ⦂ c_int;
    "wq" ⦂ typedef_wait_queue_head_t].

Definition typedef_netdev_features_t : ctype :=
  typedef_u64.

Definition typedef_gfp_t : ctype :=
  c_uint.

Definition struct_qrwlock : ctype :=
  Struct "qrwlock" [
    "" ⦂ (Union "" [
      "cnts" ⦂ typedef_atomic_t;
      "" ⦂ (Struct "" [
        "wlocked" ⦂ typedef_u8;
        "__lstate" ⦂ (CArr typedef_u8 3)])]);
    "wait_lock" ⦂ typedef_arch_spinlock_t].

Definition typedef_arch_rwlock_t : ctype :=
  struct_qrwlock.

Definition typedef_rwlock_t : ctype :=
  Struct "" [
    "raw_lock" ⦂ typedef_arch_rwlock_t].

Definition struct_sock_cgroup_data : ctype :=
  Struct "sock_cgroup_data" [
    "cgroup" ⦂ (ptr "struct cgroup");
    "classid" ⦂ typedef_u32;
    "prioidx" ⦂ typedef_u16].

Definition typedef_netns_tracker : ctype :=
  Struct "" [].

Definition struct_xarray : ctype :=
  Struct "xarray" [
    "xa_lock" ⦂ typedef_spinlock_t;
    "xa_flags" ⦂ typedef_gfp_t;
    "xa_head" ⦂ (ptr "void")].

Definition struct_sock : ctype :=
  Struct "sock" [
    "__sk_common" ⦂ struct_sock_common;
    "__cacheline_group_begin__sock_write_rx" ⦂ (CArr typedef___u8 0);
    "sk_drops" ⦂ typedef_atomic_t;
    "sk_peek_off" ⦂ typedef___s32;
    "sk_error_queue" ⦂ struct_sk_buff_head;
    "sk_receive_queue" ⦂ struct_sk_buff_head;
    "sk_backlog" ⦂ (Struct "" [
      "rmem_alloc" ⦂ typedef_atomic_t;
      "len" ⦂ c_int;
      "head" ⦂ (ptr "struct sk_buff");
      "tail" ⦂ (ptr "struct sk_buff")]);
    "__cacheline_group_end__sock_write_rx" ⦂ (CArr typedef___u8 0);
    "__cacheline_group_begin__sock_read_rx" ⦂ (CArr typedef___u8 0);
    "sk_rx_dst" ⦂ (ptr "struct dst_entry");
    "sk_rx_dst_ifindex" ⦂ c_int;
    "sk_rx_dst_cookie" ⦂ typedef_u32;
    "sk_ll_usec" ⦂ c_uint;
    "sk_napi_id" ⦂ c_uint;
    "sk_busy_poll_budget" ⦂ typedef_u16;
    "sk_prefer_busy_poll" ⦂ typedef_u8;
    "sk_userlocks" ⦂ typedef_u8;
    "sk_rcvbuf" ⦂ c_int;
    "sk_filter" ⦂ (ptr "struct sk_filter");
    "" ⦂ (Union "" [
      "sk_wq" ⦂ (ptr "struct socket_wq");
      "sk_wq_raw" ⦂ (ptr "struct socket_wq")]);
    "sk_data_ready" ⦂ (ptr "function");
    "sk_rcvtimeo" ⦂ c_long;
    "sk_rcvlowat" ⦂ c_int;
    "__cacheline_group_end__sock_read_rx" ⦂ (CArr typedef___u8 0);
    "__cacheline_group_begin__sock_read_rxtx" ⦂ (CArr typedef___u8 0);
    "sk_err" ⦂ c_int;
    "sk_socket" ⦂ (ptr "struct socket");
    "sk_memcg" ⦂ (ptr "struct mem_cgroup");
    "sk_policy" ⦂ (CArr (ptr "struct xfrm_policy") 2);
    "psp_assoc" ⦂ (ptr "struct psp_assoc");
    "__cacheline_group_end__sock_read_rxtx" ⦂ (CArr typedef___u8 0);
    "__cacheline_group_begin__sock_write_rxtx" ⦂ (CArr typedef___u8 0);
    "sk_lock" ⦂ typedef_socket_lock_t;
    "sk_reserved_mem" ⦂ typedef_u32;
    "sk_forward_alloc" ⦂ c_int;
    "sk_tsflags" ⦂ typedef_u32;
    "__cacheline_group_end__sock_write_rxtx" ⦂ (CArr typedef___u8 0);
    "__cacheline_group_begin__sock_write_tx" ⦂ (CArr typedef___u8 0);
    "sk_write_pending" ⦂ c_int;
    "sk_omem_alloc" ⦂ typedef_atomic_t;
    "sk_err_soft" ⦂ c_int;
    "sk_wmem_queued" ⦂ c_int;
    "sk_wmem_alloc" ⦂ typedef_refcount_t;
    "sk_tsq_flags" ⦂ c_ulong;
    "" ⦂ (Union "" [
      "sk_send_head" ⦂ (ptr "struct sk_buff");
      "tcp_rtx_queue" ⦂ struct_rb_root]);
    "sk_write_queue" ⦂ struct_sk_buff_head;
    "sk_dst_pending_confirm" ⦂ typedef_u32;
    "sk_pacing_status" ⦂ typedef_u32;
    "sk_frag" ⦂ struct_page_frag;
    "sk_timer" ⦂ struct_timer_list;
    "sk_pacing_rate" ⦂ c_ulong;
    "sk_zckey" ⦂ typedef_atomic_t;
    "sk_tskey" ⦂ typedef_atomic_t;
    "__cacheline_group_end__sock_write_tx" ⦂ (CArr typedef___u8 0);
    "__cacheline_group_begin__sock_read_tx" ⦂ (CArr typedef___u8 0);
    "sk_max_pacing_rate" ⦂ c_ulong;
    "sk_sndtimeo" ⦂ c_long;
    "sk_priority" ⦂ typedef_u32;
    "sk_mark" ⦂ typedef_u32;
    "sk_uid" ⦂ typedef_kuid_t;
    "sk_protocol" ⦂ typedef_u16;
    "sk_type" ⦂ typedef_u16;
    "sk_dst_cache" ⦂ (ptr "struct dst_entry");
    "sk_route_caps" ⦂ typedef_netdev_features_t;
    "sk_validate_xmit_skb" ⦂ (ptr "function");
    "sk_gso_type" ⦂ typedef_u16;
    "sk_gso_max_segs" ⦂ typedef_u16;
    "sk_gso_max_size" ⦂ c_uint;
    "sk_allocation" ⦂ typedef_gfp_t;
    "sk_txhash" ⦂ typedef_u32;
    "sk_sndbuf" ⦂ c_int;
    "sk_pacing_shift" ⦂ typedef_u8;
    "sk_use_task_frag" ⦂ typedef_bool;
    "__cacheline_group_end__sock_read_tx" ⦂ (CArr typedef___u8 0);
    "sk_gso_disabled" ⦂⟨ 1 ⟩ typedef_u8;
    "sk_kern_sock" ⦂⟨ 1 ⟩ typedef_u8;
    "sk_no_check_tx" ⦂⟨ 1 ⟩ typedef_u8;
    "sk_no_check_rx" ⦂⟨ 1 ⟩ typedef_u8;
    "sk_shutdown" ⦂ typedef_u8;
    "sk_lingertime" ⦂ c_ulong;
    "sk_prot_creator" ⦂ (ptr "struct proto");
    "sk_callback_lock" ⦂ typedef_rwlock_t;
    "sk_ack_backlog" ⦂ typedef_u32;
    "sk_max_ack_backlog" ⦂ typedef_u32;
    "sk_ino" ⦂ c_ulong;
    "sk_peer_lock" ⦂ typedef_spinlock_t;
    "sk_bind_phc" ⦂ c_int;
    "sk_peer_pid" ⦂ (ptr "struct pid");
    "sk_peer_cred" ⦂ (ptr "struct cred");
    "sk_stamp" ⦂ typedef_ktime_t;
    "sk_disconnects" ⦂ c_int;
    "" ⦂ (Union "" [
      "sk_txrehash" ⦂ typedef_u8;
      "sk_scm_recv_flags" ⦂ typedef_u8;
      "" ⦂ (Struct "" [
        "sk_scm_credentials" ⦂⟨ 1 ⟩ typedef_u8;
        "sk_scm_security" ⦂⟨ 1 ⟩ typedef_u8;
        "sk_scm_pidfd" ⦂⟨ 1 ⟩ typedef_u8;
        "sk_scm_rights" ⦂⟨ 1 ⟩ typedef_u8;
        "sk_scm_unused" ⦂⟨ 4 ⟩ typedef_u8])]);
    "sk_clockid" ⦂ typedef_u8;
    "sk_txtime_deadline_mode" ⦂⟨ 1 ⟩ typedef_u8;
    "sk_txtime_report_errors" ⦂⟨ 1 ⟩ typedef_u8;
    "sk_txtime_unused" ⦂⟨ 6 ⟩ typedef_u8;
    "sk_bpf_cb_flags" ⦂ typedef_u8;
    "sk_user_data" ⦂ (ptr "void");
    "sk_security" ⦂ (ptr "void");
    "sk_cgrp_data" ⦂ struct_sock_cgroup_data;
    "sk_state_change" ⦂ (ptr "function");
    "sk_write_space" ⦂ (ptr "function");
    "sk_error_report" ⦂ (ptr "function");
    "sk_backlog_rcv" ⦂ (ptr "function");
    "sk_destruct" ⦂ (ptr "function");
    "sk_reuseport_cb" ⦂ (ptr "struct sock_reuseport");
    "sk_bpf_storage" ⦂ (ptr "struct bpf_local_storage");
    "sk_drop_counters" ⦂ (ptr "struct numa_drop_counters");
    "sk_rcu" ⦂ struct_callback_head;
    "ns_tracker" ⦂ typedef_netns_tracker;
    "sk_user_frags" ⦂ struct_xarray].

Definition typedef___s16 : ctype :=
  c_short.

Definition struct_inet_cork : ctype :=
  Struct "inet_cork" [
    "flags" ⦂ c_uint;
    "addr" ⦂ typedef___be32;
    "opt" ⦂ (ptr "struct ip_options");
    "fragsize" ⦂ c_uint;
    "length" ⦂ c_int;
    "dst" ⦂ (ptr "struct dst_entry");
    "tx_flags" ⦂ typedef_u8;
    "ttl" ⦂ typedef___u8;
    "tos" ⦂ typedef___s16;
    "priority" ⦂ typedef_u32;
    "gso_size" ⦂ typedef___u16;
    "ts_opt_id" ⦂ typedef_u32;
    "transmit_time" ⦂ typedef_u64;
    "mark" ⦂ typedef_u32].

Definition typedef_dscp_t : ctype :=
  typedef_u8.

Definition typedef___be64 : ctype :=
  typedef___u64.

Definition struct_flowi_tunnel : ctype :=
  Struct "flowi_tunnel" [
    "tun_id" ⦂ typedef___be64].

Definition struct_flowi_common : ctype :=
  Struct "flowi_common" [
    "flowic_oif" ⦂ c_int;
    "flowic_iif" ⦂ c_int;
    "flowic_l3mdev" ⦂ c_int;
    "flowic_mark" ⦂ typedef___u32;
    "flowic_dscp" ⦂ typedef_dscp_t;
    "flowic_scope" ⦂ typedef___u8;
    "flowic_proto" ⦂ typedef___u8;
    "flowic_flags" ⦂ typedef___u8;
    "flowic_secid" ⦂ typedef___u32;
    "flowic_uid" ⦂ typedef_kuid_t;
    "flowic_multipath_hash" ⦂ typedef___u32;
    "flowic_tun_key" ⦂ struct_flowi_tunnel].

Definition union_flowi_uli : ctype :=
  Union "flowi_uli" [
    "ports" ⦂ (Struct "" [
      "dport" ⦂ typedef___be16;
      "sport" ⦂ typedef___be16]);
    "icmpt" ⦂ (Struct "" [
      "type" ⦂ typedef___u8;
      "code" ⦂ typedef___u8]);
    "gre_key" ⦂ typedef___be32;
    "mht" ⦂ (Struct "" [
      "type" ⦂ typedef___u8])].

Definition struct_flowi4 : ctype :=
  Struct "flowi4" [
    "__fl_common" ⦂ struct_flowi_common;
    "saddr" ⦂ typedef___be32;
    "daddr" ⦂ typedef___be32;
    "uli" ⦂ union_flowi_uli].

Definition struct_flowi6 : ctype :=
  Struct "flowi6" [
    "__fl_common" ⦂ struct_flowi_common;
    "daddr" ⦂ struct_in6_addr;
    "saddr" ⦂ struct_in6_addr;
    "flowlabel" ⦂ typedef___be32;
    "uli" ⦂ union_flowi_uli;
    "mp_hash" ⦂ typedef___u32].

Definition struct_flowi : ctype :=
  Struct "flowi" [
    "u" ⦂ (Union "" [
      "__fl_common" ⦂ struct_flowi_common;
      "ip4" ⦂ struct_flowi4;
      "ip6" ⦂ struct_flowi6])].

Definition struct_inet_cork_full : ctype :=
  Struct "inet_cork_full" [
    "base" ⦂ struct_inet_cork;
    "fl" ⦂ struct_flowi].

Definition struct_inet_sock : ctype :=
  Struct "inet_sock" [
    "sk" ⦂ struct_sock;
    "pinet6" ⦂ (ptr "struct ipv6_pinfo");
    "inet_flags" ⦂ c_ulong;
    "inet_saddr" ⦂ typedef___be32;
    "uc_ttl" ⦂ typedef___s16;
    "inet_sport" ⦂ typedef___be16;
    "inet_opt" ⦂ (ptr "struct ip_options_rcu");
    "inet_id" ⦂ typedef_atomic_t;
    "tos" ⦂ typedef___u8;
    "min_ttl" ⦂ typedef___u8;
    "mc_ttl" ⦂ typedef___u8;
    "pmtudisc" ⦂ typedef___u8;
    "rcv_tos" ⦂ typedef___u8;
    "convert_csum" ⦂ typedef___u8;
    "uc_index" ⦂ c_int;
    "mc_index" ⦂ c_int;
    "mc_addr" ⦂ typedef___be32;
    "local_port_range" ⦂ typedef_u32;
    "mc_list" ⦂ (ptr "struct ip_mc_socklist");
    "cork" ⦂ struct_inet_cork_full].

Definition struct_fastopen_queue : ctype :=
  Struct "fastopen_queue" [
    "rskq_rst_head" ⦂ (ptr "struct request_sock");
    "rskq_rst_tail" ⦂ (ptr "struct request_sock");
    "lock" ⦂ typedef_spinlock_t;
    "qlen" ⦂ c_int;
    "max_qlen" ⦂ c_int;
    "ctx" ⦂ (ptr "struct tcp_fastopen_context")].

Definition struct_request_sock_queue : ctype :=
  Struct "request_sock_queue" [
    "rskq_lock" ⦂ typedef_spinlock_t;
    "rskq_defer_accept" ⦂ typedef_u8;
    "synflood_warned" ⦂ typedef_u8;
    "qlen" ⦂ typedef_atomic_t;
    "young" ⦂ typedef_atomic_t;
    "rskq_accept_head" ⦂ (ptr "struct request_sock");
    "rskq_accept_tail" ⦂ (ptr "struct request_sock");
    "fastopenq" ⦂ struct_fastopen_queue].

Definition struct_inet_connection_sock : ctype :=
  Struct "inet_connection_sock" [
    "icsk_inet" ⦂ struct_inet_sock;
    "icsk_accept_queue" ⦂ struct_request_sock_queue;
    "icsk_bind_hash" ⦂ (ptr "struct inet_bind_bucket");
    "icsk_bind2_hash" ⦂ (ptr "struct inet_bind2_bucket");
    "icsk_retransmit_timer" ⦂ struct_timer_list;
    "icsk_delack_timer" ⦂ struct_timer_list;
    "icsk_rto" ⦂ typedef___u32;
    "icsk_rto_min" ⦂ typedef___u32;
    "icsk_rto_max" ⦂ typedef_u32;
    "icsk_delack_max" ⦂ typedef___u32;
    "icsk_pmtu_cookie" ⦂ typedef___u32;
    "icsk_ca_ops" ⦂ (ptr "struct tcp_congestion_ops");
    "icsk_af_ops" ⦂ (ptr "struct inet_connection_sock_af_ops");
    "icsk_ulp_ops" ⦂ (ptr "struct tcp_ulp_ops");
    "icsk_ulp_data" ⦂ (ptr "void");
    "icsk_sync_mss" ⦂ (ptr "function");
    "icsk_ca_state" ⦂⟨ 5 ⟩ typedef___u8;
    "icsk_ca_initialized" ⦂⟨ 1 ⟩ typedef___u8;
    "icsk_ca_setsockopt" ⦂⟨ 1 ⟩ typedef___u8;
    "icsk_ca_dst_locked" ⦂⟨ 1 ⟩ typedef___u8;
    "icsk_retransmits" ⦂ typedef___u8;
    "icsk_pending" ⦂ typedef___u8;
    "icsk_backoff" ⦂ typedef___u8;
    "icsk_syn_retries" ⦂ typedef___u8;
    "icsk_probes_out" ⦂ typedef___u8;
    "icsk_ext_hdr_len" ⦂ typedef___u16;
    "icsk_ack" ⦂ (Struct "" [
      "pending" ⦂ typedef___u8;
      "quick" ⦂ typedef___u8;
      "pingpong" ⦂ typedef___u8;
      "retry" ⦂ typedef___u8;
      "ato" ⦂⟨ 8 ⟩ typedef___u32;
      "lrcv_flowlabel" ⦂⟨ 20 ⟩ typedef___u32;
      "dst_quick_ack" ⦂⟨ 1 ⟩ typedef___u32;
      "unused" ⦂⟨ 3 ⟩ typedef___u32;
      "lrcvtime" ⦂ typedef___u32;
      "last_seg_size" ⦂ typedef___u16;
      "rcv_mss" ⦂ typedef___u16]);
    "icsk_mtup" ⦂ (Struct "" [
      "search_high" ⦂ c_int;
      "search_low" ⦂ c_int;
      "probe_size" ⦂⟨ 31 ⟩ typedef_u32;
      "enabled" ⦂⟨ 1 ⟩ typedef_u32;
      "probe_timestamp" ⦂ typedef_u32]);
    "icsk_probes_tstamp" ⦂ typedef_u32;
    "icsk_user_timeout" ⦂ typedef_u32;
    "icsk_ca_priv" ⦂ (CArr typedef_u64 13)].

Definition struct_minmax_sample : ctype :=
  Struct "minmax_sample" [
    "t" ⦂ typedef_u32;
    "v" ⦂ typedef_u32].

Definition struct_minmax : ctype :=
  Struct "minmax" [
    "s" ⦂ (CArr struct_minmax_sample 3)].

Definition struct_tcp_options_received : ctype :=
  Struct "tcp_options_received" [
    "ts_recent_stamp" ⦂ c_int;
    "ts_recent" ⦂ typedef_u32;
    "rcv_tsval" ⦂ typedef_u32;
    "rcv_tsecr" ⦂ typedef_u32;
    "saw_tstamp" ⦂⟨ 1 ⟩ typedef_u16;
    "tstamp_ok" ⦂⟨ 1 ⟩ typedef_u16;
    "dsack" ⦂⟨ 1 ⟩ typedef_u16;
    "wscale_ok" ⦂⟨ 1 ⟩ typedef_u16;
    "sack_ok" ⦂⟨ 3 ⟩ typedef_u16;
    "smc_ok" ⦂⟨ 1 ⟩ typedef_u16;
    "snd_wscale" ⦂⟨ 4 ⟩ typedef_u16;
    "rcv_wscale" ⦂⟨ 4 ⟩ typedef_u16;
    "accecn" ⦂⟨ 6 ⟩ typedef_u8;
    "saw_unknown" ⦂⟨ 1 ⟩ typedef_u8;
    "unused" ⦂⟨ 1 ⟩ typedef_u8;
    "num_sacks" ⦂ typedef_u8;
    "user_mss" ⦂ typedef_u16;
    "mss_clamp" ⦂ typedef_u16].

Definition struct_tcp_rack : ctype :=
  Struct "tcp_rack" [
    "mstamp" ⦂ typedef_u64;
    "rtt_us" ⦂ typedef_u32;
    "end_seq" ⦂ typedef_u32;
    "last_delivered" ⦂ typedef_u32;
    "reo_wnd_steps" ⦂ typedef_u8;
    "reo_wnd_persist" ⦂⟨ 5 ⟩ typedef_u8;
    "dsack_seen" ⦂⟨ 1 ⟩ typedef_u8;
    "advanced" ⦂⟨ 1 ⟩ typedef_u8].

Definition struct_tcp_sack_block : ctype :=
  Struct "tcp_sack_block" [
    "start_seq" ⦂ typedef_u32;
    "end_seq" ⦂ typedef_u32].

Definition struct_tcp_sock : ctype :=
  Struct "tcp_sock" [
    "inet_conn" ⦂ struct_inet_connection_sock;
    "__cacheline_group_begin__tcp_sock_read_tx" ⦂ (CArr typedef___u8 0);
    "max_window" ⦂ typedef_u32;
    "rcv_ssthresh" ⦂ typedef_u32;
    "reordering" ⦂ typedef_u32;
    "notsent_lowat" ⦂ typedef_u32;
    "gso_segs" ⦂ typedef_u16;
    "retransmit_skb_hint" ⦂ (ptr "struct sk_buff");
    "tcp_clean_acked" ⦂ (ptr "function");
    "__cacheline_group_end__tcp_sock_read_tx" ⦂ (CArr typedef___u8 0);
    "__cacheline_group_begin__tcp_sock_read_txrx" ⦂ (CArr typedef___u8 0);
    "tsoffset" ⦂ typedef_u32;
    "snd_wnd" ⦂ typedef_u32;
    "mss_cache" ⦂ typedef_u32;
    "snd_cwnd" ⦂ typedef_u32;
    "prr_out" ⦂ typedef_u32;
    "lost_out" ⦂ typedef_u32;
    "sacked_out" ⦂ typedef_u32;
    "tcp_header_len" ⦂ typedef_u16;
    "scaling_ratio" ⦂ typedef_u8;
    "chrono_type" ⦂⟨ 2 ⟩ typedef_u8;
    "repair" ⦂⟨ 1 ⟩ typedef_u8;
    "tcp_usec_ts" ⦂⟨ 1 ⟩ typedef_u8;
    "is_sack_reneg" ⦂⟨ 1 ⟩ typedef_u8;
    "is_cwnd_limited" ⦂⟨ 1 ⟩ typedef_u8;
    "recvmsg_inq" ⦂⟨ 1 ⟩ typedef_u8;
    "__cacheline_group_end__tcp_sock_read_txrx" ⦂ (CArr typedef___u8 0);
    "__cacheline_group_begin__tcp_sock_read_rx" ⦂ (CArr typedef___u8 0);
    "copied_seq" ⦂ typedef_u32;
    "snd_wl1" ⦂ typedef_u32;
    "tlp_high_seq" ⦂ typedef_u32;
    "rttvar_us" ⦂ typedef_u32;
    "retrans_out" ⦂ typedef_u32;
    "advmss" ⦂ typedef_u16;
    "urg_data" ⦂ typedef_u16;
    "lost" ⦂ typedef_u32;
    "snd_ssthresh" ⦂ typedef_u32;
    "rtt_min" ⦂ struct_minmax;
    "out_of_order_queue" ⦂ struct_rb_root;
    "__cacheline_group_end__tcp_sock_read_rx" ⦂ (CArr typedef___u8 0);
    "" ⦂⟨ 64 ⟩ c_long;
    "" ⦂⟨ 64 ⟩ c_long;
    "" ⦂⟨ 64 ⟩ c_long;
    "" ⦂⟨ 64 ⟩ c_long;
    "" ⦂⟨ 64 ⟩ c_long;
    "" ⦂⟨ 64 ⟩ c_long;
    "" ⦂⟨ 64 ⟩ c_long;
    "__cacheline_group_begin__tcp_sock_write_tx" ⦂ (CArr typedef___u8 0);
    "segs_out" ⦂ typedef_u32;
    "data_segs_out" ⦂ typedef_u32;
    "bytes_sent" ⦂ typedef_u64;
    "snd_sml" ⦂ typedef_u32;
    "chrono_start" ⦂ typedef_u32;
    "chrono_stat" ⦂ (CArr typedef_u32 3);
    "write_seq" ⦂ typedef_u32;
    "pushed_seq" ⦂ typedef_u32;
    "lsndtime" ⦂ typedef_u32;
    "mdev_us" ⦂ typedef_u32;
    "rtt_seq" ⦂ typedef_u32;
    "tcp_wstamp_ns" ⦂ typedef_u64;
    "accecn_opt_tstamp" ⦂ typedef_u64;
    "tsorted_sent_queue" ⦂ struct_list_head;
    "highest_sack" ⦂ (ptr "struct sk_buff");
    "ecn_flags" ⦂ typedef_u8;
    "__cacheline_group_end__tcp_sock_write_tx" ⦂ (CArr typedef___u8 0);
    "__cacheline_group_begin__tcp_sock_write_txrx" ⦂ (CArr typedef___u8 0);
    "nonagle" ⦂⟨ 4 ⟩ typedef_u8;
    "rate_app_limited" ⦂⟨ 1 ⟩ typedef_u8;
    "" ⦂⟨ 3 ⟩ c_short;
    "received_ce_pending" ⦂⟨ 4 ⟩ typedef_u8;
    "unused2" ⦂⟨ 4 ⟩ typedef_u8;
    "accecn_minlen" ⦂⟨ 2 ⟩ typedef_u8;
    "est_ecnfield" ⦂⟨ 2 ⟩ typedef_u8;
    "accecn_opt_demand" ⦂⟨ 2 ⟩ typedef_u8;
    "prev_ecnfield" ⦂⟨ 2 ⟩ typedef_u8;
    "pred_flags" ⦂ typedef___be32;
    "tcp_clock_cache" ⦂ typedef_u64;
    "tcp_mstamp" ⦂ typedef_u64;
    "rcv_nxt" ⦂ typedef_u32;
    "snd_nxt" ⦂ typedef_u32;
    "snd_una" ⦂ typedef_u32;
    "window_clamp" ⦂ typedef_u32;
    "srtt_us" ⦂ typedef_u32;
    "packets_out" ⦂ typedef_u32;
    "snd_up" ⦂ typedef_u32;
    "delivered" ⦂ typedef_u32;
    "delivered_ce" ⦂ typedef_u32;
    "received_ce" ⦂ typedef_u32;
    "received_ecn_bytes" ⦂ (CArr typedef_u32 3);
    "app_limited" ⦂ typedef_u32;
    "rcv_wnd" ⦂ typedef_u32;
    "rcv_tstamp" ⦂ typedef_u32;
    "rx_opt" ⦂ struct_tcp_options_received;
    "__cacheline_group_end__tcp_sock_write_txrx" ⦂ (CArr typedef___u8 0);
    "__cacheline_group_begin__tcp_sock_write_rx" ⦂ (CArr typedef___u8 0);
    "bytes_received" ⦂ typedef_u64;
    "segs_in" ⦂ typedef_u32;
    "data_segs_in" ⦂ typedef_u32;
    "rcv_wup" ⦂ typedef_u32;
    "max_packets_out" ⦂ typedef_u32;
    "cwnd_usage_seq" ⦂ typedef_u32;
    "rate_delivered" ⦂ typedef_u32;
    "rate_interval_us" ⦂ typedef_u32;
    "rcv_rtt_last_tsecr" ⦂ typedef_u32;
    "delivered_ecn_bytes" ⦂ (CArr typedef_u32 3);
    "first_tx_mstamp" ⦂ typedef_u64;
    "delivered_mstamp" ⦂ typedef_u64;
    "bytes_acked" ⦂ typedef_u64;
    "rcv_rtt_est" ⦂ (Struct "" [
      "rtt_us" ⦂ typedef_u32;
      "seq" ⦂ typedef_u32;
      "time" ⦂ typedef_u64]);
    "rcvq_space" ⦂ (Struct "" [
      "space" ⦂ c_int;
      "seq" ⦂ typedef_u32;
      "time" ⦂ typedef_u64]);
    "__cacheline_group_end__tcp_sock_write_rx" ⦂ (CArr typedef___u8 0);
    "dsack_dups" ⦂ typedef_u32;
    "compressed_ack_rcv_nxt" ⦂ typedef_u32;
    "tsq_node" ⦂ struct_list_head;
    "rack" ⦂ struct_tcp_rack;
    "compressed_ack" ⦂ typedef_u8;
    "dup_ack_counter" ⦂⟨ 2 ⟩ typedef_u8;
    "tlp_retrans" ⦂⟨ 1 ⟩ typedef_u8;
    "syn_ect_snt" ⦂⟨ 2 ⟩ typedef_u8;
    "syn_ect_rcv" ⦂⟨ 2 ⟩ typedef_u8;
    "thin_lto" ⦂⟨ 1 ⟩ typedef_u8;
    "fastopen_connect" ⦂⟨ 1 ⟩ typedef_u8;
    "fastopen_no_cookie" ⦂⟨ 1 ⟩ typedef_u8;
    "fastopen_client_fail" ⦂⟨ 2 ⟩ typedef_u8;
    "frto" ⦂⟨ 1 ⟩ typedef_u8;
    "repair_queue" ⦂ typedef_u8;
    "save_syn" ⦂⟨ 2 ⟩ typedef_u8;
    "syn_data" ⦂⟨ 1 ⟩ typedef_u8;
    "syn_fastopen" ⦂⟨ 1 ⟩ typedef_u8;
    "syn_fastopen_exp" ⦂⟨ 1 ⟩ typedef_u8;
    "syn_fastopen_ch" ⦂⟨ 1 ⟩ typedef_u8;
    "syn_data_acked" ⦂⟨ 1 ⟩ typedef_u8;
    "syn_fastopen_child" ⦂⟨ 1 ⟩ typedef_u8;
    "keepalive_probes" ⦂ typedef_u8;
    "accecn_fail_mode" ⦂⟨ 4 ⟩ typedef_u8;
    "saw_accecn_opt" ⦂⟨ 2 ⟩ typedef_u8;
    "tcp_tx_delay" ⦂ typedef_u32;
    "mdev_max_us" ⦂ typedef_u32;
    "reord_seen" ⦂ typedef_u32;
    "snd_cwnd_cnt" ⦂ typedef_u32;
    "snd_cwnd_clamp" ⦂ typedef_u32;
    "snd_cwnd_used" ⦂ typedef_u32;
    "snd_cwnd_stamp" ⦂ typedef_u32;
    "prior_cwnd" ⦂ typedef_u32;
    "prr_delivered" ⦂ typedef_u32;
    "last_oow_ack_time" ⦂ typedef_u32;
    "pacing_timer" ⦂ struct_hrtimer;
    "compressed_ack_timer" ⦂ struct_hrtimer;
    "ooo_last_skb" ⦂ (ptr "struct sk_buff");
    "duplicate_sack" ⦂ (CArr struct_tcp_sack_block 1);
    "selective_acks" ⦂ (CArr struct_tcp_sack_block 4);
    "recv_sack_cache" ⦂ (CArr struct_tcp_sack_block 4);
    "prior_ssthresh" ⦂ typedef_u32;
    "high_seq" ⦂ typedef_u32;
    "retrans_stamp" ⦂ typedef_u32;
    "undo_marker" ⦂ typedef_u32;
    "undo_retrans" ⦂ c_int;
    "mtu_info" ⦂ typedef_u32;
    "bytes_retrans" ⦂ typedef_u64;
    "total_retrans" ⦂ typedef_u32;
    "rto_stamp" ⦂ typedef_u32;
    "total_rto" ⦂ typedef_u16;
    "total_rto_recoveries" ⦂ typedef_u16;
    "total_rto_time" ⦂ typedef_u32;
    "urg_seq" ⦂ typedef_u32;
    "keepalive_time" ⦂ c_uint;
    "keepalive_intvl" ⦂ c_uint;
    "linger2" ⦂ c_int;
    "bpf_sock_ops_cb_flags" ⦂ typedef_u8;
    "bpf_chg_cc_inprogress" ⦂⟨ 1 ⟩ typedef_u8;
    "timeout_rehash" ⦂ typedef_u16;
    "rcv_ooopack" ⦂ typedef_u32;
    "mtu_probe" ⦂ (Struct "" [
      "probe_seq_start" ⦂ typedef_u32;
      "probe_seq_end" ⦂ typedef_u32]);
    "plb_rehash" ⦂ typedef_u32;
    "is_mptcp" ⦂ typedef_bool;
    "syn_smc" ⦂ typedef_bool;
    "smc_hs_congested" ⦂ (ptr "function");
    "af_specific" ⦂ (ptr "struct tcp_sock_af_ops");
    "md5sig_info" ⦂ (ptr "struct tcp_md5sig_info");
    "ao_info" ⦂ (ptr "struct tcp_ao_info");
    "fastopen_req" ⦂ (ptr "struct tcp_fastopen_request");
    "fastopen_rsk" ⦂ (ptr "struct request_sock");
    "saved_syn" ⦂ (ptr "struct saved_syn")].

(** The tagged structures and unions of this file, by their C name. *)
Definition KNet_types : list (string * ctype) := [
  ("struct in6_addr", struct_in6_addr);
  ("struct hlist_nulls_node", struct_hlist_nulls_node);
  ("struct sock_common", struct_sock_common);
  ("struct sk_buff_list", struct_sk_buff_list);
  ("struct sk_buff_head", struct_sk_buff_head);
  ("struct qrwlock", struct_qrwlock);
  ("struct sock_cgroup_data", struct_sock_cgroup_data);
  ("struct xarray", struct_xarray);
  ("struct sock", struct_sock);
  ("struct inet_cork", struct_inet_cork);
  ("struct flowi_tunnel", struct_flowi_tunnel);
  ("struct flowi_common", struct_flowi_common);
  ("union flowi_uli", union_flowi_uli);
  ("struct flowi4", struct_flowi4);
  ("struct flowi6", struct_flowi6);
  ("struct flowi", struct_flowi);
  ("struct inet_cork_full", struct_inet_cork_full);
  ("struct inet_sock", struct_inet_sock);
  ("struct fastopen_queue", struct_fastopen_queue);
  ("struct request_sock_queue", struct_request_sock_queue);
  ("struct inet_connection_sock", struct_inet_connection_sock);
  ("struct minmax_sample", struct_minmax_sample);
  ("struct minmax", struct_minmax);
  ("struct tcp_options_received", struct_tcp_options_received);
  ("struct tcp_rack", struct_tcp_rack);
  ("struct tcp_sack_block", struct_tcp_sack_block);
  ("struct tcp_sock", struct_tcp_sock)].
