(* ===== verification/KTask.v ===== *)
(** * Task and tracepoint types

    [struct task_struct], [struct pt_regs] and
    [struct trace_event_raw_sys_enter] of [bpf/headers/vmlinux.h], which the
    probes receive or reach, with every type they embed by value. *)

From S2P Require Import Prelude.
From S2P Require Import CLayout.
From S2P Require Import KBase.
From S2P Require Import KNet.

Open Scope N_scope.
Open Scope clayout_scope.

Definition struct_thread_info : ctype :=
  Struct "thread_info" [
    "flags" ⦂ c_ulong;
    "syscall_work" ⦂ c_ulong;
    "status" ⦂ typedef_u32;
    "cpu" ⦂ typedef_u32].

Definition struct_llist_node : ctype :=
  Struct "llist_node" [
    "next" ⦂ (ptr "struct llist_node")].

Definition struct___call_single_node : ctype :=
  Struct "__call_single_node" [
    "llist" ⦂ struct_llist_node;
    "" ⦂ (Union "" [
      "u_flags" ⦂ c_uint;
      "a_flags" ⦂ typedef_atomic_t]);
    "src" ⦂ typedef_u16;
    "dst" ⦂ typedef_u16].

Definition struct_load_weight : ctype :=
  Struct "load_weight" [
    "weight" ⦂ c_ulong;
    "inv_weight" ⦂ typedef_u32].

Definition struct_sched_avg : ctype :=
  Struct "sched_avg" [
    "last_update_time" ⦂ typedef_u64;
    "load_sum" ⦂ typedef_u64;
    "runnable_sum" ⦂ typedef_u64;
    "util_sum" ⦂ typedef_u32;
    "period_contrib" ⦂ typedef_u32;
    "load_avg" ⦂ c_ulong;
    "runnable_avg" ⦂ c_ulong;
    "util_avg" ⦂ c_ulong;
    "util_est" ⦂ c_uint].

Definition struct_sched_entity : ctype :=
  Struct "sched_entity" [
    "load" ⦂ struct_load_weight;
    "run_node" ⦂ struct_rb_node;
    "deadline" ⦂ typedef_u64;
    "min_vruntime" ⦂ typedef_u64;
    "min_slice" ⦂ typedef_u64;
    "group_node" ⦂ struct_list_head;
    "on_rq" ⦂ c_uchar;
    "sched_delayed" ⦂ c_uchar;
    "rel_deadline" ⦂ c_uchar;
    "custom_slice" ⦂ c_uchar;
    "exec_start" ⦂ typedef_u64;
    "sum_exec_runtime" ⦂ typedef_u64;
    "prev_sum_exec_runtime" ⦂ typedef_u64;
    "vruntime" ⦂ typedef_u64;
    "" ⦂ (Union "" [
      "vlag" ⦂ typedef_s64;
      "vprot" ⦂ typedef_u64]);
    "slice" ⦂ typedef_u64;
    "nr_migrations" ⦂ typedef_u64;
    "depth" ⦂ c_int;
    "parent" ⦂ (ptr "struct sched_entity");
    "cfs_rq" ⦂ (ptr "struct cfs_rq");
    "my_q" ⦂ (ptr "struct cfs_rq");
    "runnable_weight" ⦂ c_ulong;
    "" ⦂⟨ 64 ⟩ c_long;
    "avg" ⦂ struct_sched_avg].

Definition struct_sched_rt_entity : ctype :=
  Struct "sched_rt_entity" [
    "run_list" ⦂ struct_list_head;
    "timeout" ⦂ c_ulong;
    "watchdog_stamp" ⦂ c_ulong;
    "time_slice" ⦂ c_uint;
    "on_rq" ⦂ c_ushort;
    "on_list" ⦂ c_ushort;
    "back" ⦂ (ptr "struct sched_rt_entity")].

Definition typedef_dl_server_pick_f : ctype :=
  ptr "function".

Definition struct_sched_dl_entity : ctype :=
  Struct "sched_dl_entity" [
    "rb_node" ⦂ struct_rb_node;
    "dl_runtime" ⦂ typedef_u64;
    "dl_deadline" ⦂ typedef_u64;
    "dl_period" ⦂ typedef_u64;
    "dl_bw" ⦂ typedef_u64;
    "dl_density" ⦂ typedef_u64;
    "runtime" ⦂ typedef_s64;
    "deadline" ⦂ typedef_u64;
    "flags" ⦂ c_uint;
    "dl_throttled" ⦂⟨ 1 ⟩ c_uint;
    "dl_yielded" ⦂⟨ 1 ⟩ c_uint;
    "dl_non_contending" ⦂⟨ 1 ⟩ c_uint;
    "dl_overrun" ⦂⟨ 1 ⟩ c_uint;
    "dl_server" ⦂⟨ 1 ⟩ c_uint;
    "dl_server_active" ⦂⟨ 1 ⟩ c_uint;
    "dl_defer" ⦂⟨ 1 ⟩ c_uint;
    "dl_defer_armed" ⦂⟨ 1 ⟩ c_uint;
    "dl_defer_running" ⦂⟨ 1 ⟩ c_uint;
    "dl_timer" ⦂ struct_hrtimer;
    "inactive_timer" ⦂ struct_hrtimer;
    "rq" ⦂ (ptr "struct rq");
    "server_pick_task" ⦂ typedef_dl_server_pick_f;
    "pi_se" ⦂ (ptr "struct sched_dl_entity")].

Definition struct_scx_dsq_list_node : ctype :=
  Struct "scx_dsq_list_node" [
    "node" ⦂ struct_list_head;
    "flags" ⦂ typedef_u32;
    "priv" ⦂ typedef_u32].

Definition typedef_s32 : ctype :=
  typedef___s32.

Definition struct_sched_ext_entity : ctype :=
  Struct "sched_ext_entity" [
    "dsq" ⦂ (ptr "struct scx_dispatch_q");
    "dsq_list" ⦂ struct_scx_dsq_list_node;
    "dsq_priq" ⦂ struct_rb_node;
    "dsq_seq" ⦂ typedef_u32;
    "dsq_flags" ⦂ typedef_u32;
    "flags" ⦂ typedef_u32;
    "weight" ⦂ typedef_u32;
    "sticky_cpu" ⦂ typedef_s32;
    "holding_cpu" ⦂ typedef_s32;
    "selected_cpu" ⦂ typedef_s32;
    "kf_mask" ⦂ typedef_u32;
    "kf_tasks" ⦂ (CArr (ptr "struct task_struct") 2);
    "ops_state" ⦂ typedef_atomic_long_t;
    "runnable_node" ⦂ struct_list_head;
    "runnable_at" ⦂ c_ulong;
    "core_sched_at" ⦂ typedef_u64;
    "ddsp_dsq_id" ⦂ typedef_u64;
    "ddsp_enq_flags" ⦂ typedef_u64;
    "slice" ⦂ typedef_u64;
    "dsq_vtime" ⦂ typedef_u64;
    "disallow" ⦂ typedef_bool;
    "cgrp_moving_from" ⦂ (ptr "struct cgroup");
    "tasks_node" ⦂ struct_list_head].

Definition struct_uclamp_se : ctype :=
  Struct "uclamp_se" [
    "value" ⦂⟨ 11 ⟩ c_uint;
    "bucket_id" ⦂⟨ 3 ⟩ c_uint;
    "active" ⦂⟨ 1 ⟩ c_uint;
    "user_defined" ⦂⟨ 1 ⟩ c_uint].

Definition struct_sched_statistics : ctype :=
  Struct "sched_statistics" [
    "wait_start" ⦂ typedef_u64;
    "wait_max" ⦂ typedef_u64;
    "wait_count" ⦂ typedef_u64;
    "wait_sum" ⦂ typedef_u64;
    "iowait_count" ⦂ typedef_u64;
    "iowait_sum" ⦂ typedef_u64;
    "sleep_start" ⦂ typedef_u64;
    "sleep_max" ⦂ typedef_u64;
    "sum_sleep_runtime" ⦂ typedef_s64;
    "block_start" ⦂ typedef_u64;
    "block_max" ⦂ typedef_u64;
    "sum_block_runtime" ⦂ typedef_s64;
    "exec_max" ⦂ typedef_s64;
    "slice_max" ⦂ typedef_u64;
    "nr_migrations_cold" ⦂ typedef_u64;
    "nr_failed_migrations_affine" ⦂ typedef_u64;
    "nr_failed_migrations_running" ⦂ typedef_u64;
    "nr_failed_migrations_hot" ⦂ typedef_u64;
    "nr_forced_migrations" ⦂ typedef_u64;
    "nr_wakeups" ⦂ typedef_u64;
    "nr_wakeups_sync" ⦂ typedef_u64;
    "nr_wakeups_migrate" ⦂ typedef_u64;
    "nr_wakeups_local" ⦂ typedef_u64;
    "nr_wakeups_remote" ⦂ typedef_u64;
    "nr_wakeups_affine" ⦂ typedef_u64;
    "nr_wakeups_affine_attempts" ⦂ typedef_u64;
    "nr_wakeups_passive" ⦂ typedef_u64;
    "nr_wakeups_idle" ⦂ typedef_u64;
    "core_forceidle_sum" ⦂ typedef_u64;
    "" ⦂⟨ 64 ⟩ c_long;
    "" ⦂⟨ 64 ⟩ c_long;
    "" ⦂⟨ 64 ⟩ c_long].

Definition struct_cpumask : ctype :=
  Struct "cpumask" [
    "bits" ⦂ (CArr c_ulong 128)].

Definition typedef_cpumask_t : ctype :=
  struct_cpumask.

Definition union_rcu_special : ctype :=
  Union "rcu_special" [
    "b" ⦂ (Struct "" [
      "blocked" ⦂ typedef_u8;
      "need_qs" ⦂ typedef_u8;
      "exp_hint" ⦂ typedef_u8;
      "need_mb" ⦂ typedef_u8]);
    "s" ⦂ typedef_u32].

Definition struct_sched_info : ctype :=
  Struct "sched_info" [
    "pcount" ⦂ c_ulong;
    "run_delay" ⦂ c_ullong;
    "max_run_delay" ⦂ c_ullong;
    "min_run_delay" ⦂ c_ullong;
    "last_arrival" ⦂ c_ullong;
    "last_queued" ⦂ c_ullong].

Definition struct_plist_node : ctype :=
  Struct "plist_node" [
    "prio" ⦂ c_int;
    "prio_list" ⦂ struct_list_head;
    "node_list" ⦂ struct_list_head].

Definition typedef___kernel_clockid_t : ctype :=
  c_int.

Definition typedef_clockid_t : ctype :=
  typedef___kernel_clockid_t.

Definition enum_timespec_type : ctype :=
  CEnum "timespec_type" I32 [
    ("TT_NONE", (0)%Z);
    ("TT_NATIVE", (1)%Z);
    ("TT_COMPAT", (2)%Z)].

Definition struct_restart_block : ctype :=
  Struct "restart_block" [
    "arch_data" ⦂ c_ulong;
    "fn" ⦂ (ptr "function");
    "" ⦂ (Union "" [
      "futex" ⦂ (Struct "" [
        "uaddr" ⦂ (ptr "u32");
        "val" ⦂ typedef_u32;
        "flags" ⦂ typedef_u32;
        "bitset" ⦂ typedef_u32;
        "time" ⦂ typedef_u64;
        "uaddr2" ⦂ (ptr "u32")]);
      "nanosleep" ⦂ (Struct "" [
        "clockid" ⦂ typedef_clockid_t;
        "type" ⦂ enum_timespec_type;
        "" ⦂ (Union "" [
          "rmtp" ⦂ (ptr "struct __kernel_timespec");
          "compat_rmtp" ⦂ (ptr "struct old_timespec32")]);
        "expires" ⦂ typedef_u64]);
      "poll" ⦂ (Struct "" [
        "ufds" ⦂ (ptr "struct pollfd");
        "nfds" ⦂ c_int;
        "has_timeout" ⦂ c_int;
        "tv_sec" ⦂ c_ulong;
        "tv_nsec" ⦂ c_ulong])])].

Definition typedef___kernel_pid_t : ctype :=
  c_int.

Definition typedef_pid_t : ctype :=
  typedef___kernel_pid_t.

Definition enum_vtime_state : ctype :=
  CEnum "vtime_state" I32 [
    ("VTIME_INACTIVE", (0)%Z);
    ("VTIME_IDLE", (1)%Z);
    ("VTIME_SYS", (2)%Z);
    ("VTIME_USER", (3)%Z);
    ("VTIME_GUEST", (4)%Z)].

Definition struct_vtime : ctype :=
  Struct "vtime" [
    "seqcount" ⦂ typedef_seqcount_t;
    "starttime" ⦂ c_ullong;
    "state" ⦂ enum_vtime_state;
    "cpu" ⦂ c_uint;
    "utime" ⦂ typedef_u64;
    "stime" ⦂ typedef_u64;
    "gtime" ⦂ typedef_u64].

Definition struct_rb_root_cached : ctype :=
  Struct "rb_root_cached" [
    "rb_root" ⦂ struct_rb_root;
    "rb_leftmost" ⦂ (ptr "struct rb_node")].

Definition struct_timerqueue_head : ctype :=
  Struct "timerqueue_head" [
    "rb_root" ⦂ struct_rb_root_cached].

Definition struct_posix_cputimer_base : ctype :=
  Struct "posix_cputimer_base" [
    "nextevt" ⦂ typedef_u64;
    "tqhead" ⦂ struct_timerqueue_head].

Definition struct_posix_cputimers : ctype :=
  Struct "posix_cputimers" [
    "bases" ⦂ (CArr struct_posix_cputimer_base 3);
    "timers_active" ⦂ c_uint;
    "expiry_active" ⦂ c_uint].

Definition struct_posix_cputimers_work : ctype :=
  Struct "posix_cputimers_work" [
    "work" ⦂ struct_callback_head;
    "mutex" ⦂ struct_mutex;
    "scheduled" ⦂ c_uint].

Definition struct_sysv_sem : ctype :=
  Struct "sysv_sem" [
    "undo_list" ⦂ (ptr "struct sem_undo_list")].

Definition struct_sysv_shm : ctype :=
  Struct "sysv_shm" [
    "shm_clist" ⦂ struct_list_head].

Definition typedef_sigset_t : ctype :=
  Struct "" [
    "sig" ⦂ (CArr c_ulong 1)].

Definition struct_sigpending : ctype :=
  Struct "sigpending" [
    "list" ⦂ struct_list_head;
    "signal" ⦂ typedef_sigset_t].

Definition typedef___kernel_ulong_t : ctype :=
  c_ulong.

Definition typedef___kernel_size_t : ctype :=
  typedef___kernel_ulong_t.

Definition typedef_size_t : ctype :=
  typedef___kernel_size_t.

Definition struct_seccomp : ctype :=
  Struct "seccomp" [
    "mode" ⦂ c_int;
    "filter_count" ⦂ typedef_atomic_t;
    "filter" ⦂ (ptr "struct seccomp_filter")].

Definition struct_syscall_user_dispatch : ctype :=
  Struct "syscall_user_dispatch" [
    "selector" ⦂ (ptr "char");
    "offset" ⦂ c_ulong;
    "len" ⦂ c_ulong;
    "on_dispatch" ⦂ typedef_bool].

Definition struct_wake_q_node : ctype :=
  Struct "wake_q_node" [
    "next" ⦂ (ptr "struct wake_q_node")].

Definition struct_task_io_accounting : ctype :=
  Struct "task_io_accounting" [
    "rchar" ⦂ typedef_u64;
    "wchar" ⦂ typedef_u64;
    "syscr" ⦂ typedef_u64;
    "syscw" ⦂ typedef_u64;
    "read_bytes" ⦂ typedef_u64;
    "write_bytes" ⦂ typedef_u64;
    "cancelled_write_bytes" ⦂ typedef_u64].

Definition typedef_nodemask_t : ctype :=
  Struct "" [
    "bits" ⦂ (CArr c_ulong 16)].

Definition struct_arch_tlbflush_unmap_batch : ctype :=
  Struct "arch_tlbflush_unmap_batch" [
    "cpumask" ⦂ struct_cpumask;
    "unmapped_pages" ⦂ typedef_bool].

Definition struct_tlbflush_unmap_batch : ctype :=
  Struct "tlbflush_unmap_batch" [
    "arch" ⦂ struct_arch_tlbflush_unmap_batch;
    "flush_required" ⦂ typedef_bool;
    "writable" ⦂ typedef_bool].

Definition struct_kmap_ctrl : ctype :=
  Struct "kmap_ctrl" [].

Definition struct_llist_head : ctype :=
  Struct "llist_head" [
    "first" ⦂ (ptr "struct llist_node")].

Definition struct_desc_struct : ctype :=
  Struct "desc_struct" [
    "limit0" ⦂ typedef_u16;
    "base0" ⦂ typedef_u16;
    "base1" ⦂⟨ 8 ⟩ typedef_u16;
    "type" ⦂⟨ 4 ⟩ typedef_u16;
    "s" ⦂⟨ 1 ⟩ typedef_u16;
    "dpl" ⦂⟨ 2 ⟩ typedef_u16;
    "p" ⦂⟨ 1 ⟩ typedef_u16;
    "limit1" ⦂⟨ 4 ⟩ typedef_u16;
    "avl" ⦂⟨ 1 ⟩ typedef_u16;
    "l" ⦂⟨ 1 ⟩ typedef_u16;
    "d" ⦂⟨ 1 ⟩ typedef_u16;
    "g" ⦂⟨ 1 ⟩ typedef_u16;
    "base2" ⦂⟨ 8 ⟩ typedef_u16].

Definition struct_thread_shstk : ctype :=
  Struct "thread_shstk" [
    "base" ⦂ typedef_u64;
    "size" ⦂ typedef_u64].

Definition struct_thread_struct : ctype :=
  Struct "thread_struct" [
    "tls_array" ⦂ (CArr struct_desc_struct 3);
    "sp" ⦂ c_ulong;
    "es" ⦂ c_ushort;
    "ds" ⦂ c_ushort;
    "fsindex" ⦂ c_ushort;
    "gsindex" ⦂ c_ushort;
    "fsbase" ⦂ c_ulong;
    "gsbase" ⦂ c_ulong;
    "ptrace_bps" ⦂ (CArr (ptr "struct perf_event") 4);
    "virtual_dr6" ⦂ c_ulong;
    "ptrace_dr7" ⦂ c_ulong;
    "cr2" ⦂ c_ulong;
    "trap_nr" ⦂ c_ulong;
    "error_code" ⦂ c_ulong;
    "io_bitmap" ⦂ (ptr "struct io_bitmap");
    "iopl_emul" ⦂ c_ulong;
    "iopl_warn" ⦂⟨ 1 ⟩ c_uint;
    "pkru" ⦂ typedef_u32;
    "features" ⦂ c_ulong;
    "features_locked" ⦂ c_ulong;
    "shstk" ⦂ struct_thread_shstk].

Definition struct_task_struct : ctype :=
  Struct "task_struct" [
    "thread_info" ⦂ struct_thread_info;
    "__state" ⦂ c_uint;
    "saved_state" ⦂ c_uint;
    "stack" ⦂ (ptr "void");
    "usage" ⦂ typedef_refcount_t;
    "flags" ⦂ c_uint;
    "ptrace" ⦂ c_uint;
    "on_cpu" ⦂ c_int;
    "wake_entry" ⦂ struct___call_single_node;
    "wakee_flips" ⦂ c_uint;
    "wakee_flip_decay_ts" ⦂ c_ulong;
    "last_wakee" ⦂ (ptr "struct task_struct");
    "recent_used_cpu" ⦂ c_int;
    "wake_cpu" ⦂ c_int;
    "on_rq" ⦂ c_int;
    "prio" ⦂ c_int;
    "static_prio" ⦂ c_int;
    "normal_prio" ⦂ c_int;
    "rt_priority" ⦂ c_uint;
    "se" ⦂ struct_sched_entity;
    "rt" ⦂ struct_sched_rt_entity;
    "dl" ⦂ struct_sched_dl_entity;
    "dl_server" ⦂ (ptr "struct sched_dl_entity");
    "scx" ⦂ struct_sched_ext_entity;
    "sched_class" ⦂ (ptr "struct sched_class");
    "core_node" ⦂ struct_rb_node;
    "core_cookie" ⦂ c_ulong;
    "core_occupation" ⦂ c_uint;
    "sched_task_group" ⦂ (ptr "struct task_group");
    "sched_throttle_work" ⦂ struct_callback_head;
    "throttle_node" ⦂ struct_list_head;
    "throttled" ⦂ typedef_bool;
    "uclamp_req" ⦂ (CArr struct_uclamp_se 2);
    "uclamp" ⦂ (CArr struct_uclamp_se 2);
    "" ⦂⟨ 64 ⟩ c_long;
    "" ⦂⟨ 64 ⟩ c_long;
    "" ⦂⟨ 64 ⟩ c_long;
    "stats" ⦂ struct_sched_statistics;
    "preempt_notifiers" ⦂ struct_hlist_head;
    "btrace_seq" ⦂ c_uint;
    "policy" ⦂ c_uint;
    "max_allowed_capacity" ⦂ c_ulong;
    "nr_cpus_allowed" ⦂ c_int;
    "cpus_ptr" ⦂ (ptr "cpumask_t");
    "user_cpus_ptr" ⦂ (ptr "cpumask_t");
    "cpus_mask" ⦂ typedef_cpumask_t;
    "migration_pending" ⦂ (ptr "void");
    "migration_disabled" ⦂ c_ushort;
    "migration_flags" ⦂ c_ushort;
    "rcu_read_lock_nesting" ⦂ c_int;
    "rcu_read_unlock_special" ⦂ union_rcu_special;
    "rcu_node_entry" ⦂ struct_list_head;
    "rcu_blocked_node" ⦂ (ptr "struct rcu_node");
    "rcu_tasks_nvcsw" ⦂ c_ulong;
    "rcu_tasks_holdout" ⦂ typedef_u8;
    "rcu_tasks_idx" ⦂ typedef_u8;
    "rcu_tasks_idle_cpu" ⦂ c_int;
    "rcu_tasks_holdout_list" ⦂ struct_list_head;
    "rcu_tasks_exit_cpu" ⦂ c_int;
    "rcu_tasks_exit_list" ⦂ struct_list_head;
    "trc_reader_nesting" ⦂ c_int;
    "trc_ipi_to_cpu" ⦂ c_int;
    "trc_reader_special" ⦂ union_rcu_special;
    "trc_holdout_list" ⦂ struct_list_head;
    "trc_blkd_node" ⦂ struct_list_head;
    "trc_blkd_cpu" ⦂ c_int;
    "sched_info" ⦂ struct_sched_info;
    "tasks" ⦂ struct_list_head;
    "pushable_tasks" ⦂ struct_plist_node;
    "pushable_dl_tasks" ⦂ struct_rb_node;
    "mm" ⦂ (ptr "struct mm_struct");
    "active_mm" ⦂ (ptr "struct mm_struct");
    "faults_disabled_mapping" ⦂ (ptr "struct address_space");
    "exit_state" ⦂ c_int;
    "exit_code" ⦂ c_int;
    "exit_signal" ⦂ c_int;
    "pdeath_signal" ⦂ c_int;
    "jobctl" ⦂ c_ulong;
    "personality" ⦂ c_uint;
    "sched_reset_on_fork" ⦂⟨ 1 ⟩ c_uint;
    "sched_contributes_to_load" ⦂⟨ 1 ⟩ c_uint;
    "sched_migrated" ⦂⟨ 1 ⟩ c_uint;
    "sched_task_hot" ⦂⟨ 1 ⟩ c_uint;
    "" ⦂⟨ 28 ⟩ c_long;
    "sched_remote_wakeup" ⦂⟨ 1 ⟩ c_uint;
    "sched_rt_mutex" ⦂⟨ 1 ⟩ c_uint;
    "in_execve" ⦂⟨ 1 ⟩ c_uint;
    "in_iowait" ⦂⟨ 1 ⟩ c_uint;
    "restore_sigmask" ⦂⟨ 1 ⟩ c_uint;
    "in_lru_fault" ⦂⟨ 1 ⟩ c_uint;
    "no_cgroup_migration" ⦂⟨ 1 ⟩ c_uint;
    "frozen" ⦂⟨ 1 ⟩ c_uint;
    "use_memdelay" ⦂⟨ 1 ⟩ c_uint;
    "in_memstall" ⦂⟨ 1 ⟩ c_uint;
    "in_eventfd" ⦂⟨ 1 ⟩ c_uint;
    "pasid_activated" ⦂⟨ 1 ⟩ c_uint;
    "reported_split_lock" ⦂⟨ 1 ⟩ c_uint;
    "in_thrashing" ⦂⟨ 1 ⟩ c_uint;
    "in_nf_duplicate" ⦂⟨ 1 ⟩ c_uint;
    "atomic_flags" ⦂ c_ulong;
    "restart_block" ⦂ struct_restart_block;
    "pid" ⦂ typedef_pid_t;
    "tgid" ⦂ typedef_pid_t;
    "stack_canary" ⦂ c_ulong;
    "real_parent" ⦂ (ptr "struct task_struct");
    "parent" ⦂ (ptr "struct task_struct");
    "children" ⦂ struct_list_head;
    "sibling" ⦂ struct_list_head;
    "group_leader" ⦂ (ptr "struct task_struct");
    "ptraced" ⦂ struct_list_head;
    "ptrace_entry" ⦂ struct_list_head;
    "thread_pid" ⦂ (ptr "struct pid");
    "pid_links" ⦂ (CArr struct_hlist_node 4);
    "thread_node" ⦂ struct_list_head;
    "vfork_done" ⦂ (ptr "struct completion");
    "set_child_tid" ⦂ (ptr "int");
    "clear_child_tid" ⦂ (ptr "int");
    "worker_private" ⦂ (ptr "void");
    "utime" ⦂ typedef_u64;
    "stime" ⦂ typedef_u64;
    "gtime" ⦂ typedef_u64;
    "prev_cputime" ⦂ struct_prev_cputime;
    "vtime" ⦂ struct_vtime;
    "tick_dep_mask" ⦂ typedef_atomic_t;
    "nvcsw" ⦂ c_ulong;
    "nivcsw" ⦂ c_ulong;
    "start_time" ⦂ typedef_u64;
    "start_boottime" ⦂ typedef_u64;
    "min_flt" ⦂ c_ulong;
    "maj_flt" ⦂ c_ulong;
    "posix_cputimers" ⦂ struct_posix_cputimers;
    "posix_cputimers_work" ⦂ struct_posix_cputimers_work;
    "ptracer_cred" ⦂ (ptr "struct cred");
    "real_cred" ⦂ (ptr "struct cred");
    "cred" ⦂ (ptr "struct cred");
    "cached_requested_key" ⦂ (ptr "struct key");
    "comm" ⦂ (CArr c_char 16);
    "nameidata" ⦂ (ptr "struct nameidata");
    "sysvsem" ⦂ struct_sysv_sem;
    "sysvshm" ⦂ struct_sysv_shm;
    "last_switch_count" ⦂ c_ulong;
    "last_switch_time" ⦂ c_ulong;
    "fs" ⦂ (ptr "struct fs_struct");
    "files" ⦂ (ptr "struct files_struct");
    "io_uring" ⦂ (ptr "struct io_uring_task");
    "nsproxy" ⦂ (ptr "struct nsproxy");
    "signal" ⦂ (ptr "struct signal_struct");
    "sighand" ⦂ (ptr "struct sighand_struct");
    "blocked" ⦂ typedef_sigset_t;
    "real_blocked" ⦂ typedef_sigset_t;
    "saved_sigmask" ⦂ typedef_sigset_t;
    "pending" ⦂ struct_sigpending;
    "sas_ss_sp" ⦂ c_ulong;
    "sas_ss_size" ⦂ typedef_size_t;
    "sas_ss_flags" ⦂ c_uint;
    "task_works" ⦂ (ptr "struct callback_head");
    "audit_context" ⦂ (ptr "struct audit_context");
    "loginuid" ⦂ typedef_kuid_t;
    "sessionid" ⦂ c_uint;
    "seccomp" ⦂ struct_seccomp;
    "syscall_dispatch" ⦂ struct_syscall_user_dispatch;
    "parent_exec_id" ⦂ typedef_u64;
    "self_exec_id" ⦂ typedef_u64;
    "alloc_lock" ⦂ typedef_spinlock_t;
    "pi_lock" ⦂ typedef_raw_spinlock_t;
    "wake_q" ⦂ struct_wake_q_node;
    "pi_waiters" ⦂ struct_rb_root_cached;
    "pi_top_task" ⦂ (ptr "struct task_struct");
    "pi_blocked_on" ⦂ (ptr "struct rt_mutex_waiter");
    "blocked_on" ⦂ (ptr "struct mutex");
    "blocker" ⦂ c_ulong;
    "journal_info" ⦂ (ptr "void");
    "bio_list" ⦂ (ptr "struct bio_list");
    "plug" ⦂ (ptr "struct blk_plug");
    "reclaim_state" ⦂ (ptr "struct reclaim_state");
    "io_context" ⦂ (ptr "struct io_context");
    "capture_control" ⦂ (ptr "struct capture_control");
    "ptrace_message" ⦂ c_ulong;
    "last_siginfo" ⦂ (ptr "kernel_siginfo_t");
    "ioac" ⦂ struct_task_io_accounting;
    "psi_flags" ⦂ c_uint;
    "acct_rss_mem1" ⦂ typedef_u64;
    "acct_vm_mem1" ⦂ typedef_u64;
    "acct_timexpd" ⦂ typedef_u64;
    "mems_allowed" ⦂ typedef_nodemask_t;
    "mems_allowed_seq" ⦂ typedef_seqcount_spinlock_t;
    "cpuset_mem_spread_rotor" ⦂ c_int;
    "cgroups" ⦂ (ptr "struct css_set");
    "cg_list" ⦂ struct_list_head;
    "closid" ⦂ typedef_u32;
    "rmid" ⦂ typedef_u32;
    "robust_list" ⦂ (ptr "struct robust_list_head");
    "compat_robust_list" ⦂ (ptr "struct compat_robust_list_head");
    "pi_state_list" ⦂ struct_list_head;
    "pi_state_cache" ⦂ (ptr "struct futex_pi_state");
    "futex_exit_mutex" ⦂ struct_mutex;
    "futex_state" ⦂ c_uint;
    "perf_recursion" ⦂ (CArr typedef_u8 4);
    "perf_event_ctxp" ⦂ (ptr "struct perf_event_context");
    "perf_event_mutex" ⦂ struct_mutex;
    "perf_event_list" ⦂ struct_list_head;
    "perf_ctx_data" ⦂ (ptr "struct perf_ctx_data");
    "mempolicy" ⦂ (ptr "struct mempolicy");
    "il_prev" ⦂ c_short;
    "il_weight" ⦂ typedef_u8;
    "pref_node_fork" ⦂ c_short;
    "numa_scan_seq" ⦂ c_int;
    "numa_scan_period" ⦂ c_uint;
    "numa_scan_period_max" ⦂ c_uint;
    "numa_preferred_nid" ⦂ c_int;
    "numa_migrate_retry" ⦂ c_ulong;
    "node_stamp" ⦂ typedef_u64;
    "last_task_numa_placement" ⦂ typedef_u64;
    "last_sum_exec_runtime" ⦂ typedef_u64;
    "numa_work" ⦂ struct_callback_head;
    "numa_group" ⦂ (ptr "struct numa_group");
    "numa_faults" ⦂ (ptr "long unsigned int");
    "total_numa_faults" ⦂ c_ulong;
    "numa_faults_locality" ⦂ (CArr c_ulong 3);
    "numa_pages_migrated" ⦂ c_ulong;
    "rseq" ⦂ (ptr "struct rseq");
    "rseq_len" ⦂ typedef_u32;
    "rseq_sig" ⦂ typedef_u32;
    "rseq_event_mask" ⦂ c_ulong;
    "mm_cid" ⦂ c_int;
    "last_mm_cid" ⦂ c_int;
    "migrate_from_cpu" ⦂ c_int;
    "mm_cid_active" ⦂ c_int;
    "cid_work" ⦂ struct_callback_head;
    "tlb_ubc" ⦂ struct_tlbflush_unmap_batch;
    "splice_pipe" ⦂ (ptr "struct pipe_inode_info");
    "task_frag" ⦂ struct_page_frag;
    "delays" ⦂ (ptr "struct task_delay_info");
    "nr_dirtied" ⦂ c_int;
    "nr_dirtied_pause" ⦂ c_int;
    "dirty_paused_when" ⦂ c_ulong;
    "timer_slack_ns" ⦂ typedef_u64;
    "default_timer_slack_ns" ⦂ typedef_u64;
    "curr_ret_stack" ⦂ c_int;
    "curr_ret_depth" ⦂ c_int;
    "ret_stack" ⦂ (ptr "long unsigned int");
    "ftrace_timestamp" ⦂ c_ullong;
    "ftrace_sleeptime" ⦂ c_ullong;
    "trace_overrun" ⦂ typedef_atomic_t;
    "tracing_graph_pause" ⦂ typedef_atomic_t;
    "trace_recursion" ⦂ c_ulong;
    "memcg_nr_pages_over_high" ⦂ c_uint;
    "active_memcg" ⦂ (ptr "struct mem_cgroup");
    "objcg" ⦂ (ptr "struct obj_cgroup");
    "throttle_disk" ⦂ (ptr "struct gendisk");
    "utask" ⦂ (ptr "struct uprobe_task");
    "sequential_io" ⦂ c_uint;
    "sequential_io_avg" ⦂ c_uint;
    "kmap_ctrl" ⦂ struct_kmap_ctrl;
    "rcu" ⦂ struct_callback_head;
    "rcu_users" ⦂ typedef_refcount_t;
    "pagefault_disabled" ⦂ c_int;
    "oom_reaper_list" ⦂ (ptr "struct task_struct");
    "oom_reaper_timer" ⦂ struct_timer_list;
    "stack_vm_area" ⦂ (ptr "struct vm_struct");
    "stack_refcount" ⦂ typedef_refcount_t;
    "security" ⦂ (ptr "void");
    "bpf_storage" ⦂ (ptr "struct bpf_local_storage");
    "bpf_ctx" ⦂ (ptr "struct bpf_run_ctx");
    "bpf_net_context" ⦂ (ptr "struct bpf_net_context");
    "mce_vaddr" ⦂ (ptr "void");
    "mce_kflags" ⦂ typedef___u64;
    "mce_addr" ⦂ typedef_u64;
    "mce_ripv" ⦂⟨ 1 ⟩ typedef___u64;
    "mce_whole_page" ⦂⟨ 1 ⟩ typedef___u64;
    "__mce_reserved" ⦂⟨ 62 ⟩ typedef___u64;
    "mce_kill_me" ⦂ struct_callback_head;
    "mce_count" ⦂ c_int;
    "kretprobe_instances" ⦂ struct_llist_head;
    "rethooks" ⦂ struct_llist_head;
    "l1d_flush_kill" ⦂ struct_callback_head;
    "user_event_mm" ⦂ (ptr "struct user_event_mm");
    "thread" ⦂ struct_thread_struct;
    "" ⦂⟨ 64 ⟩ c_long;
    "" ⦂⟨ 64 ⟩ c_long;
    "" ⦂⟨ 64 ⟩ c_long;
    "" ⦂⟨ 64 ⟩ c_long;
    "" ⦂⟨ 64 ⟩ c_long;
    "" ⦂⟨ 64 ⟩ c_long].

Definition struct_trace_entry : ctype :=
  Struct "trace_entry" [
    "type" ⦂ c_ushort;
    "flags" ⦂ c_uchar;
    "preempt_count" ⦂ c_uchar;
    "pid" ⦂ c_int].

Definition struct_trace_event_raw_sys_enter : ctype :=
  Struct "trace_event_raw_sys_enter" [
    "ent" ⦂ struct_trace_entry;
    "id" ⦂ c_long;
    "args" ⦂ (CArr c_ulong 6);
    "__data" ⦂ (CArr c_char 0)].

Definition struct_fred_cs : ctype :=
  Struct "fred_cs" [
    "cs" ⦂⟨ 16 ⟩ typedef_u64;
    "sl" ⦂⟨ 2 ⟩ typedef_u64;
    "wfe" ⦂⟨ 1 ⟩ typedef_u64].

Definition struct_fred_ss : ctype :=
  Struct "fred_ss" [
    "ss" ⦂⟨ 16 ⟩ typedef_u64;
    "sti" ⦂⟨ 1 ⟩ typedef_u64;
    "swevent" ⦂⟨ 1 ⟩ typedef_u64;
    "nmi" ⦂⟨ 1 ⟩ typedef_u64;
    "" ⦂⟨ 13 ⟩ c_int;
    "vector" ⦂⟨ 8 ⟩ typedef_u64;
    "" ⦂⟨ 8 ⟩ c_short;
    "type" ⦂⟨ 4 ⟩ typedef_u64;
    "" ⦂⟨ 4 ⟩ c_char;
    "enclave" ⦂⟨ 1 ⟩ typedef_u64;
    "lm" ⦂⟨ 1 ⟩ typedef_u64;
    "nested" ⦂⟨ 1 ⟩ typedef_u64;
    "" ⦂⟨ 1 ⟩ c_char;
    "insnlen" ⦂⟨ 4 ⟩ typedef_u64].

Definition struct_pt_regs : ctype :=
  Struct "pt_regs" [
    "r15" ⦂ c_ulong;
    "r14" ⦂ c_ulong;
    "r13" ⦂ c_ulong;
    "r12" ⦂ c_ulong;
    "bp" ⦂ c_ulong;
    "bx" ⦂ c_ulong;
    "r11" ⦂ c_ulong;
    "r10" ⦂ c_ulong;
    "r9" ⦂ c_ulong;
    "r8" ⦂ c_ulong;
    "ax" ⦂ c_ulong;
    "cx" ⦂ c_ulong;
    "dx" ⦂ c_ulong;
    "si" ⦂ c_ulong;
    "di" ⦂ c_ulong;
    "orig_ax" ⦂ c_ulong;
    "ip" ⦂ c_ulong;
    "" ⦂ (Union "" [
      "cs" ⦂ typedef_u16;
      "csx" ⦂ typedef_u64;
      "fred_cs" ⦂ struct_fred_cs]);
    "flags" ⦂ c_ulong;
    "sp" ⦂ c_ulong;
    "" ⦂ (Union "" [
      "ss" ⦂ typedef_u16;
      "ssx" ⦂ typedef_u64;
      "fred_ss" ⦂ struct_fred_ss])].

(** The tagged structures and unions of this file, by their C name. *)
Definition KTask_types : list (string * ctype) := [
  ("struct thread_info", struct_thread_info);
  ("struct llist_node", struct_llist_node);
  ("struct __call_single_node", struct___call_single_node);
  ("struct load_weight", struct_load_weight);
  ("struct sched_avg", struct_sched_avg);
  ("struct sched_entity", struct_sched_entity);
  ("struct sched_rt_entity", struct_sched_rt_entity);
  ("struct sched_dl_entity", struct_sched_dl_entity);
  ("struct scx_dsq_list_node", struct_scx_dsq_list_node);
  ("struct sched_ext_entity", struct_sched_ext_entity);
  ("struct uclamp_se", struct_uclamp_se);
  ("struct sched_statistics", struct_sched_statistics);
  ("struct cpumask", struct_cpumask);
  ("union rcu_special", union_rcu_special);
  ("struct sched_info", struct_sched_info);
  ("struct plist_node", struct_plist_node);
  ("struct restart_block", struct_restart_block);
  ("struct vtime", struct_vtime);
  ("struct rb_root_cached", struct_rb_root_cached);
  ("struct timerqueue_head", struct_timerqueue_head);
  ("struct posix_cputimer_base", struct_posix_cputimer_base);
  ("struct posix_cputimers", struct_posix_cputimers);
  ("struct posix_cputimers_work", struct_posix_cputimers_work);
  ("struct sysv_sem", struct_sysv_sem);
  ("struct sysv_shm", struct_sysv_shm);
  ("struct sigpending", struct_sigpending);
  ("struct seccomp", struct_seccomp);
  ("struct syscall_user_dispatch", struct_syscall_user_dispatch);
  ("struct wake_q_node", struct_wake_q_node);
  ("struct task_io_accounting", struct_task_io_accounting);
  ("struct arch_tlbflush_unmap_batch", struct_arch_tlbflush_unmap_batch);
  ("struct tlbflush_unmap_batch", struct_tlbflush_unmap_batch);
  ("struct kmap_ctrl", struct_kmap_ctrl);
  ("struct llist_head", struct_llist_head);
  ("struct desc_struct", struct_desc_struct);
  ("struct thread_shstk", struct_thread_shstk);
  ("struct thread_struct", struct_thread_struct);
  ("struct task_struct", struct_task_struct);
  ("struct trace_entry", struct_trace_entry);
  ("struct trace_event_raw_sys_enter", struct_trace_event_raw_sys_enter);
  ("struct fred_cs", struct_fred_cs);
  ("struct fred_ss", struct_fred_ss);
  ("struct pt_regs", struct_pt_regs)].
