(* ===== verification/KCgroup.v ===== *)
(** * Cgroup types

    The cgroup objects behind the cgroup id that the probes record
    ([struct css_set], [struct cgroup], [struct kernfs_node]) of
    [bpf/headers/vmlinux.h], with every type they embed by value. *)

From S2P Require Import Prelude.
From S2P Require Import CLayout.
From S2P Require Import KBase.
From S2P Require Import KNet.
From S2P Require Import KTask.

Open Scope N_scope.
Open Scope clayout_scope.

Definition struct_css_set : ctype :=
  Struct "css_set" [
    "subsys" ⦂ (CArr (ptr "struct cgroup_subsys_state") 15);
    "refcount" ⦂ typedef_refcount_t;
    "dom_cset" ⦂ (ptr "struct css_set");
    "dfl_cgrp" ⦂ (ptr "struct cgroup");
    "nr_tasks" ⦂ c_int;
    "tasks" ⦂ struct_list_head;
    "mg_tasks" ⦂ struct_list_head;
    "dying_tasks" ⦂ struct_list_head;
    "task_iters" ⦂ struct_list_head;
    "e_cset_node" ⦂ (CArr struct_list_head 15);
    "threaded_csets" ⦂ struct_list_head;
    "threaded_csets_node" ⦂ struct_list_head;
    "hlist" ⦂ struct_hlist_node;
    "cgrp_links" ⦂ struct_list_head;
    "mg_src_preload_node" ⦂ struct_list_head;
    "mg_dst_preload_node" ⦂ struct_list_head;
    "mg_node" ⦂ struct_list_head;
    "mg_src_cgrp" ⦂ (ptr "struct cgroup");
    "mg_dst_cgrp" ⦂ (ptr "struct cgroup");
    "mg_dst_cset" ⦂ (ptr "struct css_set");
    "dead" ⦂ typedef_bool;
    "callback_head" ⦂ struct_callback_head].

Definition struct_percpu_ref : ctype :=
  Struct "percpu_ref" [
    "percpu_count_ptr" ⦂ c_ulong;
    "data" ⦂ (ptr "struct percpu_ref_data")].

Definition typedef_work_func_t : ctype :=
  ptr "function".

Definition struct_work_struct : ctype :=
  Struct "work_struct" [
    "data" ⦂ typedef_atomic_long_t;
    "entry" ⦂ struct_list_head;
    "func" ⦂ typedef_work_func_t].

Definition struct_rcu_work : ctype :=
  Struct "rcu_work" [
    "work" ⦂ struct_work_struct;
    "rcu" ⦂ struct_callback_head;
    "wq" ⦂ (ptr "struct workqueue_struct")].

Definition struct_cgroup_subsys_state : ctype :=
  Struct "cgroup_subsys_state" [
    "cgroup" ⦂ (ptr "struct cgroup");
    "ss" ⦂ (ptr "struct cgroup_subsys");
    "refcnt" ⦂ struct_percpu_ref;
    "rstat_cpu" ⦂ (ptr "struct css_rstat_cpu");
    "sibling" ⦂ struct_list_head;
    "children" ⦂ struct_list_head;
    "id" ⦂ c_int;
    "flags" ⦂ c_uint;
    "serial_nr" ⦂ typedef_u64;
    "online_cnt" ⦂ typedef_atomic_t;
    "destroy_work" ⦂ struct_work_struct;
    "destroy_rwork" ⦂ struct_rcu_work;
    "parent" ⦂ (ptr "struct cgroup_subsys_state");
    "nr_descendants" ⦂ c_int;
    "rstat_flush_next" ⦂ (ptr "struct cgroup_subsys_state")].

Definition struct_cgroup_file : ctype :=
  Struct "cgroup_file" [
    "kn" ⦂ (ptr "struct kernfs_node");
    "notified_at" ⦂ c_ulong;
    "notify_timer" ⦂ struct_timer_list].

Definition struct_cacheline_padding : ctype :=
  Struct "cacheline_padding" [
    "x" ⦂ (CArr c_char 0)].

Definition struct_task_cputime : ctype :=
  Struct "task_cputime" [
    "stime" ⦂ typedef_u64;
    "utime" ⦂ typedef_u64;
    "sum_exec_runtime" ⦂ c_ullong].

Definition struct_cgroup_base_stat : ctype :=
  Struct "cgroup_base_stat" [
    "cputime" ⦂ struct_task_cputime;
    "forceidle_sum" ⦂ typedef_u64;
    "ntime" ⦂ typedef_u64].

Definition struct_cgroup_bpf : ctype :=
  Struct "cgroup_bpf" [
    "effective" ⦂ (CArr (ptr "struct bpf_prog_array") 38);
    "progs" ⦂ (CArr struct_hlist_head 38);
    "flags" ⦂ (CArr typedef_u8 38);
    "revisions" ⦂ (CArr typedef_u64 38);
    "storages" ⦂ struct_list_head;
    "inactive" ⦂ (ptr "struct bpf_prog_array");
    "refcnt" ⦂ struct_percpu_ref;
    "release_work" ⦂ struct_work_struct].

Definition struct_cgroup_freezer_state : ctype :=
  Struct "cgroup_freezer_state" [
    "freeze" ⦂ typedef_bool;
    "e_freeze" ⦂ typedef_bool;
    "nr_frozen_descendants" ⦂ c_int;
    "nr_frozen_tasks" ⦂ c_int;
    "freeze_seq" ⦂ typedef_seqcount_spinlock_t;
    "freeze_start_nsec" ⦂ typedef_u64;
    "frozen_nsec" ⦂ typedef_u64].

Definition struct_cgroup : ctype :=
  Struct "cgroup" [
    "self" ⦂ struct_cgroup_subsys_state;
    "flags" ⦂ c_ulong;
    "level" ⦂ c_int;
    "max_depth" ⦂ c_int;
    "nr_descendants" ⦂ c_int;
    "nr_dying_descendants" ⦂ c_int;
    "max_descendants" ⦂ c_int;
    "nr_populated_csets" ⦂ c_int;
    "nr_populated_domain_children" ⦂ c_int;
    "nr_populated_threaded_children" ⦂ c_int;
    "nr_threaded_children" ⦂ c_int;
    "kill_seq" ⦂ c_uint;
    "kn" ⦂ (ptr "struct kernfs_node");
    "procs_file" ⦂ struct_cgroup_file;
    "events_file" ⦂ struct_cgroup_file;
    "psi_files" ⦂ (CArr struct_cgroup_file 4);
    "subtree_control" ⦂ typedef_u16;
    "subtree_ss_mask" ⦂ typedef_u16;
    "old_subtree_control" ⦂ typedef_u16;
    "old_subtree_ss_mask" ⦂ typedef_u16;
    "subsys" ⦂ (CArr (ptr "struct cgroup_subsys_state") 15);
    "nr_dying_subsys" ⦂ (CArr c_int 15);
    "root" ⦂ (ptr "struct cgroup_root");
    "cset_links" ⦂ struct_list_head;
    "e_csets" ⦂ (CArr struct_list_head 15);
    "dom_cgrp" ⦂ (ptr "struct cgroup");
    "old_dom_cgrp" ⦂ (ptr "struct cgroup");
    "rstat_base_cpu" ⦂ (ptr "struct cgroup_rstat_base_cpu");
    "" ⦂⟨ 64 ⟩ c_long;
    "_pad_" ⦂ struct_cacheline_padding;
    "last_bstat" ⦂ struct_cgroup_base_stat;
    "bstat" ⦂ struct_cgroup_base_stat;
    "prev_cputime" ⦂ struct_prev_cputime;
    "pidlists" ⦂ struct_list_head;
    "pidlist_mutex" ⦂ struct_mutex;
    "offline_waitq" ⦂ typedef_wait_queue_head_t;
    "release_agent_work" ⦂ struct_work_struct;
    "psi" ⦂ (ptr "struct psi_group");
    "bpf" ⦂ struct_cgroup_bpf;
    "freezer" ⦂ struct_cgroup_freezer_state;
    "bpf_cgrp_storage" ⦂ (ptr "struct bpf_local_storage");
    "ancestors" ⦂ (CArr (ptr "struct cgroup") 0)].

Definition typedef_umode_t : ctype :=
  c_ushort.

Definition struct_kernfs_elem_dir : ctype :=
  Struct "kernfs_elem_dir" [
    "subdirs" ⦂ c_ulong;
    "children" ⦂ struct_rb_root;
    "root" ⦂ (ptr "struct kernfs_root");
    "rev" ⦂ c_ulong].

Definition struct_kernfs_elem_symlink : ctype :=
  Struct "kernfs_elem_symlink" [
    "target_kn" ⦂ (ptr "struct kernfs_node")].

Definition typedef___kernel_loff_t : ctype :=
  c_llong.

Definition typedef_loff_t : ctype :=
  typedef___kernel_loff_t.

Definition struct_kernfs_elem_attr : ctype :=
  Struct "kernfs_elem_attr" [
    "ops" ⦂ (ptr "struct kernfs_ops");
    "open" ⦂ (ptr "struct kernfs_open_node");
    "size" ⦂ typedef_loff_t;
    "notify_next" ⦂ (ptr "struct kernfs_node")].

Definition struct_kernfs_node : ctype :=
  Struct "kernfs_node" [
    "count" ⦂ typedef_atomic_t;
    "active" ⦂ typedef_atomic_t;
    "__parent" ⦂ (ptr "struct kernfs_node");
    "name" ⦂ (ptr "char");
    "rb" ⦂ struct_rb_node;
    "ns" ⦂ (ptr "void");
    "hash" ⦂ c_uint;
    "flags" ⦂ c_ushort;
    "mode" ⦂ typedef_umode_t;
    "" ⦂ (Union "" [
      "dir" ⦂ struct_kernfs_elem_dir;
      "symlink" ⦂ struct_kernfs_elem_symlink;
      "attr" ⦂ struct_kernfs_elem_attr]);
    "id" ⦂ typedef_u64;
    "priv" ⦂ (ptr "void");
    "iattr" ⦂ (ptr "struct kernfs_iattrs");
    "rcu" ⦂ struct_callback_head].

(** The tagged structures and unions of this file, by their C name. *)
Definition KCgroup_types : list (string * ctype) := [
  ("struct css_set", struct_css_set);
  ("struct percpu_ref", struct_percpu_ref);
  ("struct work_struct", struct_work_struct);
  ("struct rcu_work", struct_rcu_work);
  ("struct cgroup_subsys_state", struct_cgroup_subsys_state);
  ("struct cgroup_file", struct_cgroup_file);
  ("struct cacheline_padding", struct_cacheline_padding);
  ("struct task_cputime", struct_task_cputime);
  ("struct cgroup_base_stat", struct_cgroup_base_stat);
  ("struct cgroup_bpf", struct_cgroup_bpf);
  ("struct cgroup_freezer_state", struct_cgroup_freezer_state);
  ("struct cgroup", struct_cgroup);
  ("struct kernfs_elem_dir", struct_kernfs_elem_dir);
  ("struct kernfs_elem_symlink", struct_kernfs_elem_symlink);
  ("struct kernfs_elem_attr", struct_kernfs_elem_attr);
  ("struct kernfs_node", struct_kernfs_node)].
