(* ===== verification/KNetRefs.v ===== *)
(** * Objects a socket points to

    The structures of [bpf/headers/vmlinux.h] that a pointer member of
    [struct sock_common] or [struct sock] refers to, with every type they
    embed by value. *)

From S2P Require Import Prelude.
From S2P Require Import CLayout.
From S2P Require Import KBase.
From S2P Require Import KNet.
From S2P Require Import KTask.
From S2P Require Import KCgroup.

Open Scope N_scope.
Open Scope clayout_scope.

Definition typedef_slab_flags_t : ctype :=
  c_uint.

Definition struct_proto : ctype :=
  Struct "proto" [
    "close" ⦂ (ptr "function");
    "pre_connect" ⦂ (ptr "function");
    "connect" ⦂ (ptr "function");
    "disconnect" ⦂ (ptr "function");
    "accept" ⦂ (ptr "function");
    "ioctl" ⦂ (ptr "function");
    "init" ⦂ (ptr "function");
    "destroy" ⦂ (ptr "function");
    "shutdown" ⦂ (ptr "function");
    "setsockopt" ⦂ (ptr "function");
    "getsockopt" ⦂ (ptr "function");
    "keepalive" ⦂ (ptr "function");
    "compat_ioctl" ⦂ (ptr "function");
    "sendmsg" ⦂ (ptr "function");
    "recvmsg" ⦂ (ptr "function");
    "splice_eof" ⦂ (ptr "function");
    "bind" ⦂ (ptr "function");
    "bind_add" ⦂ (ptr "function");
    "backlog_rcv" ⦂ (ptr "function");
    "bpf_bypass_getsockopt" ⦂ (ptr "function");
    "release_cb" ⦂ (ptr "function");
    "hash" ⦂ (ptr "function");
    "unhash" ⦂ (ptr "function");
    "rehash" ⦂ (ptr "function");
    "get_port" ⦂ (ptr "function");
    "put_port" ⦂ (ptr "function");
    "psock_update_sk_prot" ⦂ (ptr "function");
    "inuse_idx" ⦂ c_uint;
    "stream_memory_free" ⦂ (ptr "function");
    "sock_is_readable" ⦂ (ptr "function");
    "enter_memory_pressure" ⦂ (ptr "function");
    "leave_memory_pressure" ⦂ (ptr "function");
    "memory_allocated" ⦂ (ptr "atomic_long_t");
    "per_cpu_fw_alloc" ⦂ (ptr "int");
    "sockets_allocated" ⦂ (ptr "struct percpu_counter");
    "memory_pressure" ⦂ (ptr "long unsigned int");
    "sysctl_mem" ⦂ (ptr "long int");
    "sysctl_wmem" ⦂ (ptr "int");
    "sysctl_rmem" ⦂ (ptr "int");
    "sysctl_wmem_offset" ⦂ typedef_u32;
    "sysctl_rmem_offset" ⦂ typedef_u32;
    "max_header" ⦂ c_int;
    "no_autobind" ⦂ typedef_bool;
    "slab" ⦂ (ptr "struct kmem_cache");
    "obj_size" ⦂ c_uint;
    "ipv6_pinfo_offset" ⦂ c_uint;
    "slab_flags" ⦂ typedef_slab_flags_t;
    "useroffset" ⦂ c_uint;
    "usersize" ⦂ c_uint;
    "rsk_prot" ⦂ (ptr "struct request_sock_ops");
    "twsk_prot" ⦂ (ptr "struct timewait_sock_ops");
    "h" ⦂ (Union "" [
      "hashinfo" ⦂ (ptr "struct inet_hashinfo");
      "udp_table" ⦂ (ptr "struct udp_table");
      "raw_hash" ⦂ (ptr "struct raw_hashinfo");
      "smc_hash" ⦂ (ptr "struct smc_hashinfo")]);
    "owner" ⦂ (ptr "struct module");
    "name" ⦂ (CArr c_char 32);
    "node" ⦂ struct_list_head;
    "diag_destroy" ⦂ (ptr "function")].

Definition struct_inet_timewait_death_row : ctype :=
  Struct "inet_timewait_death_row" [
    "tw_refcount" ⦂ typedef_refcount_t;
    "" ⦂⟨ 64 ⟩ c_long;
    "" ⦂⟨ 64 ⟩ c_long;
    "" ⦂⟨ 64 ⟩ c_long;
    "" ⦂⟨ 64 ⟩ c_long;
    "" ⦂⟨ 64 ⟩ c_long;
    "" ⦂⟨ 64 ⟩ c_long;
    "" ⦂⟨ 64 ⟩ c_long;
    "hashinfo" ⦂ (ptr "struct inet_hashinfo");
    "sysctl_max_tw_buckets" ⦂ c_int;
    "" ⦂⟨ 64 ⟩ c_long;
    "" ⦂⟨ 64 ⟩ c_long;
    "" ⦂⟨ 64 ⟩ c_long;
    "" ⦂⟨ 64 ⟩ c_long;
    "" ⦂⟨ 64 ⟩ c_long;
    "" ⦂⟨ 64 ⟩ c_long].

Definition typedef___wsum : ctype :=
  typedef___u32.

Definition typedef_sk_buff_data_t : ctype :=
  c_uint.

Definition struct_sk_buff : ctype :=
  Struct "sk_buff" [
    "" ⦂ (Union "" [
      "" ⦂ (Struct "" [
        "next" ⦂ (ptr "struct sk_buff");
        "prev" ⦂ (ptr "struct sk_buff");
        "" ⦂ (Union "" [
          "dev" ⦂ (ptr "struct net_device");
          "dev_scratch" ⦂ c_ulong])]);
      "rbnode" ⦂ struct_rb_node;
      "list" ⦂ struct_list_head;
      "ll_node" ⦂ struct_llist_node]);
    "sk" ⦂ (ptr "struct sock");
    "" ⦂ (Union "" [
      "tstamp" ⦂ typedef_ktime_t;
      "skb_mstamp_ns" ⦂ typedef_u64]);
    "cb" ⦂ (CArr c_char 48);
    "" ⦂ (Union "" [
      "" ⦂ (Struct "" [
        "_skb_refdst" ⦂ c_ulong;
        "destructor" ⦂ (ptr "function")]);
      "tcp_tsorted_anchor" ⦂ struct_list_head;
      "_sk_redir" ⦂ c_ulong]);
    "_nfct" ⦂ c_ulong;
    "len" ⦂ c_uint;
    "data_len" ⦂ c_uint;
    "mac_len" ⦂ typedef___u16;
    "hdr_len" ⦂ typedef___u16;
    "queue_mapping" ⦂ typedef___u16;
    "__cloned_offset" ⦂ (CArr typedef___u8 0);
    "cloned" ⦂⟨ 1 ⟩ typedef___u8;
    "nohdr" ⦂⟨ 1 ⟩ typedef___u8;
    "fclone" ⦂⟨ 2 ⟩ typedef___u8;
    "peeked" ⦂⟨ 1 ⟩ typedef___u8;
    "head_frag" ⦂⟨ 1 ⟩ typedef___u8;
    "pfmemalloc" ⦂⟨ 1 ⟩ typedef___u8;
    "pp_recycle" ⦂⟨ 1 ⟩ typedef___u8;
    "active_extensions" ⦂ typedef___u8;
    "" ⦂ (Union "" [
      "" ⦂ (Struct "" [
        "__pkt_type_offset" ⦂ (CArr typedef___u8 0);
        "pkt_type" ⦂⟨ 3 ⟩ typedef___u8;
        "ignore_df" ⦂⟨ 1 ⟩ typedef___u8;
        "dst_pending_confirm" ⦂⟨ 1 ⟩ typedef___u8;
        "ip_summed" ⦂⟨ 2 ⟩ typedef___u8;
        "ooo_okay" ⦂⟨ 1 ⟩ typedef___u8;
        "__mono_tc_offset" ⦂ (CArr typedef___u8 0);
        "tstamp_type" ⦂⟨ 2 ⟩ typedef___u8;
        "tc_at_ingress" ⦂⟨ 1 ⟩ typedef___u8;
        "tc_skip_classify" ⦂⟨ 1 ⟩ typedef___u8;
        "remcsum_offload" ⦂⟨ 1 ⟩ typedef___u8;
        "csum_complete_sw" ⦂⟨ 1 ⟩ typedef___u8;
        "csum_level" ⦂⟨ 2 ⟩ typedef___u8;
        "inner_protocol_type" ⦂⟨ 1 ⟩ typedef___u8;
        "l4_hash" ⦂⟨ 1 ⟩ typedef___u8;
        "sw_hash" ⦂⟨ 1 ⟩ typedef___u8;
        "wifi_acked_valid" ⦂⟨ 1 ⟩ typedef___u8;
        "wifi_acked" ⦂⟨ 1 ⟩ typedef___u8;
        "no_fcs" ⦂⟨ 1 ⟩ typedef___u8;
        "encapsulation" ⦂⟨ 1 ⟩ typedef___u8;
        "encap_hdr_csum" ⦂⟨ 1 ⟩ typedef___u8;
        "csum_valid" ⦂⟨ 1 ⟩ typedef___u8;
        "ndisc_nodetype" ⦂⟨ 2 ⟩ typedef___u8;
        "ipvs_property" ⦂⟨ 1 ⟩ typedef___u8;
        "nf_trace" ⦂⟨ 1 ⟩ typedef___u8;
        "offload_fwd_mark" ⦂⟨ 1 ⟩ typedef___u8;
        "offload_l3_fwd_mark" ⦂⟨ 1 ⟩ typedef___u8;
        "redirected" ⦂⟨ 1 ⟩ typedef___u8;
        "from_ingress" ⦂⟨ 1 ⟩ typedef___u8;
        "nf_skip_egress" ⦂⟨ 1 ⟩ typedef___u8;
        "decrypted" ⦂⟨ 1 ⟩ typedef___u8;
        "slow_gro" ⦂⟨ 1 ⟩ typedef___u8;
        "csum_not_inet" ⦂⟨ 1 ⟩ typedef___u8;
        "unreadable" ⦂⟨ 1 ⟩ typedef___u8;
        "tc_index" ⦂ typedef___u16;
        "alloc_cpu" ⦂ typedef_u16;
        "" ⦂ (Union "" [
          "csum" ⦂ typedef___wsum;
          "" ⦂ (Struct "" [
            "csum_start" ⦂ typedef___u16;
            "csum_offset" ⦂ typedef___u16])]);
        "priority" ⦂ typedef___u32;
        "skb_iif" ⦂ c_int;
        "hash" ⦂ typedef___u32;
        "" ⦂ (Union "" [
          "vlan_all" ⦂ typedef_u32;
          "" ⦂ (Struct "" [
            "vlan_proto" ⦂ typedef___be16;
            "vlan_tci" ⦂ typedef___u16])]);
        "" ⦂ (Union "" [
          "napi_id" ⦂ c_uint;
          "sender_cpu" ⦂ c_uint]);
        "secmark" ⦂ typedef___u32;
        "" ⦂ (Union "" [
          "mark" ⦂ typedef___u32;
          "reserved_tailroom" ⦂ typedef___u32]);
        "" ⦂ (Union "" [
          "inner_protocol" ⦂ typedef___be16;
          "inner_ipproto" ⦂ typedef___u8]);
        "inner_transport_header" ⦂ typedef___u16;
        "inner_network_header" ⦂ typedef___u16;
        "inner_mac_header" ⦂ typedef___u16;
        "protocol" ⦂ typedef___be16;
        "transport_header" ⦂ typedef___u16;
        "network_header" ⦂ typedef___u16;
        "mac_header" ⦂ typedef___u16]);
      "headers" ⦂ (Struct "" [
        "__pkt_type_offset" ⦂ (CArr typedef___u8 0);
        "pkt_type" ⦂⟨ 3 ⟩ typedef___u8;
        "ignore_df" ⦂⟨ 1 ⟩ typedef___u8;
        "dst_pending_confirm" ⦂⟨ 1 ⟩ typedef___u8;
        "ip_summed" ⦂⟨ 2 ⟩ typedef___u8;
        "ooo_okay" ⦂⟨ 1 ⟩ typedef___u8;
        "__mono_tc_offset" ⦂ (CArr typedef___u8 0);
        "tstamp_type" ⦂⟨ 2 ⟩ typedef___u8;
        "tc_at_ingress" ⦂⟨ 1 ⟩ typedef___u8;
        "tc_skip_classify" ⦂⟨ 1 ⟩ typedef___u8;
        "remcsum_offload" ⦂⟨ 1 ⟩ typedef___u8;
        "csum_complete_sw" ⦂⟨ 1 ⟩ typedef___u8;
        "csum_level" ⦂⟨ 2 ⟩ typedef___u8;
        "inner_protocol_type" ⦂⟨ 1 ⟩ typedef___u8;
        "l4_hash" ⦂⟨ 1 ⟩ typedef___u8;
        "sw_hash" ⦂⟨ 1 ⟩ typedef___u8;
        "wifi_acked_valid" ⦂⟨ 1 ⟩ typedef___u8;
        "wifi_acked" ⦂⟨ 1 ⟩ typedef___u8;
        "no_fcs" ⦂⟨ 1 ⟩ typedef___u8;
        "encapsulation" ⦂⟨ 1 ⟩ typedef___u8;
        "encap_hdr_csum" ⦂⟨ 1 ⟩ typedef___u8;
        "csum_valid" ⦂⟨ 1 ⟩ typedef___u8;
        "ndisc_nodetype" ⦂⟨ 2 ⟩ typedef___u8;
        "ipvs_property" ⦂⟨ 1 ⟩ typedef___u8;
        "nf_trace" ⦂⟨ 1 ⟩ typedef___u8;
        "offload_fwd_mark" ⦂⟨ 1 ⟩ typedef___u8;
        "offload_l3_fwd_mark" ⦂⟨ 1 ⟩ typedef___u8;
        "redirected" ⦂⟨ 1 ⟩ typedef___u8;
        "from_ingress" ⦂⟨ 1 ⟩ typedef___u8;
        "nf_skip_egress" ⦂⟨ 1 ⟩ typedef___u8;
        "decrypted" ⦂⟨ 1 ⟩ typedef___u8;
        "slow_gro" ⦂⟨ 1 ⟩ typedef___u8;
        "csum_not_inet" ⦂⟨ 1 ⟩ typedef___u8;
        "unreadable" ⦂⟨ 1 ⟩ typedef___u8;
        "tc_index" ⦂ typedef___u16;
        "alloc_cpu" ⦂ typedef_u16;
        "" ⦂ (Union "" [
          "csum" ⦂ typedef___wsum;
          "" ⦂ (Struct "" [
            "csum_start" ⦂ typedef___u16;
            "csum_offset" ⦂ typedef___u16])]);
        "priority" ⦂ typedef___u32;
        "skb_iif" ⦂ c_int;
        "hash" ⦂ typedef___u32;
        "" ⦂ (Union "" [
          "vlan_all" ⦂ typedef_u32;
          "" ⦂ (Struct "" [
            "vlan_proto" ⦂ typedef___be16;
            "vlan_tci" ⦂ typedef___u16])]);
        "" ⦂ (Union "" [
          "napi_id" ⦂ c_uint;
          "sender_cpu" ⦂ c_uint]);
        "secmark" ⦂ typedef___u32;
        "" ⦂ (Union "" [
          "mark" ⦂ typedef___u32;
          "reserved_tailroom" ⦂ typedef___u32]);
        "" ⦂ (Union "" [
          "inner_protocol" ⦂ typedef___be16;
          "inner_ipproto" ⦂ typedef___u8]);
        "inner_transport_header" ⦂ typedef___u16;
        "inner_network_header" ⦂ typedef___u16;
        "inner_mac_header" ⦂ typedef___u16;
        "protocol" ⦂ typedef___be16;
        "transport_header" ⦂ typedef___u16;
        "network_header" ⦂ typedef___u16;
        "mac_header" ⦂ typedef___u16])]);
    "tail" ⦂ typedef_sk_buff_data_t;
    "end" ⦂ typedef_sk_buff_data_t;
    "head" ⦂ (ptr "unsigned char");
    "data" ⦂ (ptr "unsigned char");
    "truesize" ⦂ c_uint;
    "users" ⦂ typedef_refcount_t;
    "extensions" ⦂ (ptr "struct skb_ext")].

Definition typedef_rcuref_t : ctype :=
  Struct "" [
    "refcnt" ⦂ typedef_atomic_t].

Definition typedef_netdevice_tracker : ctype :=
  Struct "" [].

Definition struct_dst_entry : ctype :=
  Struct "dst_entry" [
    "" ⦂ (Union "" [
      "dev" ⦂ (ptr "struct net_device");
      "dev_rcu" ⦂ (ptr "struct net_device")]);
    "ops" ⦂ (ptr "struct dst_ops");
    "_metrics" ⦂ c_ulong;
    "expires" ⦂ c_ulong;
    "xfrm" ⦂ (ptr "struct xfrm_state");
    "input" ⦂ (ptr "function");
    "output" ⦂ (ptr "function");
    "flags" ⦂ c_ushort;
    "obsolete" ⦂ c_short;
    "header_len" ⦂ c_ushort;
    "trailer_len" ⦂ c_ushort;
    "__rcuref" ⦂ typedef_rcuref_t;
    "__use" ⦂ c_int;
    "lastuse" ⦂ c_ulong;
    "callback_head" ⦂ struct_callback_head;
    "error" ⦂ c_short;
    "__pad" ⦂ c_short;
    "tclassid" ⦂ typedef___u32;
    "dev_tracker" ⦂ typedef_netdevice_tracker;
    "rt_uncached" ⦂ struct_list_head;
    "rt_uncached_list" ⦂ (ptr "struct uncached_list");
    "lwtstate" ⦂ (ptr "struct lwtunnel_state")].

Definition struct_sk_filter : ctype :=
  Struct "sk_filter" [
    "refcnt" ⦂ typedef_refcount_t;
    "rcu" ⦂ struct_callback_head;
    "prog" ⦂ (ptr "struct bpf_prog")].

Definition struct_socket_wq : ctype :=
  Struct "socket_wq" [
    "wait" ⦂ typedef_wait_queue_head_t;
    "fasync_list" ⦂ (ptr "struct fasync_struct");
    "flags" ⦂ c_ulong;
    "rcu" ⦂ struct_callback_head;
    "" ⦂⟨ 64 ⟩ c_long].

Definition typedef_socket_state : ctype :=
  CEnum "" I32 [
    ("SS_FREE", (0)%Z);
    ("SS_UNCONNECTED", (1)%Z);
    ("SS_CONNECTING", (2)%Z);
    ("SS_CONNECTED", (3)%Z);
    ("SS_DISCONNECTING", (4)%Z)].

Definition struct_socket : ctype :=
  Struct "socket" [
    "state" ⦂ typedef_socket_state;
    "type" ⦂ c_short;
    "flags" ⦂ c_ulong;
    "file" ⦂ (ptr "struct file");
    "sk" ⦂ (ptr "struct sock");
    "ops" ⦂ (ptr "struct proto_ops");
    "" ⦂⟨ 64 ⟩ c_long;
    "" ⦂⟨ 64 ⟩ c_long;
    "" ⦂⟨ 64 ⟩ c_long;
    "wq" ⦂ struct_socket_wq].

Definition struct_mem_cgroup_id : ctype :=
  Struct "mem_cgroup_id" [
    "id" ⦂ c_int;
    "ref" ⦂ typedef_refcount_t].

Definition struct_page_counter : ctype :=
  Struct "page_counter" [
    "usage" ⦂ typedef_atomic_long_t;
    "failcnt" ⦂ c_ulong;
    "" ⦂⟨ 64 ⟩ c_long;
    "" ⦂⟨ 64 ⟩ c_long;
    "" ⦂⟨ 64 ⟩ c_long;
    "" ⦂⟨ 64 ⟩ c_long;
    "" ⦂⟨ 64 ⟩ c_long;
    "" ⦂⟨ 64 ⟩ c_long;
    "_pad1_" ⦂ struct_cacheline_padding;
    "emin" ⦂ c_ulong;
    "min_usage" ⦂ typedef_atomic_long_t;
    "children_min_usage" ⦂ typedef_atomic_long_t;
    "elow" ⦂ c_ulong;
    "low_usage" ⦂ typedef_atomic_long_t;
    "children_low_usage" ⦂ typedef_atomic_long_t;
    "watermark" ⦂ c_ulong;
    "local_watermark" ⦂ c_ulong;
    "_pad2_" ⦂ struct_cacheline_padding;
    "protection_support" ⦂ typedef_bool;
    "track_failcnt" ⦂ typedef_bool;
    "min" ⦂ c_ulong;
    "low" ⦂ c_ulong;
    "high" ⦂ c_ulong;
    "max" ⦂ c_ulong;
    "parent" ⦂ (ptr "struct page_counter");
    "" ⦂⟨ 64 ⟩ c_long;
    "" ⦂⟨ 64 ⟩ c_long].

Definition struct_vmpressure : ctype :=
  Struct "vmpressure" [
    "scanned" ⦂ c_ulong;
    "reclaimed" ⦂ c_ulong;
    "tree_scanned" ⦂ c_ulong;
    "tree_reclaimed" ⦂ c_ulong;
    "sr_lock" ⦂ typedef_spinlock_t;
    "events" ⦂ struct_list_head;
    "events_lock" ⦂ struct_mutex;
    "work" ⦂ struct_work_struct].

Definition struct_percpu_counter : ctype :=
  Struct "percpu_counter" [
    "lock" ⦂ typedef_raw_spinlock_t;
    "count" ⦂ typedef_s64;
    "list" ⦂ struct_list_head;
    "counters" ⦂ (ptr "s32")].

Definition struct_fprop_global : ctype :=
  Struct "fprop_global" [
    "events" ⦂ struct_percpu_counter;
    "period" ⦂ c_uint;
    "sequence" ⦂ typedef_seqcount_t].

Definition struct_wb_domain : ctype :=
  Struct "wb_domain" [
    "lock" ⦂ typedef_spinlock_t;
    "completions" ⦂ struct_fprop_global;
    "period_timer" ⦂ struct_timer_list;
    "period_time" ⦂ c_ulong;
    "dirty_limit_tstamp" ⦂ c_ulong;
    "dirty_limit" ⦂ c_ulong].

Definition struct_wb_completion : ctype :=
  Struct "wb_completion" [
    "cnt" ⦂ typedef_atomic_t;
    "waitq" ⦂ (ptr "wait_queue_head_t")].

Definition struct_memcg_cgwb_frn : ctype :=
  Struct "memcg_cgwb_frn" [
    "bdi_id" ⦂ typedef_u64;
    "memcg_id" ⦂ c_int;
    "at" ⦂ typedef_u64;
    "done" ⦂ struct_wb_completion].

Definition struct_deferred_split : ctype :=
  Struct "deferred_split" [
    "split_queue_lock" ⦂ typedef_spinlock_t;
    "split_queue" ⦂ struct_list_head;
    "split_queue_len" ⦂ c_ulong].

Definition struct_lru_gen_mm_list : ctype :=
  Struct "lru_gen_mm_list" [
    "fifo" ⦂ struct_list_head;
    "lock" ⦂ typedef_spinlock_t].

Definition struct_mem_cgroup : ctype :=
  Struct "mem_cgroup" [
    "css" ⦂ struct_cgroup_subsys_state;
    "id" ⦂ struct_mem_cgroup_id;
    "" ⦂⟨ 64 ⟩ c_long;
    "" ⦂⟨ 64 ⟩ c_long;
    "" ⦂⟨ 64 ⟩ c_long;
    "" ⦂⟨ 64 ⟩ c_long;
    "" ⦂⟨ 64 ⟩ c_long;
    "memory" ⦂ struct_page_counter;
    "" ⦂ (Union "" [
      "swap" ⦂ struct_page_counter;
      "memsw" ⦂ struct_page_counter]);
    "memory_peaks" ⦂ struct_list_head;
    "swap_peaks" ⦂ struct_list_head;
    "peaks_lock" ⦂ typedef_spinlock_t;
    "high_work" ⦂ struct_work_struct;
    "zswap_max" ⦂ c_ulong;
    "zswap_writeback" ⦂ typedef_bool;
    "vmpressure" ⦂ struct_vmpressure;
    "oom_group" ⦂ typedef_bool;
    "swappiness" ⦂ c_int;
    "events_file" ⦂ struct_cgroup_file;
    "events_local_file" ⦂ struct_cgroup_file;
    "swap_events_file" ⦂ struct_cgroup_file;
    "vmstats" ⦂ (ptr "struct memcg_vmstats");
    "memory_events" ⦂ (CArr typedef_atomic_long_t 9);
    "memory_events_local" ⦂ (CArr typedef_atomic_long_t 9);
    "socket_pressure" ⦂ typedef_u64;
    "kmemcg_id" ⦂ c_int;
    "objcg" ⦂ (ptr "struct obj_cgroup");
    "orig_objcg" ⦂ (ptr "struct obj_cgroup");
    "objcg_list" ⦂ struct_list_head;
    "vmstats_percpu" ⦂ (ptr "struct memcg_vmstats_percpu");
    "cgwb_list" ⦂ struct_list_head;
    "cgwb_domain" ⦂ struct_wb_domain;
    "cgwb_frn" ⦂ (CArr struct_memcg_cgwb_frn 4);
    "deferred_split_queue" ⦂ struct_deferred_split;
    "mm_list" ⦂ struct_lru_gen_mm_list;
    "nodeinfo" ⦂ (CArr (ptr "struct mem_cgroup_per_node") 0);
    "" ⦂⟨ 64 ⟩ c_long;
    "" ⦂⟨ 64 ⟩ c_long].

Definition struct_xfrm_mark : ctype :=
  Struct "xfrm_mark" [
    "v" ⦂ typedef___u32;
    "m" ⦂ typedef___u32].

Definition typedef_xfrm_address_t : ctype :=
  Union "" [
    "a4" ⦂ typedef___be32;
    "a6" ⦂ (CArr typedef___be32 4);
    "in6" ⦂ struct_in6_addr].

Definition struct_xfrm_selector : ctype :=
  Struct "xfrm_selector" [
    "daddr" ⦂ typedef_xfrm_address_t;
    "saddr" ⦂ typedef_xfrm_address_t;
    "dport" ⦂ typedef___be16;
    "dport_mask" ⦂ typedef___be16;
    "sport" ⦂ typedef___be16;
    "sport_mask" ⦂ typedef___be16;
    "family" ⦂ typedef___u16;
    "prefixlen_d" ⦂ typedef___u8;
    "prefixlen_s" ⦂ typedef___u8;
    "proto" ⦂ typedef___u8;
    "ifindex" ⦂ c_int;
    "user" ⦂ typedef___kernel_uid32_t].

Definition struct_xfrm_lifetime_cfg : ctype :=
  Struct "xfrm_lifetime_cfg" [
    "soft_byte_limit" ⦂ typedef___u64;
    "hard_byte_limit" ⦂ typedef___u64;
    "soft_packet_limit" ⦂ typedef___u64;
    "hard_packet_limit" ⦂ typedef___u64;
    "soft_add_expires_seconds" ⦂ typedef___u64;
    "hard_add_expires_seconds" ⦂ typedef___u64;
    "soft_use_expires_seconds" ⦂ typedef___u64;
    "hard_use_expires_seconds" ⦂ typedef___u64].

Definition struct_xfrm_lifetime_cur : ctype :=
  Struct "xfrm_lifetime_cur" [
    "bytes" ⦂ typedef___u64;
    "packets" ⦂ typedef___u64;
    "add_time" ⦂ typedef___u64;
    "use_time" ⦂ typedef___u64].

Definition struct_xfrm_policy_walk_entry : ctype :=
  Struct "xfrm_policy_walk_entry" [
    "all" ⦂ struct_list_head;
    "dead" ⦂ typedef_u8].

Definition struct_xfrm_policy_queue : ctype :=
  Struct "xfrm_policy_queue" [
    "hold_queue" ⦂ struct_sk_buff_head;
    "hold_timer" ⦂ struct_timer_list;
    "timeout" ⦂ c_ulong].

Definition struct_xfrm_id : ctype :=
  Struct "xfrm_id" [
    "daddr" ⦂ typedef_xfrm_address_t;
    "spi" ⦂ typedef___be32;
    "proto" ⦂ typedef___u8].

Definition struct_xfrm_tmpl : ctype :=
  Struct "xfrm_tmpl" [
    "id" ⦂ struct_xfrm_id;
    "saddr" ⦂ typedef_xfrm_address_t;
    "encap_family" ⦂ c_ushort;
    "reqid" ⦂ typedef_u32;
    "mode" ⦂ typedef_u8;
    "share" ⦂ typedef_u8;
    "optional" ⦂ typedef_u8;
    "allalgs" ⦂ typedef_u8;
    "aalgos" ⦂ typedef_u32;
    "ealgos" ⦂ typedef_u32;
    "calgos" ⦂ typedef_u32].

Definition struct_xfrm_dev_offload : ctype :=
  Struct "xfrm_dev_offload" [
    "dev" ⦂ (ptr "struct net_device");
    "dev_tracker" ⦂ typedef_netdevice_tracker;
    "real_dev" ⦂ (ptr "struct net_device");
    "offload_handle" ⦂ c_ulong;
    "dir" ⦂⟨ 2 ⟩ typedef_u8;
    "type" ⦂⟨ 2 ⟩ typedef_u8;
    "flags" ⦂⟨ 2 ⟩ typedef_u8].

Definition struct_xfrm_policy : ctype :=
  Struct "xfrm_policy" [
    "xp_net" ⦂ typedef_possible_net_t;
    "bydst" ⦂ struct_hlist_node;
    "byidx" ⦂ struct_hlist_node;
    "state_cache_list" ⦂ struct_hlist_head;
    "lock" ⦂ typedef_rwlock_t;
    "refcnt" ⦂ typedef_refcount_t;
    "pos" ⦂ typedef_u32;
    "timer" ⦂ struct_timer_list;
    "genid" ⦂ typedef_atomic_t;
    "priority" ⦂ typedef_u32;
    "index" ⦂ typedef_u32;
    "if_id" ⦂ typedef_u32;
    "mark" ⦂ struct_xfrm_mark;
    "selector" ⦂ struct_xfrm_selector;
    "lft" ⦂ struct_xfrm_lifetime_cfg;
    "curlft" ⦂ struct_xfrm_lifetime_cur;
    "walk" ⦂ struct_xfrm_policy_walk_entry;
    "polq" ⦂ struct_xfrm_policy_queue;
    "bydst_reinsert" ⦂ typedef_bool;
    "type" ⦂ typedef_u8;
    "action" ⦂ typedef_u8;
    "flags" ⦂ typedef_u8;
    "xfrm_nr" ⦂ typedef_u8;
    "family" ⦂ typedef_u16;
    "security" ⦂ (ptr "struct xfrm_sec_ctx");
    "xfrm_vec" ⦂ (CArr struct_xfrm_tmpl 6);
    "rcu" ⦂ struct_callback_head;
    "xdo" ⦂ struct_xfrm_dev_offload].

Definition struct_psp_key_parsed : ctype :=
  Struct "psp_key_parsed" [
    "spi" ⦂ typedef___be32;
    "key" ⦂ (CArr typedef_u8 32)].

Definition struct_psp_assoc : ctype :=
  Struct "psp_assoc" [
    "psd" ⦂ (ptr "struct psp_dev");
    "dev_id" ⦂ typedef_u16;
    "generation" ⦂ typedef_u8;
    "version" ⦂ typedef_u8;
    "peer_tx" ⦂ typedef_u8;
    "upgrade_seq" ⦂ typedef_u32;
    "tx" ⦂ struct_psp_key_parsed;
    "rx" ⦂ struct_psp_key_parsed;
    "refcnt" ⦂ typedef_refcount_t;
    "rcu" ⦂ struct_callback_head;
    "work" ⦂ struct_work_struct;
    "assocs_list" ⦂ struct_list_head;
    "drv_data" ⦂ (CArr typedef_u8 0)].

Definition struct_upid : ctype :=
  Struct "upid" [
    "nr" ⦂ c_int;
    "ns" ⦂ (ptr "struct pid_namespace")].

Definition struct_pid : ctype :=
  Struct "pid" [
    "count" ⦂ typedef_refcount_t;
    "level" ⦂ c_uint;
    "lock" ⦂ typedef_spinlock_t;
    "" ⦂ (Struct "" [
      "ino" ⦂ typedef_u64;
      "pidfs_node" ⦂ struct_rb_node;
      "stashed" ⦂ (ptr "struct dentry");
      "attr" ⦂ (ptr "struct pidfs_attr")]);
    "tasks" ⦂ (CArr struct_hlist_head 4);
    "inodes" ⦂ struct_hlist_head;
    "wait_pidfd" ⦂ typedef_wait_queue_head_t;
    "rcu" ⦂ struct_callback_head;
    "numbers" ⦂ (CArr struct_upid 0)].

Definition typedef___kernel_gid32_t : ctype :=
  c_uint.

Definition typedef_gid_t : ctype :=
  typedef___kernel_gid32_t.

Definition typedef_kgid_t : ctype :=
  Struct "" [
    "val" ⦂ typedef_gid_t].

Definition typedef_kernel_cap_t : ctype :=
  Struct "" [
    "val" ⦂ typedef_u64].

Definition struct_cred : ctype :=
  Struct "cred" [
    "usage" ⦂ typedef_atomic_long_t;
    "uid" ⦂ typedef_kuid_t;
    "gid" ⦂ typedef_kgid_t;
    "suid" ⦂ typedef_kuid_t;
    "sgid" ⦂ typedef_kgid_t;
    "euid" ⦂ typedef_kuid_t;
    "egid" ⦂ typedef_kgid_t;
    "fsuid" ⦂ typedef_kuid_t;
    "fsgid" ⦂ typedef_kgid_t;
    "securebits" ⦂ c_uint;
    "cap_inheritable" ⦂ typedef_kernel_cap_t;
    "cap_permitted" ⦂ typedef_kernel_cap_t;
    "cap_effective" ⦂ typedef_kernel_cap_t;
    "cap_bset" ⦂ typedef_kernel_cap_t;
    "cap_ambient" ⦂ typedef_kernel_cap_t;
    "jit_keyring" ⦂ c_uchar;
    "session_keyring" ⦂ (ptr "struct key");
    "process_keyring" ⦂ (ptr "struct key");
    "thread_keyring" ⦂ (ptr "struct key");
    "request_key_auth" ⦂ (ptr "struct key");
    "security" ⦂ (ptr "void");
    "user" ⦂ (ptr "struct user_struct");
    "user_ns" ⦂ (ptr "struct user_namespace");
    "ucounts" ⦂ (ptr "struct ucounts");
    "group_info" ⦂ (ptr "struct group_info");
    "" ⦂ (Union "" [
      "non_rcu" ⦂ c_int;
      "rcu" ⦂ struct_callback_head])].

Definition struct_sock_reuseport : ctype :=
  Struct "sock_reuseport" [
    "rcu" ⦂ struct_callback_head;
    "max_socks" ⦂ typedef_u16;
    "num_socks" ⦂ typedef_u16;
    "num_closed_socks" ⦂ typedef_u16;
    "incoming_cpu" ⦂ typedef_u16;
    "synq_overflow_ts" ⦂ c_uint;
    "reuseport_id" ⦂ c_uint;
    "bind_inany" ⦂⟨ 1 ⟩ c_uint;
    "has_conns" ⦂⟨ 1 ⟩ c_uint;
    "prog" ⦂ (ptr "struct bpf_prog");
    "socks" ⦂ (CArr (ptr "struct sock") 0)].

Definition struct_bpf_local_storage : ctype :=
  Struct "bpf_local_storage" [
    "cache" ⦂ (CArr (ptr "struct bpf_local_storage_data") 16);
    "smap" ⦂ (ptr "struct bpf_local_storage_map");
    "list" ⦂ struct_hlist_head;
    "owner" ⦂ (ptr "void");
    "rcu" ⦂ struct_callback_head;
    "lock" ⦂ typedef_raw_spinlock_t].

Definition struct_numa_drop_counters : ctype :=
  Struct "numa_drop_counters" [
    "drops0" ⦂ typedef_atomic_t;
    "" ⦂⟨ 64 ⟩ c_long;
    "" ⦂⟨ 64 ⟩ c_long;
    "" ⦂⟨ 64 ⟩ c_long;
    "" ⦂⟨ 64 ⟩ c_long;
    "" ⦂⟨ 64 ⟩ c_long;
    "" ⦂⟨ 64 ⟩ c_long;
    "" ⦂⟨ 64 ⟩ c_long;
    "drops1" ⦂ typedef_atomic_t;
    "" ⦂⟨ 64 ⟩ c_long;
    "" ⦂⟨ 64 ⟩ c_long;
    "" ⦂⟨ 64 ⟩ c_long;
    "" ⦂⟨ 64 ⟩ c_long;
    "" ⦂⟨ 64 ⟩ c_long;
    "" ⦂⟨ 64 ⟩ c_long;
    "" ⦂⟨ 64 ⟩ c_long].

(** The tagged structures and unions of this file, by their C name. *)
Definition KNetRefs_types : list (string * ctype) := [
  ("struct proto", struct_proto);
  ("struct inet_timewait_death_row", struct_inet_timewait_death_row);
  ("struct sk_buff", struct_sk_buff);
  ("struct dst_entry", struct_dst_entry);
  ("struct sk_filter", struct_sk_filter);
  ("struct socket_wq", struct_socket_wq);
  ("struct socket", struct_socket);
  ("struct mem_cgroup_id", struct_mem_cgroup_id);
  ("struct page_counter", struct_page_counter);
  ("struct vmpressure", struct_vmpressure);
  ("struct percpu_counter", struct_percpu_counter);
  ("struct fprop_global", struct_fprop_global);
  ("struct wb_domain", struct_wb_domain);
  ("struct wb_completion", struct_wb_completion);
  ("struct memcg_cgwb_frn", struct_memcg_cgwb_frn);
  ("struct deferred_split", struct_deferred_split);
  ("struct lru_gen_mm_list", struct_lru_gen_mm_list);
  ("struct mem_cgroup", struct_mem_cgroup);
  ("struct xfrm_mark", struct_xfrm_mark);
  ("struct xfrm_selector", struct_xfrm_selector);
  ("struct xfrm_lifetime_cfg", struct_xfrm_lifetime_cfg);
  ("struct xfrm_lifetime_cur", struct_xfrm_lifetime_cur);
  ("struct xfrm_policy_walk_entry", struct_xfrm_policy_walk_entry);
  ("struct xfrm_policy_queue", struct_xfrm_policy_queue);
  ("struct xfrm_id", struct_xfrm_id);
  ("struct xfrm_tmpl", struct_xfrm_tmpl);
  ("struct xfrm_dev_offload", struct_xfrm_dev_offload);
  ("struct xfrm_policy", struct_xfrm_policy);
  ("struct psp_key_parsed", struct_psp_key_parsed);
  ("struct psp_assoc", struct_psp_assoc);
  ("struct upid", struct_upid);
  ("struct pid", struct_pid);
  ("struct cred", struct_cred);
  ("struct sock_reuseport", struct_sock_reuseport);
  ("struct bpf_local_storage", struct_bpf_local_storage);
  ("struct numa_drop_counters", struct_numa_drop_counters)].
