(* ===== verification/KTaskRefs.v ===== *)
(** * Objects a task points to

    The structures of [bpf/headers/vmlinux.h] that a pointer member of
    [struct task_struct] refers to, with every type they embed by value. *)

From S2P Require Import Prelude.
From S2P Require Import CLayout.
From S2P Require Import KBase.
From S2P Require Import KNet.
From S2P Require Import KTask.
From S2P Require Import KCgroup.
From S2P Require Import KNetRefs.

Open Scope N_scope.
Open Scope clayout_scope.

Definition struct_sched_class : ctype :=
  Struct "sched_class" [
    "uclamp_enabled" ⦂ c_int;
    "enqueue_task" ⦂ (ptr "function");
    "dequeue_task" ⦂ (ptr "function");
    "yield_task" ⦂ (ptr "function");
    "yield_to_task" ⦂ (ptr "function");
    "wakeup_preempt" ⦂ (ptr "function");
    "balance" ⦂ (ptr "function");
    "pick_task" ⦂ (ptr "function");
    "pick_next_task" ⦂ (ptr "function");
    "put_prev_task" ⦂ (ptr "function");
    "set_next_task" ⦂ (ptr "function");
    "select_task_rq" ⦂ (ptr "function");
    "migrate_task_rq" ⦂ (ptr "function");
    "task_woken" ⦂ (ptr "function");
    "set_cpus_allowed" ⦂ (ptr "function");
    "rq_online" ⦂ (ptr "function");
    "rq_offline" ⦂ (ptr "function");
    "find_lock_rq" ⦂ (ptr "function");
    "task_tick" ⦂ (ptr "function");
    "task_fork" ⦂ (ptr "function");
    "task_dead" ⦂ (ptr "function");
    "switching_to" ⦂ (ptr "function");
    "switched_from" ⦂ (ptr "function");
    "switched_to" ⦂ (ptr "function");
    "reweight_task" ⦂ (ptr "function");
    "prio_changed" ⦂ (ptr "function");
    "get_rr_interval" ⦂ (ptr "function");
    "update_curr" ⦂ (ptr "function");
    "task_change_group" ⦂ (ptr "function");
    "task_is_throttled" ⦂ (ptr "function")].

Definition struct_scx_task_group : ctype :=
  Struct "scx_task_group" [
    "flags" ⦂ typedef_u32;
    "weight" ⦂ typedef_u32;
    "bw_period_us" ⦂ typedef_u64;
    "bw_quota_us" ⦂ typedef_u64;
    "bw_burst_us" ⦂ typedef_u64].

Definition struct_cfs_bandwidth : ctype :=
  Struct "cfs_bandwidth" [
    "lock" ⦂ typedef_raw_spinlock_t;
    "period" ⦂ typedef_ktime_t;
    "quota" ⦂ typedef_u64;
    "runtime" ⦂ typedef_u64;
    "burst" ⦂ typedef_u64;
    "runtime_snap" ⦂ typedef_u64;
    "hierarchical_quota" ⦂ typedef_s64;
    "idle" ⦂ typedef_u8;
    "period_active" ⦂ typedef_u8;
    "slack_started" ⦂ typedef_u8;
    "period_timer" ⦂ struct_hrtimer;
    "slack_timer" ⦂ struct_hrtimer;
    "throttled_cfs_rq" ⦂ struct_list_head;
    "nr_periods" ⦂ c_int;
    "nr_throttled" ⦂ c_int;
    "nr_burst" ⦂ c_int;
    "throttled_time" ⦂ typedef_u64;
    "burst_time" ⦂ typedef_u64].

Definition struct_task_group : ctype :=
  Struct "task_group" [
    "css" ⦂ struct_cgroup_subsys_state;
    "idle" ⦂ c_int;
    "se" ⦂ (ptr "struct sched_entity *");
    "cfs_rq" ⦂ (ptr "struct cfs_rq *");
    "shares" ⦂ c_ulong;
    "" ⦂⟨ 64 ⟩ c_long;
    "" ⦂⟨ 64 ⟩ c_long;
    "load_avg" ⦂ typedef_atomic_long_t;
    "scx" ⦂ struct_scx_task_group;
    "rcu" ⦂ struct_callback_head;
    "list" ⦂ struct_list_head;
    "parent" ⦂ (ptr "struct task_group");
    "siblings" ⦂ struct_list_head;
    "children" ⦂ struct_list_head;
    "autogroup" ⦂ (ptr "struct autogroup");
    "cfs_bandwidth" ⦂ struct_cfs_bandwidth;
    "uclamp_pct" ⦂ (CArr c_uint 2);
    "uclamp_req" ⦂ (CArr struct_uclamp_se 2);
    "uclamp" ⦂ (CArr struct_uclamp_se 2)].

Definition struct_rt_mutex_base : ctype :=
  Struct "rt_mutex_base" [
    "wait_lock" ⦂ typedef_raw_spinlock_t;
    "waiters" ⦂ struct_rb_root_cached;
    "owner" ⦂ (ptr "struct task_struct")].

Definition struct_rt_mutex : ctype :=
  Struct "rt_mutex" [
    "rtmutex" ⦂ struct_rt_mutex_base].

Definition struct_swait_queue_head : ctype :=
  Struct "swait_queue_head" [
    "lock" ⦂ typedef_raw_spinlock_t;
    "task_list" ⦂ struct_list_head].

Definition typedef_kthread_work_func_t : ctype :=
  ptr "function".

Definition struct_kthread_work : ctype :=
  Struct "kthread_work" [
    "node" ⦂ struct_list_head;
    "func" ⦂ typedef_kthread_work_func_t;
    "worker" ⦂ (ptr "struct kthread_worker");
    "canceling" ⦂ c_int].

Definition struct_rcu_exp_work : ctype :=
  Struct "rcu_exp_work" [
    "rew_s" ⦂ c_ulong;
    "rew_work" ⦂ struct_kthread_work].

Definition struct_rcu_node : ctype :=
  Struct "rcu_node" [
    "lock" ⦂ typedef_raw_spinlock_t;
    "gp_seq" ⦂ c_ulong;
    "gp_seq_needed" ⦂ c_ulong;
    "completedqs" ⦂ c_ulong;
    "qsmask" ⦂ c_ulong;
    "rcu_gp_init_mask" ⦂ c_ulong;
    "qsmaskinit" ⦂ c_ulong;
    "qsmaskinitnext" ⦂ c_ulong;
    "expmask" ⦂ c_ulong;
    "expmaskinit" ⦂ c_ulong;
    "expmaskinitnext" ⦂ c_ulong;
    "exp_kworker" ⦂ (ptr "struct kthread_worker");
    "cbovldmask" ⦂ c_ulong;
    "ffmask" ⦂ c_ulong;
    "grpmask" ⦂ c_ulong;
    "grplo" ⦂ c_int;
    "grphi" ⦂ c_int;
    "grpnum" ⦂ typedef_u8;
    "level" ⦂ typedef_u8;
    "wait_blkd_tasks" ⦂ typedef_bool;
    "parent" ⦂ (ptr "struct rcu_node");
    "blkd_tasks" ⦂ struct_list_head;
    "gp_tasks" ⦂ (ptr "struct list_head");
    "exp_tasks" ⦂ (ptr "struct list_head");
    "boost_tasks" ⦂ (ptr "struct list_head");
    "boost_mtx" ⦂ struct_rt_mutex;
    "boost_time" ⦂ c_ulong;
    "kthread_mutex" ⦂ struct_mutex;
    "boost_kthread_task" ⦂ (ptr "struct task_struct");
    "boost_kthread_status" ⦂ c_uint;
    "n_boosts" ⦂ c_ulong;
    "nocb_gp_wq" ⦂ (CArr struct_swait_queue_head 2);
    "" ⦂⟨ 64 ⟩ c_long;
    "" ⦂⟨ 64 ⟩ c_long;
    "" ⦂⟨ 64 ⟩ c_long;
    "" ⦂⟨ 64 ⟩ c_long;
    "" ⦂⟨ 64 ⟩ c_long;
    "" ⦂⟨ 64 ⟩ c_long;
    "" ⦂⟨ 64 ⟩ c_long;
    "fqslock" ⦂ typedef_raw_spinlock_t;
    "" ⦂⟨ 64 ⟩ c_long;
    "" ⦂⟨ 64 ⟩ c_long;
    "" ⦂⟨ 64 ⟩ c_long;
    "" ⦂⟨ 64 ⟩ c_long;
    "" ⦂⟨ 64 ⟩ c_long;
    "" ⦂⟨ 64 ⟩ c_long;
    "" ⦂⟨ 64 ⟩ c_long;
    "exp_lock" ⦂ typedef_spinlock_t;
    "exp_seq_rq" ⦂ c_ulong;
    "exp_wq" ⦂ (CArr typedef_wait_queue_head_t 4);
    "rew" ⦂ struct_rcu_exp_work;
    "exp_need_flush" ⦂ typedef_bool;
    "exp_poll_lock" ⦂ typedef_raw_spinlock_t;
    "exp_seq_poll_rq" ⦂ c_ulong;
    "exp_poll_wq" ⦂ struct_work_struct;
    "" ⦂⟨ 64 ⟩ c_long;
    "" ⦂⟨ 64 ⟩ c_long;
    "" ⦂⟨ 64 ⟩ c_long;
    "" ⦂⟨ 64 ⟩ c_long;
    "" ⦂⟨ 64 ⟩ c_long;
    "" ⦂⟨ 64 ⟩ c_long].

Definition struct_maple_tree : ctype :=
  Struct "maple_tree" [
    "" ⦂ (Union "" [
      "ma_lock" ⦂ typedef_spinlock_t]);
    "ma_flags" ⦂ c_uint;
    "ma_root" ⦂ (ptr "void")].

Definition struct_rw_semaphore : ctype :=
  Struct "rw_semaphore" [
    "count" ⦂ typedef_atomic_long_t;
    "owner" ⦂ typedef_atomic_long_t;
    "osq" ⦂ struct_optimistic_spin_queue;
    "wait_lock" ⦂ typedef_raw_spinlock_t;
    "wait_list" ⦂ struct_list_head].

Definition struct_rcuwait : ctype :=
  Struct "rcuwait" [
    "task" ⦂ (ptr "struct task_struct")].

Definition typedef_vm_flags_t : ctype :=
  c_ulong.

Definition typedef_s16 : ctype :=
  typedef___s16.

Definition typedef_mm_context_t : ctype :=
  Struct "" [
    "ctx_id" ⦂ typedef_u64;
    "tlb_gen" ⦂ typedef_atomic64_t;
    "next_trim_cpumask" ⦂ c_ulong;
    "ldt_usr_sem" ⦂ struct_rw_semaphore;
    "ldt" ⦂ (ptr "struct ldt_struct");
    "flags" ⦂ c_ulong;
    "lock" ⦂ struct_mutex;
    "vdso" ⦂ (ptr "void");
    "vdso_image" ⦂ (ptr "struct vdso_image");
    "perf_rdpmc_allowed" ⦂ typedef_atomic_t;
    "pkey_allocation_map" ⦂ typedef_u16;
    "execute_only_pkey" ⦂ typedef_s16;
    "global_asid" ⦂ typedef_u16;
    "asid_transition" ⦂ typedef_bool].

Definition typedef_mm_flags_t : ctype :=
  Struct "" [
    "__mm_flags" ⦂ (CArr c_ulong 1)].

Definition struct_uprobes_state : ctype :=
  Struct "uprobes_state" [
    "xol_area" ⦂ (ptr "struct xol_area");
    "head_tramps" ⦂ struct_hlist_head].

Definition typedef_mm_id_t : ctype :=
  c_uint.

Definition struct_mm_struct : ctype :=
  Struct "mm_struct" [
    "" ⦂ (Struct "" [
      "" ⦂ (Struct "" [
        "mm_count" ⦂ typedef_atomic_t;
        "" ⦂⟨ 64 ⟩ c_long;
        "" ⦂⟨ 64 ⟩ c_long;
        "" ⦂⟨ 64 ⟩ c_long;
        "" ⦂⟨ 64 ⟩ c_long;
        "" ⦂⟨ 64 ⟩ c_long;
        "" ⦂⟨ 64 ⟩ c_long;
        "" ⦂⟨ 64 ⟩ c_long]);
      "mm_mt" ⦂ struct_maple_tree;
      "mmap_base" ⦂ c_ulong;
      "mmap_legacy_base" ⦂ c_ulong;
      "mmap_compat_base" ⦂ c_ulong;
      "mmap_compat_legacy_base" ⦂ c_ulong;
      "task_size" ⦂ c_ulong;
      "pgd" ⦂ (ptr "pgd_t");
      "membarrier_state" ⦂ typedef_atomic_t;
      "mm_users" ⦂ typedef_atomic_t;
      "pcpu_cid" ⦂ (ptr "struct mm_cid");
      "mm_cid_next_scan" ⦂ c_ulong;
      "nr_cpus_allowed" ⦂ c_uint;
      "max_nr_cid" ⦂ typedef_atomic_t;
      "cpus_allowed_lock" ⦂ typedef_raw_spinlock_t;
      "pgtables_bytes" ⦂ typedef_atomic_long_t;
      "map_count" ⦂ c_int;
      "page_table_lock" ⦂ typedef_spinlock_t;
      "mmap_lock" ⦂ struct_rw_semaphore;
      "mmlist" ⦂ struct_list_head;
      "vma_writer_wait" ⦂ struct_rcuwait;
      "mm_lock_seq" ⦂ typedef_seqcount_t;
      "futex_hash_lock" ⦂ struct_mutex;
      "futex_phash" ⦂ (ptr "struct futex_private_hash");
      "futex_phash_new" ⦂ (ptr "struct futex_private_hash");
      "futex_batches" ⦂ c_ulong;
      "futex_rcu" ⦂ struct_callback_head;
      "futex_atomic" ⦂ typedef_atomic_long_t;
      "futex_ref" ⦂ (ptr "unsigned int");
      "hiwater_rss" ⦂ c_ulong;
      "hiwater_vm" ⦂ c_ulong;
      "total_vm" ⦂ c_ulong;
      "locked_vm" ⦂ c_ulong;
      "pinned_vm" ⦂ typedef_atomic64_t;
      "data_vm" ⦂ c_ulong;
      "exec_vm" ⦂ c_ulong;
      "stack_vm" ⦂ c_ulong;
      "def_flags" ⦂ typedef_vm_flags_t;
      "write_protect_seq" ⦂ typedef_seqcount_t;
      "arg_lock" ⦂ typedef_spinlock_t;
      "start_code" ⦂ c_ulong;
      "end_code" ⦂ c_ulong;
      "start_data" ⦂ c_ulong;
      "end_data" ⦂ c_ulong;
      "start_brk" ⦂ c_ulong;
      "brk" ⦂ c_ulong;
      "start_stack" ⦂ c_ulong;
      "arg_start" ⦂ c_ulong;
      "arg_end" ⦂ c_ulong;
      "env_start" ⦂ c_ulong;
      "env_end" ⦂ c_ulong;
      "saved_auxv" ⦂ (CArr c_ulong 52);
      "rss_stat" ⦂ (CArr struct_percpu_counter 4);
      "binfmt" ⦂ (ptr "struct linux_binfmt");
      "context" ⦂ typedef_mm_context_t;
      "flags" ⦂ typedef_mm_flags_t;
      "ioctx_lock" ⦂ typedef_spinlock_t;
      "ioctx_table" ⦂ (ptr "struct kioctx_table");
      "owner" ⦂ (ptr "struct task_struct");
      "user_ns" ⦂ (ptr "struct user_namespace");
      "exe_file" ⦂ (ptr "struct file");
      "notifier_subscriptions" ⦂ (ptr "struct mmu_notifier_subscriptions");
      "numa_next_scan" ⦂ c_ulong;
      "numa_scan_offset" ⦂ c_ulong;
      "numa_scan_seq" ⦂ c_int;
      "tlb_flush_pending" ⦂ typedef_atomic_t;
      "tlb_flush_batched" ⦂ typedef_atomic_t;
      "uprobes_state" ⦂ struct_uprobes_state;
      "hugetlb_usage" ⦂ typedef_atomic_long_t;
      "async_put_work" ⦂ struct_work_struct;
      "iommu_mm" ⦂ (ptr "struct iommu_mm_data");
      "ksm_merging_pages" ⦂ c_ulong;
      "ksm_rmap_items" ⦂ c_ulong;
      "ksm_zero_pages" ⦂ typedef_atomic_long_t;
      "lru_gen" ⦂ (Struct "" [
        "list" ⦂ struct_list_head;
        "bitmap" ⦂ c_ulong;
        "memcg" ⦂ (ptr "struct mem_cgroup")]);
      "mm_id" ⦂ typedef_mm_id_t;
      "" ⦂⟨ 64 ⟩ c_long;
      "" ⦂⟨ 64 ⟩ c_long]);
    "cpu_bitmap" ⦂ (CArr c_ulong 0)].

Definition typedef_errseq_t : ctype :=
  typedef_u32.

Definition struct_address_space : ctype :=
  Struct "address_space" [
    "host" ⦂ (ptr "struct inode");
    "i_pages" ⦂ struct_xarray;
    "invalidate_lock" ⦂ struct_rw_semaphore;
    "gfp_mask" ⦂ typedef_gfp_t;
    "i_mmap_writable" ⦂ typedef_atomic_t;
    "nr_thps" ⦂ typedef_atomic_t;
    "i_mmap" ⦂ struct_rb_root_cached;
    "nrpages" ⦂ c_ulong;
    "writeback_index" ⦂ c_ulong;
    "a_ops" ⦂ (ptr "struct address_space_operations");
    "flags" ⦂ c_ulong;
    "wb_err" ⦂ typedef_errseq_t;
    "i_private_lock" ⦂ typedef_spinlock_t;
    "i_private_list" ⦂ struct_list_head;
    "i_mmap_rwsem" ⦂ struct_rw_semaphore;
    "i_private_data" ⦂ (ptr "void")].

Definition struct_completion : ctype :=
  Struct "completion" [
    "done" ⦂ c_uint;
    "wait" ⦂ struct_swait_queue_head].

Definition typedef_int32_t : ctype :=
  typedef_s32.

Definition typedef_key_serial_t : ctype :=
  typedef_int32_t.

Definition typedef_time64_t : ctype :=
  typedef___s64.

Definition typedef_uint32_t : ctype :=
  typedef_u32.

Definition typedef_key_perm_t : ctype :=
  typedef_uint32_t.

Definition struct_keyring_index_key : ctype :=
  Struct "keyring_index_key" [
    "hash" ⦂ c_ulong;
    "" ⦂ (Union "" [
      "" ⦂ (Struct "" [
        "desc_len" ⦂ typedef_u16;
        "desc" ⦂ (CArr c_char 6)]);
      "x" ⦂ c_ulong]);
    "type" ⦂ (ptr "struct key_type");
    "domain_tag" ⦂ (ptr "struct key_tag");
    "description" ⦂ (ptr "char")].

Definition union_key_payload : ctype :=
  Union "key_payload" [
    "rcu_data0" ⦂ (ptr "void");
    "data" ⦂ (CArr (ptr "void") 4)].

Definition struct_assoc_array : ctype :=
  Struct "assoc_array" [
    "root" ⦂ (ptr "struct assoc_array_ptr");
    "nr_leaves_on_tree" ⦂ c_ulong].

Definition struct_key : ctype :=
  Struct "key" [
    "usage" ⦂ typedef_refcount_t;
    "serial" ⦂ typedef_key_serial_t;
    "" ⦂ (Union "" [
      "graveyard_link" ⦂ struct_list_head;
      "serial_node" ⦂ struct_rb_node]);
    "watchers" ⦂ (ptr "struct watch_list");
    "sem" ⦂ struct_rw_semaphore;
    "user" ⦂ (ptr "struct key_user");
    "security" ⦂ (ptr "void");
    "" ⦂ (Union "" [
      "expiry" ⦂ typedef_time64_t;
      "revoked_at" ⦂ typedef_time64_t]);
    "last_used_at" ⦂ typedef_time64_t;
    "uid" ⦂ typedef_kuid_t;
    "gid" ⦂ typedef_kgid_t;
    "perm" ⦂ typedef_key_perm_t;
    "quotalen" ⦂ c_ushort;
    "datalen" ⦂ c_ushort;
    "state" ⦂ c_short;
    "flags" ⦂ c_ulong;
    "" ⦂ (Union "" [
      "index_key" ⦂ struct_keyring_index_key;
      "" ⦂ (Struct "" [
        "hash" ⦂ c_ulong;
        "len_desc" ⦂ c_ulong;
        "type" ⦂ (ptr "struct key_type");
        "domain_tag" ⦂ (ptr "struct key_tag");
        "description" ⦂ (ptr "char")])]);
    "" ⦂ (Union "" [
      "payload" ⦂ union_key_payload;
      "" ⦂ (Struct "" [
        "name_link" ⦂ struct_list_head;
        "keys" ⦂ struct_assoc_array])]);
    "restrict_link" ⦂ (ptr "struct key_restriction")].

Definition struct_path : ctype :=
  Struct "path" [
    "mnt" ⦂ (ptr "struct vfsmount");
    "dentry" ⦂ (ptr "struct dentry")].

Definition struct_qstr : ctype :=
  Struct "qstr" [
    "" ⦂ (Union "" [
      "" ⦂ (Struct "" [
        "hash" ⦂ typedef_u32;
        "len" ⦂ typedef_u32]);
      "hash_len" ⦂ typedef_u64]);
    "name" ⦂ (ptr "unsigned char")].

Definition struct_delayed_call : ctype :=
  Struct "delayed_call" [
    "fn" ⦂ (ptr "function");
    "arg" ⦂ (ptr "void")].

Definition struct_saved : ctype :=
  Struct "saved" [
    "link" ⦂ struct_path;
    "done" ⦂ struct_delayed_call;
    "name" ⦂ (ptr "char");
    "seq" ⦂ c_uint].

Definition typedef_vfsuid_t : ctype :=
  Struct "" [
    "val" ⦂ typedef_uid_t].

Definition struct_nameidata : ctype :=
  Struct "nameidata" [
    "path" ⦂ struct_path;
    "last" ⦂ struct_qstr;
    "root" ⦂ struct_path;
    "inode" ⦂ (ptr "struct inode");
    "flags" ⦂ c_uint;
    "state" ⦂ c_uint;
    "seq" ⦂ c_uint;
    "next_seq" ⦂ c_uint;
    "m_seq" ⦂ c_uint;
    "r_seq" ⦂ c_uint;
    "last_type" ⦂ c_int;
    "depth" ⦂ c_uint;
    "total_link_count" ⦂ c_int;
    "stack" ⦂ (ptr "struct saved");
    "internal" ⦂ (CArr struct_saved 2);
    "name" ⦂ (ptr "struct filename");
    "pathname" ⦂ (ptr "char");
    "saved" ⦂ (ptr "struct nameidata");
    "root_seq" ⦂ c_uint;
    "dfd" ⦂ c_int;
    "dir_vfsuid" ⦂ typedef_vfsuid_t;
    "dir_mode" ⦂ typedef_umode_t].

Definition typedef_seqlock_t : ctype :=
  Struct "" [
    "seqcount" ⦂ typedef_seqcount_spinlock_t;
    "lock" ⦂ typedef_spinlock_t].

Definition struct_fs_struct : ctype :=
  Struct "fs_struct" [
    "users" ⦂ c_int;
    "seq" ⦂ typedef_seqlock_t;
    "umask" ⦂ c_int;
    "in_exec" ⦂ c_int;
    "root" ⦂ struct_path;
    "pwd" ⦂ struct_path].

Definition struct_fdtable : ctype :=
  Struct "fdtable" [
    "max_fds" ⦂ c_uint;
    "fd" ⦂ (ptr "struct file *");
    "close_on_exec" ⦂ (ptr "long unsigned int");
    "open_fds" ⦂ (ptr "long unsigned int");
    "full_fds_bits" ⦂ (ptr "long unsigned int");
    "rcu" ⦂ struct_callback_head].

Definition struct_files_struct : ctype :=
  Struct "files_struct" [
    "count" ⦂ typedef_atomic_t;
    "resize_in_progress" ⦂ typedef_bool;
    "resize_wait" ⦂ typedef_wait_queue_head_t;
    "fdt" ⦂ (ptr "struct fdtable");
    "fdtab" ⦂ struct_fdtable;
    "" ⦂⟨ 64 ⟩ c_long;
    "" ⦂⟨ 64 ⟩ c_long;
    "" ⦂⟨ 64 ⟩ c_long;
    "" ⦂⟨ 64 ⟩ c_long;
    "file_lock" ⦂ typedef_spinlock_t;
    "next_fd" ⦂ c_uint;
    "close_on_exec_init" ⦂ (CArr c_ulong 1);
    "open_fds_init" ⦂ (CArr c_ulong 1);
    "full_fds_bits_init" ⦂ (CArr c_ulong 1);
    "fd_array" ⦂ (CArr (ptr "struct file") 64);
    "" ⦂⟨ 64 ⟩ c_long;
    "" ⦂⟨ 64 ⟩ c_long;
    "" ⦂⟨ 64 ⟩ c_long;
    "" ⦂⟨ 64 ⟩ c_long].

Definition struct_io_uring_task : ctype :=
  Struct "io_uring_task" [
    "cached_refs" ⦂ c_int;
    "last" ⦂ (ptr "struct io_ring_ctx");
    "task" ⦂ (ptr "struct task_struct");
    "io_wq" ⦂ (ptr "struct io_wq");
    "registered_rings" ⦂ (CArr (ptr "struct file") 16);
    "xa" ⦂ struct_xarray;
    "wait" ⦂ struct_wait_queue_head;
    "in_cancel" ⦂ typedef_atomic_t;
    "inflight_tracked" ⦂ typedef_atomic_t;
    "inflight" ⦂ struct_percpu_counter;
    "" ⦂⟨ 64 ⟩ c_long;
    "" ⦂ (Struct "" [
      "task_list" ⦂ struct_llist_head;
      "task_work" ⦂ struct_callback_head;
      "" ⦂⟨ 64 ⟩ c_long;
      "" ⦂⟨ 64 ⟩ c_long;
      "" ⦂⟨ 64 ⟩ c_long;
      "" ⦂⟨ 64 ⟩ c_long;
      "" ⦂⟨ 64 ⟩ c_long])].

Definition struct_nsproxy : ctype :=
  Struct "nsproxy" [
    "count" ⦂ typedef_refcount_t;
    "uts_ns" ⦂ (ptr "struct uts_namespace");
    "ipc_ns" ⦂ (ptr "struct ipc_namespace");
    "mnt_ns" ⦂ (ptr "struct mnt_namespace");
    "pid_ns_for_children" ⦂ (ptr "struct pid_namespace");
    "net_ns" ⦂ (ptr "struct net");
    "time_ns" ⦂ (ptr "struct time_namespace");
    "time_ns_for_children" ⦂ (ptr "struct time_namespace");
    "cgroup_ns" ⦂ (ptr "struct cgroup_namespace")].

Definition struct_cpu_itimer : ctype :=
  Struct "cpu_itimer" [
    "expires" ⦂ typedef_u64;
    "incr" ⦂ typedef_u64].

Definition struct_task_cputime_atomic : ctype :=
  Struct "task_cputime_atomic" [
    "utime" ⦂ typedef_atomic64_t;
    "stime" ⦂ typedef_atomic64_t;
    "sum_exec_runtime" ⦂ typedef_atomic64_t].

Definition struct_thread_group_cputimer : ctype :=
  Struct "thread_group_cputimer" [
    "cputime_atomic" ⦂ struct_task_cputime_atomic].

Definition struct_rlimit : ctype :=
  Struct "rlimit" [
    "rlim_cur" ⦂ typedef___kernel_ulong_t;
    "rlim_max" ⦂ typedef___kernel_ulong_t].

Definition struct_pacct_struct : ctype :=
  Struct "pacct_struct" [
    "ac_flag" ⦂ c_int;
    "ac_exitcode" ⦂ c_long;
    "ac_mem" ⦂ c_ulong;
    "ac_utime" ⦂ typedef_u64;
    "ac_stime" ⦂ typedef_u64;
    "ac_minflt" ⦂ c_ulong;
    "ac_majflt" ⦂ c_ulong].

Definition struct_signal_struct : ctype :=
  Struct "signal_struct" [
    "sigcnt" ⦂ typedef_refcount_t;
    "live" ⦂ typedef_atomic_t;
    "nr_threads" ⦂ c_int;
    "quick_threads" ⦂ c_int;
    "thread_head" ⦂ struct_list_head;
    "wait_chldexit" ⦂ typedef_wait_queue_head_t;
    "curr_target" ⦂ (ptr "struct task_struct");
    "shared_pending" ⦂ struct_sigpending;
    "multiprocess" ⦂ struct_hlist_head;
    "group_exit_code" ⦂ c_int;
    "notify_count" ⦂ c_int;
    "group_exec_task" ⦂ (ptr "struct task_struct");
    "group_stop_count" ⦂ c_int;
    "flags" ⦂ c_uint;
    "core_state" ⦂ (ptr "struct core_state");
    "is_child_subreaper" ⦂⟨ 1 ⟩ c_uint;
    "has_child_subreaper" ⦂⟨ 1 ⟩ c_uint;
    "timer_create_restore_ids" ⦂⟨ 1 ⟩ c_uint;
    "next_posix_timer_id" ⦂ typedef_atomic_t;
    "posix_timers" ⦂ struct_hlist_head;
    "ignored_posix_timers" ⦂ struct_hlist_head;
    "real_timer" ⦂ struct_hrtimer;
    "it_real_incr" ⦂ typedef_ktime_t;
    "it" ⦂ (CArr struct_cpu_itimer 2);
    "cputimer" ⦂ struct_thread_group_cputimer;
    "posix_cputimers" ⦂ struct_posix_cputimers;
    "pids" ⦂ (CArr (ptr "struct pid") 4);
    "tick_dep_mask" ⦂ typedef_atomic_t;
    "tty_old_pgrp" ⦂ (ptr "struct pid");
    "leader" ⦂ c_int;
    "tty" ⦂ (ptr "struct tty_struct");
    "autogroup" ⦂ (ptr "struct autogroup");
    "stats_lock" ⦂ typedef_seqlock_t;
    "utime" ⦂ typedef_u64;
    "stime" ⦂ typedef_u64;
    "cutime" ⦂ typedef_u64;
    "cstime" ⦂ typedef_u64;
    "gtime" ⦂ typedef_u64;
    "cgtime" ⦂ typedef_u64;
    "prev_cputime" ⦂ struct_prev_cputime;
    "nvcsw" ⦂ c_ulong;
    "nivcsw" ⦂ c_ulong;
    "cnvcsw" ⦂ c_ulong;
    "cnivcsw" ⦂ c_ulong;
    "min_flt" ⦂ c_ulong;
    "maj_flt" ⦂ c_ulong;
    "cmin_flt" ⦂ c_ulong;
    "cmaj_flt" ⦂ c_ulong;
    "inblock" ⦂ c_ulong;
    "oublock" ⦂ c_ulong;
    "cinblock" ⦂ c_ulong;
    "coublock" ⦂ c_ulong;
    "maxrss" ⦂ c_ulong;
    "cmaxrss" ⦂ c_ulong;
    "ioac" ⦂ struct_task_io_accounting;
    "sum_sched_runtime" ⦂ c_ullong;
    "rlim" ⦂ (CArr struct_rlimit 16);
    "pacct" ⦂ struct_pacct_struct;
    "stats" ⦂ (ptr "struct taskstats");
    "audit_tty" ⦂ c_uint;
    "tty_audit_buf" ⦂ (ptr "struct tty_audit_buf");
    "cgroup_threadgroup_rwsem" ⦂ struct_rw_semaphore;
    "oom_flag_origin" ⦂ typedef_bool;
    "oom_score_adj" ⦂ c_short;
    "oom_score_adj_min" ⦂ c_short;
    "oom_mm" ⦂ (ptr "struct mm_struct");
    "cred_guard_mutex" ⦂ struct_mutex;
    "exec_update_lock" ⦂ struct_rw_semaphore].

Definition typedef___sighandler_t : ctype :=
  ptr "__signalfn_t".

Definition typedef___sigrestore_t : ctype :=
  ptr "__restorefn_t".

Definition struct_sigaction : ctype :=
  Struct "sigaction" [
    "sa_handler" ⦂ typedef___sighandler_t;
    "sa_flags" ⦂ c_ulong;
    "sa_restorer" ⦂ typedef___sigrestore_t;
    "sa_mask" ⦂ typedef_sigset_t].

Definition struct_k_sigaction : ctype :=
  Struct "k_sigaction" [
    "sa" ⦂ struct_sigaction].

Definition struct_sighand_struct : ctype :=
  Struct "sighand_struct" [
    "siglock" ⦂ typedef_spinlock_t;
    "count" ⦂ typedef_refcount_t;
    "signalfd_wqh" ⦂ typedef_wait_queue_head_t;
    "action" ⦂ (CArr struct_k_sigaction 64)].

Definition enum_audit_state : ctype :=
  CEnum "audit_state" I32 [
    ("AUDIT_STATE_DISABLED", (0)%Z);
    ("AUDIT_STATE_BUILD", (1)%Z);
    ("AUDIT_STATE_RECORD", (2)%Z)].

Definition struct_timespec64 : ctype :=
  Struct "timespec64" [
    "tv_sec" ⦂ typedef_time64_t;
    "tv_nsec" ⦂ c_long].

Definition struct_audit_stamp : ctype :=
  Struct "audit_stamp" [
    "ctime" ⦂ struct_timespec64;
    "serial" ⦂ c_uint].

Definition typedef___kernel_dev_t : ctype :=
  typedef_u32.

Definition typedef_dev_t : ctype :=
  typedef___kernel_dev_t.

Definition struct_lsm_prop_selinux : ctype :=
  Struct "lsm_prop_selinux" [
    "secid" ⦂ typedef_u32].

Definition struct_lsm_prop_smack : ctype :=
  Struct "lsm_prop_smack" [
    "skp" ⦂ (ptr "struct smack_known")].

Definition struct_lsm_prop_apparmor : ctype :=
  Struct "lsm_prop_apparmor" [
    "label" ⦂ (ptr "struct aa_label")].

Definition struct_lsm_prop_bpf : ctype :=
  Struct "lsm_prop_bpf" [
    "secid" ⦂ typedef_u32].

Definition struct_lsm_prop : ctype :=
  Struct "lsm_prop" [
    "selinux" ⦂ struct_lsm_prop_selinux;
    "smack" ⦂ struct_lsm_prop_smack;
    "apparmor" ⦂ struct_lsm_prop_apparmor;
    "bpf" ⦂ struct_lsm_prop_bpf].

Definition struct_audit_cap_data : ctype :=
  Struct "audit_cap_data" [
    "permitted" ⦂ typedef_kernel_cap_t;
    "inheritable" ⦂ typedef_kernel_cap_t;
    "" ⦂ (Union "" [
      "fE" ⦂ c_uint;
      "effective" ⦂ typedef_kernel_cap_t]);
    "ambient" ⦂ typedef_kernel_cap_t;
    "rootid" ⦂ typedef_kuid_t].

Definition struct_audit_names : ctype :=
  Struct "audit_names" [
    "list" ⦂ struct_list_head;
    "name" ⦂ (ptr "struct filename");
    "name_len" ⦂ c_int;
    "hidden" ⦂ typedef_bool;
    "ino" ⦂ c_ulong;
    "dev" ⦂ typedef_dev_t;
    "mode" ⦂ typedef_umode_t;
    "uid" ⦂ typedef_kuid_t;
    "gid" ⦂ typedef_kgid_t;
    "rdev" ⦂ typedef_dev_t;
    "oprop" ⦂ struct_lsm_prop;
    "fcap" ⦂ struct_audit_cap_data;
    "fcap_ver" ⦂ c_uint;
    "type" ⦂ c_uchar;
    "should_free" ⦂ typedef_bool].

Definition typedef___kernel_mqd_t : ctype :=
  c_int.

Definition typedef_mqd_t : ctype :=
  typedef___kernel_mqd_t.

Definition typedef___kernel_long_t : ctype :=
  c_long.

Definition struct_mq_attr : ctype :=
  Struct "mq_attr" [
    "mq_flags" ⦂ typedef___kernel_long_t;
    "mq_maxmsg" ⦂ typedef___kernel_long_t;
    "mq_msgsize" ⦂ typedef___kernel_long_t;
    "mq_curmsgs" ⦂ typedef___kernel_long_t;
    "__reserved" ⦂ (CArr typedef___kernel_long_t 4)].

Definition struct_open_how : ctype :=
  Struct "open_how" [
    "flags" ⦂ typedef___u64;
    "mode" ⦂ typedef___u64;
    "resolve" ⦂ typedef___u64].

Definition struct_audit_ntp_val : ctype :=
  Struct "audit_ntp_val" [
    "oldval" ⦂ c_llong;
    "newval" ⦂ c_llong].

Definition struct_audit_ntp_data : ctype :=
  Struct "audit_ntp_data" [
    "vals" ⦂ (CArr struct_audit_ntp_val 6)].

Definition struct_audit_proctitle : ctype :=
  Struct "audit_proctitle" [
    "len" ⦂ c_int;
    "value" ⦂ (ptr "char")].

Definition struct_audit_context : ctype :=
  Struct "audit_context" [
    "dummy" ⦂ c_int;
    "context" ⦂ (CEnum "" I32 [
      ("AUDIT_CTX_UNUSED", (0)%Z);
      ("AUDIT_CTX_SYSCALL", (1)%Z);
      ("AUDIT_CTX_URING", (2)%Z)]);
    "state" ⦂ enum_audit_state;
    "current_state" ⦂ enum_audit_state;
    "stamp" ⦂ struct_audit_stamp;
    "major" ⦂ c_int;
    "uring_op" ⦂ c_int;
    "argv" ⦂ (CArr c_ulong 4);
    "return_code" ⦂ c_long;
    "prio" ⦂ typedef_u64;
    "return_valid" ⦂ c_int;
    "preallocated_names" ⦂ (CArr struct_audit_names 5);
    "name_count" ⦂ c_int;
    "names_list" ⦂ struct_list_head;
    "filterkey" ⦂ (ptr "char");
    "pwd" ⦂ struct_path;
    "aux" ⦂ (ptr "struct audit_aux_data");
    "aux_pids" ⦂ (ptr "struct audit_aux_data");
    "sockaddr" ⦂ (ptr "struct __kernel_sockaddr_storage");
    "sockaddr_len" ⦂ typedef_size_t;
    "ppid" ⦂ typedef_pid_t;
    "uid" ⦂ typedef_kuid_t;
    "euid" ⦂ typedef_kuid_t;
    "suid" ⦂ typedef_kuid_t;
    "fsuid" ⦂ typedef_kuid_t;
    "gid" ⦂ typedef_kgid_t;
    "egid" ⦂ typedef_kgid_t;
    "sgid" ⦂ typedef_kgid_t;
    "fsgid" ⦂ typedef_kgid_t;
    "personality" ⦂ c_ulong;
    "arch" ⦂ c_int;
    "target_pid" ⦂ typedef_pid_t;
    "target_auid" ⦂ typedef_kuid_t;
    "target_uid" ⦂ typedef_kuid_t;
    "target_sessionid" ⦂ c_uint;
    "target_ref" ⦂ struct_lsm_prop;
    "target_comm" ⦂ (CArr c_char 16);
    "trees" ⦂ (ptr "struct audit_tree_refs");
    "first_trees" ⦂ (ptr "struct audit_tree_refs");
    "killed_trees" ⦂ struct_list_head;
    "tree_count" ⦂ c_int;
    "type" ⦂ c_int;
    "" ⦂ (Union "" [
      "socketcall" ⦂ (Struct "" [
        "nargs" ⦂ c_int;
        "args" ⦂ (CArr c_long 6)]);
      "ipc" ⦂ (Struct "" [
        "uid" ⦂ typedef_kuid_t;
        "gid" ⦂ typedef_kgid_t;
        "mode" ⦂ typedef_umode_t;
        "oprop" ⦂ struct_lsm_prop;
        "has_perm" ⦂ c_int;
        "perm_uid" ⦂ typedef_uid_t;
        "perm_gid" ⦂ typedef_gid_t;
        "perm_mode" ⦂ typedef_umode_t;
        "qbytes" ⦂ c_ulong]);
      "mq_getsetattr" ⦂ (Struct "" [
        "mqdes" ⦂ typedef_mqd_t;
        "mqstat" ⦂ struct_mq_attr]);
      "mq_notify" ⦂ (Struct "" [
        "mqdes" ⦂ typedef_mqd_t;
        "sigev_signo" ⦂ c_int]);
      "mq_sendrecv" ⦂ (Struct "" [
        "mqdes" ⦂ typedef_mqd_t;
        "msg_len" ⦂ typedef_size_t;
        "msg_prio" ⦂ c_uint;
        "abs_timeout" ⦂ struct_timespec64]);
      "mq_open" ⦂ (Struct "" [
        "oflag" ⦂ c_int;
        "mode" ⦂ typedef_umode_t;
        "attr" ⦂ struct_mq_attr]);
      "capset" ⦂ (Struct "" [
        "pid" ⦂ typedef_pid_t;
        "cap" ⦂ struct_audit_cap_data]);
      "mmap" ⦂ (Struct "" [
        "fd" ⦂ c_int;
        "flags" ⦂ c_int]);
      "openat2" ⦂ struct_open_how;
      "execve" ⦂ (Struct "" [
        "argc" ⦂ c_int]);
      "module" ⦂ (Struct "" [
        "name" ⦂ (ptr "char")]);
      "time" ⦂ (Struct "" [
        "ntp_data" ⦂ struct_audit_ntp_data;
        "tk_injoffset" ⦂ struct_timespec64])]);
    "fds" ⦂ (CArr c_int 2);
    "proctitle" ⦂ struct_audit_proctitle].

Definition struct_rt_waiter_node : ctype :=
  Struct "rt_waiter_node" [
    "entry" ⦂ struct_rb_node;
    "prio" ⦂ c_int;
    "deadline" ⦂ typedef_u64].

Definition struct_rt_mutex_waiter : ctype :=
  Struct "rt_mutex_waiter" [
    "tree" ⦂ struct_rt_waiter_node;
    "pi_tree" ⦂ struct_rt_waiter_node;
    "task" ⦂ (ptr "struct task_struct");
    "lock" ⦂ (ptr "struct rt_mutex_base");
    "wake_state" ⦂ c_uint;
    "ww_ctx" ⦂ (ptr "struct ww_acquire_ctx")].

Definition struct_bio_list : ctype :=
  Struct "bio_list" [
    "head" ⦂ (ptr "struct bio");
    "tail" ⦂ (ptr "struct bio")].

Definition struct_rq_list : ctype :=
  Struct "rq_list" [
    "head" ⦂ (ptr "struct request");
    "tail" ⦂ (ptr "struct request")].

Definition struct_blk_plug : ctype :=
  Struct "blk_plug" [
    "mq_list" ⦂ struct_rq_list;
    "cached_rqs" ⦂ struct_rq_list;
    "cur_ktime" ⦂ typedef_u64;
    "nr_ios" ⦂ c_ushort;
    "rq_count" ⦂ c_ushort;
    "multiple_queues" ⦂ typedef_bool;
    "has_elevator" ⦂ typedef_bool;
    "cb_list" ⦂ struct_list_head].

Definition struct_reclaim_state : ctype :=
  Struct "reclaim_state" [
    "reclaimed" ⦂ c_ulong;
    "mm_walk" ⦂ (ptr "struct lru_gen_mm_walk")].

Definition struct_io_context : ctype :=
  Struct "io_context" [
    "refcount" ⦂ typedef_atomic_long_t;
    "active_ref" ⦂ typedef_atomic_t;
    "ioprio" ⦂ c_ushort;
    "lock" ⦂ typedef_spinlock_t;
    "icq_tree" ⦂ struct_xarray;
    "icq_hint" ⦂ (ptr "struct io_cq");
    "icq_list" ⦂ struct_hlist_head;
    "release_work" ⦂ struct_work_struct].

Definition struct_capture_control : ctype :=
  Struct "capture_control" [
    "cc" ⦂ (ptr "struct compact_control");
    "page" ⦂ (ptr "struct page")].

Definition struct_robust_list : ctype :=
  Struct "robust_list" [
    "next" ⦂ (ptr "struct robust_list")].

Definition struct_robust_list_head : ctype :=
  Struct "robust_list_head" [
    "list" ⦂ struct_robust_list;
    "futex_offset" ⦂ c_long;
    "list_op_pending" ⦂ (ptr "struct robust_list")].

Definition typedef_compat_uptr_t : ctype :=
  typedef_u32.

Definition struct_compat_robust_list : ctype :=
  Struct "compat_robust_list" [
    "next" ⦂ typedef_compat_uptr_t].

Definition typedef_compat_long_t : ctype :=
  typedef_s32.

Definition struct_compat_robust_list_head : ctype :=
  Struct "compat_robust_list_head" [
    "list" ⦂ struct_compat_robust_list;
    "futex_offset" ⦂ typedef_compat_long_t;
    "list_op_pending" ⦂ typedef_compat_uptr_t].

Definition union_futex_key : ctype :=
  Union "futex_key" [
    "shared" ⦂ (Struct "" [
      "i_seq" ⦂ typedef_u64;
      "pgoff" ⦂ c_ulong;
      "offset" ⦂ c_uint]);
    "private" ⦂ (Struct "" [
      "" ⦂ (Union "" [
        "mm" ⦂ (ptr "struct mm_struct");
        "__tmp" ⦂ typedef_u64]);
      "address" ⦂ c_ulong;
      "offset" ⦂ c_uint]);
    "both" ⦂ (Struct "" [
      "ptr" ⦂ typedef_u64;
      "word" ⦂ c_ulong;
      "offset" ⦂ c_uint;
      "node" ⦂ c_uint])].

Definition struct_futex_pi_state : ctype :=
  Struct "futex_pi_state" [
    "list" ⦂ struct_list_head;
    "pi_mutex" ⦂ struct_rt_mutex_base;
    "owner" ⦂ (ptr "struct task_struct");
    "refcount" ⦂ typedef_refcount_t;
    "key" ⦂ union_futex_key].

Definition struct_perf_event_groups : ctype :=
  Struct "perf_event_groups" [
    "tree" ⦂ struct_rb_root;
    "index" ⦂ typedef_u64].

Definition typedef_local_t : ctype :=
  Struct "" [
    "a" ⦂ typedef_atomic_long_t].

Definition struct_perf_event_context : ctype :=
  Struct "perf_event_context" [
    "lock" ⦂ typedef_raw_spinlock_t;
    "mutex" ⦂ struct_mutex;
    "pmu_ctx_list" ⦂ struct_list_head;
    "pinned_groups" ⦂ struct_perf_event_groups;
    "flexible_groups" ⦂ struct_perf_event_groups;
    "event_list" ⦂ struct_list_head;
    "nr_events" ⦂ c_int;
    "nr_user" ⦂ c_int;
    "is_active" ⦂ c_int;
    "nr_stat" ⦂ c_int;
    "nr_freq" ⦂ c_int;
    "rotate_disable" ⦂ c_int;
    "refcount" ⦂ typedef_refcount_t;
    "task" ⦂ (ptr "struct task_struct");
    "time" ⦂ typedef_u64;
    "timestamp" ⦂ typedef_u64;
    "timeoffset" ⦂ typedef_u64;
    "parent_ctx" ⦂ (ptr "struct perf_event_context");
    "parent_gen" ⦂ typedef_u64;
    "generation" ⦂ typedef_u64;
    "pin_count" ⦂ c_int;
    "nr_cgroups" ⦂ c_int;
    "callback_head" ⦂ struct_callback_head;
    "nr_no_switch_fast" ⦂ typedef_local_t].

Definition struct_perf_ctx_data : ctype :=
  Struct "perf_ctx_data" [
    "callback_head" ⦂ struct_callback_head;
    "refcount" ⦂ typedef_refcount_t;
    "global" ⦂ c_int;
    "ctx_cache" ⦂ (ptr "struct kmem_cache");
    "data" ⦂ (ptr "void")].

Definition struct_mempolicy : ctype :=
  Struct "mempolicy" [
    "refcnt" ⦂ typedef_atomic_t;
    "mode" ⦂ c_ushort;
    "flags" ⦂ c_ushort;
    "nodes" ⦂ typedef_nodemask_t;
    "home_node" ⦂ c_int;
    "w" ⦂ (Union "" [
      "cpuset_mems_allowed" ⦂ typedef_nodemask_t;
      "user_nodemask" ⦂ typedef_nodemask_t])].

Definition struct_numa_group : ctype :=
  Struct "numa_group" [
    "refcount" ⦂ typedef_refcount_t;
    "lock" ⦂ typedef_spinlock_t;
    "nr_tasks" ⦂ c_int;
    "gid" ⦂ typedef_pid_t;
    "active_nodes" ⦂ c_int;
    "rcu" ⦂ struct_callback_head;
    "total_faults" ⦂ c_ulong;
    "max_faults_cpu" ⦂ c_ulong;
    "faults" ⦂ (CArr c_ulong 0)].

Definition struct_rseq : ctype :=
  Struct "rseq" [
    "cpu_id_start" ⦂ typedef___u32;
    "cpu_id" ⦂ typedef___u32;
    "rseq_cs" ⦂ typedef___u64;
    "flags" ⦂ typedef___u32;
    "node_id" ⦂ typedef___u32;
    "mm_cid" ⦂ typedef___u32;
    "end" ⦂ (CArr c_char 0)].

Definition typedef_pipe_index_t : ctype :=
  c_uint.

Definition struct_pipe_inode_info : ctype :=
  Struct "pipe_inode_info" [
    "mutex" ⦂ struct_mutex;
    "rd_wait" ⦂ typedef_wait_queue_head_t;
    "wr_wait" ⦂ typedef_wait_queue_head_t;
    "" ⦂ (Union "" [
      "head_tail" ⦂ c_ulong;
      "" ⦂ (Struct "" [
        "head" ⦂ typedef_pipe_index_t;
        "tail" ⦂ typedef_pipe_index_t])]);
    "max_usage" ⦂ c_uint;
    "ring_size" ⦂ c_uint;
    "nr_accounted" ⦂ c_uint;
    "readers" ⦂ c_uint;
    "writers" ⦂ c_uint;
    "files" ⦂ c_uint;
    "r_counter" ⦂ c_uint;
    "w_counter" ⦂ c_uint;
    "poll_usage" ⦂ typedef_bool;
    "note_loss" ⦂ typedef_bool;
    "tmp_page" ⦂ (CArr (ptr "struct page") 2);
    "fasync_readers" ⦂ (ptr "struct fasync_struct");
    "fasync_writers" ⦂ (ptr "struct fasync_struct");
    "bufs" ⦂ (ptr "struct pipe_buffer");
    "user" ⦂ (ptr "struct user_struct");
    "watch_queue" ⦂ (ptr "struct watch_queue")].

Definition struct_task_delay_info : ctype :=
  Struct "task_delay_info" [
    "lock" ⦂ typedef_raw_spinlock_t;
    "blkio_start" ⦂ typedef_u64;
    "blkio_delay_max" ⦂ typedef_u64;
    "blkio_delay_min" ⦂ typedef_u64;
    "blkio_delay" ⦂ typedef_u64;
    "swapin_start" ⦂ typedef_u64;
    "swapin_delay_max" ⦂ typedef_u64;
    "swapin_delay_min" ⦂ typedef_u64;
    "swapin_delay" ⦂ typedef_u64;
    "blkio_count" ⦂ typedef_u32;
    "swapin_count" ⦂ typedef_u32;
    "freepages_start" ⦂ typedef_u64;
    "freepages_delay_max" ⦂ typedef_u64;
    "freepages_delay_min" ⦂ typedef_u64;
    "freepages_delay" ⦂ typedef_u64;
    "thrashing_start" ⦂ typedef_u64;
    "thrashing_delay_max" ⦂ typedef_u64;
    "thrashing_delay_min" ⦂ typedef_u64;
    "thrashing_delay" ⦂ typedef_u64;
    "compact_start" ⦂ typedef_u64;
    "compact_delay_max" ⦂ typedef_u64;
    "compact_delay_min" ⦂ typedef_u64;
    "compact_delay" ⦂ typedef_u64;
    "wpcopy_start" ⦂ typedef_u64;
    "wpcopy_delay_max" ⦂ typedef_u64;
    "wpcopy_delay_min" ⦂ typedef_u64;
    "wpcopy_delay" ⦂ typedef_u64;
    "irq_delay_max" ⦂ typedef_u64;
    "irq_delay_min" ⦂ typedef_u64;
    "irq_delay" ⦂ typedef_u64;
    "freepages_count" ⦂ typedef_u32;
    "thrashing_count" ⦂ typedef_u32;
    "compact_count" ⦂ typedef_u32;
    "wpcopy_count" ⦂ typedef_u32;
    "irq_count" ⦂ typedef_u32].

Definition struct_obj_cgroup : ctype :=
  Struct "obj_cgroup" [
    "refcnt" ⦂ struct_percpu_ref;
    "memcg" ⦂ (ptr "struct mem_cgroup");
    "nr_charged_bytes" ⦂ typedef_atomic_t;
    "" ⦂ (Union "" [
      "list" ⦂ struct_list_head;
      "rcu" ⦂ struct_callback_head])].

Definition struct_mempool : ctype :=
  Struct "mempool" [
    "lock" ⦂ typedef_spinlock_t;
    "min_nr" ⦂ c_int;
    "curr_nr" ⦂ c_int;
    "elements" ⦂ (ptr "void *");
    "pool_data" ⦂ (ptr "void");
    "alloc" ⦂ (ptr "mempool_alloc_t");
    "free" ⦂ (ptr "mempool_free_t");
    "wait" ⦂ typedef_wait_queue_head_t].

Definition typedef_mempool_t : ctype :=
  struct_mempool.

Definition struct_bio_set : ctype :=
  Struct "bio_set" [
    "bio_slab" ⦂ (ptr "struct kmem_cache");
    "front_pad" ⦂ c_uint;
    "cache" ⦂ (ptr "struct bio_alloc_cache");
    "bio_pool" ⦂ typedef_mempool_t;
    "bvec_pool" ⦂ typedef_mempool_t;
    "back_pad" ⦂ c_uint;
    "rescue_lock" ⦂ typedef_spinlock_t;
    "rescue_list" ⦂ struct_bio_list;
    "rescue_work" ⦂ struct_work_struct;
    "rescue_workqueue" ⦂ (ptr "struct workqueue_struct");
    "cpuhp_dead" ⦂ struct_hlist_node].

Definition struct_kref : ctype :=
  Struct "kref" [
    "refcount" ⦂ typedef_refcount_t].

Definition struct_kobject : ctype :=
  Struct "kobject" [
    "name" ⦂ (ptr "char");
    "entry" ⦂ struct_list_head;
    "parent" ⦂ (ptr "struct kobject");
    "kset" ⦂ (ptr "struct kset");
    "ktype" ⦂ (ptr "struct kobj_type");
    "sd" ⦂ (ptr "struct kernfs_node");
    "kref" ⦂ struct_kref;
    "state_initialized" ⦂⟨ 1 ⟩ c_uint;
    "state_in_sysfs" ⦂⟨ 1 ⟩ c_uint;
    "state_add_uevent_sent" ⦂⟨ 1 ⟩ c_uint;
    "state_remove_uevent_sent" ⦂⟨ 1 ⟩ c_uint;
    "uevent_suppress" ⦂⟨ 1 ⟩ c_uint].

Definition struct_lockdep_map : ctype :=
  Struct "lockdep_map" [].

Definition typedef_blk_mode_t : ctype :=
  c_uint.

Definition struct_gendisk : ctype :=
  Struct "gendisk" [
    "major" ⦂ c_int;
    "first_minor" ⦂ c_int;
    "minors" ⦂ c_int;
    "disk_name" ⦂ (CArr c_char 32);
    "events" ⦂ c_ushort;
    "event_flags" ⦂ c_ushort;
    "part_tbl" ⦂ struct_xarray;
    "part0" ⦂ (ptr "struct block_device");
    "fops" ⦂ (ptr "struct block_device_operations");
    "queue" ⦂ (ptr "struct request_queue");
    "private_data" ⦂ (ptr "void");
    "bio_split" ⦂ struct_bio_set;
    "flags" ⦂ c_int;
    "state" ⦂ c_ulong;
    "open_mutex" ⦂ struct_mutex;
    "open_partitions" ⦂ c_uint;
    "bdi" ⦂ (ptr "struct backing_dev_info");
    "queue_kobj" ⦂ struct_kobject;
    "slave_dir" ⦂ (ptr "struct kobject");
    "slave_bdevs" ⦂ struct_list_head;
    "random" ⦂ (ptr "struct timer_rand_state");
    "ev" ⦂ (ptr "struct disk_events");
    "nr_zones" ⦂ c_uint;
    "zone_capacity" ⦂ c_uint;
    "last_zone_capacity" ⦂ c_uint;
    "conv_zones_bitmap" ⦂ (ptr "long unsigned int");
    "zone_wplugs_hash_bits" ⦂ c_uint;
    "nr_zone_wplugs" ⦂ typedef_atomic_t;
    "zone_wplugs_lock" ⦂ typedef_spinlock_t;
    "zone_wplugs_pool" ⦂ (ptr "struct mempool");
    "zone_wplugs_hash" ⦂ (ptr "struct hlist_head");
    "zone_wplugs_wq" ⦂ (ptr "struct workqueue_struct");
    "cdi" ⦂ (ptr "struct cdrom_device_info");
    "node_id" ⦂ c_int;
    "bb" ⦂ (ptr "struct badblocks");
    "lockdep_map" ⦂ struct_lockdep_map;
    "diskseq" ⦂ typedef_u64;
    "open_mode" ⦂ typedef_blk_mode_t;
    "ia_ranges" ⦂ (ptr "struct blk_independent_access_ranges");
    "rqos_state_mutex" ⦂ struct_mutex].

Definition enum_uprobe_task_state : ctype :=
  CEnum "uprobe_task_state" I32 [
    ("UTASK_RUNNING", (0)%Z);
    ("UTASK_SSTEP", (1)%Z);
    ("UTASK_SSTEP_ACK", (2)%Z);
    ("UTASK_SSTEP_TRAPPED", (3)%Z)].

Definition struct_arch_uprobe_task : ctype :=
  Struct "arch_uprobe_task" [
    "saved_scratch_register" ⦂ c_ulong;
    "saved_trap_nr" ⦂ c_uint;
    "saved_tf" ⦂ c_uint].

Definition struct_uprobe_task : ctype :=
  Struct "uprobe_task" [
    "state" ⦂ enum_uprobe_task_state;
    "depth" ⦂ c_uint;
    "return_instances" ⦂ (ptr "struct return_instance");
    "ri_pool" ⦂ (ptr "struct return_instance");
    "ri_timer" ⦂ struct_timer_list;
    "ri_seqcount" ⦂ typedef_seqcount_t;
    "" ⦂ (Union "" [
      "" ⦂ (Struct "" [
        "autask" ⦂ struct_arch_uprobe_task;
        "vaddr" ⦂ c_ulong]);
      "" ⦂ (Struct "" [
        "dup_xol_work" ⦂ struct_callback_head;
        "dup_xol_addr" ⦂ c_ulong])]);
    "active_uprobe" ⦂ (ptr "struct uprobe");
    "xol_vaddr" ⦂ c_ulong;
    "signal_denied" ⦂ typedef_bool;
    "auprobe" ⦂ (ptr "struct arch_uprobe")].

Definition typedef_phys_addr_t : ctype :=
  typedef_u64.

Definition struct_vm_struct : ctype :=
  Struct "vm_struct" [
    "next" ⦂ (ptr "struct vm_struct");
    "addr" ⦂ (ptr "void");
    "size" ⦂ c_ulong;
    "flags" ⦂ c_ulong;
    "pages" ⦂ (ptr "struct page *");
    "page_order" ⦂ c_uint;
    "nr_pages" ⦂ c_uint;
    "phys_addr" ⦂ typedef_phys_addr_t;
    "caller" ⦂ (ptr "void");
    "requested_size" ⦂ c_ulong].

Definition struct_bpf_run_ctx : ctype :=
  Struct "bpf_run_ctx" [].

Definition enum_bpf_map_type : ctype :=
  CEnum "bpf_map_type" I32 [
    ("BPF_MAP_TYPE_UNSPEC", (0)%Z);
    ("BPF_MAP_TYPE_HASH", (1)%Z);
    ("BPF_MAP_TYPE_ARRAY", (2)%Z);
    ("BPF_MAP_TYPE_PROG_ARRAY", (3)%Z);
    ("BPF_MAP_TYPE_PERF_EVENT_ARRAY", (4)%Z);
    ("BPF_MAP_TYPE_PERCPU_HASH", (5)%Z);
    ("BPF_MAP_TYPE_PERCPU_ARRAY", (6)%Z);
    ("BPF_MAP_TYPE_STACK_TRACE", (7)%Z);
    ("BPF_MAP_TYPE_CGROUP_ARRAY", (8)%Z);
    ("BPF_MAP_TYPE_LRU_HASH", (9)%Z);
    ("BPF_MAP_TYPE_LRU_PERCPU_HASH", (10)%Z);
    ("BPF_MAP_TYPE_LPM_TRIE", (11)%Z);
    ("BPF_MAP_TYPE_ARRAY_OF_MAPS", (12)%Z);
    ("BPF_MAP_TYPE_HASH_OF_MAPS", (13)%Z);
    ("BPF_MAP_TYPE_DEVMAP", (14)%Z);
    ("BPF_MAP_TYPE_SOCKMAP", (15)%Z);
    ("BPF_MAP_TYPE_CPUMAP", (16)%Z);
    ("BPF_MAP_TYPE_XSKMAP", (17)%Z);
    ("BPF_MAP_TYPE_SOCKHASH", (18)%Z);
    ("BPF_MAP_TYPE_CGROUP_STORAGE_DEPRECATED", (19)%Z);
    ("BPF_MAP_TYPE_CGROUP_STORAGE", (19)%Z);
    ("BPF_MAP_TYPE_REUSEPORT_SOCKARRAY", (20)%Z);
    ("BPF_MAP_TYPE_PERCPU_CGROUP_STORAGE_DEPRECATED", (21)%Z);
    ("BPF_MAP_TYPE_PERCPU_CGROUP_STORAGE", (21)%Z);
    ("BPF_MAP_TYPE_QUEUE", (22)%Z);
    ("BPF_MAP_TYPE_STACK", (23)%Z);
    ("BPF_MAP_TYPE_SK_STORAGE", (24)%Z);
    ("BPF_MAP_TYPE_DEVMAP_HASH", (25)%Z);
    ("BPF_MAP_TYPE_STRUCT_OPS", (26)%Z);
    ("BPF_MAP_TYPE_RINGBUF", (27)%Z);
    ("BPF_MAP_TYPE_INODE_STORAGE", (28)%Z);
    ("BPF_MAP_TYPE_TASK_STORAGE", (29)%Z);
    ("BPF_MAP_TYPE_BLOOM_FILTER", (30)%Z);
    ("BPF_MAP_TYPE_USER_RINGBUF", (31)%Z);
    ("BPF_MAP_TYPE_CGRP_STORAGE", (32)%Z);
    ("BPF_MAP_TYPE_ARENA", (33)%Z);
    ("__MAX_BPF_MAP_TYPE", (34)%Z)].

Definition struct_bpf_nh_params : ctype :=
  Struct "bpf_nh_params" [
    "nh_family" ⦂ typedef_u32;
    "" ⦂ (Union "" [
      "ipv4_nh" ⦂ typedef_u32;
      "ipv6_nh" ⦂ struct_in6_addr])].

Definition struct_bpf_redirect_info : ctype :=
  Struct "bpf_redirect_info" [
    "tgt_index" ⦂ typedef_u64;
    "tgt_value" ⦂ (ptr "void");
    "map" ⦂ (ptr "struct bpf_map");
    "flags" ⦂ typedef_u32;
    "map_id" ⦂ typedef_u32;
    "map_type" ⦂ enum_bpf_map_type;
    "nh" ⦂ struct_bpf_nh_params;
    "kern_flags" ⦂ typedef_u32].

Definition struct_bpf_net_context : ctype :=
  Struct "bpf_net_context" [
    "ri" ⦂ struct_bpf_redirect_info;
    "cpu_map_flush_list" ⦂ struct_list_head;
    "dev_map_flush_list" ⦂ struct_list_head;
    "xskmap_map_flush_list" ⦂ struct_list_head].

Definition struct_user_event_mm : ctype :=
  Struct "user_event_mm" [
    "mms_link" ⦂ struct_list_head;
    "enablers" ⦂ struct_list_head;
    "mm" ⦂ (ptr "struct mm_struct");
    "next" ⦂ (ptr "struct user_event_mm");
    "refcnt" ⦂ typedef_refcount_t;
    "tasks" ⦂ typedef_refcount_t;
    "put_rwork" ⦂ struct_rcu_work].

(** The tagged structures and unions of this file, by their C name. *)
Definition KTaskRefs_types : list (string * ctype) := [
  ("struct sched_class", struct_sched_class);
  ("struct scx_task_group", struct_scx_task_group);
  ("struct cfs_bandwidth", struct_cfs_bandwidth);
  ("struct task_group", struct_task_group);
  ("struct rt_mutex_base", struct_rt_mutex_base);
  ("struct rt_mutex", struct_rt_mutex);
  ("struct swait_queue_head", struct_swait_queue_head);
  ("struct kthread_work", struct_kthread_work);
  ("struct rcu_exp_work", struct_rcu_exp_work);
  ("struct rcu_node", struct_rcu_node);
  ("struct maple_tree", struct_maple_tree);
  ("struct rw_semaphore", struct_rw_semaphore);
  ("struct rcuwait", struct_rcuwait);
  ("struct uprobes_state", struct_uprobes_state);
  ("struct mm_struct", struct_mm_struct);
  ("struct address_space", struct_address_space);
  ("struct completion", struct_completion);
  ("struct keyring_index_key", struct_keyring_index_key);
  ("union key_payload", union_key_payload);
  ("struct assoc_array", struct_assoc_array);
  ("struct key", struct_key);
  ("struct path", struct_path);
  ("struct qstr", struct_qstr);
  ("struct delayed_call", struct_delayed_call);
  ("struct saved", struct_saved);
  ("struct nameidata", struct_nameidata);
  ("struct fs_struct", struct_fs_struct);
  ("struct fdtable", struct_fdtable);
  ("struct files_struct", struct_files_struct);
  ("struct io_uring_task", struct_io_uring_task);
  ("struct nsproxy", struct_nsproxy);
  ("struct cpu_itimer", struct_cpu_itimer);
  ("struct task_cputime_atomic", struct_task_cputime_atomic);
  ("struct thread_group_cputimer", struct_thread_group_cputimer);
  ("struct rlimit", struct_rlimit);
  ("struct pacct_struct", struct_pacct_struct);
  ("struct signal_struct", struct_signal_struct);
  ("struct sigaction", struct_sigaction);
  ("struct k_sigaction", struct_k_sigaction);
  ("struct sighand_struct", struct_sighand_struct);
  ("struct timespec64", struct_timespec64);
  ("struct audit_stamp", struct_audit_stamp);
  ("struct lsm_prop_selinux", struct_lsm_prop_selinux);
  ("struct lsm_prop_smack", struct_lsm_prop_smack);
  ("struct lsm_prop_apparmor", struct_lsm_prop_apparmor);
  ("struct lsm_prop_bpf", struct_lsm_prop_bpf);
  ("struct lsm_prop", struct_lsm_prop);
  ("struct audit_cap_data", struct_audit_cap_data);
  ("struct audit_names", struct_audit_names);
  ("struct mq_attr", struct_mq_attr);
  ("struct open_how", struct_open_how);
  ("struct audit_ntp_val", struct_audit_ntp_val);
  ("struct audit_ntp_data", struct_audit_ntp_data);
  ("struct audit_proctitle", struct_audit_proctitle);
  ("struct audit_context", struct_audit_context);
  ("struct rt_waiter_node", struct_rt_waiter_node);
  ("struct rt_mutex_waiter", struct_rt_mutex_waiter);
  ("struct bio_list", struct_bio_list);
  ("struct rq_list", struct_rq_list);
  ("struct blk_plug", struct_blk_plug);
  ("struct reclaim_state", struct_reclaim_state);
  ("struct io_context", struct_io_context);
  ("struct capture_control", struct_capture_control);
  ("struct robust_list", struct_robust_list);
  ("struct robust_list_head", struct_robust_list_head);
  ("struct compat_robust_list", struct_compat_robust_list);
  ("struct compat_robust_list_head", struct_compat_robust_list_head);
  ("union futex_key", union_futex_key);
  ("struct futex_pi_state", struct_futex_pi_state);
  ("struct perf_event_groups", struct_perf_event_groups);
  ("struct perf_event_context", struct_perf_event_context);
  ("struct perf_ctx_data", struct_perf_ctx_data);
  ("struct mempolicy", struct_mempolicy);
  ("struct numa_group", struct_numa_group);
  ("struct rseq", struct_rseq);
  ("struct pipe_inode_info", struct_pipe_inode_info);
  ("struct task_delay_info", struct_task_delay_info);
  ("struct obj_cgroup", struct_obj_cgroup);
  ("struct mempool", struct_mempool);
  ("struct bio_set", struct_bio_set);
  ("struct kref", struct_kref);
  ("struct kobject", struct_kobject);
  ("struct lockdep_map", struct_lockdep_map);
  ("struct gendisk", struct_gendisk);
  ("struct arch_uprobe_task", struct_arch_uprobe_task);
  ("struct uprobe_task", struct_uprobe_task);
  ("struct vm_struct", struct_vm_struct);
  ("struct bpf_run_ctx", struct_bpf_run_ctx);
  ("struct bpf_nh_params", struct_bpf_nh_params);
  ("struct bpf_redirect_info", struct_bpf_redirect_info);
  ("struct bpf_net_context", struct_bpf_net_context);
  ("struct user_event_mm", struct_user_event_mm)].
