(* ===== verification/KernelTypes.v ===== *)
(** * The kernel type environment

    All tagged types of [KBase] .. [KTaskRefs] under their C names, what the
    probes of [bpf/monitor.c] select from them, and reads of a kernel memory
    laid out by them. *)

From S2P Require Import Prelude.
From S2P Require Import CLayout.
From S2P Require Import Bytes.
From S2P Require Import KBase.
From S2P Require Import KNet.
From S2P Require Import KTask.
From S2P Require Import KCgroup.
From S2P Require Import KNetRefs.
From S2P Require Import KTaskRefs.

Open Scope N_scope.

Definition kernel_types : list (string * ctype) :=
  KBase_types ++ KNet_types ++ KTask_types ++ KCgroup_types ++ KNetRefs_types ++ KTaskRefs_types.

Fixpoint assoc (name : string) (l : list (string * ctype)) : option ctype :=
  match l with
  | [] => None
  | (n, t) :: l => if bool_decide (n = name) then Some t else assoc name l
  end.

Definition kernel_type (name : string) : option ctype := assoc name kernel_types.

(** A pointer target that is one structure, not another pointer. *)
Definition struct_name (s : string) : bool :=
  String.prefix "struct " s && bool_decide (String.index 0 "*" s = None).

(** The structures a composite's pointer members (and those of its anonymous
    parts) refer to. *)
Fixpoint pointees (t : ctype) : list string :=
  match t with
  | CComp _ _ ms =>
      (fix go (ms : list member) : list string :=
         match ms with
         | [] => []
         | Mem _ (CPtr s) :: ms => if struct_name s then s :: go ms else go ms
         | Mem EmptyString t :: ms => pointees t ++ go ms
         | _ :: ms => go ms
         end) ms
  | _ => []
  end.

(** ** Reads of a kernel memory *)

(** A kernel memory: the byte at each mapped address. *)
Definition kmem := Z -> option byte.

Fixpoint load (m : kmem) (p : Z) (n : nat) : option (list byte) :=
  match n with
  | O => Some []
  | S n =>
      match m p, load m (p + 1) n with
      | Some b, Some bs => Some (b :: bs)
      | _, _ => None
      end
  end.

(** What reading the member [path] of the object of type [name] at [p] gives,
    in a kernel whose types are those of the header: the member's bytes, or
    zeroes when they are not mapped. *)
Definition member_bytes (m : kmem) (name : string) (p : Z) (path : list string) : list byte :=
  match t ← kernel_type name; offset_size t path with
  | Some (o, n) =>
      match load m (p + Z.of_N o) (N.to_nat n) with
      | Some bs => bs
      | None => replicate (N.to_nat n) NUL
      end
  | None => []
  end.

(** The bytes of an object [obj] are in memory at [p]. *)
Definition object_at (m : kmem) (p : Z) (obj : list byte) : Prop :=
  forall i b, obj !! i = Some b -> m (p + Z.of_nat i)%Z = Some b.

Lemma load_object m : forall n p bs,
  load m p n = Some bs <-> length bs = n /\ object_at m p bs.
Proof.
  induction n as [|n IH]; intros p bs; simpl.
  - split; [intros H; injection H as <-; split; [reflexivity|intros i b; by rewrite lookup_nil]|].
    intros [Hl _]. by apply nil_length_inv in Hl as ->.
  - split.
    + destruct (m p) as [b|] eqn:Hb; [|discriminate].
      destruct (load m (p + 1) n) as [bs'|] eqn:Hbs; [|discriminate].
      intros H. injection H as <-. apply IH in Hbs as [Hl Hat]. split; [simpl; congruence|].
      intros [|i] c Hc; simpl in Hc; [injection Hc as <-; by rewrite Z.add_0_r|].
      rewrite <- (Hat i c Hc). f_equal. lia.
    + intros [Hl Hat]. destruct bs as [|b bs]; [discriminate|].
      pose proof (Hat 0%nat b eq_refl) as Hb. rewrite Z.add_0_r in Hb. rewrite Hb.
      assert (load m (p + 1) n = Some bs) as ->; [|reflexivity].
      apply IH. split; [by injection Hl|]. intros i c Hc.
      rewrite <- (Hat (S i) c Hc). f_equal. lia.
Qed.

Lemma object_at_slice m p obj o n :
  object_at m p obj -> object_at m (p + Z.of_nat o) (slice o n obj).
Proof.
  intros H i b Hi. unfold slice in Hi. apply lookup_take_Some in Hi as [Hi _].
  rewrite lookup_drop in Hi. rewrite <- (H _ _ Hi). f_equal. lia.
Qed.

(** Reading a member of an object in memory gives that member's bytes. *)
Lemma member_bytes_object m name t p path o n obj :
  kernel_type name = Some t -> offset_size t path = Some (o, n) ->
  object_at m p obj -> length obj = N.to_nat (sizeof t) ->
  member_bytes m name p path = slice (N.to_nat o) (N.to_nat n) obj.
Proof.
  intros Ht Ho Hat Hl. unfold member_bytes. rewrite Ht. cbn [mbind option_bind]. rewrite Ho.
  pose proof (offset_size_ok _ _ _ _ Ho) as Hin.
  assert (load m (p + Z.of_N o) (N.to_nat n) = Some (slice (N.to_nat o) (N.to_nat n) obj)) as ->;
    [|reflexivity].
  apply load_object. split; [apply length_slice; lia|].
  replace (Z.of_N o) with (Z.of_nat (N.to_nat o)) by lia. by apply object_at_slice.
Qed.

Lemma length_member_bytes m name t p path o n :
  kernel_type name = Some t -> offset_size t path = Some (o, n) ->
  length (member_bytes m name p path) = N.to_nat n.
Proof.
  intros Ht Ho. unfold member_bytes. rewrite Ht. cbn [mbind option_bind]. rewrite Ho.
  destruct (load _ _ _) eqn:E; [by apply load_object in E as [? _]|apply length_replicate].
Qed.

(** ** What the probes select *)

Definition sock_family := ["__sk_common"; "skc_family"].
Definition sock_rcv_saddr := ["__sk_common"; "skc_rcv_saddr"].
Definition sock_daddr := ["__sk_common"; "skc_daddr"].
Definition sock_num := ["__sk_common"; "skc_num"].
Definition sock_dport := ["__sk_common"; "skc_dport"].

(** The overlays of [struct sock_common] ([skc_addrpair], [skc_portpair]) cover exactly
    the two addresses and the two ports. *)
Example sock_overlays :
  map (offset_size struct_sock) [["__sk_common"; "skc_addrpair"]; sock_daddr; sock_rcv_saddr] =
    [Some (0, 8); Some (0, 4); Some (4, 4)] /\
  map (offset_size struct_sock) [["__sk_common"; "skc_portpair"]; sock_dport; sock_num] =
    [Some (12, 4); Some (12, 2); Some (14, 2)].
Proof. vm_compute. split; reflexivity. Qed.

(** Every structure that a pointer member of [struct sock_common],
    [struct sock] or [struct task_struct] refers to is declared in the
    environment, and every declared type has a power-of-two alignment that
    divides its size. *)
Theorem kernel_types_closed :
  Forall (fun s => is_Some (kernel_type s))
    (pointees struct_sock_common ++ pointees struct_sock ++ pointees struct_task_struct) /\
  forall name t, kernel_type name = Some t -> pow2 (alignof t) /\ (alignof t | sizeof t).
Proof.
  split.
  - apply (bool_decide_unpack _). vm_compute. exact I.
  - intros name t _. split; [apply alignof_pow2 | apply sizeof_multiple].
Qed.

(** Where a [struct tcp_sock] holds its [struct sock]. *)
Definition tcp_sock_sk := ["inet_conn"; "icsk_inet"; "sk"].

(** The socket that the probes receive is the first part of a
    [struct tcp_sock]: a designator of [struct sock] names the same place in
    the TCP socket. *)
Theorem tcp_sock_starts_with_sock (path : list string) :
  path <> [] ->
  resolve struct_tcp_sock (tcp_sock_sk ++ path) =
  resolve struct_sock path.
Proof.
  intros Hp. destruct path as [|f path]; [done|]. simpl app.
  assert (forall t g h q l, find_field t g = Some l -> loc_slice l = false ->
            resolve t (g :: h :: q) = option_map (shift_loc (loc_bit l)) (resolve (loc_type l) (h :: q)))
    as step by (intros t g h q l Hl Hs; simpl; by rewrite Hl, Hs).
  assert (shift0 : forall o : option located, option_map (shift_loc 0) o = o).
  { intros [[b s sl t]|]; [|reflexivity]. reflexivity. }
  assert (find_field struct_tcp_sock "inet_conn" =
          Some (Located 0 (8 * sizeof struct_inet_connection_sock) false struct_inet_connection_sock))
    as H1 by (vm_compute; reflexivity).
  assert (find_field struct_inet_connection_sock "icsk_inet" =
          Some (Located 0 (8 * sizeof struct_inet_sock) false struct_inet_sock))
    as H2 by (vm_compute; reflexivity).
  assert (find_field struct_inet_sock "sk" =
          Some (Located 0 (8 * sizeof struct_sock) false struct_sock))
    as H3 by (vm_compute; reflexivity).
  rewrite (step _ _ _ _ _ H1 eq_refl), shift0. cbn [loc_type].
  rewrite (step _ _ _ _ _ H2 eq_refl), shift0. cbn [loc_type].
  rewrite (step _ _ _ _ _ H3 eq_refl), shift0. reflexivity.
Qed.

Lemma tcp_sock_starts_with_sock_witness :
  resolve struct_tcp_sock ("inet_conn" :: "icsk_inet" :: "sk" :: sock_family) =
  resolve struct_sock sock_family.
Proof. apply (tcp_sock_starts_with_sock sock_family). discriminate. Defined.

Lemma kernel_types_closed_witness :
  pow2 (alignof struct_sock) /\ (alignof struct_sock | sizeof struct_sock).
Proof. apply (proj2 kernel_types_closed "struct sock"). vm_compute. reflexivity. Defined.
