(* ===== verification/BpfRuntime.v ===== *)
(** * The interface of the eBPF run time

    What [bpf/monitor.c] uses of the kernel's helpers and of libbpf's macros,
    neither of which is in the repository: a type class of operations, the
    documented behaviour the probes rely on as a class of laws, and one
    instance, a kernel memory laid out by the repository's own header. *)

From S2P Require Import Prelude.
From S2P Require Import CLayout.
From S2P Require Import Bytes.
From S2P Require Import KernelTypes.

Open Scope Z_scope.

(** The operations.  Pointers are [Z] addresses, 0 the null pointer.
    - [core_read T p path]: [BPF_CORE_READ(p, path)] with [p : T *], as bytes.
    - [ctx_read T p path]: the member [p->path] of a probe's context.
    - [probe_read_user_str n p old], [probe_read_kernel_str n src old]: what the
      [n]-byte destination holds after the call, when it held [old].
    - [bpf_htons v]: the 16-bit host-to-network conversion. *)
Class bpf_runtime := BpfRuntime {
  core_read : string -> Z -> list string -> list byte;
  ctx_read : string -> Z -> list string -> list byte;
  probe_read_user_str : nat -> Z -> list byte -> list byte;
  probe_read_kernel_str : nat -> list byte -> list byte -> list byte;
  bpf_htons : Z -> Z;
  user_string : Z -> option (list byte)
}.

(** What a string read leaves in an [n]-byte buffer holding [old]: at most
    [n - 1] bytes of the string, a NUL, and the bytes beyond untouched. *)
Definition str_result (n : nat) (s old : list byte) : list byte :=
  let s' := take (n - 1) s in s' ++ [NUL] ++ drop (length s' + 1) old.

(** The documented behaviour.  [user_string p] is the NUL-terminated string at
    the user address [p] (without its NUL), [None] when reading it faults, in
    which case the helper clears the buffer. *)
Class bpf_runtime_laws (R : bpf_runtime) : Prop := {
  core_read_length name t p path o n :
    kernel_type name = Some t -> offset_size t path = Some (o, n) ->
    length (core_read name p path) = N.to_nat n;
  ctx_read_length name t p path o n :
    kernel_type name = Some t -> offset_size t path = Some (o, n) ->
    length (ctx_read name p path) = N.to_nat n;
  user_string_no_nul p s : user_string p = Some s -> until_nul s = s;
  read_user_str_ok n p s old :
    user_string p = Some s -> (0 < n)%nat -> length old = n ->
    probe_read_user_str n p old = str_result n s old;
  read_user_str_fault n p old :
    user_string p = None -> length old = n ->
    probe_read_user_str n p old = replicate n NUL;
  read_kernel_str_ok n src old :
    (0 < n)%nat -> length old = n ->
    probe_read_kernel_str n src old = str_result n (until_nul src) old;
  htons_swaps b0 b1 : bpf_htons (le_decode [b0; b1]) = le_decode [b1; b0]
}.

(** ** C strings in buffers *)

Lemma until_nul_idemp bs : until_nul (until_nul bs) = until_nul bs.
Proof.
  induction bs as [|b bs IH]; [reflexivity|]. simpl.
  destruct (decide (b = NUL)); [reflexivity|]. simpl. rewrite decide_False by assumption.
  by rewrite IH.
Qed.

Lemma until_nul_take k : forall s, until_nul s = s -> until_nul (take k s) = take k s.
Proof.
  induction k as [|k IH]; intros [|b s]; try reflexivity. simpl.
  destruct (decide (b = NUL)); [discriminate|]. intros H. injection H as H. by rewrite IH.
Qed.

Lemma until_nul_app s rest : until_nul s = s -> until_nul (s ++ NUL :: rest) = s.
Proof.
  induction s as [|b s IH]; simpl; [reflexivity|].
  destruct (decide (b = NUL)); [discriminate|]. intros H. injection H as H. by rewrite IH.
Qed.

(** Whatever the buffer held before, the C string in it is the one copied,
    cut to the buffer. *)
Lemma until_nul_str_result n s old :
  until_nul s = s -> until_nul (str_result n s old) = take (n - 1) s.
Proof. intros H. unfold str_result. apply until_nul_app, until_nul_take, H. Qed.

Lemma length_str_result n s old :
  (0 < n)%nat -> length old = n -> length (str_result n s old) = n.
Proof.
  intros Hn Hl. unfold str_result. rewrite !length_app, length_drop, length_take. simpl. lia.
Qed.

Lemma until_nul_replicate n : until_nul (replicate n NUL) = [].
Proof. by destruct n. Qed.

(** The C string that reading the user string at [p] into [n] bytes gives. *)
Definition user_cstring `{bpf_runtime} (n : nat) (p : Z) : list byte :=
  match user_string p with Some s => take (n - 1) s | None => [] end.

Section Laws.
Context `{Laws : bpf_runtime_laws}.

Lemma until_nul_read_user_str n p old :
  (0 < n)%nat -> length old = n ->
  until_nul (probe_read_user_str n p old) = user_cstring n p.
Proof.
  intros Hn Hl. unfold user_cstring. destruct (user_string p) as [s|] eqn:E.
  - rewrite (read_user_str_ok n p s old E Hn Hl).
    apply until_nul_str_result. by apply user_string_no_nul in E.
  - rewrite (read_user_str_fault n p old E Hl). apply until_nul_replicate.
Qed.

Lemma length_read_user_str n p old :
  (0 < n)%nat -> length old = n -> length (probe_read_user_str n p old) = n.
Proof.
  intros Hn Hl. destruct (user_string p) as [s|] eqn:E.
  - rewrite (read_user_str_ok n p s old E Hn Hl). by apply length_str_result.
  - rewrite (read_user_str_fault n p old E Hl). apply length_replicate.
Qed.

Lemma until_nul_read_kernel_str n src old :
  (0 < n)%nat -> length old = n ->
  until_nul (probe_read_kernel_str n src old) = take (n - 1) (until_nul src).
Proof.
  intros Hn Hl. rewrite read_kernel_str_ok by assumption.
  apply until_nul_str_result, until_nul_idemp.
Qed.

Lemma length_read_kernel_str n src old :
  (0 < n)%nat -> length old = n -> length (probe_read_kernel_str n src old) = n.
Proof. intros Hn Hl. rewrite read_kernel_str_ok by assumption. by apply length_str_result. Qed.
End Laws.

(** ** An instance: a kernel whose types are the header's *)

Definition swap16 (v : Z) : Z := (v mod 256) * 256 + v / 256 mod 256.

Definition header_runtime (m : kmem) (us : Z -> option (list byte)) : bpf_runtime := {|
  core_read name p path := member_bytes m name p path;
  ctx_read name p path := member_bytes m name p path;
  probe_read_user_str n p old :=
    match us p with
    | Some s => str_result n (until_nul s) old
    | None => replicate n NUL
    end;
  probe_read_kernel_str n src old := str_result n (until_nul src) old;
  bpf_htons := swap16;
  user_string p := until_nul <$> us p
|}.

#[export] Instance header_runtime_laws m us : bpf_runtime_laws (header_runtime m us).
Proof.
  split; simpl.
  - intros. by eapply length_member_bytes.
  - intros. by eapply length_member_bytes.
  - intros p s H. destruct (us p); [|discriminate]. injection H as <-. apply until_nul_idemp.
  - intros n p s old H _ _. destruct (us p); [|discriminate]. by injection H as <-.
  - intros n p old H _. by destruct (us p).
  - reflexivity.
  - intros b0 b1. unfold swap16. pose proof (byte_val_range b0). pose proof (byte_val_range b1).
    rewrite !Z.mul_0_r, !Z.add_0_r, (Z.mul_comm 256 (byte_val b1)).
    rewrite Z_mod_plus_full, Z.div_add by lia.
    rewrite (Z.div_small (byte_val b0)), !Z.mod_small by lia. lia.
Qed.
