(* ===== verification/Monitor.v ===== *)
(** * The eBPF probes of [bpf/monitor.c]

    [struct event] as the C compiler lays it out, the record being the bytes
    of a ring-buffer reservation (which holds whatever was there before), and
    the four probes as functions from the invocation they run in to what they
    do with the ring buffer. *)

From S2P Require Import Prelude.
From S2P Require Import CLayout.
From S2P Require Import Bytes.
From S2P Require Import KBase.
From S2P Require Import KNet.
From S2P Require Import KTask.
From S2P Require Import KTaskRefs.
From S2P Require Import KernelTypes.
From S2P Require Import BpfRuntime.

Open Scope Z_scope.

(** ** The event record *)

Definition enum_event_type : ctype :=
  CEnum "event_type" I8 [
    ("EVENT_NET_CONNECT", 1);
    ("EVENT_NET_ACCEPT", 2);
    ("EVENT_NET_CLOSE", 3);
    ("EVENT_FILE_OPEN", 4);
    ("EVENT_EXEC", 5)]%string.

Definition EVENT_NET_CONNECT : Z := 1.
Definition EVENT_NET_ACCEPT : Z := 2.
Definition EVENT_NET_CLOSE : Z := 3.
Definition EVENT_FILE_OPEN : Z := 4.
Definition EVENT_EXEC : Z := 5.

Open Scope clayout_scope.

Definition struct_event : ctype :=
  Struct "event" [
    "pid" ⦂ typedef___u32;
    "cgroup_id" ⦂ typedef___u64;
    "timestamp" ⦂ typedef___u64;
    "event_type" ⦂ enum_event_type;
    "src_addr" ⦂ typedef___u32;
    "src_port" ⦂ typedef___u16;
    "dst_addr" ⦂ typedef___u32;
    "dst_port" ⦂ typedef___u16;
    "comm" ⦂ CArr c_char 16;
    "filepath" ⦂ CArr c_char 256;
    "ppid" ⦂ typedef___u32;
    "parent_comm" ⦂ CArr c_char 16;
    "flags" ⦂ typedef___u32].

(** The ring buffer's capacity, [max_entries]. *)
Definition events_max_entries : Z := 256 * 1024.

(** The members of [struct event]. *)
Inductive efield :=
| F_pid | F_cgroup_id | F_timestamp | F_event_type | F_src_addr | F_src_port
| F_dst_addr | F_dst_port | F_comm | F_filepath | F_ppid | F_parent_comm | F_flags.

#[export] Instance efield_eq_dec : EqDecision efield.
Proof. solve_decision. Defined.

Definition efield_name (f : efield) : string :=
  match f with
  | F_pid => "pid" | F_cgroup_id => "cgroup_id" | F_timestamp => "timestamp"
  | F_event_type => "event_type" | F_src_addr => "src_addr" | F_src_port => "src_port"
  | F_dst_addr => "dst_addr" | F_dst_port => "dst_port" | F_comm => "comm"
  | F_filepath => "filepath" | F_ppid => "ppid" | F_parent_comm => "parent_comm"
  | F_flags => "flags"
  end.

Definition efield_loc (f : efield) : nat * nat :=
  match offset_size struct_event [efield_name f] with
  | Some (o, n) => (N.to_nat o, N.to_nat n)
  | None => (0, 0)%nat
  end.
Definition eoff (f : efield) : nat := fst (efield_loc f).
Definition esize (f : efield) : nat := snd (efield_loc f).

(** [event->f] as bytes and as an integer, and stores to it.  A store converts
    its value to the member's width. *)
Definition get (f : efield) (ev : list byte) : list byte := slice (eoff f) (esize f) ev.
Definition get_int (f : efield) (ev : list byte) : Z := le_decode (get f ev).
Definition put (f : efield) (bs ev : list byte) : list byte := splice (eoff f) bs ev.
Definition put_int (f : efield) (v : Z) (ev : list byte) : list byte :=
  put f (le_encode (esize f) v) ev.

(** ** The probes *)

(** What the helpers answer about the task a probe runs in. *)
Record invocation := Invocation {
  cur_pid_tgid : Z;          (* bpf_get_current_pid_tgid() *)
  cur_cgroup_id : Z;         (* bpf_get_current_cgroup_id() *)
  ktime_ns : Z;              (* bpf_ktime_get_ns() *)
  cur_comm : list byte;      (* bpf_get_current_comm(): 16 bytes, NUL-terminated *)
  cur_task : Z               (* bpf_get_current_task() *)
}.

Record invocation_ok (iv : invocation) : Prop := {
  pid_tgid_u64 : in_u 64 (cur_pid_tgid iv);
  cgroup_id_u64 : in_u 64 (cur_cgroup_id iv);
  ktime_u64 : in_u 64 (ktime_ns iv);
  comm_length : length (cur_comm iv) = 16%nat
}.

(** What a probe does: it reserves nothing, its reservation fails, or it
    submits the record it reserved. *)
Inductive verdict :=
| Ignored
| NoSpace
| Submitted (rec : list byte).

Section Probes.
Context `{R : bpf_runtime}.

Definition fill_common_fields (iv : invocation) (event : option (list byte)) (type : Z)
    : option (list byte) :=
  match event with
  | None => None
  | Some event =>
      let event := put_int F_event_type type event in
      let event := put_int F_pid (Z.shiftr (cur_pid_tgid iv) 32) event in
      let event := put_int F_cgroup_id (cur_cgroup_id iv) event in
      let event := put_int F_timestamp (ktime_ns iv) event in
      Some (put F_comm (cur_comm iv) event)
  end.

(** [BPF_CORE_READ(sk, __sk_common.f)] as an integer. *)
Definition sk_read (sk : Z) (path : list string) : Z :=
  le_decode (core_read "struct sock" sk path).

Definition tcp_connect (iv : invocation) (reserve : option (list byte)) (sk : Z) : verdict :=
  if sk =? 0 then Ignored
  else
    let family := sk_read sk sock_family in
    if negb (family =? 2) then Ignored
    else
      match reserve with
      | None => NoSpace
      | Some event =>
          let event := default event (fill_common_fields iv (Some event) EVENT_NET_CONNECT) in
          let event := put_int F_src_addr (sk_read sk sock_rcv_saddr) event in
          let event := put_int F_dst_addr (sk_read sk sock_daddr) event in
          let event := put_int F_src_port (sk_read sk sock_num) event in
          let event := put_int F_dst_port (bpf_htons (sk_read sk sock_dport)) event in
          Submitted event
      end.

Definition inet_csk_accept (iv : invocation) (reserve : option (list byte)) (sk : Z) : verdict :=
  if sk =? 0 then Ignored
  else
    let family := sk_read sk sock_family in
    if negb (family =? 2) then Ignored
    else
      match reserve with
      | None => NoSpace
      | Some event =>
          let event := default event (fill_common_fields iv (Some event) EVENT_NET_ACCEPT) in
          let event := put_int F_src_addr (sk_read sk sock_rcv_saddr) event in
          let event := put_int F_dst_addr (sk_read sk sock_daddr) event in
          let event := put_int F_src_port (sk_read sk sock_num) event in
          let event := put_int F_dst_port (bpf_htons (sk_read sk sock_dport)) event in
          Submitted event
      end.

(** [ctx->args[i]]: the [i]-th 8-byte element of the argument array. *)
Definition syscall_arg (ctx : Z) (i : nat) : Z :=
  le_decode (slice (8 * i) 8 (ctx_read "struct trace_event_raw_sys_enter" ctx ["args"%string])).

Definition handle_openat (iv : invocation) (reserve : option (list byte)) (ctx : Z) : verdict :=
  if cur_cgroup_id iv =? 0 then Ignored
  else
    match reserve with
    | None => NoSpace
    | Some event =>
        let event := default event (fill_common_fields iv (Some event) EVENT_FILE_OPEN) in
        let pathname := syscall_arg ctx 1 in
        let event := put F_filepath
          (probe_read_user_str (esize F_filepath) pathname (get F_filepath event)) event in
        let event := put_int F_flags (syscall_arg ctx 2) event in
        Submitted event
    end.

Definition handle_execve (iv : invocation) (reserve : option (list byte)) (ctx : Z) : verdict :=
  if cur_cgroup_id iv =? 0 then Ignored
  else
    match reserve with
    | None => NoSpace
    | Some event =>
        let event := default event (fill_common_fields iv (Some event) EVENT_EXEC) in
        let pathname := syscall_arg ctx 0 in
        let event := put F_filepath
          (probe_read_user_str (esize F_filepath) pathname (get F_filepath event)) event in
        let task := cur_task iv in
        let parent := le_decode (core_read "struct task_struct" task ["real_parent"%string]) in
        let event := put_int F_ppid
          (le_decode (core_read "struct task_struct" parent ["tgid"%string])) event in
        let event := put F_parent_comm
          (probe_read_kernel_str (esize F_parent_comm)
             (core_read "struct task_struct" parent ["comm"%string])
             (get F_parent_comm event)) event in
        Submitted event
    end.
End Probes.

(** ** Members of a record *)

Lemma efield_in_event f : (eoff f + esize f <= N.to_nat (sizeof struct_event))%nat.
Proof. destruct f; apply Nat.leb_le; vm_compute; reflexivity. Qed.

(** The layout in numbers: the comment of [internal/ebpf/types.go] lists them. *)
Definition efield_table (f : efield) : nat * nat :=
  match f with
  | F_pid => (0, 4) | F_cgroup_id => (8, 8) | F_timestamp => (16, 8) | F_event_type => (24, 1)
  | F_src_addr => (28, 4) | F_src_port => (32, 2) | F_dst_addr => (36, 4) | F_dst_port => (40, 2)
  | F_comm => (42, 16) | F_filepath => (58, 256) | F_ppid => (316, 4) | F_parent_comm => (320, 16)
  | F_flags => (336, 4)
  end%nat.

Lemma efield_loc_table f : efield_loc f = efield_table f.
Proof. destruct f; vm_compute; reflexivity. Qed.

Lemma esize_table f : esize f = snd (efield_table f).
Proof. unfold esize. by rewrite efield_loc_table. Qed.

Lemma eoff_table f : eoff f = fst (efield_table f).
Proof. unfold eoff. by rewrite efield_loc_table. Qed.

Definition apart (f g : efield) : bool :=
  ((eoff f + esize f <=? eoff g) || (eoff g + esize g <=? eoff f))%nat.

Lemma efields_apart f g : f <> g -> apart f g = true.
Proof. destruct f, g; intros H; try (by destruct H); vm_compute; reflexivity. Qed.

(** The bytes of one record of the ring buffer. *)
Definition event_bytes (ev : list byte) : Prop := length ev = N.to_nat (sizeof struct_event).

Lemma put_length f bs ev :
  event_bytes ev -> length bs = esize f -> event_bytes (put f bs ev).
Proof.
  unfold event_bytes, put. intros He Hb. rewrite length_splice; [exact He|].
  pose proof (efield_in_event f). lia.
Qed.

Lemma put_int_length f v ev : event_bytes ev -> event_bytes (put_int f v ev).
Proof. intros He. apply put_length; [exact He|apply length_le_encode]. Qed.

Lemma get_length f ev : event_bytes ev -> length (get f ev) = esize f.
Proof.
  unfold event_bytes. intros He. apply length_slice. pose proof (efield_in_event f). lia.
Qed.

Lemma get_put_same f bs ev :
  event_bytes ev -> length bs = esize f -> get f (put f bs ev) = bs.
Proof.
  intros He Hb. unfold get, put. rewrite <- Hb. apply slice_splice_same.
  pose proof (efield_in_event f). unfold event_bytes in He. lia.
Qed.

Lemma get_put_other f g bs ev :
  f <> g -> event_bytes ev -> length bs = esize g -> get f (put g bs ev) = get f ev.
Proof.
  intros Hfg He Hb. unfold get, put, event_bytes in *.
  pose proof (efield_in_event f). pose proof (efield_in_event g).
  apply efields_apart in Hfg. unfold apart in Hfg.
  apply orb_true_iff in Hfg as [H'|H']; apply Nat.leb_le in H'.
  - apply slice_splice_before. lia.
  - apply slice_splice_after. lia.
Qed.

Lemma get_int_put_int f v ev :
  event_bytes ev -> get_int f (put_int f v ev) = v mod 256 ^ Z.of_nat (esize f).
Proof.
  intros He. unfold get_int, put_int.
  rewrite get_put_same by (assumption || apply length_le_encode). apply le_decode_encode.
Qed.

Lemma get_put_int_other f g v ev :
  f <> g -> event_bytes ev -> get f (put_int g v ev) = get f ev.
Proof. intros Hfg He. by apply get_put_other; [| |apply length_le_encode]. Qed.

Lemma get_put_int_same f v ev :
  event_bytes ev -> get f (put_int f v ev) = le_encode (esize f) v.
Proof. intros He. apply get_put_same; [exact He|apply length_le_encode]. Qed.

Lemma get_table f ev : get f ev = slice (fst (efield_table f)) (snd (efield_table f)) ev.
Proof. unfold get. by rewrite eoff_table, esize_table. Qed.

Lemma event_bytes_344 ev : event_bytes ev <-> length ev = 344%nat.
Proof. reflexivity. Qed.

#[global] Opaque efield_loc get put put_int event_bytes.

Create HintDb event_rec discriminated.
#[export] Hint Constants Opaque : event_rec.
#[export] Hint Resolve put_length put_int_length get_length length_le_encode : event_rec.

(** The side conditions of the lemmas on stores. *)
Ltac event_side :=
  lazymatch goal with
  | |- _ <> _ => discriminate
  | |- _ => solve [eauto 40 with event_rec]
  end.

(** Normalise the members of a record built by stores. *)
Ltac event_simpl :=
  repeat first
    [ rewrite get_put_int_same by event_side
    | rewrite get_put_int_other by event_side
    | rewrite get_put_same by event_side
    | rewrite get_put_other by event_side ].

(** ** Records as values *)

Record kevent := KEvent {
  k_pid : Z; k_cgroup_id : Z; k_timestamp : Z; k_event_type : Z;
  k_src_addr : Z; k_src_port : Z; k_dst_addr : Z; k_dst_port : Z;
  k_comm : list byte; k_filepath : list byte;
  k_ppid : Z; k_parent_comm : list byte; k_flags : Z
}.

Definition view (ev : list byte) : kevent := {|
  k_pid := get_int F_pid ev; k_cgroup_id := get_int F_cgroup_id ev;
  k_timestamp := get_int F_timestamp ev; k_event_type := get_int F_event_type ev;
  k_src_addr := get_int F_src_addr ev; k_src_port := get_int F_src_port ev;
  k_dst_addr := get_int F_dst_addr ev; k_dst_port := get_int F_dst_port ev;
  k_comm := get F_comm ev; k_filepath := get F_filepath ev;
  k_ppid := get_int F_ppid ev; k_parent_comm := get F_parent_comm ev;
  k_flags := get_int F_flags ev
|}.

(** A port as the network orders its bytes. *)
Definition be_decode (bs : list byte) : Z := le_decode (rev bs).

(** The thread-group id, the "process id" of user space. *)
Definition tgid_of (pid_tgid : Z) : Z := pid_tgid / 2 ^ 32.

Lemma u64_shift_tgid v : in_u 64 v -> Z.shiftr v 32 mod 256 ^ 4 = tgid_of v.
Proof.
  intros [H0 H1]. rewrite Z.shiftr_div_pow2 by lia. apply Z.mod_small. unfold tgid_of.
  split; [apply Z.div_pos; lia|]. apply Z.div_lt_upper_bound; [lia|].
  change (2 ^ 64) with (2 ^ 32 * 256 ^ 4) in H1. exact H1.
Qed.

Lemma in_u_byte_pow n v : in_u (8 * Z.of_nat n) v -> v mod 256 ^ Z.of_nat n = v.
Proof.
  intros H. apply Z.mod_small. unfold in_u in H. rewrite Z.pow_mul_r in H by lia. exact H.
Qed.

Lemma le_decode_mod_length n bs : length bs = n -> le_decode bs mod 256 ^ Z.of_nat n = le_decode bs.
Proof. intros <-. apply Z.mod_small, le_decode_range. Qed.

(** ** What each probe submits *)

Section ProbeSpecs.
Context `{Laws : bpf_runtime_laws}.

(** An IPv4 socket. *)
Definition ipv4_sock (sk : Z) : Prop := sk <> 0 /\ sk_read sk sock_family = 2.

Lemma ipv4_sock_test {A} sk (x y : A) :
  (if sk =? 0 then x else if negb (sk_read sk sock_family =? 2) then x else y) =
  (if (sk =? 0) || negb (sk_read sk sock_family =? 2) then x else y).
Proof. by destruct (sk =? 0). Qed.

Lemma ipv4_sock_spec sk :
  (sk =? 0) || negb (sk_read sk sock_family =? 2) = false <-> ipv4_sock sk.
Proof.
  unfold ipv4_sock. rewrite orb_false_iff, negb_false_iff, Z.eqb_neq, Z.eqb_eq. reflexivity.
Qed.

Lemma sk_read_length (path : list string) o n sk :
  offset_size struct_sock path = Some (o, n) ->
  length (core_read "struct sock" sk path) = N.to_nat n.
Proof. apply core_read_length. vm_compute. reflexivity. Qed.

Lemma sk_read_u32 path o sk :
  offset_size struct_sock path = Some (o, 4%N) ->
  sk_read sk path mod 256 ^ Z.of_nat 4 = sk_read sk path.
Proof. intros H. apply le_decode_mod_length. exact (sk_read_length _ _ _ sk H). Qed.

Lemma sk_read_u16 path o sk :
  offset_size struct_sock path = Some (o, 2%N) ->
  sk_read sk path mod 256 ^ Z.of_nat 2 = sk_read sk path.
Proof. intros H. apply le_decode_mod_length. exact (sk_read_length _ _ _ sk H). Qed.

(** The port the network-order member holds, in host order. *)
Definition sk_dport (sk : Z) : Z := be_decode (core_read "struct sock" sk sock_dport).

Lemma htons_dport sk :
  bpf_htons (sk_read sk sock_dport) mod 256 ^ Z.of_nat 2 = sk_dport sk.
Proof.
  assert (Hl : length (core_read "struct sock" sk sock_dport) = 2%nat)
    by (apply (sk_read_length sock_dport 12 2); vm_compute; reflexivity).
  unfold sk_read, sk_dport, be_decode.
  destruct (core_read "struct sock" sk sock_dport) as [|b0 [|b1 [|? ?]]]; try discriminate.
  rewrite htons_swaps. by apply le_decode_mod_length.
Qed.

(** The record that a network probe of type [type] submits: both ends of the
    socket in host order, and the reservation's old bytes in the members that
    belong to the other event types. *)
Definition net_event (type : Z) (iv : invocation) (sk : Z) (stale : list byte) : kevent := {|
  k_pid := tgid_of (cur_pid_tgid iv); k_cgroup_id := cur_cgroup_id iv;
  k_timestamp := ktime_ns iv; k_event_type := type;
  k_src_addr := sk_read sk sock_rcv_saddr; k_src_port := sk_read sk sock_num;
  k_dst_addr := sk_read sk sock_daddr; k_dst_port := sk_dport sk;
  k_comm := cur_comm iv; k_filepath := get F_filepath stale;
  k_ppid := get_int F_ppid stale; k_parent_comm := get F_parent_comm stale;
  k_flags := get_int F_flags stale
|}.

(** The common shape of the two network probes. *)
Definition net_verdict (type : Z) (iv : invocation) (reserve : option (list byte)) (sk : Z)
    (v : verdict) : Prop :=
  match v with
  | Ignored => ~ ipv4_sock sk
  | NoSpace => ipv4_sock sk /\ reserve = None
  | Submitted r =>
      ipv4_sock sk /\ exists stale, reserve = Some stale /\ event_bytes r /\
        view r = net_event type iv sk stale
  end.

Definition net_stores (iv : invocation) (type : Z) (sk : Z) (event : list byte) : list byte :=
  let event := default event (fill_common_fields iv (Some event) type) in
  let event := put_int F_src_addr (sk_read sk sock_rcv_saddr) event in
  let event := put_int F_dst_addr (sk_read sk sock_daddr) event in
  let event := put_int F_src_port (sk_read sk sock_num) event in
  put_int F_dst_port (bpf_htons (sk_read sk sock_dport)) event.

Lemma net_stores_view iv type sk stale :
  invocation_ok iv -> 0 <= type < 256 -> event_bytes stale ->
  event_bytes (net_stores iv type sk stale) /\
  view (net_stores iv type sk stale) = net_event type iv sk stale.
Proof.
  intros [Hp Hc Ht Hcomm] Hty He. unfold net_stores. simpl default.
  assert (Hcl : length (cur_comm iv) = esize F_comm) by (rewrite esize_table; exact Hcomm).
  split; [eauto 40 with event_rec|]. unfold view, net_event, get_int.
  event_simpl. rewrite !le_decode_encode.
  rewrite !esize_table. simpl snd. change (Z.of_nat 4) with 4.
  rewrite (u64_shift_tgid _ Hp). change 4 with (Z.of_nat 4).
  rewrite (in_u_byte_pow 8 (cur_cgroup_id iv) Hc), (in_u_byte_pow 8 (ktime_ns iv) Ht).
  rewrite (in_u_byte_pow 1 type Hty).
  rewrite (sk_read_u32 sock_rcv_saddr 4), (sk_read_u32 sock_daddr 0),
    (sk_read_u16 sock_num 14), htons_dport by (vm_compute; reflexivity).
  reflexivity.
Qed.

Lemma net_verdict_intro type iv reserve sk :
  invocation_ok iv -> 0 <= type < 256 ->
  (forall stale, reserve = Some stale -> event_bytes stale) ->
  net_verdict type iv reserve sk
    (if sk =? 0 then Ignored
     else if negb (sk_read sk sock_family =? 2) then Ignored
     else match reserve with
          | None => NoSpace
          | Some event => Submitted (net_stores iv type sk event)
          end).
Proof.
  intros Hiv Hty Hres. rewrite ipv4_sock_test.
  destruct (_ || _) eqn:E; simpl.
  - rewrite <- ipv4_sock_spec. congruence.
  - apply ipv4_sock_spec in E. destruct reserve as [stale|]; simpl; [|done].
    destruct (net_stores_view iv type sk stale Hiv Hty (Hres _ eq_refl)).
    split; [exact E|]. eauto.
Qed.

(** The records of the two system-call probes; the members they do not store
    keep the reservation's old bytes. *)
Definition openat_event (iv : invocation) (ctx : Z) (stale : list byte) : kevent := {|
  k_pid := tgid_of (cur_pid_tgid iv); k_cgroup_id := cur_cgroup_id iv;
  k_timestamp := ktime_ns iv; k_event_type := EVENT_FILE_OPEN;
  k_src_addr := get_int F_src_addr stale; k_src_port := get_int F_src_port stale;
  k_dst_addr := get_int F_dst_addr stale; k_dst_port := get_int F_dst_port stale;
  k_comm := cur_comm iv;
  k_filepath := probe_read_user_str 256 (syscall_arg ctx 1) (get F_filepath stale);
  k_ppid := get_int F_ppid stale; k_parent_comm := get F_parent_comm stale;
  k_flags := syscall_arg ctx 2 mod 2 ^ 32
|}.

(** The parent of the current task. *)
Definition parent_of (task : Z) : Z :=
  le_decode (core_read "struct task_struct" task ["real_parent"%string]).

Definition execve_event (iv : invocation) (ctx : Z) (stale : list byte) : kevent := {|
  k_pid := tgid_of (cur_pid_tgid iv); k_cgroup_id := cur_cgroup_id iv;
  k_timestamp := ktime_ns iv; k_event_type := EVENT_EXEC;
  k_src_addr := get_int F_src_addr stale; k_src_port := get_int F_src_port stale;
  k_dst_addr := get_int F_dst_addr stale; k_dst_port := get_int F_dst_port stale;
  k_comm := cur_comm iv;
  k_filepath := probe_read_user_str 256 (syscall_arg ctx 0) (get F_filepath stale);
  k_ppid :=
    le_decode (core_read "struct task_struct" (parent_of (cur_task iv)) ["tgid"%string]);
  k_parent_comm :=
    probe_read_kernel_str 16
      (core_read "struct task_struct" (parent_of (cur_task iv)) ["comm"%string])
      (get F_parent_comm stale);
  k_flags := get_int F_flags stale
|}.

Definition syscall_verdict (expected : list byte -> kevent) (iv : invocation)
    (reserve : option (list byte)) (v : verdict) : Prop :=
  match v with
  | Ignored => cur_cgroup_id iv = 0
  | NoSpace => cur_cgroup_id iv <> 0 /\ reserve = None
  | Submitted r =>
      cur_cgroup_id iv <> 0 /\ exists stale, reserve = Some stale /\ event_bytes r /\
        view r = expected stale
  end.

Lemma task_read_u32 f o p :
  offset_size struct_task_struct [f] = Some (o, 4%N) ->
  le_decode (core_read "struct task_struct" p [f]) mod 256 ^ Z.of_nat 4 =
  le_decode (core_read "struct task_struct" p [f]).
Proof.
  intros H. apply le_decode_mod_length. refine (core_read_length _ _ _ _ _ _ _ H).
  vm_compute. reflexivity.
Qed.

Lemma length_user_path p stale :
  event_bytes stale ->
  length (probe_read_user_str (esize F_filepath) p (get F_filepath stale)) = esize F_filepath.
Proof.
  intros He. apply length_read_user_str; [rewrite esize_table; simpl; lia|by apply get_length].
Qed.

Lemma length_parent_comm src stale :
  event_bytes stale ->
  length (probe_read_kernel_str (esize F_parent_comm) src (get F_parent_comm stale)) =
  esize F_parent_comm.
Proof.
  intros He. apply length_read_kernel_str; [rewrite esize_table; simpl; lia|by apply get_length].
Qed.
End ProbeSpecs.

#[export] Hint Resolve length_user_path length_parent_comm : event_rec.

Section ProbeTheorems.
Context `{Laws : bpf_runtime_laws}.

(** The stores of the two system-call probes. *)
Definition openat_stores (iv : invocation) (ctx : Z) (event : list byte) : list byte :=
  let event := default event (fill_common_fields iv (Some event) EVENT_FILE_OPEN) in
  let pathname := syscall_arg ctx 1 in
  let event := put F_filepath
    (probe_read_user_str (esize F_filepath) pathname (get F_filepath event)) event in
  put_int F_flags (syscall_arg ctx 2) event.

Definition execve_stores (iv : invocation) (ctx : Z) (event : list byte) : list byte :=
  let event := default event (fill_common_fields iv (Some event) EVENT_EXEC) in
  let pathname := syscall_arg ctx 0 in
  let event := put F_filepath
    (probe_read_user_str (esize F_filepath) pathname (get F_filepath event)) event in
  let task := cur_task iv in
  let parent := le_decode (core_read "struct task_struct" task ["real_parent"%string]) in
  let event := put_int F_ppid
    (le_decode (core_read "struct task_struct" parent ["tgid"%string])) event in
  put F_parent_comm
    (probe_read_kernel_str (esize F_parent_comm)
       (core_read "struct task_struct" parent ["comm"%string]) (get F_parent_comm event)) event.

Lemma openat_stores_view iv ctx stale :
  invocation_ok iv -> event_bytes stale ->
  event_bytes (openat_stores iv ctx stale) /\
  view (openat_stores iv ctx stale) = openat_event iv ctx stale.
Proof.
  intros [Hp Hc Ht Hcomm] He. unfold openat_stores. simpl default.
  assert (Hcl : length (cur_comm iv) = esize F_comm) by (rewrite esize_table; exact Hcomm).
  split; [eauto 40 with event_rec|].
  unfold view, openat_event, get_int. event_simpl. rewrite !le_decode_encode.
  rewrite !esize_table. simpl snd. change (Z.of_nat 4) with 4.
  rewrite (u64_shift_tgid _ Hp), (in_u_byte_pow 8 (cur_cgroup_id iv) Hc),
    (in_u_byte_pow 8 (ktime_ns iv) Ht).
  reflexivity.
Qed.

Lemma execve_stores_view iv ctx stale :
  invocation_ok iv -> event_bytes stale ->
  event_bytes (execve_stores iv ctx stale) /\
  view (execve_stores iv ctx stale) = execve_event iv ctx stale.
Proof.
  intros [Hp Hc Ht Hcomm] He. unfold execve_stores. simpl default.
  assert (Hcl : length (cur_comm iv) = esize F_comm) by (rewrite esize_table; exact Hcomm).
  split; [eauto 40 with event_rec|].
  unfold view, execve_event, get_int. event_simpl. rewrite !le_decode_encode.
  rewrite (task_read_u32 "tgid" 2772) by (vm_compute; reflexivity).
  rewrite !esize_table. simpl snd. change (Z.of_nat 4) with 4.
  rewrite (u64_shift_tgid _ Hp), (in_u_byte_pow 8 (cur_cgroup_id iv) Hc),
    (in_u_byte_pow 8 (ktime_ns iv) Ht).
  change 4 with (Z.of_nat 4).
  reflexivity.
Qed.

(** What a probe's submission holds, for the readers of the record. *)
Lemma handle_openat_view iv stale ctx r :
  invocation_ok iv -> event_bytes stale -> handle_openat iv (Some stale) ctx = Submitted r ->
  event_bytes r /\ view r = openat_event iv ctx stale.
Proof.
  intros Hiv Hs. unfold handle_openat. destruct (_ =? 0); [discriminate|].
  intros [= <-]. by apply openat_stores_view.
Qed.

Lemma handle_execve_view iv stale ctx r :
  invocation_ok iv -> event_bytes stale -> handle_execve iv (Some stale) ctx = Submitted r ->
  event_bytes r /\ view r = execve_event iv ctx stale.
Proof.
  intros Hiv Hs. unfold handle_execve. destruct (_ =? 0); [discriminate|].
  intros [= <-]. by apply execve_stores_view.
Qed.

Lemma tcp_connect_view iv stale sk r :
  invocation_ok iv -> event_bytes stale -> tcp_connect iv (Some stale) sk = Submitted r ->
  event_bytes r /\ view r = net_event EVENT_NET_CONNECT iv sk stale.
Proof.
  intros Hiv Hs. unfold tcp_connect. destruct (sk =? 0); [discriminate|].
  destruct (negb _); [discriminate|]. intros [= <-]. by apply net_stores_view.
Qed.

Lemma inet_csk_accept_view iv stale sk r :
  invocation_ok iv -> event_bytes stale -> inet_csk_accept iv (Some stale) sk = Submitted r ->
  event_bytes r /\ view r = net_event EVENT_NET_ACCEPT iv sk stale.
Proof.
  intros Hiv Hs. unfold inet_csk_accept. destruct (sk =? 0); [discriminate|].
  destruct (negb _); [discriminate|]. intros [= <-]. by apply net_stores_view.
Qed.

(** (C7) The two network probes differ in the type they record only.  On every
    invocation they ignore a null or non-IPv4 socket, give up when the ring
    buffer is full, and otherwise submit a 344-byte record that holds the
    socket's two addresses and its two ports in host order. *)
Theorem tcp_connect_spec (iv : invocation) (reserve : option (list byte)) (sk : Z) :
  invocation_ok iv -> (forall stale, reserve = Some stale -> event_bytes stale) ->
  net_verdict EVENT_NET_CONNECT iv reserve sk (tcp_connect iv reserve sk).
Proof. intros iv_ok reserve_ok. apply net_verdict_intro; [exact iv_ok | done | exact reserve_ok]. Qed.

(** (C8) [inet_csk_accept] likewise; its source is the local, accepting end. *)
Theorem inet_csk_accept_spec (iv : invocation) (reserve : option (list byte)) (sk : Z) :
  invocation_ok iv -> (forall stale, reserve = Some stale -> event_bytes stale) ->
  net_verdict EVENT_NET_ACCEPT iv reserve sk (inet_csk_accept iv reserve sk).
Proof. intros iv_ok reserve_ok. apply net_verdict_intro; [exact iv_ok | done | exact reserve_ok]. Qed.

(** (C9) [handle_openat] skips cgroup 0, gives up when the ring buffer is full, and
    otherwise records the path (second argument) and the open flags (third
    argument, cut to 32 bits); it leaves every other member as it was. *)
Theorem handle_openat_spec (iv : invocation) (reserve : option (list byte)) (ctx : Z) :
  invocation_ok iv -> (forall stale, reserve = Some stale -> event_bytes stale) ->
  syscall_verdict (openat_event iv ctx) iv reserve (handle_openat iv reserve ctx).
Proof.
  intros iv_ok reserve_ok.
  unfold handle_openat. destruct (Z.eqb_spec (cur_cgroup_id iv) 0) as [Hz|Hnz]; [exact Hz|].
  destruct reserve as [stale|]; [|done].
  split; [exact Hnz|]. exists stale. split; [done|]. by apply openat_stores_view, reserve_ok.
Qed.

(** (C10) [handle_execve] skips cgroup 0, gives up when the ring buffer is full, and
    otherwise records the path (first argument) and the parent's thread-group
    id and command name; it leaves every other member as it was. *)
Theorem handle_execve_spec (iv : invocation) (reserve : option (list byte)) (ctx : Z) :
  invocation_ok iv -> (forall stale, reserve = Some stale -> event_bytes stale) ->
  syscall_verdict (execve_event iv ctx) iv reserve (handle_execve iv reserve ctx).
Proof.
  intros iv_ok reserve_ok.
  unfold handle_execve. destruct (Z.eqb_spec (cur_cgroup_id iv) 0) as [Hz|Hnz]; [exact Hz|].
  destruct reserve as [stale|]; [|done].
  split; [exact Hnz|]. exists stale. split; [done|]. by apply execve_stores_view, reserve_ok.
Qed.
End ProbeTheorems.

(** ** A concrete kernel for the witnesses *)

Module Demo.
(** A connected IPv4 socket 10.0.0.2:40000 -> 10.0.0.3:22 at address 4096, a
    system-call context at 8192 whose arguments are (16384, 16384, 577), a
    task at 32768 whose parent is itself, and the user string "/tmp/x" at
    16384. *)
Definition sock_bytes : list byte :=
  map byte_of [10; 0; 0; 3; 10; 0; 0; 2; 0; 0; 0; 0; 0; 22] ++ le_encode 2 40000 ++ le_encode 2 2.
Definition ctx_bytes : list byte :=
  replicate 16 NUL ++ le_encode 8 16384 ++ le_encode 8 16384 ++ le_encode 8 577 ++
  replicate 24 NUL.
Definition mem : kmem := fun a =>
  if (4096 <=? a) && (a <? 8192) then sock_bytes !! Z.to_nat (a - 4096)
  else if (8192 <=? a) && (a <? 16384) then ctx_bytes !! Z.to_nat (a - 8192)
  else if (32768 + 2784 <=? a) && (a <? 32768 + 2792) then
    le_encode 8 32768 !! Z.to_nat (a - (32768 + 2784))
  else if (32768 + 2772 <=? a) && (a <? 32768 + 2776) then
    le_encode 4 7 !! Z.to_nat (a - (32768 + 2772))
  else if (32768 + 3312 <=? a) && (a <? 32768 + 3328) then
    (map ascii_of_N [115; 115; 104; 100]%N ++ replicate 12 NUL) !! Z.to_nat (a - (32768 + 3312))
  else None.
Definition strings (p : Z) : option (list byte) :=
  if p =? 16384 then Some (map ascii_of_N [47; 116; 109; 112; 47; 120]%N) else None.
Definition runtime : bpf_runtime := header_runtime mem strings.
Definition runtime_laws : bpf_runtime_laws runtime := header_runtime_laws mem strings.
Definition comm : list byte := map ascii_of_N [99; 117; 114; 108]%N ++ replicate 12 NUL.
Definition iv : invocation := {|
  cur_pid_tgid := 4321 * 2 ^ 32 + 4322; cur_cgroup_id := 77; ktime_ns := 5000000000;
  cur_comm := comm; cur_task := 32768
|}.
Definition stale : list byte := replicate 344 "Z"%char.

Lemma iv_ok : invocation_ok iv.
Proof. split; vm_compute; split_and?; congruence || reflexivity. Defined.
Lemma stale_ok st : Some stale = Some st -> event_bytes st.
Proof. intros [= <-]. apply event_bytes_344. reflexivity. Defined.
End Demo.

#[local] Existing Instance Demo.runtime.
#[local] Existing Instance Demo.runtime_laws.

Lemma tcp_connect_spec_witness :
  sk_read 4096 sock_family = 2 /\
  net_verdict EVENT_NET_CONNECT Demo.iv (Some Demo.stale) 4096
    (tcp_connect Demo.iv (Some Demo.stale) 4096).
Proof.
  split; [vm_compute; reflexivity|]. exact (tcp_connect_spec _ _ _ Demo.iv_ok Demo.stale_ok).
Defined.

Lemma inet_csk_accept_spec_witness :
  sk_read 4096 sock_family = 2 /\
  net_verdict EVENT_NET_ACCEPT Demo.iv (Some Demo.stale) 4096
    (inet_csk_accept Demo.iv (Some Demo.stale) 4096).
Proof.
  split; [vm_compute; reflexivity|]. exact (inet_csk_accept_spec _ _ _ Demo.iv_ok Demo.stale_ok).
Defined.

Lemma handle_openat_spec_witness :
  user_cstring 256 (syscall_arg 8192 1) = map ascii_of_N [47; 116; 109; 112; 47; 120]%N /\
  syscall_verdict (openat_event Demo.iv 8192) Demo.iv (Some Demo.stale)
    (handle_openat Demo.iv (Some Demo.stale) 8192).
Proof.
  split; [vm_compute; reflexivity|]. exact (handle_openat_spec _ _ _ Demo.iv_ok Demo.stale_ok).
Defined.

Lemma handle_execve_spec_witness :
  parent_of (cur_task Demo.iv) = 32768 /\
  syscall_verdict (execve_event Demo.iv 8192) Demo.iv (Some Demo.stale)
    (handle_execve Demo.iv (Some Demo.stale) 8192).
Proof.
  split; [vm_compute; reflexivity|]. exact (handle_execve_spec _ _ _ Demo.iv_ok Demo.stale_ok).
Defined.
