(* ===== verification/ProbeObjects.v ===== *)
(** * The probes on the kernel's objects

    What the probes of [Monitor] report of a kernel memory that holds a
    [struct tcp_sock], the [struct task_struct]s of a task and its parent, and
    the context of a system-call tracepoint: the bytes of these objects at the
    places that the types of the header give to the members. *)

From S2P Require Import Prelude.
From S2P Require Import CLayout.
From S2P Require Import Bytes.
From S2P Require Import KBase.
From S2P Require Import KNet.
From S2P Require Import KTask.
From S2P Require Import KTaskRefs.
From S2P Require Import KernelTypes.
From S2P Require Import BpfRuntime.
From S2P Require Import Monitor.

Open Scope Z_scope.

(** An object of type [t], of bytes [obj], is in memory at [p]. *)
Definition kernel_object (m : kmem) (t : ctype) (p : Z) (obj : list byte) : Prop :=
  object_at m p obj /\ length obj = N.to_nat (sizeof t).

(** The bytes of its member [path]. *)
Definition object_member (t : ctype) (obj : list byte) (path : list string) : list byte :=
  match offset_size t path with
  | Some (o, n) => slice (N.to_nat o) (N.to_nat n) obj
  | None => []
  end.

Lemma member_bytes_member m name t p obj path :
  kernel_type name = Some t -> kernel_object m t p obj -> is_Some (offset_size t path) ->
  member_bytes m name p path = object_member t obj path.
Proof.
  intros Ht [Hat Hl] [[o n] Ho]. unfold object_member. rewrite Ho.
  by apply (member_bytes_object m name t p path o n obj).
Qed.

(** A member of the [struct sock] that a [struct tcp_sock] begins with. *)
Definition tcp_member (sock : list byte) (path : list string) : list byte :=
  object_member struct_tcp_sock sock (tcp_sock_sk ++ path).

Lemma slice_take o n k (l : list byte) : (o + n <= k)%nat -> slice o n (take k l) = slice o n l.
Proof.
  intros H. unfold slice. rewrite !take_drop_commute, take_take. do 2 f_equal. lia.
Qed.

(** The socket the probes take for a [struct sock] is the whole TCP socket: its
    members are those of the first part. *)
Lemma sock_member_bytes m sk sock path :
  kernel_object m struct_tcp_sock sk sock -> path <> [] -> is_Some (offset_size struct_sock path) ->
  member_bytes m "struct sock" sk path = tcp_member sock path.
Proof.
  intros [Hat Hl] Hp [[o n] Ho].
  pose proof (offset_size_ok _ _ _ _ Ho) as Hin.
  assert (Hle : (sizeof struct_sock <= sizeof struct_tcp_sock)%N) by (vm_compute; discriminate).
  set (first := take (N.to_nat (sizeof struct_sock)) sock).
  rewrite (member_bytes_object m "struct sock" struct_sock sk path o n first);
    [|vm_compute; reflexivity|exact Ho| |unfold first; rewrite length_take; lia].
  - unfold tcp_member, object_member, offset_size at 1. rewrite (tcp_sock_starts_with_sock path Hp).
    fold (offset_size struct_sock path). rewrite Ho. apply slice_take. lia.
  - intros i b Hi. apply lookup_take_Some in Hi as [Hi _]. exact (Hat i b Hi).
Qed.

(** ** Where the members are *)

(** In a [struct tcp_sock], a [struct task_struct] and a
    [struct trace_event_raw_sys_enter], by their bytes. *)
Definition sock_paths : list (list string) := [sock_daddr; sock_rcv_saddr; sock_dport; sock_num; sock_family].

Lemma sock_paths_ok : Forall (fun path => path <> [] /\ is_Some (offset_size struct_sock path)) sock_paths.
Proof. apply (bool_decide_unpack _). vm_compute. exact I. Qed.

Definition sock_places (sock : list byte) : Prop :=
  map (tcp_member sock) sock_paths =
  [slice 0 4 sock; slice 4 4 sock; slice 12 2 sock; slice 14 2 sock; slice 16 2 sock].

Definition task_places (task : list byte) : Prop :=
  map (object_member struct_task_struct task) [["tgid"]; ["real_parent"]; ["comm"]]%string =
  [slice 2772 4 task; slice 2784 8 task; slice 3312 16 task].

Definition sys_enter_places (ctx : list byte) : Prop :=
  object_member struct_trace_event_raw_sys_enter ctx ["args"%string] = slice 16 48 ctx.

Lemma sock_places_ok sock : sock_places sock.
Proof.
  unfold sock_places, tcp_member, object_member, offset_size, sock_paths. cbn [map].
  rewrite !tcp_sock_starts_with_sock by discriminate.
  repeat match goal with
  | |- context [resolve struct_sock ?p] =>
      let r := eval vm_compute in (resolve struct_sock p) in change (resolve struct_sock p) with r
  end. reflexivity.
Qed.

Lemma task_places_ok task : task_places task.
Proof.
  unfold task_places, object_member. cbn [map].
  repeat match goal with
  | |- context [offset_size ?t ?p] =>
      let r := eval vm_compute in (offset_size t p) in change (offset_size t p) with r
  end. reflexivity.
Qed.

Lemma sys_enter_places_ok ctx : sys_enter_places ctx.
Proof.
  unfold sys_enter_places, object_member.
  match goal with
  | |- context [offset_size ?t ?p] =>
      let r := eval vm_compute in (offset_size t p) in change (offset_size t p) with r
  end. reflexivity.
Qed.

Lemma execve_submits `{bpf_runtime} iv stale ctx :
  cur_cgroup_id iv <> 0 -> exists r, handle_execve iv (Some stale) ctx = Submitted r.
Proof. intros H'. unfold handle_execve. destruct (Z.eqb_spec (cur_cgroup_id iv) 0); [done|]. by eexists. Qed.

(** ** What the probes report *)

(** A network probe's answer about a TCP socket: the two ends, local and remote. *)
Definition reports_sock (sock : list byte) (v : verdict) : Prop :=
  let member path := le_decode (tcp_member sock path) in
  match v with
  | Ignored => member sock_family <> 2
  | NoSpace => False
  | Submitted r =>
      member sock_family = 2 /\
      get_int F_src_addr r = member sock_rcv_saddr /\ get_int F_src_port r = member sock_num /\
      get_int F_dst_addr r = member sock_daddr /\
      get_int F_dst_port r = be_decode (tcp_member sock sock_dport)
  end.

(** What the execution probe says of the parent task and of the path, the system
    call's first argument. *)
Definition reports_exec (us : Z -> option (list byte)) (parent ctx : list byte) (v : verdict) : Prop :=
  exists r, v = Submitted r /\
    get_int F_ppid r = le_decode (object_member struct_task_struct parent ["tgid"%string]) /\
    until_nul (get F_parent_comm r) =
      take 15 (until_nul (object_member struct_task_struct parent ["comm"%string])) /\
    until_nul (get F_filepath r) =
      from_option (fun s => take 255 (until_nul s)) []
        (us (le_decode (slice 0 8 (object_member struct_trace_event_raw_sys_enter ctx ["args"%string])))).

#[local] Opaque kernel_type offset_size object_member tcp_member.

Section Reports.
Variables (m : kmem) (us : Z -> option (list byte)).
#[local] Instance runtime_here : bpf_runtime := header_runtime m us.

Lemma sk_core_read sk sock path :
  kernel_object m struct_tcp_sock sk sock -> path ∈ sock_paths ->
  core_read "struct sock" sk path = tcp_member sock path.
Proof.
  intros Hk Hin. pose proof sock_paths_ok as Hok. rewrite Forall_forall in Hok.
  destruct (Hok path Hin). by apply (sock_member_bytes m).
Qed.

Lemma sk_read_member sk sock path :
  kernel_object m struct_tcp_sock sk sock -> path ∈ sock_paths ->
  sk_read sk path = le_decode (tcp_member sock path).
Proof. intros Hk Hin. unfold sk_read. f_equal. by apply sk_core_read. Qed.

Ltac sock_path := unfold sock_paths; repeat constructor.

(** The event of a network probe, on a socket in memory. *)
Lemma net_event_reports type iv sk sock stale r :
  kernel_object m struct_tcp_sock sk sock -> view r = net_event type iv sk stale ->
  le_decode (tcp_member sock sock_family) = 2 -> reports_sock sock (Submitted r).
Proof.
  intros Hk Hv Hf. split; [exact Hf|].
  pose proof (f_equal k_src_addr Hv) as H1. pose proof (f_equal k_src_port Hv) as H2.
  pose proof (f_equal k_dst_addr Hv) as H3. pose proof (f_equal k_dst_port Hv) as H4.
  cbn [view net_event k_src_addr k_src_port k_dst_addr k_dst_port] in *.
  rewrite H1, H2, H3, H4. rewrite !(sk_read_member sk sock) by (assumption || sock_path).
  split_and!; [done..|]. unfold sk_dport. f_equal. apply sk_core_read; [done|sock_path].
Qed.

(** A socket that is not IPv4 is ignored by both. *)
Lemma net_probe_reports type iv sk sock stale v :
  kernel_object m struct_tcp_sock sk sock -> sk <> 0 ->
  net_verdict type iv (Some stale) sk v -> reports_sock sock v.
Proof.
  intros Hk Hsk Hv. pose proof (sk_read_member sk sock sock_family Hk ltac:(sock_path)) as Hf.
  destruct v as [| |r]; simpl in Hv.
  - unfold reports_sock. intros H. apply Hv. split; [exact Hsk|]. by rewrite Hf.
  - destruct Hv as [_ [=]].
  - destruct Hv as ([_ H2] & st & [= <-] & _ & Hview). apply (net_event_reports type iv sk _ stale); [done..|].
    by rewrite <- Hf.
Qed.

Lemma task_read p task f :
  kernel_object m struct_task_struct p task -> is_Some (offset_size struct_task_struct [f]) ->
  core_read "struct task_struct" p [f] = object_member struct_task_struct task [f].
Proof. intros Hk Ho. apply (member_bytes_member m); [vm_compute; reflexivity|exact Hk|exact Ho]. Qed.

Lemma arg_read p ctx i :
  kernel_object m struct_trace_event_raw_sys_enter p ctx ->
  syscall_arg p i = le_decode (slice (8 * i) 8 (object_member struct_trace_event_raw_sys_enter ctx ["args"%string])).
Proof.
  intros Hk. unfold syscall_arg. do 2 f_equal. apply (member_bytes_member m); [vm_compute; reflexivity|exact Hk|].
  apply (bool_decide_unpack _). vm_compute. exact I.
Qed.

Lemma exec_event_reports iv ctx_at task parent ctx stale r :
  kernel_object m struct_trace_event_raw_sys_enter ctx_at ctx ->
  kernel_object m struct_task_struct (cur_task iv) task ->
  kernel_object m struct_task_struct (le_decode (object_member struct_task_struct task ["real_parent"%string])) parent ->
  event_bytes stale -> view r = execve_event iv ctx_at stale -> reports_exec us parent ctx (Submitted r).
Proof.
  intros Hc Ht Hp Hs Hv. exists r. split; [done|].
  pose proof (f_equal k_ppid Hv) as H1. pose proof (f_equal k_parent_comm Hv) as H2.
  pose proof (f_equal k_filepath Hv) as H3.
  cbn [view execve_event k_ppid k_parent_comm k_filepath] in H1, H2, H3.
  assert (Hpar : parent_of (cur_task iv) = le_decode (object_member struct_task_struct task ["real_parent"%string])).
  { unfold parent_of. f_equal. apply task_read; [exact Ht|]. apply (bool_decide_unpack _). vm_compute. exact I. }
  rewrite Hpar in H1, H2. rewrite (task_read _ parent "tgid" Hp) in H1
    by (apply (bool_decide_unpack _); vm_compute; exact I).
  rewrite (task_read _ parent "comm" Hp) in H2 by (apply (bool_decide_unpack _); vm_compute; exact I).
  rewrite H1, H2, H3. split_and!; [done| |].
  - rewrite until_nul_read_kernel_str; [done|lia|]. rewrite get_length, esize_table by exact Hs. done.
  - rewrite until_nul_read_user_str; [|lia|by rewrite get_length, esize_table by exact Hs].
    rewrite (arg_read ctx_at ctx 0 Hc). unfold user_cstring. cbn [user_string runtime_here header_runtime].
    by destruct (us _).
Qed.
End Reports.

(** (C40) In a kernel whose types are those of the header, the network probes, given the
    address of a [struct tcp_sock], and the execution probe, run by a task with a
    parent, report what these objects hold.  The network probes answer to an
    IPv4 socket only, with the local and the remote end; the execution probe
    says the parent's thread-group id, its command and the path of the first
    argument, as C strings cut to the members.  And the members are at these
    bytes of the objects. *)
Theorem probes_report_objects (m : kmem) (us : Z -> option (list byte)) (iv : invocation) (stale : list byte) :
  invocation_ok iv -> event_bytes stale ->
  let R := header_runtime m us in
  (forall sk sock, sk <> 0 -> kernel_object m struct_tcp_sock sk sock ->
     reports_sock sock (tcp_connect iv (Some stale) sk) /\
     reports_sock sock (inet_csk_accept iv (Some stale) sk) /\ sock_places sock) /\
  (forall ctx_at ctx task parent, cur_cgroup_id iv <> 0 ->
     kernel_object m struct_trace_event_raw_sys_enter ctx_at ctx ->
     kernel_object m struct_task_struct (cur_task iv) task ->
     kernel_object m struct_task_struct (le_decode (object_member struct_task_struct task ["real_parent"%string])) parent ->
     reports_exec us parent ctx (handle_execve iv (Some stale) ctx_at) /\
     task_places task /\ task_places parent /\ sys_enter_places ctx).
Proof.
  intros Hiv Hs R. assert (Hres : forall st, Some stale = Some st -> event_bytes st) by by intros st [= <-].
  split.
  - intros sk sock Hsk Hk. split_and!; [| |apply sock_places_ok].
    + apply (net_probe_reports m us EVENT_NET_CONNECT iv sk _ stale); [done..|]. by apply net_verdict_intro.
    + apply (net_probe_reports m us EVENT_NET_ACCEPT iv sk _ stale); [done..|]. by apply net_verdict_intro.
  - intros ctx_at ctx task parent Hcg Hc Ht Hp. split_and!; [|apply task_places_ok..|apply sys_enter_places_ok].
    destruct (execve_submits iv stale ctx_at Hcg) as [r Hr]. rewrite Hr.
    apply (exec_event_reports m us iv ctx_at task parent ctx stale); try assumption.
    by apply (handle_execve_view iv stale ctx_at).
Qed.

(** ** A concrete memory *)

(** Objects in pages of 1 MB, the object [k] in the page [k]. *)
Definition page : Z := 2 ^ 20.
Definition paged (objs : list (list byte)) : kmem := fun a =>
  match objs !! Z.to_nat (a / page) with
  | Some obj => if 0 <=? a then obj !! Z.to_nat (a mod page) else None
  | None => None
  end.

Lemma paged_object objs k obj :
  objs !! k = Some obj -> Z.of_nat (length obj) <= page -> object_at (paged objs) (Z.of_nat k * page) obj.
Proof.
  intros Hk Hl i b Hi. pose proof (lookup_lt_Some _ _ _ Hi).
  assert (Hdiv : (Z.of_nat k * page + Z.of_nat i) / page = Z.of_nat k).
  { rewrite Z.add_comm, Z.div_add, Z.div_small by (unfold page in *; lia). lia. }
  assert (Hmod : (Z.of_nat k * page + Z.of_nat i) mod page = Z.of_nat i).
  { rewrite Z.add_comm, Z_mod_plus_full, Z.mod_small by (unfold page in *; lia). done. }
  unfold paged. rewrite Hdiv, Hmod, !Nat2Z.id, Hk, (proj2 (Z.leb_le _ _)); [done|unfold page; lia].
Qed.

(** A socket 10.0.0.2:40000 -> 10.0.0.3:22 at 1 MB, a task at 2 MB that is its own
    parent, with thread group 7 and command "sshd", and a context at 3 MB. *)
Definition demo_sock : list byte :=
  splice 0 Demo.sock_bytes (replicate (N.to_nat (sizeof struct_tcp_sock)) NUL).
Definition demo_task : list byte :=
  splice 2784 (le_encode 8 (2 * page)) (splice 2772 (le_encode 4 7)
    (splice 3312 (map ascii_of_N [115; 115; 104; 100]%N) (replicate (N.to_nat (sizeof struct_task_struct)) NUL))).
Definition demo_ctx : list byte :=
  splice 0 Demo.ctx_bytes (replicate (N.to_nat (sizeof struct_trace_event_raw_sys_enter)) NUL).
Definition demo_memory : kmem := paged [[]; demo_sock; demo_task; demo_ctx].
Definition demo_invocation : invocation := {|
  cur_pid_tgid := 4321 * 2 ^ 32 + 4322; cur_cgroup_id := 77; ktime_ns := 5000000000;
  cur_comm := Demo.comm; cur_task := 2 * page
|}.

Lemma demo_objects :
  kernel_object demo_memory struct_tcp_sock page demo_sock /\
  kernel_object demo_memory struct_task_struct (2 * page) demo_task /\
  kernel_object demo_memory struct_trace_event_raw_sys_enter (3 * page) demo_ctx.
Proof.
  split_and!; (split; [|by vm_compute]).
  - apply (paged_object _ 1); [done|by vm_compute].
  - apply (paged_object _ 2); [done|by vm_compute].
  - apply (paged_object _ 3); [done|by vm_compute].
Qed.

#[local] Transparent kernel_type offset_size object_member tcp_member.

Lemma probes_report_objects_witness :
  let R := header_runtime demo_memory Demo.strings in
  le_decode (tcp_member demo_sock sock_rcv_saddr) = 10 + 2 * 256 ^ 3 /\
  be_decode (tcp_member demo_sock sock_dport) = 22 /\
  reports_sock demo_sock (tcp_connect demo_invocation (Some Demo.stale) page) /\
  reports_exec Demo.strings demo_task demo_ctx (handle_execve demo_invocation (Some Demo.stale) (3 * page)).
Proof.
  intros R. split; [vm_compute; reflexivity|]. split; [vm_compute; reflexivity|].
  destruct demo_objects as (Hs & Ht & Hc).
  assert (Hiv : invocation_ok demo_invocation) by (split; vm_compute; split_and?; congruence || reflexivity).
  pose proof (probes_report_objects demo_memory Demo.strings demo_invocation Demo.stale Hiv
                (Demo.stale_ok _ eq_refl)) as [Hnet Hexec]. split.
  - apply (Hnet page demo_sock); [discriminate|exact Hs].
  - assert (Hp : le_decode (object_member struct_task_struct demo_task ["real_parent"%string]) = 2 * page)
      by (vm_compute; reflexivity).
    refine (proj1 (Hexec (3 * page) demo_ctx demo_task demo_task _ Hc Ht _)); [discriminate|].
    rewrite Hp. exact Ht.
Defined.
