(* ===== verification/GoLib.v ===== *)
(** * The Go standard library, as far as the program uses it

    Strings are byte sequences ([string], converted to [list byte] by
    [bytes_of] where they are taken apart); [uint16] .. [uint64] are [Z] in
    range; a [time.Time] is its number of nanoseconds since the Unix epoch and
    a [time.Duration] an [int64] number of nanoseconds. *)

From S2P Require Import Prelude.
From S2P Require Import Bytes.
From stdpp Require Export pretty.

Open Scope Z_scope.

Definition bytes_of (s : string) : list byte := String.list_ascii_of_string s.
Definition of_bytes (bs : list byte) : string := String.string_of_list_ascii bs.

Lemma of_bytes_of s : of_bytes (bytes_of s) = s.
Proof. apply String.string_of_list_ascii_of_string. Qed.
Lemma bytes_of_of bs : bytes_of (of_bytes bs) = bs.
Proof. apply String.list_ascii_of_string_of_list_ascii. Qed.

#[export] Instance bytes_of_inj : Inj (=) (=) bytes_of.
Proof. intros s1 s2 H. rewrite <- (of_bytes_of s1), H. apply of_bytes_of. Qed.
#[export] Instance of_bytes_inj : Inj (=) (=) of_bytes.
Proof. intros s1 s2 H. rewrite <- (bytes_of_of s1), H. apply bytes_of_of. Qed.

(** ** Package strings *)

Fixpoint strip_prefix (p s : list byte) : option (list byte) :=
  match p, s with
  | [], _ => Some s
  | a :: p, b :: s => if decide (a = b) then strip_prefix p s else None
  | _ :: _, [] => None
  end.

Definition has_prefix (s p : list byte) : bool :=
  match strip_prefix p s with Some _ => true | None => false end.
Definition has_suffix (s p : list byte) : bool := has_prefix (rev s) (rev p).

(** [strings.HasPrefix] and [strings.TrimPrefix]. *)
Definition HasPrefix (s p : string) : bool := has_prefix (bytes_of s) (bytes_of p).
Definition TrimPrefix (s p : string) : string :=
  match strip_prefix (bytes_of p) (bytes_of s) with Some r => of_bytes r | None => s end.

Definition b (n : N) : byte := ascii_of_N n.

(** The encodings of the code points for which [unicode.IsSpace] holds. *)
Definition space_seqs : list (list byte) :=
  [[b 9]; [b 10]; [b 11]; [b 12]; [b 13]; [b 32]; [b 194; b 133]; [b 194; b 160];
   [b 225; b 154; b 128]] ++
  map (fun k => [b 226; b 128; b k]) [128; 129; 130; 131; 132; 133; 134; 135; 136; 137; 138;
                                      168; 169; 175]%N ++
  [[b 226; b 129; b 159]; [b 227; b 128; b 128]].

Fixpoint strip_any (seqs : list (list byte)) (s : list byte) : option (list byte) :=
  match seqs with
  | [] => None
  | q :: seqs =>
      match strip_prefix q s with Some r => Some r | None => strip_any seqs s end
  end.

(** Remove leading occurrences of [seqs]; each removal shortens the string, so
    its length is fuel enough. *)
Fixpoint trim_left_fuel (fuel : nat) (seqs : list (list byte)) (s : list byte) : list byte :=
  match fuel with
  | O => s
  | S fuel =>
      match strip_any seqs s with
      | Some r => trim_left_fuel fuel seqs r
      | None => s
      end
  end.

Definition trim (seqs : list (list byte)) (s : list byte) : list byte :=
  let l := trim_left_fuel (length s) seqs s in
  rev (trim_left_fuel (length l) (map (@rev byte) seqs) (rev l)).

(** [strings.TrimSpace], and [strings.Trim] with an ASCII cutset. *)
Definition trim_space (s : list byte) : list byte := trim space_seqs s.
Definition trim_cutset (cutset s : list byte) : list byte := trim (map (fun c => [c]) cutset) s.

(** [strings.Split(s, sep)] for a one-byte separator: never empty. *)
Fixpoint split_on (sep : byte) (s : list byte) : list (list byte) :=
  match s with
  | [] => [[]]
  | c :: s =>
      if decide (c = sep) then [] :: split_on sep s
      else match split_on sep s with
           | part :: parts => (c :: part) :: parts
           | [] => [[c]]
           end
  end.

(** The text before and after the first occurrence of [sep]: what
    [strings.SplitN(s, sep, 2)] returns, [None] being the one-element slice. *)
Fixpoint cut_at (sep s : list byte) : option (list byte * list byte) :=
  match strip_prefix sep s with
  | Some r => Some ([], r)
  | None =>
      match s with
      | [] => None
      | c :: s =>
          match cut_at sep s with
          | Some (l, r) => Some (c :: l, r)
          | None => None
          end
      end
  end.

(** [strings.Contains(s, sep)]. *)
Definition contains (s sep : list byte) : bool :=
  match cut_at sep s with Some _ => true | None => false end.

(** [strings.Join(parts, sep)]. *)
Fixpoint join (sep : string) (parts : list string) : string :=
  match parts with
  | [] => EmptyString
  | [p] => p
  | p :: parts => String.append p (String.append sep (join sep parts))
  end.

(** ** Package strconv and fmt *)

(** [fmt.Sprintf("%d", v)] of an unsigned value. *)
Definition decimal (v : Z) : string := pretty (Z.to_N v).

Inductive parse_error := ErrSyntax | ErrRange.

Definition digit_val (c : byte) : option Z :=
  let v := byte_val c in
  if (48 <=? v) && (v <=? 57) then Some (v - 48) else None.

(** The digit loop of [strconv.ParseUint(s, 10, bits)], on [uint64] [n]. *)
Fixpoint parse_digits (bits : Z) (n : Z) (s : list byte) : Z + parse_error :=
  match s with
  | [] => inl n
  | c :: s =>
      match digit_val c with
      | None => inr ErrSyntax
      | Some d =>
          if n >=? (2 ^ 64 - 1) / 10 + 1 then inr ErrRange
          else
            let n := uwrap 64 (n * 10) in
            let n1 := uwrap 64 (n + d) in
            if (n1 <? n) || (n1 >? 2 ^ bits - 1) then inr ErrRange
            else parse_digits bits n1 s
      end
  end.

Definition parse_uint (bits : Z) (s : list byte) : Z + parse_error :=
  match s with
  | [] => inr ErrSyntax
  | _ => parse_digits bits 0 s
  end.

(** ** Package time *)

Definition Second : Z := 1000000000.
Definition max_duration : Z := 2 ^ 63 - 1.
Definition min_duration : Z := - 2 ^ 63.

(** [t.Sub(u)] saturates. *)
Definition time_sub (t u : Z) : Z := Z.max min_duration (Z.min max_duration (t - u)).
(** [t.Add(d)]. *)
Definition time_add (t d : Z) : Z := t + d.
(** [time.Duration(v)] of a [uint64]. *)
Definition to_duration (v : Z) : Z := swrap 64 v.
(** [time.Unix(sec, nsec)]. *)
Definition time_unix (sec nsec : Z) : Z := sec * Second + nsec.
(** The zero [time.Time], January 1 of year 1. *)
Definition time_zero : Z := -62135596800 * Second.

(** ** Lemmas: strings *)

Lemma bytes_of_app s1 s2 : bytes_of (String.append s1 s2) = bytes_of s1 ++ bytes_of s2.
Proof. induction s1 as [|c s1 IH]; [reflexivity|]. simpl. unfold bytes_of in *. simpl. by rewrite IH. Qed.

Lemma bytes_of_cons c s : bytes_of (String c s) = c :: bytes_of s.
Proof. reflexivity. Qed.

Lemma split_on_no_sep sep s : sep ∉ s -> split_on sep s = [s].
Proof.
  induction s as [|c s IH]; intros H; [reflexivity|]. simpl.
  apply not_elem_of_cons in H as [Hc Hs]. rewrite decide_False by congruence. by rewrite IH.
Qed.

Lemma split_on_app sep s rest :
  sep ∉ s -> split_on sep (s ++ sep :: rest) = s :: split_on sep rest.
Proof.
  induction s as [|c s IH]; intros H; simpl; [by rewrite decide_True|].
  apply not_elem_of_cons in H as [Hc Hs]. rewrite decide_False by congruence. by rewrite IH.
Qed.

Lemma bytes_of_join_cons c p q parts :
  bytes_of (join (String c EmptyString) (p :: q :: parts)) =
  bytes_of p ++ c :: bytes_of (join (String c EmptyString) (q :: parts)).
Proof.
  change (join (String c EmptyString) (p :: q :: parts)) with
    (String.append p (String.append (String c EmptyString) (join (String c EmptyString) (q :: parts)))).
  by rewrite !bytes_of_app.
Qed.

(** Splitting undoes joining when no part contains the separator. *)
Lemma split_on_join c parts :
  parts <> [] -> Forall (fun p => c ∉ bytes_of p) parts ->
  split_on c (bytes_of (join (String c EmptyString) parts)) = map bytes_of parts.
Proof.
  induction parts as [|p [|q parts] IH]; intros Hne Hall; [done| |].
  - apply Forall_cons_1 in Hall as [Hp _]. simpl. by apply split_on_no_sep.
  - apply Forall_cons_1 in Hall as [Hp Hall].
    rewrite bytes_of_join_cons, split_on_app by assumption. by rewrite IH.
Qed.

Lemma join_inj c ps qs :
  Forall (fun p => c ∉ bytes_of p) ps -> Forall (fun p => c ∉ bytes_of p) qs ->
  ps <> [] -> qs <> [] ->
  join (String c EmptyString) ps = join (String c EmptyString) qs -> ps = qs.
Proof.
  intros Hp Hq Hpn Hqn H. apply (f_equal (fun s => split_on c (bytes_of s))) in H.
  rewrite !split_on_join in H by assumption.
  exact (map_injective bytes_of (fun x y => inj bytes_of x y) _ _ H).
Qed.

(** ** Lemmas: decimal numbers *)

Definition is_digit (c : byte) : Prop := is_Some (digit_val c).

Lemma pretty_char_val x :
  (x < 10)%N -> digit_val (pretty_N_char x) = Some (Z.of_N x).
Proof.
  intros H. assert (x = 0 \/ x = 1 \/ x = 2 \/ x = 3 \/ x = 4 \/ x = 5 \/ x = 6 \/ x = 7 \/
    x = 8 \/ x = 9)%N as Hx by lia.
  repeat destruct Hx as [-> | Hx]; try reflexivity. by rewrite Hx.
Qed.

(** Induction on the decimal digits of a positive number. *)
Lemma decimal_ind (P : N -> Prop) :
  (forall x, (0 < x < 10)%N -> P x) ->
  (forall x, (10 <= x)%N -> P (x / 10)%N -> P x) ->
  forall x, (0 < x)%N -> P x.
Proof.
  intros H1 H2 x. induction (N.lt_wf_0 x) as [x _ IH]. intros Hx.
  destruct (N.lt_ge_cases x 10); [apply H1; lia|].
  apply H2; [assumption|]. apply IH; [apply N.div_lt; lia|].
  apply N.div_str_pos. lia.
Qed.

Lemma pretty_go_step x s :
  (0 < x)%N -> pretty_N_go x s = pretty_N_go (x / 10) (String (pretty_N_char (x mod 10)) s).
Proof. apply pretty_N_go_step. Qed.

Lemma pretty_go_small x s : (0 < x < 10)%N -> pretty_N_go x s = String (pretty_N_char x) s.
Proof.
  intros H. rewrite pretty_go_step by lia.
  rewrite N.div_small, N.mod_small by lia. apply pretty_N_go_0.
Qed.

Lemma parse_digits_step bits n d c s :
  0 <= bits <= 64 -> digit_val c = Some d -> 0 <= n -> n * 10 + d < 2 ^ bits -> 0 <= d < 10 ->
  parse_digits bits n (c :: s) = parse_digits bits (n * 10 + d) s.
Proof.
  intros Hb Hc Hn Hlt Hd. assert (2 ^ bits <= 2 ^ 64) by (apply Z.pow_le_mono_r; lia).
  change (parse_digits bits n (c :: s)) with
    (match digit_val c with
     | None => inr ErrSyntax
     | Some d =>
         if n >=? (2 ^ 64 - 1) / 10 + 1 then inr ErrRange
         else
           let n := uwrap 64 (n * 10) in
           let n1 := uwrap 64 (n + d) in
           if (n1 <? n) || (n1 >? 2 ^ bits - 1) then inr ErrRange
           else parse_digits bits n1 s
     end).
  rewrite Hc. change ((2 ^ 64 - 1) / 10 + 1) with 1844674407370955162.
  assert ((n >=? 1844674407370955162) = false) as -> by lia.
  cbv zeta. unfold uwrap. rewrite (Z.mod_small (n * 10)), (Z.mod_small (n * 10 + d)) by lia.
  assert ((n * 10 + d <? n * 10) || (n * 10 + d >? 2 ^ bits - 1) = false) as -> by lia.
  reflexivity.
Qed.

Lemma parse_digits_pretty bits x :
  0 <= bits <= 64 -> (0 < x)%N -> Z.of_N x < 2 ^ bits ->
  forall s, parse_digits bits 0 (bytes_of (pretty_N_go x s)) = parse_digits bits (Z.of_N x) (bytes_of s).
Proof.
  intros Hb. revert x. apply (decimal_ind (fun x => Z.of_N x < 2 ^ bits -> forall s,
    parse_digits bits 0 (bytes_of (pretty_N_go x s)) = parse_digits bits (Z.of_N x) (bytes_of s))).
  - intros x Hx1 Hlt s. rewrite pretty_go_small, bytes_of_cons by lia.
    rewrite (parse_digits_step bits 0 (Z.of_N x)); [f_equal; lia|assumption| |lia..].
    apply pretty_char_val. lia.
  - intros x Hx1 IH Hlt s. pose proof (N.div_mod x 10 ltac:(lia)) as Hdm. pose proof (N.mod_lt x 10 ltac:(lia)).
    assert (0 < x / 10)%N by (apply N.div_str_pos; lia).
    assert (x / 10 <= x)%N by (apply N.Div0.div_le_upper_bound; lia).
    assert (0 <= Z.of_N (x mod 10) < 10)
      by (rewrite N2Z.inj_mod by lia; apply Z.mod_pos_bound; lia).
    rewrite pretty_go_step, IH, bytes_of_cons by lia.
    rewrite (parse_digits_step bits _ (Z.of_N (x mod 10)));
      [f_equal; lia|assumption| |lia|lia|assumption].
    apply pretty_char_val. lia.
Qed.

Lemma decimal_unfold v :
  0 <= v -> decimal v = if decide (v = 0) then "0"%string else pretty_N_go (Z.to_N v) EmptyString.
Proof.
  intros Hv. unfold decimal, pretty, pretty_N. repeat case_decide; try reflexivity; lia.
Qed.

(** [strconv.ParseUint] reads back what [%d] prints. *)
Lemma parse_uint_decimal bits v :
  0 < bits <= 64 -> 0 <= v < 2 ^ bits -> parse_uint bits (bytes_of (decimal v)) = inl v.
Proof.
  intros Hb Hv. rewrite decimal_unfold by lia. case_decide as H0.
  - subst. unfold parse_uint. simpl bytes_of.
    rewrite (parse_digits_step bits 0 0); [reflexivity|lia|reflexivity|lia..].
  - unfold parse_uint.
    pose proof (parse_digits_pretty bits (Z.to_N v) ltac:(lia) ltac:(lia) ltac:(lia) EmptyString) as E.
    rewrite Z2N.id in E by lia.
    destruct (bytes_of (pretty_N_go (Z.to_N v) EmptyString)) eqn:Eb; [|exact E].
    simpl in E. injection E as E. lia.
Qed.

Lemma decimal_inj v w : in_u 64 v -> in_u 64 w -> decimal v = decimal w -> v = w.
Proof.
  unfold in_u. intros Hv Hw H. apply (f_equal (fun s => parse_uint 64 (bytes_of s))) in H.
  rewrite !parse_uint_decimal in H by lia. by injection H.
Qed.

Lemma pretty_go_digits x :
  (0 < x)%N -> forall s, Forall is_digit (bytes_of s) -> Forall is_digit (bytes_of (pretty_N_go x s)).
Proof.
  assert (Hc : forall y, (y < 10)%N -> is_digit (pretty_N_char y))
    by (intros y Hy; unfold is_digit; rewrite pretty_char_val by assumption; eauto).
  revert x. apply (decimal_ind (fun x => forall s, Forall is_digit (bytes_of s) ->
    Forall is_digit (bytes_of (pretty_N_go x s)))).
  - intros x Hx1 s Hs. rewrite pretty_go_small by lia. rewrite bytes_of_cons. constructor; [apply Hc; lia|exact Hs].
  - intros x Hx1 IH s Hs. rewrite pretty_go_step by lia. apply IH.
    rewrite bytes_of_cons. constructor; [apply Hc, N.mod_lt; lia|exact Hs].
Qed.

Lemma decimal_digits v : 0 <= v -> Forall is_digit (bytes_of (decimal v)).
Proof.
  intros Hv. rewrite decimal_unfold by lia. case_decide.
  - change (bytes_of "0") with ["0"%char]. apply Forall_singleton. by exists 0.
  - apply pretty_go_digits; [lia|constructor].
Qed.

Lemma decimal_no c v : 0 <= v -> digit_val c = None -> c ∉ bytes_of (decimal v).
Proof.
  intros Hv Hc Hin. pose proof (decimal_digits v Hv) as H.
  rewrite Forall_forall in H. destruct (H c Hin). congruence.
Qed.

(** ** Lemmas: trimming and cutting *)

(** No sequence of [seqs] begins with [c]. *)
Definition begins_none (seqs : list (list byte)) (c : byte) : bool :=
  forallb (fun q => match q with d :: _ => negb (bool_decide (d = c)) | [] => false end) seqs.

(** Neither trimming end of [trim seqs] can touch [c]. *)
Definition untouched (seqs : list (list byte)) (c : byte) : bool :=
  begins_none seqs c && begins_none (map (@rev byte) seqs) c.

Lemma strip_any_none seqs c s : begins_none seqs c = true -> strip_any seqs (c :: s) = None.
Proof.
  induction seqs as [|[|d q] seqs IH]; simpl; [done|done|].
  intros [Hd Hs]%andb_true_iff. case_bool_decide; [done|].
  rewrite decide_False by assumption. by apply IH.
Qed.

Lemma trim_left_id fuel seqs c s :
  begins_none seqs c = true -> trim_left_fuel fuel seqs (c :: s) = c :: s.
Proof. intros H. destruct fuel; [reflexivity|]. cbn [trim_left_fuel]. by rewrite strip_any_none. Qed.

Lemma trim_id seqs s : Forall (fun c => untouched seqs c = true) s -> trim seqs s = s.
Proof.
  intros H. unfold trim.
  assert (trim_left_fuel (length s) seqs s = s) as ->.
  { destruct H as [|c r Hc _]; [reflexivity|].
    apply andb_true_iff in Hc as [Hc _]. by apply trim_left_id. }
  rewrite <- (rev_involutive s) at 3. f_equal.
  assert (H' : Forall (fun c => untouched seqs c = true) (rev s)) by by apply Forall_rev.
  destruct (rev s) as [|c l] eqn:E.
  { apply (f_equal length) in E. rewrite length_rev in E. by rewrite E. }
  apply Forall_cons_1 in H' as [Hc _].
  apply andb_true_iff in Hc as [_ Hc]. by apply trim_left_id.
Qed.

Lemma cut_at_none c s : c ∉ s -> cut_at [c] s = None.
Proof.
  induction s as [|d s IH]; intros H; [reflexivity|]. simpl.
  apply not_elem_of_cons in H as [Hd Hs]. rewrite decide_False by assumption. by rewrite IH.
Qed.

Lemma cut_at_app c l r : c ∉ l -> cut_at [c] (l ++ c :: r) = Some (l, r).
Proof.
  induction l as [|d l IH]; intros H; simpl; [by rewrite decide_True|].
  apply not_elem_of_cons in H as [Hd Hs]. rewrite decide_False by assumption. by rewrite IH.
Qed.

Lemma has_prefix_cons c s d p :
  has_prefix (c :: s) (d :: p) = bool_decide (d = c) && has_prefix s p.
Proof.
  unfold has_prefix. simpl. destruct (decide (d = c)); [by rewrite bool_decide_true|].
  by rewrite bool_decide_false.
Qed.

Lemma has_prefix_app p s : has_prefix (p ++ s) p = true.
Proof.
  unfold has_prefix. assert (strip_prefix p (p ++ s) = Some s) as ->; [|reflexivity].
  induction p as [|c p IH]; [reflexivity|]. simpl. by rewrite decide_True.
Qed.

Lemma strip_prefix_app p s : strip_prefix p (p ++ s) = Some s.
Proof. induction p as [|c p IH]; simpl; [reflexivity|]. by rewrite decide_True. Qed.

Lemma contains_cons c s sep : contains s sep = true -> contains (c :: s) sep = true.
Proof.
  unfold contains. cbn [cut_at]. destruct (strip_prefix sep (c :: s)); [done|].
  by destruct (cut_at sep s) as [[]|].
Qed.

(** [contains] finds every occurrence. *)
Lemma contains_app l sep r : contains (l ++ sep ++ r) sep = true.
Proof.
  induction l as [|c l IH]; simpl; [|by apply contains_cons].
  unfold contains. assert (Hs : forall s, cut_at sep s = match strip_prefix sep s with
    | Some r => Some ([], r) | None => match s with [] => None | c :: s =>
      match cut_at sep s with Some (l, r) => Some (c :: l, r) | None => None end end end)
    by (intros []; reflexivity).
  by rewrite Hs, strip_prefix_app.
Qed.
