(* ===== verification/Duration.v ===== *)
(** * [time.ParseDuration]

    The duration parser of package [time], which the rule engine applies to the
    [window] of a rule, with its [uint64] overflow checks and its float64
    arithmetic for fractions (IEEE 754 binary64, as [SpecFloat] computes it). *)

From S2P Require Import Prelude.
From S2P Require Import Bytes.
From S2P Require Import GoLib.
From Stdlib Require Import SpecFloat.

Open Scope Z_scope.

(** [float64(v)] of a [uint64], and [uint64(x)] of a non-negative float. *)
Definition f64_of_u64 (v : Z) : spec_float := binary_normalize 53 1024 v 0 false.
Definition f64_mul : spec_float -> spec_float -> spec_float := SFmul 53 1024.
Definition f64_div : spec_float -> spec_float -> spec_float := SFdiv 53 1024.
Definition u64_of_f64 (x : spec_float) : Z :=
  match x with
  | S754_finite false m e => if 0 <=? e then Z.pos m * 2 ^ e else Z.pos m / 2 ^ (- e)
  | _ => 0
  end.

(** [leadingInt]: [None] on overflow. *)
Fixpoint leadingInt (x : Z) (s : list byte) : option (Z * list byte) :=
  match s with
  | [] => Some (x, s)
  | c :: s' =>
      match digit_val c with
      | None => Some (x, s)
      | Some d =>
          if x >? 2 ^ 63 / 10 then None
          else
            let x := x * 10 + d in
            if x >? 2 ^ 63 then None else leadingInt x s'
      end
  end.

(** [leadingFraction]: digits beyond the overflow are skipped. *)
Fixpoint leadingFraction (x : Z) (scale : spec_float) (overflow : bool) (s : list byte)
    : Z * spec_float * list byte :=
  match s with
  | [] => (x, scale, s)
  | c :: s' =>
      match digit_val c with
      | None => (x, scale, s)
      | Some d =>
          if overflow || (x >? (2 ^ 63 - 1) / 10) then leadingFraction x scale true s'
          else
            let y := x * 10 + d in
            if y >? 2 ^ 63 then leadingFraction x scale true s'
            else leadingFraction y (f64_mul scale (f64_of_u64 10)) false s'
      end
  end.

Definition unitMap (u : list byte) : option Z :=
  if decide (u = bytes_of "ns") then Some 1
  else if decide (u = bytes_of "us") then Some 1000
  else if decide (u = [b 194; b 181; b 115]) then Some 1000
  else if decide (u = [b 206; b 188; b 115]) then Some 1000
  else if decide (u = bytes_of "ms") then Some 1000000
  else if decide (u = bytes_of "s") then Some Second
  else if decide (u = bytes_of "m") then Some (60 * Second)
  else if decide (u = bytes_of "h") then Some (3600 * Second)
  else None.

Definition is_dot (c : byte) : bool := bool_decide (c = "."%char).
Definition digit_or_dot (c : byte) : bool :=
  is_dot c || match digit_val c with Some _ => true | None => false end.

(** The unit: everything up to the next digit or dot. *)
Fixpoint take_unit (s : list byte) : list byte * list byte :=
  match s with
  | [] => ([], [])
  | c :: s' => if digit_or_dot c then ([], s) else let '(u, r) := take_unit s' in (c :: u, r)
  end.

(** The loop over number-unit pairs, on the [uint64] sum [d]; [None] is an
    error.  Every iteration consumes a byte at least. *)
Fixpoint duration_loop (fuel : nat) (d : Z) (s : list byte) : option Z :=
  match s, fuel with
  | [], _ => Some d
  | _, O => None
  | c :: _, S fuel =>
      if negb (digit_or_dot c) then None
      else
        match leadingInt 0 s with
        | None => None
        | Some (v, s1) =>
            let pre := negb (length s1 =? length s)%nat in
            let '(f, scale, s2, post) :=
              match s1 with
              | c1 :: s1' =>
                  if is_dot c1 then
                    let '(f, scale, r) := leadingFraction 0 (f64_of_u64 1) false s1' in
                    (f, scale, r, negb (length r =? length s1')%nat)
                  else (0, f64_of_u64 1, s1, false)
              | [] => (0, f64_of_u64 1, s1, false)
              end in
            if negb pre && negb post then None
            else
              let '(u, s3) := take_unit s2 in
              if bool_decide (u = []) then None
              else
                match unitMap u with
                | None => None
                | Some unit =>
                    if v >? 2 ^ 63 / unit then None
                    else
                      let v := uwrap 64 (v * unit) in
                      let v :=
                        if f >? 0 then
                          uwrap 64 (v + u64_of_f64
                            (f64_mul (f64_of_u64 f) (f64_div (f64_of_u64 unit) scale)))
                        else v in
                      if (f >? 0) && (v >? 2 ^ 63) then None
                      else
                        let d := uwrap 64 (d + v) in
                        if d >? 2 ^ 63 then None else duration_loop fuel d s3
                end
        end
  end.

Definition ParseDuration (str : string) : option Z :=
  let s := bytes_of str in
  let '(neg, s) :=
    match s with
    | c :: s' => if decide (c = "-"%char) then (true, s')
                 else if decide (c = "+"%char) then (false, s') else (false, s)
    | [] => (false, s)
    end in
  if bool_decide (s = bytes_of "0") then Some 0
  else if bool_decide (s = []) then None
  else
    match duration_loop (length s) 0 s with
    | None => None
    | Some d =>
        if neg then Some (swrap 64 (- swrap 64 d))
        else if d >? 2 ^ 63 - 1 then None else Some d
    end.

Example parse_duration_examples :
  ParseDuration "10s" = Some (10 * Second) /\ ParseDuration "1h30m" = Some (5400 * Second) /\
  ParseDuration "1.5s" = Some 1500000000 /\ ParseDuration "-250ms" = Some (-250000000) /\
  ParseDuration "" = None /\ ParseDuration "10" = None /\ ParseDuration "3x" = None /\
  ParseDuration "9223372036854775808ns" = None /\
  ParseDuration "-9223372036854775808ns" = Some (- 2 ^ 63) /\ ParseDuration ".s" = None.
Proof. vm_compute. repeat split. Qed.
