(* ===== verification/PathMatch.v ===== *)
(** * Go's [path.Match]

    The shell-pattern matcher the rules use: [scanChunk], [matchChunk],
    [getEsc] and [Match] of package [path], with the UTF-8 decoding of package
    [unicode/utf8], on byte lists.  Loops consume at least one byte per
    iteration, so lengths are the fuel. *)

From S2P Require Import Prelude.
From S2P Require Import Bytes.
From S2P Require Import GoLib.

Open Scope Z_scope.

Definition rune_error : Z := 65533.

Definition cont_byte (lo hi : Z) (c : byte) : bool := (lo <=? byte_val c) && (byte_val c <=? hi).

(** [utf8.DecodeRuneInString]: the rune and its width; an invalid encoding is
    one byte wide. *)
Definition decode_rune (s : list byte) : Z * nat :=
  match s with
  | [] => (rune_error, 0%nat)
  | c0 :: s =>
      let x := byte_val c0 in
      if x <? 128 then (x, 1%nat)
      else
        match s with
        | [] => (rune_error, 1%nat)
        | c1 :: s =>
            let y := byte_val c1 in
            if (194 <=? x) && (x <=? 223) then
              if cont_byte 128 191 c1 then ((x - 192) * 64 + (y - 128), 2%nat)
              else (rune_error, 1%nat)
            else if (224 <=? x) && (x <=? 239) then
              let lo := if x =? 224 then 160 else 128 in
              let hi := if x =? 237 then 159 else 191 in
              match s with
              | c2 :: _ =>
                  if cont_byte lo hi c1 && cont_byte 128 191 c2 then
                    ((x - 224) * 4096 + (y - 128) * 64 + (byte_val c2 - 128), 3%nat)
                  else (rune_error, 1%nat)
              | [] => (rune_error, 1%nat)
              end
            else if (240 <=? x) && (x <=? 244) then
              let lo := if x =? 240 then 144 else 128 in
              let hi := if x =? 244 then 143 else 191 in
              match s with
              | c2 :: c3 :: _ =>
                  if cont_byte lo hi c1 && cont_byte 128 191 c2 && cont_byte 128 191 c3 then
                    ((x - 240) * 262144 + (y - 128) * 4096 + (byte_val c2 - 128) * 64
                     + (byte_val c3 - 128), 4%nat)
                  else (rune_error, 1%nat)
              | _ => (rune_error, 1%nat)
              end
            else (rune_error, 1%nat)
        end
  end.

Definition STAR : byte := b 42.
Definition QUESTION : byte := b 63.
Definition LBRACKET : byte := b 91.
Definition RBRACKET : byte := b 93.
Definition BACKSLASH : byte := b 92.
Definition CARET : byte := b 94.
Definition DASH : byte := b 45.
Definition SLASH : byte := b 47.

(** The chunk up to the next star outside a class; a backslash takes the next
    byte with it. *)
Fixpoint scan_body (inrange : bool) (p : list byte) : list byte * list byte :=
  match p with
  | [] => ([], [])
  | c :: p' =>
      if decide (c = BACKSLASH) then
        match p' with
        | c' :: p'' => let '(chunk, rest) := scan_body inrange p'' in (c :: c' :: chunk, rest)
        | [] => ([c], [])
        end
      else if decide (c = LBRACKET) then
        let '(chunk, rest) := scan_body true p' in (c :: chunk, rest)
      else if decide (c = RBRACKET) then
        let '(chunk, rest) := scan_body false p' in (c :: chunk, rest)
      else if bool_decide (c = STAR) && negb inrange then ([], p)
      else let '(chunk, rest) := scan_body inrange p' in (c :: chunk, rest)
  end.

Fixpoint skip_stars (p : list byte) : bool * list byte :=
  match p with
  | c :: p' => if decide (c = STAR) then (true, snd (skip_stars p')) else (false, p)
  | [] => (false, [])
  end.

Definition scanChunk (pattern : list byte) : bool * list byte * list byte :=
  let '(star, p) := skip_stars pattern in
  let '(chunk, rest) := scan_body false p in
  (star, chunk, rest).

(** [None] is [ErrBadPattern]. *)
Definition getEsc (chunk : list byte) : option (Z * list byte) :=
  match chunk with
  | [] => None
  | c :: chunk' =>
      if bool_decide (c = DASH) || bool_decide (c = RBRACKET) then None
      else
        let chunk := if decide (c = BACKSLASH) then chunk' else chunk in
        match chunk with
        | [] => None
        | _ =>
            let '(r, n) := decode_rune chunk in
            if (r =? rune_error) && bool_decide (n = 1%nat) then None
            else
              let nchunk := drop n chunk in
              match nchunk with [] => None | _ => Some (r, nchunk) end
        end
  end.

(** The range loop of a class: whether [r] is in one of the ranges, and the
    chunk after the closing bracket. *)
Fixpoint class_ranges (fuel : nat) (r : Z) (first matched : bool) (chunk : list byte)
    : option (bool * list byte) :=
  match fuel with
  | O => None
  | S fuel =>
      match chunk, first with
      | c :: chunk', false =>
          if decide (c = RBRACKET) then Some (matched, chunk')
          else class_range fuel r matched chunk
      | _, _ => class_range fuel r matched chunk
      end
  end
with class_range (fuel : nat) (r : Z) (matched : bool) (chunk : list byte)
    : option (bool * list byte) :=
  match fuel with
  | O => None
  | S fuel =>
      match getEsc chunk with
      | None => None
      | Some (lo, chunk) =>
          match chunk with
          | c :: chunk' =>
              if decide (c = DASH) then
                match getEsc chunk' with
                | None => None
                | Some (hi, chunk) =>
                    class_ranges fuel r false (matched || ((lo <=? r) && (r <=? hi))) chunk
                end
              else class_ranges fuel r false (matched || (lo =? r)) chunk
          | [] => None
          end
      end
  end.

Inductive chunk_result :=
| BadPattern
| NoMatch
| MatchRest (rest : list byte).

Fixpoint matchChunk_fuel (fuel : nat) (failed : bool) (chunk s : list byte) : chunk_result :=
  match fuel, chunk with
  | _, [] => if failed then NoMatch else MatchRest s
  | O, _ => BadPattern
  | S fuel, c :: chunk' =>
      let failed := failed || bool_decide (s = []) in
      if decide (c = LBRACKET) then
        let '(r, n) := if failed then (0, 0%nat) else decode_rune s in
        let s := drop n s in
        let '(negated, chunk) :=
          match chunk' with
          | d :: chunk'' => if decide (d = CARET) then (true, chunk'') else (false, chunk')
          | [] => (false, chunk')
          end in
        match class_ranges (2 * length chunk + 2) r true false chunk with
        | None => BadPattern
        | Some (matched, chunk) =>
            matchChunk_fuel fuel (failed || Bool.eqb matched negated) chunk s
        end
      else if decide (c = QUESTION) then
        if failed then matchChunk_fuel fuel failed chunk' s
        else
          let slash := match s with d :: _ => bool_decide (d = SLASH) | [] => false end in
          matchChunk_fuel fuel slash chunk' (drop (snd (decode_rune s)) s)
      else
        let lit (c : byte) (chunk : list byte) :=
          if failed then matchChunk_fuel fuel failed chunk s
          else
            match s with
            | d :: s => matchChunk_fuel fuel (negb (bool_decide (c = d))) chunk s
            | [] => matchChunk_fuel fuel true chunk s
            end in
        if decide (c = BACKSLASH) then
          match chunk' with
          | [] => BadPattern
          | c' :: chunk'' => lit c' chunk''
          end
        else lit c chunk'
  end.

Definition matchChunk (chunk s : list byte) : chunk_result :=
  matchChunk_fuel (length chunk) false chunk s.

(** The star loop: try the chunk after skipping 1, 2, ... bytes of [name], none
    of which may be a slash.  [last] says that no pattern follows. *)
Fixpoint star_search (last : bool) (chunk name : list byte) : chunk_result :=
  match name with
  | [] => NoMatch
  | c :: name =>
      if decide (c = SLASH) then NoMatch
      else
        match matchChunk chunk name with
        | MatchRest t =>
            if last && negb (bool_decide (t = [])) then star_search last chunk name
            else MatchRest t
        | BadPattern => BadPattern
        | NoMatch => star_search last chunk name
        end
  end.

(** The syntax check of the rest of the pattern after a failure. *)
Fixpoint rest_ok (fuel : nat) (pattern : list byte) : bool :=
  match fuel, pattern with
  | _, [] => true
  | O, _ => true
  | S fuel, _ =>
      let '(_, chunk, rest) := scanChunk pattern in
      match matchChunk chunk [] with
      | BadPattern => false
      | _ => rest_ok fuel rest
      end
  end.

(** [None] is an error; the value is whether the name matches. *)
Fixpoint Match_fuel (fuel : nat) (pattern name : list byte) : option bool :=
  match fuel, pattern with
  | _, [] => Some (bool_decide (name = []))
  | O, _ => None
  | S fuel, _ =>
      let '(star, chunk, pattern) := scanChunk pattern in
      if star && bool_decide (chunk = []) then Some (negb (contains name [SLASH]))
      else
        let last := bool_decide (pattern = []) in
        let no_match := if rest_ok (length pattern) pattern then Some false else None in
        let skip :=
          if star then
            match star_search last chunk name with
            | MatchRest t => Match_fuel fuel pattern t
            | BadPattern => None
            | NoMatch => no_match
            end
          else no_match in
        match matchChunk chunk name with
        | MatchRest t =>
            if bool_decide (t = []) || negb last then Match_fuel fuel pattern t else skip
        | BadPattern => None
        | NoMatch => skip
        end
  end.

Definition Match (pattern name : string) : option bool :=
  Match_fuel (length (bytes_of pattern)) (bytes_of pattern) (bytes_of name).

Example match_home :
  Match "/home/*/.ssh/id_rsa" "/home/bob/.ssh/id_rsa" = Some true /\
  Match "/home/*/.ssh/id_rsa" "/home/a/b/.ssh/id_rsa" = Some false /\
  Match "[a-c]?x\*" "bzx*" = Some true /\ Match "a[" "b" = None /\
  Match "*[/a]*b" "a/b" = Some false /\ Match "[^a]b" "xb" = Some true.
Proof. vm_compute. repeat split. Qed.

(** ** What a pattern of literals and stars matches *)

(** The meaning of such a pattern: a star stands for any bytes but slashes. *)
Inductive glob : list byte -> list byte -> Prop :=
| glob_nil : glob [] []
| glob_lit c p s : c <> STAR -> glob p s -> glob (c :: p) (c :: s)
| glob_star p s1 s2 : SLASH ∉ s1 -> glob p s2 -> glob (STAR :: p) (s1 ++ s2).

(** No question mark, class or escape. *)
Definition plain_char (c : byte) : Prop :=
  c <> QUESTION /\ c <> LBRACKET /\ c <> RBRACKET /\ c <> BACKSLASH.
Definition plain (p : list byte) : Prop := Forall plain_char p.

(** Literal bytes only. *)
Definition literal (l : list byte) : Prop := plain l /\ STAR ∉ l.

(** What comes after a chunk: nothing or a star. *)
Definition starts_star (p : list byte) : Prop := p = [] \/ exists p', p = STAR :: p'.

Lemma glob_literal l p s :
  STAR ∉ l -> glob (l ++ p) s <-> exists t, s = l ++ t /\ glob p t.
Proof.
  revert s. induction l as [|c l IH]; intros s Hl; simpl.
  - split; [eauto|]. by intros (t & -> & ?).
  - apply not_elem_of_cons in Hl as [Hc Hl]. split.
    + intros H. inversion H as [|? ? s' _ Hg|]; subst; [|done].
      apply (IH s' Hl) in Hg as (t & -> & Hg). eauto.
    + intros (t & -> & Hg). constructor; [congruence|]. apply IH; eauto.
Qed.

Lemma glob_star_inv p s :
  glob (STAR :: p) s <-> exists s1 s2, s = s1 ++ s2 /\ (SLASH ∉ s1) /\ glob p s2.
Proof.
  split.
  - intros H. inversion H; subst; [done|]. eauto.
  - intros (s1 & s2 & -> & ? & ?). by constructor.
Qed.

Lemma glob_star_star p s : glob (STAR :: STAR :: p) s <-> glob (STAR :: p) s.
Proof.
  rewrite glob_star_inv. split.
  - intros (s1 & s2 & -> & H1 & (s3 & s4 & -> & H3 & Hg)%glob_star_inv).
    rewrite app_assoc. constructor; [|exact Hg]. rewrite elem_of_app. tauto.
  - intros H. exists [], s. split; [done|]. split; [apply not_elem_of_nil|exact H].
Qed.

(** A star takes up a slash-free prefix. *)
Lemma glob_star_absorb p s1 s : SLASH ∉ s1 -> glob (STAR :: p) s -> glob (STAR :: p) (s1 ++ s).
Proof.
  intros H1 (s2 & s3 & -> & H2 & Hg)%glob_star_inv. rewrite app_assoc.
  constructor; [|exact Hg]. rewrite elem_of_app. tauto.
Qed.

(** *** Chunks *)

Lemma skip_stars_spec p :
  let '(star, p') := skip_stars p in
  (forall p'', p' <> STAR :: p'') /\ (length p' <= length p)%nat /\
  (plain p -> plain p') /\
  if star then forall s, glob p s <-> glob (STAR :: p') s else p' = p.
Proof.
  induction p as [|c p IH]; simpl; [by split_and!|].
  destruct (decide (c = STAR)) as [->|Hc].
  - destruct (skip_stars p) as [star p']. destruct IH as (Hn & Hl & Hp & Hg). simpl.
    split_and!; [exact Hn|lia| |].
    + intros H. apply Forall_cons_1 in H as [_ H]. auto.
    + destruct star; [|by subst]. intros s. rewrite <- (glob_star_star p').
      rewrite !(glob_star_inv _ s). by setoid_rewrite Hg.
  - split; [|split; [reflexivity|by split]]. intros p'' [= -> _]. done.
Qed.

Lemma scan_body_spec p :
  plain p -> let '(chunk, rest) := scan_body false p in
  p = chunk ++ rest /\ literal chunk /\ starts_star rest /\ plain rest.
Proof.
  induction p as [|c p IH]; intros Hp; simpl.
  - split_and!; [done| |by left|done]. split; [constructor|apply not_elem_of_nil].
  - apply Forall_cons_1 in Hp as [(Hq & Hl & Hr & Hb) Hp]. rewrite !decide_False by assumption.
    case_bool_decide as Hs; cbn [negb andb].
    + subst. split_and!; [done| |by right; eexists|by constructor].
      split; [constructor|apply not_elem_of_nil].
    + specialize (IH Hp). destruct (scan_body false p) as [chunk rest].
      destruct IH as (-> & [Hlit Hns] & Hst & Hpr). split_and!; [done| |done|done].
      split; [by constructor|]. apply not_elem_of_cons. split; [congruence|done].
Qed.

Lemma matchChunk_fuel_failed l : forall fuel s,
  literal l -> (length l <= fuel)%nat -> matchChunk_fuel fuel true l s = NoMatch.
Proof.
  induction l as [|c l IH]; intros fuel s [Hp Hs] Hf; destruct fuel as [|fuel]; try done; simpl in Hf; [lia|].
  apply Forall_cons_1 in Hp as [(Hq & Hl & Hr & Hb) Hp]. apply not_elem_of_cons in Hs as [_ Hs].
  cbn [matchChunk_fuel orb]. rewrite !decide_False by assumption. apply IH; [done|lia].
Qed.

(** On literals [matchChunk] is the prefix test. *)
Lemma matchChunk_literal l s :
  literal l ->
  match matchChunk l s with
  | MatchRest t => s = l ++ t
  | NoMatch => forall t, s <> l ++ t
  | BadPattern => False
  end.
Proof.
  unfold matchChunk. generalize (Nat.le_refl (length l)). generalize (length l) at 2 3 as fuel.
  intros fuel. revert l s. induction fuel as [|fuel IH]; intros [|c l] s Hf Hlit; simpl in Hf; try lia; try done.
  destruct Hlit as [Hp Hs]. apply Forall_cons_1 in Hp as [(Hq & Hl & Hr & Hb) Hp].
  apply not_elem_of_cons in Hs as [_ Hs].
  cbn [matchChunk_fuel orb]. rewrite !decide_False by assumption.
  destruct s as [|d s].
  - rewrite bool_decide_true by done. rewrite matchChunk_fuel_failed; [by intros t|done|lia].
  - rewrite bool_decide_false by done. destruct (decide (c = d)) as [->|Hne].
    + rewrite bool_decide_true by done. cbn [negb].
      specialize (IH l s ltac:(lia) (conj Hp Hs)).
      destruct (matchChunk_fuel fuel false l s); [done| |by subst]. intros t [= ->]. by apply (IH t).
    + rewrite bool_decide_false by done. cbn [negb].
      rewrite matchChunk_fuel_failed; [|done|lia]. intros t [= -> _]. done.
Qed.

(** *** The star loop *)

(** [name] is slash-free bytes, then the chunk, then [t] (which is empty if the
    chunk must come last). *)
Definition leads (last : bool) (l name s1 t : list byte) : Prop :=
  name = s1 ++ l ++ t /\ (SLASH ∉ s1) /\ (last = true -> t = []).

(** The outcome of a search among the prefixes that satisfy [P]: none fits, or
    the shortest that fits. *)
Definition found (P : list byte -> Prop) (last : bool) (l name : list byte) (r : chunk_result) : Prop :=
  match r with
  | BadPattern => False
  | NoMatch => forall s1 t, P s1 -> ~ leads last l name s1 t
  | MatchRest t => exists s1, P s1 /\ leads last l name s1 t /\
      forall s1' t', P s1' -> leads last l name s1' t' -> (length s1 <= length s1')%nat
  end.

Lemma leads_cons last l c name s1 t :
  leads last l (c :: name) (c :: s1) t <-> c <> SLASH /\ leads last l name s1 t.
Proof.
  unfold leads. rewrite not_elem_of_cons. simpl. split.
  - intros ([= H] & [? ?] & ?). split; [congruence|]. done.
  - intros (? & -> & ? & ?). split; [done|]. split; [|done]. split; [congruence|done].
Qed.

Lemma leads_cons_inv last l c name x s1 t : leads last l (c :: name) (x :: s1) t -> x = c.
Proof. by intros ([= -> _] & _). Qed.

(** Trying the empty prefix first, then a search for the others. *)
Lemma found_here last l name r :
  literal l -> found (fun s1 => s1 <> []) last l name r ->
  found (fun _ => True) last l name
    (match matchChunk l name with
     | MatchRest t => if last && negb (bool_decide (t = [])) then r else MatchRest t
     | BadPattern => BadPattern
     | NoMatch => r
     end).
Proof.
  intros Hl Hr. pose proof (matchChunk_literal l name Hl) as Hm.
  assert (Hlift : (forall t, ~ leads last l name [] t) -> found (fun _ => True) last l name r).
  { intros Hno. destruct r as [| |t]; simpl in *; [done| |].
    - intros [|x s1] t _; [apply Hno|by apply Hr].
    - destruct Hr as (s1 & Hne & Hs1 & Hmin). exists s1. split_and!; [done..|].
      intros [|x s1'] t' _ H'; [by destruct (Hno t')|by apply (Hmin _ t')]. }
  destruct (matchChunk l name) as [| |t]; [done| |].
  - apply Hlift. intros t (H & _). by apply (Hm t).
  - destruct (last && negb (bool_decide (t = []))) eqn:Hlast.
    + apply Hlift. intros t' (H & _ & H'). apply andb_true_iff in Hlast as [-> Ht].
      apply negb_true_iff, bool_decide_eq_false in Ht. simpl in H. rewrite Hm in H.
      apply app_inv_head in H. subst. by apply Ht, H'.
    + exists []. split; [done|]. split; [|intros; simpl; lia]. split; [exact Hm|].
      split; [apply not_elem_of_nil|]. intros ->. simpl in Hlast.
      by apply negb_false_iff, bool_decide_eq_true in Hlast.
Qed.

Lemma star_search_found last l name :
  literal l -> found (fun s1 => s1 <> []) last l name (star_search last l name).
Proof.
  intros Hl. induction name as [|c name IH]; cbn [star_search].
  - intros [|x s1] t Hne (H & _); [done|discriminate].
  - assert (Hshift : forall r, c <> SLASH -> found (fun _ => True) last l name r ->
      found (fun s1 => s1 <> []) last l (c :: name) r).
    { intros [| |t] Hc; simpl; [done| |].
      - intros H [|x s1] t Hne Hs; [done|]. pose proof (leads_cons_inv _ _ _ _ _ _ _ Hs) as ->.
        apply leads_cons in Hs as [_ Hs]. by apply (H s1 t).
      - intros (s1 & _ & Hs1 & Hmin). exists (c :: s1). split; [done|]. split; [by apply leads_cons|].
        intros [|x s1'] t' Hne Hs; [done|]. pose proof (leads_cons_inv _ _ _ _ _ _ _ Hs) as ->.
        apply leads_cons in Hs as [_ Hs]. simpl. specialize (Hmin s1' t' I Hs). lia. }
    destruct (decide (c = SLASH)) as [->|Hc].
    + intros [|x s1] t Hne Hs; [done|]. pose proof (leads_cons_inv _ _ _ _ _ _ _ Hs) as ->.
      apply leads_cons in Hs as [Hs _]. done.
    + apply Hshift; [exact Hc|]. by apply found_here.
Qed.

(** *** Why the first place is good enough *)

(** Two places where a chunk follows a slash-free prefix: if the earlier one is
    taken instead of the later, the bytes it leaves over hold no slash. *)
Lemma earlier_place l s1 s2 t1 t2 :
  SLASH ∉ s1 -> SLASH ∉ s2 -> s1 ++ l ++ t1 = s2 ++ l ++ t2 -> (length s1 <= length s2)%nat ->
  exists g, t1 = g ++ t2 /\ SLASH ∉ g.
Proof.
  intros H1 H2 H Hle.
  assert (exists d, s2 = s1 ++ d) as [d ->].
  { exists (drop (length s1) s2). apply (f_equal (take (length s1))) in H.
    rewrite take_app_length, (take_app_le s2) in H by lia.
    rewrite H at 1. symmetry. apply take_drop. }
  rewrite <- app_assoc in H. apply app_inv_head in H. clear Hle.
  rewrite elem_of_app in H2. assert (Hd : SLASH ∉ d) by tauto. clear H1 H2 s1.
  destruct (decide (SLASH ∈ l)) as [Hin|Hnot].
  - (* the first slash fixes the place *)
    apply list_elem_of_split_l in Hin as (a & b' & -> & Ha). rewrite <- !app_assoc in H. simpl in H.
    assert (length a = length (d ++ a)) as Hlen.
    { assert (Hu : forall x y x' y', SLASH ∉ x -> SLASH ∉ x' ->
        x ++ SLASH :: y = x' ++ SLASH :: y' -> x = x').
      { intros x. induction x as [|e x IH]; intros y [|e' x'] y' Hx Hx' E; simpl in E; [done| | |].
        - injection E as E _. destruct Hx'. subst. by left.
        - injection E as E _. destruct Hx. subst. by left.
        - injection E as -> E. f_equal. apply not_elem_of_cons in Hx as [_ Hx].
          apply not_elem_of_cons in Hx' as [_ Hx']. eauto. }
      f_equal. eapply (Hu a _ (d ++ a)); [exact Ha|rewrite elem_of_app; tauto|].
      rewrite <- app_assoc. exact H. }
    rewrite length_app in Hlen. destruct d; [|simpl in Hlen; lia].
    simpl in H. apply app_inv_head in H. injection H as H. apply app_inv_head in H. subst.
    exists []. split; [done|apply not_elem_of_nil].
  - (* nothing before the end of the later place is a slash *)
    rewrite app_assoc in H. assert (Hdl : SLASH ∉ d ++ l) by (rewrite elem_of_app; tauto).
    exists (drop (length l) (d ++ l)). split.
    + apply (f_equal (drop (length l))) in H. rewrite drop_app_length in H.
      rewrite H, drop_app_le by (rewrite length_app; lia). done.
    + intros Hg. apply Hdl. rewrite <- (take_drop (length l) (d ++ l)). apply elem_of_app. by right.
Qed.

(** *** The matcher *)

Lemma scanChunk_spec p :
  plain p ->
  let '(star, chunk, rest) := scanChunk p in
  literal chunk /\ starts_star rest /\ plain rest /\
  (chunk = [] -> rest = []) /\ (p <> [] -> (length rest < length p)%nat) /\
  forall s, glob p s <-> if star then glob (STAR :: chunk ++ rest) s else glob (chunk ++ rest) s.
Proof.
  intros Hp. unfold scanChunk. pose proof (skip_stars_spec p) as Hs.
  destruct (skip_stars p) as [star p'] eqn:Es. destruct Hs as (Hn & Hlen & Hpp & Hg).
  pose proof (scan_body_spec p' (Hpp Hp)) as Hb. destruct (scan_body false p') as [chunk rest].
  destruct Hb as (-> & Hlit & Hst & Hpr). split_and!; try done.
  - intros ->. destruct Hst as [->|[p'' ->]]; [done|]. by destruct (Hn p'').
  - intros Hne. rewrite length_app in Hlen. destruct chunk as [|c chunk]; [|simpl in Hlen; lia].
    destruct Hst as [->|[p'' ->]]; [|by destruct (Hn p'')]. destruct p; [done|simpl; lia].
  - intros s. destruct star; [apply Hg|by rewrite Hg].
Qed.

Lemma rest_ok_plain fuel : forall p, plain p -> rest_ok fuel p = true.
Proof.
  induction fuel as [|fuel IH]; intros [|c p] Hp; try done. cbn [rest_ok].
  pose proof (scanChunk_spec (c :: p) Hp) as Hs. destruct (scanChunk (c :: p)) as [[star chunk] rest].
  destruct Hs as (Hlit & _ & Hpr & _). pose proof (matchChunk_literal chunk [] Hlit).
  destruct (matchChunk chunk []); [done|by apply IH..].
Qed.

Lemma contains_byte s c : contains s [c] = true <-> c ∈ s.
Proof.
  split.
  - intros H. destruct (decide (c ∈ s)) as [|Hn]; [done|]. unfold contains in H. by rewrite cut_at_none in H.
  - intros (l & r & ->)%list_elem_of_split. apply (contains_app l [c] r).
Qed.

(** The meaning of a star followed by a chunk, in terms of the first place. *)
Lemma glob_first_place chunk rest name t s1 :
  literal chunk -> starts_star rest ->
  leads (bool_decide (rest = [])) chunk name s1 t ->
  (forall s1' t', leads (bool_decide (rest = [])) chunk name s1' t' -> (length s1 <= length s1')%nat) ->
  glob (STAR :: chunk ++ rest) name <-> glob rest t.
Proof.
  intros [_ Hns] Hst (-> & Hs1 & Hlast) Hmin. split.
  - intros (s2 & s3 & E & Hs2 & (t2 & -> & Hg)%glob_literal)%glob_star_inv; [|exact Hns].
    assert (Hl : leads (bool_decide (rest = [])) chunk (s1 ++ chunk ++ t) s2 t2).
    { split; [exact E|]. split; [exact Hs2|]. intros ->%bool_decide_eq_true. by inversion Hg. }
    destruct (earlier_place chunk s1 s2 t t2 Hs1 Hs2 E (Hmin _ _ Hl)) as (g & -> & Hg').
    destruct Hst as [->|[p' ->]]; [|by apply glob_star_absorb].
    rewrite bool_decide_true in Hlast by done. rewrite Hlast by done. constructor.
  - intros Hg. constructor; [exact Hs1|]. apply glob_literal; eauto.
Qed.

(** What the loop of [Match] does with a chunk that a star precedes, the rest
    being matched by [k]. *)
Definition star_turn (k : list byte -> option bool) (last : bool) (chunk name : list byte) : option bool :=
  let skip :=
    match star_search last chunk name with
    | MatchRest t => k t
    | BadPattern => None
    | NoMatch => Some false
    end in
  match matchChunk chunk name with
  | MatchRest t => if bool_decide (t = []) || negb last then k t else skip
  | BadPattern => None
  | NoMatch => skip
  end.

(** And with one at the front of the pattern. *)
Definition front_turn (k : list byte -> option bool) (last : bool) (chunk name : list byte) : option bool :=
  match matchChunk chunk name with
  | MatchRest t => if bool_decide (t = []) || negb last then k t else Some false
  | BadPattern => None
  | NoMatch => Some false
  end.

(** [k] decides what the pattern [p] matches. *)
Definition decides (k : list byte -> option bool) (p : list byte) : Prop :=
  forall t, exists m, k t = Some m /\ (m = true <-> glob p t).

Lemma star_turn_decides k chunk rest :
  literal chunk -> starts_star rest -> decides k rest ->
  decides (star_turn k (bool_decide (rest = [])) chunk) (STAR :: chunk ++ rest).
Proof.
  intros Hlit Hst Hk name. set (last := bool_decide (rest = [])).
  pose proof (found_here _ chunk name _ Hlit (star_search_found last chunk name Hlit)) as Hfound.
  assert (Hcase : exists r, found (fun _ => True) last chunk name r /\
    star_turn k last chunk name =
      match r with MatchRest t => k t | BadPattern => None | NoMatch => Some false end).
  { eexists. split; [exact Hfound|]. unfold star_turn.
    destruct (matchChunk chunk name) as [| |t]; [done..|]. unfold last. by repeat case_bool_decide. }
  clear Hfound. destruct Hcase as (r & Hfound & ->). destruct r as [| |t]; [done| |].
  - eexists. split; [reflexivity|]. split; [done|].
    intros (s1 & s2 & -> & Hs1 & (t & -> & Hgt)%glob_literal)%glob_star_inv; [|by destruct Hlit].
    destruct (Hfound s1 t I). split; [done|]. split; [done|].
    intros ->%bool_decide_eq_true. by inversion Hgt.
  - destruct Hfound as (s1 & _ & Hl & Hmin).
    setoid_rewrite (glob_first_place chunk rest name t s1 Hlit Hst Hl
      (fun s1' t' => Hmin s1' t' I)). apply Hk.
Qed.

Lemma front_turn_decides k chunk rest :
  literal chunk -> decides k rest ->
  decides (front_turn k (bool_decide (rest = [])) chunk) (chunk ++ rest).
Proof.
  intros Hlit Hk name. unfold front_turn. pose proof (matchChunk_literal chunk name Hlit) as Hm.
  destruct (matchChunk chunk name) as [| |t]; [done| |].
  - eexists. split; [reflexivity|]. split; [done|].
    intros (t & -> & _)%glob_literal; [|by destruct Hlit]. by destruct (Hm t).
  - subst name. assert (Hgt : glob (chunk ++ rest) (chunk ++ t) <-> glob rest t).
    { rewrite glob_literal by by destruct Hlit. split; [|eauto]. by intros (t' & ->%app_inv_head & ?). }
    setoid_rewrite Hgt. destruct (bool_decide (t = []) || negb (bool_decide (rest = []))) eqn:E; [by apply Hk|].
    apply orb_false_iff in E as [Ht Hr]. apply bool_decide_eq_false in Ht.
    apply negb_false_iff, bool_decide_eq_true in Hr. subst rest.
    eexists. split; [reflexivity|]. split; [done|]. intros Hn. by inversion Hn.
Qed.

(** A star at the end matches what holds no slash. *)
Lemma last_star_decides : decides (fun name => Some (negb (contains name [SLASH]))) [STAR].
Proof.
  intros name. eexists. split; [reflexivity|].
  rewrite negb_true_iff, <- not_true_iff_false, contains_byte. split.
  - intros Hno. rewrite <- (app_nil_r name). constructor; [exact Hno|constructor].
  - intros (s1 & s2 & -> & Hno & Hnil)%glob_star_inv. inversion Hnil. by rewrite app_nil_r.
Qed.

(** One turn of the loop on a plain pattern. *)
Lemma Match_fuel_step fuel pat name :
  plain pat -> pat <> [] ->
  let '(star, chunk, rest) := scanChunk pat in
  Match_fuel (S fuel) pat name =
  (if star && bool_decide (chunk = []) then Some (negb (contains name [SLASH]))
   else (if star then star_turn else front_turn) (Match_fuel fuel rest) (bool_decide (rest = [])) chunk name).
Proof.
  intros Hp Hne. pose proof (scanChunk_spec pat Hp) as Hs. destruct pat as [|c p]; [done|].
  cbn [Match_fuel]. destruct (scanChunk (c :: p)) as [[star chunk] rest].
  destruct Hs as (_ & _ & Hpr & _). rewrite rest_ok_plain by exact Hpr. by destruct star.
Qed.

Lemma Match_fuel_plain fuel : forall p,
  plain p -> (length p <= fuel)%nat -> decides (Match_fuel fuel p) p.
Proof.
  assert (Hnil : forall fuel, decides (Match_fuel fuel []) []).
  { intros f name. exists (bool_decide (name = [])). split; [by destruct f|].
    rewrite bool_decide_eq_true. split; [intros ->; constructor|by inversion 1]. }
  induction fuel as [|fuel IH]; intros p Hp Hf; (destruct (decide (p = [])) as [->|Hne]; [apply Hnil|]).
  { destruct p; [done|simpl in Hf; lia]. }
  intros name. pose proof (Match_fuel_step fuel p name Hp Hne) as Hstep.
  pose proof (scanChunk_spec p Hp) as Hs. destruct (scanChunk p) as [[star chunk] rest].
  destruct Hs as (Hlit & Hst & Hpr & Hempty & Hlen & Hg). specialize (Hlen Hne).
  rewrite Hstep. setoid_rewrite Hg. pose proof (IH rest Hpr ltac:(lia)) as Hrest.
  destruct star; cbn [andb]; [|by apply front_turn_decides].
  case_bool_decide as Hc; [|by apply star_turn_decides].
  subst chunk. rewrite (Hempty eq_refl). apply last_star_decides.
Qed.

(** [Match] decides the meaning of a pattern of literals and stars, without an
    error: trying the first place of each chunk loses nothing, since a star
    cannot be crossed by a slash. *)
Lemma Match_plain (pattern name : string) :
  plain (bytes_of pattern) ->
  exists m, Match pattern name = Some m /\ (m = true <-> glob (bytes_of pattern) (bytes_of name)).
Proof. intros Hp. by apply Match_fuel_plain. Qed.

