(* ===== verification/Core.v ===== *)
(** * Package core

    The events that flow from the sensors to the output and the rule engine
    ([internal/core/event.go]), the alerts ([alert.go]) and the container
    descriptions ([containerinfo.go]).  A [*ContainerInfo] is an [option]: the
    resolver builds each description once and nothing writes through it. *)

From S2P Require Import Prelude.

Record ContainerInfo := {
  CI_ID : string;
  CI_Name : string;
  CI_Image : string
}.

Record Event := {
  EventType : string;
  Timestamp : Z;
  SrcContainer : option ContainerInfo;
  SrcProcessName : string;
  SrcPID : Z;
  SrcCgroupID : Z;
  SrcAddr : string;
  SrcPort : Z;
  DstContainer : option ContainerInfo;
  DstProcessName : string;
  DstPID : Z;
  DstCgroupID : Z;
  DstAddr : string;
  DstPort : Z;
  FilePath : string;
  FileOp : string;
  ExecPath : string;
  ParentPID : Z;
  ParentProcessName : string
}.

(** [core.Event{}]: every field at Go's zero value ([time_zero] for the time). *)
Definition zero_event (t0 : Z) : Event := {|
  EventType := ""; Timestamp := t0;
  SrcContainer := None; SrcProcessName := ""; SrcPID := 0; SrcCgroupID := 0;
  SrcAddr := ""; SrcPort := 0;
  DstContainer := None; DstProcessName := ""; DstPID := 0; DstCgroupID := 0;
  DstAddr := ""; DstPort := 0;
  FilePath := ""; FileOp := ""; ExecPath := ""; ParentPID := 0; ParentProcessName := ""
|}.

Record Alert := {
  AlertTimestamp : Z;
  RuleName : string;
  Severity : string;
  Description : string;
  AlertSrcContainer : option ContainerInfo;
  AlertDstContainer : option ContainerInfo
}.

#[export] Instance ContainerInfo_eq_dec : EqDecision ContainerInfo.
Proof. solve_decision. Defined.
#[export] Instance Event_eq_dec : EqDecision Event.
Proof. solve_decision. Defined.
#[export] Instance Alert_eq_dec : EqDecision Alert.
Proof. solve_decision. Defined.
