(* ===== verification/Helpers.v ===== *)
(** * Package helpers

    [NullTermStr] and [OpenFlagsToOp] ([internal/helpers/string.go]),
    [BytesToIPv4] ([network.go]), and the clock conversions with the
    initialisation of [bootTime] ([time.go]). *)

From S2P Require Import Prelude.
From S2P Require Import Bytes.
From S2P Require Import GoLib.

Open Scope Z_scope.

(** The loop of [NullTermStr] over [i, c := range b]: [pre] is [b[:i]]. *)
Fixpoint null_term_loop (pre bs : list byte) : list byte :=
  match bs with
  | [] => pre
  | c :: bs => if byte_val c =? 0 then pre else null_term_loop (pre ++ [c]) bs
  end.

Definition NullTermStr (bs : list byte) : string := of_bytes (null_term_loop [] bs).

Definition O_WRONLY : Z := 1.
Definition O_RDWR : Z := 2.
Definition O_CREAT : Z := 64.

Definition OpenFlagsToOp (flags : Z) : string :=
  if negb (Z.land flags (Z.lor (Z.lor O_WRONLY O_RDWR) O_CREAT) =? 0)
  then "write"%string else "read"%string.

(** [net.IP.String] of a 4-byte address. *)
Definition ip_string (ip : list byte) : string :=
  join "." (map (fun c => decimal (byte_val c)) ip).

Definition BytesToIPv4 (data : Z) : string :=
  let ip := le_encode 4 data in
  ip_string ip.

Definition TimeFromNano (nano : Z) : Z := time_unix 0 (to_duration nano).

Section BootTime.
(** [bootTime], the package's variable. *)
Variable bootTime : Z.

Definition KTimeToTime (ktime : Z) : Z := time_add bootTime (to_duration ktime).

(** For 292 years after boot. *)
Lemma KTimeToTime_small t : 0 <= t < 2 ^ 63 -> KTimeToTime t = bootTime + t.
Proof.
  intros H. unfold KTimeToTime, time_add, to_duration, swrap. rewrite Z.mod_small by lia. lia.
Qed.
End BootTime.

(** [strings.Fields]: the maximal runs without white space. [acc] is the field
    being read, reversed. *)
Fixpoint fields_fuel (fuel : nat) (acc s : list byte) : list (list byte) :=
  let flush := match acc with [] => [] | _ => [rev acc] end in
  match fuel with
  | O => flush
  | S fuel =>
      match strip_any space_seqs s with
      | Some r => flush ++ fields_fuel fuel [] r
      | None =>
          match s with
          | [] => flush
          | c :: s => fields_fuel fuel (c :: acc) s
          end
      end
  end.
Definition fields (s : list byte) : list (list byte) := fields_fuel (S (length s)) [] s.

(** The value [strconv.ParseUint(s, 10, 64)] returns beside its error. *)
Definition parse_uint_value (s : list byte) : Z :=
  match parse_uint 64 s with
  | inl v => v
  | inr ErrRange => 2 ^ 64 - 1
  | inr ErrSyntax => 0
  end.

(** The loop of [init] over the lines of /proc/stat. *)
Fixpoint boot_time_lines (lines : list (list byte)) : go Z :=
  match lines with
  | [] => Ret time_zero
  | line :: lines =>
      if has_prefix line (bytes_of "btime ") then
        match fields line with
        | _ :: f1 :: _ => Ret (time_unix (swrap 64 (parse_uint_value f1)) 0)
        | _ => Panic IndexOutOfRange
        end
      else boot_time_lines lines
  end.

(** [init]: [stat] is the contents of /proc/stat, [None] when it cannot be
    read; [now] is [time.Now()]. *)
Definition init_bootTime (stat : option (list byte)) (now : Z) : go Z :=
  match stat with
  | None => Ret now
  | Some data => boot_time_lines (split_on (b 10) data)
  end.

(** ** Properties *)

Lemma null_term_loop_spec bs : forall pre, null_term_loop pre bs = pre ++ until_nul bs.
Proof.
  induction bs as [|c bs IH]; intros pre; simpl; [by rewrite app_nil_r|].
  destruct (decide (c = NUL)) as [->|Hne].
  - simpl. by rewrite app_nil_r.
  - destruct (Z.eqb_spec (byte_val c) 0) as [Hz|_].
    + destruct Hne. rewrite <- (byte_of_val c), Hz. reflexivity.
    + rewrite IH. by rewrite <- app_assoc.
Qed.

(** [NullTermStr] keeps the bytes before the first NUL, all of them if there
    is none. *)
Theorem NullTermStr_until_nul bs : bytes_of (NullTermStr bs) = until_nul bs.
Proof. unfold NullTermStr. rewrite bytes_of_of, null_term_loop_spec. reflexivity. Qed.

Lemma NullTermStr_eq bs bs' :
  until_nul bs = until_nul bs' -> NullTermStr bs = NullTermStr bs'.
Proof. intros H. apply (inj bytes_of). by rewrite !NullTermStr_until_nul. Qed.

(** [OpenFlagsToOp] says "write" exactly when a write-access or creation flag
    is among the flags. *)
Theorem OpenFlagsToOp_write flags :
  OpenFlagsToOp flags = "write"%string <->
  Z.testbit flags 0 = true \/ Z.testbit flags 1 = true \/ Z.testbit flags 6 = true.
Proof.
  unfold OpenFlagsToOp. change (Z.lor (Z.lor O_WRONLY O_RDWR) O_CREAT) with 67.
  assert (Hbit : forall i, Z.testbit (Z.land flags 67) i =
            Z.testbit flags i && Z.testbit 67 i) by (intros; apply Z.land_spec).
  destruct (Z.eqb_spec (Z.land flags 67) 0) as [H0|Hne]; cbn [negb].
  - split; [discriminate|]. rewrite H0 in Hbit.
    intros [H|[H|H]]; [specialize (Hbit 0)|specialize (Hbit 1)|specialize (Hbit 6)];
      rewrite H in Hbit; discriminate Hbit.
  - split; [intros _|reflexivity].
    destruct (Z.testbit flags 0) eqn:B0, (Z.testbit flags 1) eqn:B1,
      (Z.testbit flags 6) eqn:B6; auto.
    destruct Hne. apply Z.bits_inj_0. intros i. rewrite Hbit.
    destruct (decide (i = 0)) as [->|]; [by rewrite B0|].
    destruct (decide (i = 1)) as [->|]; [by rewrite B1|].
    destruct (decide (i = 6)) as [->|]; [by rewrite B6|].
    assert (Z.testbit 67 i = false) as ->; [|apply andb_false_r].
    destruct (Z.ltb_spec i 0); [by apply Z.testbit_neg_r|].
    destruct (Z.ltb_spec i 7); [|by apply Z.bits_above_log2; simpl; lia].
    assert (i = 2 \/ i = 3 \/ i = 4 \/ i = 5) as [-> | [-> | [-> | -> ]]] by lia; reflexivity.
Qed.

(** The dotted text of an address determines the address. *)
Theorem BytesToIPv4_inj a1 a2 :
  in_u 32 a1 -> in_u 32 a2 -> BytesToIPv4 a1 = BytesToIPv4 a2 -> a1 = a2.
Proof.
  intros H1 H2 H. unfold BytesToIPv4, ip_string in H.
  assert (Hdot : forall a, Forall (fun p => "."%char ∉ bytes_of p)
            (map (fun c => decimal (byte_val c)) (le_encode 4 a))).
  { intros a. apply Forall_map, Forall_true. intros c.
    apply decimal_no; [apply byte_val_range|reflexivity]. }
  apply (join_inj "."%char) in H; [|apply Hdot..|done|done].
  apply map_injective in H.
  - apply (f_equal le_decode) in H. by rewrite !le_decode_encode_small in H.
  - intros c c' Hc. apply decimal_inj in Hc;
      [|unfold in_u; pose proof (byte_val_range c); lia
       |unfold in_u; pose proof (byte_val_range c'); lia].
    rewrite <- (byte_of_val c), Hc. apply byte_of_val.
Qed.

Lemma BytesToIPv4_inj_witness :
  BytesToIPv4 33554442 = "10.0.0.2"%string /\ 33554442 = 33554442.
Proof.
  split; [vm_compute; reflexivity|].
  apply BytesToIPv4_inj; [by vm_compute|by vm_compute|reflexivity].
Defined.

(** ** The boot time *)

(** A field: bytes that begin no white space. *)
Definition wordy (w : list byte) : Prop := Forall (fun c => begins_none space_seqs c = true) w.

Lemma fields_fuel_word w : forall fuel acc rest,
  wordy w -> (length w <= fuel)%nat ->
  fields_fuel fuel acc (w ++ rest) = fields_fuel (fuel - length w) (rev w ++ acc) rest.
Proof.
  induction w as [|c w IH]; intros fuel acc rest Hw Hf; simpl in *; [by rewrite Nat.sub_0_r|].
  apply Forall_cons_1 in Hw as [Hc Hw]. destruct fuel as [|fuel]; [lia|].
  assert (Hstep : fields_fuel (S fuel) acc (c :: w ++ rest) = fields_fuel fuel (c :: acc) (w ++ rest))
    by (cbn [fields_fuel]; by rewrite strip_any_none).
  rewrite Hstep, IH by (assumption || lia). simpl. by rewrite <- app_assoc.
Qed.

Lemma fields_two w1 w2 :
  wordy w1 -> wordy w2 -> w1 <> [] -> w2 <> [] -> fields (w1 ++ b 32 :: w2) = [w1; w2].
Proof.
  intros H1 H2 N1 N2. unfold fields. rewrite fields_fuel_word by (assumption || (rewrite length_app; lia)).
  rewrite app_nil_r, length_app. simpl length.
  replace (S (length w1 + S (length w2)) - length w1)%nat with (S (S (length w2))) by lia.
  assert (Hsp : forall f acc s, fields_fuel (S f) acc (b 32 :: s) =
    match acc with [] => [] | _ => [rev acc] end ++ fields_fuel f [] s) by reflexivity.
  rewrite Hsp.
  assert (Hacc : forall w : list byte, w <> [] -> match rev w with [] => [] | _ => [rev (rev w)] end = [w]).
  { intros w Hw. destruct (rev w) eqn:E; [|by rewrite <- E, rev_involutive].
    apply (f_equal (@rev byte)) in E. rewrite rev_involutive in E. done. }
  rewrite (Hacc w1 N1).
  pose proof (fields_fuel_word w2 (S (length w2)) [] [] H2 ltac:(lia)) as Hlast.
  rewrite !app_nil_r in Hlast. rewrite Hlast.
  replace (S (length w2) - length w2)%nat with 1%nat by lia.
  change (fields_fuel 1 (rev w2) []) with (match rev w2 with [] => [] | _ => [rev (rev w2)] end).
  by rewrite (Hacc w2 N2).
Qed.

Lemma digits_wordy w : Forall is_digit w -> wordy w.
Proof.
  intros H. eapply Forall_impl; [exact H|]. intros c [d Hd].
  assert (begins_none space_seqs c || negb (bool_decide (is_Some (digit_val c))) = true) as Hall.
  { destruct c as [[] [] [] [] [] [] [] []]; vm_compute; reflexivity. }
  apply orb_true_iff in Hall as [|Hn]; [done|].
  rewrite bool_decide_true in Hn by by eexists. done.
Qed.

Lemma digits_nonempty v : 0 <= v -> bytes_of (decimal v) <> [].
Proof.
  intros Hv H. pose proof (decimal_unfold v Hv) as Hd. rewrite Hd in H. clear Hd.
  case_decide; [discriminate|].
  assert (Hne : forall x s, (0 < x)%N -> bytes_of (pretty_N_go x s) <> []).
  { intros x s Hx. revert x Hx s. apply (decimal_ind (fun x => forall s, bytes_of (pretty_N_go x s) <> [])).
    - intros x Hx s. by rewrite pretty_go_small.
    - intros x Hx IH s. rewrite pretty_go_step by lia. apply IH. }
  by apply (Hne (Z.to_N v) EmptyString ltac:(lia)).
Qed.

(** (C39) [init] finds the boot time: the seconds of the first line of /proc/stat
    that begins with "btime ", wherever it stands. *)
Theorem init_bootTime_btime (before : list (list byte)) (secs now : Z) (after : list byte) :
  Forall (fun l => (b 10 ∉ l) /\ has_prefix l (bytes_of "btime ") = false) before ->
  0 <= secs < 2 ^ 63 ->
  init_bootTime
    (Some (concat (map (fun l => l ++ [b 10]) before) ++
           bytes_of "btime " ++ bytes_of (decimal secs) ++ b 10 :: after)) now
  = Ret (secs * Second).
Proof.
  intros Hb Hs. unfold init_bootTime. induction Hb as [|l ls [Hl Hp] _ IH]; simpl concat.
  - cbn [app]. rewrite app_assoc, split_on_app.
    + cbn [boot_time_lines]. rewrite has_prefix_app.
      change (bytes_of "btime ") with (bytes_of "btime" ++ [b 32]). rewrite <- app_assoc.
      change ([b 32] ++ bytes_of (decimal secs)) with (b 32 :: bytes_of (decimal secs)).
      rewrite fields_two; [| |apply digits_wordy, decimal_digits; lia|done|apply digits_nonempty; lia].
      * unfold parse_uint_value. rewrite parse_uint_decimal by lia.
        unfold time_unix, swrap. rewrite Z.mod_small by lia. f_equal. lia.
      * repeat (constructor; [reflexivity|]). constructor.
    + rewrite elem_of_app. intros [H|H]; [|by apply decimal_no in H; [|lia|reflexivity]].
      by apply (bool_decide_eq_true (b 10 ∈ bytes_of "btime ")) in H.
  - rewrite <- app_assoc. change ([b 10] ++ ?x) with (b 10 :: x).
    rewrite <- !app_assoc. cbn [app]. rewrite split_on_app by exact Hl.
    cbn [boot_time_lines]. rewrite Hp. exact IH.
Qed.

Lemma init_bootTime_btime_witness :
  init_bootTime (Some (bytes_of "cpu 1 2" ++ [b 10] ++ bytes_of "btime 1700000000" ++ [b 10])) 5
  = Ret (1700000000 * Second).
Proof.
  refine (init_bootTime_btime [bytes_of "cpu 1 2"] 1700000000 5 [] _ _); [|lia].
  constructor; [|constructor]. split; [by apply (bool_decide_unpack _); vm_compute|reflexivity].
Defined.
