(* ===== verification/Channel.v ===== *)
(** * Go channels

    A buffered channel is its capacity, the values waiting in it and whether it
    has been closed.  Sending on a full channel blocks, sending on a closed one
    panics; receiving from a closed channel first drains it. *)

From S2P Require Import Prelude.

Record chan (A : Type) := Chan {
  ch_cap : nat;
  ch_buf : list A;
  ch_closed : bool
}.
Arguments Chan {A} _ _ _.
Arguments ch_cap {A} _.
Arguments ch_buf {A} _.
Arguments ch_closed {A} _.

(** [make(chan A, cap)]. *)
Definition make_chan {A} (cap : nat) : chan A := Chan cap [] false.

(** [c <- v]: [Ret None] while it blocks. *)
Definition ch_send {A} (c : chan A) (v : A) : go (option (chan A)) :=
  if ch_closed c then Panic SendOnClosed
  else if (length (ch_buf c) <? ch_cap c)%nat
  then Ret (Some (Chan (ch_cap c) (ch_buf c ++ [v]) false))
  else Ret None.

(** [close(c)]. *)
Definition ch_close {A} (c : chan A) : go (chan A) :=
  if ch_closed c then Panic CloseClosed else Ret (Chan (ch_cap c) (ch_buf c) true).

(** [v, ok := <-c]. *)
Inductive received (A : Type) :=
| RecvBlocks
| RecvClosed
| RecvValue (v : A) (c : chan A).
Arguments RecvBlocks {A}.
Arguments RecvClosed {A}.
Arguments RecvValue {A} v c.

Definition ch_recv {A} (c : chan A) : received A :=
  match ch_buf c with
  | v :: buf => RecvValue v (Chan (ch_cap c) buf (ch_closed c))
  | [] => if ch_closed c then RecvClosed else RecvBlocks
  end.

Definition chan_ok {A} (c : chan A) : Prop := (length (ch_buf c) <= ch_cap c)%nat.

Lemma ch_recv_value {A} (c c' : chan A) v :
  ch_recv c = RecvValue v c' -> ch_buf c = v :: ch_buf c' /\ (chan_ok c -> chan_ok c').
Proof.
  unfold ch_recv, chan_ok. destruct (ch_buf c) eqn:E; [by destruct (ch_closed c)|].
  intros [= -> <-]. simpl. split; [done|]. lia.
Qed.

Lemma ch_send_open {A} (c : chan A) v : ch_closed c = false ->
  exists r, ch_send c v = Ret r /\ forall c', r = Some c' -> ch_closed c' = false.
Proof.
  intros H. unfold ch_send. rewrite H. destruct (_ <? _)%nat; eexists; (split; [done|]); by intros c' [= <-].
Qed.

Lemma ch_recv_open {A} (c : chan A) : ch_closed c = false ->
  match ch_recv c with
  | RecvValue _ c' => ch_closed c' = false | RecvClosed => False | RecvBlocks => True
  end.
Proof. intros H. unfold ch_recv. destruct (ch_buf c); simpl; by rewrite H. Qed.

Lemma make_chan_ok {A} cap : chan_ok (@make_chan A cap).
Proof. unfold chan_ok. simpl. lia. Qed.

Lemma ch_send_ok {A} (c c' : chan A) v :
  chan_ok c -> ch_send c v = Ret (Some c') ->
  chan_ok c' /\ ch_buf c' = ch_buf c ++ [v] /\ ch_cap c' = ch_cap c /\ ch_closed c' = false.
Proof.
  unfold chan_ok, ch_send. intros Hok. destruct (ch_closed c); [discriminate|].
  destruct (Nat.ltb_spec (length (ch_buf c)) (ch_cap c)); [|discriminate].
  intros H'. injection H' as <-. simpl. rewrite length_app. simpl. split_and!; auto; lia.
Qed.

Lemma ch_send_room {A} (c : chan A) v :
  ch_closed c = false -> (length (ch_buf c) < ch_cap c)%nat ->
  ch_send c v = Ret (Some (Chan (ch_cap c) (ch_buf c ++ [v]) false)).
Proof. intros Hc Hr. unfold ch_send. rewrite Hc. by apply Nat.ltb_lt in Hr as ->. Qed.

Lemma ch_send_blocks {A} (c : chan A) v :
  chan_ok c -> ch_send c v = Ret None <-> ch_closed c = false /\ length (ch_buf c) = ch_cap c.
Proof.
  unfold chan_ok, ch_send. intros Hok. destruct (ch_closed c); [split; [discriminate|intros [? _]; discriminate]|].
  destruct (Nat.ltb_spec (length (ch_buf c)) (ch_cap c)).
  - split; [discriminate|]. intros [_ ?]. lia.
  - split; [intros _; split; [reflexivity|lia]|reflexivity].
Qed.

(** Room for [n] more values. *)
Definition room {A} (n : nat) (c : chan A) : Prop :=
  ch_closed c = false /\ (length (ch_buf c) + n <= ch_cap c)%nat.

Lemma room_chan_ok {A} n (c : chan A) : room n c -> chan_ok c.
Proof. unfold room, chan_ok. lia. Qed.

Lemma room_le {A} n m (c : chan A) : (m <= n)%nat -> room n c -> room m c.
Proof. unfold room. intros ? [? ?]. split; [done|lia]. Qed.

Lemma room_send {A} n (c : chan A) v :
  room (S n) c -> exists c', ch_send c v = Ret (Some c') /\ room n c' /\ ch_buf c' = ch_buf c ++ [v].
Proof.
  intros [Ho Hl]. rewrite ch_send_room by (done || lia). eexists. split; [done|].
  split; [|done]. split; [done|]. simpl. rewrite length_app. simpl. lia.
Qed.

#[export] Hint Resolve make_chan_ok : core.
