(* ===== verification/Correlator.v ===== *)
(** * The connection correlator

    [internal/correlator/correlator.go]: a connect seen on one side is kept
    under its address quadruple until the accept with the mirrored quadruple is
    seen on the other side, or until it times out.  Each handler runs under the
    mutex, so it is one step; [HandleAccept] may block on the output channel. *)

From S2P Require Import Prelude.
From S2P Require Import Bytes.
From S2P Require Import GoLib.
From S2P Require Import Channel.
From S2P Require Import Core.
From S2P Require Import Helpers.

Open Scope Z_scope.

Record IncompleteConnection := {
  IC_SrcAddr : Z;
  IC_SrcPort : Z;
  IC_DstAddr : Z;
  IC_DstPort : Z
}.

#[export] Instance IncompleteConnection_eq_dec : EqDecision IncompleteConnection.
Proof. solve_decision. Defined.

#[export] Instance IncompleteConnection_countable : Countable IncompleteConnection.
Proof.
  refine (inj_countable'
    (fun c => (IC_SrcAddr c, IC_SrcPort c, IC_DstAddr c, IC_DstPort c))
    (fun '(a, p, a', p') => {| IC_SrcAddr := a; IC_SrcPort := p; IC_DstAddr := a'; IC_DstPort := p' |}) _).
  by intros [].
Defined.

Record PendingConnectionEntry := {
  PE_Timestamp : Z;
  PE_SrcCgroupID : Z;
  PE_SrcPID : Z;
  PE_SrcProcessName : string
}.

Record Correlator := {
  pending : gmap IncompleteConnection PendingConnectionEntry;
  timeout : Z;
  output : chan Event
}.

(** [New], without the goroutine it starts ([Cleanup]). *)
Definition NewCorrelator (t : Z) : Correlator :=
  {| pending := ∅; timeout := t; output := make_chan 1024 |}.

(** [Close]; the channel field is never nil. *)
Definition CloseCorrelator (c : Correlator) : go Correlator :=
  o ← ch_close (output c);
  Ret {| pending := pending c; timeout := timeout c; output := o |}.

Definition with_pending (c : Correlator) m :=
  {| pending := m; timeout := timeout c; output := output c |}.

(** The loop of one tick of [Cleanup], over an enumeration of the map, which
    Go makes in an unspecified order. *)
Fixpoint cleanup_loop (now t : Z) (entries : list (IncompleteConnection * PendingConnectionEntry))
    (m : gmap IncompleteConnection PendingConnectionEntry)
    : gmap IncompleteConnection PendingConnectionEntry :=
  match entries with
  | [] => m
  | (key, entry) :: entries =>
      let m := if time_sub now (PE_Timestamp entry) >? t then delete key m else m in
      cleanup_loop now t entries m
  end.

(** One tick at time [now], the map being enumerated as [entries]. *)
Definition Cleanup_tick (now : Z) (entries : list (IncompleteConnection * PendingConnectionEntry))
    (c : Correlator) : Correlator :=
  with_pending c (cleanup_loop now (timeout c) entries (pending c)).

Section Handlers.
Variable bootTime : Z.

Definition connect_entry (cgroupID pid : Z) (comm : list byte) (timestamp : Z)
    : PendingConnectionEntry := {|
  PE_Timestamp := KTimeToTime bootTime timestamp;
  PE_SrcCgroupID := cgroupID;
  PE_SrcPID := pid;
  PE_SrcProcessName := NullTermStr comm
|}.

Definition HandleConnect (c : Correlator) (srcAddr srcPort dstAddr dstPort : Z)
    (cgroupID pid : Z) (comm : list byte) (timestamp : Z) : Correlator :=
  let conn := {| IC_SrcAddr := srcAddr; IC_SrcPort := srcPort;
                 IC_DstAddr := dstAddr; IC_DstPort := dstPort |} in
  with_pending c (<[conn := connect_entry cgroupID pid comm timestamp]> (pending c)).
End Handlers.

(** The event a matched pair makes; the fields not named keep their zero values. *)
Definition connection_event (entry : PendingConnectionEntry)
    (localAddr localPort remoteAddr remotePort : Z) (cgroupID pid : Z) (comm : list byte)
    : Event := {|
  EventType := "connection";
  Timestamp := PE_Timestamp entry;
  SrcContainer := None;
  SrcProcessName := PE_SrcProcessName entry;
  SrcPID := PE_SrcPID entry;
  SrcCgroupID := PE_SrcCgroupID entry;
  SrcAddr := BytesToIPv4 remoteAddr;
  SrcPort := remotePort;
  DstContainer := None;
  DstProcessName := NullTermStr comm;
  DstPID := pid;
  DstCgroupID := cgroupID;
  DstAddr := BytesToIPv4 localAddr;
  DstPort := localPort;
  FilePath := ""; FileOp := ""; ExecPath := ""; ParentPID := 0; ParentProcessName := ""
|}.

(** [HandleAccept]: [Ret None] while the send blocks. *)
Definition HandleAccept (c : Correlator) (localAddr localPort remoteAddr remotePort : Z)
    (cgroupID pid : Z) (comm : list byte) : go (option Correlator) :=
  let conn := {| IC_SrcAddr := remoteAddr; IC_SrcPort := remotePort;
                 IC_DstAddr := localAddr; IC_DstPort := localPort |} in
  match pending c !! conn with
  | None => Ret (Some c)
  | Some entry =>
      let event := connection_event entry localAddr localPort remoteAddr remotePort
                     cgroupID pid comm in
      sent ← ch_send (output c) event;
      match sent with
      | None => Ret None
      | Some o =>
          Ret (Some {| pending := delete conn (pending c); timeout := timeout c; output := o |})
      end
  end.

(** ** The clean-up *)

Definition expired (now t : Z) (e : PendingConnectionEntry) : bool :=
  time_sub now (PE_Timestamp e) >? t.

Lemma cleanup_loop_lookup now t entries : forall m k,
  NoDup (map fst entries) ->
  cleanup_loop now t entries m !! k =
  match list_find (fun p => fst p = k) entries with
  | Some (_, (_, e)) => if expired now t e then None else m !! k
  | None => m !! k
  end.
Proof.
  induction entries as [|[k' e] entries IH]; intros m k Hnd; [reflexivity|].
  simpl in *. apply NoDup_cons in Hnd as [Hnot Hnd]. rewrite IH by assumption.
  destruct (decide (k' = k)) as [->|Hne].
  - assert (list_find (fun p => fst p = k) entries = None) as Hn.
    { apply list_find_None, Forall_forall. intros p Hp Hk. apply Hnot. subst.
      change (p.1 ∈ (fst <$> entries)). by apply list_elem_of_fmap_2. }
    rewrite Hn. unfold expired. destruct (_ >? t); [apply lookup_delete_eq|reflexivity].
  - destruct (list_find _ entries) as [[i [k0 e0]]|]; simpl;
      destruct (time_sub now (PE_Timestamp e) >? t);
      rewrite ?lookup_delete_ne by congruence; reflexivity.
Qed.

Lemma Cleanup_lookup (now : Z) (entries : list (IncompleteConnection * PendingConnectionEntry))
    (c : Correlator) (k : IncompleteConnection) :
  entries ≡ₚ map_to_list (pending c) ->
  pending (Cleanup_tick now entries c) !! k =
  match pending c !! k with
  | Some e => if expired now (timeout c) e then None else Some e
  | None => None
  end.
Proof.
  intros Hperm. unfold Cleanup_tick, with_pending. simpl.
  assert (Hnd : NoDup (map fst entries)).
  { change (NoDup (fst <$> entries)). rewrite Hperm. apply NoDup_fst_map_to_list. }
  rewrite cleanup_loop_lookup by assumption.
  destruct (list_find _ entries) as [[i [k0 e]]|] eqn:E.
  - apply list_find_Some in E as (Hi & Hk & _). simpl in Hk. subst k0.
    apply list_elem_of_lookup_2 in Hi. rewrite Hperm in Hi.
    apply elem_of_map_to_list in Hi as ->. reflexivity.
  - destruct (pending c !! k) as [e|] eqn:Hk; [|reflexivity].
    apply elem_of_map_to_list in Hk. rewrite <- Hperm in Hk.
    apply list_find_None in E. rewrite Forall_forall in E. by destruct (E _ Hk).
Qed.

(** In whatever order a tick visits the map, it removes exactly the entries
    older than the timeout. *)
Theorem Cleanup_removes_expired (now : Z) (entries : list (IncompleteConnection * PendingConnectionEntry))
    (c : Correlator) (k : IncompleteConnection) :
  entries ≡ₚ map_to_list (pending c) ->
  pending (Cleanup_tick now entries c) !! k =
  match pending c !! k with
  | Some e => if expired now (timeout c) e then None else Some e
  | None => None
  end.
Proof. apply Cleanup_lookup. Qed.

Lemma Cleanup_removes_expired_witness :
  let k := {| IC_SrcAddr := 1; IC_SrcPort := 2; IC_DstAddr := 3; IC_DstPort := 4 |} in
  let c := HandleConnect 0 (NewCorrelator (5 * Second)) 1 2 3 4 77 9 [] Second in
  pending (Cleanup_tick (7 * Second) (map_to_list (pending c)) c) !! k = None.
Proof.
  intros k c. rewrite (Cleanup_removes_expired (7 * Second) (map_to_list (pending c)) c k);
    [vm_compute; reflexivity|reflexivity].
Defined.

(** ** What the correlator promises: one automaton per connection

    Every quadruple has a life of its own: absent, then pending from a connect
    until the matching accept or a late tick. *)

Inductive corr_op :=
| OpConnect (srcAddr srcPort dstAddr dstPort cgroupID pid : Z) (comm : list byte) (timestamp : Z)
| OpAccept (localAddr localPort remoteAddr remotePort cgroupID pid : Z) (comm : list byte)
| OpTick (now : Z) (entries : list (IncompleteConnection * PendingConnectionEntry)).

Definition op_key (op : corr_op) : option IncompleteConnection :=
  match op with
  | OpConnect sa sp da dp _ _ _ _ =>
      Some {| IC_SrcAddr := sa; IC_SrcPort := sp; IC_DstAddr := da; IC_DstPort := dp |}
  | OpAccept la lp ra rp _ _ _ =>
      Some {| IC_SrcAddr := ra; IC_SrcPort := rp; IC_DstAddr := la; IC_DstPort := lp |}
  | OpTick _ _ => None
  end.

Section Automaton.
Variable bootTime : Z.

(** The correlator executing one operation; [Ret None] while it blocks. *)
Definition corr_exec (c : Correlator) (op : corr_op) : go (option Correlator) :=
  match op with
  | OpConnect sa sp da dp cg pid comm ts =>
      Ret (Some (HandleConnect bootTime c sa sp da dp cg pid comm ts))
  | OpAccept la lp ra rp cg pid comm => HandleAccept c la lp ra rp cg pid comm
  | OpTick now entries => Ret (Some (Cleanup_tick now entries c))
  end.

Fixpoint corr_run (c : Correlator) (ops : list corr_op) : go (option Correlator) :=
  match ops with
  | [] => Ret (Some c)
  | op :: ops =>
      match corr_exec c op with
      | Ret (Some c) => corr_run c ops
      | Ret None => Ret None
      | Panic p => Panic p
      end
  end.

(** The automaton of the quadruple [k]: its pending entry, and the event that
    the step makes. *)
Definition key_step (t : Z) (k : IncompleteConnection) (s : option PendingConnectionEntry)
    (op : corr_op) : option PendingConnectionEntry * list Event :=
  match op with
  | OpConnect _ _ _ _ cg pid comm ts =>
      if decide (op_key op = Some k) then (Some (connect_entry bootTime cg pid comm ts), [])
      else (s, [])
  | OpAccept la lp ra rp cg pid comm =>
      if decide (op_key op = Some k) then
        match s with
        | Some e => (None, [connection_event e la lp ra rp cg pid comm])
        | None => (None, [])
        end
      else (s, [])
  | OpTick now _ =>
      match s with
      | Some e => if expired now t e then (None, []) else (Some e, [])
      | None => (None, [])
      end
  end.

Fixpoint key_run (t : Z) (k : IncompleteConnection) (s : option PendingConnectionEntry)
    (ops : list corr_op) : option PendingConnectionEntry * list Event :=
  match ops with
  | [] => (s, [])
  | op :: ops =>
      let '(s, out) := key_step t k s op in
      let '(s, outs) := key_run t k s ops in
      (s, out ++ outs)
  end.

(** Each tick of a run enumerates the map as it is then. *)
Fixpoint ticks_ok (c : Correlator) (ops : list corr_op) : Prop :=
  match ops with
  | [] => True
  | op :: ops =>
      match op with
      | OpTick _ entries => entries ≡ₚ map_to_list (pending c)
      | _ => True
      end /\
      match corr_exec c op with
      | Ret (Some c) => ticks_ok c ops
      | _ => True
      end
  end.

(** The events of a quadruple: those whose four address fields it prints as. *)
Definition event_of (k : IncompleteConnection) (e : Event) : bool :=
  bool_decide (SrcAddr e = BytesToIPv4 (IC_SrcAddr k) /\ SrcPort e = IC_SrcPort k /\
               DstAddr e = BytesToIPv4 (IC_DstAddr k) /\ DstPort e = IC_DstPort k).

Definition addrs_u32 (k : IncompleteConnection) : Prop :=
  in_u 32 (IC_SrcAddr k) /\ in_u 32 (IC_DstAddr k).

Lemma event_of_connection_event k e la lp ra rp cg pid comm :
  addrs_u32 k -> in_u 32 la -> in_u 32 ra ->
  event_of k (connection_event e la lp ra rp cg pid comm) =
  bool_decide ({| IC_SrcAddr := ra; IC_SrcPort := rp; IC_DstAddr := la; IC_DstPort := lp |} = k).
Proof.
  intros [Hs Hd] Hl Hr. unfold event_of, connection_event. simpl. apply bool_decide_ext.
  destruct k as [sa sp da dp]. simpl in *. split.
  - intros (Hsa & -> & Hda & ->). apply BytesToIPv4_inj in Hsa, Hda; try assumption. by subst.
  - intros [= -> -> -> ->]. done.
Qed.

Definition op_u32 (op : corr_op) : Prop :=
  match op with OpAccept la _ ra _ _ _ _ => in_u 32 la /\ in_u 32 ra | _ => True end.

(** One operation refines one step of every automaton. *)
Lemma corr_exec_refines c op c' k :
  addrs_u32 k -> op_u32 op ->
  match op with OpTick _ entries => entries ≡ₚ map_to_list (pending c) | _ => True end ->
  chan_ok (output c) -> corr_exec c op = Ret (Some c') ->
  timeout c' = timeout c /\ chan_ok (output c') /\
  exists out, ch_buf (output c') = ch_buf (output c) ++ out /\
    key_step (timeout c) k (pending c !! k) op =
      (pending c' !! k, List.filter (event_of k) out).
Proof.
  intros Hk Hop Htick Hch Hex.
  destruct op as [sa sp da dp cg pid comm ts|la lp ra rp cg pid comm|now entries]; simpl in Hex.
  - injection Hex as <-. split_and!; [done..|]. exists []. rewrite app_nil_r. split; [done|].
    simpl. case_decide as Hd.
    + injection Hd as <-. by rewrite lookup_insert_eq.
    + rewrite lookup_insert_ne by congruence. reflexivity.
  - unfold HandleAccept in Hex. simpl. destruct Hop as [Hl Hr].
    destruct (pending c !! _) as [entry|] eqn:Hp.
    + destruct (ch_send _ _) as [[o|]|] eqn:Hs; simpl in Hex; try discriminate.
      injection Hex as <-. simpl. apply ch_send_ok in Hs as (Ho & Hb & _); [|exact Hch].
      split_and!; [done|done|]. eexists. split; [exact Hb|]. simpl.
      rewrite event_of_connection_event by assumption.
      case_decide as Hd.
      * injection Hd as Hd. rewrite bool_decide_true by assumption. subst k.
        rewrite Hp, lookup_delete_eq. reflexivity.
      * rewrite bool_decide_false by congruence. rewrite lookup_delete_ne by congruence. reflexivity.
    + injection Hex as <-. split_and!; [done..|]. exists []. rewrite app_nil_r. split; [done|].
      simpl. case_decide as Hd; [|reflexivity]. injection Hd as <-. by rewrite Hp.
  - injection Hex as <-. split_and!; [done..|]. exists []. rewrite app_nil_r. split; [done|].
    simpl key_step. rewrite (Cleanup_lookup now entries c k Htick).
    destruct (pending c !! k) as [e|]; [|reflexivity]. by destruct (expired _ _ e).
Qed.

Lemma corr_run_refines (k : IncompleteConnection) (ops : list corr_op) (c c' : Correlator) :
  addrs_u32 k -> Forall op_u32 ops -> ticks_ok c ops -> chan_ok (output c) ->
  corr_run c ops = Ret (Some c') ->
  exists out, ch_buf (output c') = ch_buf (output c) ++ out /\
    key_run (timeout c) k (pending c !! k) ops =
      (pending c' !! k, List.filter (event_of k) out).
Proof.
  intros Hk. revert c. induction ops as [|op ops IH]; intros c Hops Htk Hch Hrun; simpl in Hrun.
  - injection Hrun as <-. exists []. by rewrite app_nil_r.
  - apply Forall_cons_1 in Hops as [Hop Hops]. simpl in Htk. destruct Htk as [Hperm Htk].
    destruct (corr_exec c op) as [[c1|]|] eqn:E; try discriminate.
    destruct (corr_exec_refines c op c1 k Hk Hop Hperm Hch E) as (Ht & Hch1 & out1 & Hb1 & Hs1).
    destruct (IH c1 Hops Htk Hch1 Hrun) as (out2 & Hb2 & Hs2).
    exists (out1 ++ out2). rewrite Hb2, Hb1, <- app_assoc. split; [reflexivity|].
    simpl. rewrite Hs1. rewrite Ht in Hs2. rewrite Hs2, List.filter_app. reflexivity.
Qed.
(** (C17) Along any run that neither blocks nor panics, for every quadruple: its
    pending entry and the events emitted for it are those of its automaton,
    whatever happens to the other quadruples in between. *)
Theorem correlator_refines (k : IncompleteConnection) (ops : list corr_op) (c c' : Correlator) :
  addrs_u32 k -> Forall op_u32 ops -> ticks_ok c ops -> chan_ok (output c) ->
  corr_run c ops = Ret (Some c') ->
  exists out, ch_buf (output c') = ch_buf (output c) ++ out /\
    key_run (timeout c) k (pending c !! k) ops =
      (pending c' !! k, List.filter (event_of k) out).
Proof. apply corr_run_refines. Qed.
End Automaton.

Lemma correlator_refines_witness :
  let k := {| IC_SrcAddr := 33554442; IC_SrcPort := 40000;
              IC_DstAddr := 50331658; IC_DstPort := 22 |} in
  let ops := [OpConnect 33554442 40000 50331658 22 77 9 [] Second;
              OpAccept 50331658 22 33554442 40000 78 10 []] in
  exists c', corr_run 0 (NewCorrelator (5 * Second)) ops = Ret (Some c') /\
    exists out, ch_buf (output c') = out /\
      key_run 0 (5 * Second) k None ops = (pending c' !! k, List.filter (event_of k) out).
Proof.
  intros k ops. eexists. split; [vm_compute; reflexivity|].
  refine (correlator_refines 0 k ops (NewCorrelator (5 * Second)) _ _ _ _ _ _).
  - split; by vm_compute.
  - repeat constructor; by vm_compute.
  - by vm_compute.
  - apply make_chan_ok.
  - vm_compute. reflexivity.
Defined.

(** ** When an accept blocks, and that it emits once *)

(** [HandleAccept] never panics while the output is open; it blocks exactly
    when the connection is pending and the output is full.  A matched
    connection is emitted with both ends' identities and forgotten, so that
    the same accept again emits nothing. *)
Theorem HandleAccept_cases (c : Correlator) (la lp ra rp cg pid : Z) (comm : list byte) :
  let conn := {| IC_SrcAddr := ra; IC_SrcPort := rp; IC_DstAddr := la; IC_DstPort := lp |} in
  ch_closed (output c) = false -> chan_ok (output c) ->
  match HandleAccept c la lp ra rp cg pid comm with
  | Panic _ => False
  | Ret None => is_Some (pending c !! conn) /\ length (ch_buf (output c)) = ch_cap (output c)
  | Ret (Some c') =>
      match pending c !! conn with
      | None => c' = c
      | Some entry =>
          ch_buf (output c') = ch_buf (output c) ++
            [connection_event entry la lp ra rp cg pid comm] /\
          pending c' = delete conn (pending c) /\
          HandleAccept c' la lp ra rp cg pid comm = Ret (Some c')
      end
  end.
Proof.
  intros conn Hopen Hok. unfold HandleAccept. fold conn.
  destruct (pending c !! conn) as [entry|] eqn:Hp; [|reflexivity].
  unfold ch_send. rewrite Hopen.
  destruct (Nat.ltb_spec (length (ch_buf (output c))) (ch_cap (output c))); simpl.
  - rewrite lookup_delete_eq. done.
  - split; [by eexists|]. unfold chan_ok in Hok. lia.
Qed.

Lemma HandleAccept_cases_witness :
  let c := HandleConnect 0 (NewCorrelator (5 * Second)) 1 2 3 4 77 9 [] Second in
  let conn := {| IC_SrcAddr := 1; IC_SrcPort := 2; IC_DstAddr := 3; IC_DstPort := 4 |} in
  match HandleAccept c 3 4 1 2 78 10 [] with
  | Panic _ => False
  | Ret None => is_Some (pending c !! conn) /\ length (ch_buf (output c)) = ch_cap (output c)
  | Ret (Some c') =>
      match pending c !! conn with
      | None => c' = c
      | Some entry =>
          ch_buf (output c') = ch_buf (output c) ++ [connection_event entry 3 4 1 2 78 10 []] /\
          pending c' = delete conn (pending c) /\
          HandleAccept c' 3 4 1 2 78 10 [] = Ret (Some c')
      end
  end.
Proof.
  intros c conn. refine (HandleAccept_cases c 3 4 1 2 78 10 [] _ _); [reflexivity|apply make_chan_ok].
Defined.
