(* ===== verification/Wire.v ===== *)
(** * The record as user space reads it

    [MonitorEvent] and [ParseEvent] of [internal/ebpf/types.go].  The Go struct
    has no layout of its own on the wire: [encoding/binary] reads its fields in
    order, without alignment, so the padding of the C structure is spelled out
    as fields.  The last four bytes of the C structure (its tail padding) have
    no counterpart. *)

From S2P Require Import Prelude.
From S2P Require Import CLayout.
From S2P Require Import Bytes.
From S2P Require Import Monitor.

Open Scope Z_scope.

Record MonitorEvent := {
  Pid : Z;
  Pad1 : list byte;
  CgroupId : Z;
  EvTimestamp : Z;
  EvType : Z;
  Pad2 : list byte;
  EvSrcAddr : Z;
  EvSrcPort : Z;
  Pad3 : list byte;
  EvDstAddr : Z;
  EvDstPort : Z;
  Comm : list byte;
  Filepath : list byte;
  Pad4 : list byte;
  Ppid : Z;
  ParentComm : list byte;
  Flags : Z
}.

(** A field of a Go structure, as [encoding/binary] sees it. *)
Inductive gofield :=
| GUint (bytes : nat)
| GBytes (len : nat).

Definition gofield_size (f : gofield) : nat := match f with GUint n => n | GBytes n => n end.

(** The field types of [MonitorEvent], in order. *)
Definition MonitorEvent_fields : list gofield :=
  [GUint 4; GBytes 4; GUint 8; GUint 8; GUint 1; GBytes 3;
   GUint 4; GUint 2; GBytes 2; GUint 4; GUint 2;
   GBytes 16; GBytes 256; GBytes 2; GUint 4; GBytes 16; GUint 4].

(** [binary.Size(event)]. *)
Definition binary_Size (fs : list gofield) : nat := sum_list (map gofield_size fs).

(** [binary.LittleEndian] reads one field from the front of the data. *)
Definition rd_uint (n : nat) (s : list byte) : Z * list byte := (le_decode (take n s), drop n s).
Definition rd_bytes (n : nat) (s : list byte) : list byte * list byte := (take n s, drop n s).

(** [binary.Read(r, LittleEndian, &event)]: an error when the data is short. *)
Definition binary_Read (data : list byte) : option MonitorEvent :=
  if (length data <? binary_Size MonitorEvent_fields)%nat then None
  else
    let '(pid, s) := rd_uint 4 data in
    let '(pad1, s) := rd_bytes 4 s in
    let '(cgroup, s) := rd_uint 8 s in
    let '(ts, s) := rd_uint 8 s in
    let '(ty, s) := rd_uint 1 s in
    let '(pad2, s) := rd_bytes 3 s in
    let '(saddr, s) := rd_uint 4 s in
    let '(sport, s) := rd_uint 2 s in
    let '(pad3, s) := rd_bytes 2 s in
    let '(daddr, s) := rd_uint 4 s in
    let '(dport, s) := rd_uint 2 s in
    let '(comm, s) := rd_bytes 16 s in
    let '(path, s) := rd_bytes 256 s in
    let '(pad4, s) := rd_bytes 2 s in
    let '(ppid, s) := rd_uint 4 s in
    let '(pcomm, s) := rd_bytes 16 s in
    let '(flags, s) := rd_uint 4 s in
    Some {| Pid := pid; Pad1 := pad1; CgroupId := cgroup; EvTimestamp := ts; EvType := ty;
            Pad2 := pad2; EvSrcAddr := saddr; EvSrcPort := sport; Pad3 := pad3;
            EvDstAddr := daddr; EvDstPort := dport; Comm := comm; Filepath := path;
            Pad4 := pad4; Ppid := ppid; ParentComm := pcomm; Flags := flags |}.

Definition ParseEvent (data : list byte) : option MonitorEvent :=
  if (length data <? binary_Size MonitorEvent_fields)%nat then None
  else
    match binary_Read data with
    | None => None
    | Some event => Some event
    end.

(** The values of a parsed event, without the padding. *)
Definition event_values (m : MonitorEvent) : kevent := {|
  k_pid := Pid m; k_cgroup_id := CgroupId m; k_timestamp := EvTimestamp m;
  k_event_type := EvType m;
  k_src_addr := EvSrcAddr m; k_src_port := EvSrcPort m;
  k_dst_addr := EvDstAddr m; k_dst_port := EvDstPort m;
  k_comm := Comm m; k_filepath := Filepath m;
  k_ppid := Ppid m; k_parent_comm := ParentComm m; k_flags := Flags m
|}.

(** ** Properties *)

Lemma binary_size_340 : binary_Size MonitorEvent_fields = 340%nat.
Proof. reflexivity. Qed.

Lemma ParseEvent_short data : (length data < 340)%nat -> ParseEvent data = None.
Proof.
  intros H. unfold ParseEvent. rewrite binary_size_340.
  by rewrite (proj2 (Nat.ltb_lt _ _) H).
Qed.

Lemma ParseEvent_view rec :
  event_bytes rec -> exists m, ParseEvent rec = Some m /\ event_values m = view rec.
Proof.
  intros He. apply event_bytes_344 in He. unfold ParseEvent, binary_Read.
  rewrite binary_size_340, He. cbn -[take drop le_decode].
  eexists. split; [reflexivity|]. unfold event_values, view, get_int. rewrite !get_table.
  unfold slice. rewrite !drop_drop. reflexivity.
Qed.

(** (C2) The two languages agree on the record: whatever the 344 bytes of a ring
    buffer record are, [ParseEvent] succeeds and every field it decodes is the
    member of [struct event] of that name, as the C compiler lays it out. *)
Theorem ParseEvent_reads_struct_event rec :
  event_bytes rec ->
  exists m, ParseEvent rec = Some m /\ event_values m = view rec.
Proof. apply ParseEvent_view. Qed.

Lemma ParseEvent_reads_struct_event_witness :
  exists m, ParseEvent Demo.stale = Some m /\ event_values m = view Demo.stale.
Proof. apply (ParseEvent_reads_struct_event Demo.stale), Demo.stale_ok. reflexivity. Defined.
