(* ===== verification/PortExpr.v ===== *)
(** * Port expressions

    [internal/ruleengine/portexpr.go]: the data type, its parser, its matcher,
    [IsZero] and the YAML decoding. *)

From S2P Require Import Prelude.
From S2P Require Import Bytes.
From S2P Require Import GoLib.

Open Scope Z_scope.

Record PortExpr := {
  Ports : list Z;
  Ranges : list (Z * Z);
  Negate : bool;
  Wildcard : bool
}.

#[export] Instance PortExpr_eq_dec : EqDecision PortExpr.
Proof. solve_decision. Defined.

Definition zero_port_expr : PortExpr :=
  {| Ports := []; Ranges := []; Negate := false; Wildcard := false |}.

(** The errors [ParsePortExpr] wraps. *)
Inductive port_error :=
| InvalidRangeStart (e : parse_error)
| InvalidRangeEnd (e : parse_error)
| InvalidPort (e : parse_error)
| UnexpectedNodeKind.

Definition add_port (e : PortExpr) (p : Z) : PortExpr :=
  {| Ports := Ports e ++ [p]; Ranges := Ranges e; Negate := Negate e; Wildcard := Wildcard e |}.
Definition add_range (e : PortExpr) (r : Z * Z) : PortExpr :=
  {| Ports := Ports e; Ranges := Ranges e ++ [r]; Negate := Negate e; Wildcard := Wildcard e |}.

Definition quotes : list byte := [b 34; b 39].

(** One iteration of the loop over the comma-separated parts. *)
Definition parse_part (expr : PortExpr) (part : list byte) : PortExpr + port_error :=
  let part := trim_space part in
  let part := trim_cutset quotes part in
  if bool_decide (part = []) then inl expr
  else
    match cut_at [b 45] part with
    | Some (p0, p1) =>
        match parse_uint 16 (trim_space p0) with
        | inr e => inr (InvalidRangeStart e)
        | inl rangeStart =>
            match parse_uint 16 (trim_space p1) with
            | inr e => inr (InvalidRangeEnd e)
            | inl rangeEnd =>
                inl (add_range expr (uwrap 16 rangeStart, uwrap 16 rangeEnd))
            end
        end
    | None =>
        match parse_uint 16 part with
        | inr e => inr (InvalidPort e)
        | inl port => inl (add_port expr (uwrap 16 port))
        end
    end.

Fixpoint parse_parts (expr : PortExpr) (parts : list (list byte)) : PortExpr + port_error :=
  match parts with
  | [] => inl expr
  | part :: parts =>
      match parse_part expr part with
      | inl expr => parse_parts expr parts
      | inr e => inr e
      end
  end.

Definition ParsePortExpr (s : string) : PortExpr + port_error :=
  let raw := trim_space (bytes_of s) in
  if bool_decide (raw = bytes_of "*") || bool_decide (raw = []) then
    inl {| Ports := []; Ranges := []; Negate := false; Wildcard := true |}
  else
    let '(negate, raw) :=
      if has_prefix raw (bytes_of "!") then (true, drop 1 raw) else (false, raw) in
    let raw :=
      if has_prefix raw (bytes_of "[") && has_suffix raw (bytes_of "]")
      then take (length raw - 2) (drop 1 raw) else raw in
    parse_parts {| Ports := []; Ranges := []; Negate := negate; Wildcard := false |}
      (split_on (b 44) raw).

(** [p.Match(port)]: the two loops, then the negation. *)
Fixpoint ports_loop (ps : list Z) (port : Z) : bool :=
  match ps with
  | [] => false
  | p :: ps => if p =? port then true else ports_loop ps port
  end.
Fixpoint ranges_loop (rs : list (Z * Z)) (port : Z) : bool :=
  match rs with
  | [] => false
  | r :: rs => if (port >=? fst r) && (port <=? snd r) then true else ranges_loop rs port
  end.

Definition PortMatch (p : PortExpr) (port : Z) : bool :=
  let matched := ports_loop (Ports p) port in
  let matched := if negb matched then ranges_loop (Ranges p) port else matched in
  if Negate p then negb matched else matched.

Definition IsZero (p : PortExpr) : bool :=
  negb (Wildcard p) && negb (Negate p) &&
  bool_decide (length (Ports p) = 0%nat) && bool_decide (length (Ranges p) = 0%nat).

(** A [yaml.Node] as [UnmarshalYAML] looks at it: its kind, and the [Value] of
    the node or of its [Content]. *)
Inductive yaml_node :=
| ScalarNode (value : string)
| SequenceNode (content : list string)
| OtherNode.

(** The loop over a sequence's items; the receiver keeps what was appended
    before an error. *)
Fixpoint unmarshal_items (p : PortExpr) (items : list string) : PortExpr * option port_error :=
  match items with
  | [] => (p, None)
  | item :: items =>
      match ParsePortExpr item with
      | inr e => (p, Some e)
      | inl parsed =>
          unmarshal_items
            {| Ports := Ports p ++ Ports parsed; Ranges := Ranges p ++ Ranges parsed;
               Negate := Negate p; Wildcard := Wildcard p |} items
      end
  end.

Definition UnmarshalYAML (p : PortExpr) (value : yaml_node) : PortExpr * option port_error :=
  match value with
  | ScalarNode v =>
      match ParsePortExpr v with
      | inr e => (p, Some e)
      | inl parsed => (parsed, None)
      end
  | SequenceNode content => unmarshal_items p content
  | OtherNode => (p, Some UnexpectedNodeKind)
  end.

(** ** Matching *)

(** What an expression means: the listed ports and ranges, or their complement. *)
Definition port_listed (p : PortExpr) (port : Z) : Prop :=
  port ∈ Ports p \/ exists lo hi, (lo, hi) ∈ Ranges p /\ lo <= port <= hi.

Lemma ports_loop_spec ps port : ports_loop ps port = true <-> port ∈ ps.
Proof.
  induction ps as [|p ps IH]; simpl.
  - split; [discriminate|]. intros H. inversion H.
  - rewrite elem_of_cons. destruct (Z.eqb_spec p port) as [->|Hne].
    + split; auto.
    + rewrite IH. split; [auto|]. intros [->|H]; [by destruct Hne|exact H].
Qed.

Lemma ranges_loop_spec rs port :
  ranges_loop rs port = true <-> exists lo hi, (lo, hi) ∈ rs /\ lo <= port <= hi.
Proof.
  induction rs as [|[lo hi] rs IH]; simpl.
  - split; [discriminate|]. intros (lo & hi & H & _). inversion H.
  - destruct ((port >=? lo) && (port <=? hi)) eqn:E.
    + split; [intros _|reflexivity]. exists lo, hi. split; [by left|lia].
    + rewrite IH. split; intros (l & h & Hin & Hp).
      * exists l, h. split; [by right|exact Hp].
      * apply elem_of_cons in Hin as [[= -> ->]|Hin]; [lia|]. by exists l, h.
Qed.

(** [Match] decides membership in the listed ports and ranges, negated when the
    expression is. *)
Theorem PortMatch_spec (p : PortExpr) (port : Z) :
  PortMatch p port = true <->
  (if Negate p then ~ port_listed p port else port_listed p port).
Proof.
  unfold PortMatch, port_listed.
  assert (Hm : (if negb (ports_loop (Ports p) port) then ranges_loop (Ranges p) port
                else ports_loop (Ports p) port) = true <->
               port ∈ Ports p \/ exists lo hi, (lo, hi) ∈ Ranges p /\ lo <= port <= hi).
  { rewrite <- ports_loop_spec, <- ranges_loop_spec.
    destruct (ports_loop _ _), (ranges_loop _ _); simpl; tauto. }
  destruct (Negate p); [|exact Hm]. rewrite <- Hm.
  destruct (if negb _ then _ else _); simpl; split; congruence || tauto.
Qed.

(** A wildcard, whose comment says that it matches all ports, matches none:
    [Match] never consults the flag. *)
Theorem wildcard_matches_nothing (s : string) (port : Z) :
  trim_space (bytes_of s) = bytes_of "*" \/ trim_space (bytes_of s) = [] ->
  exists p, ParsePortExpr s = inl p /\ Wildcard p = true /\ IsZero p = false /\
    PortMatch p port = false.
Proof.
  intros H. exists {| Ports := []; Ranges := []; Negate := false; Wildcard := true |}.
  split; [|repeat split].
  unfold ParsePortExpr. destruct H as [-> | ->]; reflexivity.
Qed.

Lemma wildcard_matches_nothing_witness :
  exists p, ParsePortExpr " * " = inl p /\ Wildcard p = true /\ IsZero p = false /\
    PortMatch p 22 = false.
Proof. apply (wildcard_matches_nothing " * " 22). left. vm_compute. reflexivity. Defined.

(** ** What the parser returns *)

Definition ports_ok (p : PortExpr) : Prop :=
  Forall (in_u 16) (Ports p) /\ Forall (fun r => in_u 16 (fst r) /\ in_u 16 (snd r)) (Ranges p).

Lemma uwrap_range w v : 0 <= w -> in_u w (uwrap w v).
Proof. intros H. apply Z.mod_pos_bound, Z.pow_pos_nonneg; lia. Qed.

Lemma parse_part_ok e part e' : ports_ok e -> parse_part e part = inl e' -> ports_ok e'.
Proof.
  unfold parse_part. intros [Hp Hr]. case_bool_decide; [by intros [= <-]|].
  repeat (case_match; try discriminate); intros [= <-]; split; simpl; try assumption;
    apply Forall_app; split; try assumption; apply Forall_singleton;
    try split; by apply uwrap_range.
Qed.

(** Every port and range bound of a parsed expression is a 16-bit value. *)
Theorem ParsePortExpr_ports_ok (s : string) (p : PortExpr) :
  ParsePortExpr s = inl p -> ports_ok p.
Proof.
  assert (Hparts : forall parts e e', ports_ok e -> parse_parts e parts = inl e' -> ports_ok e').
  { induction parts as [|part parts IH]; simpl; intros e e' He; [by intros [= <-]|].
    destruct (parse_part e part) as [e1|] eqn:E; [|discriminate].
    apply IH. by eapply parse_part_ok. }
  unfold ParsePortExpr. destruct (_ || _); [intros [= <-]; by repeat constructor|].
  destruct (has_prefix _ _); apply Hparts; by repeat constructor.
Qed.

Lemma ParsePortExpr_ports_ok_witness :
  ports_ok {| Ports := [22]; Ranges := [(8000, 9000)]; Negate := true; Wildcard := false |}.
Proof. apply (ParsePortExpr_ports_ok "![22, '8000-9000']"). vm_compute. reflexivity. Defined.

(** ** Printing and parsing *)

(** The text of an expression: [!] when negated, then the ports and the ranges
    separated by commas. *)
Definition show_range (r : Z * Z) : string :=
  String.append (decimal (fst r)) (String.append "-" (decimal (snd r))).
Definition show_items (p : PortExpr) : list string :=
  map decimal (Ports p) ++ map show_range (Ranges p).
Definition show_port_expr (p : PortExpr) : string :=
  String.append (if Negate p then "!" else "") (join "," (show_items p)).

(** The bytes that occur in such a text. *)
Definition port_text (c : byte) : bool :=
  match digit_val c with Some _ => true | None => false end || bool_decide (c = "-"%char).

Lemma port_text_untouched c :
  port_text c || bool_decide (c = ","%char) || bool_decide (c = "!"%char) = true ->
  untouched space_seqs c = true /\ untouched (map (fun c => [c]) quotes) c = true.
Proof.
  destruct c as [[] [] [] [] [] [] [] []]; vm_compute; intros H; first [discriminate H | by split].
Qed.

Lemma decimal_text v : 0 <= v -> Forall (fun c => port_text c = true) (bytes_of (decimal v)).
Proof.
  intros Hv. eapply Forall_impl; [by apply decimal_digits|].
  intros c [d Hd]. unfold port_text. by rewrite Hd.
Qed.

Lemma range_bytes lo hi :
  bytes_of (show_range (lo, hi)) = bytes_of (decimal lo) ++ "-"%char :: bytes_of (decimal hi).
Proof. unfold show_range. by rewrite !bytes_of_app. Qed.

Lemma trim_text (s : list byte) :
  Forall (fun c => port_text c = true) s ->
  trim_space s = s /\ trim_cutset quotes s = s.
Proof.
  intros H. split; apply trim_id; (eapply Forall_impl; [exact H|]);
    intros c Hc; apply port_text_untouched; by rewrite Hc.
Qed.

Lemma uwrap_small v : in_u 16 v -> uwrap 16 v = v.
Proof. apply Z.mod_small. Qed.

Lemma decimal_nonempty v : in_u 16 v -> bytes_of (decimal v) <> [].
Proof.
  intros Hv E. pose proof (parse_uint_decimal 16 v ltac:(lia) Hv) as H. rewrite E in H. discriminate H.
Qed.

Lemma parse_part_port e v :
  in_u 16 v -> parse_part e (bytes_of (decimal v)) = inl (add_port e v).
Proof.
  intros Hv. unfold parse_part.
  destruct (trim_text _ (decimal_text v ltac:(unfold in_u in Hv; lia))) as [-> ->].
  rewrite bool_decide_false by by apply decimal_nonempty.
  rewrite cut_at_none by (apply decimal_no; [unfold in_u in Hv; lia|reflexivity]).
  rewrite parse_uint_decimal, uwrap_small by (assumption || lia). reflexivity.
Qed.

Lemma parse_part_range e lo hi :
  in_u 16 lo -> in_u 16 hi ->
  parse_part e (bytes_of (show_range (lo, hi))) = inl (add_range e (lo, hi)).
Proof.
  intros Hlo Hhi. assert (0 <= lo /\ 0 <= hi) as [??] by (unfold in_u in *; lia).
  pose proof (decimal_text lo ltac:(assumption)) as Tlo.
  pose proof (decimal_text hi ltac:(assumption)) as Thi.
  unfold parse_part. rewrite range_bytes.
  assert (T : Forall (fun c => port_text c = true)
                (bytes_of (decimal lo) ++ "-"%char :: bytes_of (decimal hi)))
    by (apply Forall_app; split; [assumption|by constructor]).
  destruct (trim_text _ T) as [-> ->].
  rewrite bool_decide_false by by destruct (bytes_of (decimal lo)).
  change [b 45] with ["-"%char].
  rewrite cut_at_app by by apply decimal_no.
  destruct (trim_text _ Tlo) as [-> _]. destruct (trim_text _ Thi) as [-> _].
  rewrite !parse_uint_decimal, !uwrap_small by (assumption || lia). reflexivity.
Qed.

Lemma parse_parts_items ps rs : forall e,
  Forall (in_u 16) ps -> Forall (fun r => in_u 16 (fst r) /\ in_u 16 (snd r)) rs ->
  parse_parts e (map bytes_of (map decimal ps ++ map show_range rs)) =
  inl {| Ports := Ports e ++ ps; Ranges := Ranges e ++ rs; Negate := Negate e;
         Wildcard := Wildcard e |}.
Proof.
  induction ps as [|v ps IH]; intros e Hp Hr.
  - revert e. induction Hr as [|[lo hi] rs [Hlo Hhi] Hr IHr]; intros e; simpl.
    + destruct e. simpl. by rewrite !app_nil_r.
    + rewrite parse_part_range by assumption. cbn [map app] in IHr. rewrite IHr.
      unfold add_range. simpl. by rewrite <- app_assoc.
  - apply Forall_cons_1 in Hp as [Hv Hp]. simpl. rewrite parse_part_port, IH by assumption.
    unfold add_port. simpl. by rewrite <- app_assoc.
Qed.

Lemma show_items_text p :
  ports_ok p -> Forall (fun s => Forall (fun c => port_text c = true) (bytes_of s)) (show_items p).
Proof.
  intros [Hp Hr]. unfold show_items. apply Forall_app; split; apply Forall_map.
  - eapply Forall_impl; [exact Hp|]. intros v Hv. apply decimal_text. unfold in_u in Hv. lia.
  - eapply Forall_impl; [exact Hr|]. intros [lo hi] [Hlo Hhi]. unfold in_u in *. simpl in *.
    rewrite range_bytes. apply Forall_app; split; [apply decimal_text; lia|].
    constructor; [done|apply decimal_text; lia].
Qed.

Lemma join_text (Q : byte -> Prop) c ss :
  Q c -> Forall (fun s => Forall Q (bytes_of s)) ss ->
  Forall Q (bytes_of (join (String c EmptyString) ss)).
Proof.
  intros Hc. induction 1 as [|s [|s' ss] Hs Hall IH]; [constructor|exact Hs|].
  rewrite bytes_of_join_cons. apply Forall_app; split; [exact Hs|]. by constructor.
Qed.

(** A byte of the printed items. *)
Definition item_text (c : byte) : bool := port_text c || bool_decide (c = ","%char).

Lemma items_text p :
  ports_ok p -> Forall (fun c => item_text c = true) (bytes_of (join "," (show_items p))).
Proof.
  intros Hok. apply join_text; [done|]. eapply Forall_impl; [by apply show_items_text|].
  intros s Hs. eapply Forall_impl; [exact Hs|]. intros c Hc. unfold item_text. by rewrite Hc.
Qed.

Lemma text_no_prefix d body :
  Forall (fun c => item_text c = true) body -> item_text d = false -> has_prefix body [d] = false.
Proof.
  intros [|c rest Hc _] Hd; [reflexivity|]. rewrite has_prefix_cons.
  rewrite bool_decide_false; [reflexivity|]. intros ->. congruence.
Qed.

Lemma items_parse p :
  ports_ok p -> Wildcard p = false ->
  parse_parts {| Ports := []; Ranges := []; Negate := Negate p; Wildcard := false |}
    (split_on (b 44) (bytes_of (join "," (show_items p)))) = inl p.
Proof.
  intros Hok Hw. pose proof (show_items_text p Hok) as Ht. change (b 44) with ","%char.
  destruct (decide (show_items p = [])) as [Ei|Hne].
  - rewrite Ei. unfold show_items in Ei. apply app_eq_nil in Ei as [E1%map_eq_nil E2%map_eq_nil].
    destruct p as [ps rs ng w]; simpl in *; subst. reflexivity.
  - rewrite split_on_join; [|done|].
    + unfold show_items. destruct Hok as [Hp Hr].
      rewrite parse_parts_items by assumption. destruct p; simpl in *; by subst.
    + eapply Forall_impl; [exact Ht|]. intros s Hs Hin. rewrite Forall_forall in Hs.
      by specialize (Hs _ Hin).
Qed.

Lemma trim_items raw :
  Forall (fun c => item_text c || bool_decide (c = "!"%char) = true) raw -> trim_space raw = raw.
Proof.
  intros H. apply trim_id. eapply Forall_impl; [exact H|]. intros c Hc.
  by apply port_text_untouched.
Qed.

(** The parser after its first test, on a text that trimming leaves alone. *)
Lemma ParsePortExpr_raw s raw :
  bytes_of s = raw -> trim_space raw = raw -> raw <> ["*"%char] -> raw <> [] ->
  ParsePortExpr s =
    (let '(negate, raw) :=
       if has_prefix raw ["!"%char] then (true, drop 1 raw) else (false, raw) in
     let raw :=
       if has_prefix raw ["["%char] && has_suffix raw ["]"%char]
       then take (length raw - 2) (drop 1 raw) else raw in
     parse_parts {| Ports := []; Ranges := []; Negate := negate; Wildcard := false |}
       (split_on (b 44) raw)).
Proof.
  intros <- Ht H1 H2. unfold ParsePortExpr. rewrite Ht.
  change (bytes_of "*") with ["*"%char]. by rewrite !bool_decide_false.
Qed.

Lemma parse_show (p : PortExpr) :
  ports_ok p -> Wildcard p = false -> IsZero p = false -> ParsePortExpr (show_port_expr p) = inl p.
Proof.
  intros Hok Hw Hz. pose proof (items_text p Hok) as Hb. pose proof (items_parse p Hok Hw) as Hp.
  assert (Hb' : Forall (fun c => item_text c || bool_decide (c = "!"%char) = true)
                  (bytes_of (join "," (show_items p)))).
  { eapply Forall_impl; [exact Hb|]. intros c Hc. simpl in *. by rewrite Hc. }
  pose proof (bytes_of_app (if Negate p then "!" else "") (join "," (show_items p))) as Hs.
  fold (show_port_expr p) in Hs. revert Hb Hp Hb' Hs.
  generalize (bytes_of (join "," (show_items p))) as body. intros body Hb Hp Hb' Hs.
  destruct (Negate p) eqn:Hneg; simpl in Hs.
  - rewrite (ParsePortExpr_raw _ _ Hs); [|by apply trim_items; constructor|discriminate..].
    rewrite has_prefix_cons, bool_decide_true by reflexivity.
    change (has_prefix body []) with true. cbn [andb drop]. rewrite !drop_0.
    by rewrite (text_no_prefix _ body Hb) by reflexivity.
  - rewrite (ParsePortExpr_raw _ _ Hs); [|by apply trim_items| |].
    + by rewrite !(text_no_prefix _ body Hb) by reflexivity.
    + intros ->. apply Forall_cons_1 in Hb as [Hb _]. discriminate Hb.
    + intros ->. destruct p as [ps rs ng w]. simpl in *. subst. injection Hp as <- <-.
      discriminate Hz.
Qed.

(** (C32) [ParsePortExpr] reads back every printed expression that says something. *)
Theorem ParsePortExpr_show (p : PortExpr) :
  ports_ok p -> Wildcard p = false -> IsZero p = false -> ParsePortExpr (show_port_expr p) = inl p.
Proof. apply parse_show. Qed.

Lemma ParsePortExpr_show_witness :
  ParsePortExpr "!22,80,8000-9000" =
  inl {| Ports := [22; 80]; Ranges := [(8000, 9000)]; Negate := true; Wildcard := false |}.
Proof.
  apply (ParsePortExpr_show
    {| Ports := [22; 80]; Ranges := [(8000, 9000)]; Negate := true; Wildcard := false |});
    [|reflexivity|reflexivity].
  split; simpl; repeat constructor; vm_compute; congruence.
Defined.

(** ** Lists *)

(** What a list of items is decoded to, when every item parses: all the ports
    and ranges of the items; an item's negation and wildcard are dropped. *)
Lemma unmarshal_items_ok items ps : forall p,
  Forall2 (fun s q => ParsePortExpr s = inl q) items ps ->
  unmarshal_items p items =
  ({| Ports := Ports p ++ concat (map Ports ps); Ranges := Ranges p ++ concat (map Ranges ps);
      Negate := Negate p; Wildcard := Wildcard p |}, None).
Proof.
  intros p H. revert p. induction H as [|s q items ps Hq _ IH]; intros p; simpl.
  - destruct p. simpl. by rewrite !app_nil_r.
  - rewrite Hq, IH. simpl. by rewrite <- !app_assoc.
Qed.

Lemma parse_show_port v :
  in_u 16 v -> ParsePortExpr (decimal v) =
  inl {| Ports := [v]; Ranges := []; Negate := false; Wildcard := false |}.
Proof.
  intros Hv. apply (parse_show {| Ports := [v]; Ranges := []; Negate := false; Wildcard := false |});
    [|done|done].
  split; simpl; [|constructor]. by constructor.
Qed.

Lemma parse_show_range r :
  in_u 16 (fst r) /\ in_u 16 (snd r) -> ParsePortExpr (show_range r) =
  inl {| Ports := []; Ranges := [r]; Negate := false; Wildcard := false |}.
Proof.
  intros [H1 H2]. apply (parse_show {| Ports := []; Ranges := [r]; Negate := false; Wildcard := false |});
    [|done|done]. split; simpl; [constructor|]. constructor; [by split|constructor].
Qed.

(** The expressions of the items of [p]. *)
Definition item_exprs (p : PortExpr) : list PortExpr :=
  map (fun v => {| Ports := [v]; Ranges := []; Negate := false; Wildcard := false |}) (Ports p) ++
  map (fun r => {| Ports := []; Ranges := [r]; Negate := false; Wildcard := false |}) (Ranges p).

Lemma items_exprs_parse p :
  ports_ok p -> Forall2 (fun s q => ParsePortExpr s = inl q) (show_items p) (item_exprs p).
Proof.
  intros [Hp Hr]. unfold show_items, item_exprs. apply Forall2_app; apply Forall2_fmap_2.
  - apply Forall_Forall2_diag. eapply Forall_impl; [exact Hp|]. exact parse_show_port.
  - apply Forall_Forall2_diag. eapply Forall_impl; [exact Hr|]. exact parse_show_range.
Qed.

Lemma item_exprs_fields p :
  concat (map Ports (item_exprs p)) = Ports p /\ concat (map Ranges (item_exprs p)) = Ranges p.
Proof.
  unfold item_exprs. rewrite !map_app, !map_map, !concat_app. simpl.
  assert (Hc : forall A (l : list A), concat (map (fun x => [x]) l) = l)
    by (induction l as [|x l IH]; simpl; congruence).
  assert (Hn : forall A B (l : list A), concat (map (fun _ : A => @nil B) l) = [])
    by (induction l as [|x l IH]; simpl; auto).
  by rewrite !Hc, !Hn, app_nil_r.
Qed.

(** An item that does not parse ends the loop; the items before it stay. *)
Lemma unmarshal_items_error items ps bad e more : forall p,
  Forall2 (fun s q => ParsePortExpr s = inl q) items ps -> ParsePortExpr bad = inr e ->
  unmarshal_items p (items ++ bad :: more) =
  ({| Ports := Ports p ++ concat (map Ports ps); Ranges := Ranges p ++ concat (map Ranges ps);
      Negate := Negate p; Wildcard := Wildcard p |}, Some e).
Proof.
  intros p H Hbad. revert p. induction H as [|s q items ps Hq _ IH]; intros p; simpl.
  - rewrite Hbad. destruct p. simpl. by rewrite !app_nil_r.
  - rewrite Hq, IH. simpl. by rewrite <- !app_assoc.
Qed.

(** What the items [ps] of a list amount to: their ports and ranges. *)
Definition items_union (ps : list PortExpr) : PortExpr :=
  {| Ports := concat (map Ports ps); Ranges := concat (map Ranges ps); Negate := false; Wildcard := false |}.

(** (C33) The two notations.  The text of an expression that is no wildcard and says
    something is decoded to the expression.  A list of items, each of which
    parses, is decoded to all their ports and ranges in order, and to no
    negation or wildcard, whatever the items say; so the list of the ports and
    ranges of an expression gives the expression without its negation, the same
    as its text when there is none.  The first item that does not parse ends
    the decoding with its error. *)
Theorem UnmarshalYAML_notations (p : PortExpr) (items : list string) (ps : list PortExpr) :
  ports_ok p -> Wildcard p = false -> IsZero p = false ->
  Forall2 (fun s q => ParsePortExpr s = inl q) items ps ->
  UnmarshalYAML zero_port_expr (ScalarNode (show_port_expr p)) = (p, None) /\
  UnmarshalYAML zero_port_expr (SequenceNode (show_items p)) =
    ({| Ports := Ports p; Ranges := Ranges p; Negate := false; Wildcard := false |}, None) /\
  UnmarshalYAML zero_port_expr (SequenceNode items) = (items_union ps, None) /\
  forall bad e more, ParsePortExpr bad = inr e ->
    UnmarshalYAML zero_port_expr (SequenceNode (items ++ bad :: more)) = (items_union ps, Some e).
Proof.
  intros Hok Hw Hz Hps. split_and!; cbn [UnmarshalYAML].
  - by rewrite parse_show.
  - rewrite (unmarshal_items_ok _ _ _ (items_exprs_parse p Hok)). by destruct (item_exprs_fields p) as [-> ->].
  - by rewrite (unmarshal_items_ok _ _ _ Hps).
  - intros bad e more Hbad. by rewrite (unmarshal_items_error items ps bad e more _ Hps Hbad).
Qed.

Lemma UnmarshalYAML_notations_witness :
  let p := {| Ports := [22; 80]; Ranges := [(8000, 9000)]; Negate := true; Wildcard := false |} in
  let items := ["!22,80"; "*"; "443"] in
  let all := {| Ports := [22; 80; 443]; Ranges := []; Negate := false; Wildcard := false |} in
  UnmarshalYAML zero_port_expr (ScalarNode "!22,80,8000-9000") = (p, None) /\
  UnmarshalYAML zero_port_expr (SequenceNode ["22"; "80"; "8000-9000"]) =
    ({| Ports := [22; 80]; Ranges := [(8000, 9000)]; Negate := false; Wildcard := false |}, None) /\
  UnmarshalYAML zero_port_expr (SequenceNode items) = (all, None) /\
  forall bad e more, ParsePortExpr bad = inr e ->
    UnmarshalYAML zero_port_expr (SequenceNode (items ++ bad :: more)) = (all, Some e).
Proof.
  intros p items all.
  refine (UnmarshalYAML_notations p items
    [{| Ports := [22; 80]; Ranges := []; Negate := true; Wildcard := false |};
     {| Ports := []; Ranges := []; Negate := false; Wildcard := true |};
     {| Ports := [443]; Ranges := []; Negate := false; Wildcard := false |}] _ _ _ _); [|reflexivity..|].
  - split; simpl; repeat constructor; vm_compute; congruence.
  - repeat constructor; vm_compute; reflexivity.
Defined.

(** A negated item of a list loses its negation, and a wildcard item constrains
    nothing. *)
Example UnmarshalYAML_items_lose :
  UnmarshalYAML zero_port_expr (SequenceNode ["!22"]) =
    ({| Ports := [22]; Ranges := []; Negate := false; Wildcard := false |}, None) /\
  UnmarshalYAML zero_port_expr (SequenceNode ["*"]) = (zero_port_expr, None).
Proof. split; vm_compute; reflexivity. Qed.
