(* ===== verification/Rule.v ===== *)
(** * Rules and their matching

    [internal/ruleengine/rule.go] and the configuration type of
    [internal/ruleengine/sequence.go]: match blocks, rules, [matchPattern], and
    the two [MatchEvent] methods. *)

From S2P Require Import Prelude.
From S2P Require Import Bytes.
From S2P Require Import GoLib.
From S2P Require Import PathMatch.
From S2P Require Import Core.
From S2P Require Import PortExpr.

Open Scope Z_scope.

#[local] Set Warnings "-register-all".

Inductive MatchBlock := mkMatchBlock {
  MB_EventType : string;
  MB_SrcProcess : string;
  MB_DstProcess : string;
  MB_SrcContainer : string;
  MB_DstContainer : string;
  MB_SrcPort : PortExpr;
  MB_DstPort : PortExpr;
  MB_FilePath : string;
  MB_FileOp : string;
  MB_ExecPath : string;
  MB_ParentProcess : string;
  MB_Not : option MatchBlock
}.

Record DetectConfig := {
  DC_Mode : string;
  DC_Count : Z;
  DC_Window : string;
  DC_GroupBy : list string
}.

Definition SequenceStep := MatchBlock.

Record SequenceConfig := {
  SC_Window : string;
  SC_GroupBy : list string;
  SC_Steps : list SequenceStep
}.

Record Rule := {
  R_Name : string;
  R_Description : string;
  R_Severity : string;
  R_Mitre : string;
  R_Match : option MatchBlock;
  R_Any : list MatchBlock;
  R_All : list MatchBlock;
  R_Detect : DetectConfig;
  R_Sequence : option SequenceConfig
}.

Definition matchPattern (pattern value : string) : bool :=
  match Match pattern value with
  | None => false
  | Some matched => matched
  end.

Definition given (s : string) : bool := negb (bool_decide (s = "")).

(** The method on [*MatchBlock]: a [not] block is the negation of what it
    holds and nothing else of it is looked at. *)
Fixpoint MB_MatchEvent (m : MatchBlock) (event : Event) : bool :=
  match m with
  | mkMatchBlock EventType' SrcProcess DstProcess SrcContainer' DstContainer' SrcPort' DstPort'
      FilePath' FileOp' ExecPath' ParentProcess Not =>
      match Not with
      | Some n => negb (MB_MatchEvent n event)
      | None =>
          if given EventType' && negb (bool_decide (EventType' = EventType event)) then false
          else
            let res := true in
            let res := if given SrcProcess
              then res && matchPattern SrcProcess (SrcProcessName event) else res in
            let res := if given DstProcess
              then res && matchPattern DstProcess (DstProcessName event) else res in
            let res :=
              match SrcContainer event with
              | Some c => if given SrcContainer' then res && matchPattern SrcContainer' (CI_Name c) else res
              | None => res
              end in
            let res :=
              match DstContainer event with
              | Some c => if given DstContainer' then res && matchPattern DstContainer' (CI_Name c) else res
              | None => res
              end in
            let res := if negb (IsZero SrcPort') && negb (SrcPort event =? 0)
              then res && PortMatch SrcPort' (SrcPort event) else res in
            let res := if negb (IsZero DstPort') && negb (DstPort event =? 0)
              then res && PortMatch DstPort' (DstPort event) else res in
            let res := if given ExecPath'
              then res && matchPattern ExecPath' (ExecPath event) else res in
            let res := if given ParentProcess
              then res && matchPattern ParentProcess (ParentProcessName event) else res in
            let res := if given FilePath'
              then res && matchPattern FilePath' (FilePath event) else res in
            let res := if given FileOp'
              then res && matchPattern FileOp' (FileOp event) else res in
            res
      end
  end.

Fixpoint any_loop (ms : list MatchBlock) (event : Event) : bool :=
  match ms with
  | [] => false
  | m :: ms => if MB_MatchEvent m event then true else any_loop ms event
  end.
Fixpoint all_loop (ms : list MatchBlock) (event : Event) : bool :=
  match ms with
  | [] => true
  | m :: ms => if negb (MB_MatchEvent m event) then false else all_loop ms event
  end.

(** The method on [*Rule]. *)
Definition R_MatchEvent (r : Rule) (event : Event) : bool :=
  match R_Match r with
  | Some m => MB_MatchEvent m event
  | None =>
      if (0 <? length (R_Any r))%nat then any_loop (R_Any r) event
      else if (0 <? length (R_All r))%nat then all_loop (R_All r) event
      else false
  end.

(** ** What a match block requires *)

(** A text constraint: absent when the pattern is empty. *)
Definition text_ok (pattern value : string) : Prop :=
  pattern = "" \/ matchPattern pattern value = true.
(** A container constraint: also void when the event has no such container. *)
Definition container_ok (pattern : string) (c : option ContainerInfo) : Prop :=
  match c with Some c => text_ok pattern (CI_Name c) | None => True end.
(** A port constraint: void when nothing is written or the event has no port. *)
Definition port_ok (p : PortExpr) (port : Z) : Prop :=
  IsZero p = true \/ port = 0 \/ PortMatch p port = true.

(** The conjunction a block without [not] stands for. *)
Definition block_ok (m : MatchBlock) (e : Event) : Prop :=
  (MB_EventType m = "" \/ MB_EventType m = EventType e) /\
  text_ok (MB_SrcProcess m) (SrcProcessName e) /\
  text_ok (MB_DstProcess m) (DstProcessName e) /\
  container_ok (MB_SrcContainer m) (SrcContainer e) /\
  container_ok (MB_DstContainer m) (DstContainer e) /\
  port_ok (MB_SrcPort m) (SrcPort e) /\
  port_ok (MB_DstPort m) (DstPort e) /\
  text_ok (MB_ExecPath m) (ExecPath e) /\
  text_ok (MB_ParentProcess m) (ParentProcessName e) /\
  text_ok (MB_FilePath m) (FilePath e) /\
  text_ok (MB_FileOp m) (FileOp e).

(** A block denotes a set of events: its conjunction, or the complement of the
    block under its [not]. *)
Fixpoint denotes (m : MatchBlock) (e : Event) : Prop :=
  match MB_Not m with
  | Some n => ~ denotes n e
  | None => block_ok m e
  end.

Lemma text_test (p v : string) (res : bool) :
  (if given p then res && matchPattern p v else res) = true <-> res = true /\ text_ok p v.
Proof.
  unfold given, text_ok. case_bool_decide as H; simpl; [tauto|].
  rewrite andb_true_iff. tauto.
Qed.

Lemma text_test_first (p v : string) :
  (if given p then matchPattern p v else true) = true <-> text_ok p v.
Proof.
  assert (true = true) by reflexivity. pose proof (text_test p v true) as Ht. simpl in Ht. tauto.
Qed.

Lemma container_test p c (res : bool) :
  match c with
  | Some c => if given p then res && matchPattern p (CI_Name c) else res
  | None => res
  end = true <-> res = true /\ container_ok p c.
Proof. destruct c; simpl; [apply text_test|tauto]. Qed.

Lemma port_test p port (res : bool) :
  (if negb (IsZero p) && negb (port =? 0) then res && PortMatch p port else res) = true <->
  res = true /\ port_ok p port.
Proof.
  unfold port_ok. destruct (IsZero p); simpl; [tauto|].
  destruct (Z.eqb_spec port 0); simpl; [tauto|]. rewrite andb_true_iff.
  split; [tauto|]. intros [? [?|[?|?]]]; [discriminate|contradiction|tauto].
Qed.

Lemma block_test m e :
  MB_Not m = None -> MB_MatchEvent m e = true <-> block_ok m e.
Proof.
  destruct m as [et sp dp sc dc spt dpt fp fo ep pp n]. simpl. intros ->.
  unfold block_ok. simpl.
  assert (Het : given et && negb (bool_decide (et = EventType e)) = false <->
                et = "" \/ et = EventType e).
  { unfold given. repeat case_bool_decide; simpl; intuition congruence. }
  destruct (given et && negb (bool_decide (et = EventType e))) eqn:E.
  - split; [discriminate|]. intros [H _]. apply Het in H. discriminate H.
  - apply proj1 in Het. specialize (Het eq_refl).
    rewrite !text_test, !port_test, !container_test, text_test, text_test_first. tauto.
Qed.

Lemma MB_MatchEvent_not m n e :
  MB_Not m = Some n -> MB_MatchEvent m e = negb (MB_MatchEvent n e).
Proof. destruct m. simpl. by intros ->. Qed.

Lemma denotes_not m n e : MB_Not m = Some n -> denotes m e = (~ denotes n e).
Proof. destruct m. simpl. by intros ->. Qed.

Lemma denotes_block m e : MB_Not m = None -> denotes m e = block_ok m e.
Proof. destruct m. simpl. by intros ->. Qed.

(** Depth of nested [not]s, for induction. *)
Fixpoint not_depth (m : MatchBlock) : nat :=
  match MB_Not m with Some n => S (not_depth n) | None => O end.

Lemma not_depth_not m n : MB_Not m = Some n -> not_depth m = S (not_depth n).
Proof. destruct m. simpl. by intros ->. Qed.

(** [MatchEvent] decides the events a block denotes, however its [not]s nest. *)
Theorem MatchEvent_denotes (m : MatchBlock) (e : Event) :
  MB_MatchEvent m e = true <-> denotes m e.
Proof.
  remember (not_depth m) as d eqn:Hd. revert m Hd.
  induction d as [|d IH]; intros m Hd; destruct (MB_Not m) as [n|] eqn:En.
  - rewrite (not_depth_not m n En) in Hd. discriminate.
  - rewrite denotes_block by assumption. by apply block_test.
  - rewrite (not_depth_not m n En) in Hd. injection Hd as Hd.
    rewrite (MB_MatchEvent_not m n e En), (denotes_not m n e En), <- (IH n Hd).
    destruct (MB_MatchEvent n e); simpl; split; congruence || tauto.
  - rewrite denotes_block by assumption. by apply block_test.
Qed.

(** What a rule's matching part stands for: [match] if present, else the
    disjunction of [any] if not empty, else the conjunction of [all] if not
    empty, else nothing. *)
Definition rule_denotes (r : Rule) (e : Event) : Prop :=
  match R_Match r, R_Any r, R_All r with
  | Some m, _, _ => denotes m e
  | None, (_ :: _) as ms, _ => Exists (fun m => denotes m e) ms
  | None, [], (_ :: _) as ms => Forall (fun m => denotes m e) ms
  | None, [], [] => False
  end.

Lemma any_loop_spec ms e : any_loop ms e = true <-> Exists (fun m => denotes m e) ms.
Proof.
  induction ms as [|m ms IH]; simpl.
  - split; [discriminate|]. intros H. inversion H.
  - rewrite Exists_cons, <- IH, <- MatchEvent_denotes.
    destruct (MB_MatchEvent m e); simpl; intuition congruence.
Qed.

Lemma all_loop_spec ms e : all_loop ms e = true <-> Forall (fun m => denotes m e) ms.
Proof.
  induction ms as [|m ms IH]; simpl; [by split|].
  rewrite Forall_cons, <- IH, <- MatchEvent_denotes.
  destruct (MB_MatchEvent m e); simpl; intuition congruence.
Qed.

(** (C25) [Rule.MatchEvent] decides it. *)
Theorem Rule_MatchEvent_denotes (r : Rule) (e : Event) :
  R_MatchEvent r e = true <-> rule_denotes r e.
Proof.
  unfold R_MatchEvent, rule_denotes.
  destruct (R_Match r) as [m|]; [apply MatchEvent_denotes|].
  destruct (R_Any r) as [|m ms]; simpl length; [|apply any_loop_spec].
  destruct (R_All r) as [|m ms]; simpl length; [|apply all_loop_spec].
  simpl. split; [discriminate|tauto].
Qed.

(** (C26) A pattern of literals and stars, as all the rules of the repository have,
    matches exactly the values that fit it, a star standing for any bytes but
    slashes. *)
Theorem matchPattern_glob (pattern value : string) :
  plain (bytes_of pattern) ->
  matchPattern pattern value = true <-> glob (bytes_of pattern) (bytes_of value).
Proof.
  intros Hp. destruct (Match_plain pattern value Hp) as (m & Hm & H).
  unfold matchPattern. by rewrite Hm.
Qed.

Lemma matchPattern_glob_witness :
  matchPattern "/tmp/*key*" "/tmp/my_key.pem" = true <->
  glob (bytes_of "/tmp/*key*") (bytes_of "/tmp/my_key.pem").
Proof.
  refine (matchPattern_glob "/tmp/*key*" "/tmp/my_key.pem" _).
  repeat (constructor; [by split_and!|]). constructor.
Defined.
