(* ===== verification/Engine.v ===== *)
(** * The rule engine

    [internal/ruleengine/engine.go] and [sequence.go]: threshold windows,
    group keys, sequence trackers and the processing of one event by all rules.
    The engine's one goroutine runs the handlers, so the mutex is not modelled;
    an alert raised is appended to [alerts], from where [Pipeline] sends it. *)

From S2P Require Import Prelude.
From S2P Require Import Bytes.
From S2P Require Import GoLib.
From S2P Require Import Duration.
From S2P Require Import Core.
From S2P Require Import PortExpr.
From S2P Require Import Rule.

Open Scope Z_scope.

Record thresholdWindow := {
  timestamps : list Z;
  windowSize : Z;
  threshold : Z
}.

Record sequenceTracker := {
  currentStep : Z;
  stepTimes : list Z;
  window : Z
}.

(** [sequenceState]; its map is [None] while it is Go's nil map. *)
Record sequenceState := {
  trackers : option (gmap string sequenceTracker)
}.

Record RuleEngine := {
  rules : list Rule;
  alerts : list Alert;
  thresholds : gmap string thresholdWindow;
  sequences : sequenceState
}.

(** [New], once [LoadRules] has filled the rules: the composite literal leaves
    [sequences] at its zero value. *)
Definition NewEngine (loaded : list Rule) : RuleEngine := {|
  rules := loaded; alerts := []; thresholds := ∅; sequences := {| trackers := None |}
|}.

Definition with_alerts (r : RuleEngine) (l : list Alert) : RuleEngine :=
  {| rules := rules r; alerts := l; thresholds := thresholds r; sequences := sequences r |}.
Definition with_thresholds (r : RuleEngine) (m : gmap string thresholdWindow) : RuleEngine :=
  {| rules := rules r; alerts := alerts r; thresholds := m; sequences := sequences r |}.
Definition with_trackers (r : RuleEngine) (m : option (gmap string sequenceTracker)) : RuleEngine :=
  {| rules := rules r; alerts := alerts r; thresholds := thresholds r;
     sequences := {| trackers := m |} |}.

(** [AddEvent]: the loop that drops expired timestamps from the front. *)
Fixpoint drop_expired (now size : Z) (ts : list Z) : list Z :=
  match ts with
  | t :: ts' => if time_sub now t >? size then drop_expired now size ts' else ts
  | [] => []
  end.

Definition AddEvent (tw : thresholdWindow) (timestamp : Z) : thresholdWindow * Z :=
  let ts := timestamps tw ++ [timestamp] in
  let ts := drop_expired timestamp (windowSize tw) ts in
  ({| timestamps := ts; windowSize := windowSize tw; threshold := threshold tw |},
   Z.of_nat (length ts)).

(** One iteration of the loop of [buildGroupKey]. *)
Definition group_field (event : Event) (field : string) : go (list string) :=
  if decide (field = "src_container") then
    match SrcContainer event with
    | Some c => Ret [CI_Name c]
    | None => Panic NilDeref
    end
  else if decide (field = "dst_container") then
    match DstContainer event with
    | None => Ret [""]
    | Some c => Ret [CI_Name c]
    end
  else if decide (field = "src_addr") then Ret [SrcAddr event]
  else if decide (field = "dst_addr") then Ret [DstAddr event]
  else if decide (field = "src_port") then Ret [decimal (SrcPort event)]
  else if decide (field = "dst_port") then Ret [decimal (DstPort event)]
  else Ret [].

Fixpoint group_fields (event : Event) (groupBy : list string) : go (list string) :=
  match groupBy with
  | [] => Ret []
  | field :: groupBy =>
      k ← group_field event field; ks ← group_fields event groupBy; Ret (k ++ ks)
  end.

Definition buildGroupKey (ruleName : string) (groupBy : list string) (event : Event) : go string :=
  keys ← group_fields event groupBy;
  Ret (join ":" (ruleName :: keys)).

Definition emitAlert (r : RuleEngine) (alert : Alert) : RuleEngine :=
  with_alerts r (alerts r ++ [alert]).

(** The alert that both the handlers and [ProcessEvent] build. *)
Definition rule_alert (rule : Rule) (event : Event) : Alert := {|
  AlertTimestamp := Timestamp event;
  RuleName := R_Name rule;
  Severity := R_Severity rule;
  Description := R_Description rule;
  AlertSrcContainer := SrcContainer event;
  AlertDstContainer := DstContainer event
|}.

Definition handleThreshold (r : RuleEngine) (rule : Rule) (event : Event) : go RuleEngine :=
  groupKey ← buildGroupKey (R_Name rule) (DC_GroupBy (R_Detect rule)) event;
  let size := match ParseDuration (DC_Window (R_Detect rule)) with
              | Some d => d
              | None => 10 * Second
              end in
  let th := match thresholds r !! groupKey with
            | Some th => th
            | None => {| timestamps := []; windowSize := size;
                         threshold := DC_Count (R_Detect rule) |}
            end in
  let '(th, count) := AddEvent th (Timestamp event) in
  let r := with_thresholds r (<[groupKey := th]> (thresholds r)) in
  if count >? DC_Count (R_Detect rule) then Ret (emitAlert r (rule_alert rule event)) else Ret r.

(** [advanceStep]; reading [stepTimes[0]] of an empty slice panics. *)
Definition advanceStep (tracker : sequenceTracker) (stepIndex timestamp : Z) : go sequenceTracker :=
  if negb (currentStep tracker =? stepIndex) then Ret tracker
  else if currentStep tracker =? 0 then
    Ret {| currentStep := currentStep tracker + 1; stepTimes := [timestamp];
           window := window tracker |}
  else
    match stepTimes tracker with
    | [] => Panic IndexOutOfRange
    | t0 :: _ =>
        if time_sub timestamp t0 >? window tracker then
          Ret {| currentStep := 0; stepTimes := []; window := window tracker |}
        else
          Ret {| currentStep := currentStep tracker + 1;
                 stepTimes := stepTimes tracker ++ [timestamp]; window := window tracker |}
    end.

(** One iteration of the step loop of [handleSequence], for a matching step. *)
Definition sequence_step (r : RuleEngine) (rule : Rule) (seq : SequenceConfig) (key : string)
    (event : Event) (stepIdx : Z) : go RuleEngine :=
  let m := trackers (sequences r) in
  tr ← (match match m with Some m => m !! key | None => None end with
        | Some tracker => Ret (tracker, m)
        | None =>
            let w := match ParseDuration (SC_Window seq) with
                     | Some d => d
                     | None => 5 * Second
                     end in
            let tracker := {| currentStep := stepIdx; stepTimes := [Timestamp event];
                              window := w |} in
            match m with
            | None => Panic NilMapWrite
            | Some m => Ret (tracker, Some (<[key := tracker]> m))
            end
        end : go (sequenceTracker * option (gmap string sequenceTracker)));
  let '(tracker, m) := tr in
  tracker ← advanceStep tracker stepIdx (Timestamp event);
  let r := with_trackers r (fmap (M := option) (insert key tracker) m) in
  if currentStep tracker >=? Z.of_nat (length (SC_Steps seq))
  then Ret (emitAlert r (rule_alert rule event)) else Ret r.

Fixpoint sequence_loop (r : RuleEngine) (rule : Rule) (seq : SequenceConfig) (key : string)
    (event : Event) (stepIdx : Z) (steps : list SequenceStep) : go RuleEngine :=
  match steps with
  | [] => Ret r
  | step :: steps =>
      if negb (MB_MatchEvent step event) then
        sequence_loop r rule seq key event (stepIdx + 1) steps
      else
        r ← sequence_step r rule seq key event stepIdx;
        sequence_loop r rule seq key event (stepIdx + 1) steps
  end.

Definition handleSequence (r : RuleEngine) (rule : Rule) (event : Event) : go RuleEngine :=
  match R_Sequence rule with
  | None => Ret r
  | Some seq =>
      let groupBy := if (length (SC_GroupBy seq) =? 0)%nat
                     then ["src_container"] else SC_GroupBy seq in
      key ← buildGroupKey (R_Name rule) groupBy event;
      sequence_loop r rule seq key event 0 (SC_Steps seq)
  end.

(** One iteration of the loop of [ProcessEvent]. *)
Definition process_rule (r : RuleEngine) (rule : Rule) (event : Event) : go RuleEngine :=
  match R_Sequence rule with
  | Some _ => handleSequence r rule event
  | None =>
      if negb (R_MatchEvent rule event) then Ret r
      else if decide (DC_Mode (R_Detect rule) = "threshold")
      then handleThreshold r rule event
      else Ret (emitAlert r (rule_alert rule event))
  end.

Fixpoint process_rules (r : RuleEngine) (rs : list Rule) (event : Event) : go RuleEngine :=
  match rs with
  | [] => Ret r
  | rule :: rs => r ← process_rule r rule event; process_rules r rs event
  end.

Definition ProcessEvent (r : RuleEngine) (event : Event) : go RuleEngine :=
  process_rules r (rules r) event.

(** [ProcessLoop]: the events received until the channel closes, in order. *)
Fixpoint ProcessLoop (r : RuleEngine) (events : list Event) : go RuleEngine :=
  match events with
  | [] => Ret r
  | event :: events => r ← ProcessEvent r event; ProcessLoop r events
  end.

(** ** The threshold window *)

(** The test the window applies: [t] is at most [size] before [now]. *)
Definition within (now size t : Z) : bool := negb (time_sub now t >? size).

(** The window of a key after the events at times [ts]. *)
Definition window_run (w : thresholdWindow) (ts : list Z) : thresholdWindow :=
  fold_left (fun w t => fst (AddEvent w t)) ts w.

Definition new_window (size count : Z) : thresholdWindow :=
  {| timestamps := []; windowSize := size; threshold := count |}.

Lemma time_sub_mono now now' t t' :
  now <= now' -> t' <= t -> time_sub now t <= time_sub now' t'.
Proof. unfold time_sub. lia. Qed.

Lemma within_mono now now' size t :
  now <= now' -> within now' size t = true -> within now size t = true.
Proof.
  unfold within. intros Hn H. pose proof (time_sub_mono now now' t t Hn ltac:(lia)).
  rewrite negb_true_iff, Z.gtb_ltb, Z.ltb_ge in *. lia.
Qed.

(** On times in order, dropping from the front is filtering. *)
Lemma drop_expired_filter now size ts :
  StronglySorted Z.le ts -> drop_expired now size ts = List.filter (within now size) ts.
Proof.
  induction 1 as [|t ts Hs IH Hall]; [reflexivity|]. simpl. unfold within at 1.
  destruct (Z.gtb_spec (time_sub now t) size) as [Hgt|Hle]; simpl; [exact IH|].
  f_equal. symmetry. apply List.forallb_filter_id. apply List.forallb_forall. intros x Hx.
  rewrite Forall_forall in Hall. specialize (Hall x ltac:(by apply list_elem_of_In)).
  unfold within. pose proof (time_sub_mono now now x t ltac:(lia) Hall). rewrite negb_true_iff, Z.gtb_ltb, Z.ltb_ge. lia.
Qed.

Lemma window_run_snoc w ts t :
  window_run w (ts ++ [t]) = fst (AddEvent (window_run w ts) t).
Proof. unfold window_run. by rewrite fold_left_app. Qed.

Lemma AddEvent_count w t : snd (AddEvent w t) = Z.of_nat (length (timestamps (fst (AddEvent w t)))).
Proof. reflexivity. Qed.

Lemma window_run_size w ts : windowSize (window_run w ts) = windowSize w.
Proof. revert w. induction ts as [|t ts IH]; intros w; [reflexivity|].
  change (windowSize (window_run (fst (AddEvent w t)) ts) = windowSize w). by rewrite IH. Qed.

Lemma AddEvent_window (size count : Z) (ts : list Z) (now : Z) :
  StronglySorted Z.le (ts ++ [now]) ->
  let '(w, n) := AddEvent (window_run (new_window size count) ts) now in
  timestamps w = List.filter (within now size) (ts ++ [now]) /\
  n = Z.of_nat (length (List.filter (within now size) (ts ++ [now]))).
Proof.
  intros Hs.
  enough (H : timestamps (window_run (new_window size count) (ts ++ [now])) =
              List.filter (within now size) (ts ++ [now])).
  { rewrite window_run_snoc in H. simpl in *. by rewrite H. }
  revert now Hs. induction ts as [|t ts IH] using rev_ind; intros now Hs.
  - simpl. unfold within. destruct (_ >? _); reflexivity.
  - rewrite window_run_snoc. cbn [fst AddEvent timestamps]. rewrite window_run_size. cbn [windowSize new_window].
    pose proof (StronglySorted_snoc_inv _ _ Hs) as [Hs1 Hle]. rewrite (IH t Hs1).
    rewrite drop_expired_filter.
    + rewrite 2!(List.filter_app _ _ [now]). f_equal. apply filter_filter_weaker.
      intros x. apply within_mono. rewrite Forall_forall in Hle. apply Hle, elem_of_app. right. by constructor.
    + apply StronglySorted_snoc; [by apply StronglySorted_filter|].
      rewrite Forall_forall in *. intros x Hx. apply Hle.
      apply list_elem_of_In, List.filter_In in Hx as [Hx _]. by apply list_elem_of_In.
Qed.

(** [AddEvent] implements a sliding window: after events in time order, the
    window holds exactly the times within [size] of the last event, and the
    count returned for the last event is their number. *)
Theorem AddEvent_sliding_window (size count : Z) (ts : list Z) (now : Z) :
  StronglySorted Z.le (ts ++ [now]) ->
  let '(w, n) := AddEvent (window_run (new_window size count) ts) now in
  timestamps w = List.filter (within now size) (ts ++ [now]) /\
  n = Z.of_nat (length (List.filter (within now size) (ts ++ [now]))).
Proof. apply AddEvent_window. Qed.

Lemma AddEvent_sliding_window_witness :
  let '(w, n) := AddEvent (window_run (new_window 10 3) [0; 5; 12]) 15 in
  timestamps w = [5; 12; 15] /\ n = 3.
Proof.
  refine (AddEvent_sliding_window 10 3 [0; 5; 12] 15 _). repeat constructor; lia.
Defined.

(** ** Group keys *)

Lemma group_field_total event field :
  is_Some (SrcContainer event) -> exists ks, group_field event field = Ret ks.
Proof. intros [c Hc]. unfold group_field. rewrite Hc. repeat case_decide; eauto. by destruct (DstContainer event); eauto. Qed.

Lemma group_fields_total event groupBy :
  is_Some (SrcContainer event) -> exists ks, group_fields event groupBy = Ret ks.
Proof.
  intros Hc. induction groupBy as [|f fs [ks IH]]; simpl; [by eexists|].
  destruct (group_field_total event f Hc) as [k ->]. simpl. rewrite IH. simpl. eauto.
Qed.

Lemma buildGroupKey_total n groupBy event :
  is_Some (SrcContainer event) -> exists k, buildGroupKey n groupBy event = Ret k.
Proof.
  intros Hc. unfold buildGroupKey. destruct (group_fields_total event groupBy Hc) as [ks ->]. simpl. eauto.
Qed.

(** The parts of the key that the known fields give. *)
Definition field_value (event : Event) (field : string) : option string :=
  if decide (field = "src_container") then CI_Name <$> SrcContainer event
  else if decide (field = "dst_container") then Some (from_option CI_Name "" (DstContainer event))
  else if decide (field = "src_addr") then Some (SrcAddr event)
  else if decide (field = "dst_addr") then Some (DstAddr event)
  else if decide (field = "src_port") then Some (decimal (SrcPort event))
  else if decide (field = "dst_port") then Some (decimal (DstPort event))
  else None.

Lemma group_fields_values event groupBy ks :
  group_fields event groupBy = Ret ks -> ks = omap (field_value event) groupBy.
Proof.
  revert ks. induction groupBy as [|f fs IH]; intros ks; simpl; [by intros [= <-]|].
  intros (k & Hk & H)%go_bind_Ret_inv. apply go_bind_Ret_inv in H as (ks' & Hks & H).
  injection H as <-. rewrite (IH _ Hks). revert Hk. unfold group_field, field_value.
  destruct (SrcContainer event), (DstContainer event); repeat case_decide; simpl; by intros [= <-].
Qed.

Definition no_colon (s : string) : Prop := ":"%char ∉ bytes_of s.

(** A grouped key mentions the same fields for every event. *)
Lemma field_value_known event f k :
  group_field event f = Ret k ->
  is_Some (field_value event f) <->
  f ∈ ["src_container"; "dst_container"; "src_addr"; "dst_addr"; "src_port"; "dst_port"].
Proof.
  unfold group_field, field_value. rewrite !elem_of_cons, elem_of_nil.
  destruct (SrcContainer event), (DstContainer event); repeat case_decide; simpl; intros [= <-];
    split; intros H'; try tauto; try (by eexists); by destruct H'.
Qed.

Lemma group_fields_known event groupBy ks :
  group_fields event groupBy = Ret ks ->
  Forall (fun f => exists k, group_field event f = Ret k) groupBy.
Proof.
  revert ks. induction groupBy as [|f fs IH]; intros ks; [constructor|]. simpl.
  intros (k & Hk & (ks' & Hks & _)%go_bind_Ret_inv)%go_bind_Ret_inv. constructor; eauto.
Qed.

Lemma buildGroupKey_join n groupBy e k :
  buildGroupKey n groupBy e = Ret k ->
  k = join ":" (n :: omap (field_value e) groupBy) /\
  Forall (fun f => exists k, group_field e f = Ret k) groupBy.
Proof.
  intros (ks & G & E)%go_bind_Ret_inv. rewrite <- (group_fields_values _ _ _ G).
  split; [congruence|]. eauto using group_fields_known.
Qed.

Lemma same_group_key (n : string) (groupBy : list string) (e1 e2 : Event) (k1 k2 : string) :
  no_colon n ->
  Forall no_colon (omap (field_value e1) groupBy) -> Forall no_colon (omap (field_value e2) groupBy) ->
  buildGroupKey n groupBy e1 = Ret k1 -> buildGroupKey n groupBy e2 = Ret k2 ->
  k1 = k2 <-> Forall (fun f => field_value e1 f = field_value e2 f) groupBy.
Proof.
  intros Hn H1 H2 [-> G1]%buildGroupKey_join [-> G2]%buildGroupKey_join.
  rewrite <- omap_eq_all.
  - split; [|by intros ->]. intros H. apply (join_inj ":"%char) in H; [congruence|by constructor..|done|done].
  - rewrite Forall_forall in *. intros f Hf. destruct (G1 f Hf) as [? F1], (G2 f Hf) as [? F2].
    by rewrite (field_value_known _ _ _ F1), (field_value_known _ _ _ F2).
Qed.

(** (C28) Two events have the same key under a rule exactly when they agree on every
    field it groups by, as long as no value contains the separator. *)
Theorem buildGroupKey_groups (n : string) (groupBy : list string) (e1 e2 : Event) (k1 k2 : string) :
  no_colon n ->
  Forall no_colon (omap (field_value e1) groupBy) -> Forall no_colon (omap (field_value e2) groupBy) ->
  buildGroupKey n groupBy e1 = Ret k1 -> buildGroupKey n groupBy e2 = Ret k2 ->
  k1 = k2 <-> Forall (fun f => field_value e1 f = field_value e2 f) groupBy.
Proof. apply same_group_key. Qed.

(** An event with a source container, for the examples. *)
Definition sample_event (t : Z) (file : string) : Event := {|
  EventType := "file_open"; Timestamp := t;
  SrcContainer := Some {| CI_ID := "1"; CI_Name := "web"; CI_Image := "nginx" |};
  SrcProcessName := "cat"; SrcPID := 7; SrcCgroupID := 9; SrcAddr := ""; SrcPort := 0;
  DstContainer := None; DstProcessName := ""; DstPID := 0; DstCgroupID := 0;
  DstAddr := ""; DstPort := 0; FilePath := file; FileOp := "read"; ExecPath := "";
  ParentPID := 0; ParentProcessName := ""
|}.

Lemma buildGroupKey_groups_witness :
  let e1 := sample_event 1 "/a" in let e2 := sample_event 2 "/b" in
  "r:web" = "r:web" <->
  Forall (fun f => field_value e1 f = field_value e2 f) ["src_container"; "pid"].
Proof.
  intros e1 e2.
  refine (buildGroupKey_groups "r" ["src_container"; "pid"] e1 e2 _ _ _ _ _ _ _);
    [by apply (bool_decide_unpack _); vm_compute| | |reflexivity|reflexivity];
    repeat constructor; by apply (bool_decide_unpack _); vm_compute.
Defined.

(** ** One rule among others

    What a rule without a sequence promises: the alerts it raises depend on
    its own matches only. *)

Definition group_of (rule : Rule) (e : Event) : go string :=
  buildGroupKey (R_Name rule) (DC_GroupBy (R_Detect rule)) e.

Definition window_of (rule : Rule) : Z :=
  default (10 * Second) (ParseDuration (DC_Window (R_Detect rule))).

Definition is_threshold (rule : Rule) : bool := bool_decide (DC_Mode (R_Detect rule) = "threshold").

(** The times of the events that [rule] matched in the group of key [k]. *)
Definition group_times (rule : Rule) (k : string) (es : list Event) : list Z :=
  map Timestamp (List.filter (fun e => R_MatchEvent rule e && bool_decide (group_of rule e = Ret k)) es).

(** The times of all its matches. *)
Definition match_times (rule : Rule) (es : list Event) : list Z :=
  map Timestamp (List.filter (R_MatchEvent rule) es).

(** The times that stay, in whatever order they come: each time joins the ones
    before it, and then the longest run at the front that it finds more than
    [size] old goes.  A time behind one that stays does so too. *)
Definition kept (size : Z) (ts : list Z) : list Z :=
  fold_left (fun stay now => drop_while (fun t => negb (within now size t)) (stay ++ [now])) ts [].

(** Ways to count the matches of a group for the last of them: those in the
    sliding window that ends at it, and those that stay of the ones that came. *)
Definition counter := Z -> Z -> list Z -> nat.
Definition sliding : counter := fun size now ts => length (List.filter (within now size) ts).
Definition retained : counter := fun size _ ts => length (kept size ts).

(** Does [rule] alert on [e], which follows the events [past]?  In threshold
    mode when the count of its group exceeds [Count]. *)
Definition fires_with (count : counter) (rule : Rule) (past : list Event) (e : Event) : bool :=
  R_MatchEvent rule e &&
  (negb (is_threshold rule) ||
   match group_of rule e with
   | Ret k => Z.of_nat (count (window_of rule) (Timestamp e) (group_times rule k (past ++ [e])))
                >? DC_Count (R_Detect rule)
   | Panic _ => false
   end).

Fixpoint alerts_with (count : counter) (rule : Rule) (past es : list Event) : list Alert :=
  match es with
  | [] => []
  | e :: es => (if fires_with count rule past e then [rule_alert rule e] else []) ++
               alerts_with count rule (past ++ [e]) es
  end.

(** The specification for events in time order. *)
Definition rule_fires : Rule -> list Event -> Event -> bool := fires_with sliding.
Definition rule_alerts : Rule -> list Event -> list Event -> list Alert := alerts_with sliding.

(** The windows the engine keeps for the groups of [rule]. *)
Definition windows_inv (rule : Rule) (past : list Event) (m : gmap string thresholdWindow) : Prop :=
  forall k, (exists e, group_of rule e = Ret k) ->
  m !! k = match group_times rule k past with
           | [] => None
           | ts => Some (window_run (new_window (window_of rule) (DC_Count (R_Detect rule))) ts)
           end.

(** The name before the first colon of a key. *)
Definition before_colon (s : string) : list byte := default [] (head (split_on ":"%char (bytes_of s))).

Lemma buildGroupKey_name n groupBy e k :
  no_colon n -> buildGroupKey n groupBy e = Ret k -> before_colon k = bytes_of n.
Proof.
  intros Hn [-> _]%buildGroupKey_join. unfold before_colon.
  destruct (omap (field_value e) groupBy) as [|p ps].
  - simpl join. by rewrite split_on_no_sep.
  - rewrite bytes_of_join_cons, split_on_app by assumption. reflexivity.
Qed.

(** Rules with different colon-free names never share a group. *)
Lemma group_of_disjoint r1 r2 e1 e2 k :
  no_colon (R_Name r1) -> no_colon (R_Name r2) ->
  group_of r1 e1 = Ret k -> group_of r2 e2 = Ret k -> R_Name r1 = R_Name r2.
Proof.
  intros H1 H2 G1 G2. apply (inj bytes_of).
  by rewrite <- (buildGroupKey_name _ _ _ _ H1 G1), <- (buildGroupKey_name _ _ _ _ H2 G2).
Qed.

Definition about (rule : Rule) (l : list Alert) : list Alert :=
  List.filter (fun a => bool_decide (RuleName a = R_Name rule)) l.

Lemma about_rule_alert rule ru e :
  about rule [rule_alert ru e] = if bool_decide (R_Name ru = R_Name rule) then [rule_alert ru e] else [].
Proof. reflexivity. Qed.

(** Handling a match, without the plumbing. *)
Lemma handleThreshold_eq r rule e k :
  group_of rule e = Ret k ->
  let '(w, n) := AddEvent (default (new_window (window_of rule) (DC_Count (R_Detect rule)))
                             (thresholds r !! k)) (Timestamp e) in
  handleThreshold r rule e =
  Ret (with_alerts (with_thresholds r (<[k := w]> (thresholds r)))
         (alerts r ++ if n >? DC_Count (R_Detect rule) then [rule_alert rule e] else [])).
Proof.
  intros G. unfold handleThreshold. unfold group_of in G. rewrite G. simpl.
  fold (window_of rule).
  assert (Hw : match ParseDuration (DC_Window (R_Detect rule)) with Some d => d | None => 10 * Second end
               = window_of rule) by (unfold window_of; by destruct (ParseDuration _)).
  rewrite Hw. destruct (thresholds r !! k); simpl;
    destruct (_ >? DC_Count (R_Detect rule)); rewrite ?app_nil_r; reflexivity.
Qed.

Lemma about_app rule l1 l2 : about rule (l1 ++ l2) = about rule l1 ++ about rule l2.
Proof. apply List.filter_app. Qed.

Lemma kept_snoc size ts now :
  kept size (ts ++ [now]) = drop_while (fun t => negb (within now size t)) (kept size ts ++ [now]).
Proof. unfold kept. by rewrite fold_left_app. Qed.

Lemma drop_expired_while now size ts :
  drop_expired now size ts = drop_while (fun t => negb (within now size t)) ts.
Proof.
  induction ts as [|t ts IH]; [done|]. simpl. unfold within at 1. rewrite negb_involutive.
  by destruct (_ >? _).
Qed.

(** The windows of the code hold the times that stay, whatever threshold they
    carry. *)
Lemma window_run_kept size count ts : timestamps (window_run (new_window size count) ts) = kept size ts.
Proof.
  induction ts as [|t ts IH] using rev_ind; [done|]. rewrite window_run_snoc, kept_snoc. simpl.
  by rewrite window_run_size, drop_expired_while, IH.
Qed.

Lemma group_times_snoc rule k past e :
  group_times rule k (past ++ [e]) =
  group_times rule k past ++
  (if R_MatchEvent rule e && bool_decide (group_of rule e = Ret k) then [Timestamp e] else []).
Proof.
  unfold group_times. rewrite List.filter_app, map_app. simpl.
  by destruct (R_MatchEvent rule e && bool_decide (group_of rule e = Ret k)).
Qed.

Lemma group_times_sorted R rule k es :
  StronglySorted R (match_times rule es) -> StronglySorted R (group_times rule k es).
Proof.
  intros H. unfold group_times. rewrite <- filter_filter_and. by apply StronglySorted_map_filter.
Qed.

Lemma match_times_sorted R rule es : StronglySorted R (map Timestamp es) -> StronglySorted R (match_times rule es).
Proof. apply StronglySorted_map_filter. Qed.

Lemma match_times_app rule es es' : match_times rule (es ++ es') = match_times rule es ++ match_times rule es'.
Proof. unfold match_times. by rewrite List.filter_app, map_app. Qed.

(** What holds of the engine and one of its rules after the events [past]. *)
Record rule_inv (rule : Rule) (past : list Event) (r : RuleEngine) : Prop := {
  ri_alerts : about rule (alerts r) = alerts_with retained rule [] past;
  ri_windows : is_threshold rule = true -> windows_inv rule past (thresholds r)
}.

Lemma alerts_with_snoc count rule es : forall past e,
  alerts_with count rule past (es ++ [e]) =
  alerts_with count rule past es ++ (if fires_with count rule (past ++ es) e then [rule_alert rule e] else []).
Proof.
  induction es as [|e' es IH]; intros past e; simpl; [by rewrite !app_nil_r|].
  by rewrite IH, <- !app_assoc.
Qed.

(** A rule of another name touches neither the alerts nor the windows of [rule]. *)
Lemma process_rule_other rule ru r e :
  R_Sequence ru = None -> is_Some (SrcContainer e) ->
  no_colon (R_Name rule) -> no_colon (R_Name ru) -> R_Name ru <> R_Name rule ->
  exists r', process_rule r ru e = Ret r' /\ about rule (alerts r') = about rule (alerts r) /\
    forall k e', group_of rule e' = Ret k -> thresholds r' !! k = thresholds r !! k.
Proof.
  intros Hs Hc Hn Hn' Hne. unfold process_rule. rewrite Hs.
  assert (Hab : about rule [rule_alert ru e] = []) by (rewrite about_rule_alert; by rewrite bool_decide_false).
  destruct (R_MatchEvent ru e); simpl; [|by exists r]. case_decide as Hm.
  - destruct (buildGroupKey_total (R_Name ru) (DC_GroupBy (R_Detect ru)) e Hc) as [k Hk].
    pose proof (handleThreshold_eq r ru e k Hk) as H. destruct (AddEvent _ _) as [w n].
    rewrite H. eexists. split; [reflexivity|]. simpl. split.
    + rewrite about_app. destruct (_ >? _); [rewrite Hab|]; by rewrite app_nil_r.
    + intros k' e' Hk'. apply lookup_insert_ne. intros ->. apply Hne.
      by apply (group_of_disjoint ru rule e e' k').
  - eexists. split; [reflexivity|]. simpl. rewrite about_app, Hab, app_nil_r. done.
Qed.

Lemma window_run_nonempty rule k past :
  default (new_window (window_of rule) (DC_Count (R_Detect rule)))
    (match group_times rule k past with
     | [] => None
     | ts => Some (window_run (new_window (window_of rule) (DC_Count (R_Detect rule))) ts)
     end) =
  window_run (new_window (window_of rule) (DC_Count (R_Detect rule))) (group_times rule k past).
Proof. by destruct (group_times rule k past). Qed.

(** The threshold part of [rule] itself. *)
Lemma handleThreshold_inv rule past r e :
  is_threshold rule = true -> R_MatchEvent rule e = true -> is_Some (SrcContainer e) ->
  windows_inv rule past (thresholds r) ->
  exists r', handleThreshold r rule e = Ret r' /\
    alerts r' = alerts r ++ (if fires_with retained rule past e then [rule_alert rule e] else []) /\
    windows_inv rule (past ++ [e]) (thresholds r').
Proof.
  intros Ht Hm Hc Hw.
  destruct (buildGroupKey_total (R_Name rule) (DC_GroupBy (R_Detect rule)) e Hc) as [k Hk].
  change (group_of rule e = Ret k) in Hk.
  pose proof (handleThreshold_eq r rule e k Hk) as H.
  rewrite (Hw k (ex_intro _ e Hk)), window_run_nonempty in H.
  assert (Hts : group_times rule k (past ++ [e]) = group_times rule k past ++ [Timestamp e])
    by (rewrite group_times_snoc, Hm, bool_decide_true by assumption; reflexivity).
  pose proof (window_run_snoc (new_window (window_of rule) (DC_Count (R_Detect rule)))
                (group_times rule k past) (Timestamp e)) as Hrun.
  pose proof (AddEvent_count (window_run (new_window (window_of rule) (DC_Count (R_Detect rule)))
                (group_times rule k past)) (Timestamp e)) as Hn.
  destruct (AddEvent _ _) as [w n]. simpl in Hrun, Hn.
  rewrite H. eexists. split; [reflexivity|]. simpl. split.
  - f_equal. unfold fires_with, retained. rewrite Hm, Ht, Hk. cbn [negb orb andb].
    by rewrite Hts, <- (window_run_kept _ (DC_Count (R_Detect rule))), Hrun, <- Hn.
  - intros k' Hk'. destruct (decide (k' = k)) as [->|Hne].
    + rewrite lookup_insert_eq, Hts, <- Hrun. by destruct (group_times rule k past).
    + rewrite lookup_insert_ne by done. rewrite group_times_snoc, Hm, bool_decide_false by congruence.
      simpl. rewrite app_nil_r. by apply Hw.
Qed.

Lemma process_rule_self rule past r e :
  R_Sequence rule = None -> is_Some (SrcContainer e) -> rule_inv rule past r ->
  exists r', process_rule r rule e = Ret r' /\ rule_inv rule (past ++ [e]) r'.
Proof.
  intros Hs Hc [Ha Hw]. unfold process_rule. rewrite Hs.
  assert (Hself : about rule [rule_alert rule e] = [rule_alert rule e])
    by (rewrite about_rule_alert; by rewrite bool_decide_true).
  destruct (R_MatchEvent rule e) eqn:Hm; simpl.
  2:{ exists r. split; [done|]. constructor.
      - rewrite alerts_with_snoc, Ha. unfold fires_with. rewrite Hm. simpl. by rewrite app_nil_r.
      - intros Ht k Hk. rewrite group_times_snoc, Hm. simpl. rewrite app_nil_r. by apply Hw. }
  case_decide as Hmode.
  - assert (Ht : is_threshold rule = true) by (unfold is_threshold; by rewrite bool_decide_true).
    destruct (handleThreshold_inv rule past r e Ht Hm Hc (Hw Ht)) as (r' & Hr' & Ha' & Hw').
    exists r'. split; [exact Hr'|]. constructor; [|by intros _].
    rewrite Ha', about_app, Ha, alerts_with_snoc. f_equal. simpl. by destruct (fires_with retained rule past e).
  - assert (Ht : is_threshold rule = false) by (unfold is_threshold; by rewrite bool_decide_false).
    eexists. split; [reflexivity|]. constructor; [|congruence].
    simpl alerts. rewrite about_app, Ha, alerts_with_snoc, Hself. f_equal.
    unfold fires_with. by rewrite Hm, Ht.
Qed.

Lemma process_rules_app l1 l2 e : forall r,
  process_rules r (l1 ++ l2) e = (r' ← process_rules r l1 e; process_rules r' l2 e).
Proof.
  induction l1 as [|ru l1 IH]; intros r; simpl; [reflexivity|].
  destruct (process_rule r ru e); simpl; [apply IH|reflexivity].
Qed.

(** The rules of an engine without sequences: names without colons. *)
Definition plain_rules (rs : list Rule) : Prop :=
  Forall (fun ru => R_Sequence ru = None /\ no_colon (R_Name ru)) rs.

Lemma process_rules_other rule rs e : forall r,
  plain_rules rs -> no_colon (R_Name rule) -> is_Some (SrcContainer e) ->
  R_Name rule ∉ map R_Name rs ->
  exists r', process_rules r rs e = Ret r' /\ about rule (alerts r') = about rule (alerts r) /\
    forall k e', group_of rule e' = Ret k -> thresholds r' !! k = thresholds r !! k.
Proof.
  induction rs as [|ru rs IH]; intros r Hp Hn Hc Hnot; simpl; [by exists r|].
  apply Forall_cons_1 in Hp as [[Hs Hn'] Hp]. simpl in Hnot. apply not_elem_of_cons in Hnot as [Hne Hnot].
  destruct (process_rule_other rule ru r e) as (r1 & -> & Ha1 & Ht1); [done..|congruence|].
  destruct (IH r1 Hp Hn Hc Hnot) as (r2 & H2 & Ha2 & Ht2). simpl. exists r2.
  split_and!; [exact H2|congruence|]. intros k e' Hk.
  rewrite (Ht2 k e' Hk). exact (Ht1 k e' Hk).
Qed.

Lemma rule_inv_frame rule past r r' :
  about rule (alerts r') = about rule (alerts r) ->
  (forall k e', group_of rule e' = Ret k -> thresholds r' !! k = thresholds r !! k) ->
  rule_inv rule past r -> rule_inv rule past r'.
Proof.
  intros Ha Hk [Ha0 Hw0]. constructor; [congruence|].
  intros Ht k [e' He']. rewrite (Hk k e' He'). apply (Hw0 Ht). by exists e'.
Qed.

Lemma process_rules_inv rs rule past r e :
  plain_rules rs -> NoDup (map R_Name rs) -> rule ∈ rs -> is_Some (SrcContainer e) ->
  rule_inv rule past r ->
  exists r', process_rules r rs e = Ret r' /\ rule_inv rule (past ++ [e]) r'.
Proof.
  intros Hp Hnd [l1 [l2 ->]]%list_elem_of_split Hc Hi.
  unfold plain_rules in Hp. apply Forall_app in Hp as [Hp1 [[Hs Hn] Hp2]%Forall_cons_1].
  rewrite map_app in Hnd. apply NoDup_app in Hnd as (_ & Hd & [Hd2 _]%NoDup_cons).
  rewrite process_rules_app.
  destruct (process_rules_other rule l1 e r) as (r1 & -> & Ha1 & Ht1); [done..| |].
  { intros Hin. apply (Hd _ Hin). by left. }
  simpl. apply (rule_inv_frame rule past r r1 Ha1 Ht1) in Hi.
  destruct (process_rule_self rule past r1 e) as (r2 & -> & Hi2); [done..|]. simpl.
  destruct (process_rules_other rule l2 e r2) as (r3 & -> & Ha3 & Ht3); [done..|].
  exists r3. split; [reflexivity|]. by apply (rule_inv_frame rule _ r2 r3).
Qed.

(** The alerts one event can raise through one rule: one for each matching step
    of a sequence, else at most one. *)
Definition alert_bound (ru : Rule) : nat :=
  match R_Sequence ru with Some seq => length (SC_Steps seq) | None => 1 end.

(** The engine [r'] has the rules of [r] and at most [n] more alerts. *)
Definition grows (n : nat) (r r' : RuleEngine) : Prop :=
  rules r' = rules r /\ exists new, alerts r' = alerts r ++ new /\ (length new <= n)%nat.

Lemma grows_refl n r r' : rules r' = rules r -> alerts r' = alerts r -> grows n r r'.
Proof. intros H1 H2. split; [done|]. exists []. rewrite app_nil_r. split; [done|]. simpl. lia. Qed.

Lemma grows_trans n m r1 r2 r3 : grows n r1 r2 -> grows m r2 r3 -> grows (n + m) r1 r3.
Proof.
  intros [E1 (l1 & A1 & L1)] [E2 (l2 & A2 & L2)]. split; [congruence|].
  exists (l1 ++ l2). rewrite A2, A1, app_assoc, length_app. split; [done|lia].
Qed.

Lemma grows_le n m r r' : (n <= m)%nat -> grows n r r' -> grows m r r'.
Proof. intros Hle [E (l & A & L)]. split; [done|]. exists l. split; [done|lia]. Qed.

Lemma grows_emit r r' a : rules r' = rules r -> alerts r' = alerts r -> grows 1 r (emitAlert r' a).
Proof. intros H1 H2. split; [done|]. exists [a]. simpl. by rewrite H2. Qed.

Lemma sequence_step_grows r ru seq key e ix r' :
  sequence_step r ru seq key e ix = Ret r' -> grows 1 r r'.
Proof.
  unfold sequence_step. intros ([tr m] & _ & H)%go_bind_Ret_inv.
  apply go_bind_Ret_inv in H as (tr' & _ & H).
  destruct (_ >=? _); injection H as <-; [by apply grows_emit|by apply grows_refl].
Qed.

Lemma sequence_loop_grows ru seq key e steps : forall ix r r',
  sequence_loop r ru seq key e ix steps = Ret r' -> grows (length steps) r r'.
Proof.
  induction steps as [|st steps IH]; intros ix r r'; simpl; [intros [= <-]; by apply grows_refl|].
  destruct (MB_MatchEvent st e); simpl.
  - intros (r1 & H1 & H2)%go_bind_Ret_inv.
    exact (grows_trans 1 _ _ _ _ (sequence_step_grows _ _ _ _ _ _ _ H1) (IH _ _ _ H2)).
  - intros H. apply (grows_le (length steps)); [lia|]. exact (IH _ _ _ H).
Qed.

Lemma process_rule_grows r ru e r' :
  process_rule r ru e = Ret r' -> grows (alert_bound ru) r r'.
Proof.
  unfold process_rule, handleSequence, alert_bound. destruct (R_Sequence ru) as [seq|].
  - intros (k & _ & H)%go_bind_Ret_inv. by apply sequence_loop_grows in H.
  - destruct (R_MatchEvent ru e); simpl; [|intros [= <-]; by apply grows_refl].
    case_decide; [|intros [= <-]; by apply grows_emit].
    intros (k & _ & E)%go_bind_Ret_inv. cbv zeta in E. destruct (AddEvent _ (Timestamp e)).
    destruct (_ >? _); injection E as <-; [by apply grows_emit|by apply grows_refl].
Qed.

Lemma process_rules_grows rs e : forall r r', process_rules r rs e = Ret r' -> exists n, grows n r r'.
Proof.
  induction rs as [|ru rs IH]; intros r r'; simpl; [intros [= <-]; exists O; by apply grows_refl|].
  intros (r1 & H1 & H2)%go_bind_Ret_inv. destruct (IH _ _ H2) as [n Hn].
  eexists. exact (grows_trans _ n _ _ _ (process_rule_grows _ _ _ _ H1) Hn).
Qed.

Lemma process_rules_rules rs e r r' : process_rules r rs e = Ret r' -> rules r' = rules r.
Proof. intros H. destruct (process_rules_grows _ _ _ _ H) as [n [Hr _]]. exact Hr. Qed.

Lemma rule_inv_run rs rule es : forall past r,
  rules r = rs -> plain_rules rs -> NoDup (map R_Name rs) -> rule ∈ rs ->
  Forall (fun e => is_Some (SrcContainer e)) es -> rule_inv rule past r ->
  exists r', ProcessLoop r es = Ret r' /\ rule_inv rule (past ++ es) r'.
Proof.
  induction es as [|e es IH]; intros past r Hr Hp Hnd Hin Hall Hi; simpl.
  - rewrite app_nil_r. by exists r.
  - apply Forall_cons_1 in Hall as [Hc Hall].
    destruct (process_rules_inv rs rule past r e) as (r1 & H1 & Hi1); [done..|].
    unfold ProcessEvent. rewrite Hr, H1. simpl.
    rewrite (cons_middle e past es), app_assoc. apply IH; try assumption.
    by rewrite (process_rules_rules _ _ _ _ H1).
Qed.

Lemma rule_inv_start rs rule : rule_inv rule [] (NewEngine rs).
Proof. constructor; [reflexivity|]. by intros _ k _. Qed.

Lemma ProcessLoop_rules es : forall r r', ProcessLoop r es = Ret r' -> rules r' = rules r.
Proof.
  induction es as [|e es IH]; intros r r'; simpl; [by intros [= <-]|].
  intros (r1 & H1 & H2)%go_bind_Ret_inv. rewrite (IH _ _ H2). by apply (process_rules_rules _ _ _ _ H1).
Qed.

(** An engine made by [New] runs as the specification says, whatever the order of
    the events' times. *)
Lemma engine_alerts rs es rule :
  plain_rules rs -> NoDup (map R_Name rs) -> rule ∈ rs ->
  Forall (fun e => is_Some (SrcContainer e)) es ->
  exists r', ProcessLoop (NewEngine rs) es = Ret r' /\
    about rule (alerts r') = alerts_with retained rule [] es.
Proof.
  intros Hp Hnd Hin Hall.
  destruct (rule_inv_run rs rule es [] (NewEngine rs)) as (r' & H & [Ha _]); eauto using rule_inv_start.
Qed.

(** ** Times in order *)

Lemma retained_sliding size now ts :
  StronglySorted Z.le (ts ++ [now]) -> retained size now (ts ++ [now]) = sliding size now (ts ++ [now]).
Proof.
  intros Hs. unfold retained, sliding. rewrite <- (window_run_kept size 0), window_run_snoc.
  pose proof (AddEvent_window size 0 ts now Hs) as H. destruct (AddEvent _ _) as [w n].
  destruct H as [Hw _]. simpl. by rewrite Hw.
Qed.

Lemma fires_sorted rule past e :
  StronglySorted Z.le (match_times rule (past ++ [e])) ->
  fires_with retained rule past e = rule_fires rule past e.
Proof.
  intros Hsort. unfold rule_fires, fires_with. destruct (R_MatchEvent rule e) eqn:Hm; [|done].
  f_equal. f_equal. destruct (group_of rule e) as [k|p] eqn:Hk; [|done].
  pose proof (group_times_sorted _ rule k _ Hsort) as Hs.
  rewrite group_times_snoc, Hm, bool_decide_true in * by done. simpl in *.
  by rewrite retained_sliding.
Qed.

Lemma alerts_sorted rule es : forall past,
  StronglySorted Z.le (match_times rule (past ++ es)) ->
  alerts_with retained rule past es = alerts_with sliding rule past es.
Proof.
  induction es as [|e es IH]; intros past Hs; [done|]. simpl.
  rewrite (cons_middle e past es), app_assoc in Hs. rewrite IH by done.
  rewrite fires_sorted; [done|]. rewrite match_times_app in Hs. exact (StronglySorted_prefix _ _ _ Hs).
Qed.

(** (C18) The engine refines the per-rule specification: with rules of distinct
    colon-free names and no sequences, on events that all have a source
    container, the loop ends without a panic, and the alerts of each rule are
    those that its own matches call for, in order, whatever the other rules do:
    a threshold rule alerts when the times kept for the group exceed [Count].
    When its matches come in time order these are the times in the sliding
    window. *)
Theorem ProcessLoop_refines (rs : list Rule) (es : list Event) (rule : Rule) :
  plain_rules rs -> NoDup (map R_Name rs) -> rule ∈ rs ->
  Forall (fun e => is_Some (SrcContainer e)) es ->
  exists r', ProcessLoop (NewEngine rs) es = Ret r' /\
    about rule (alerts r') = alerts_with retained rule [] es /\
    (StronglySorted Z.le (match_times rule es) -> about rule (alerts r') = rule_alerts rule [] es).
Proof.
  intros Hp Hnd Hin Hall. destruct (engine_alerts rs es rule) as (r' & Hr & Ha); [done..|].
  exists r'. split_and!; [done..|]. intros Hs. rewrite Ha. by apply alerts_sorted.
Qed.

Definition zero_port : PortExpr := {| Ports := []; Ranges := []; Negate := false; Wildcard := false |}.

Definition sample_block (file : string) : MatchBlock :=
  mkMatchBlock "file_open" "" "" "" "" zero_port zero_port file "" "" "" None.

Definition sample_rule (name : string) (detect : DetectConfig) (seq : option SequenceConfig) : Rule := {|
  R_Name := name; R_Description := "d"; R_Severity := "high"; R_Mitre := "";
  R_Match := Some (sample_block "/a"); R_Any := []; R_All := []; R_Detect := detect; R_Sequence := seq
|}.

Definition threshold_detect (count : Z) : DetectConfig :=
  {| DC_Mode := "threshold"; DC_Count := count; DC_Window := "10s"; DC_GroupBy := ["src_container"] |}.

Lemma ProcessLoop_refines_witness :
  let ru := sample_rule "reads" (threshold_detect 2) None in
  let rs := [ru; sample_rule "each" {| DC_Mode := ""; DC_Count := 0; DC_Window := ""; DC_GroupBy := [] |} None] in
  let es := [sample_event 1 "/a"; sample_event 2 "/b"; sample_event 3 "/a"; sample_event 4 "/a"] in
  rule_alerts ru [] es = [rule_alert ru (sample_event 4 "/a")] /\
  exists r', ProcessLoop (NewEngine rs) es = Ret r' /\
    about ru (alerts r') = alerts_with retained ru [] es /\
    (StronglySorted Z.le (match_times ru es) -> about ru (alerts r') = rule_alerts ru [] es).
Proof.
  intros ru rs es. split; [vm_compute; reflexivity|].
  refine (ProcessLoop_refines rs es ru _ _ _ _).
  - by apply (bool_decide_unpack _); vm_compute.
  - by apply (bool_decide_unpack _); vm_compute.
  - by left.
  - repeat constructor; by eexists.
Defined.
