(* ===== verification/Sequence.v ===== *)
(** * Sequences

    What the sequence trackers of [internal/ruleengine/sequence.go] amount to.  An
    engine made by [New] has no tracker map and panics at the first match.  With
    the map made, the alerts of a sequence rule are those of a small automaton per
    group, whatever the other rules are, and every one of them is explained by
    matches of consecutive steps within the window. *)

From S2P Require Import Prelude.
From S2P Require Import Bytes.
From S2P Require Import GoLib.
From S2P Require Import Duration.
From S2P Require Import Core.
From S2P Require Import PortExpr.
From S2P Require Import Rule.
From S2P Require Import Engine.

Open Scope Z_scope.

(** ** Sequences in an engine made by [New] *)

Definition matches_step (e : Event) (ru : Rule) : bool :=
  match R_Sequence ru with
  | Some seq => existsb (fun st => MB_MatchEvent st e) (SC_Steps seq)
  | None => false
  end.

Lemma sequence_loop_nil rule seq key e steps : forall r ix,
  trackers (sequences r) = None ->
  sequence_loop r rule seq key e ix steps =
  if existsb (fun st => MB_MatchEvent st e) steps then Panic NilMapWrite else Ret r.
Proof.
  induction steps as [|st steps IH]; intros r ix Hr; simpl; [reflexivity|].
  destruct (MB_MatchEvent st e); simpl; [|by apply IH].
  unfold sequence_step. by rewrite Hr.
Qed.

Lemma process_rule_nil r ru e :
  trackers (sequences r) = None -> is_Some (SrcContainer e) ->
  if matches_step e ru then process_rule r ru e = Panic NilMapWrite
  else exists r', process_rule r ru e = Ret r' /\ trackers (sequences r') = None.
Proof.
  intros Hr Hc. unfold matches_step, process_rule, handleSequence.
  destruct (R_Sequence ru) as [seq|].
  - destruct (buildGroupKey_total (R_Name ru)
      (if (length (SC_GroupBy seq) =? 0)%nat then ["src_container"] else SC_GroupBy seq) e Hc) as [k ->].
    cbn [mbind go_bind]. rewrite sequence_loop_nil by assumption.
    destruct (existsb _ _); [reflexivity|]. by exists r.
  - destruct (R_MatchEvent ru e); simpl; [|by exists r]. case_decide; [|by eexists].
    destruct (buildGroupKey_total (R_Name ru) (DC_GroupBy (R_Detect ru)) e Hc) as [k Hk].
    pose proof (handleThreshold_eq r ru e k Hk) as H'. destruct (AddEvent _ _). rewrite H'. by eexists.
Qed.

Lemma process_rules_nil e rs : forall r,
  trackers (sequences r) = None -> is_Some (SrcContainer e) ->
  if existsb (matches_step e) rs then process_rules r rs e = Panic NilMapWrite
  else exists r', process_rules r rs e = Ret r' /\ trackers (sequences r') = None.
Proof.
  induction rs as [|ru rs IH]; intros r Hr Hc; simpl; [by exists r|].
  pose proof (process_rule_nil r ru e Hr Hc) as H. destruct (matches_step e ru); simpl; [by rewrite H|].
  destruct H as (r1 & -> & Hr1). simpl. by apply IH.
Qed.

Lemma ProcessEvent_trackers r e r' :
  trackers (sequences r) = None -> is_Some (SrcContainer e) -> ProcessEvent r e = Ret r' ->
  trackers (sequences r') = None /\ rules r' = rules r.
Proof.
  unfold ProcessEvent. intros Hr Hc H1. pose proof (process_rules_nil e (rules r) r Hr Hc) as Hp.
  rewrite H1 in Hp. split; [|exact (process_rules_rules _ _ _ _ H1)].
  destruct (existsb _ _); [discriminate|]. by destruct Hp as (r1 & [= ->] & ?).
Qed.

Lemma ProcessLoop_trackers es : forall r r',
  trackers (sequences r) = None -> Forall (fun e => is_Some (SrcContainer e)) es ->
  ProcessLoop r es = Ret r' -> trackers (sequences r') = None /\ rules r' = rules r.
Proof.
  induction es as [|e es IH]; intros r r' Hr Hall; simpl; [by intros [= <-]|].
  apply Forall_cons_1 in Hall as [Hc Hall]. intros (r1 & H1 & H)%go_bind_Ret_inv.
  destruct (ProcessEvent_trackers r e r1 Hr Hc H1) as [Ht1 <-]. by apply IH.
Qed.

(** (C19) An engine made by [New] never gets a tracker map: processing events that all
    have source containers panics exactly when some event matches a step of some
    rule's sequence, however the loaded rules and the other events look. *)
Theorem New_engine_sequences_panic (rs : list Rule) (es : list Event) :
  Forall (fun e => is_Some (SrcContainer e)) es ->
  if existsb (fun e => existsb (matches_step e) rs) es
  then ProcessLoop (NewEngine rs) es = Panic NilMapWrite
  else exists r', ProcessLoop (NewEngine rs) es = Ret r'.
Proof.
  intros Hall.
  enough (H : forall r, trackers (sequences r) = None -> rules r = rs ->
    if existsb (fun e => existsb (matches_step e) rs) es
    then ProcessLoop r es = Panic NilMapWrite else exists r', ProcessLoop r es = Ret r') by by apply H.
  induction Hall as [|e es Hc _ IH]; intros r Hr Hrs; simpl; [by exists r|].
  pose proof (process_rules_nil e rs r Hr Hc) as H. unfold ProcessEvent. rewrite Hrs.
  destruct (existsb (matches_step e) rs); simpl; [by rewrite H|].
  destruct H as (r1 & H1 & Hr1). rewrite H1. simpl. apply IH; [exact Hr1|].
  by rewrite (process_rules_rules _ _ _ _ H1).
Qed.

Lemma New_engine_sequences_panic_witness :
  let seq := {| SC_Window := "5s"; SC_GroupBy := []; SC_Steps := [sample_block "/a"; sample_block "/b"] |} in
  let ru := sample_rule "seq" (threshold_detect 2) (Some seq) in
  ProcessLoop (NewEngine [ru]) [sample_event 1 "/c"; sample_event 2 "/a"] = Panic NilMapWrite.
Proof.
  intros seq ru.
  refine (New_engine_sequences_panic [ru] [sample_event 1 "/c"; sample_event 2 "/a"] _).
  repeat constructor; by eexists.
Defined.

(** ** Sequences in an engine whose tracker map exists *)

(** Trackers are at a step, and past the first one they know when they began. *)
Definition tracker_ok (t : sequenceTracker) : Prop :=
  0 <= currentStep t /\ (currentStep t <> 0 -> stepTimes t <> []).

Definition trackers_ok (r : RuleEngine) : Prop :=
  exists m, trackers (sequences r) = Some m /\ map_Forall (fun _ => tracker_ok) m.

(** [advanceStep] never reads the first of no times, and keeps the invariant. *)
Lemma advanceStep_ok t ix ts :
  tracker_ok t -> exists t', advanceStep t ix ts = Ret t' /\ tracker_ok t' /\ window t' = window t.
Proof.
  intros [H0 Hne]. unfold advanceStep. destruct (Z.eqb_spec (currentStep t) ix); simpl; [|by exists t].
  destruct (Z.eqb_spec (currentStep t) 0); [eexists; split; [reflexivity|]; repeat split; simpl; [lia|done]|].
  destruct (stepTimes t) as [|t0 l]; [by destruct Hne|].
  destruct (_ >? _); eexists; (split; [reflexivity|]); repeat split; simpl; try lia; done.
Qed.

Lemma sequence_step_ok r rule seq key e ix :
  trackers_ok r -> 0 <= ix ->
  exists r', sequence_step r rule seq key e ix = Ret r' /\ trackers_ok r' /\
    (exists l, alerts r' = alerts r ++ l) /\ thresholds r' = thresholds r.
Proof.
  intros (m & Hm & Hall) Hix. unfold sequence_step. rewrite Hm.
  destruct (m !! key) as [t|] eqn:Hk; cbn [mbind go_bind].
  - destruct (advanceStep_ok t ix (Timestamp e) (Hall _ _ Hk)) as (t' & -> & Ht' & _). cbn.
    destruct (_ >=? _); eexists; (split; [reflexivity|]); (split; [|split; [|done]]);
      try (eexists; split; [reflexivity|by apply map_Forall_insert_2]);
      [by eexists|exists []; by rewrite app_nil_r].
  - set (t := {| currentStep := ix; stepTimes := _; window := _ |}).
    assert (Ht : tracker_ok t) by (split; simpl; [lia|done]).
    destruct (advanceStep_ok t ix (Timestamp e) Ht) as (t' & -> & Ht' & _). cbn.
    destruct (_ >=? _); eexists; (split; [reflexivity|]); (split; [|split; [|done]]);
      try (eexists; split; [reflexivity|by apply map_Forall_insert_2, map_Forall_insert_2]);
      [by eexists|exists []; by rewrite app_nil_r].
Qed.

Lemma sequence_loop_ok rule seq key e steps : forall r ix,
  trackers_ok r -> 0 <= ix ->
  exists r', sequence_loop r rule seq key e ix steps = Ret r' /\ trackers_ok r' /\
    (exists l, alerts r' = alerts r ++ l) /\ thresholds r' = thresholds r.
Proof.
  induction steps as [|st steps IH]; intros r ix Hr Hix; simpl.
  { exists r. split_and!; try done. exists []. by rewrite app_nil_r. }
  destruct (MB_MatchEvent st e); cbn [negb]; [|apply IH; [done|lia]].
  destruct (sequence_step_ok r rule seq key e ix Hr Hix) as (r1 & -> & Hr1 & [l1 Hl1] & Ht1).
  cbn [mbind go_bind]. destruct (IH r1 (ix + 1) Hr1 ltac:(lia)) as (r2 & -> & Hr2 & [l2 Hl2] & Ht2).
  exists r2. split_and!; [done..| |congruence]. exists (l1 ++ l2). by rewrite Hl2, Hl1, app_assoc.
Qed.

(** Were the tracker map made, handling an event by a sequence rule would never
    panic: the invariant on the trackers holds along any run. *)
Theorem handleSequence_safe (r : RuleEngine) (rule : Rule) (e : Event) :
  trackers_ok r -> is_Some (SrcContainer e) ->
  exists r', handleSequence r rule e = Ret r' /\ trackers_ok r' /\
    (exists l, alerts r' = alerts r ++ l) /\ thresholds r' = thresholds r.
Proof.
  intros Hr Hc. unfold handleSequence. destruct (R_Sequence rule) as [seq|].
  - destruct (buildGroupKey_total (R_Name rule)
      (if (length (SC_GroupBy seq) =? 0)%nat then ["src_container"] else SC_GroupBy seq) e Hc) as [k ->].
    cbn [mbind go_bind]. apply sequence_loop_ok; [done|lia].
  - exists r. split_and!; try done. exists []. by rewrite app_nil_r.
Qed.

(** The engine as [New] would make it with the map. *)
Definition started_engine (rs : list Rule) : RuleEngine := with_trackers (NewEngine rs) (Some ∅).

Lemma handleSequence_safe_witness :
  let seq := {| SC_Window := "5s"; SC_GroupBy := []; SC_Steps := [sample_block "/a"; sample_block "/b"] |} in
  let ru := sample_rule "seq" (threshold_detect 2) (Some seq) in
  exists r', handleSequence (started_engine [ru]) ru (sample_event 2 "/a") = Ret r' /\ trackers_ok r' /\
    (exists l, alerts r' = [] ++ l) /\ thresholds r' = ∅.
Proof.
  intros seq ru. refine (handleSequence_safe (started_engine [ru]) ru (sample_event 2 "/a") _ _).
  - exists ∅. split; [reflexivity|]. apply map_Forall_empty.
  - by eexists.
Defined.

(** *** One event, one step *)

(** The event matches step [i] of the sequence and no other. *)
Definition only_step (steps : list SequenceStep) (e : Event) (i : nat) : Prop :=
  (i < length steps)%nat /\
  forall j st, steps !! j = Some st -> MB_MatchEvent st e = bool_decide (j = i).

Lemma sequence_loop_none rule seq key e steps : forall r ix,
  (forall j st, steps !! j = Some st -> MB_MatchEvent st e = false) ->
  sequence_loop r rule seq key e ix steps = Ret r.
Proof.
  induction steps as [|st steps IH]; intros r ix H; simpl; [reflexivity|].
  rewrite (H O st eq_refl). simpl. apply IH. intros j st' Hj. exact (H (S j) st' Hj).
Qed.

Lemma sequence_loop_only rule seq key e steps : forall r ix i,
  only_step steps e i ->
  sequence_loop r rule seq key e ix steps = sequence_step r rule seq key e (ix + Z.of_nat i).
Proof.
  induction steps as [|st steps IH]; intros r ix i [Hi H]; simpl in Hi; [lia|].
  cbn [sequence_loop]. rewrite (H O st eq_refl). destruct i as [|i].
  - rewrite bool_decide_true by done. cbn [negb]. rewrite Z.add_0_r.
    destruct (sequence_step _ _ _ _ _ _) as [r1|p]; cbn [mbind go_bind]; [|reflexivity].
    apply sequence_loop_none. intros j st' Hj. rewrite (H (S j) st' Hj). by apply bool_decide_false.
  - rewrite bool_decide_false by done. cbn [negb].
    rewrite (IH r (ix + 1) i); [f_equal; lia|]. split; [lia|].
    intros j st' Hj. rewrite (H (S j) st' Hj). apply bool_decide_ext. lia.
Qed.

Definition seq_window (seq : SequenceConfig) : Z := default (5 * Second) (ParseDuration (SC_Window seq)).

(** The key a sequence rule groups by. *)
Definition seq_group (rule : Rule) (seq : SequenceConfig) (e : Event) : go string :=
  buildGroupKey (R_Name rule)
    (if (length (SC_GroupBy seq) =? 0)%nat then ["src_container"] else SC_GroupBy seq) e.

Lemma handleSequence_only r rule seq e i k :
  R_Sequence rule = Some seq -> seq_group rule seq e = Ret k -> only_step (SC_Steps seq) e i ->
  handleSequence r rule e = sequence_step r rule seq k e (Z.of_nat i).
Proof.
  intros Hs Hk Ho. unfold handleSequence. rewrite Hs. unfold seq_group in Hk. rewrite Hk.
  cbn [mbind go_bind]. by rewrite (sequence_loop_only _ _ _ _ _ _ _ i).
Qed.

(** What one step does to a tracker, known or new. *)
Lemma sequence_step_eq r rule seq k e ix m t t' :
  trackers (sequences r) = Some m ->
  t = default {| currentStep := ix; stepTimes := [Timestamp e]; window := seq_window seq |} (m !! k) ->
  advanceStep t ix (Timestamp e) = Ret t' ->
  exists r', sequence_step r rule seq k e ix = Ret r' /\
    trackers (sequences r') = Some (<[k := t']> m) /\ thresholds r' = thresholds r /\
    alerts r' = alerts r ++ if currentStep t' >=? Z.of_nat (length (SC_Steps seq))
                            then [rule_alert rule e] else [].
Proof.
  intros Hm Ht Ha. unfold sequence_step. rewrite Hm.
  assert (Hw : match ParseDuration (SC_Window seq) with Some d => d | None => 5 * Second end
               = seq_window seq) by (unfold seq_window; by destruct (ParseDuration _)).
  rewrite Hw. destruct (m !! k) as [t1|] eqn:Hk; simpl in Ht; subst t; cbn [mbind go_bind]; rewrite Ha; cbn.
  - destruct (_ >=? _); eexists; (split; [reflexivity|]); simpl; rewrite ?app_nil_r; done.
  - destruct (_ >=? _); eexists; (split; [reflexivity|]); simpl; rewrite ?app_nil_r, ?insert_insert_eq; done.
Qed.

(** An event whose group has no tracker starts one at the step it matches:
    matching the last step alone, with none of the earlier ones seen, raises
    the alert of the whole sequence. *)
Theorem sequence_last_step_alerts (r : RuleEngine) (rule : Rule) (seq : SequenceConfig)
    (m : gmap string sequenceTracker) (e : Event) (k : string) :
  trackers (sequences r) = Some m -> R_Sequence rule = Some seq -> 0 <= seq_window seq ->
  seq_group rule seq e = Ret k -> m !! k = None ->
  only_step (SC_Steps seq) e (length (SC_Steps seq) - 1) ->
  exists r', handleSequence r rule e = Ret r' /\ alerts r' = alerts r ++ [rule_alert rule e].
Proof.
  intros Hm Hs Hw Hk Hnone Ho. rewrite (handleSequence_only r rule seq e _ k Hs Hk Ho).
  destruct Ho as [Hi _]. set (n := length (SC_Steps seq)) in *.
  set (t := {| currentStep := Z.of_nat (n - 1); stepTimes := [Timestamp e]; window := seq_window seq |}).
  assert (exists t', advanceStep t (Z.of_nat (n - 1)) (Timestamp e) = Ret t' /\ currentStep t' = Z.of_nat n)
    as (t' & Ha & Hc).
  { unfold advanceStep, t. cbn [currentStep stepTimes window]. rewrite Z.eqb_refl. cbn [negb].
    destruct (Z.eqb_spec (Z.of_nat (n - 1)) 0); [eexists; split; [reflexivity|simpl; lia]|].
    replace (time_sub (Timestamp e) (Timestamp e)) with 0 by (unfold time_sub, min_duration, max_duration; lia).
    destruct (Z.gtb_spec 0 (seq_window seq)); [lia|]. eexists. split; [reflexivity|]. simpl. lia. }
  destruct (sequence_step_eq r rule seq k e (Z.of_nat (n - 1)) m t t' Hm) as (r' & Hr' & _ & _ & Hal);
    [by rewrite Hnone|exact Ha|].
  exists r'. split; [exact Hr'|]. rewrite Hal, Hc. fold n.
  destruct (Z.geb_spec (Z.of_nat n) (Z.of_nat n)); [done|lia].
Qed.

Lemma sequence_last_step_alerts_witness :
  let seq := {| SC_Window := "5s"; SC_GroupBy := []; SC_Steps := [sample_block "/a"; sample_block "/b"] |} in
  let ru := sample_rule "seq" (threshold_detect 2) (Some seq) in
  exists r', handleSequence (started_engine [ru]) ru (sample_event 2 "/b") = Ret r' /\
    alerts r' = [] ++ [rule_alert ru (sample_event 2 "/b")].
Proof.
  intros seq ru.
  refine (sequence_last_step_alerts (started_engine [ru]) ru seq ∅ (sample_event 2 "/b") "seq:web" _ _ _ _ _ _);
    [reflexivity|reflexivity|by vm_compute|reflexivity|reflexivity|].
  split; [simpl; lia|]. intros [|[|j]] st Hst; [injection Hst as <-; reflexivity..|discriminate].
Defined.

(** *** A sequence seen in order *)

Fixpoint handle_all (r : RuleEngine) (rule : Rule) (es : list Event) : go RuleEngine :=
  match es with
  | [] => Ret r
  | e :: es => r ← handleSequence r rule e; handle_all r rule es
  end.

Section InOrder.
Variables (rule : Rule) (seq : SequenceConfig) (k : string).
Hypothesis Hseq : R_Sequence rule = Some seq.

(** The group's tracker waits for step [i] and began at [t0]. *)
Definition waiting (r : RuleEngine) (i : nat) (t0 : Z) : Prop :=
  exists m t, trackers (sequences r) = Some m /\ m !! k = Some t /\
    currentStep t = Z.of_nat i /\ (0 < i)%nat /\ head (stepTimes t) = Some t0 /\
    window t = seq_window seq.

Lemma waiting_step r i t0 e :
  waiting r i t0 -> seq_group rule seq e = Ret k -> only_step (SC_Steps seq) e i ->
  within (Timestamp e) (seq_window seq) t0 = true ->
  exists r', handleSequence r rule e = Ret r' /\ waiting r' (S i) t0 /\
    alerts r' = alerts r ++ if (S i =? length (SC_Steps seq))%nat then [rule_alert rule e] else [].
Proof.
  intros (m & t & Hm & Ht & Hc & Hi & Hh & Hw) Hk Ho Hin.
  rewrite (handleSequence_only r rule seq e i k Hseq Hk Ho). destruct Ho as [Hlt _].
  destruct (stepTimes t) as [|t1 l] eqn:Hst; [discriminate|]. injection Hh as ->.
  set (t' := {| currentStep := currentStep t + 1; stepTimes := stepTimes t ++ [Timestamp e];
                window := window t |}).
  assert (Ha : advanceStep t (Z.of_nat i) (Timestamp e) = Ret t').
  { unfold advanceStep. rewrite Hc, Z.eqb_refl. cbn [negb].
    destruct (Z.eqb_spec (Z.of_nat i) 0); [lia|]. rewrite Hst, Hw.
    unfold within in Hin. apply negb_true_iff in Hin. rewrite Hin. unfold t'. by rewrite Hc, Hst, Hw. }
  destruct (sequence_step_eq r rule seq k e (Z.of_nat i) m t t' Hm) as (r' & Hr' & Hm' & _ & Hal);
    [by rewrite Ht|exact Ha|].
  exists r'. split; [exact Hr'|]. split.
  - exists (<[k := t']> m), t'. rewrite lookup_insert_eq.
    split_and!; [done|done|simpl; lia|lia|simpl; by rewrite Hst|exact Hw].
  - rewrite Hal. f_equal. change (currentStep t') with (currentStep t + 1). rewrite Hc.
    destruct (Nat.eqb_spec (S i) (length (SC_Steps seq))), (Z.geb_spec (Z.of_nat i + 1) (Z.of_nat (length (SC_Steps seq))));
      try lia; reflexivity.
Qed.

Lemma waiting_run es : forall r i t0,
  waiting r i t0 -> (i < length (SC_Steps seq))%nat -> (i + length es = length (SC_Steps seq))%nat ->
  Forall (fun e => seq_group rule seq e = Ret k /\ within (Timestamp e) (seq_window seq) t0 = true) es ->
  (forall j e, es !! j = Some e -> only_step (SC_Steps seq) e (i + j)) ->
  exists r' e, handle_all r rule es = Ret r' /\ last es = Some e /\
    alerts r' = alerts r ++ [rule_alert rule e].
Proof.
  induction es as [|e es IH]; intros r i t0 Hw Hi Hlen Hall Ho; simpl in Hlen; [lia|].
  apply Forall_cons_1 in Hall as [[Hk Hin] Hall].
  destruct (waiting_step r i t0 e Hw Hk) as (r1 & H1 & Hw1 & Ha1);
    [specialize (Ho O e eq_refl); by rewrite Nat.add_0_r in Ho|exact Hin|].
  cbn [handle_all]. rewrite H1. cbn [mbind go_bind].
  destruct (Nat.eqb_spec (S i) (length (SC_Steps seq))) as [Heq|Hne].
  - destruct es; [|simpl in Hlen; lia]. exists r1, e. done.
  - destruct (IH r1 (S i) t0 Hw1) as (r2 & e' & H2 & Hl & Ha2); [lia|lia|exact Hall| |].
    { intros j e' Hj. replace (S i + j)%nat with (i + S j)%nat by lia. by apply Ho. }
    exists r2, e'. split; [exact H2|]. split.
    + rewrite last_cons, Hl. reflexivity.
    + by rewrite Ha2, Ha1, app_nil_r.
Qed.

(** Events that match the steps one after the other, all in one group that has
    no tracker yet and all within the window of the first, raise exactly one
    alert, at the last of them. *)
Theorem sequence_in_order_alerts (r : RuleEngine) (m : gmap string sequenceTracker)
    (e0 : Event) (es : list Event) :
  trackers (sequences r) = Some m -> m !! k = None ->
  length (e0 :: es) = length (SC_Steps seq) ->
  Forall (fun e => seq_group rule seq e = Ret k /\
            within (Timestamp e) (seq_window seq) (Timestamp e0) = true) (e0 :: es) ->
  (forall j e, (e0 :: es) !! j = Some e -> only_step (SC_Steps seq) e j) ->
  exists r' e, handle_all r rule (e0 :: es) = Ret r' /\ last (e0 :: es) = Some e /\
    alerts r' = alerts r ++ [rule_alert rule e].
Proof.
  intros Hm Hnone Hlen [[Hk _] Hall]%Forall_cons_1 Ho.
  cbn [handle_all]. rewrite (handleSequence_only r rule seq e0 0 k Hseq Hk (Ho O e0 eq_refl)).
  set (t' := {| currentStep := 1; stepTimes := [Timestamp e0]; window := seq_window seq |}).
  destruct (sequence_step_eq r rule seq k e0 0 m
    {| currentStep := 0; stepTimes := [Timestamp e0]; window := seq_window seq |} t' Hm)
    as (r1 & H1 & Hm1 & _ & Ha1); [by rewrite Hnone|reflexivity|].
  change (Z.of_nat 0) with 0. rewrite H1. cbn [mbind go_bind]. simpl in Hlen.
  destruct es as [|e1 es].
  - exists r1, e0. split; [done|]. split; [done|]. rewrite Ha1. simpl in Hlen.
    by rewrite <- Hlen.
  - destruct (waiting_run (e1 :: es) r1 1 (Timestamp e0)) as (r2 & e & H2 & Hl & Ha2).
    + exists (<[k := t']> m), t'. rewrite lookup_insert_eq. split_and!; try done. lia.
    + simpl in Hlen. lia.
    + simpl in *. lia.
    + exact Hall.
    + intros j e Hj. exact (Ho (S j) e Hj).
    + exists r2, e. split; [exact H2|]. split; [exact Hl|]. rewrite Ha2, Ha1. simpl currentStep.
      simpl in Hlen. rewrite <- Hlen. destruct (Z.geb_spec 1 (Z.of_nat (S (S (length es))))); [lia|].
      by rewrite app_nil_r.
Qed.
End InOrder.

Lemma sequence_in_order_alerts_witness :
  let seq := {| SC_Window := "5s"; SC_GroupBy := []; SC_Steps := [sample_block "/a"; sample_block "/b"] |} in
  let ru := sample_rule "seq" (threshold_detect 2) (Some seq) in
  exists r' e, handle_all (started_engine [ru]) ru [sample_event 2 "/a"; sample_event 3 "/b"] = Ret r' /\
    last [sample_event 2 "/a"; sample_event 3 "/b"] = Some e /\ alerts r' = [] ++ [rule_alert ru e].
Proof.
  intros seq ru.
  refine (sequence_in_order_alerts ru seq "seq:web" _ (started_engine [ru]) ∅
            (sample_event 2 "/a") [sample_event 3 "/b"] _ _ _ _ _); [reflexivity..| |].
  - repeat constructor.
  - intros [|[|j]] e He; [injection He as <-..|discriminate];
      (split; [simpl; lia|]); intros [|[|j']] st Hst; try discriminate; injection Hst as <-; reflexivity.
Defined.

(** ** The specification: one automaton per group *)

(** Where a group stands: nothing seen yet; back at the start, after a step that
    came too late; or waiting for step [next], the first match having been at
    [began]. *)
Inductive stage := Unseen | Idle | Begun (next : nat) (began : Z).

(** The group meets a match of step [i] at time [t]. *)
Definition meet (size : Z) (p : stage) (i : nat) (t : Z) : stage :=
  match p with
  | Unseen => if (i =? 0)%nat then Begun 1 t else if within t size t then Begun (S i) t else Idle
  | Idle => if (i =? 0)%nat then Begun 1 t else Idle
  | Begun next began =>
      if (next =? i)%nat then if within t size began then Begun (S i) began else Idle else p
  end.

Definition finished (steps : nat) (p : stage) : bool :=
  match p with Begun next _ => (steps <=? next)%nat | _ => false end.

(** The steps an event matches, in the order of the rule, numbered from [ix]. *)
Fixpoint matched_steps (ix : nat) (steps : list SequenceStep) (e : Event) : list nat :=
  match steps with
  | [] => []
  | st :: steps => (if MB_MatchEvent st e then [ix] else []) ++ matched_steps (S ix) steps e
  end.

Definition event_hits (seq : SequenceConfig) (e : Event) : list (nat * Z) :=
  map (fun i => (i, Timestamp e)) (matched_steps 0 (SC_Steps seq) e).

(** The matches of the events [es] in the group of key [k]. *)
Definition group_hits (rule : Rule) (seq : SequenceConfig) (k : string) (es : list Event) : list (nat * Z) :=
  concat (map (event_hits seq) (List.filter (fun e => bool_decide (seq_group rule seq e = Ret k)) es)).

Definition meet_all (size : Z) : stage -> list (nat * Z) -> stage :=
  foldl (fun p h => meet size p h.1 h.2).

(** Of the matches [hs] met one after the other, those that leave the group at the
    end of the sequence. *)
Fixpoint finishing (steps : nat) (size : Z) (p : stage) (hs : list (nat * Z)) : nat :=
  match hs with
  | [] => 0
  | h :: hs => let p := meet size p h.1 h.2 in
               (if finished steps p then 1 else 0) + finishing steps size p hs
  end.

(** How many alerts the rule raises on [e], which follows the events [past]. *)
Definition seq_fires (rule : Rule) (seq : SequenceConfig) (past : list Event) (e : Event) : nat :=
  match seq_group rule seq e with
  | Ret k => finishing (length (SC_Steps seq)) (seq_window seq)
               (meet_all (seq_window seq) Unseen (group_hits rule seq k past)) (event_hits seq e)
  | Panic _ => 0
  end.

Fixpoint sequence_alerts (rule : Rule) (seq : SequenceConfig) (past es : list Event) : list Alert :=
  match es with
  | [] => []
  | e :: es => repeat (rule_alert rule e) (seq_fires rule seq past e) ++
               sequence_alerts rule seq (past ++ [e]) es
  end.

(** The alerts of any rule. *)
Definition alerts_of_rule (rule : Rule) (es : list Event) : list Alert :=
  match R_Sequence rule with
  | Some seq => sequence_alerts rule seq [] es
  | None => alerts_with retained rule [] es
  end.

(** ** The trackers implement it *)

(** A tracker, or none, and the stage it stands for. *)
Definition tracks (size : Z) (o : option sequenceTracker) (p : stage) : Prop :=
  match p, o with
  | Unseen, None => True
  | Idle, Some t => currentStep t = 0 /\ window t = size
  | Begun next began, Some t =>
      currentStep t = Z.of_nat next /\ (0 < next)%nat /\ head (stepTimes t) = Some began /\ window t = size
  | _, _ => False
  end.

Lemma time_sub_within t size began : (time_sub t began >? size) = negb (within t size began).
Proof. unfold within. by rewrite negb_involutive. Qed.

Lemma advanceStep_meets size o p i t :
  tracks size o p ->
  exists t', advanceStep (default {| currentStep := Z.of_nat i; stepTimes := [t]; window := size |} o)
               (Z.of_nat i) t = Ret t' /\ tracks size (Some t') (meet size p i t).
Proof.
  unfold advanceStep. intros H. destruct p as [| |next began], o as [tr|]; simpl in H; try done; simpl.
  - rewrite Z.eqb_refl. simpl. destruct (Nat.eqb_spec i 0) as [->|Hi]; [eexists; split; [reflexivity|]; simpl; split_and!; try done; lia|].
    destruct (Z.eqb_spec (Z.of_nat i) 0); [lia|]. rewrite time_sub_within.
    destruct (within t size t); eexists; (split; [done|]); simpl; [|done]. split_and!; try done; lia.
  - destruct H as [Hc Hw]. rewrite Hc. destruct (Z.eqb_spec 0 (Z.of_nat i)), (Nat.eqb_spec i 0); simpl; try lia.
    + eexists. split; [done|]. simpl. split_and!; try done; lia.
    + by exists tr.
  - destruct H as (Hc & Hn & Hh & Hw). rewrite Hc.
    destruct (Z.eqb_spec (Z.of_nat next) (Z.of_nat i)), (Nat.eqb_spec next i); simpl; try lia.
    + subst i. destruct (Z.eqb_spec (Z.of_nat next) 0); [lia|].
      destruct (stepTimes tr) as [|t0 l]; [done|]. injection Hh as ->. rewrite Hw, time_sub_within.
      destruct (within t size began); eexists; (split; [done|]); simpl; [|done]. split_and!; try done; lia.
    + by exists tr.
Qed.

Lemma tracks_finished size n tr p :
  (0 < n)%nat -> tracks size (Some tr) p -> (currentStep tr >=? Z.of_nat n) = finished n p.
Proof.
  intros Hn. destruct p as [| |next began]; simpl; [done| |].
  - intros [-> _]. destruct (Z.geb_spec 0 (Z.of_nat n)); [lia|done].
  - intros [-> _]. destruct (Z.geb_spec (Z.of_nat next) (Z.of_nat n)), (Nat.leb_spec n next); try done; lia.
Qed.

Lemma sequence_loop_meets rule seq k e steps : forall ix r m p,
  trackers (sequences r) = Some m -> tracks (seq_window seq) (m !! k) p ->
  (ix + length steps = length (SC_Steps seq))%nat ->
  let hs := map (fun i => (i, Timestamp e)) (matched_steps ix steps e) in
  exists r' m', sequence_loop r rule seq k e (Z.of_nat ix) steps = Ret r' /\
    trackers (sequences r') = Some m' /\
    tracks (seq_window seq) (m' !! k) (meet_all (seq_window seq) p hs) /\
    (forall k', k' <> k -> m' !! k' = m !! k') /\ thresholds r' = thresholds r /\
    alerts r' = alerts r ++ repeat (rule_alert rule e)
                              (finishing (length (SC_Steps seq)) (seq_window seq) p hs).
Proof.
  induction steps as [|st steps IH]; intros ix r m p Hm Hp Hlen; simpl in *.
  { exists r, m. rewrite app_nil_r. by split_and!. }
  replace (Z.of_nat ix + 1) with (Z.of_nat (S ix)) by lia.
  destruct (MB_MatchEvent st e); simpl; [|apply IH; [done..|lia]].
  destruct (advanceStep_meets _ _ _ ix (Timestamp e) Hp) as (t' & Ha & Ht').
  destruct (sequence_step_eq r rule seq k e (Z.of_nat ix) m _ t' Hm eq_refl Ha) as (r1 & -> & Hm1 & Hth1 & Hal1).
  cbn [mbind go_bind].
  destruct (IH (S ix) r1 (<[k := t']> m) (meet (seq_window seq) p ix (Timestamp e))) as
    (r2 & m2 & -> & Hm2 & Ht2 & Ho2 & Hth2 & Hal2); [done|by rewrite lookup_insert_eq|lia|].
  exists r2, m2. split_and!; [done..| |congruence|].
  - intros k' Hk. rewrite Ho2 by done. by apply lookup_insert_ne.
  - rewrite Hal2, Hal1, <- app_assoc. do 2 f_equal.
    rewrite (tracks_finished (seq_window seq) _ t' (meet (seq_window seq) p ix (Timestamp e))); [|lia|done].
    by destruct (finished _ _).
Qed.

(** ** All rules together *)

Lemma meet_all_app size p hs hs' : meet_all size p (hs ++ hs') = meet_all size (meet_all size p hs) hs'.
Proof. apply foldl_app. Qed.

Lemma group_hits_snoc rule seq k past e :
  group_hits rule seq k (past ++ [e]) =
  group_hits rule seq k past ++ (if bool_decide (seq_group rule seq e = Ret k) then event_hits seq e else []).
Proof.
  unfold group_hits. rewrite List.filter_app, map_app, concat_app. simpl.
  case_bool_decide; simpl; by rewrite ?app_nil_r.
Qed.

Lemma sequence_alerts_snoc rule seq es : forall past e,
  sequence_alerts rule seq past (es ++ [e]) =
  sequence_alerts rule seq past es ++ repeat (rule_alert rule e) (seq_fires rule seq (past ++ es) e).
Proof.
  induction es as [|e' es IH]; intros past e; simpl; [by rewrite !app_nil_r|].
  by rewrite IH, <- !app_assoc.
Qed.

(** What holds of the engine and a sequence rule after the events [past]. *)
Record seq_inv (rule : Rule) (seq : SequenceConfig) (past : list Event) (r : RuleEngine) : Prop := {
  si_alerts : about rule (alerts r) = sequence_alerts rule seq [] past;
  si_trackers : exists m, trackers (sequences r) = Some m /\
    forall k, before_colon k = bytes_of (R_Name rule) ->
      tracks (seq_window seq) (m !! k) (meet_all (seq_window seq) Unseen (group_hits rule seq k past))
}.

Definition any_inv (rule : Rule) (past : list Event) (r : RuleEngine) : Prop :=
  match R_Sequence rule with Some seq => seq_inv rule seq past r | None => rule_inv rule past r end.

(** The engine [r'] is as [r] to all rules not named as [ru]. *)
Record only_for (ru : Rule) (r r' : RuleEngine) : Prop := {
  of_alerts : exists new, alerts r' = alerts r ++ new /\ Forall (fun a => RuleName a = R_Name ru) new;
  of_windows k : before_colon k <> bytes_of (R_Name ru) -> thresholds r' !! k = thresholds r !! k;
  of_trackers m : trackers (sequences r) = Some m ->
    exists m', trackers (sequences r') = Some m' /\
      forall k, before_colon k <> bytes_of (R_Name ru) -> m' !! k = m !! k
}.

Lemma only_for_about ru rule r r' :
  only_for ru r r' -> R_Name rule <> R_Name ru -> about rule (alerts r') = about rule (alerts r).
Proof.
  intros [(new & -> & Hnew) _ _] Hne. rewrite about_app.
  enough (about rule new = []) as -> by apply app_nil_r.
  induction Hnew as [|a new Ha _ IH]; [done|]. simpl. rewrite bool_decide_false by congruence. exact IH.
Qed.

Lemma any_inv_frame rule ru past r r' :
  no_colon (R_Name rule) -> R_Name rule <> R_Name ru -> only_for ru r r' ->
  any_inv rule past r -> any_inv rule past r'.
Proof.
  intros Hn Hne Ho. pose proof (only_for_about ru rule r r' Ho Hne) as Ha. destruct Ho as [_ Hw Ht].
  assert (Hk : forall k, before_colon k = bytes_of (R_Name rule) -> before_colon k <> bytes_of (R_Name ru))
    by (intros k -> E%(inj bytes_of); done).
  unfold any_inv. destruct (R_Sequence rule) as [seq|].
  - intros [Ha0 (m & Hm & Htr)]. destruct (Ht m Hm) as (m' & Hm' & Hsame). constructor; [congruence|].
    exists m'. split; [done|]. intros k Hb. rewrite Hsame by auto. by apply Htr.
  - apply rule_inv_frame; [done|]. intros k e He. apply Hw, Hk. by apply (buildGroupKey_name _ _ _ _ Hn He).
Qed.

(** A rule without a sequence is handled for itself alone. *)
Lemma process_rule_plain rule past r e :
  R_Sequence rule = None -> no_colon (R_Name rule) -> is_Some (SrcContainer e) -> rule_inv rule past r ->
  exists r', process_rule r rule e = Ret r' /\ rule_inv rule (past ++ [e]) r' /\ only_for rule r r'.
Proof.
  intros Hs Hn Hc Hi. destruct (process_rule_self rule past r e Hs Hc Hi) as (r' & H & Hi').
  exists r'. split_and!; [done..|]. clear Hi Hi'. unfold process_rule in H. rewrite Hs in H.
  assert (Hframe : forall l w, (forall k, before_colon k <> bytes_of (R_Name rule) -> w !! k = thresholds r !! k) ->
    Forall (fun a => RuleName a = R_Name rule) l ->
    only_for rule r (with_alerts (with_thresholds r w) (alerts r ++ l))).
  { intros l w Hw Hl. constructor; [by exists l|done|]. intros m Hm. by exists m. }
  destruct (R_MatchEvent rule e); simpl in H.
  2:{ injection H as <-. constructor; [exists []; by rewrite app_nil_r|done|]. intros m Hm. by exists m. }
  case_decide.
  - destruct (buildGroupKey_total (R_Name rule) (DC_GroupBy (R_Detect rule)) e Hc) as [k Hk].
    pose proof (handleThreshold_eq r rule e k Hk) as E. destruct (AddEvent _ _) as [w n].
    rewrite E in H. injection H as <-. apply Hframe; [|by destruct (_ >? _); repeat constructor].
    intros k' Hk'. apply lookup_insert_ne. intros ->. by apply Hk', (buildGroupKey_name _ _ _ _ Hn Hk).
  - injection H as <-. apply (Hframe [rule_alert rule e] (thresholds r)); [done|by repeat constructor].
Qed.

(** And so is a sequence rule. *)
Lemma process_rule_seq rule seq past r e :
  R_Sequence rule = Some seq -> no_colon (R_Name rule) -> is_Some (SrcContainer e) ->
  seq_inv rule seq past r ->
  exists r', process_rule r rule e = Ret r' /\ seq_inv rule seq (past ++ [e]) r' /\ only_for rule r r'.
Proof.
  intros Hs Hn Hc [Ha (m & Hm & Ht)]. unfold process_rule. rewrite Hs.
  destruct (buildGroupKey_total (R_Name rule)
    (if (length (SC_GroupBy seq) =? 0)%nat then ["src_container"] else SC_GroupBy seq) e Hc) as [k Hk].
  change (seq_group rule seq e = Ret k) in Hk.
  pose proof (buildGroupKey_name _ _ _ _ Hn Hk) as Hb.
  destruct (sequence_loop_meets rule seq k e (SC_Steps seq) 0 r m _ Hm (Ht k Hb) eq_refl)
    as (r' & m' & H & Hm' & Ht' & Ho & Hth & Hal).
  change (map _ (matched_steps 0 (SC_Steps seq) e)) with (event_hits seq e) in *.
  exists r'. split; [|split].
  - unfold handleSequence. rewrite Hs. unfold seq_group in Hk. by rewrite Hk.
  - constructor.
    + rewrite Hal, about_app, Ha, sequence_alerts_snoc. f_equal. unfold seq_fires. rewrite Hk. simpl.
      generalize (finishing (length (SC_Steps seq)) (seq_window seq)
        (meet_all (seq_window seq) Unseen (group_hits rule seq k past)) (event_hits seq e)).
      intros n. induction n as [|n IH]; [done|]. simpl. rewrite bool_decide_true by done. f_equal. exact IH.
    + exists m'. split; [done|]. intros k' Hb'. rewrite group_hits_snoc, Hk.
      destruct (decide (k' = k)) as [->|Hne].
      * rewrite bool_decide_true, meet_all_app by done. exact Ht'.
      * rewrite bool_decide_false, app_nil_r, Ho by congruence. by apply Ht.
  - constructor.
    + eexists. split; [exact Hal|]. apply Forall_forall. by intros a ->%list_elem_of_In%repeat_spec.
    + intros k' _. by rewrite Hth.
    + intros m0 E. rewrite Hm in E. injection E as <-. exists m'. split; [done|].
      intros k' Hb'. apply Ho. by intros ->.
Qed.

Lemma process_rule_any rule past r e :
  no_colon (R_Name rule) -> is_Some (SrcContainer e) -> any_inv rule past r ->
  exists r', process_rule r rule e = Ret r' /\ any_inv rule (past ++ [e]) r' /\ only_for rule r r'.
Proof.
  unfold any_inv. intros Hn Hc Hi. destruct (R_Sequence rule) eqn:Hs.
  - by apply process_rule_seq.
  - by apply process_rule_plain.
Qed.

(** Rules that cannot be confused: names without colons, all different. *)
Definition named_apart (rs : list Rule) : Prop :=
  Forall (fun ru => no_colon (R_Name ru)) rs /\ NoDup (map R_Name rs).

Lemma process_rules_any past e rs : forall handled r,
  named_apart (handled ++ rs) -> is_Some (SrcContainer e) ->
  Forall (fun ru => any_inv ru (past ++ [e]) r) handled -> Forall (fun ru => any_inv ru past r) rs ->
  exists r', process_rules r rs e = Ret r' /\
    Forall (fun ru => any_inv ru (past ++ [e]) r') (handled ++ rs).
Proof.
  induction rs as [|ru rs IH]; intros handled r [Hn Hnd] Hc Hd Ht; simpl.
  { exists r. by rewrite app_nil_r. }
  apply Forall_cons_1 in Ht as [Hi Ht].
  pose proof Hn as [Hn1 [Hnr Hn2]%Forall_cons_1]%Forall_app.
  destruct (process_rule_any ru past r e Hnr Hc Hi) as (r1 & -> & Hi1 & Ho). simpl.
  pose proof Hnd as Hnd'. rewrite map_app, NoDup_app in Hnd'. destruct Hnd' as (_ & Hx & [Hy _]%NoDup_cons).
  rewrite (cons_middle ru handled rs), app_assoc in Hn, Hnd |- *. apply IH; [done..| |].
  - apply Forall_app. split; [|by repeat constructor]. rewrite Forall_forall in *. intros ru' Hin.
    apply (any_inv_frame ru' ru _ r); auto. intros E. eapply Hx; [by apply (list_elem_of_fmap_2 R_Name)|].
    rewrite E. by left.
  - rewrite Forall_forall in *. intros ru' Hin. apply (any_inv_frame ru' ru _ r); auto.
    intros E. apply Hy. rewrite <- E. by apply (list_elem_of_fmap_2 R_Name).
Qed.

Lemma any_inv_run rs es : forall past r,
  rules r = rs -> named_apart rs -> Forall (fun e => is_Some (SrcContainer e)) es ->
  Forall (fun ru => any_inv ru past r) rs ->
  exists r', ProcessLoop r es = Ret r' /\ Forall (fun ru => any_inv ru (past ++ es) r') rs.
Proof.
  induction es as [|e es IH]; intros past r Hr Hn Hall Hi; simpl.
  - rewrite app_nil_r. by exists r.
  - apply Forall_cons_1 in Hall as [Hc Hall].
    destruct (process_rules_any past e rs [] r) as (r1 & H1 & Hi1); [done..|].
    unfold ProcessEvent. rewrite Hr, H1. simpl.
    rewrite (cons_middle e past es), app_assoc. apply IH; try assumption.
    by rewrite (process_rules_rules _ _ _ _ H1).
Qed.

Lemma started_engine_alerts rs es rule :
  named_apart rs -> rule ∈ rs -> Forall (fun e => is_Some (SrcContainer e)) es ->
  exists r', ProcessLoop (started_engine rs) es = Ret r' /\ about rule (alerts r') = alerts_of_rule rule es.
Proof.
  intros Hn Hin Hall.
  destruct (any_inv_run rs es [] (started_engine rs)) as (r' & H & Hi); [done..| |].
  - apply Forall_forall. intros ru _. unfold any_inv. destruct (R_Sequence ru); constructor; try done.
    exists ∅. split; [done|]. intros k _. by rewrite lookup_empty.
  - exists r'. split; [done|]. rewrite Forall_forall in Hi. specialize (Hi rule Hin).
    unfold any_inv in Hi. unfold alerts_of_rule. by destruct (R_Sequence rule); destruct Hi.
Qed.

(** ** What an alert of a sequence means *)

(** Matches of consecutive steps from step [i] on, all within the window of the
    first of them. *)
Definition chain (size : Z) (i : nat) (hs : list (nat * Z)) : Prop :=
  match hs with
  | [] => False
  | h :: later => map fst hs = List.seq i (length hs) /\
                  Forall (fun h' => within h'.2 size h.2 = true) later
  end.

Lemma chain_snoc size i hs h began :
  chain size i hs -> fmap snd (head hs) = Some began -> h.1 = (i + length hs)%nat ->
  within h.2 size began = true -> chain size i (hs ++ [h]).
Proof.
  destruct hs as [|h0 hs]; [done|]. intros [Hs Hw] [= <-] Hi Hin. split.
  - change ((h0 :: hs) ++ [h]) with (h0 :: hs ++ [h]) in *.
    rewrite app_comm_cons, map_app, Hs, length_app, seq_app. simpl in *. by rewrite Hi.
  - apply Forall_app. split; [done|by repeat constructor].
Qed.

Lemma meet_all_snoc size p hs h : meet_all size p (hs ++ [h]) = meet size (meet_all size p hs) h.1 h.2.
Proof. apply meet_all_app. Qed.

(** A group that waits for a step has seen the steps before it, from the first on
    or from the first match of the group. *)
Lemma begun_explained size hs next began :
  meet_all size Unseen hs = Begun next began ->
  exists i sub, sub `sublist_of` hs /\ chain size i sub /\ fmap snd (head sub) = Some began /\
    (i + length sub)%nat = next /\ (i = 0%nat \/ head sub = head hs).
Proof.
  revert next began. induction hs as [|[i t] hs IH] using rev_ind; intros next began; [done|].
  rewrite meet_all_snoc. simpl. destruct (meet_all size Unseen hs) as [| |j t0] eqn:E; simpl.
  - assert (hs = []) as ->.
    { destruct hs as [|h hs _] using rev_ind; [done|]. rewrite meet_all_snoc in E.
      unfold meet in E. destruct (meet_all _ _ _); repeat case_match; done. }
    assert (Hone : exists i0 sub, sub `sublist_of` [(i, t)] /\ chain size i0 sub /\
      fmap snd (head sub) = Some t /\ (i0 + length sub)%nat = S i /\ (i0 = 0%nat \/ head sub = Some (i, t))).
    { exists i, [(i, t)]. split_and!; try done; [simpl; lia|by right]. }
    destruct (Nat.eqb_spec i 0) as [->|Hi]; [|destruct (within t size t); [|done]]; by intros [= <- <-].
  - destruct (Nat.eqb_spec i 0) as [->|Hi]; [|done]. intros [= <- <-].
    exists 0%nat, [(0%nat, t)]. split_and!; try done; [by apply sublist_inserts_l|by left].
  - destruct (IH j t0 eq_refl) as (i0 & sub & Hsub & Hch & Hh & Hj & Hor).
    assert (Hhead : i0 = 0%nat \/ head sub = head (hs ++ [(i, t)])).
    { destruct Hor as [->|Hor]; [by left|right]. rewrite Hor. destruct hs; [|done].
      apply sublist_nil_r in Hsub as ->. done. }
    destruct (Nat.eqb_spec j i) as [->|Hne].
    + destruct (within t size t0) eqn:Hw; [|done]. intros [= <- <-].
      exists i0, (sub ++ [(i, t)]). split_and!.
      * by apply sublist_app.
      * by apply (chain_snoc size i0 sub (i, t) t0).
      * by destruct sub.
      * rewrite length_app. simpl. lia.
      * destruct Hhead as [->|Hhead]; [by left|right]. rewrite <- Hhead. by destruct sub.
    + intros [= <- <-]. exists i0, sub. split_and!; try done. by apply sublist_inserts_r.
Qed.

Lemma begun_bound size n hs next began :
  Forall (fun h => (h.1 < n)%nat) hs -> meet_all size Unseen hs = Begun next began -> (next <= n)%nat.
Proof.
  intros Hall E. destruct (begun_explained size hs next began E) as (i & sub & Hsub & Hch & _ & <- & _).
  destruct sub as [|h sub] using rev_ind; [done|]. clear IHsub.
  assert (Hlast : h.1 = (i + length sub)%nat).
  { assert (Hm : map fst (sub ++ [h]) = List.seq i (length (sub ++ [h]))).
    { destruct (sub ++ [h]) eqn:Es; [done|]. by destruct Hch. }
    rewrite map_app, length_app, seq_app in Hm. apply app_inj_2 in Hm as [_ [= Hm]]; [|by rewrite length_seq]. done. }
  rewrite length_app. simpl. rewrite Forall_forall in Hall.
  specialize (Hall h). rewrite Hlast in Hall. enough (i + length sub < n)%nat by lia. apply Hall.
  eapply sublist_subseteq; [exact Hsub|]. apply elem_of_app. right. by left.
Qed.

Lemma matched_steps_bound e steps : forall ix,
  Forall (fun i => (i < ix + length steps)%nat) (matched_steps ix steps e).
Proof.
  induction steps as [|st steps IH]; intros ix; simpl; [constructor|].
  specialize (IH (S ix)). rewrite Nat.add_succ_r. apply Forall_app. split; [|exact IH].
  destruct (MB_MatchEvent st e); [|constructor]. apply Forall_singleton. lia.
Qed.

Lemma group_hits_bound rule seq k es :
  Forall (fun h => (h.1 < length (SC_Steps seq))%nat) (group_hits rule seq k es).
Proof.
  unfold group_hits. induction (List.filter _ es) as [|e l IH]; simpl; [constructor|].
  apply Forall_app. split; [|exact IH]. apply Forall_map. simpl. apply (matched_steps_bound e _ 0).
Qed.

Lemma finishing_pos n size hs : forall p,
  (0 < finishing n size p hs)%nat ->
  exists hs1 hs2, hs = hs1 ++ hs2 /\ hs1 <> [] /\ finished n (meet_all size p hs1) = true.
Proof.
  induction hs as [|h hs IH]; intros p; simpl; [lia|].
  destruct (finished n (meet size p h.1 h.2)) eqn:E.
  - intros _. by exists [h], hs.
  - intros (hs1 & hs2 & -> & _ & Hf)%IH. by exists (h :: hs1), hs2.
Qed.

Lemma finishing_last n size hs : forall p,
  hs <> [] -> finished n (meet_all size p hs) = true -> (0 < finishing n size p hs)%nat.
Proof.
  induction hs as [|h hs IH]; intros p Hne Hf; simpl; [done|].
  destruct hs as [|h' hs].
  - simpl in Hf. rewrite Hf. lia.
  - enough (0 < finishing n size (meet size p h.1 h.2) (h' :: hs))%nat by (destruct (finished _ _); lia).
    by apply IH.
Qed.

Lemma sequence_alerts_in rule seq a es : forall past0,
  a ∈ sequence_alerts rule seq past0 es <->
  exists past e rest, es = past ++ e :: rest /\ a = rule_alert rule e /\
    (0 < seq_fires rule seq (past0 ++ past) e)%nat.
Proof.
  induction es as [|e es IH]; intros past0; simpl.
  { split; [by intros ?%elem_of_nil|]. by intros ([|? ?] & ? & ? & ? & _). }
  rewrite elem_of_app, IH. split.
  - intros [Ha|(past & e' & rest & -> & -> & Hf)].
    + exists [], e, es. rewrite app_nil_r. apply list_elem_of_In in Ha.
      split_and!; [done|by apply repeat_spec in Ha|]. destruct (seq_fires _ _ _ _); [done|lia].
    + exists (e :: past), e', rest. rewrite <- app_assoc in Hf. done.
  - intros (past & e' & rest & E & -> & Hf). destruct past as [|e0 past]; injection E as -> ->.
    + left. rewrite app_nil_r in Hf. destruct (seq_fires _ _ _ _); [lia|by left].
    + right. exists past, e', rest. rewrite <- app_assoc. done.
Qed.

Lemma sublist_cons_r_skip (i : nat) l' l : i :: l' `sublist_of` l -> l' `sublist_of` l.
Proof. intros H. etransitivity; [|exact H]. by apply sublist_cons. Qed.

(** A group that waits finds the steps left to it, in whatever company they come,
    if all comes within the window. *)
Lemma steps_found size n began hs : forall next,
  Forall (fun h => within h.2 size began = true) hs -> (next <= n)%nat ->
  Forall (fun h => (h.1 < n)%nat) hs ->
  List.seq next (n - next) `sublist_of` map fst hs ->
  finished n (meet_all size (Begun next began) hs) = true.
Proof.
  induction hs as [|[i t] hs IH]; intros next Hw Hn Hb Hs; simpl in *.
  { apply sublist_nil_r in Hs. destruct (n - next)%nat eqn:E; [|done]. apply Nat.leb_le. lia. }
  apply Forall_cons_1 in Hw as [Hw1 Hw]. apply Forall_cons_1 in Hb as [Hb1 Hb]. simpl in *.
  destruct (Nat.eqb_spec next i) as [->|Hne].
  - rewrite Hw1. apply IH; [done|lia|done|]. replace (n - i)%nat with (S (n - S i)) in Hs by lia.
    simpl in Hs. by apply sublist_cons_r in Hs as [?%sublist_cons_r_skip|(l' & [= ->] & ?)].
  - apply IH; [done|lia|done|]. destruct (n - next)%nat; [apply sublist_nil_l|]. simpl in *.
    apply sublist_cons_r in Hs as [?|(l' & [= ? ->] & ?)]; [done|congruence].
Qed.

(** The matches that explain an alert on [e] after [past]: steps from some [i] to
    the last, in order, in the event's group, all within the window of the first
    of them; [i] is the first step, or the step the group was first seen at. *)
Definition explained (rule : Rule) (seq : SequenceConfig) (past : list Event) (e : Event) : Prop :=
  exists k i sub, seq_group rule seq e = Ret k /\
    sub `sublist_of` group_hits rule seq k (past ++ [e]) /\
    chain (seq_window seq) i sub /\ (i + length sub)%nat = length (SC_Steps seq) /\
    (i = 0%nat \/ head sub = head (group_hits rule seq k (past ++ [e]))).

(** The group has not begun a sequence: it was never seen, or a step that came too
    late has sent it back. *)
Definition at_start (p : stage) : Prop := p = Unseen \/ p = Idle.

(** Matches [before] that leave the group at its start, and then a full sequence,
    other matches mixed in: the first step at [began], the others in order, and
    all matches of the group since then within the window of [began]; [e] is or
    comes after the last step. *)
Definition detectable (rule : Rule) (seq : SequenceConfig) (past : list Event) (e : Event) : Prop :=
  exists k before began hs, seq_group rule seq e = Ret k /\ event_hits seq e <> [] /\
    group_hits rule seq k (past ++ [e]) = before ++ (0%nat, began) :: hs /\
    at_start (meet_all (seq_window seq) Unseen before) /\
    Forall (fun h => within h.2 (seq_window seq) began = true) hs /\
    List.seq 1 (length (SC_Steps seq) - 1) `sublist_of` map fst hs.

Lemma group_hits_split rule seq k past e :
  seq_group rule seq e = Ret k ->
  group_hits rule seq k (past ++ [e]) = group_hits rule seq k past ++ event_hits seq e.
Proof. intros Hk. by rewrite group_hits_snoc, bool_decide_true. Qed.

Lemma fires_explained rule seq past e :
  (0 < seq_fires rule seq past e)%nat -> explained rule seq past e.
Proof.
  unfold seq_fires, explained. destruct (seq_group rule seq e) as [k|] eqn:Hk; [|lia].
  intros (hs1 & hs2 & He & Hne & Hf)%finishing_pos. rewrite <- meet_all_app in Hf.
  exists k. rewrite (group_hits_split _ _ _ _ _ Hk), He, app_assoc.
  unfold finished in Hf. destruct (meet_all _ _ _) as [| |next began] eqn:Hm; try discriminate.
  apply Nat.leb_le in Hf. pose proof (group_hits_bound rule seq k (past ++ [e])) as Hb.
  rewrite (group_hits_split _ _ _ _ _ Hk), He, app_assoc in Hb. apply Forall_app in Hb as [Hb _].
  pose proof (begun_bound _ _ _ _ _ Hb Hm).
  destruct (begun_explained _ _ _ _ Hm) as (i & sub & Hsub & Hch & _ & Hlen & Hor).
  exists i, sub. split_and!; [done| |done|lia|].
  - by apply sublist_inserts_r.
  - destruct Hor as [->|Hor]; [by left|right]. rewrite Hor.
    destruct (group_hits rule seq k past); [|done]. by destruct hs1.
Qed.

Lemma detectable_fires rule seq past e :
  detectable rule seq past e -> (0 < seq_fires rule seq past e)%nat.
Proof.
  intros (k & before & began & hs & Hk & Hne & Hg & Hst & Hw & Hs). unfold seq_fires. rewrite Hk.
  apply finishing_last; [done|]. rewrite <- meet_all_app, <- (group_hits_split _ _ _ _ _ Hk), Hg, meet_all_app.
  pose proof (group_hits_bound rule seq k (past ++ [e])) as Hb. rewrite Hg in Hb.
  apply Forall_app in Hb as [_ [Hpos Hb]%Forall_cons_1]. simpl in Hpos.
  change (finished (length (SC_Steps seq)) (meet_all (seq_window seq)
    (meet (seq_window seq) (meet_all (seq_window seq) Unseen before) 0 began) hs) = true).
  destruct Hst as [-> | ->]; by apply steps_found.
Qed.

Lemma about_in rule a l : RuleName a = R_Name rule -> a ∈ l <-> a ∈ about rule l.
Proof.
  intros Hn. unfold about. rewrite !list_elem_of_In, List.filter_In, bool_decide_eq_true. tauto.
Qed.

(** (C20) With the tracker map made, rules with and without sequences do not disturb
    each other: events never panic the engine, and each rule's alerts are its
    own, those of a sequence being what the automaton of each group says. *)
Theorem sequences_refine (rs : list Rule) (es : list Event) (rule : Rule) :
  named_apart rs -> rule ∈ rs -> Forall (fun e => is_Some (SrcContainer e)) es ->
  exists r', ProcessLoop (started_engine rs) es = Ret r' /\ about rule (alerts r') = alerts_of_rule rule es.
Proof. apply started_engine_alerts. Qed.

(** (C27) The alerts of a sequence rule, among rules of distinct colon-free names and
    on events with source containers, mean what the rule says: each is explained by
    matches of consecutive steps up to the last; and a full sequence raises one
    when its group stood at its start before it (the group was never seen, or a
    step that came too late has sent it back), and all the matches of the group
    since its first step are within the window of that, whatever other matches,
    groups and rules come between.  ([stale_start_misses] below shows a full
    sequence within the window that raises none.) *)
Theorem sequence_detects (rs : list Rule) (es : list Event) (rule : Rule) (seq : SequenceConfig) :
  named_apart rs -> rule ∈ rs -> R_Sequence rule = Some seq ->
  Forall (fun e => is_Some (SrcContainer e)) es ->
  exists r', ProcessLoop (started_engine rs) es = Ret r' /\
    (forall a, a ∈ alerts r' -> RuleName a = R_Name rule ->
       exists past e rest, es = past ++ e :: rest /\ a = rule_alert rule e /\ explained rule seq past e) /\
    (forall past e rest, es = past ++ e :: rest -> detectable rule seq past e -> rule_alert rule e ∈ alerts r').
Proof.
  intros Hn Hin Hs Hall. destruct (started_engine_alerts rs es rule Hn Hin Hall) as (r' & H & Ha).
  unfold alerts_of_rule in Ha. rewrite Hs in Ha. exists r'. split_and!; [done|..].
  - intros a Hal Hr. apply (about_in rule) in Hal; [|done]. rewrite Ha in Hal.
    apply sequence_alerts_in in Hal as (past & e & rest & He & Hae & Hf). exists past, e, rest.
    split_and!; [done..|]. by apply fires_explained.
  - intros past e rest He Hd. apply (about_in rule); [done|]. rewrite Ha. apply sequence_alerts_in.
    exists past, e, rest. split_and!; [done..|]. by apply detectable_fires.
Qed.

(** A sequence and a threshold rule on the same opens, another match in between. *)
Definition two_step : SequenceConfig :=
  {| SC_Window := "5s"; SC_GroupBy := []; SC_Steps := [sample_block "/a"; sample_block "/b"] |}.
Definition two_step_rule : Rule := sample_rule "seq" (threshold_detect 2) (Some two_step).
Definition mixed_rules : list Rule := [sample_rule "many" (threshold_detect 1) None; two_step_rule].
Definition mixed_events : list Event :=
  [sample_event 1 "/a"; sample_event 2 "/c"; sample_event 3 "/a"; sample_event 4 "/b"].

Lemma mixed_rules_apart : named_apart mixed_rules.
Proof. split; by apply (bool_decide_unpack _); vm_compute. Qed.

Lemma mixed_events_named : Forall (fun e => is_Some (SrcContainer e)) mixed_events.
Proof. repeat constructor; by eexists. Qed.

Lemma sequences_refine_witness :
  alerts_of_rule two_step_rule mixed_events = [rule_alert two_step_rule (sample_event 4 "/b")] /\
  exists r', ProcessLoop (started_engine mixed_rules) mixed_events = Ret r' /\
    about two_step_rule (alerts r') = alerts_of_rule two_step_rule mixed_events.
Proof.
  split; [vm_compute; reflexivity|].
  refine (sequences_refine mixed_rules mixed_events two_step_rule mixed_rules_apart _ mixed_events_named).
  by right; left.
Defined.

(** A sequence too slow, and then one in time. *)
Definition late_events : list Event :=
  let at_s n := sample_event (n + 100 * Second) in
  [sample_event 1 "/a"; at_s 2 "/b"; at_s 3 "/a"; at_s 4 "/a"; at_s 5 "/b"].

Lemma late_events_named : Forall (fun e => is_Some (SrcContainer e)) late_events.
Proof. repeat constructor; by eexists. Qed.

Lemma sequence_detects_witness :
  exists r', ProcessLoop (started_engine mixed_rules) late_events = Ret r' /\
    rule_alert two_step_rule (sample_event (5 + 100 * Second) "/b") ∈ alerts r'.
Proof.
  refine (match sequence_detects mixed_rules late_events two_step_rule _ mixed_rules_apart _ eq_refl
                  late_events_named with
          | ex_intro _ r' (conj H (conj _ Hd)) => ex_intro _ r' (conj H (Hd (take 4 late_events) _ [] eq_refl _))
          end).
  - by right; left.
  - exists "seq:web", [(0%nat, 1); (1%nat, 2 + 100 * Second)], (3 + 100 * Second), [(0%nat, 4 + 100 * Second); (1%nat, 5 + 100 * Second)].
    split_and!; [reflexivity|done|vm_compute; reflexivity|by right|..].
    + by repeat constructor.
    + by apply sublist_cons, sublist_skip.
Defined.

(** A sequence that was begun and not finished in time is not begun anew by its first
    step: the full sequence of the last two events, a second apart, raises no
    alert, since the second step is measured from the first event. *)
Theorem stale_start_misses :
  let at_s n := sample_event (n * Second) in
  let es := [at_s 0 "/a"; at_s 100 "/a"; at_s 101 "/b"] in
  group_hits two_step_rule two_step "seq:web" es = [(0%nat, 0); (0%nat, 100 * Second); (1%nat, 101 * Second)] /\
  seq_window two_step = 5 * Second /\
  exists r', ProcessLoop (started_engine [two_step_rule]) es = Ret r' /\ alerts r' = [].
Proof.
  intros at_s es. split_and!; [vm_compute; reflexivity..|]. eexists. split; [vm_compute; reflexivity|reflexivity].
Qed.
