(* ===== verification/Lateness.v ===== *)
(** * Thresholds on late events

    The window of [Engine.AddEvent] drops expired times from its front only and
    counts all that remain, so its count is that of the sliding window when the
    times come in order.  They need not: the correlator gives a connection the
    time of its connect ([correlator.go]), which may be seconds old when the
    accept is seen.  This file bounds what lateness does to the alerts: when no
    time comes more than [d] late, the rules count at least the sliding window
    shortened by [d] and at most the one widened by [d]. *)

From S2P Require Import Prelude.
From S2P Require Import GoLib.
From S2P Require Import Core.
From S2P Require Import Rule.
From S2P Require Import Engine.
From S2P Require Import Sequence.

Open Scope Z_scope.

(** No time of the list is more than [d] before an earlier member. *)
Definition late_by (d : Z) : list Z -> Prop := StronglySorted (fun t u => t <= u + d).

(** The sliding window widened by [d]; shortened when [d] is negative. *)
Definition widened (d : Z) : counter := fun size now ts => sliding (size + d) now ts.

(** ** Durations between times that are at most [d] apart from their order *)

Lemma time_sub_slack now now' t t' d :
  0 <= d -> now <= now' + d -> t' <= t -> time_sub now t <= time_sub now' t' + d.
Proof. unfold time_sub, min_duration, max_duration. lia. Qed.

Lemma within_le now size t : within now size t = true <-> time_sub now t <= size.
Proof. unfold within. rewrite negb_true_iff, Z.gtb_ltb, Z.ltb_ge. lia. Qed.

(** ** What a window has kept *)

(** The window is a suffix of the times; each dropped time had expired for one of
    them, and the first kept one has not for the last. *)
Record window_split (size : Z) (ts gone rest : list Z) : Prop := {
  ws_app : ts = gone ++ rest;
  ws_gone : Forall (fun t => exists u, u ∈ ts /\ within u size t = false) gone;
}.

Lemma kept_snoc_split size ts now :
  exists gone, kept size ts ++ [now] = gone ++ kept size (ts ++ [now]) /\
    Forall (fun t => within now size t = false) gone /\
    (forall t, head (kept size (ts ++ [now])) = Some t -> within now size t = true).
Proof.
  rewrite kept_snoc. destruct (drop_while_split (fun t => negb (within now size t)) (kept size ts ++ [now]))
    as (gone & Heq & Hg & Hh).
  exists gone. split_and!; [done| |].
  - eapply Forall_impl; [exact Hg|]. intros t. by rewrite negb_true_iff.
  - intros t Ht. by apply negb_false_iff, Hh.
Qed.

Lemma kept_split size ts : exists gone, window_split size ts gone (kept size ts).
Proof.
  induction ts as [|now ts (gone & Happ & Hg)] using rev_ind; [by exists []; constructor|].
  destruct (kept_snoc_split size ts now) as (more & Heq & Hm & _).
  exists (gone ++ more). constructor.
  - by rewrite <- app_assoc, <- Heq, app_assoc, <- Happ.
  - apply Forall_app. split.
    + eapply Forall_impl; [exact Hg|]. intros t (u & Hu & Hw). exists u.
      split; [apply elem_of_app; by left|done].
    + eapply Forall_impl; [exact Hm|]. intros t Hw. exists now.
      split; [apply elem_of_app; right; by left|done].
Qed.

Lemma kept_head size ts now t :
  head (kept size (ts ++ [now])) = Some t -> within now size t = true.
Proof.
  destruct (kept_snoc_split size ts now) as (? & _ & _ & H). apply H.
Qed.

(** ** Bounds on the count *)

Lemma late_by_app d l1 l2 :
  late_by d (l1 ++ l2) -> late_by d l2 /\ forall x y, x ∈ l1 -> y ∈ l2 -> x <= y + d.
Proof.
  induction l1 as [|z l1 IH]; simpl; intros H; [split; [done|by intros x y ?%elem_of_nil]|].
  apply StronglySorted_inv in H as [H Hall]. destruct (IH H) as [H2 Hx]. split; [done|].
  intros x y [->|Hin]%elem_of_cons Hy; [|by apply Hx].
  rewrite Forall_forall in Hall. apply Hall, elem_of_app. by right.
Qed.

Lemma late_by_last d ts now u : 0 <= d -> late_by d (ts ++ [now]) -> u ∈ ts ++ [now] -> u <= now + d.
Proof.
  intros Hd [_ H]%late_by_app [Hu| ->%list_elem_of_singleton]%elem_of_app; [|lia].
  apply H; [done|by left].
Qed.

Lemma filter_all {A} (p : A -> bool) l : Forall (fun x => p x = true) l -> List.filter p l = l.
Proof. induction 1 as [|x l Hx _ IH]; [done|]. simpl. by rewrite Hx, IH. Qed.

Lemma filter_none {A} (p : A -> bool) l : Forall (fun x => p x = false) l -> List.filter p l = [].
Proof. induction 1 as [|x l Hx _ IH]; [done|]. simpl. by rewrite Hx. Qed.

Lemma retained_at_most size now ts d :
  0 <= d -> late_by d (ts ++ [now]) ->
  (retained size now (ts ++ [now]) <= widened d size now (ts ++ [now]))%nat.
Proof.
  intros Hd Hl. destruct (kept_split size (ts ++ [now])) as (gone & Happ & _).
  enough (Hall : Forall (fun t => within now (size + d) t = true) (kept size (ts ++ [now]))).
  { unfold retained, widened, sliding. rewrite <- (filter_all _ _ Hall) at 1. rewrite Happ at 2.
    rewrite List.filter_app, length_app. lia. }
  rewrite Happ in Hl. apply late_by_app in Hl as [Hl _].
  pose proof (kept_head size ts now) as Hh. destruct (kept size (ts ++ [now])) as [|t l]; [constructor|].
  specialize (Hh t eq_refl). rewrite within_le in Hh. apply StronglySorted_inv in Hl as [_ Hall].
  constructor; [apply within_le; lia|]. eapply Forall_impl; [exact Hall|]. intros u Hu. apply within_le.
  cbv beta in Hu. unfold time_sub, min_duration, max_duration in *. lia.
Qed.

Lemma retained_at_least size now ts d :
  0 <= d -> late_by d (ts ++ [now]) ->
  (widened (- d) size now (ts ++ [now]) <= retained size now (ts ++ [now]))%nat.
Proof.
  intros Hd Hl. destruct (kept_split size (ts ++ [now])) as (gone & Happ & Hg).
  unfold retained, widened, sliding. rewrite Happ at 1. rewrite List.filter_app, length_app.
  rewrite (filter_none _ gone).
  - pose proof (List.filter_length_le (within now (size + - d)) (kept size (ts ++ [now]))). simpl. lia.
  - eapply Forall_impl; [exact Hg|]. intros t (u & Hu & Hw). apply not_true_is_false.
    apply not_true_iff_false in Hw. intros Hin. apply Hw, within_le. apply within_le in Hin.
    pose proof (late_by_last d ts now u Hd Hl Hu).
    pose proof (time_sub_slack u now t t d Hd ltac:(lia) ltac:(lia)). lia.
Qed.

(** ** Bounds on the alerts *)

(** [c1] never counts more than [c2] on times at most [d] late. *)
Definition counts_le (d : Z) (c1 c2 : counter) : Prop :=
  forall size now ts, late_by d (ts ++ [now]) -> (c1 size now (ts ++ [now]) <= c2 size now (ts ++ [now]))%nat.

Lemma fires_with_le d c1 c2 rule past e :
  counts_le d c1 c2 -> late_by d (match_times rule (past ++ [e])) ->
  fires_with c1 rule past e = true -> fires_with c2 rule past e = true.
Proof.
  intros Hle Hl. unfold fires_with. destruct (R_MatchEvent rule e) eqn:Hm; [|done]. simpl.
  destruct (is_threshold rule); [simpl|done]. destruct (group_of rule e) as [k|p] eqn:Hk; [|done].
  pose proof (group_times_sorted _ rule k _ Hl) as Hs.
  rewrite group_times_snoc, Hm, bool_decide_true in * by done. simpl in *.
  pose proof (Hle (window_of rule) (Timestamp e) _ Hs).
  rewrite !Z.gtb_lt. lia.
Qed.

Lemma alerts_with_le d c1 c2 rule es : forall past,
  counts_le d c1 c2 -> late_by d (match_times rule (past ++ es)) ->
  alerts_with c1 rule past es `sublist_of` alerts_with c2 rule past es.
Proof.
  induction es as [|e es IH]; intros past Hle Hl; [done|]. simpl.
  rewrite (cons_middle e past es), app_assoc in Hl.
  apply sublist_app; [|by apply IH].
  assert (Hp : late_by d (match_times rule (past ++ [e])))
    by (rewrite match_times_app in Hl; exact (StronglySorted_prefix _ _ _ Hl)).
  pose proof (fires_with_le d c1 c2 rule past e Hle Hp) as Hf.
  destruct (fires_with c1 rule past e); [by rewrite Hf|apply sublist_nil_l].
Qed.

(** What the code counts lies between the two windows. *)
Lemma retained_widened rule es d :
  0 <= d -> late_by d (match_times rule es) ->
  alerts_with (widened (- d)) rule [] es `sublist_of` alerts_with retained rule [] es /\
  alerts_with retained rule [] es `sublist_of` alerts_with (widened d) rule [] es.
Proof.
  intros Hd Hl. split; apply (alerts_with_le d); auto; intros size now ts Hts;
    [by apply retained_at_least|by apply retained_at_most].
Qed.

(** (C22) Among rules of distinct colon-free names without sequences, on events with
    source containers: when none of its matches comes more than [d] late, a rule
    of the engine raises at least the alerts that the sliding window shortened by
    [d] calls for, and at most those of the window widened by [d]; when events
    come in order ([d] is zero) these agree. *)
Theorem late_alerts_bounded (rs : list Rule) (es : list Event) (rule : Rule) (d : Z) :
  plain_rules rs -> NoDup (map R_Name rs) -> rule ∈ rs ->
  Forall (fun e => is_Some (SrcContainer e)) es ->
  0 <= d -> late_by d (match_times rule es) ->
  exists r', ProcessLoop (NewEngine rs) es = Ret r' /\
    alerts_with (widened (- d)) rule [] es `sublist_of` about rule (alerts r') /\
    about rule (alerts r') `sublist_of` alerts_with (widened d) rule [] es.
Proof.
  intros Hp Hnd Hin Hall Hd Hl. destruct (engine_alerts rs es rule) as (r' & Hr & Ha); [done..|].
  exists r'. rewrite Ha. split; [done|]. by apply retained_widened.
Qed.

(** A match that the sliding window at 14 does not hold is counted: the event at 3
    has come after the one at 12, which is not expired and so protects it. *)
Lemma late_alerts_bounded_witness :
  let ru := sample_rule "reads" (threshold_detect 3) None in
  let at_s n := sample_event (n * Second) "/a" in
  let es := [at_s 1; at_s 12; at_s 3; at_s 12; at_s 14] in
  alerts_with sliding ru [] es = [] /\
  map AlertTimestamp (alerts_with retained ru [] es) = [14 * Second] /\
  exists r', ProcessLoop (NewEngine [ru]) es = Ret r' /\
    alerts_with (widened (- (9 * Second))) ru [] es `sublist_of` about ru (alerts r') /\
    about ru (alerts r') `sublist_of` alerts_with (widened (9 * Second)) ru [] es.
Proof.
  intros ru at_s es. split; [vm_compute; reflexivity|]. split; [vm_compute; reflexivity|].
  refine (late_alerts_bounded [ru] es ru (9 * Second) _ _ _ _ _ _).
  - by apply (bool_decide_unpack _); vm_compute.
  - by apply (bool_decide_unpack _); vm_compute.
  - by left.
  - repeat constructor; by eexists.
  - by vm_compute.
  - vm_compute. repeat constructor; by vm_compute.
Defined.
