(* ===== verification/LoadRules.v ===== *)
(** * Loading the rules

    [LoadRules] and [New] of [internal/ruleengine/engine.go].  The rules folder
    is a tree as [filepath.WalkDir] of the standard library sees it, which is
    written out here; the YAML decoder is not part of the repository and is a
    parameter. *)

From S2P Require Import Prelude.
From S2P Require Import Bytes.
From S2P Require Import GoLib.
From S2P Require Import Rule.
From S2P Require Import Engine.

(** A directory entry: a file's name and contents ([None] when it cannot be read);
    or a directory's name, whether listing it fails, and the entries listed (on
    failure those before it) in lexical order. *)
#[local] Set Warnings "-register-all".
Inductive node :=
| FileNode (name : string) (data : option (list byte))
| DirNode (name : string) (list_fails : bool) (entries : list node).

Inductive load_error := ErrRead | ErrYaml.

(** ** filepath.WalkDir

    [fn st d err] is the callback on the entry [d] ([None] is the nil entry) and
    on an error or none, [st] being the variables it captures; it returns neither
    [SkipDir] nor [SkipAll]. *)
Section WalkDir.
Context {S E : Type}.
Variable fn : S -> option node -> bool -> go (S * option E).

(** Go on with [k] when there is no error. *)
Definition unless_error (m : go (S * option E)) (k : S -> go (S * option E)) : go (S * option E) :=
  res ← m;
  match res with
  | (st, None) => k st
  | (st, Some err) => Ret (st, Some err)
  end.

(** [walkDir]: the callback on the entry; once more, with the error, for a directory
    that cannot be listed; then the entries listed. *)
Fixpoint walkDir (st : S) (d : node) : go (S * option E) :=
  unless_error (fn st (Some d) false) (fun st =>
    match d with
    | FileNode _ _ => Ret (st, None)
    | DirNode _ list_fails dirs =>
        unless_error (if list_fails then fn st (Some d) true else Ret (st, None)) (fun st =>
          (fix walk_entries (st : S) (dirs : list node) : go (S * option E) :=
             match dirs with
             | [] => Ret (st, None)
             | d1 :: dirs => unless_error (walkDir st d1) (fun st => walk_entries st dirs)
             end) st dirs)
    end).

(** [root] is [None] when [os.Lstat] of the path fails. *)
Definition WalkDir (st : S) (root : option node) : go (S * option E) :=
  match root with
  | None => fn st None true
  | Some d => walkDir st d
  end.
End WalkDir.

Section Load.
(** [yaml.Unmarshal(data, &rule)] into a zero rule. *)
Variable unmarshal : list byte -> option Rule.

Definition is_rule_file (filename : string) : bool :=
  has_suffix (bytes_of filename) (bytes_of ".yml") || has_suffix (bytes_of filename) (bytes_of ".yaml").

(** The callback on a file. *)
Definition visit_file (loaded : list Rule) (filename : string) (data : option (list byte))
    : list Rule * option load_error :=
  if is_rule_file filename then
    match data with
    | None => (loaded, Some ErrRead)
    | Some ruleData =>
        match unmarshal ruleData with
        | None => (loaded, Some ErrYaml)
        | Some rule => (loaded ++ [rule], None)
        end
    end
  else (loaded, None).

(** The callback, which looks at the entry at once and at the error never:
    [d.IsDir()] of the nil entry panics. *)
Definition visit (loaded : list Rule) (d : option node) (err : bool) : go (list Rule * option load_error) :=
  match d with
  | None => Panic NilDeref
  | Some (DirNode _ _ _) => Ret (loaded, None)
  | Some (FileNode filename data) => Ret (visit_file loaded filename data)
  end.

(** [LoadRules] of the path that [root] stands for, into no rules yet. *)
Definition LoadRules (root : option node) : go (list Rule * option load_error) := WalkDir visit [] root.

(** [New]: [None] is the nil engine. *)
Definition New (root : option node) : go (option RuleEngine) :=
  res ← LoadRules root;
  match res with
  | (_, Some err) => Ret None
  | (loaded, None) => Ret (Some (NewEngine loaded))
  end.

(** ** What is loaded *)

(** The files of a tree, at any depth. *)
Fixpoint files (n : node) : list (string * option (list byte)) :=
  match n with
  | FileNode filename data => [(filename, data)]
  | DirNode _ _ entries => concat (map files entries)
  end.

(** Those called something.yml or something.yaml, and their contents. *)
Definition yaml_name (filename : string) : Prop :=
  bytes_of ".yml" `suffix_of` bytes_of filename \/ bytes_of ".yaml" `suffix_of` bytes_of filename.

Definition rule_files (n : node) : list (option (list byte)) :=
  map snd (List.filter (fun f => bool_decide (yaml_name f.1)) (files n)).

(** The rule in a file, if it can be read and decoded. *)
Definition file_rule (data : option (list byte)) : option Rule := data ≫= unmarshal.

(** What is wrong with a file that holds no rule. *)
Definition file_error (data : option (list byte)) (err : load_error) : Prop :=
  match err with
  | ErrRead => data = None
  | ErrYaml => exists d, data = Some d /\ unmarshal d = None
  end.

Lemma has_prefix_spec (s p : list byte) : has_prefix s p = true <-> p `prefix_of` s.
Proof.
  split; [|intros [r ->]; apply has_prefix_app].
  revert s. induction p as [|c p IH]; intros s; [by intros; apply prefix_nil|]. destruct s as [|d s]; [done|].
  rewrite has_prefix_cons. intros [->%bool_decide_eq_true H]%andb_prop. by apply prefix_cons, IH.
Qed.

Lemma has_suffix_spec (s p : list byte) : has_suffix s p = true <-> p `suffix_of` s.
Proof.
  unfold has_suffix. rewrite has_prefix_spec. split.
  - intros [r Hr]. exists (rev r). apply (f_equal (@rev byte)) in Hr.
    by rewrite rev_involutive, rev_app_distr, rev_involutive in Hr.
  - intros [r ->]. exists (rev r). apply rev_app_distr.
Qed.

Lemma is_rule_file_name filename : is_rule_file filename = bool_decide (yaml_name filename).
Proof.
  apply Bool.eq_iff_eq_true. unfold is_rule_file, yaml_name.
  by rewrite orb_true_iff, !has_suffix_spec, bool_decide_eq_true.
Qed.

(** Loading the files one after the other: the rules up to the first file that
    holds none, and its error. *)
Inductive loads : list Rule -> list (option (list byte)) -> list Rule * option load_error -> Prop :=
| loads_nil l : loads l [] (l, None)
| loads_rule l f fs rule res :
    file_rule f = Some rule -> loads (l ++ [rule]) fs res -> loads l (f :: fs) res
| loads_stop l f fs err : file_error f err -> loads l (f :: fs) (l, Some err).
#[local] Hint Constructors loads : core.

Lemma loads_app l fs gs l' res :
  loads l fs (l', None) -> loads l' gs res -> loads l (fs ++ gs) res.
Proof.
  intros H. remember (l', None) as mid eqn:Em. revert Em. induction H as [|l f fs rule mid Hf _ IH|];
    intros Em Hg; simplify_eq; simpl; [done|]. apply (loads_rule _ _ _ rule); auto.
Qed.

Lemma loads_app_stop l fs gs l' err : loads l fs (l', Some err) -> loads l (fs ++ gs) (l', Some err).
Proof.
  intros H. remember (l', Some err) as mid eqn:Em. revert Em. induction H as [|l f fs rule mid Hf _ IH|];
    intros Em; simplify_eq; simpl; [|by apply loads_stop]. apply (loads_rule _ _ _ rule); auto.
Qed.

Lemma visit_file_loads l filename data :
  loads l (rule_files (FileNode filename data)) (visit_file l filename data).
Proof.
  unfold visit_file, rule_files. simpl. rewrite is_rule_file_name.
  destruct (bool_decide (yaml_name filename)); simpl; [|done].
  destruct data as [d|]; [|by apply loads_stop]. destruct (unmarshal d) as [rule|] eqn:Hd.
  - by apply (loads_rule _ _ _ rule).
  - apply loads_stop. by exists d.
Qed.

(** Induction on trees. *)
Fixpoint node_ind' (P : node -> Prop)
    (HF : forall name data, P (FileNode name data))
    (HD : forall name list_fails entries, Forall P entries -> P (DirNode name list_fails entries)) (n : node) : P n :=
  match n with
  | FileNode name data => HF name data
  | DirNode name list_fails entries =>
      HD name list_fails entries ((fix go l : Forall P l :=
        match l with
        | [] => Forall_nil_2 P
        | n :: l => Forall_cons_2 P n l (node_ind' P HF HD n) (go l)
        end) entries)
  end.

Lemma rule_files_entries name list_fails entries :
  rule_files (DirNode name list_fails entries) = concat (map rule_files entries).
Proof.
  unfold rule_files. cbn [files]. induction entries as [|n ns IH]; [done|]. cbn [map concat].
  by rewrite List.filter_app, map_app, IH.
Qed.

(** The walk loads the files of the tree; a directory that cannot be listed changes
    nothing to that. *)
Lemma walk_loads n : forall l, exists res, walkDir visit l n = Ret res /\ loads l (rule_files n) res.
Proof.
  induction n as [name data|name list_fails entries IH] using node_ind'; intros l.
  - exists (visit_file l name data). split; [|apply visit_file_loads].
    cbn [walkDir visit]. unfold unless_error. simpl. by destruct (visit_file l name data) as [l' [err|]].
  - rewrite rule_files_entries. cbn [walkDir visit]. unfold unless_error at 1. simpl.
    replace (if list_fails then _ else _) with (Ret (l, @None load_error)) by (by destruct list_fails).
    unfold unless_error at 1. simpl. revert l. induction IH as [|n ns Hn _ IH]; intros l; [by exists (l, None)|].
    cbn [map concat]. destruct (Hn l) as ([l' [err|]] & Hw & Hl); rewrite Hw; unfold unless_error at 1; simpl.
    + exists (l', Some err). split; [done|]. by apply loads_app_stop.
    + destruct (IH l') as (res & Hr & Hres). exists res. split; [exact Hr|]. by apply (loads_app l _ _ l').
Qed.

Lemma loads_all l fs l' : loads l fs (l', None) -> exists rs, mapM file_rule fs = Some rs /\ l' = l ++ rs.
Proof.
  intros H. remember (l', None) as res eqn:Er. revert Er. induction H as [|l f fs rule res Hf _ IH|];
    intros Er; simplify_eq.
  - exists []. by rewrite app_nil_r.
  - destruct (IH eq_refl) as (rs & Hrs & ->). exists (rule :: rs). simpl. rewrite Hf, Hrs. simpl.
    by rewrite <- app_assoc.
Qed.

(** The file at which loading stops. *)
Definition stops_at (fs : list (option (list byte))) (loaded : list Rule) (err : load_error) : Prop :=
  exists before f after, fs = before ++ f :: after /\ mapM file_rule before = Some loaded /\ file_error f err.

Lemma loads_stops l fs l' err :
  loads l fs (l', Some err) -> exists rs, stops_at fs rs err /\ l' = l ++ rs.
Proof.
  intros H. remember (l', Some err) as res eqn:Er. revert Er. induction H as [|l f fs rule res Hf _ IH|];
    intros Er; simplify_eq.
  - destruct (IH eq_refl) as (rs & (before & f' & after & -> & Hb & Hn) & ->). exists (rule :: rs).
    split; [|by rewrite <- app_assoc]. exists (f :: before), f', after. split_and!; [done| |done].
    simpl. by rewrite Hf, Hb.
  - exists []. rewrite app_nil_r. split; [|done]. by exists [], f, fs.
Qed.

Lemma file_error_no_rule f err : file_error f err -> file_rule f = None.
Proof. destruct err; simpl; [by intros ->|by intros (d & -> & Hd)]. Qed.

Lemma stops_at_none fs loaded err : stops_at fs loaded err -> mapM file_rule fs = None.
Proof.
  intros (before & f & after & -> & Hb & Hf%file_error_no_rule). apply mapM_None.
  apply Exists_app. right. by apply Exists_cons_hd.
Qed.

Lemma New_eq (root : option node) :
  New root =
  match root with
  | None => Panic NilDeref
  | Some n => Ret (rs ← mapM file_rule (rule_files n); Some (NewEngine rs))
  end.
Proof.
  unfold New, LoadRules, WalkDir. destruct root as [n|]; [|reflexivity].
  destruct (walk_loads n []) as ([l [err|]] & -> & Hl); simpl.
  - apply loads_stops in Hl as (rs & Hs%stops_at_none & _). by rewrite Hs.
  - apply loads_all in Hl as (rs & -> & ->). done.
Qed.

Lemma LoadRules_error n loaded err :
  LoadRules (Some n) = Ret (loaded, Some err) -> stops_at (rule_files n) loaded err.
Proof.
  unfold LoadRules, WalkDir. destruct (walk_loads n []) as (res & -> & Hl). intros [= ->].
  apply loads_stops in Hl as (rs & Hs & ->). exact Hs.
Qed.

(** (C34) [New] panics when the rules folder does not exist.  Otherwise the engine
    holds the rules of all files below the folder whose names end in .yml or
    .yaml, in the order of the walk, and no others; and there is no engine when
    one of them cannot be read or decoded: [LoadRules] then stops at the first
    of these, with its error. *)
Theorem New_loads (root : option node) :
  match root with
  | None => New root = Panic NilDeref
  | Some n =>
      New root = Ret (rs ← mapM file_rule (rule_files n); Some (NewEngine rs)) /\
      forall loaded err, LoadRules root = Ret (loaded, Some err) -> stops_at (rule_files n) loaded err
  end.
Proof.
  destruct root as [n|]; [|by rewrite New_eq]. split; [by rewrite New_eq|]. intros loaded err. apply LoadRules_error.
Qed.
End Load.

(** A decoder for the examples: a file of one byte is a rule of that name. *)
Definition tiny_decoder (data : list byte) : option Rule :=
  match data with
  | [_] => Some (sample_rule (of_bytes data) (threshold_detect 1) None)
  | _ => None
  end.

Definition tiny_folder (last : option (list byte)) : node :=
  DirNode "rules" true [FileNode "a.yml" (Some (bytes_of "A"));
    DirNode "sub.yml" false [FileNode "b.yaml" (Some (bytes_of "B")); FileNode "notes.txt" None];
    FileNode "c.yml" last].

Lemma New_loads_witness :
  New tiny_decoder None = Panic NilDeref /\
  (exists r, New tiny_decoder (Some (tiny_folder (Some (bytes_of "C")))) = Ret (Some r) /\
     map R_Name (rules r) = ["A"; "B"; "C"]) /\
  LoadRules tiny_decoder (Some (tiny_folder None)) =
    Ret ([sample_rule "A" (threshold_detect 1) None; sample_rule "B" (threshold_detect 1) None], Some ErrRead) /\
  stops_at tiny_decoder (rule_files (tiny_folder None))
    [sample_rule "A" (threshold_detect 1) None; sample_rule "B" (threshold_detect 1) None] ErrRead.
Proof.
  split; [exact (New_loads tiny_decoder None)|].
  split; [eexists; split; [vm_compute; reflexivity|reflexivity]|].
  split; [vm_compute; reflexivity|].
  apply (proj2 (New_loads tiny_decoder (Some (tiny_folder None)))). vm_compute. reflexivity.
Defined.

(** A folder that cannot be listed is loaded as if it were empty: the callback is
    told, and does not look. *)
Example unreadable_folder_loads :
  New tiny_decoder (Some (DirNode "rules" true [])) = Ret (Some (NewEngine [])).
Proof. reflexivity. Qed.
