(* ===== verification/Json.v ===== *)
(** * The JSON text of events and alerts

    What [json.Marshal] writes for the structures of [internal/core] and
    [internal/output], following their tags: Go's string escaping, numbers,
    [omitempty], and times in RFC 3339 with nanoseconds. *)

From S2P Require Import Prelude.
From S2P Require Import Bytes.
From S2P Require Import GoLib.
From S2P Require Import PathMatch.
From S2P Require Import Core.
From S2P Require Import Helpers.

Open Scope Z_scope.

(** ** Strings *)

Definition QUOTE : byte := b 34.
Definition hex_digit (v : Z) : byte := byte_of (if v <? 10 then v + 48 else v + 87).

(** A byte below 128, as a JSON string with HTML escaping holds it. *)
Definition escape_ascii (c : byte) : list byte :=
  let v := byte_val c in
  if (v =? 34) || (v =? 92) then [BACKSLASH; c]
  else if v =? 8 then [BACKSLASH; b 98]
  else if v =? 12 then [BACKSLASH; b 102]
  else if v =? 10 then [BACKSLASH; b 110]
  else if v =? 13 then [BACKSLASH; b 114]
  else if v =? 9 then [BACKSLASH; b 116]
  else if (v <? 32) || (v =? 38) || (v =? 60) || (v =? 62) then
    BACKSLASH :: bytes_of "u00" ++ [hex_digit (v / 16); hex_digit (v mod 16)]
  else [c].

(** The loop of the encoder: ASCII bytes one by one, other runes as they are
    but for invalid encodings and the two line separators. *)
Fixpoint escape_fuel (fuel : nat) (s : list byte) : list byte :=
  match fuel, s with
  | O, _ => []
  | _, [] => []
  | S fuel, c :: s' =>
      if byte_val c <? 128 then escape_ascii c ++ escape_fuel fuel s'
      else
        let '(r, n) := decode_rune s in
        if (r =? rune_error) && bool_decide (n = 1%nat) then bytes_of "\ufffd" ++ escape_fuel fuel s'
        else if (r =? 8232) || (r =? 8233) then
          bytes_of "\u202" ++ [hex_digit (r mod 16)] ++ escape_fuel fuel (drop n s)
        else take n s ++ escape_fuel fuel (drop n s)
  end.

Definition escape (s : list byte) : list byte := escape_fuel (length s) s.
Definition json_string (s : list byte) : list byte := QUOTE :: escape s ++ [QUOTE].

(** ** Times *)

(** The civil date of a day, counted from 1970-01-01 (Gregorian, proleptic). *)
Definition civil_from_days (d : Z) : Z * Z * Z :=
  let z := d + 719468 in
  let era := z / 146097 in
  let doe := z mod 146097 in
  let yoe := (doe - doe / 1460 + doe / 36524 - doe / 146096) / 365 in
  let doy := doe - (365 * yoe + yoe / 4 - yoe / 100) in
  let mp := (5 * doy + 2) / 153 in
  let day := doy - (153 * mp + 2) / 5 + 1 in
  let month := if mp <? 10 then mp + 3 else mp - 9 in
  let year := yoe + era * 400 + (if month <=? 2 then 1 else 0) in
  (year, month, day).

(** The day number of a civil date, by its years, months and days. *)
Definition days_from_civil (y m d : Z) : Z :=
  let y := if m <=? 2 then y - 1 else y in
  let era := y / 400 in
  let yoe := y mod 400 in
  let mp := if m >? 2 then m - 3 else m + 9 in
  let doy := (153 * mp + 2) / 5 + d - 1 in
  let doe := yoe * 365 + yoe / 4 - yoe / 100 + doy in
  era * 146097 + doe - 719468.

(** [n] decimal digits of [v]. *)
Fixpoint digits (n : nat) (v : Z) : list byte :=
  match n with
  | O => []
  | S n => digits n (v / 10) ++ [byte_of (48 + v mod 10)]
  end.

(** The fraction of a second: nine digits without the trailing zeros. *)
Fixpoint strip_zeros (s : list byte) : list byte :=
  match s with
  | [] => []
  | c :: s' => match strip_zeros s' with
               | [] => if decide (c = b 48) then [] else [c]
               | r => c :: r
               end
  end.
Definition fraction (nanos : Z) : list byte :=
  if nanos =? 0 then [] else b 46 :: strip_zeros (digits 9 nanos).

(** The zone, [zone] seconds east of Greenwich: one fixed offset, where Go's local
    zone can have another in summer. *)
Definition zone_text (zone : Z) : list byte :=
  if zone =? 0 then [b 90]
  else
    let m := Z.quot zone 60 in
    (if m <? 0 then b 45 else b 43) :: digits 2 (Z.abs m / 60) ++ [b 58] ++ digits 2 (Z.abs m mod 60).

(** [t.Format(time.RFC3339Nano)], when the year has four digits. *)
Definition time_text (zone t : Z) : list byte :=
  let s := t / Second + zone in
  let '(year, month, day) := civil_from_days (s / 86400) in
  let sod := s mod 86400 in
  digits 4 year ++ [b 45] ++ digits 2 month ++ [b 45] ++ digits 2 day ++ [b 84] ++
  digits 2 (sod / 3600) ++ [b 58] ++ digits 2 (sod / 60 mod 60) ++ [b 58] ++ digits 2 (sod mod 60) ++
  fraction (t mod Second) ++ zone_text zone.

(** ** Values

    What is printed, as a JSON value: strings are their bytes, numbers unsigned. *)

#[local] Set Warnings "-register-all".
Inductive json :=
| JNull
| JNum (n : Z)
| JStr (s : list byte)
| JObj (ms : list (list byte * json)).

(** The comma-separated members of an object. *)
Fixpoint commas (ms : list (list byte)) : list byte :=
  match ms with
  | [] => []
  | [m] => m
  | m :: ms => m ++ b 44 :: commas ms
  end.

Fixpoint encode (j : json) : list byte :=
  match j with
  | JNull => bytes_of "null"
  | JNum n => bytes_of (decimal n)
  | JStr s => json_string s
  | JObj ms => b 123 :: commas (map (fun '(k, v) => json_string k ++ b 58 :: encode v) ms) ++ [b 125]
  end.

(** ** The structures, by their tags *)

Definition str (s : string) : json := JStr (bytes_of s).
Definition member (name : string) (value : json) : list byte * json := (bytes_of name, value).

(** Members with [omitempty]. *)
Definition opt_string (name v : string) : list (list byte * json) :=
  if decide (v = ""%string) then [] else [member name (str v)].
Definition opt_uint (name : string) (v : Z) : list (list byte * json) :=
  if decide (v = 0) then [] else [member name (JNum v)].

Definition json_ContainerInfo (c : ContainerInfo) : json :=
  JObj [member "id" (str (CI_ID c)); member "name" (str (CI_Name c)); member "image" (str (CI_Image c))].
Definition opt_container (name : string) (c : option ContainerInfo) : list (list byte * json) :=
  match c with Some c => [member name (json_ContainerInfo c)] | None => [] end.
Definition container_or_null (c : option ContainerInfo) : json :=
  match c with Some c => json_ContainerInfo c | None => JNull end.

Section Zone.
Variable zone : Z.

Definition json_Event (e : Event) : json :=
  JObj (
    [member "event_type" (str (EventType e)); member "timestamp" (JStr (time_text zone (Timestamp e)))] ++
    opt_container "src_container" (SrcContainer e) ++
    opt_string "src_process_name" (SrcProcessName e) ++
    opt_uint "src_pid" (SrcPID e) ++ opt_uint "src_cgroup_id" (SrcCgroupID e) ++
    opt_string "src_addr" (SrcAddr e) ++ opt_uint "src_port" (SrcPort e) ++
    opt_container "dst_container" (DstContainer e) ++
    opt_string "dst_process_name" (DstProcessName e) ++
    opt_uint "dst_pid" (DstPID e) ++ opt_uint "dst_cgroup_id" (DstCgroupID e) ++
    opt_string "dst_addr" (DstAddr e) ++ opt_uint "dst_port" (DstPort e) ++
    opt_string "file_path" (FilePath e) ++ opt_string "file_op" (FileOp e) ++
    opt_string "exec_path" (ExecPath e) ++ opt_uint "parent_pid" (ParentPID e) ++
    opt_string "parent_process_name" (ParentProcessName e)).

Definition json_Alert (a : Alert) : json :=
  JObj [member "timestamp" (JStr (time_text zone (AlertTimestamp a))); member "rule_name" (str (RuleName a));
        member "severity" (str (Severity a)); member "description" (str (Description a));
        member "src_container" (container_or_null (AlertSrcContainer a));
        member "dst_container" (container_or_null (AlertDstContainer a))].
End Zone.

(** ** Reading it back *)

(** UTF-8 of a code point below 2^16. *)
Definition encode_rune (r : Z) : list byte :=
  if r <? 128 then [byte_of r]
  else if r <? 2048 then [byte_of (192 + r / 64); byte_of (128 + r mod 64)]
  else [byte_of (224 + r / 4096); byte_of (128 + r / 64 mod 64); byte_of (128 + r mod 64)].

Definition hex_val (c : byte) : option Z :=
  let v := byte_val c in
  if (48 <=? v) && (v <=? 57) then Some (v - 48)
  else if (97 <=? v) && (v <=? 102) then Some (v - 87)
  else None.

Definition hex4 (h1 h2 h3 h4 : byte) : option Z :=
  v1 ← hex_val h1; v2 ← hex_val h2; v3 ← hex_val h3; v4 ← hex_val h4;
  Some (v1 * 4096 + v2 * 256 + v3 * 16 + v4).

(** The byte a two-character escape stands for. *)
Definition short_escape (c : byte) : option byte :=
  let v := byte_val c in
  if (v =? 34) || (v =? 92) || (v =? 47) then Some c
  else if v =? 98 then Some (b 8)
  else if v =? 102 then Some (b 12)
  else if v =? 110 then Some (b 10)
  else if v =? 114 then Some (b 13)
  else if v =? 116 then Some (b 9)
  else None.

Definition prepend (l : list byte) (r : option (list byte * list byte)) : option (list byte * list byte) :=
  match r with Some (s, rest) => Some (l ++ s, rest) | None => None end.

(** A string after its opening quote: its bytes, and what follows it. *)
Fixpoint read_string (s : list byte) : option (list byte * list byte) :=
  match s with
  | [] => None
  | c :: s =>
      if decide (c = QUOTE) then Some ([], s)
      else if decide (c = BACKSLASH) then
        match s with
        | [] => None
        | e :: s =>
            if decide (e = b 117) then
              match s with
              | h1 :: h2 :: h3 :: h4 :: s =>
                  match hex4 h1 h2 h3 h4 with
                  | Some r => prepend (encode_rune r) (read_string s)
                  | None => None
                  end
              | _ => None
              end
            else
              match short_escape e with
              | Some c => prepend [c] (read_string s)
              | None => None
              end
        end
      else if byte_val c <? 32 then None
      else prepend [c] (read_string s)
  end.

(** The digits at the front. *)
Fixpoint read_digits (s : list byte) : list byte * list byte :=
  match s with
  | c :: s' => match digit_val c with
               | Some _ => let '(d, r) := read_digits s' in (c :: d, r)
               | None => ([], s)
               end
  | [] => ([], [])
  end.

Fixpoint parse (fuel : nat) (s : list byte) : option (json * list byte) :=
  match fuel, s with
  | O, _ | _, [] => None
  | S fuel, c :: s' =>
      if decide (c = QUOTE) then
        match read_string s' with Some (t, rest) => Some (JStr t, rest) | None => None end
      else if decide (c = b 123) then
        match s' with
        | d :: rest =>
            if decide (d = b 125) then Some (JObj [], rest)
            else match parse_members fuel s' with Some (ms, rest) => Some (JObj ms, rest) | None => None end
        | [] => None
        end
      else
        match strip_prefix (bytes_of "null") s with
        | Some rest => Some (JNull, rest)
        | None =>
            let '(d, rest) := read_digits s in
            match parse_uint 64 d with inl n => Some (JNum n, rest) | inr _ => None end
        end
  end
with parse_members (fuel : nat) (s : list byte) : option (list (list byte * json) * list byte) :=
  match fuel, s with
  | O, _ | _, [] => None
  | S fuel, c :: s =>
      if decide (c = QUOTE) then
        match read_string s with
        | Some (k, d :: s) =>
            if decide (d = b 58) then
              match parse fuel s with
              | Some (v, e :: s) =>
                  if decide (e = b 44) then
                    match parse_members fuel s with
                    | Some (ms, rest) => Some ((k, v) :: ms, rest)
                    | None => None
                    end
                  else if decide (e = b 125) then Some ([(k, v)], s)
                  else None
              | _ => None
              end
            else None
        | _ => None
        end
      else None
  end.

Definition parse_json (s : list byte) : option json :=
  match parse (S (length s)) s with Some (j, []) => Some j | _ => None end.

Example time_text_example :
  of_bytes (time_text 10800 (1700000000 * Second + 250000000)) = "2023-11-15T01:13:20.25+03:00"%string.
Proof. vm_compute. reflexivity. Qed.

(** ** Strings survive *)

Fixpoint utf8_fuel (fuel : nat) (s : list byte) : bool :=
  match fuel, s with
  | O, _ | _, [] => true
  | S fuel, c :: s' =>
      if byte_val c <? 128 then utf8_fuel fuel s'
      else
        let '(r, n) := decode_rune s in
        if (r =? rune_error) && bool_decide (n = 1%nat) then false else utf8_fuel fuel (drop n s)
  end.

(** [utf8.Valid(s)]. *)
Definition utf8_valid (s : list byte) : bool := utf8_fuel (length s) s.

Definition high (c : byte) : Prop := 128 <= byte_val c.

Lemma read_escape_ascii c rest :
  byte_val c < 128 -> read_string (escape_ascii c ++ rest) = prepend [c] (read_string rest).
Proof.
  intros H. destruct c as [[] [] [] [] [] [] [] []];
    first [exfalso; vm_compute in H; discriminate H|reflexivity].
Qed.

Lemma prepend_app l1 l2 r : prepend l1 (prepend l2 r) = prepend (l1 ++ l2) r.
Proof. destruct r as [[s rest]|]; simpl; [by rewrite app_assoc|done]. Qed.

Lemma read_high l rest : Forall high l -> read_string (l ++ rest) = prepend l (read_string rest).
Proof.
  induction 1 as [|c l Hc _ IH]; simpl; [by destruct (read_string rest) as [[]|]|].
  rewrite decide_False by (intros ->; by vm_compute in Hc).
  rewrite decide_False by (intros ->; by vm_compute in Hc).
  destruct (Z.ltb_spec (byte_val c) 32); [unfold high in Hc; lia|].
  rewrite IH. apply (prepend_app [c] l).
Qed.

Lemma byte_val_eq c v : byte_val c = v -> c = byte_of v.
Proof. intros <-. symmetry. apply byte_of_val. Qed.

(** A valid encoding of a non-ASCII rune is high bytes; the two separators have
    one encoding each. *)
Lemma decode_high c s r n :
  high c -> decode_rune (c :: s) = (r, n) -> (r =? rune_error) && bool_decide (n = 1%nat) = false ->
  (1 <= n <= length (c :: s))%nat /\ Forall high (take n (c :: s)) /\
  (r = 8232 \/ r = 8233 -> take n (c :: s) = encode_rune r).
Proof.
  unfold high, decode_rune, cont_byte. intros Hc. pose proof (byte_val_range c).
  destruct (Z.ltb_spec (byte_val c) 128); [lia|].
  assert (Hbad : forall r n, (rune_error, 1%nat) = (r, n) -> (r =? rune_error) && bool_decide (n = 1%nat) <> false)
    by by intros ? ? [= <- <-].
  destruct s as [|c1 s]; [by intros H1 H2; destruct (Hbad _ _ H1)|]. pose proof (byte_val_range c1).
  destruct ((194 <=? byte_val c) && (byte_val c <=? 223)) eqn:E2.
  { destruct (_ && _) eqn:E in |- *; [|by intros H3 H4; destruct (Hbad _ _ H3)].
    intros [= <- <-] _. split_and!; [simpl; lia|simpl; lia| |].
    - repeat constructor; lia.
    - intros Hr. exfalso. lia. }
  destruct ((224 <=? byte_val c) && (byte_val c <=? 239)) eqn:E3.
  { destruct s as [|c2 s]; [by intros H3 H4; destruct (Hbad _ _ H3)|]. pose proof (byte_val_range c2).
    destruct (_ && _) eqn:E in |- *; [|by intros H3' H4; destruct (Hbad _ _ H3')].
    intros [= <- <-] _. repeat rewrite andb_true_iff in E. split_and!; [simpl; lia|simpl; lia| |].
    - repeat constructor; destruct (byte_val c =? 224), (byte_val c =? 237); lia.
    - intros Hr. assert (byte_val c = 226 /\ byte_val c1 = 128 /\
        (byte_val c2 = 168 \/ byte_val c2 = 169)) as (H1' & H2' & H3').
      { destruct (Z.eqb_spec (byte_val c) 224), (Z.eqb_spec (byte_val c) 237); lia. }
      rewrite H1', H2'. apply byte_val_eq in H1', H2'. subst c c1.
      destruct H3' as [H3'|H3']; rewrite H3'; apply byte_val_eq in H3'; subst c2; reflexivity. }
  destruct ((240 <=? byte_val c) && (byte_val c <=? 244)) eqn:E4;
    [|by intros H3 H4; destruct (Hbad _ _ H3)].
  destruct s as [|c2 [|c3 s]]; [by intros H3 H4; destruct (Hbad _ _ H3)..|].
  pose proof (byte_val_range c2). pose proof (byte_val_range c3).
  destruct (_ && _) eqn:E in |- *; [|by intros H3' H4; destruct (Hbad _ _ H3')].
  intros [= <- <-] _. repeat rewrite andb_true_iff in E. split_and!; [simpl; lia|simpl; lia| |].
  - repeat constructor; destruct (byte_val c =? 240), (byte_val c =? 244); lia.
  - intros Hr. exfalso. destruct (Z.eqb_spec (byte_val c) 240), (Z.eqb_spec (byte_val c) 244); lia.
Qed.

Lemma read_separator r rest :
  r = 8232 \/ r = 8233 ->
  read_string (bytes_of "\u202" ++ [hex_digit (r mod 16)] ++ rest) = prepend (encode_rune r) (read_string rest).
Proof. by intros [-> | ->]. Qed.

Lemma read_escape fuel : forall s rest,
  (length s <= fuel)%nat -> utf8_fuel fuel s = true ->
  read_string (escape_fuel fuel s ++ QUOTE :: rest) = Some (s, rest).
Proof.
  induction fuel as [|fuel IH]; intros [|c s] rest Hl Hv; try reflexivity; [simpl in Hl; lia|].
  cbn [escape_fuel utf8_fuel] in *. destruct (Z.ltb_spec (byte_val c) 128) as [Hc|Hc].
  - rewrite <- app_assoc, read_escape_ascii, IH by (assumption || (simpl in Hl; lia)). reflexivity.
  - destruct (decode_rune (c :: s)) as [r n] eqn:E.
    destruct ((r =? rune_error) && bool_decide (n = 1%nat)) eqn:Ebad; [discriminate|].
    destruct (decode_high c s r n Hc E Ebad) as (Hn & Hhigh & Hsep).
    assert (Hrest : read_string (escape_fuel fuel (drop n (c :: s)) ++ QUOTE :: rest) =
                    Some (drop n (c :: s), rest))
      by (apply IH; [rewrite length_drop; simpl in *; lia|exact Hv]).
    assert (Hr : ((r =? 8232) || (r =? 8233)) = true -> r = 8232 \/ r = 8233) by lia.
    destruct ((r =? 8232) || (r =? 8233)).
    + rewrite <- !app_assoc, read_separator, Hrest by by apply Hr.
      cbn [prepend]. rewrite <- (Hsep (Hr eq_refl)). by rewrite take_drop.
    + rewrite <- app_assoc, read_high, Hrest by exact Hhigh. cbn [prepend]. by rewrite take_drop.
Qed.

(** ** Values survive *)

(** Induction on values. *)
Fixpoint json_ind' (P : json -> Prop) (HN : P JNull) (Hn : forall n, P (JNum n))
    (HS : forall s, P (JStr s)) (HO : forall ms, Forall (fun m => P (snd m)) ms -> P (JObj ms))
    (j : json) : P j :=
  match j with
  | JNull => HN
  | JNum n => Hn n
  | JStr s => HS s
  | JObj ms => HO ms ((fix go ms : Forall (fun m => P (snd m)) ms :=
      match ms with
      | [] => Forall_nil_2 _
      | m :: ms => Forall_cons_2 _ m ms (json_ind' P HN Hn HS HO (snd m)) (go ms)
      end) ms)
  end.

(** Strings are UTF-8 and numbers 64-bit. *)
Fixpoint json_ok (j : json) : bool :=
  match j with
  | JNull => true
  | JNum n => (0 <=? n) && (n <? 2 ^ 64)
  | JStr s => utf8_valid s
  | JObj ms => forallb (fun '(k, v) => utf8_valid k && json_ok v) ms
  end.

(** Fuel for reading a value back. *)
Fixpoint json_size (j : json) : nat :=
  match j with
  | JObj ms => S (S (sum_list (map (fun m => S (json_size (snd m))) ms)))
  | _ => 1
  end.

Definition no_digit_front (s : list byte) : Prop :=
  match s with c :: _ => digit_val c = None | [] => True end.

Lemma read_digits_app d s :
  Forall is_digit d -> no_digit_front s -> read_digits (d ++ s) = (d, s).
Proof.
  induction 1 as [|c d [v Hv] _ IH]; intros Hs; simpl.
  - destruct s as [|c s]; [done|]. simpl in *. by rewrite Hs.
  - rewrite Hv, (IH Hs). done.
Qed.

Lemma parse_number fuel n rest :
  in_u 64 n -> no_digit_front rest -> parse (S fuel) (bytes_of (decimal n) ++ rest) = Some (JNum n, rest).
Proof.
  intros Hn Hr. pose proof (decimal_digits n (proj1 Hn)) as Hd.
  pose proof (parse_uint_decimal 64 n ltac:(lia) Hn) as Hp.
  destruct (bytes_of (decimal n)) as [|c d] eqn:E; [discriminate|].
  pose proof (Forall_inv Hd) as [v Hv].
  assert (Hc : c <> QUOTE /\ c <> b 123 /\ c <> "n"%char)
    by (split_and!; intros ->; vm_compute in Hv; discriminate).
  destruct Hc as (Hc1 & Hc2 & Hc3). cbn [parse app]. rewrite !decide_False by assumption.
  assert (strip_prefix (bytes_of "null") (c :: d ++ rest) = None) as ->
    by (cbn; by rewrite decide_False by congruence).
  rewrite app_comm_cons, read_digits_app by assumption. by rewrite Hp.
Qed.

Lemma parse_string fuel s rest :
  utf8_valid s = true -> parse (S fuel) (json_string s ++ rest) = Some (JStr s, rest).
Proof.
  intros Hs. unfold json_string, escape. cbn [parse app]. rewrite decide_True by done.
  rewrite <- app_assoc. cbn [app]. by rewrite read_escape by (done || exact Hs).
Qed.

Definition encode_member (m : list byte * json) : list byte :=
  let '(k, v) := m in json_string k ++ b 58 :: encode v.

Lemma encode_obj ms : encode (JObj ms) = b 123 :: commas (map encode_member ms) ++ [b 125].
Proof. reflexivity. Qed.

Lemma commas_cons m ms : ms <> [] -> commas (m :: ms) = m ++ b 44 :: commas ms.
Proof. by destruct ms. Qed.

(** What a parser run with enough fuel must give back for [j]. *)
Definition parses (j : json) : Prop :=
  forall fuel rest, json_ok j = true -> (json_size j <= fuel)%nat -> no_digit_front rest ->
  parse fuel (encode j ++ rest) = Some (j, rest).

(** One member, up to the byte after it. *)
Lemma parse_members_step fuel k v e rest :
  parses v -> utf8_valid k = true -> json_ok v = true -> (json_size v <= fuel)%nat ->
  digit_val e = None ->
  parse_members (S fuel) (encode_member (k, v) ++ e :: rest) =
  if decide (e = b 44) then
    match parse_members fuel rest with Some (ms, r) => Some ((k, v) :: ms, r) | None => None end
  else if decide (e = b 125) then Some ([(k, v)], rest) else None.
Proof.
  intros Hp Hk Hv Hf He. unfold encode_member, json_string, escape.
  cbn [parse_members app]. rewrite decide_True by done. rewrite <- !app_assoc. cbn [app].
  rewrite read_escape by (done || exact Hk). rewrite decide_True by done.
  rewrite (Hp fuel (e :: rest)) by assumption. reflexivity.
Qed.

Lemma parse_members_all ms : forall fuel rest,
  Forall (fun m => parses (snd m)) ms -> ms <> [] ->
  forallb (fun '(k, v) => utf8_valid k && json_ok v) ms = true ->
  (sum_list (map (fun m => S (json_size (snd m))) ms) <= fuel)%nat ->
  parse_members fuel (commas (map encode_member ms) ++ b 125 :: rest) = Some (ms, rest).
Proof.
  induction ms as [|[k v] ms IH]; intros fuel rest Hall Hne Hok Hf; [done|].
  apply Forall_cons_1 in Hall as [Hv Hall]. simpl in Hok. apply andb_true_iff in Hok as [Hkv Hok].
  apply andb_true_iff in Hkv as [Hk Hvok]. simpl in Hf. destruct fuel as [|fuel]; [lia|].
  destruct (decide (ms = [])) as [->|Hms].
  - cbn [map commas]. rewrite parse_members_step; try assumption; [|simpl in Hf; lia|reflexivity].
    rewrite decide_False by done. by rewrite decide_True by done.
  - cbn [map]. rewrite commas_cons by (by destruct ms). rewrite <- app_assoc. cbn [app].
    rewrite parse_members_step; try assumption; [|lia|reflexivity].
    rewrite decide_True by done. rewrite IH; [done|assumption..|lia].
Qed.

Lemma encode_parses j : parses j.
Proof.
  induction j as [|n|s|ms IH] using json_ind'; intros fuel rest Hok Hf Hr;
    (destruct fuel as [|fuel]; [simpl in Hf; lia|]).
  - reflexivity.
  - apply parse_number; [|exact Hr]. simpl in Hok. unfold in_u. lia.
  - by apply parse_string.
  - rewrite encode_obj. cbn [parse app]. rewrite decide_False, decide_True by done.
    rewrite <- app_assoc. cbn [app]. destruct (decide (ms = [])) as [->|Hne].
    + cbn [map commas app]. by rewrite decide_True.
    + simpl in Hf. pose proof (parse_members_all ms fuel rest IH Hne Hok ltac:(lia)) as Hm.
      destruct ms as [|[k v] ms]; [done|].
      assert (exists r, commas (map encode_member ((k, v) :: ms)) ++ b 125 :: rest = QUOTE :: r) as [r Er].
      { destruct ms; eexists; reflexivity. }
      rewrite Er in *. rewrite decide_False by done. by rewrite Hm.
Qed.

Lemma json_size_length j : (json_size j <= length (encode j))%nat.
Proof.
  induction j as [|n|s|ms IH] using json_ind'; [simpl; lia| |simpl; lia|].
  - simpl. destruct (bytes_of (decimal n)) eqn:E; [|simpl; lia].
    pose proof (digits_nonempty (Z.max 0 n) ltac:(lia)) as H. destruct H.
    destruct (Z.max_spec 0 n) as [[? ->]|[? ->]]; [exact E|].
    unfold decimal in *. replace (Z.to_N 0) with (Z.to_N n) by lia. exact E.
  - rewrite encode_obj. cbn [json_size length]. rewrite length_app. simpl.
    enough (sum_list (map (fun m => S (json_size m.2)) ms) <= length (commas (map encode_member ms)))%nat by lia.
    induction IH as [|[k v] ms Hv _ IH]; [simpl; lia|]. cbn [map].
    assert (Hm : (S (json_size v) <= length (encode_member (k, v)))%nat).
    { unfold encode_member. rewrite length_app. simpl in *. lia. }
    destruct ms as [|m ms].
    + cbn [map commas]. change (sum_list [S (json_size (k, v).2)]) with (S (json_size v) + 0)%nat. lia.
    + cbn [map] in *. rewrite commas_cons by done. rewrite length_app.
      change (sum_list (S (json_size (k, v).2) :: ?l)) with (S (json_size v) + sum_list l)%nat.
      simpl length. simpl in *. lia.
Qed.

(** Printing and parsing are inverse on well-formed values. *)
Lemma parse_encode j : json_ok j = true -> parse_json (encode j) = Some j.
Proof.
  intros Hj. unfold parse_json. rewrite <- (app_nil_r (encode j)) at 2.
  rewrite (encode_parses j (S (length (encode j))) [] Hj); [done| |done].
  pose proof (json_size_length j). lia.
Qed.

(** ** One line *)

Definition printable (c : byte) : Prop := 32 <= byte_val c.

Lemma escape_ascii_printable c : byte_val c < 128 -> Forall printable (escape_ascii c).
Proof.
  intros H. destruct c as [[] [] [] [] [] [] [] []];
    first [exfalso; vm_compute in H; discriminate H
          |repeat (constructor; [by vm_compute|]); constructor].
Qed.

Lemma escape_printable fuel : forall s, Forall printable (escape_fuel fuel s).
Proof.
  induction fuel as [|fuel IH]; intros [|c s]; try constructor. cbn [escape_fuel].
  destruct (Z.ltb_spec (byte_val c) 128) as [Hc|Hc].
  - apply Forall_app. split; [by apply escape_ascii_printable|apply IH].
  - destruct (decode_rune (c :: s)) as [r n] eqn:E.
    destruct ((r =? rune_error) && bool_decide (n = 1%nat)) eqn:Eb.
    { apply Forall_app. split; [repeat (constructor; [by vm_compute|]); constructor|apply IH]. }
    destruct (decode_high c s r n Hc E Eb) as (_ & Hh & _).
    assert (Hr : ((r =? 8232) || (r =? 8233)) = true -> r = 8232 \/ r = 8233) by lia.
    destruct ((r =? 8232) || (r =? 8233)).
    + repeat (apply Forall_app; split); [repeat (constructor; [by vm_compute|]); constructor| |apply IH].
      destruct (Hr eq_refl) as [-> | ->]; repeat (constructor; [by vm_compute|]); constructor.
    + apply Forall_app. split; [|apply IH]. eapply Forall_impl; [exact Hh|].
      unfold high, printable. intros. lia.
Qed.

Lemma is_digit_printable c : is_digit c -> printable c.
Proof. intros [v Hv]. unfold digit_val in Hv. destruct (_ && _) eqn:E; [|discriminate]. unfold printable. lia. Qed.

Lemma decimal_printable n : Forall printable (bytes_of (decimal n)).
Proof.
  replace (decimal n) with (decimal (Z.max 0 n)) by (unfold decimal; f_equal; lia).
  eapply Forall_impl; [apply decimal_digits; lia|apply is_digit_printable].
Qed.

Lemma string_printable s : Forall printable (json_string s).
Proof.
  constructor; [by vm_compute|]. apply Forall_app. split; [apply escape_printable|].
  constructor; [by vm_compute|constructor].
Qed.

Lemma encode_printable j : Forall printable (encode j).
Proof.
  induction j as [|n|s|ms IH] using json_ind';
    [repeat (constructor; [by vm_compute|]); constructor|apply decimal_printable|apply string_printable|].
  rewrite encode_obj. constructor; [by vm_compute|]. apply Forall_app.
  split; [|constructor; [by vm_compute|constructor]].
  induction IH as [|[k v] ms Hv _ IH]; [constructor|]. cbn [map].
  assert (Hm : Forall printable (encode_member (k, v))).
  { apply Forall_app. split; [apply string_printable|]. constructor; [by vm_compute|exact Hv]. }
  destruct ms; [exact Hm|]. rewrite commas_cons by done. apply Forall_app. split; [exact Hm|].
  constructor; [by vm_compute|exact IH].
Qed.

(** ** Well-formed events *)

Definition utf8 (s : string) : Prop := utf8_valid (bytes_of s) = true.

Definition container_utf8 (c : option ContainerInfo) : Prop :=
  match c with Some c => utf8 (CI_ID c) /\ utf8 (CI_Name c) /\ utf8 (CI_Image c) | None => True end.

(** The texts are UTF-8 and the numbers 64-bit. *)
Record event_ok (e : Event) : Prop := {
  eo_strings : Forall utf8 [EventType e; SrcProcessName e; SrcAddr e; DstProcessName e; DstAddr e;
                            FilePath e; FileOp e; ExecPath e; ParentProcessName e];
  eo_numbers : Forall (in_u 64) [SrcPID e; SrcCgroupID e; SrcPort e; DstPID e; DstCgroupID e; DstPort e; ParentPID e];
  eo_containers : container_utf8 (SrcContainer e) /\ container_utf8 (DstContainer e)
}.

Lemma ascii_valid s : Forall (fun c => byte_val c < 128) s -> utf8_valid s = true.
Proof.
  unfold utf8_valid. induction 1 as [|c s Hc _ IH]; [done|]. simpl.
  by rewrite (proj2 (Z.ltb_lt _ _) Hc).
Qed.

Lemma digits_ascii n : forall v, Forall (fun c => byte_val c < 128) (digits n v).
Proof.
  induction n as [|n IH]; intros v; simpl; [constructor|]. apply Forall_app. split; [apply IH|].
  constructor; [|constructor]. rewrite byte_val_of. pose proof (Z.mod_pos_bound v 10). rewrite Z.mod_small; lia.
Qed.

Lemma strip_zeros_ascii s : Forall (fun c => byte_val c < 128) s -> Forall (fun c => byte_val c < 128) (strip_zeros s).
Proof.
  induction 1 as [|c s Hc _ IH]; simpl; [constructor|].
  destruct (strip_zeros s); [case_decide; by repeat constructor|by constructor].
Qed.

Lemma time_text_valid zone t : utf8_valid (time_text zone t) = true.
Proof.
  apply ascii_valid. unfold time_text. destruct (civil_from_days _) as [[y m] d].
  assert (Hc : forall c, byte_val c < 128 -> Forall (fun c => byte_val c < 128) [c])
    by (intros; by repeat constructor).
  assert (Hf : Forall (fun c => byte_val c < 128) (fraction (t mod Second))).
  { unfold fraction. destruct (_ =? 0); [constructor|]. constructor; [by vm_compute|].
    apply strip_zeros_ascii, digits_ascii. }
  assert (Hz : Forall (fun c => byte_val c < 128) (zone_text zone)).
  { unfold zone_text. destruct (_ =? 0); [by apply Hc; vm_compute|].
    constructor; [destruct (_ <? 0); by vm_compute|].
    rewrite !Forall_app. split_and!; try apply digits_ascii. apply Hc. by vm_compute. }
  rewrite !Forall_app. split_and!;
    lazymatch goal with
    | |- Forall _ (digits _ _) => apply digits_ascii
    | |- Forall _ [_] => apply Hc; vm_compute; reflexivity
    | |- _ => assumption
    end.
Qed.

(** ** The printed values *)

Definition members_ok (ms : list (list byte * json)) : Prop :=
  forallb (fun '(k, v) => utf8_valid k && json_ok v) ms = true.

Lemma members_ok_app l1 l2 : members_ok l1 -> members_ok l2 -> members_ok (l1 ++ l2).
Proof. unfold members_ok. rewrite forallb_app. by intros -> ->. Qed.

Lemma members_ok_one name v :
  utf8 name -> json_ok v = true -> members_ok [member name v].
Proof. unfold members_ok, utf8. simpl. by intros -> ->. Qed.

Lemma opt_string_ok name v : utf8 name -> utf8 v -> members_ok (opt_string name v).
Proof. intros Hn Hv. unfold opt_string. case_decide; [done|]. by apply members_ok_one. Qed.

Lemma opt_uint_ok name v : utf8 name -> in_u 64 v -> members_ok (opt_uint name v).
Proof.
  intros Hn Hv. unfold opt_uint. case_decide; [done|]. apply members_ok_one; [done|].
  simpl. unfold in_u in Hv. lia.
Qed.

Lemma container_json_ok c : container_utf8 (Some c) -> json_ok (json_ContainerInfo c) = true.
Proof. intros (H1 & H2 & H3). unfold utf8 in *. simpl. by rewrite H1, H2, H3. Qed.

Lemma opt_container_ok name c : utf8 name -> container_utf8 c -> members_ok (opt_container name c).
Proof.
  intros Hn Hc. destruct c as [c|]; [|done]. apply members_ok_one; [done|]. by apply container_json_ok.
Qed.

Lemma json_Event_ok zone e : event_ok e -> json_ok (json_Event zone e) = true.
Proof.
  intros [Hs Hn [Hc Hd]].
  repeat (apply Forall_cons_1 in Hs as [? Hs]). repeat (apply Forall_cons_1 in Hn as [? Hn]).
  change (members_ok
    ([member "event_type" (str (EventType e)); member "timestamp" (JStr (time_text zone (Timestamp e)))] ++
     opt_container "src_container" (SrcContainer e) ++
     opt_string "src_process_name" (SrcProcessName e) ++
     opt_uint "src_pid" (SrcPID e) ++ opt_uint "src_cgroup_id" (SrcCgroupID e) ++
     opt_string "src_addr" (SrcAddr e) ++ opt_uint "src_port" (SrcPort e) ++
     opt_container "dst_container" (DstContainer e) ++
     opt_string "dst_process_name" (DstProcessName e) ++
     opt_uint "dst_pid" (DstPID e) ++ opt_uint "dst_cgroup_id" (DstCgroupID e) ++
     opt_string "dst_addr" (DstAddr e) ++ opt_uint "dst_port" (DstPort e) ++
     opt_string "file_path" (FilePath e) ++ opt_string "file_op" (FileOp e) ++
     opt_string "exec_path" (ExecPath e) ++ opt_uint "parent_pid" (ParentPID e) ++
     opt_string "parent_process_name" (ParentProcessName e))).
  repeat apply members_ok_app;
    first [apply opt_string_ok|apply opt_uint_ok|apply opt_container_ok|idtac]; try assumption; try reflexivity.
  unfold members_ok, utf8 in *. cbn [forallb member]. change (json_ok (str (EventType e))) with (utf8_valid (bytes_of (EventType e))).
  change (json_ok (JStr ?t)) with (utf8_valid t). rewrite time_text_valid. by rewrite H.
Qed.

Definition alert_ok (a : Alert) : Prop :=
  Forall utf8 [RuleName a; Severity a; Description a] /\
  container_utf8 (AlertSrcContainer a) /\ container_utf8 (AlertDstContainer a).

Lemma container_or_null_ok c : container_utf8 c -> json_ok (container_or_null c) = true.
Proof. destruct c as [c|]; [apply container_json_ok|done]. Qed.

Lemma json_Alert_ok zone a : alert_ok a -> json_ok (json_Alert zone a) = true.
Proof.
  intros (Hs & Hc & Hd). repeat (apply Forall_cons_1 in Hs as [? Hs]). unfold utf8 in *.
  cbn [json_ok json_Alert forallb member].
  change (json_ok (str ?t)) with (utf8_valid (bytes_of t)).
  rewrite time_text_valid, !container_or_null_ok by assumption. by rewrite H, H0, H1.
Qed.

(** ** What the values say

    A description of the printed objects by the names of their members, as the tags
    in [internal/core] and [internal/output] give them. *)

(** The object has the members named, each as described ([None]: left out), none of
    them twice, and no other. *)
Definition object_of (fields : list (string * option (json -> Prop))) (j : json) : Prop :=
  exists ms, j = JObj ms /\ NoDup ms.*1 /\
    forall name : string,
      let found := (list_to_map ms : gmap (list byte) json) !! bytes_of name in
      match (list_to_map fields : gmap string (option (json -> Prop))) !! name with
      | Some (Some says) => exists v, found = Some v /\ says v
      | _ => found = None
      end.

Definition is_text (s : string) (j : json) : Prop := j = JStr (bytes_of s).
Definition is_number (n : Z) (j : json) : Prop := j = JNum n.
Definition is_time (zone t : Z) (j : json) : Prop := j = JStr (time_text zone t).

(** [omitempty]. *)
Definition text_unless_empty (s : string) : option (json -> Prop) :=
  if bool_decide (s = ""%string) then None else Some (is_text s).
Definition number_unless_zero (n : Z) : option (json -> Prop) := if n =? 0 then None else Some (is_number n).

Definition container_says (c : ContainerInfo) : json -> Prop :=
  object_of [("id", Some (is_text (CI_ID c))); ("name", Some (is_text (CI_Name c)));
             ("image", Some (is_text (CI_Image c)))]%string.

Definition event_says (zone : Z) (e : Event) : json -> Prop :=
  object_of [("event_type", Some (is_text (EventType e)));
    ("timestamp", Some (is_time zone (Timestamp e)));
    ("src_container", container_says <$> SrcContainer e);
    ("src_process_name", text_unless_empty (SrcProcessName e));
    ("src_pid", number_unless_zero (SrcPID e));
    ("src_cgroup_id", number_unless_zero (SrcCgroupID e));
    ("src_addr", text_unless_empty (SrcAddr e));
    ("src_port", number_unless_zero (SrcPort e));
    ("dst_container", container_says <$> DstContainer e);
    ("dst_process_name", text_unless_empty (DstProcessName e));
    ("dst_pid", number_unless_zero (DstPID e));
    ("dst_cgroup_id", number_unless_zero (DstCgroupID e));
    ("dst_addr", text_unless_empty (DstAddr e));
    ("dst_port", number_unless_zero (DstPort e));
    ("file_path", text_unless_empty (FilePath e));
    ("file_op", text_unless_empty (FileOp e));
    ("exec_path", text_unless_empty (ExecPath e));
    ("parent_pid", number_unless_zero (ParentPID e));
    ("parent_process_name", text_unless_empty (ParentProcessName e))]%string.

(** Containers are never left out of an alert: without one the member is null. *)
Definition container_or_null_says (c : option ContainerInfo) (j : json) : Prop :=
  match c with Some c => container_says c j | None => j = JNull end.

Definition alert_says (zone : Z) (a : Alert) : json -> Prop :=
  object_of [("timestamp", Some (is_time zone (AlertTimestamp a)));
    ("rule_name", Some (is_text (RuleName a)));
    ("severity", Some (is_text (Severity a)));
    ("description", Some (is_text (Description a)));
    ("src_container", Some (container_or_null_says (AlertSrcContainer a)));
    ("dst_container", Some (container_or_null_says (AlertDstContainer a)))]%string.

(** Members against their description, in the same order. *)
Inductive members_say : list (string * option (json -> Prop)) -> list (list byte * json) -> Prop :=
| ms_nil : members_say [] []
| ms_given name says v fields ms :
    says v -> members_say fields ms -> members_say ((name, Some says) :: fields) (member name v :: ms)
| ms_left_out name fields ms : members_say fields ms -> members_say ((name, None) :: fields) ms.

Lemma members_say_object fields ms :
  members_say fields ms -> NoDup fields.*1 -> object_of fields (JObj ms).
Proof.
  intros H Hnd. exists ms. split; [done|].
  induction H as [|name says v fields ms Hv _ IH|name fields ms _ IH]; [by split; [constructor|]|..];
    apply NoDup_cons in Hnd as [Hnew Hnd]; destruct (IH Hnd) as [Hms Hall];
    assert (Hnone : (list_to_map ms : gmap (list byte) json) !! bytes_of name = None)
      by (specialize (Hall name); by rewrite (not_elem_of_list_to_map_1 fields name Hnew) in Hall).
  - split.
    + apply NoDup_cons. split; [by apply (not_elem_of_list_to_map_2 (M := gmap (list byte)))|done].
    + intros name'. simpl. destruct (decide (name' = name)) as [->|Hne].
      * rewrite !lookup_insert_eq. by exists v.
      * assert (bytes_of name <> bytes_of name') by (by intros ?%(inj bytes_of)).
        rewrite !lookup_insert_ne by done. apply Hall.
  - split; [done|]. intros name'. simpl. destruct (decide (name' = name)) as [->|Hne].
    + by rewrite lookup_insert_eq.
    + rewrite lookup_insert_ne by done. apply Hall.
Qed.

Lemma members_say_text name s fields ms :
  members_say fields ms -> members_say ((name, text_unless_empty s) :: fields) (opt_string name s ++ ms).
Proof. unfold text_unless_empty, opt_string. intros H. case_decide; case_bool_decide; try done; by constructor. Qed.

Lemma members_say_number name n fields ms :
  members_say fields ms -> members_say ((name, number_unless_zero n) :: fields) (opt_uint name n ++ ms).
Proof.
  unfold number_unless_zero, opt_uint. intros H.
  case_decide; destruct (Z.eqb_spec n 0); try done; by constructor.
Qed.

Lemma json_ContainerInfo_says c : container_says c (json_ContainerInfo c).
Proof.
  apply members_say_object; [repeat (constructor; [done|]); constructor|].
  by apply (bool_decide_unpack _); vm_compute.
Qed.

Lemma members_say_container name c fields ms :
  members_say fields ms -> members_say ((name, container_says <$> c) :: fields) (opt_container name c ++ ms).
Proof.
  intros H. destruct c as [c|]; [|exact (ms_left_out name _ _ H)].
  exact (ms_given name (container_says c) _ _ _ (json_ContainerInfo_says c) H).
Qed.

Lemma container_or_null_prints c : container_or_null_says c (container_or_null c).
Proof. destruct c as [c|]; [apply json_ContainerInfo_says|done]. Qed.

Create HintDb says.
#[export] Hint Constructors members_say : says.
#[export] Hint Resolve members_say_text members_say_number members_say_container container_or_null_prints : says.
#[export] Hint Extern 1 (is_text _ _) => reflexivity : says.
#[export] Hint Extern 1 (is_time _ _ _) => reflexivity : says.

Lemma json_Event_says zone e : event_says zone e (json_Event zone e).
Proof.
  apply members_say_object; [|by apply (bool_decide_unpack _); vm_compute].
  rewrite <- (app_nil_r (opt_string "parent_process_name" _)). cbn [app].
  apply ms_given; [done|]. apply ms_given; [done|]. auto 30 with says.
Qed.

Lemma json_Alert_says zone a : alert_says zone a (json_Alert zone a).
Proof.
  apply members_say_object; [eauto 10 with says|]. by apply (bool_decide_unpack _); vm_compute.
Qed.

(** ** The calendar *)

(** The year of the cycle and the day of the year stay in range. *)
Lemma year_of_cycle doe :
  0 <= doe < 146097 ->
  let yoe := (doe - doe / 1460 + doe / 36524 - doe / 146096) / 365 in
  0 <= yoe <= 399 /\ 0 <= doe - (365 * yoe + yoe / 4 - yoe / 100) <= 365.
Proof. intros H yoe. unfold yoe. Z.div_mod_to_equations. lia. Qed.

Lemma month_of_year doy :
  0 <= doy <= 365 ->
  let mp := (5 * doy + 2) / 153 in
  0 <= mp <= 11 /\ 1 <= doy - (153 * mp + 2) / 5 + 1 <= 31.
Proof. intros H mp. unfold mp. Z.div_mod_to_equations. lia. Qed.

(** The date printed for a day is a date, and the day's own. *)
Theorem civil_from_days_correct (d : Z) :
  let '(y, m, day) := civil_from_days d in
  days_from_civil y m day = d /\ 1 <= m <= 12 /\ 1 <= day <= 31.
Proof.
  unfold civil_from_days. cbv beta iota zeta.
  pose proof (Z.div_mod (d + 719468) 146097 ltac:(lia)) as Hdm.
  pose proof (Z.mod_pos_bound (d + 719468) 146097 ltac:(lia)) as Hb.
  set (doe := (d + 719468) mod 146097) in *. set (era := (d + 719468) / 146097) in *.
  destruct (year_of_cycle doe Hb) as [Hy Hdoy].
  set (yoe := (doe - doe / 1460 + doe / 36524 - doe / 146096) / 365) in *.
  set (doy := doe - (365 * yoe + yoe / 4 - yoe / 100)) in *.
  destruct (month_of_year doy Hdoy) as [Hm Hday]. set (mp := (5 * doy + 2) / 153) in *.
  split; [|destruct (Z.ltb_spec mp 10); lia]. unfold days_from_civil. cbv zeta.
  assert (Hyear : forall y : Z, y = yoe + era * 400 -> y / 400 = era /\ y mod 400 = yoe).
  { intros y ->. rewrite Z.div_add, Z_mod_plus_full, Z.div_small, Z.mod_small by lia. lia. }
  assert (Hmonth : forall y m, y = yoe + era * 400 -> m = mp ->
    y / 400 * 146097 + (y mod 400 * 365 + y mod 400 / 4 - y mod 400 / 100 +
      ((153 * m + 2) / 5 + (doy - (153 * mp + 2) / 5 + 1) - 1)) - 719468 = d).
  { intros y m Hyy ->. destruct (Hyear y Hyy) as [-> ->]. unfold doy. lia. }
  destruct (Z.ltb_spec mp 10).
  - destruct (Z.leb_spec (mp + 3) 2); [lia|]. destruct (Z.gtb_spec (mp + 3) 2); [|lia].
    apply Hmonth; lia.
  - destruct (Z.leb_spec (mp - 9) 2); [|lia]. destruct (Z.gtb_spec (mp - 9) 2); [lia|].
    apply Hmonth; lia.
Qed.

Definition sample_json_event : Event := {|
  EventType := "exec"; Timestamp := 1700000000 * Second;
  SrcContainer := Some {| CI_ID := "1"; CI_Name := "web"; CI_Image := "nginx" |};
  SrcProcessName := of_bytes [QUOTE; b 10; b 226; b 128; b 168; b 60]; SrcPID := 7; SrcCgroupID := 9;
  SrcAddr := ""; SrcPort := 0; DstContainer := None; DstProcessName := ""; DstPID := 0;
  DstCgroupID := 0; DstAddr := ""; DstPort := 0; FilePath := ""; FileOp := "";
  ExecPath := "/bin/sh"; ParentPID := 1; ParentProcessName := "init"
|}.

Lemma sample_json_event_ok : event_ok sample_json_event.
Proof.
  split.
  - repeat (constructor; [by vm_compute|]). constructor.
  - repeat (constructor; [by vm_compute|]). constructor.
  - split; [|exact I]. split_and!; by vm_compute.
Defined.
