(* ===== verification/Output.v ===== *)
(** * The output loop

    [internal/output/output.go].  A turn of the loop is a function of what its
    select receives; a case on a nil channel is never selected.  Marshalling
    fails exactly when a time's year has not four digits. *)

From S2P Require Import Prelude.
From S2P Require Import Bytes.
From S2P Require Import GoLib.
From S2P Require Import Core.
From S2P Require Import Json.

Open Scope Z_scope.

Record StructuredOutput := {
  SO_Type : string;
  SO_Event : option Event;
  SO_Alert : option Alert
}.

#[export] Instance StructuredOutput_eq_dec : EqDecision StructuredOutput.
Proof. solve_decision. Defined.

(** The instants of the years 0 to 9999 of a clock [zone] seconds east of
    Greenwich. *)
Definition year_ok (zone t : Z) : bool :=
  let s := t / Second + zone in (-62167219200 <=? s) && (s <? 253402300800).

Definition json_StructuredOutput (zone : Z) (out : StructuredOutput) : json :=
  JObj ([member "type" (str (SO_Type out))] ++
        match SO_Event out with Some e => [member "event" (json_Event zone e)] | None => [] end ++
        match SO_Alert out with Some a => [member "alert" (json_Alert zone a)] | None => [] end).

(** The text of [json.Marshal(out)], and whether it succeeds. *)
Definition output_text (zone : Z) (out : StructuredOutput) : list byte :=
  encode (json_StructuredOutput zone out).

Definition marshals (zone : Z) (out : StructuredOutput) : bool :=
  match SO_Event out with Some e => year_ok zone (Timestamp e) | None => true end &&
  match SO_Alert out with Some a => year_ok zone (AlertTimestamp a) | None => true end.

(** The variables of the loop: whether each channel variable has been set to
    nil; and the bytes printed. *)
Record out_state := {
  eventCh_nil : bool;
  alertCh_nil : bool;
  stdout : list byte
}.

(** What select receives, [None] from a closed channel. *)
Inductive select_case :=
| SelEvent (event : option Event)
| SelAlert (alert : option Alert).

Inductive loop_result :=
| Continues (st : out_state)
| Returns (st : out_state).

Definition event_output (e : Event) : StructuredOutput :=
  {| SO_Type := "event"; SO_Event := Some e; SO_Alert := None |}.
Definition alert_output (a : Alert) : StructuredOutput :=
  {| SO_Type := "alert"; SO_Event := None; SO_Alert := Some a |}.

(** [fmt.Println(string(data))]. *)
Definition println (st : out_state) (data : list byte) : out_state :=
  {| eventCh_nil := eventCh_nil st; alertCh_nil := alertCh_nil st; stdout := stdout st ++ data ++ [b 10] |}.

Section Loop.
Variable zone : Z.

(** The test after the select. *)
Definition both_nil (st : out_state) : loop_result :=
  if eventCh_nil st && alertCh_nil st then Returns st else Continues st.

(** One turn; [None] when the case cannot be selected. *)
Definition turn (st : out_state) (c : select_case) : option loop_result :=
  match c with
  | SelEvent ev =>
      if eventCh_nil st then None
      else
        match ev with
        | None => Some (Continues {| eventCh_nil := true; alertCh_nil := alertCh_nil st; stdout := stdout st |})
        | Some event =>
            let out := event_output event in
            if marshals zone out then Some (both_nil (println st (output_text zone out))) else Some (Continues st)
        end
  | SelAlert al =>
      if alertCh_nil st then None
      else
        match al with
        | None => Some (Continues {| eventCh_nil := eventCh_nil st; alertCh_nil := true; stdout := stdout st |})
        | Some alert =>
            let out := alert_output alert in
            if marshals zone out then Some (both_nil (println st (output_text zone out))) else Some (Continues st)
        end
  end.

Fixpoint OutputLoop (st : out_state) (cases : list select_case) : option loop_result :=
  match cases with
  | [] => Some (Continues st)
  | c :: cases =>
      match turn st c with
      | Some (Continues st) => OutputLoop st cases
      | other => other
      end
  end.

Definition out_init : out_state := {| eventCh_nil := false; alertCh_nil := false; stdout := [] |}.

(** What the loop should print for what it receives. *)
Definition case_output (c : select_case) : option StructuredOutput :=
  match c with
  | SelEvent (Some e) => Some (event_output e)
  | SelAlert (Some a) => Some (alert_output a)
  | _ => None
  end.

Definition printed (cases : list select_case) : list StructuredOutput :=
  List.filter (marshals zone) (omap case_output cases).

Definition lines (outs : list StructuredOutput) : list byte :=
  concat (map (fun out => output_text zone out ++ [b 10]) outs).

Lemma lines_app o1 o2 : lines (o1 ++ o2) = lines o1 ++ lines o2.
Proof. unfold lines. by rewrite map_app, concat_app. Qed.

Lemma lines_one out : lines [out] = output_text zone out ++ [b 10].
Proof. unfold lines. simpl. by rewrite app_nil_r. Qed.

Lemma turn_prints st c res :
  turn st c = Some res ->
  exists st', res = Continues st' /\ stdout st' = stdout st ++ lines (printed [c]).
Proof.
  unfold turn, printed, both_nil. destruct c as [[e|]|[a|]]; simpl.
  - destruct (eventCh_nil st) eqn:En; [discriminate|]. destruct (marshals zone (event_output e)); intros [= <-].
    + simpl. rewrite ?En. simpl. eexists. split; [done|]. by rewrite lines_one.
    + eexists. split; [done|]. by rewrite app_nil_r.
  - destruct (eventCh_nil st); [discriminate|]. intros [= <-]. eexists. split; [done|]. by rewrite app_nil_r.
  - destruct (alertCh_nil st) eqn:En; [discriminate|]. destruct (marshals zone (alert_output a)); intros [= <-].
    + simpl. rewrite ?En, andb_false_r. eexists. split; [done|]. by rewrite lines_one.
    + eexists. split; [done|]. by rewrite app_nil_r.
  - destruct (alertCh_nil st); [discriminate|]. intros [= <-]. eexists. split; [done|]. by rewrite app_nil_r.
Qed.

Lemma printed_cons c cases : printed (c :: cases) = printed [c] ++ printed cases.
Proof. unfold printed. rewrite <- List.filter_app. by destruct c as [[]|[]]. Qed.

Lemma OutputLoop_stdout (cases : list select_case) : forall (st : out_state) (res : loop_result),
  OutputLoop st cases = Some res ->
  exists st', res = Continues st' /\ stdout st' = stdout st ++ lines (printed cases).
Proof.
  induction cases as [|c cases IH]; intros st res; cbn [OutputLoop].
  - intros [= <-]. eexists. split; [done|]. unfold printed, lines. simpl. by rewrite app_nil_r.
  - destruct (turn st c) as [r|] eqn:Ht; [|discriminate].
    destruct (turn_prints st c r Ht) as (st1 & -> & H1). intros H.
    destruct (IH st1 res H) as (st2 & -> & H2). exists st2. split; [done|].
    by rewrite H2, H1, (printed_cons c cases), lines_app, app_assoc.
Qed.

(** A text is one line. *)
Lemma output_text_line out : b 10 ∉ output_text zone out.
Proof.
  intros Hin. pose proof (encode_printable (json_StructuredOutput zone out)) as H.
  rewrite Forall_forall in H. specialize (H _ Hin). by vm_compute in H.
Qed.

Lemma split_lines outs : split_on (b 10) (lines outs) = map (output_text zone) outs ++ [[]].
Proof.
  induction outs as [|out outs IH]; [reflexivity|].
  change (out :: outs) with ([out] ++ outs). rewrite lines_app, lines_one, <- app_assoc. cbn [app].
  rewrite split_on_app by apply output_text_line. by rewrite IH.
Qed.

(** (C35) Whatever the two channels deliver and in whatever order, the loop prints
    one line for every value that marshals, in the order received, no event or
    alert being able to forge a line break; and it never returns. *)
Theorem OutputLoop_prints (cases : list select_case) (res : loop_result) :
  OutputLoop out_init cases = Some res ->
  exists st, res = Continues st /\
    split_on (b 10) (stdout st) = map (output_text zone) (printed cases) ++ [[]].
Proof.
  intros H. destruct (OutputLoop_stdout cases out_init res H) as (st & -> & Hst).
  exists st. split; [done|]. simpl in Hst. by rewrite Hst, split_lines.
Qed.

(** The printed object, by the tags of [StructuredOutput]. *)
Definition output_says (out : StructuredOutput) : json -> Prop :=
  object_of [("type", Some (is_text (SO_Type out)));
             ("event", event_says zone <$> SO_Event out);
             ("alert", alert_says zone <$> SO_Alert out)]%string.

Lemma json_StructuredOutput_says out : output_says out (json_StructuredOutput zone out).
Proof.
  apply members_say_object; [|by apply (bool_decide_unpack _); vm_compute].
  constructor; [done|]. destruct (SO_Event out), (SO_Alert out); simpl;
    repeat constructor; first [apply json_Event_says|apply json_Alert_says].
Qed.

(** (C36) Every printed line is JSON that says what the value says, when its texts
    are UTF-8 and its numbers 64-bit: it parses to an object whose members are, by name, those that the
    tags of [StructuredOutput], [Event], [Alert] and [ContainerInfo] give to the
    fields: each with the value of its field, the empty ones of an event left
    out, an alert's missing container null, none twice, and no others. *)
Theorem output_text_parses (out : StructuredOutput) :
  utf8 (SO_Type out) ->
  match SO_Event out with Some e => event_ok e | None => True end ->
  match SO_Alert out with Some a => alert_ok a | None => True end ->
  parse_json (output_text zone out) = Some (json_StructuredOutput zone out) /\
  output_says out (json_StructuredOutput zone out).
Proof.
  intros Ht He Ha. split; [|apply json_StructuredOutput_says]. apply parse_encode. unfold json_StructuredOutput.
  match goal with |- json_ok (JObj ?ms) = true => change (members_ok ms) end.
  repeat apply members_ok_app.
  - apply members_ok_one; [done|exact Ht].
  - destruct (SO_Event out); [|done]. apply members_ok_one; [done|by apply json_Event_ok].
  - destruct (SO_Alert out); [|done]. apply members_ok_one; [done|by apply json_Alert_ok].
Qed.

#[local] Opaque output_text marshals.

(** Once both channels have been seen closed no case can be selected again:
    the loop is stuck in its select instead of returning. *)
Theorem OutputLoop_stuck (cases : list select_case) (st : out_state) :
  OutputLoop out_init cases = Some (Continues st) ->
  SelEvent None ∈ cases -> SelAlert None ∈ cases ->
  forall c, turn st c = None.
Proof.
  enough (Hinv : forall cases s s', OutputLoop s cases = Some (Continues s') ->
    (eventCh_nil s = true \/ SelEvent None ∈ cases -> eventCh_nil s' = true) /\
    (alertCh_nil s = true \/ SelAlert None ∈ cases -> alertCh_nil s' = true)).
  { intros H He Ha. destruct (Hinv _ _ _ H) as [H1 H2].
    intros [e|a]; simpl; [by rewrite H1 by auto|by rewrite H2 by auto]. }
  clear cases st. induction cases as [|c cases IH]; intros s s'; cbn [OutputLoop].
  - intros [= <-]. split; (intros [?|H]; [done|by apply elem_of_nil in H]).
  - destruct (turn s c) as [r|] eqn:Ht; [|discriminate].
    destruct (turn_prints s c r Ht) as (s1 & -> & _). intros H. destruct (IH s1 s' H) as [H1 H2].
    unfold turn, both_nil, println in Ht.
    split; (intros [Hn|[Heq|Hin]%elem_of_cons]; [| |by auto]).
    all: destruct c as [[e|]|[a|]]; simpl in *; try discriminate;
      rewrite ?Hn in Ht; try discriminate;
      repeat match type of Ht with context [if ?b then _ else _] => destruct b eqn:?; try discriminate end;
      simpl in *; injection Ht as <-; simpl in *; auto.
Qed.
#[local] Transparent output_text marshals.
End Loop.

Definition demo_event : Event := zero_event (1700000000 * Second).

Lemma OutputLoop_prints_witness :
  exists st, Continues {| eventCh_nil := true; alertCh_nil := true;
                          stdout := output_text 0 (event_output demo_event) ++ [b 10] |} = Continues st /\
    split_on (b 10) (stdout st) =
    map (output_text 0) (printed 0 [SelEvent (Some demo_event); SelEvent None; SelAlert None]) ++ [[]].
Proof.
  refine (OutputLoop_prints 0 [SelEvent (Some demo_event); SelEvent None; SelAlert None] _ _).
  vm_compute. reflexivity.
Defined.

Lemma output_text_parses_witness :
  parse_json (output_text 0 (event_output sample_json_event)) =
  Some (json_StructuredOutput 0 (event_output sample_json_event)) /\
  output_says 0 (event_output sample_json_event) (json_StructuredOutput 0 (event_output sample_json_event)).
Proof.
  refine (output_text_parses 0 (event_output sample_json_event) _ _ _); [by vm_compute| |exact I].
  exact sample_json_event_ok.
Defined.

Lemma OutputLoop_stuck_witness :
  turn 0 {| eventCh_nil := true; alertCh_nil := true; stdout := [] |} (SelAlert None) = None.
Proof.
  refine (OutputLoop_stuck 0 [SelEvent None; SelAlert None] _ _ _ _ (SelAlert None));
    [reflexivity|left|right; left].
Defined.
