(* ===== verification/Resolver.v ===== *)
(** * The container resolver

    [internal/resolver/resolver.go]: the cache from cgroup ids to container
    descriptions, filled from Docker and /proc.  The Docker client is not part
    of the repository: its answers, like those of the file system, are the
    fields of [host], one value for each moment at which the code asks. *)

From S2P Require Import Prelude.
From S2P Require Import Bytes.
From S2P Require Import GoLib.
From S2P Require Import Core.

Open Scope Z_scope.

(** ** filepath.Join *)

Definition slash : byte := "/"%char.

(** The component loop of [filepath.Clean] for a rooted path; the stack is
    reversed. *)
Fixpoint clean_parts (stack parts : list (list byte)) : list (list byte) :=
  match parts with
  | [] => rev stack
  | p :: parts =>
      if decide (p = []) then clean_parts stack parts
      else if decide (p = bytes_of ".") then clean_parts stack parts
      else if decide (p = bytes_of "..") then clean_parts (tail stack) parts
      else clean_parts (p :: stack) parts
  end.

(** [filepath.Clean] of a path that begins with a slash. *)
Definition clean_rooted (path : list byte) : list byte :=
  match clean_parts [] (split_on slash path) with
  | [] => [slash]
  | parts => concat (map (cons slash) parts)
  end.

(** [filepath.Join(dir, p)] for a rooted [dir]. *)
Definition path_join (dir p : list byte) : list byte :=
  clean_rooted (if decide (p = []) then dir else dir ++ slash :: p).

(** ** The environment *)

(** An entry of [ContainerList]. *)
Record container_summary := {
  cs_ID : string;
  cs_Image : string
}.

(** What [ContainerInspect] returns: the pid is [None] when [State] is nil. *)
Record container_inspect := {
  insp_Pid : option Z;
  insp_Name : string
}.

Record host := {
  ContainerList : option (list container_summary);
  ContainerInspect : string -> option container_inspect;
  proc_cgroup : Z -> option (list byte);       (* os.ReadFile("/proc/<pid>/cgroup") *)
  stat_ino : list byte -> option Z             (* syscall.Stat(path), the inode *)
}.

(** The [error] results, by the call that failed. *)
Inductive resolver_error := ErrList | ErrInspect | ErrReadFile | ErrStat.

Record Resolver := { cache : gmap Z ContainerInfo }.

Definition Resolve (r : Resolver) (cgroupID : Z) : option ContainerInfo := cache r !! cgroupID.

(** ** Operations *)

Definition getCgroupID (h : host) (pid : Z) : go (Z + resolver_error) :=
  match proc_cgroup h pid with
  | None => Ret (inr ErrReadFile)
  | Some data =>
      let line := trim_space data in
      match cut_at (bytes_of "::") line with
      | None => Panic IndexOutOfRange
      | Some (_, cgroupPath) =>
          let fullPath := path_join (bytes_of "/sys/fs/cgroup") cgroupPath in
          match stat_ino h fullPath with
          | None => Ret (inr ErrStat)
          | Some ino => Ret (inl ino)
          end
      end
  end.

(** The body of the loop of [updateInfo], up to the store: the cgroup id and
    the description of one container. *)
Definition container_entry (h : host) (c : container_summary)
    : go ((Z * ContainerInfo) + resolver_error) :=
  match ContainerInspect h (cs_ID c) with
  | None => Ret (inr ErrInspect)
  | Some inspect =>
      match insp_Pid inspect with
      | None => Panic NilDeref
      | Some pid =>
          id ← getCgroupID h pid;
          match id with
          | inr err => Ret (inr err)
          | inl cgroupID =>
              Ret (inl (cgroupID, {| CI_ID := cs_ID c;
                                     CI_Name := TrimPrefix (insp_Name inspect) "/";
                                     CI_Image := cs_Image c |}))
          end
      end
  end.

Fixpoint update_loop (h : host) (r : Resolver) (containers : list container_summary)
    : go (Resolver * option resolver_error) :=
  match containers with
  | [] => Ret (r, None)
  | c :: containers =>
      e ← container_entry h c;
      match e with
      | inr err => Ret (r, Some err)
      | inl (cgroupID, info) => update_loop h {| cache := <[cgroupID := info]> (cache r) |} containers
      end
  end.

Definition updateInfo (h : host) (r : Resolver) : go (Resolver * option resolver_error) :=
  match ContainerList h with
  | None => Ret (r, Some ErrList)
  | Some containers => update_loop h r containers
  end.

(** [New], once the client exists. *)
Definition NewResolver (h : host) : go (Resolver + resolver_error) :=
  res ← updateInfo h {| cache := ∅ |};
  match res with
  | (_, Some err) => Ret (inr err)
  | (r, None) => Ret (inl r)
  end.

(** What the select of [MonitorEventsLoop] can receive; a start carries the
    host as it is once the loop has slept. *)
Inductive docker_event :=
| DockerAction (action : string) (h : host)
| DockerError
| ContextDone.

(** One turn of the loop: the new resolver, and whether the loop goes on. *)
Definition monitor_step (r : Resolver) (ev : docker_event) : go (Resolver * bool) :=
  match ev with
  | DockerAction action h =>
      if decide (action = "start"%string) then
        res ← updateInfo h r; Ret (fst res, true)
      else if decide (action = "die"%string) then Ret (r, true)
      else Ret (r, true)
  | DockerError => Ret (r, false)
  | ContextDone => Ret (r, false)
  end.

Fixpoint MonitorEventsLoop (r : Resolver) (evs : list docker_event) : go Resolver :=
  match evs with
  | [] => Ret r
  | ev :: evs =>
      res ← monitor_step r ev;
      if snd res : bool then MonitorEventsLoop (fst res) evs else Ret (fst res)
  end.

(** ** The cache after an update *)

Lemma update_loop_app h r cs1 cs2 :
  update_loop h r (cs1 ++ cs2) =
  (res ← update_loop h r cs1;
   match res with
   | (r', None) => update_loop h r' cs2
   | (r', Some err) => Ret (r', Some err)
   end).
Proof.
  revert r. induction cs1 as [|c cs1 IH]; intros r; simpl; [reflexivity|].
  destruct (container_entry h c) as [[[id info]|err]|p]; simpl; [apply IH|reflexivity..].
Qed.

Lemma update_loop_ok h cs : forall es r,
  Forall2 (fun c e => container_entry h c = Ret (inl e)) cs es ->
  update_loop h r cs = Ret ({| cache := list_to_map (rev es) ∪ cache r |}, None).
Proof.
  induction cs as [|c cs IH]; intros es r H; inversion H as [|? [id info] ? es' He Hes]; subst; simpl.
  - destruct r. simpl. by rewrite (left_id ∅ (∪)).
  - rewrite He. simpl. rewrite (IH _ _ Hes). do 3 f_equal. simpl.
    rewrite list_to_map_app, <- (assoc (∪)). f_equal. simpl.
    by rewrite <- insert_union_l, (left_id ∅ (∪)).
Qed.

(** (C37) An update adds the listed containers in order, the later ones and the new
    ones winning, and stops at the first container that cannot be inspected or
    located: it and those listed after it are not looked at. *)
Theorem updateInfo_adds (h : host) (r : Resolver) (cs rest : list container_summary)
    (es : list (Z * ContainerInfo)) :
  ContainerList h = Some (cs ++ rest) ->
  Forall2 (fun c e => container_entry h c = Ret (inl e)) cs es ->
  match rest with
  | [] => True
  | c :: _ => exists err, container_entry h c = Ret (inr err)
  end ->
  exists r' err, updateInfo h r = Ret (r', err) /\ (err = None <-> rest = []) /\
    forall id, Resolve r' id =
      match (list_to_map (rev es) : gmap Z ContainerInfo) !! id with
      | Some info => Some info
      | None => Resolve r id
      end.
Proof.
  intros Hl Hes Hrest. unfold updateInfo. rewrite Hl, update_loop_app, (update_loop_ok h cs es r Hes).
  set (r1 := {| cache := _ |}).
  assert (Hr1 : forall id, Resolve r1 id =
    match (list_to_map (rev es) : gmap Z ContainerInfo) !! id with
    | Some info => Some info | None => Resolve r id end).
  { intros id. unfold Resolve, r1. simpl. rewrite lookup_union.
    destruct (_ !! id), (_ !! id); reflexivity. }
  simpl. destruct rest as [|c rest]; simpl.
  - exists r1, None. done.
  - destruct Hrest as [err Herr]. rewrite Herr. simpl. exists r1, (Some err). done.
Qed.

(** ** Nothing is forgotten *)

Lemma update_loop_keeps h cs id : forall r r' err,
  update_loop h r cs = Ret (r', err) -> is_Some (Resolve r id) -> is_Some (Resolve r' id).
Proof.
  induction cs as [|c cs IH]; intros r r' err; simpl; [by intros [= <- _]|].
  intros (e & _ & H)%go_bind_Ret_inv. destruct e as [[i info]|]; [|by injection H as <- _].
  intros Hs. apply (IH _ _ _ H). unfold Resolve in *. simpl.
  destruct (decide (i = id)) as [->|]; [rewrite lookup_insert_eq; by eexists|].
  by rewrite lookup_insert_ne.
Qed.

Lemma monitor_step_keeps r ev r' b id :
  monitor_step r ev = Ret (r', b) -> is_Some (Resolve r id) -> is_Some (Resolve r' id).
Proof.
  destruct ev as [a h| |]; simpl; [|by intros [= <- _]..].
  repeat case_decide; [|by intros [= <- _]..].
  intros ([r1 err] & H1 & [= <- _])%go_bind_Ret_inv. simpl in *. unfold updateInfo in H1.
  destruct (ContainerList h); [by apply (update_loop_keeps _ _ _ _ _ _ H1)|by injection H1 as <- _].
Qed.

(** (C38) A cgroup id that once named a container names one for ever, whatever the
    loop receives: the stop of a container does not remove its entry. *)
Theorem MonitorEventsLoop_keeps (r r' : Resolver) (evs : list docker_event) (id : Z) :
  MonitorEventsLoop r evs = Ret r' -> is_Some (Resolve r id) -> is_Some (Resolve r' id).
Proof.
  revert r. induction evs as [|ev evs IH]; intros r; simpl; [by intros [= <-]|].
  intros ([r1 goes_on] & H1 & H)%go_bind_Ret_inv Hs. simpl in H.
  pose proof (monitor_step_keeps _ _ _ _ _ H1 Hs) as Hs1.
  destruct goes_on; [by apply (IH r1)|by injection H as <-].
Qed.

(** ** The cgroup of a process *)

(** A path component that [filepath.Clean] leaves alone, of characters that
    are no white space. *)
Definition plain_part (p : list byte) : Prop :=
  p <> [] /\ p <> bytes_of "." /\ p <> bytes_of ".." /\ (slash ∉ p) /\
  Forall (fun c => untouched space_seqs c = true) p.

Definition slashed (parts : list (list byte)) : list byte := concat (map (cons slash) parts).

Lemma slashed_app ps qs : slashed (ps ++ qs) = slashed ps ++ slashed qs.
Proof. unfold slashed. by rewrite map_app, concat_app. Qed.

Lemma split_on_slashed parts : forall x,
  slash ∉ x -> Forall (fun p => slash ∉ p) parts -> split_on slash (x ++ slashed parts) = (x :: parts).
Proof.
  induction parts as [|p parts IH]; intros x Hx Hall.
  - unfold slashed. simpl. rewrite app_nil_r. by apply split_on_no_sep.
  - apply Forall_cons_1 in Hall as [Hp Hall].
    change (slashed (p :: parts)) with (slash :: p ++ slashed parts).
    rewrite split_on_app by assumption. by rewrite IH.
Qed.

Lemma clean_parts_plain parts : forall stack,
  Forall plain_part parts -> clean_parts stack parts = rev stack ++ parts.
Proof.
  induction parts as [|p parts IH]; intros stack H; simpl; [by rewrite app_nil_r|].
  apply Forall_cons_1 in H as [(H1 & H2 & H3 & _) H]. rewrite !decide_False by assumption.
  rewrite IH by assumption. simpl. by rewrite <- app_assoc.
Qed.

Lemma path_join_plain dir parts :
  dir <> [] -> Forall plain_part dir -> parts <> [] -> Forall plain_part parts ->
  path_join (slashed dir) (slashed parts) = slashed dir ++ slashed parts.
Proof.
  intros Hd0 Hd Hne Hp. unfold path_join. rewrite decide_False by (destruct parts; done).
  replace (slashed dir ++ slash :: slashed parts) with ([] ++ slashed (dir ++ ([] :: parts)))
    by (rewrite slashed_app; reflexivity).
  assert (Hs : forall l, Forall plain_part l -> Forall (fun p => slash ∉ p) l)
    by (intros l Hl; eapply Forall_impl; [exact Hl|]; by intros p (_ & _ & _ & ? & _)).
  unfold clean_rooted. rewrite split_on_slashed.
  - change (clean_parts [] ([] :: (dir ++ ([] :: parts)))) with (clean_parts [] (dir ++ ([] :: parts))).
    assert (Hc : clean_parts [] (dir ++ ([] :: parts)) = dir ++ parts).
    { assert (forall stack, clean_parts stack (dir ++ ([] :: parts)) = rev stack ++ dir ++ parts) as Hgen.
      { clear Hd0. induction dir as [|d dir IH]; intros stack; simpl.
        - by rewrite clean_parts_plain.
        - apply Forall_cons_1 in Hd as [(H1 & H2 & H3 & _) Hd].
          rewrite !decide_False by assumption. rewrite IH by assumption. simpl. by rewrite <- app_assoc. }
      by rewrite Hgen. }
    rewrite Hc. rewrite <- slashed_app. destruct (dir ++ parts) eqn:E; [|reflexivity].
    destruct dir; done.
  - set_solver.
  - apply Forall_app. split; [by apply Hs|]. constructor; [set_solver|by apply Hs].
Qed.

Lemma trim_newline c s :
  untouched space_seqs c = true -> Forall (fun d => untouched space_seqs d = true) s ->
  trim_space ((c :: s) ++ [b 10]) = c :: s.
Proof.
  intros Hc Hs. unfold trim_space, trim.
  apply andb_true_iff in Hc as Hc'. destruct Hc' as [Hc1 Hc2].
  set (s' := (c :: s) ++ [b 10]).
  assert (trim_left_fuel (length s') space_seqs s' = s') as -> by by apply trim_left_id.
  assert (Hrev : rev s' = b 10 :: rev (c :: s)) by (unfold s'; apply rev_app_distr).
  assert (Hl : length s' = S (length (rev (c :: s)))) by (rewrite <- length_rev, Hrev; reflexivity).
  rewrite Hrev, Hl.
  assert (Hstep : forall f l, trim_left_fuel (S f) (map (@rev byte) space_seqs) (b 10 :: l) =
                              trim_left_fuel f (map (@rev byte) space_seqs) l) by reflexivity.
  rewrite Hstep. rewrite <- (rev_involutive (c :: s)) at 3. f_equal.
  assert (Hr : Forall (fun d => untouched space_seqs d = true) (rev (c :: s)))
    by (apply Forall_rev; by constructor).
  destruct (rev (c :: s)) as [|d l] eqn:E.
  { apply (f_equal length) in E. rewrite length_rev in E. discriminate. }
  apply Forall_cons_1 in Hr as [Hd _]. apply andb_true_iff in Hd as [_ Hd]. by apply trim_left_id.
Qed.

(** On a host with the unified hierarchy, the file "0::<path>" with a path of
    plain components gives the inode of that directory under the cgroup
    mount. *)
Theorem getCgroupID_unified (h : host) (pid ino : Z) (parts : list (list byte)) :
  parts <> [] -> Forall plain_part parts ->
  proc_cgroup h pid = Some (bytes_of "0::" ++ slashed parts ++ [b 10]) ->
  stat_ino h (bytes_of "/sys/fs/cgroup" ++ slashed parts) = Some ino ->
  getCgroupID h pid = Ret (inl ino).
Proof.
  intros Hne Hp Hf Hs. unfold getCgroupID. rewrite Hf.
  change (bytes_of "0::" ++ slashed parts ++ [b 10]) with
    (("0"%char :: (":"%char :: ":"%char :: slashed parts)) ++ [b 10]).
  rewrite trim_newline; [|reflexivity|].
  - assert (Hcut : forall s, cut_at (bytes_of "::") ("0"%char :: ":"%char :: ":"%char :: s) =
                             Some (["0"%char], s)) by reflexivity.
    rewrite Hcut.
    change (bytes_of "/sys/fs/cgroup") with (slashed [bytes_of "sys"; bytes_of "fs"; bytes_of "cgroup"]).
    rewrite path_join_plain; [|done| |exact Hne|exact Hp].
    + change (slashed [bytes_of "sys"; bytes_of "fs"; bytes_of "cgroup"]) with (bytes_of "/sys/fs/cgroup").
      by rewrite Hs.
    + by apply (bool_decide_unpack _); vm_compute.
  - repeat (constructor; [reflexivity|]). clear Hne Hf Hs. unfold slashed.
    induction Hp as [|p parts (_ & _ & _ & _ & H) _ IH]; simpl; [constructor|].
    constructor; [reflexivity|]. apply Forall_app. by split.
Qed.

(** Without a unified entry (two colons in a row) the split has one part, and
    reading the second one panics. *)
Theorem getCgroupID_no_unified (h : host) (pid : Z) (data : list byte) :
  proc_cgroup h pid = Some data ->
  (forall l r, trim_space data <> l ++ bytes_of "::" ++ r) ->
  getCgroupID h pid = Panic IndexOutOfRange.
Proof.
  intros Hf Hno. unfold getCgroupID. rewrite Hf.
  destruct (cut_at _ _) as [[l r]|] eqn:E; [|reflexivity].
  destruct (Hno l r). clear Hno Hf. revert l r E.
  induction (trim_space data) as [|c s IH]; intros l r; [discriminate|].
  cbn [cut_at]. destruct (strip_prefix _ (c :: s)) as [r0|] eqn:Es.
  - intros [= <- <-]. simpl in Es. case_decide; [subst|discriminate].
    destruct s; [discriminate|]. case_decide; [subst|discriminate]. by injection Es as ->.
  - destruct (cut_at _ s) as [[l' r']|]; [|discriminate]. intros [= <- <-]. simpl. by rewrite (IH l' r').
Qed.

(** *** A concrete host *)

Definition demo_host : host := {|
  ContainerList := Some [{| cs_ID := "c1"; cs_Image := "nginx" |}; {| cs_ID := "c2"; cs_Image := "redis" |}];
  ContainerInspect := fun id =>
    if decide (id = "c1") then Some {| insp_Pid := Some 7; insp_Name := "/web" |} else None;
  proc_cgroup := fun pid => if pid =? 7 then Some (bytes_of "0::/docker/c1" ++ [b 10])
                            else if pid =? 8 then Some (bytes_of "4:cpu:/docker/c1") else None;
  stat_ino := fun path => if decide (path = bytes_of "/sys/fs/cgroup/docker/c1") then Some 77 else None
|}.

Definition demo_web : ContainerInfo := {| CI_ID := "c1"; CI_Name := "web"; CI_Image := "nginx" |}.

Lemma updateInfo_adds_witness :
  exists r' err, updateInfo demo_host {| cache := ∅ |} = Ret (r', err) /\
    (err = None <-> [{| cs_ID := "c2"; cs_Image := "redis" |}] = []) /\
    forall id, Resolve r' id =
      match (list_to_map (rev [(77, demo_web)]) : gmap Z ContainerInfo) !! id with
      | Some info => Some info
      | None => Resolve {| cache := ∅ |} id
      end.
Proof.
  refine (updateInfo_adds demo_host {| cache := ∅ |} [{| cs_ID := "c1"; cs_Image := "nginx" |}]
            [{| cs_ID := "c2"; cs_Image := "redis" |}] [(77, demo_web)] _ _ _).
  - reflexivity.
  - repeat constructor; by vm_compute.
  - exists ErrInspect. by vm_compute.
Defined.

Lemma MonitorEventsLoop_keeps_witness :
  is_Some (Resolve {| cache := <[77 := demo_web]> ∅ |} 77) /\  is_Some (Resolve {| cache := <[77 := demo_web]> ∅ |} 77).
Proof.
  assert (H : is_Some (Resolve {| cache := <[77 := demo_web]> ∅ |} 77)) by (eexists; by vm_compute).
  split; [exact H|].
  refine (MonitorEventsLoop_keeps {| cache := <[77 := demo_web]> ∅ |} {| cache := <[77 := demo_web]> ∅ |}
            [DockerAction "die" demo_host; DockerAction "start" demo_host; ContextDone] 77 _ H).
  by vm_compute.
Defined.

Lemma getCgroupID_unified_witness : getCgroupID demo_host 7 = Ret (inl 77).
Proof.
  refine (getCgroupID_unified demo_host 7 77 [bytes_of "docker"; bytes_of "c1"] _ _ _ _);
    [discriminate| |by vm_compute..].
  by apply (bool_decide_unpack _); vm_compute.
Defined.

Lemma getCgroupID_no_unified_witness : getCgroupID demo_host 8 = Panic IndexOutOfRange.
Proof.
  refine (getCgroupID_no_unified demo_host 8 (bytes_of "4:cpu:/docker/c1") _ _); [reflexivity|].
  intros l r H. apply (f_equal (fun s => contains s (bytes_of "::"))) in H.
  replace (trim_space (bytes_of "4:cpu:/docker/c1")) with (bytes_of "4:cpu:/docker/c1") in H by by vm_compute.
  rewrite contains_app in H. by vm_compute in H.
Defined.
