(* ===== verification/Main.v ===== *)
(** * The program

    [cmd/main.go]: what the main loop does with a ring-buffer record and what
    the fan-out does with an event; and the way from the probes' submissions to
    the events. *)

From S2P Require Import Prelude.
From S2P Require Import Bytes.
From S2P Require Import GoLib.
From S2P Require Import Channel.
From S2P Require Import Core.
From S2P Require Import Helpers.
From S2P Require Import CLayout.
From S2P Require Import KBase.
From S2P Require Import KNet.
From S2P Require Import KernelTypes.
From S2P Require Import BpfRuntime.
From S2P Require Import Monitor.
From S2P Require Import Wire.
From S2P Require Import Correlator.
From S2P Require Import Rule.
From S2P Require Import Engine.
From S2P Require Import Resolver.

Open Scope Z_scope.

(** ** The main loop *)

(** The event types of [internal/ebpf/types.go]. *)
Definition GO_EVENT_NET_CONNECT : Z := 1.
Definition GO_EVENT_NET_ACCEPT : Z := 2.
Definition GO_EVENT_NET_CLOSE : Z := 3.
Definition GO_EVENT_FILE_OPEN : Z := 4.
Definition GO_EVENT_EXEC : Z := 5.

Section MainLoop.
Variable bootTime : Z.

Definition file_open_event (event : MonitorEvent) : Event := {|
  EventType := "file_open";
  Timestamp := KTimeToTime bootTime (EvTimestamp event);
  SrcContainer := None;
  SrcProcessName := NullTermStr (Comm event);
  SrcPID := Pid event;
  SrcCgroupID := CgroupId event;
  SrcAddr := ""; SrcPort := 0;
  DstContainer := None; DstProcessName := ""; DstPID := 0; DstCgroupID := 0;
  DstAddr := ""; DstPort := 0;
  FilePath := NullTermStr (Filepath event);
  FileOp := OpenFlagsToOp (Flags event);
  ExecPath := ""; ParentPID := 0; ParentProcessName := ""
|}.

Definition exec_event (event : MonitorEvent) : Event := {|
  EventType := "exec";
  Timestamp := KTimeToTime bootTime (EvTimestamp event);
  SrcContainer := None;
  SrcProcessName := NullTermStr (Comm event);
  SrcPID := Pid event;
  SrcCgroupID := CgroupId event;
  SrcAddr := ""; SrcPort := 0;
  DstContainer := None; DstProcessName := ""; DstPID := 0; DstCgroupID := 0;
  DstAddr := ""; DstPort := 0;
  FilePath := ""; FileOp := "";
  ExecPath := NullTermStr (Filepath event);
  ParentPID := Ppid event;
  ParentProcessName := NullTermStr (ParentComm event)
|}.

(** What the main loop reads and writes. *)
Record reader := { corr : Correlator; eventsCh : chan Event }.

Definition send_event (st : reader) (event : Event) : go (option reader) :=
  sent ← ch_send (eventsCh st) event;
  Ret (match sent with
       | Some c => Some {| corr := corr st; eventsCh := c |}
       | None => None
       end).

(** One turn of the loop on the bytes of a record; [Ret None] while it blocks. *)
Definition handle_record (st : reader) (RawSample : list byte) : go (option reader) :=
  match ParseEvent RawSample with
  | None => Ret (Some st)
  | Some event =>
      if EvType event =? GO_EVENT_NET_CONNECT then
        Ret (Some {| corr := HandleConnect bootTime (corr st)
                               (EvSrcAddr event) (EvSrcPort event)
                               (EvDstAddr event) (EvDstPort event)
                               (CgroupId event) (Pid event) (Comm event) (EvTimestamp event);
                     eventsCh := eventsCh st |})
      else if EvType event =? GO_EVENT_NET_ACCEPT then
        c ← HandleAccept (corr st)
              (EvSrcAddr event) (EvSrcPort event) (EvDstAddr event) (EvDstPort event)
              (CgroupId event) (Pid event) (Comm event);
        Ret (match c with
             | Some c => Some {| corr := c; eventsCh := eventsCh st |}
             | None => None
             end)
      else if EvType event =? GO_EVENT_FILE_OPEN then send_event st (file_open_event event)
      else if EvType event =? GO_EVENT_EXEC then send_event st (exec_event event)
      else Ret (Some st)
  end.

(** The loop over the records read, until it blocks. *)
Fixpoint main_loop (st : reader) (records : list (list byte)) : go (option reader) :=
  match records with
  | [] => Ret (Some st)
  | record :: records =>
      st ← handle_record st record;
      match st with
      | Some st => main_loop st records
      | None => Ret None
      end
  end.
End MainLoop.

Definition reader_init : reader :=
  {| corr := NewCorrelator (5 * Second); eventsCh := make_chan 1024 |}.

(** ** The fan-out *)

Definition with_containers (event : Event) (src : ContainerInfo) (dst : option ContainerInfo) : Event := {|
  EventType := EventType event; Timestamp := Timestamp event;
  SrcContainer := Some src;
  SrcProcessName := SrcProcessName event; SrcPID := SrcPID event; SrcCgroupID := SrcCgroupID event;
  SrcAddr := SrcAddr event; SrcPort := SrcPort event;
  DstContainer := dst;
  DstProcessName := DstProcessName event; DstPID := DstPID event; DstCgroupID := DstCgroupID event;
  DstAddr := DstAddr event; DstPort := DstPort event;
  FilePath := FilePath event; FileOp := FileOp event; ExecPath := ExecPath event;
  ParentPID := ParentPID event; ParentProcessName := ParentProcessName event
|}.

(** The destination lookup, with the cache as it is then. *)
Definition resolve_dst (r : Resolver) (event : Event) : option ContainerInfo :=
  if negb (DstCgroupID event =? 0) then Resolve r (DstCgroupID event) else None.

(** The filter test: is the event dropped? *)
Definition filtered (filterPrefixArg : string) (srcInfo : ContainerInfo) (dstInfo : option ContainerInfo) : bool :=
  negb (bool_decide (filterPrefixArg = "")) &&
  (negb (HasPrefix (CI_Name srcInfo) filterPrefixArg) &&
   match dstInfo with
   | Some d => negb (HasPrefix (CI_Name d) filterPrefixArg)
   | None => false
   end).

(** The prefix filter drops an event only when both ends are known and neither
    name has the prefix: an event without a destination is never dropped. *)
Theorem filtered_spec (filterPrefixArg : string) (srcInfo : ContainerInfo) (dstInfo : option ContainerInfo) :
  filtered filterPrefixArg srcInfo dstInfo = true <->
  filterPrefixArg <> "" /\ HasPrefix (CI_Name srcInfo) filterPrefixArg = false /\
  exists d, dstInfo = Some d /\ HasPrefix (CI_Name d) filterPrefixArg = false.
Proof.
  unfold filtered. rewrite !andb_true_iff, !negb_true_iff, bool_decide_eq_false.
  destruct dstInfo as [d|].
  - rewrite negb_true_iff. split; [intros (? & ? & ?); eauto|].
    by intros (? & ? & ? & [= <-] & ?).
  - split; [by intros (_ & _ & ?)|]. by intros (_ & _ & ? & ? & _).
Qed.

(** The Go constants are the enumerators of the C side. *)
Lemma event_types_agree :
  GO_EVENT_NET_CONNECT = EVENT_NET_CONNECT /\ GO_EVENT_NET_ACCEPT = EVENT_NET_ACCEPT /\
  GO_EVENT_NET_CLOSE = EVENT_NET_CLOSE /\ GO_EVENT_FILE_OPEN = EVENT_FILE_OPEN /\
  GO_EVENT_EXEC = EVENT_EXEC.
Proof. by split_and!. Qed.

(** ** From the probes to the events *)

Section ProbesToEvents.
Context `{Laws : bpf_runtime_laws}.
Variable bootTime : Z.

(** What the probes' submissions become, without the ring buffer's old bytes. *)
Definition openat_core_event (iv : invocation) (ctx : Z) : Event := {|
  EventType := "file_open";
  Timestamp := KTimeToTime bootTime (ktime_ns iv);
  SrcContainer := None;
  SrcProcessName := NullTermStr (cur_comm iv);
  SrcPID := tgid_of (cur_pid_tgid iv);
  SrcCgroupID := cur_cgroup_id iv;
  SrcAddr := ""; SrcPort := 0;
  DstContainer := None; DstProcessName := ""; DstPID := 0; DstCgroupID := 0;
  DstAddr := ""; DstPort := 0;
  FilePath := of_bytes (user_cstring 256 (syscall_arg ctx 1));
  FileOp := OpenFlagsToOp (syscall_arg ctx 2);
  ExecPath := ""; ParentPID := 0; ParentProcessName := ""
|}.

Definition execve_core_event (iv : invocation) (ctx : Z) : Event := {|
  EventType := "exec";
  Timestamp := KTimeToTime bootTime (ktime_ns iv);
  SrcContainer := None;
  SrcProcessName := NullTermStr (cur_comm iv);
  SrcPID := tgid_of (cur_pid_tgid iv);
  SrcCgroupID := cur_cgroup_id iv;
  SrcAddr := ""; SrcPort := 0;
  DstContainer := None; DstProcessName := ""; DstPID := 0; DstCgroupID := 0;
  DstAddr := ""; DstPort := 0;
  FilePath := ""; FileOp := "";
  ExecPath := of_bytes (user_cstring 256 (syscall_arg ctx 0));
  ParentPID := le_decode (core_read "struct task_struct" (parent_of (cur_task iv)) ["tgid"%string]);
  ParentProcessName := of_bytes (take 15 (until_nul
    (core_read "struct task_struct" (parent_of (cur_task iv)) ["comm"%string])))
|}.

Lemma NullTermStr_of bs s : until_nul bs = s -> NullTermStr bs = of_bytes s.
Proof. intros H. rewrite <- (of_bytes_of (NullTermStr bs)), NullTermStr_until_nul. by rewrite H. Qed.

(** The write test looks at bits that survive the cut to 32 bits. *)
Lemma OpenFlagsToOp_u32 f : OpenFlagsToOp (f mod 2 ^ 32) = OpenFlagsToOp f.
Proof.
  unfold OpenFlagsToOp. change (Z.lor (Z.lor O_WRONLY O_RDWR) O_CREAT) with 67.
  replace (Z.land (f mod 2 ^ 32) 67) with (Z.land f 67); [reflexivity|].
  rewrite <- (Z.land_ones f 32) by lia. rewrite <- Z.land_assoc. f_equal.
Qed.

(** A submitted record, parsed. *)
Lemma parse_submitted r k :
  event_bytes r -> view r = k -> exists m, ParseEvent r = Some m /\ event_values m = k.
Proof. intros He <-. by apply ParseEvent_view. Qed.

(** The turn of the main loop on a record whose members are [k]. *)
Definition handle_values (st : reader) (k : kevent) : go (option reader) :=
  if k_event_type k =? GO_EVENT_NET_CONNECT then
    Ret (Some {| corr := HandleConnect bootTime (corr st) (k_src_addr k) (k_src_port k)
                           (k_dst_addr k) (k_dst_port k) (k_cgroup_id k) (k_pid k) (k_comm k)
                           (k_timestamp k);
                 eventsCh := eventsCh st |})
  else if k_event_type k =? GO_EVENT_NET_ACCEPT then
    c ← HandleAccept (corr st) (k_src_addr k) (k_src_port k) (k_dst_addr k) (k_dst_port k)
          (k_cgroup_id k) (k_pid k) (k_comm k);
    Ret (match c with Some c => Some {| corr := c; eventsCh := eventsCh st |} | None => None end)
  else if k_event_type k =? GO_EVENT_FILE_OPEN then
    send_event st {|
      EventType := "file_open"; Timestamp := KTimeToTime bootTime (k_timestamp k);
      SrcContainer := None; SrcProcessName := NullTermStr (k_comm k); SrcPID := k_pid k;
      SrcCgroupID := k_cgroup_id k; SrcAddr := ""; SrcPort := 0;
      DstContainer := None; DstProcessName := ""; DstPID := 0; DstCgroupID := 0;
      DstAddr := ""; DstPort := 0; FilePath := NullTermStr (k_filepath k);
      FileOp := OpenFlagsToOp (k_flags k); ExecPath := ""; ParentPID := 0; ParentProcessName := "" |}
  else if k_event_type k =? GO_EVENT_EXEC then
    send_event st {|
      EventType := "exec"; Timestamp := KTimeToTime bootTime (k_timestamp k);
      SrcContainer := None; SrcProcessName := NullTermStr (k_comm k); SrcPID := k_pid k;
      SrcCgroupID := k_cgroup_id k; SrcAddr := ""; SrcPort := 0;
      DstContainer := None; DstProcessName := ""; DstPID := 0; DstCgroupID := 0;
      DstAddr := ""; DstPort := 0; FilePath := ""; FileOp := "";
      ExecPath := NullTermStr (k_filepath k); ParentPID := k_ppid k;
      ParentProcessName := NullTermStr (k_parent_comm k) |}
  else Ret (Some st).

(** The parsed record of an open is of its type and makes its event. *)
Lemma openat_record iv stale ctx r :
  invocation_ok iv -> event_bytes stale -> handle_openat iv (Some stale) ctx = Submitted r ->
  exists m, ParseEvent r = Some m /\ EvType m = GO_EVENT_FILE_OPEN /\
    file_open_event bootTime m = openat_core_event iv ctx.
Proof.
  intros Hiv Hs Hr. destruct (handle_openat_view iv stale ctx r Hiv Hs Hr) as (He & Hv).
  destruct (parse_submitted r _ He Hv) as (m & Hm & Hk). exists m. split; [exact Hm|].
  injection Hk as Hpid Hcg Hts Hty Hsa Hsp Hda Hdp Hcomm Hfp Hppid Hpc Hfl. split; [exact Hty|].
  unfold file_open_event, openat_core_event. rewrite Hpid, Hcg, Hts, Hcomm, Hfp, Hfl.
  rewrite OpenFlagsToOp_u32. f_equal.
  apply NullTermStr_of, until_nul_read_user_str; [lia|]. by apply (get_length F_filepath).
Qed.

Lemma execve_record iv stale ctx r :
  invocation_ok iv -> event_bytes stale -> handle_execve iv (Some stale) ctx = Submitted r ->
  exists m, ParseEvent r = Some m /\ EvType m = GO_EVENT_EXEC /\
    exec_event bootTime m = execve_core_event iv ctx.
Proof.
  intros Hiv Hs Hr. destruct (handle_execve_view iv stale ctx r Hiv Hs Hr) as (He & Hv).
  destruct (parse_submitted r _ He Hv) as (m & Hm & Hk). exists m. split; [exact Hm|].
  injection Hk as Hpid Hcg Hts Hty Hsa Hsp Hda Hdp Hcomm Hfp Hppid Hpc Hfl. split; [exact Hty|].
  unfold exec_event, execve_core_event. rewrite Hpid, Hcg, Hts, Hcomm, Hfp, Hppid, Hpc. f_equal.
  - apply NullTermStr_of, until_nul_read_user_str; [lia|]. by apply (get_length F_filepath).
  - apply NullTermStr_of. apply (until_nul_read_kernel_str 16); [lia|].
    by apply (get_length F_parent_comm).
Qed.

(** An open that [handle_openat] submits reaches the event channel as the path,
    the operation and the caller, whatever the ring buffer held before. *)
Theorem openat_to_event (iv : invocation) (stale : list byte) (ctx : Z) (st : reader) (r : list byte) :
  invocation_ok iv -> event_bytes stale ->
  handle_openat iv (Some stale) ctx = Submitted r ->
  handle_record bootTime st r = send_event st (openat_core_event iv ctx).
Proof.
  intros Hiv Hs Hr.
  destruct (openat_record iv stale ctx r Hiv Hs Hr) as (m & Hm & Hty & He).
  unfold handle_record. by rewrite Hm, Hty, He.
Qed.

(** An execution that [handle_execve] submits likewise, with its parent. *)
Theorem execve_to_event (iv : invocation) (stale : list byte) (ctx : Z) (st : reader) (r : list byte) :
  invocation_ok iv -> event_bytes stale ->
  handle_execve iv (Some stale) ctx = Submitted r ->
  handle_record bootTime st r = send_event st (execve_core_event iv ctx).
Proof.
  intros Hiv Hs Hr.
  destruct (execve_record iv stale ctx r Hiv Hs Hr) as (m & Hm & Hty & He).
  unfold handle_record. by rewrite Hm, Hty, He.
Qed.

(** What the connect and accept records of a socket make the correlator do. *)
Definition connect_op (iv : invocation) (sk : Z) : corr_op :=
  OpConnect (sk_read sk sock_rcv_saddr) (sk_read sk sock_num) (sk_read sk sock_daddr) (sk_dport sk)
    (cur_cgroup_id iv) (tgid_of (cur_pid_tgid iv)) (cur_comm iv) (ktime_ns iv).
Definition accept_op (iv : invocation) (sk : Z) : corr_op :=
  OpAccept (sk_read sk sock_rcv_saddr) (sk_read sk sock_num) (sk_read sk sock_daddr) (sk_dport sk)
    (cur_cgroup_id iv) (tgid_of (cur_pid_tgid iv)) (cur_comm iv).

(** The correlator operation a record stands for. *)
Definition values_op (k : kevent) : option corr_op :=
  if k_event_type k =? GO_EVENT_NET_CONNECT then
    Some (OpConnect (k_src_addr k) (k_src_port k) (k_dst_addr k) (k_dst_port k)
            (k_cgroup_id k) (k_pid k) (k_comm k) (k_timestamp k))
  else if k_event_type k =? GO_EVENT_NET_ACCEPT then
    Some (OpAccept (k_src_addr k) (k_src_port k) (k_dst_addr k) (k_dst_port k)
            (k_cgroup_id k) (k_pid k) (k_comm k))
  else None.

Definition record_op (r : list byte) : option corr_op :=
  m ← ParseEvent r; values_op (event_values m).

Lemma handle_values_corr st k st' :
  handle_values st k = Ret (Some st') ->
  match values_op k with
  | Some op => corr_exec bootTime (corr st) op = Ret (Some (corr st'))
  | None => corr st' = corr st
  end.
Proof.
  unfold handle_values, values_op, send_event.
  destruct (_ =? GO_EVENT_NET_CONNECT); [by intros [= <-]|].
  destruct (_ =? GO_EVENT_NET_ACCEPT).
  - intros ([c|] & Hc & H)%go_bind_Ret_inv; [|discriminate]. injection H as <-. exact Hc.
  - destruct (_ =? GO_EVENT_FILE_OPEN); [|destruct (_ =? GO_EVENT_EXEC); [|by intros [= <-]]].
    all: intros ([c|] & Hc & H)%go_bind_Ret_inv; [|discriminate]; by injection H as <-.
Qed.

Lemma handle_record_parsed st r :
  handle_record bootTime st r =
  match ParseEvent r with Some m => handle_values st (event_values m) | None => Ret (Some st) end.
Proof. reflexivity. Qed.

(** The main loop drives the correlator by the operations of its records. *)
Lemma main_loop_corr rs : forall st st',
  main_loop bootTime st rs = Ret (Some st') ->
  corr_run bootTime (corr st) (omap record_op rs) = Ret (Some (corr st')).
Proof.
  induction rs as [|r rs IH]; intros st st'; [by intros [= <-]|]. cbn [main_loop].
  intros ([st1|] & H1 & H)%go_bind_Ret_inv; [|discriminate]. apply IH in H.
  assert (Ho : omap record_op (r :: rs) =
               match record_op r with Some op => op :: omap record_op rs | None => omap record_op rs end)
    by reflexivity.
  rewrite Ho. unfold record_op at 1. rewrite handle_record_parsed in H1.
  destruct (ParseEvent r) as [m|]; simpl; [|by injection H1 as <-].
  apply handle_values_corr in H1. destruct (values_op (event_values m)) as [op|]; [|congruence].
  cbn [corr_run]. by rewrite H1.
Qed.

(** Room in both channels for [n] events. *)
Definition reader_room (n : nat) (st : reader) : Prop :=
  room n (output (corr st)) /\ room n (eventsCh st).

Lemma handle_record_room st r n :
  reader_room (S n) st -> exists st', handle_record bootTime st r = Ret (Some st') /\ reader_room n st'.
Proof.
  intros [Hc He]. assert (Hn : reader_room n st) by (split; (apply (room_le (S n)); [lia|assumption])).
  destruct Hn as [Hc0 He0]. rewrite handle_record_parsed.
  destruct (ParseEvent r) as [m|]; [|by exists st].
  unfold handle_values, HandleAccept, send_event.
  destruct (_ =? GO_EVENT_NET_CONNECT); [eexists; split; [reflexivity|]; (split; [first [exact Hc0|exact Hr]|first [exact He0|exact Hr]])|].
  destruct (_ =? GO_EVENT_NET_ACCEPT).
  - destruct (pending (corr st) !! _) as [entry|]; simpl; [|eexists; split; [reflexivity|]; by split].
    edestruct (room_send n (output (corr st))) as (o & Ho & Hr & _); [exact Hc|].
    rewrite Ho. simpl. eexists. split; [reflexivity|]. (split; [first [exact Hc0|exact Hr]|first [exact He0|exact Hr]]).
  - destruct (_ =? GO_EVENT_FILE_OPEN); [|destruct (_ =? GO_EVENT_EXEC); [|by exists st]].
    all: edestruct (room_send n (eventsCh st)) as (o & Ho & Hr & _); [exact He|];
      rewrite Ho; simpl; eexists; (split; [reflexivity|]); (split; [first [exact Hc0|exact Hr]|first [exact He0|exact Hr]]).
Qed.

Lemma main_loop_room rs : forall st,
  reader_room (length rs) st -> exists st', main_loop bootTime st rs = Ret (Some st').
Proof.
  induction rs as [|r rs IH]; intros st Hr; [by exists st|]. simpl in *.
  destruct (handle_record_room st r _ Hr) as (st1 & -> & Hr1). simpl. by apply IH.
Qed.

Lemma take4_u32 bs : in_u 32 (le_decode (take 4 bs)).
Proof.
  pose proof (le_decode_range (take 4 bs)) as H. rewrite length_take in H.
  unfold in_u. assert (256 ^ Z.of_nat (4 `min` length bs) <= 2 ^ 32); [|lia].
  change (2 ^ 32) with (256 ^ 4). apply Z.pow_le_mono_r; lia.
Qed.

Lemma ParseEvent_u32 r m :
  ParseEvent r = Some m -> in_u 32 (EvSrcAddr m) /\ in_u 32 (EvDstAddr m).
Proof.
  unfold ParseEvent, binary_Read. destruct (_ <? _)%nat; [discriminate|].
  cbn -[take drop le_decode]. intros [= <-]. cbn -[take drop le_decode]. split; apply take4_u32.
Qed.

Lemma record_op_u32 r op : record_op r = Some op -> op_u32 op.
Proof.
  unfold record_op. destruct (ParseEvent r) as [m|] eqn:Hm; simpl; [|discriminate].
  apply ParseEvent_u32 in Hm as [H1 H2]. unfold values_op.
  destruct (_ =? _); [by intros [= <-]|]. destruct (_ =? _); [by intros [= <-]|discriminate].
Qed.

Lemma record_op_connect iv sk stale r :
  invocation_ok iv -> event_bytes stale -> tcp_connect iv (Some stale) sk = Submitted r ->
  record_op r = Some (connect_op iv sk).
Proof.
  intros Hiv Hs Hr. destruct (tcp_connect_view iv stale sk r Hiv Hs Hr) as [He Hv].
  unfold record_op. destruct (parse_submitted r _ He Hv) as (m & -> & Hm). simpl. by rewrite Hm.
Qed.

Lemma record_op_accept iv sk stale r :
  invocation_ok iv -> event_bytes stale -> inet_csk_accept iv (Some stale) sk = Submitted r ->
  record_op r = Some (accept_op iv sk).
Proof.
  intros Hiv Hs Hr. destruct (inet_csk_accept_view iv stale sk r Hiv Hs Hr) as [He Hv].
  unfold record_op. destruct (parse_submitted r _ He Hv) as (m & -> & Hm). simpl. by rewrite Hm.
Qed.

(** ** A connection, end to end *)

(** The two sockets are the two ends of one connection. *)
Definition two_ends (sk1 sk2 : Z) : Prop :=
  sk_read sk1 sock_rcv_saddr = sk_read sk2 sock_daddr /\ sk_read sk1 sock_num = sk_dport sk2 /\
  sk_read sk1 sock_daddr = sk_read sk2 sock_rcv_saddr /\ sk_dport sk1 = sk_read sk2 sock_num.

Definition sock_key (sk : Z) : IncompleteConnection := {|
  IC_SrcAddr := sk_read sk sock_rcv_saddr; IC_SrcPort := sk_read sk sock_num;
  IC_DstAddr := sk_read sk sock_daddr; IC_DstPort := sk_dport sk
|}.

Lemma connect_op_key iv sk : op_key (connect_op iv sk) = Some (sock_key sk).
Proof. reflexivity. Qed.

Lemma accept_op_key iv sk1 sk2 : two_ends sk1 sk2 -> op_key (accept_op iv sk2) = Some (sock_key sk1).
Proof. intros (H1 & H2 & H3 & H4). unfold sock_key. by rewrite H1, H2, H3, H4. Qed.

(** The event of a connection that [sk1] opened in the context [iv1] and that
    was accepted in the context [iv2]. *)
Definition connection_core_event (iv1 iv2 : invocation) (sk1 : Z) : Event := {|
  EventType := "connection";
  Timestamp := KTimeToTime bootTime (ktime_ns iv1);
  SrcContainer := None;
  SrcProcessName := NullTermStr (cur_comm iv1);
  SrcPID := tgid_of (cur_pid_tgid iv1);
  SrcCgroupID := cur_cgroup_id iv1;
  SrcAddr := BytesToIPv4 (sk_read sk1 sock_rcv_saddr);
  SrcPort := sk_read sk1 sock_num;
  DstContainer := None;
  DstProcessName := NullTermStr (cur_comm iv2);
  DstPID := tgid_of (cur_pid_tgid iv2);
  DstCgroupID := cur_cgroup_id iv2;
  DstAddr := BytesToIPv4 (sk_read sk1 sock_daddr);
  DstPort := sk_dport sk1;
  FilePath := ""; FileOp := ""; ExecPath := ""; ParentPID := 0; ParentProcessName := ""
|}.

(** Operations on other quadruples leave an automaton alone. *)
Lemma key_run_others t k s ops :
  Forall (fun op => op_key op <> Some k) ops ->
  Forall (fun op => match op with OpTick _ _ => False | _ => True end) ops ->
  key_run bootTime t k s ops = (s, []).
Proof.
  intros H. induction H as [|op ops Hop _ IH]; intros Ht; [reflexivity|].
  apply Forall_cons_1 in Ht as [Hnt Ht]. cbn [key_run].
  destruct op; [| |done]; cbn [key_step]; rewrite decide_False by exact Hop; by rewrite (IH Ht).
Qed.

Lemma key_run_app t k ops1 ops2 : forall s,
  key_run bootTime t k s (ops1 ++ ops2) =
  let '(s1, o1) := key_run bootTime t k s ops1 in
  let '(s2, o2) := key_run bootTime t k s1 ops2 in (s2, o1 ++ o2).
Proof.
  induction ops1 as [|op ops1 IH]; intros s; cbn [key_run app].
  - by destruct (key_run bootTime t k s ops2).
  - destruct (key_step bootTime t k s op) as [s1 o1]. rewrite IH.
    destruct (key_run bootTime t k s1 ops1) as [s2 o2].
    destruct (key_run bootTime t k s2 ops2) as [s3 o3]. by rewrite app_assoc.
Qed.

Lemma record_op_no_tick r op : record_op r = Some op -> match op with OpTick _ _ => False | _ => True end.
Proof.
  unfold record_op. destruct (ParseEvent r); simpl; [|discriminate]. unfold values_op.
  destruct (_ =? _); [by intros [= <-]|]. destruct (_ =? _); [by intros [= <-]|discriminate].
Qed.

Lemma omap_record_ops rs (P : corr_op -> Prop) :
  (forall r op, r ∈ rs -> record_op r = Some op -> P op) -> Forall P (omap record_op rs).
Proof.
  intros H. apply Forall_forall. intros op (r & Hr & Hop)%list_elem_of_omap. eauto.
Qed.

Lemma ticks_ok_no_tick ops : forall c,
  Forall (fun op => match op with OpTick _ _ => False | _ => True end) ops -> ticks_ok bootTime c ops.
Proof.
  induction ops as [|op ops IH]; intros c H; [done|]. apply Forall_cons_1 in H as [Ho H].
  split; [by destruct op|]. destruct (corr_exec bootTime c op) as [[c'|]|]; [by apply IH|done..].
Qed.

Lemma omap_app_records rs1 rs2 : omap record_op (rs1 ++ rs2) = omap record_op rs1 ++ omap record_op rs2.
Proof. apply omap_app. Qed.

Lemma sk_read_in_u32 sk path o :
  offset_size struct_sock path = Some (o, 4%N) -> in_u 32 (sk_read sk path).
Proof.
  intros H. pose proof (sk_read_length path o 4 sk H) as Hl. unfold sk_read.
  pose proof (le_decode_range (core_read "struct sock" sk path)) as Hr. by rewrite Hl in Hr.
Qed.

Lemma sock_key_u32 sk : addrs_u32 (sock_key sk).
Proof.
  split; [apply (sk_read_in_u32 sk sock_rcv_saddr 4)|apply (sk_read_in_u32 sk sock_daddr 0)];
    vm_compute; reflexivity.
Qed.

(** (C3) A connection that both probes see gives exactly one event, which names
    both ends: the record of the connect, any records of other connections,
    files and executions, then the record of the accept, read while the
    channels have room.  Nothing stays pending, and nothing of what the ring
    buffer held before shows. *)
Theorem connection_to_event (iv1 iv2 : invocation) (sk1 sk2 : Z) (stale1 stale2 r1 r2 : list byte)
    (others : list (list byte)) (st : reader) :
  invocation_ok iv1 -> invocation_ok iv2 -> event_bytes stale1 -> event_bytes stale2 ->
  tcp_connect iv1 (Some stale1) sk1 = Submitted r1 ->
  inet_csk_accept iv2 (Some stale2) sk2 = Submitted r2 ->
  two_ends sk1 sk2 ->
  (forall r op, r ∈ others -> record_op r = Some op -> op_key op <> Some (sock_key sk1)) ->
  reader_room (length (r1 :: others ++ [r2])) st ->
  exists st' out, main_loop bootTime st (r1 :: others ++ [r2]) = Ret (Some st') /\
    pending (corr st') !! sock_key sk1 = None /\
    ch_buf (output (corr st')) = ch_buf (output (corr st)) ++ out /\
    List.filter (event_of (sock_key sk1)) out = [connection_core_event iv1 iv2 sk1].
Proof.
  intros Hiv1 Hiv2 Hs1 Hs2 Hr1 Hr2 Hends Hothers Hroom.
  destruct (main_loop_room _ st Hroom) as [st' Hrun].
  pose proof (record_op_connect _ _ _ _ Hiv1 Hs1 Hr1) as Ho1.
  pose proof (record_op_accept _ _ _ _ Hiv2 Hs2 Hr2) as Ho2.
  pose proof (main_loop_corr _ _ _ Hrun) as Hcorr.
  set (ops := omap record_op (r1 :: others ++ [r2])) in *.
  assert (Hops : ops = [connect_op iv1 sk1] ++ omap record_op others ++ [accept_op iv2 sk2]).
  { unfold ops. change (r1 :: others ++ [r2]) with ([r1] ++ others ++ [r2]).
    rewrite !omap_app_records. simpl. by rewrite Ho1, Ho2. }
  assert (Hnt : Forall (fun op => match op with OpTick _ _ => False | _ => True end) ops)
    by (apply omap_record_ops; intros r op _; apply record_op_no_tick).
  destruct (corr_run_refines bootTime (sock_key sk1) ops (corr st) (corr st') (sock_key_u32 sk1)) as (out & Hout & Hkey).
  - apply omap_record_ops. intros r op _. apply record_op_u32.
  - by apply ticks_ok_no_tick.
  - destruct Hroom as [Hroom _]. by apply room_chan_ok in Hroom.
  - exact Hcorr.
  - exists st', out. rewrite Hops, key_run_app in Hkey.
    assert (H1 : forall s, key_run bootTime (timeout (corr st)) (sock_key sk1) s [connect_op iv1 sk1] =
      (Some (connect_entry bootTime (cur_cgroup_id iv1) (tgid_of (cur_pid_tgid iv1)) (cur_comm iv1)
               (ktime_ns iv1)), [])).
    { intros s. cbn [key_run key_step connect_op]. by rewrite decide_True. }
    rewrite H1, key_run_app, (key_run_others _ _ _ (omap record_op others)) in Hkey.
    + cbn [key_run key_step accept_op] in Hkey.
      rewrite decide_True in Hkey by (by apply (accept_op_key iv2)).
      injection Hkey as Hp Hf. split_and!; [exact Hrun|by symmetry|exact Hout|].
      rewrite <- Hf. destruct Hends as (E1 & E2 & E3 & E4).
      unfold connection_core_event, connection_event, connect_entry. simpl.
      by rewrite <- E1, <- E2, <- E3, <- E4.
    + apply omap_record_ops. exact Hothers.
    + apply omap_record_ops. intros r op _. apply record_op_no_tick.
Qed.
End ProbesToEvents.

(** ** Two hosts' sockets, for the witnesses *)

Module Ends.
(** A client socket 10.0.0.2:40000 -> 10.0.0.3:22 at 4096, its server end at
    8192. *)
Definition client_bytes : list byte :=
  map byte_of [10; 0; 0; 3; 10; 0; 0; 2; 0; 0; 0; 0; 0; 22] ++ le_encode 2 40000 ++ le_encode 2 2.
Definition server_bytes : list byte :=
  map byte_of [10; 0; 0; 2; 10; 0; 0; 3; 0; 0; 0; 0; 156; 64] ++ le_encode 2 22 ++ le_encode 2 2.
Definition mem : kmem := fun a =>
  if (4096 <=? a) && (a <? 8192) then client_bytes !! Z.to_nat (a - 4096)
  else if 8192 <=? a then server_bytes !! Z.to_nat (a - 8192)
  else None.
Definition runtime : bpf_runtime := header_runtime mem (fun _ => None).
Definition runtime_laws : bpf_runtime_laws runtime := header_runtime_laws mem (fun _ => None).
Definition record_of (v : verdict) : list byte := match v with Submitted r => r | _ => [] end.
Definition r1 : list byte := record_of (@tcp_connect runtime Demo.iv (Some Demo.stale) 4096).
Definition r2 : list byte := record_of (@inet_csk_accept runtime Demo.iv (Some Demo.stale) 8192).
End Ends.

Lemma openat_to_event_witness :
  exists r, @handle_openat Demo.runtime Demo.iv (Some Demo.stale) 8192 = Submitted r /\
    handle_record 0 reader_init r =
    send_event reader_init (@openat_core_event Demo.runtime 0 Demo.iv 8192).
Proof.
  eexists. split; [reflexivity|].
  refine (@openat_to_event Demo.runtime Demo.runtime_laws 0 Demo.iv Demo.stale 8192 reader_init _ _ _ _);
    [exact Demo.iv_ok|by apply Demo.stale_ok|reflexivity].
Defined.

Lemma execve_to_event_witness :
  exists r, @handle_execve Demo.runtime Demo.iv (Some Demo.stale) 8192 = Submitted r /\
    handle_record 0 reader_init r =
    send_event reader_init (@execve_core_event Demo.runtime 0 Demo.iv 8192).
Proof.
  eexists. split; [reflexivity|].
  refine (@execve_to_event Demo.runtime Demo.runtime_laws 0 Demo.iv Demo.stale 8192 reader_init _ _ _ _);
    [exact Demo.iv_ok|by apply Demo.stale_ok|reflexivity].
Defined.

Lemma connection_to_event_witness :
  exists st' out,
    main_loop 0 reader_init (Ends.r1 :: [] ++ [Ends.r2]) = Ret (Some st') /\
    pending (corr st') !! @sock_key Ends.runtime 4096 = None /\
    ch_buf (output (corr st')) = ch_buf (output (corr reader_init)) ++ out /\
    List.filter (event_of (@sock_key Ends.runtime 4096)) out =
      [@connection_core_event Ends.runtime 0 Demo.iv Demo.iv 4096].
Proof.
  refine (@connection_to_event Ends.runtime Ends.runtime_laws 0 Demo.iv Demo.iv 4096 8192
            Demo.stale Demo.stale Ends.r1 Ends.r2 [] reader_init _ _ _ _ _ _ _ _ _).
  - exact Demo.iv_ok.
  - exact Demo.iv_ok.
  - by apply Demo.stale_ok.
  - by apply Demo.stale_ok.
  - vm_compute. reflexivity.
  - vm_compute. reflexivity.
  - split_and!; vm_compute; reflexivity.
  - intros r op Hr. by apply elem_of_nil in Hr.
  - split; (split; [reflexivity|simpl; lia]).
Defined.
