(* ===== verification/Pipeline.v ===== *)
(** * The goroutines of the program

    The goroutines that [main] starts (the reader of the ring buffer, the
    forwarder of the correlator's events, the fan-out, the rule engine, the
    output loop, the correlator's ticker, the Docker monitor and the signal
    handler) as one transition system: a step is what one goroutine does up to
    its next channel operation.  A panic in any goroutine ends the program, and
    so does the reader's [os.Exit]. *)

From S2P Require Import Prelude.
From S2P Require Import Bytes.
From S2P Require Import GoLib.
From S2P Require Import Channel.
From S2P Require Import Core.
From S2P Require Import Correlator.
From S2P Require Import Rule.
From S2P Require Import Engine.
From S2P Require Import Sequence.
From S2P Require Import Output.
From S2P Require Import Resolver.
From S2P Require Import Wire.
From S2P Require Import Main.

Open Scope Z_scope.

(** The reader: waiting in [rd.Read], or with a record in hand. *)
Inductive rd_state := RdReading | RdGot (record : list byte).

(** The forwarder from the correlator's output to the event channel. *)
Inductive fwd_state := FwdReceiving | FwdSending (event : Event) | FwdDone.

(** The fan-out, by the points of its loop between which others may run. *)
Inductive fan_state :=
| FanReceiving
| FanSrc (event : Event)
| FanDst (event : Event) (srcInfo : ContainerInfo)
| FanOutput (event : Event)
| FanEngine (event : Event)
| FanDone.

(** [ProcessLoop]: waiting for an event, before the rules left for it, or with
    the alerts in hand that the rule just applied sends. *)
Inductive eng_state :=
| EngReceiving
| EngRules (event : Event) (rest : list Rule)
| EngSending (unsent : list Alert) (event : Event) (rest : list Rule)
| EngDone.

(** The engine's goroutine and the channel [engine.alerts]; [engine_seen] is
    the history of the events received. *)
Record eng_side := {
  engine : RuleEngine;
  eng_at : eng_state;
  alertsCh : chan Alert;
  engine_seen : list Event
}.

(** The output loop; [out_cases] is the history of its selections. *)
Record out_side := {
  out_loop : loop_result;
  out_cases : list select_case
}.

Record sys := {
  rdr : reader;                   (* the correlator and eventsCh *)
  rd_at : rd_state;
  fwd_at : fwd_state;
  fan_at : fan_state;
  outputCh : chan Event;
  engineCh : chan Event;
  resolver : Resolver;
  docker_on : bool;               (* MonitorEventsLoop has not returned *)
  eng : eng_side;
  out : out_side;
  closing : nat;                  (* statements the signal handler has run *)
  exited : option Z               (* the argument of os.Exit *)
}.

Definition set_rdr s x := {|
  rdr := x; rd_at := rd_at s; fwd_at := fwd_at s; fan_at := fan_at s; outputCh := outputCh s;
  engineCh := engineCh s; resolver := resolver s; docker_on := docker_on s; eng := eng s;
  out := out s; closing := closing s; exited := exited s |}.
Definition set_rd_at s x := {|
  rdr := rdr s; rd_at := x; fwd_at := fwd_at s; fan_at := fan_at s; outputCh := outputCh s;
  engineCh := engineCh s; resolver := resolver s; docker_on := docker_on s; eng := eng s;
  out := out s; closing := closing s; exited := exited s |}.
Definition set_fwd_at s x := {|
  rdr := rdr s; rd_at := rd_at s; fwd_at := x; fan_at := fan_at s; outputCh := outputCh s;
  engineCh := engineCh s; resolver := resolver s; docker_on := docker_on s; eng := eng s;
  out := out s; closing := closing s; exited := exited s |}.
Definition set_fan_at s x := {|
  rdr := rdr s; rd_at := rd_at s; fwd_at := fwd_at s; fan_at := x; outputCh := outputCh s;
  engineCh := engineCh s; resolver := resolver s; docker_on := docker_on s; eng := eng s;
  out := out s; closing := closing s; exited := exited s |}.
Definition set_outputCh s x := {|
  rdr := rdr s; rd_at := rd_at s; fwd_at := fwd_at s; fan_at := fan_at s; outputCh := x;
  engineCh := engineCh s; resolver := resolver s; docker_on := docker_on s; eng := eng s;
  out := out s; closing := closing s; exited := exited s |}.
Definition set_engineCh s x := {|
  rdr := rdr s; rd_at := rd_at s; fwd_at := fwd_at s; fan_at := fan_at s;
  outputCh := outputCh s; engineCh := x; resolver := resolver s; docker_on := docker_on s;
  eng := eng s; out := out s; closing := closing s; exited := exited s |}.
Definition set_eng s x := {|
  rdr := rdr s; rd_at := rd_at s; fwd_at := fwd_at s; fan_at := fan_at s;
  outputCh := outputCh s; engineCh := engineCh s; resolver := resolver s;
  docker_on := docker_on s; eng := x; out := out s; closing := closing s; exited := exited s |}.
Definition set_out s x := {|
  rdr := rdr s; rd_at := rd_at s; fwd_at := fwd_at s; fan_at := fan_at s;
  outputCh := outputCh s; engineCh := engineCh s; resolver := resolver s;
  docker_on := docker_on s; eng := eng s; out := x; closing := closing s; exited := exited s |}.
Definition set_closing s x := {|
  rdr := rdr s; rd_at := rd_at s; fwd_at := fwd_at s; fan_at := fan_at s;
  outputCh := outputCh s; engineCh := engineCh s; resolver := resolver s;
  docker_on := docker_on s; eng := eng s; out := out s; closing := x; exited := exited s |}.
Definition set_resolver s x on := {|
  rdr := rdr s; rd_at := rd_at s; fwd_at := fwd_at s; fan_at := fan_at s;
  outputCh := outputCh s; engineCh := engineCh s; resolver := x; docker_on := on; eng := eng s;
  out := out s; closing := closing s; exited := exited s |}.
Definition set_exited s x := {|
  rdr := rdr s; rd_at := rd_at s; fwd_at := fwd_at s; fan_at := fan_at s;
  outputCh := outputCh s; engineCh := engineCh s; resolver := resolver s;
  docker_on := docker_on s; eng := eng s; out := out s; closing := closing s;
  exited := Some x |}.

Definition set_corr (s : sys) (c : Correlator) : sys :=
  set_rdr s {| corr := c; eventsCh := eventsCh (rdr s) |}.
Definition set_eventsCh (s : sys) (c : chan Event) : sys :=
  set_rdr s {| corr := corr (rdr s); eventsCh := c |}.
Definition set_eng_at (g : eng_side) (x : eng_state) : eng_side :=
  {| engine := engine g; eng_at := x; alertsCh := alertsCh g; engine_seen := engine_seen g |}.
Definition set_alertsCh (g : eng_side) (c : chan Alert) : eng_side :=
  {| engine := engine g; eng_at := eng_at g; alertsCh := c; engine_seen := engine_seen g |}.

(** Which goroutine moves, with what it learns from outside. *)
Inductive label :=
| LRead (record : list byte)
| LReadErr
| LHandle
| LForward
| LFan
| LEngine
| LOutEvent
| LOutAlert
| LTick (now : Z)
| LDocker (ev : docker_event)
| LSignal.

Section System.
Variables (bootTime : Z) (filterPrefixArg : string) (zone : Z).

(** After a channel operation that does not block. *)
Definition then_ {A} (m : go (option A)) (k : A -> sys) : go (option sys) :=
  x ← m; Ret (match x with Some x => Some (k x) | None => None end).

Definition forward_step (s : sys) : go (option sys) :=
  match fwd_at s with
  | FwdReceiving =>
      match ch_recv (output (corr (rdr s))) with
      | RecvBlocks => Ret None
      | RecvValue event c =>
          let s := set_corr s {| pending := pending (corr (rdr s)); timeout := timeout (corr (rdr s));
                                 output := c |} in
          Ret (Some (set_fwd_at s (FwdSending event)))
      | RecvClosed =>
          c ← ch_close (eventsCh (rdr s));
          Ret (Some (set_fwd_at (set_eventsCh s c) FwdDone))
      end
  | FwdSending event =>
      then_ (ch_send (eventsCh (rdr s)) event) (fun c => set_fwd_at (set_eventsCh s c) FwdReceiving)
  | FwdDone => Ret None
  end.

Definition fan_step (s : sys) : go (option sys) :=
  match fan_at s with
  | FanReceiving =>
      match ch_recv (eventsCh (rdr s)) with
      | RecvBlocks => Ret None
      | RecvValue event c => Ret (Some (set_fan_at (set_eventsCh s c) (FanSrc event)))
      | RecvClosed => Ret (Some (set_fan_at s FanDone))
      end
  | FanSrc event =>
      match Resolve (resolver s) (SrcCgroupID event) with
      | None => Ret (Some (set_fan_at s FanReceiving))
      | Some srcInfo => Ret (Some (set_fan_at s (FanDst event srcInfo)))
      end
  | FanDst event srcInfo =>
      let dstInfo := resolve_dst (resolver s) event in
      if filtered filterPrefixArg srcInfo dstInfo then Ret (Some (set_fan_at s FanReceiving))
      else Ret (Some (set_fan_at s (FanOutput (with_containers event srcInfo dstInfo))))
  | FanOutput event =>
      then_ (ch_send (outputCh s) event) (fun c => set_fan_at (set_outputCh s c) (FanEngine event))
  | FanEngine event =>
      then_ (ch_send (engineCh s) event) (fun c => set_fan_at (set_engineCh s c) FanReceiving)
  | FanDone => Ret None
  end.

(** The alerts that [new] has raised since [old]. *)
Definition raised (old new : RuleEngine) : list Alert := drop (length (alerts old)) (alerts new).

(** The engine's goroutine: [ProcessLoop] and, in it, the loop of
    [ProcessEvent]; the alerts of a rule are sent before the next rule. *)
Definition engine_step (s : sys) : go (option sys) :=
  let g := eng s in
  match eng_at g with
  | EngReceiving =>
      match ch_recv (engineCh s) with
      | RecvBlocks => Ret None
      | RecvValue event c =>
          Ret (Some (set_eng (set_engineCh s c)
            {| engine := engine g; eng_at := EngRules event (rules (engine g));
               alertsCh := alertsCh g; engine_seen := engine_seen g ++ [event] |}))
      | RecvClosed => Ret (Some (set_eng s (set_eng_at g EngDone)))
      end
  | EngRules event [] => Ret (Some (set_eng s (set_eng_at g EngReceiving)))
  | EngRules event (rule :: rest) =>
      r ← process_rule (engine g) rule event;
      Ret (Some (set_eng s
        {| engine := r; eng_at := EngSending (raised (engine g) r) event rest;
           alertsCh := alertsCh g; engine_seen := engine_seen g |}))
  | EngSending [] event rest => Ret (Some (set_eng s (set_eng_at g (EngRules event rest))))
  | EngSending (alert :: unsent) event rest =>
      then_ (ch_send (alertsCh g) alert) (fun c =>
        set_eng s (set_eng_at (set_alertsCh g c) (EngSending unsent event rest)))
  | EngDone => Ret None
  end.

(** A turn of the output loop on what its select has received, which leaves the
    channels as in [s']. *)
Definition select_step (s s' : sys) (c : select_case) : go (option sys) :=
  match out_loop (out s) with
  | Returns _ => Ret None
  | Continues st =>
      Ret (res ← turn zone st c;
           Some (set_out s' {| out_loop := res; out_cases := out_cases (out s) ++ [c] |}))
  end.

Definition out_event_step (s : sys) : go (option sys) :=
  match ch_recv (outputCh s) with
  | RecvBlocks => Ret None
  | RecvValue event c => select_step s (set_outputCh s c) (SelEvent (Some event))
  | RecvClosed => select_step s s (SelEvent None)
  end.

Definition out_alert_step (s : sys) : go (option sys) :=
  match ch_recv (alertsCh (eng s)) with
  | RecvBlocks => Ret None
  | RecvValue alert c => select_step s (set_eng s (set_alertsCh (eng s) c)) (SelAlert (Some alert))
  | RecvClosed => select_step s s (SelAlert None)
  end.

(** The statements of the signal handler: rd.Close, corr.Close, cancel,
    close(engineCh), close(outputCh). *)
Definition signal_step (s : sys) : go (option sys) :=
  match closing s with
  | 0 => Ret (Some (set_closing s 1))
  | 1 => c ← CloseCorrelator (corr (rdr s)); Ret (Some (set_closing (set_corr s c) 2))
  | 2 => Ret (Some (set_closing s 3))
  | 3 => c ← ch_close (engineCh s); Ret (Some (set_closing (set_engineCh s c) 4))
  | 4 => c ← ch_close (outputCh s); Ret (Some (set_closing (set_outputCh s c) 5))
  | _ => Ret None
  end%nat.

(** One step of a running program; [Ret None] when that goroutine cannot move.
    [rd.Read] can fail, and after [rd.Close] does nothing else. *)
Definition live_step (s : sys) (l : label) : go (option sys) :=
  match l with
  | LRead record =>
      match rd_at s, closing s with
      | RdReading, O => Ret (Some (set_rd_at s (RdGot record)))
      | _, _ => Ret None
      end
  | LReadErr =>
      match rd_at s with
      | RdReading => Ret (Some (set_exited s (-1)))
      | RdGot _ => Ret None
      end
  | LHandle =>
      match rd_at s with
      | RdReading => Ret None
      | RdGot record => then_ (handle_record bootTime (rdr s) record) (fun r => set_rd_at (set_rdr s r) RdReading)
      end
  | LForward => forward_step s
  | LFan => fan_step s
  | LEngine => engine_step s
  | LOutEvent => out_event_step s
  | LOutAlert => out_alert_step s
  | LTick now =>
      let c := corr (rdr s) in
      Ret (Some (set_corr s (Cleanup_tick now (map_to_list (pending c)) c)))
  | LDocker ev =>
      if docker_on s then
        res ← monitor_step (resolver s) ev; Ret (Some (set_resolver s (fst res) (snd res)))
      else Ret None
  | LSignal => signal_step s
  end.

Definition sys_step (s : sys) (l : label) : go (option sys) :=
  match exited s with Some _ => Ret None | None => live_step s l end.

(** The program once [main] has started its goroutines on an engine and a
    resolver. *)
Definition sys_start (e : RuleEngine) (r : Resolver) : sys := {|
  rdr := reader_init; rd_at := RdReading; fwd_at := FwdReceiving; fan_at := FanReceiving;
  outputCh := make_chan 1024; engineCh := make_chan 1024; resolver := r; docker_on := true;
  eng := {| engine := e; eng_at := EngReceiving; alertsCh := make_chan 100; engine_seen := [] |};
  out := {| out_loop := Continues out_init; out_cases := [] |};
  closing := 0; exited := None
|}.

Definition sys_init (rs : list Rule) (r : Resolver) : sys := sys_start (NewEngine rs) r.

(** The states a run can reach. *)
Inductive reachable (rs : list Rule) (r : Resolver) : sys -> Prop :=
| reach_init : reachable rs r (sys_init rs r)
| reach_step s l s' :
    reachable rs r s -> sys_step s l = Ret (Some s') -> reachable rs r s'.

(** ** What the consumers receive *)

(** The event is enriched and passes the filter. *)
Definition passes (e : Event) : Prop :=
  exists src, SrcContainer e = Some src /\ filtered filterPrefixArg src (DstContainer e) = false.

Definition fan_in_flight (f : fan_state) : list Event :=
  match f with FanEngine e => [e] | _ => [] end.

(** What the fan-out holds is enriched from [FanOutput] on. *)
Definition fan_ok (f : fan_state) : Prop :=
  match f with FanOutput e => passes e | _ => True end.

(** The events and the alerts that the output loop has received. *)
Definition case_event (c : select_case) : option Event :=
  match c with SelEvent ev => ev | SelAlert _ => None end.
Definition case_alert (c : select_case) : option Alert :=
  match c with SelEvent _ => None | SelAlert al => al end.
Definition out_seen (s : sys) : list Event := omap case_event (out_cases (out s)).
Definition alerts_seen (s : sys) : list Alert := omap case_alert (out_cases (out s)).

(** The alerts raised and not yet sent. *)
Definition unsent_alerts (g : eng_state) : list Alert :=
  match g with EngSending unsent _ _ => unsent | _ => [] end.

(** The event being processed and the rules left for it. *)
Definition eng_work (g : eng_state) : option (Event * list Rule) :=
  match g with
  | EngRules e rest | EngSending _ e rest => Some (e, rest)
  | EngReceiving | EngDone => None
  end.

(** The engine once it has finished the event in hand. *)
Definition eng_finish (g : eng_side) : go RuleEngine :=
  match eng_work (eng_at g) with
  | Some (e, rest) => process_rules (engine g) rest e
  | None => Ret (engine g)
  end.

Record eng_inv (rs : list Rule) (g : eng_side) : Prop := {
  ei_loop : eng_finish g = ProcessLoop (NewEngine rs) (engine_seen g);
  ei_rules : rules (engine g) = rs;
  ei_trackers : trackers (sequences (engine g)) = None;
  ei_work : forall e rest, eng_work (eng_at g) = Some (e, rest) ->
              e ∈ engine_seen g /\ exists before, rs = before ++ rest
}.

Record sys_inv (rs : list Rule) (s : sys) : Prop := {
  si_chans : chan_ok (outputCh s) /\ chan_ok (engineCh s) /\ chan_ok (alertsCh (eng s));
  si_same : out_seen s ++ ch_buf (outputCh s) =
            engine_seen (eng s) ++ ch_buf (engineCh s) ++ fan_in_flight (fan_at s);
  si_passes : Forall passes (out_seen s ++ ch_buf (outputCh s));
  si_fan : fan_ok (fan_at s);
  si_engine : eng_inv rs (eng s);
  si_alerts : alerts (engine (eng s)) =
              alerts_seen s ++ ch_buf (alertsCh (eng s)) ++ unsent_alerts (eng_at (eng s));
  si_out : OutputLoop zone out_init (out_cases (out s)) = Some (out_loop (out s))
}.

Lemma passes_container e : passes e -> is_Some (SrcContainer e).
Proof. intros (src & -> & _). by eexists. Qed.

(** Every event the engine has received has a source container. *)
Lemma engine_seen_containers rs s :
  sys_inv rs s -> Forall (fun e => is_Some (SrcContainer e)) (engine_seen (eng s)).
Proof.
  intros [_ Hsame Hpass _ _ _ _]. rewrite Hsame in Hpass. apply Forall_app in Hpass as [H _].
  eapply Forall_impl; [exact H|]. apply passes_container.
Qed.

Lemma ProcessLoop_snoc es e : forall r,
  ProcessLoop r (es ++ [e]) = (r' ← ProcessLoop r es; ProcessEvent r' e).
Proof.
  induction es as [|e' es IH]; intros r; simpl.
  - by destruct (ProcessEvent r e).
  - destruct (ProcessEvent r e'); simpl; [apply IH|reflexivity].
Qed.

Lemma OutputLoop_snoc cs c : forall st,
  OutputLoop zone st (cs ++ [c]) =
  match OutputLoop zone st cs with Some (Continues st') => turn zone st' c | other => other end.
Proof.
  induction cs as [|c' cs IH]; intros st; cbn [OutputLoop app].
  - by destruct (turn zone st c) as [[]|].
  - destruct (turn zone st c') as [[st'|st']|]; [apply IH|reflexivity..].
Qed.

Lemma then_inv {A} (m : go (option A)) k s' :
  then_ m k = Ret (Some s') -> exists x, m = Ret (Some x) /\ s' = k x.
Proof.
  intros ([x|] & Hm & H)%go_bind_Ret_inv; [|discriminate]. injection H as <-. eauto.
Qed.

Lemma select_step_inv s s' c s'' :
  select_step s s' c = Ret (Some s'') ->
  exists st res, out_loop (out s) = Continues st /\ turn zone st c = Some res /\
    s'' = set_out s' {| out_loop := res; out_cases := out_cases (out s) ++ [c] |}.
Proof.
  unfold select_step. destruct (out_loop (out s)) as [st|st]; [|discriminate].
  destruct (turn zone st c) as [res|] eqn:Ht; intros [= <-]. by exists st, res.
Qed.

(** The rules of an engine and the tracker map do not change in a rule. *)
Lemma process_rule_keeps r ru e r' :
  process_rule r ru e = Ret r' -> trackers (sequences r) = None -> is_Some (SrcContainer e) ->
  rules r' = rules r /\ trackers (sequences r') = None /\ alerts r' = alerts r ++ raised r r'.
Proof.
  intros H Ht Hc. destruct (process_rule_grows _ _ _ _ H) as [Hr (new & Ha & _)].
  split; [exact Hr|]. split.
  - pose proof (process_rule_nil r ru e Ht Hc) as Hn. rewrite H in Hn.
    destruct (matches_step e ru); [discriminate|]. by destruct Hn as (r1 & [= ->] & ?).
  - unfold raised. by rewrite Ha, drop_app_length.
Qed.

(** The fan-out keeps the invariant. *)
Lemma fan_step_inv rs s s' : sys_inv rs s -> fan_step s = Ret (Some s') -> sys_inv rs s'.
Proof.
  intros [(Ho & He & Ha) Hsame Hpass Hfan Heng Hal Hout]. unfold fan_step.
  destruct (fan_at s) eqn:Ef; simpl in *.
  - destruct (ch_recv (eventsCh (rdr s))); [discriminate|..]; intros [= <-];
      by constructor.
  - destruct (Resolve _ _); intros [= <-]; by constructor.
  - destruct (filtered _ _ _) eqn:Hf; intros [= <-]; constructor; try done. by eexists.
  - intros (c & Hc & ->)%then_inv. apply ch_send_ok in Hc as (Hok & Hb & _); [|exact Ho].
    constructor; try done; unfold out_seen in *; simpl.
    + by rewrite Hb, app_assoc, Hsame, app_nil_r, app_assoc.
    + rewrite Hb, app_assoc. apply Forall_app. by split; [|constructor].
  - intros (c & Hc & ->)%then_inv. apply ch_send_ok in Hc as (Hok & Hb & _); [|exact He].
    constructor; try done; unfold out_seen in *; simpl. by rewrite Hb, app_nil_r.
  - discriminate.
Qed.

(** Between two statements that neither receive nor raise anything. *)
Lemma eng_inv_at rs g x :
  eng_inv rs g -> eng_work x = eng_work (eng_at g) \/
    eng_work x = None /\ (forall e rest, eng_work (eng_at g) = Some (e, rest) -> rest = []) ->
  forall c, eng_inv rs {| engine := engine g; eng_at := x; alertsCh := c; engine_seen := engine_seen g |}.
Proof.
  intros [Hloop Hrules Htr Hwork] Hx c. unfold eng_finish in Hloop.
  constructor; [|done..|]; unfold eng_finish; simpl; destruct Hx as [->|[-> Hx]]; try done.
  destruct (eng_work (eng_at g)) as [[e rest]|]; [|done]. by rewrite (Hx e rest) in Hloop.
Qed.

Lemma engine_step_inv rs s s' : sys_inv rs s -> engine_step s = Ret (Some s') -> sys_inv rs s'.
Proof.
  intros Hi. pose proof (engine_seen_containers rs s Hi) as Hcs.
  destruct Hi as [(Ho & He & Ha) Hsame Hpass Hfan Heng Hal Hout].
  pose proof Heng as [Hloop Hrules Htr Hwork]. unfold engine_step.
  destruct (eng_at (eng s)) as [|e [|ru rest]|[|a unsent] e rest|] eqn:Eg; simpl in Hal.
  - destruct (ch_recv (engineCh s)) as [| |e c] eqn:Hr; [discriminate|intros [= <-]..].
    + constructor; try done. apply (eng_inv_at _ _ _ Heng). left. by rewrite Eg.
    + apply ch_recv_value in Hr as [Hb Hok]. rewrite Hb in Hsame.
      constructor; simpl; auto.
      * unfold out_seen in *. simpl. by rewrite Hsame, <- app_assoc.
      * unfold eng_finish in Hloop. rewrite Eg in Hloop. simpl in Hloop. constructor; simpl; try done.
        -- unfold eng_finish. simpl. by rewrite ProcessLoop_snoc, <- Hloop.
        -- intros e' rest [= <- <-]. split; [apply elem_of_app; right; by left|]. by exists [].
  - intros [= <-]. constructor; try done. apply (eng_inv_at _ _ _ Heng). right.
    rewrite Eg. split; [done|]. by intros ? ? [= _ <-].
  - intros (r & Hr & H)%go_bind_Ret_inv. injection H as <-.
    destruct (Hwork e (ru :: rest)) as [Hin [before Hbefore]]; [done|].
    rewrite Forall_forall in Hcs.
    destruct (process_rule_keeps _ _ _ _ Hr Htr (Hcs e Hin)) as (Hr1 & Hr2 & Hr3).
    constructor; simpl; auto.
    + constructor; simpl; [|congruence|done|].
      * unfold eng_finish in *. rewrite Eg in Hloop. simpl in *. by rewrite Hr in Hloop.
      * intros e' rest' [= <- <-]. split; [done|]. exists (before ++ [ru]). by rewrite <- app_assoc.
    + by rewrite Hr3, Hal, app_nil_r, <- app_assoc.
  - intros [= <-]. constructor; try done. apply (eng_inv_at _ _ _ Heng). left. by rewrite Eg.
  - intros (c & Hc & ->)%then_inv. apply ch_send_ok in Hc as (Hok & Hb & _); [|exact Ha].
    constructor; try done; simpl.
    + apply (eng_inv_at _ _ _ Heng). left. by rewrite Eg.
    + unfold alerts_seen in *. simpl. by rewrite Hal, Hb, <- app_assoc.
  - discriminate.
Qed.

Lemma out_event_step_inv rs s s' : sys_inv rs s -> out_event_step s = Ret (Some s') -> sys_inv rs s'.
Proof.
  intros [(Ho & He & Ha) Hsame Hpass Hfan Heng Hal Hout]. unfold out_event_step.
  destruct (ch_recv (outputCh s)) as [| |e c] eqn:Hr; [discriminate|..];
    intros (st & res & Hst & Ht & ->)%select_step_inv; rewrite Hst in Hout;
    constructor; simpl; auto; try (by rewrite OutputLoop_snoc, Hout);
    unfold out_seen, alerts_seen in *; simpl; rewrite ?omap_app; simpl; rewrite ?app_nil_r; auto.
  all: apply ch_recv_value in Hr as [Hb Hok]; rewrite Hb in Hsame, Hpass; auto;
    by rewrite <- app_assoc.
Qed.

Lemma out_alert_step_inv rs s s' : sys_inv rs s -> out_alert_step s = Ret (Some s') -> sys_inv rs s'.
Proof.
  intros [(Ho & He & Ha) Hsame Hpass Hfan Heng Hal Hout]. unfold out_alert_step.
  destruct (ch_recv (alertsCh (eng s))) as [| |a c] eqn:Hr; [discriminate|..];
    intros (st & res & Hst & Ht & ->)%select_step_inv; rewrite Hst in Hout;
    constructor; simpl; auto; try (by rewrite OutputLoop_snoc, Hout);
    unfold out_seen, alerts_seen in *; simpl; rewrite ?omap_app; simpl; rewrite ?app_nil_r; auto.
  all: apply ch_recv_value in Hr as [Hb Hok]; auto.
  - by destruct Heng.
  - by rewrite Hal, Hb, <- app_assoc.
Qed.

(** A step that touches neither consumer keeps the invariant. *)
Lemma sys_inv_frame rs s s' :
  outputCh s' = outputCh s -> engineCh s' = engineCh s -> fan_at s' = fan_at s ->
  eng s' = eng s -> out s' = out s -> sys_inv rs s -> sys_inv rs s'.
Proof.
  intros H1 H2 H3 H4 H5 [Hc Hsame Hpass Hfan Heng Hal Hout]. unfold out_seen, alerts_seen in *.
  constructor; unfold out_seen, alerts_seen; rewrite ?H1, ?H2, ?H3, ?H4, ?H5; done.
Qed.

Lemma signal_step_inv rs s s' : sys_inv rs s -> signal_step s = Ret (Some s') -> sys_inv rs s'.
Proof.
  intros Hi. unfold signal_step.
  destruct (closing s) as [|[|[|[|[|n]]]]]; [| | | | |discriminate].
  1,3: intros [= <-]; by apply (sys_inv_frame rs s).
  - intros H. go_inv H. by apply (sys_inv_frame rs s).
  - intros (c & Hc & H)%go_bind_Ret_inv. injection H as <-. unfold ch_close in Hc.
    destruct (ch_closed (engineCh s)); [discriminate|]. injection Hc as <-.
    destruct Hi as [(Ho & He & Ha) Hsame Hpass Hfan Heng Hal Hout]. by constructor.
  - intros (c & Hc & H)%go_bind_Ret_inv. injection H as <-. unfold ch_close in Hc.
    destruct (ch_closed (outputCh s)); [discriminate|]. injection Hc as <-.
    destruct Hi as [(Ho & He & Ha) Hsame Hpass Hfan Heng Hal Hout]. by constructor.
Qed.

(** A step of the reader, the forwarder, the ticker or the Docker monitor
    touches neither consumer. *)
Lemma feeder_frame s l s' :
  match l with LRead _ | LReadErr | LHandle | LForward | LTick _ | LDocker _ => True | _ => False end ->
  live_step s l = Ret (Some s') ->
  outputCh s' = outputCh s /\ engineCh s' = engineCh s /\ fan_at s' = fan_at s /\
  eng s' = eng s /\ out s' = out s.
Proof.
  destruct l; try done; intros _; cbn [live_step].
  - destruct (rd_at s), (closing s) eqn:E; try discriminate. by intros [= <-].
  - destruct (rd_at s); [|discriminate]. by intros [= <-].
  - destruct (rd_at s); [discriminate|]. by intros (r & _ & ->)%then_inv.
  - unfold forward_step. destruct (fwd_at s); [destruct (ch_recv _); [discriminate|..]| |discriminate].
    + intros H. by go_inv H.
    + by intros [= <-].
    + by intros (c & _ & ->)%then_inv.
  - by intros [= <-].
  - destruct (docker_on s); [|discriminate]. intros H. by go_inv H.
Qed.

Lemma sys_step_live s l s' :
  sys_step s l = Ret (Some s') -> exited s = None /\ live_step s l = Ret (Some s').
Proof. unfold sys_step. by destruct (exited s). Qed.

Lemma sys_step_inv rs s l s' : sys_inv rs s -> sys_step s l = Ret (Some s') -> sys_inv rs s'.
Proof.
  intros Hi [_ H]%sys_step_live.
  destruct l; try (apply feeder_frame in H as (? & ? & ? & ? & ?);
                   [by apply (sys_inv_frame rs s)|exact I]).
  - by apply (fan_step_inv rs s).
  - by apply (engine_step_inv rs s).
  - by apply (out_event_step_inv rs s).
  - by apply (out_alert_step_inv rs s).
  - by apply (signal_step_inv rs s).
Qed.

Lemma reachable_inv rs r s : reachable rs r s -> sys_inv rs s.
Proof.
  induction 1 as [|s l s' _ IH Hstep]; [|by apply (sys_step_inv rs s l)].
  constructor; try done. by split_and!; apply make_chan_ok.
Qed.

(** (C13) Whatever the goroutines' interleaving: the output loop and the engine are
    sent the same events in the same order (the engine's may be one behind);
    every one of them has a source container and passes the prefix filter; the
    engine, once it has finished the event in hand, is in the state that
    processing the events received gives; the alerts raised are those printed,
    in the channel and about to be sent, in this order; and the output is the
    text of what the loop has received. *)
Theorem consumers_agree (rs : list Rule) (r : Resolver) (s : sys) :
  reachable rs r s ->
  out_seen s ++ ch_buf (outputCh s) =
    engine_seen (eng s) ++ ch_buf (engineCh s) ++ fan_in_flight (fan_at s) /\
  Forall passes (out_seen s ++ ch_buf (outputCh s)) /\
  eng_finish (eng s) = ProcessLoop (NewEngine rs) (engine_seen (eng s)) /\
  alerts (engine (eng s)) =
    alerts_seen s ++ ch_buf (alertsCh (eng s)) ++ unsent_alerts (eng_at (eng s)) /\
  OutputLoop zone out_init (out_cases (out s)) = Some (out_loop (out s)).
Proof. intros H. destruct (reachable_inv rs r s H) as [_ ? ? _ [? _ _ _] ? ?]. done. Qed.

Lemma eng_finish_grows g r : eng_finish g = Ret r -> exists n, grows n (engine g) r.
Proof.
  unfold eng_finish. destruct (eng_work (eng_at g)) as [[e rest]|].
  - by intros H%process_rules_grows.
  - intros [= <-]. exists O. by apply grows_refl.
Qed.

(** Whatever the order of the events' times. *)
Lemma printed_alerts_any (rs : list Rule) (r : Resolver) (s : sys) (rule : Rule) :
  reachable rs r s ->
  plain_rules rs -> NoDup (map R_Name rs) -> rule ∈ rs ->
  exists later,
    alerts_with retained rule [] (engine_seen (eng s)) =
      about rule (alerts_seen s) ++ about rule (ch_buf (alertsCh (eng s))) ++
      about rule (unsent_alerts (eng_at (eng s))) ++ later /\
    (eng_work (eng_at (eng s)) = None -> later = []).
Proof.
  intros Hre Hp Hnd Hin. pose proof (reachable_inv rs r s Hre) as Hi.
  pose proof (engine_seen_containers rs s Hi) as Hcs.
  destruct Hi as [_ _ _ _ [Hloop _ _ _] Hal _].
  destruct (engine_alerts rs (engine_seen (eng s)) rule) as (r' & Hr & Ha); auto.
  rewrite Hr in Hloop. rewrite <- Ha.
  destruct (eng_finish_grows _ _ Hloop) as [n [_ (new & Hnew & _)]].
  exists (about rule new). rewrite Hnew, Hal, !about_app, <- !app_assoc. split; [done|].
  intros Hw. unfold eng_finish in Hloop. rewrite Hw in Hloop. injection Hloop as Heq.
  rewrite Heq in Hnew. rewrite <- (app_nil_r (alerts r')) in Hnew at 1. by apply app_inv_head in Hnew as <-.
Qed.

Lemma printed_alerts (rs : list Rule) (r : Resolver) (s : sys) (rule : Rule) :
  reachable rs r s ->
  plain_rules rs -> NoDup (map R_Name rs) -> rule ∈ rs ->
  StronglySorted Z.le (match_times rule (engine_seen (eng s))) ->
  exists later,
    rule_alerts rule [] (engine_seen (eng s)) =
      about rule (alerts_seen s) ++ about rule (ch_buf (alertsCh (eng s))) ++
      about rule (unsent_alerts (eng_at (eng s))) ++ later /\
    (eng_work (eng_at (eng s)) = None -> later = []).
Proof.
  intros Hre Hp Hnd Hin Hsort. unfold rule_alerts. rewrite <- alerts_sorted by done.
  by apply (printed_alerts_any rs r).
Qed.

(** (C16) The engine's specification holds of the running program: with rules of
    distinct colon-free names and no sequences, the alerts of a rule that have
    been printed are a prefix of those that its matches call for, and the rest
    are in the channel, in hand, or still to be raised by the event in hand.
    When the rule's matches come in time order they count in a sliding window. *)
Theorem alerts_delivered (rs : list Rule) (r : Resolver) (s : sys) (rule : Rule) :
  reachable rs r s ->
  plain_rules rs -> NoDup (map R_Name rs) -> rule ∈ rs ->
  (exists later,
    alerts_with retained rule [] (engine_seen (eng s)) =
      about rule (alerts_seen s) ++ about rule (ch_buf (alertsCh (eng s))) ++
      about rule (unsent_alerts (eng_at (eng s))) ++ later /\
    (eng_work (eng_at (eng s)) = None -> later = [])) /\
  (StronglySorted Z.le (match_times rule (engine_seen (eng s))) ->
   alerts_with retained rule [] (engine_seen (eng s)) = rule_alerts rule [] (engine_seen (eng s))).
Proof.
  intros Hre Hp Hnd Hin. split; [by apply (printed_alerts_any rs r)|].
  intros Hs. by apply alerts_sorted.
Qed.

(** ** Panics *)

(** Before the signal handler has run, every channel is open. *)
Definition all_open (s : sys) : Prop :=
  ch_closed (output (corr (rdr s))) = false /\ ch_closed (eventsCh (rdr s)) = false /\
  ch_closed (outputCh s) = false /\ ch_closed (engineCh s) = false /\
  ch_closed (alertsCh (eng s)) = false.

Definition reader_open (r : reader) : Prop :=
  ch_closed (output (corr r)) = false /\ ch_closed (eventsCh r) = false.

Lemma handle_record_open st rec : reader_open st ->
  exists r, handle_record bootTime st rec = Ret r /\ forall st', r = Some st' -> reader_open st'.
Proof.
  intros [Hc He]. unfold handle_record. destruct (ParseEvent rec) as [m|].
  2:{ eexists. split; [done|]. by intros st' [= <-]. }
  destruct (_ =? _); [eexists; split; [done|]; by intros st' [= <-]|].
  destruct (_ =? _).
  - unfold HandleAccept. destruct (_ !! _) as [entry|]; simpl.
    2:{ eexists. split; [done|]. by intros st' [= <-]. }
    edestruct (ch_send_open (output (corr st))) as (r & -> & Hr); [exact Hc|]. simpl.
    destruct r as [o|]; eexists; (split; [done|]); intros st' [= <-]. by split; [apply Hr|].
  - unfold send_event. destruct (_ =? _); [|destruct (_ =? _); [|eexists; split; [done|]; by intros st' [= <-]]].
    all: edestruct (ch_send_open (eventsCh st)) as (r & -> & Hr); [exact He|]; simpl;
      eexists; (split; [done|]); intros st' H; destruct r as [o|]; [|done];
      injection H as <-; by split; [|apply Hr].
Qed.

(** What a step must give where it may not panic: the channels stay open. *)
Definition stays_open (res : go (option sys)) : Prop :=
  match res with
  | Ret (Some s') => closing s' = 0%nat -> all_open s'
  | Ret None => True
  | Panic _ => False
  end.

Lemma fan_step_open s : all_open s -> stays_open (fan_step s).
Proof.
  intros (Hc & He & Ho & Hg & Ha). unfold stays_open, all_open, fan_step, then_.
  destruct (fan_at s) as [|e|e src|e|e|]; [| | | | |done].
  - pose proof (ch_recv_open _ He) as H. by destruct (ch_recv _).
  - by destruct (Resolve _ _).
  - by destruct (filtered _ _ _).
  - destruct (ch_send_open _ e Ho) as ([c|] & -> & H); simpl; [|done].
    intros _. specialize (H c eq_refl). done.
  - destruct (ch_send_open _ e Hg) as ([c|] & -> & H); simpl; [|done].
    intros _. specialize (H c eq_refl). done.
Qed.

(** The engine panics in a rule only. *)
Lemma engine_step_open s :
  all_open s ->
  match engine_step s with
  | Panic p => exists e ru rest, eng_at (eng s) = EngRules e (ru :: rest) /\
                 process_rule (engine (eng s)) ru e = Panic p
  | res => stays_open res
  end.
Proof.
  intros (Hc & He & Ho & Hg & Ha). unfold stays_open, all_open, engine_step, then_.
  destruct (eng_at (eng s)) as [|e [|ru rest]|[|a unsent] e rest|]; simpl; try done.
  - pose proof (ch_recv_open _ Hg) as H. by destruct (ch_recv _).
  - destruct (process_rule _ _ _) eqn:Hp; simpl; [done|]. by exists e, ru, rest.
  - destruct (ch_send_open _ a Ha) as ([c|] & -> & H); simpl; [|done].
    intros _. specialize (H c eq_refl). done.
Qed.

Lemma select_step_open s s' c : all_open s' -> stays_open (select_step s s' c).
Proof.
  intros H. unfold stays_open, select_step. destruct (out_loop (out s)); [|done].
  destruct (turn zone _ c); simpl; [|done]. intros _. exact H.
Qed.

Lemma out_steps_open s : all_open s -> stays_open (out_event_step s) /\ stays_open (out_alert_step s).
Proof.
  intros (Hc & He & Ho & Hg & Ha). unfold out_event_step, out_alert_step. split.
  - pose proof (ch_recv_open _ Ho) as H. destruct (ch_recv _); [done|done|]. by apply select_step_open.
  - pose proof (ch_recv_open _ Ha) as H. destruct (ch_recv _); [done|done|]. by apply select_step_open.
Qed.

(** A step before the first signal: it keeps the channels open and panics only
    in a rule of the engine or in the Docker monitor. *)
Lemma live_step_open s l :
  all_open s -> closing s = 0%nat ->
  match live_step s l with
  | Panic p =>
      (exists ev, l = LDocker ev) \/
      (l = LEngine /\ exists e ru rest, eng_at (eng s) = EngRules e (ru :: rest) /\
         process_rule (engine (eng s)) ru e = Panic p)
  | res => stays_open res
  end.
Proof.
  intros Hopen Hz. pose proof Hopen as (Hc & He & Ho & Hg & Ha).
  destruct l; cbn [live_step].
  - destruct (rd_at s); [|done]. rewrite Hz. done.
  - by destruct (rd_at s).
  - destruct (rd_at s) as [|rec]; [done|]. unfold then_.
    destruct (handle_record_open (rdr s) rec (conj Hc He)) as ([r|] & -> & Hr); simpl; [|done].
    intros _. destruct (Hr r eq_refl). done.
  - unfold forward_step, then_, stays_open, all_open. destruct (fwd_at s) as [|e|]; [| |done].
    + pose proof (ch_recv_open _ Hc) as H. by destruct (ch_recv _).
    + destruct (ch_send_open _ e He) as ([c|] & -> & H); simpl; [|done].
      intros _. specialize (H c eq_refl). done.
  - pose proof (fan_step_open s Hopen) as H. by destruct (fan_step s).
  - pose proof (engine_step_open s Hopen) as H. destruct (engine_step s); [done|]. by right.
  - destruct (out_steps_open s Hopen) as [H _]. by destruct (out_event_step s).
  - destruct (out_steps_open s Hopen) as [_ H]. by destruct (out_alert_step s).
  - done.
  - destruct (docker_on s); [|done]. destruct (monitor_step _ _); simpl; [done|]. left. by eexists.
  - unfold signal_step. by rewrite Hz.
Qed.

(** Only the signal handler and a failed read touch the program's end. *)
Lemma live_step_control s l s' :
  live_step s l = Ret (Some s') ->
  match l with
  | LSignal => closing s' = S (closing s) /\ exited s' = exited s
  | LReadErr => closing s' = closing s
  | _ => closing s' = closing s /\ exited s' = exited s
  end.
Proof.
  destruct l; cbn [live_step].
  - destruct (rd_at s), (closing s) eqn:E; try discriminate. by intros [= <-].
  - destruct (rd_at s); [|discriminate]. by intros [= <-].
  - destruct (rd_at s); [discriminate|]. by intros (r & _ & ->)%then_inv.
  - unfold forward_step. destruct (fwd_at s); [destruct (ch_recv _); [discriminate|..]| |discriminate].
    + intros H. by go_inv H.
    + by intros [= <-].
    + by intros (c & _ & ->)%then_inv.
  - unfold fan_step. destruct (fan_at s); [| | | | |discriminate].
    + destruct (ch_recv _); [discriminate|..]; by intros [= <-].
    + destruct (Resolve _ _); by intros [= <-].
    + destruct (filtered _ _ _); by intros [= <-].
    + by intros (c & _ & ->)%then_inv.
    + by intros (c & _ & ->)%then_inv.
  - unfold engine_step. destruct (eng_at (eng s)) as [|e [|ru rest]|[|a unsent] e rest|].
    + destruct (ch_recv _); [discriminate|..]; by intros [= <-].
    + by intros [= <-].
    + intros H. by go_inv H.
    + by intros [= <-].
    + by intros (c & _ & ->)%then_inv.
    + discriminate.
  - unfold out_event_step. destruct (ch_recv _); [discriminate|..];
      by intros (st & res & _ & _ & ->)%select_step_inv.
  - unfold out_alert_step. destruct (ch_recv _); [discriminate|..];
      by intros (st & res & _ & _ & ->)%select_step_inv.
  - by intros [= <-].
  - destruct (docker_on s); [|discriminate]. intros H. by go_inv H.
  - unfold signal_step. destruct (closing s) as [|[|[|[|[|n]]]]] eqn:E; [| | | | |discriminate].
    1,3: by intros [= <-].
    all: intros H; by go_inv H.
Qed.

Lemma live_step_closing s l s' : live_step s l = Ret (Some s') -> (closing s <= closing s')%nat.
Proof. intros H%live_step_control. destruct l; lia. Qed.

Lemma reachable_open rs r s : reachable rs r s -> closing s = 0%nat -> all_open s.
Proof.
  induction 1 as [|s l s' _ IH Hstep]; intros Hz; [done|].
  apply sys_step_live in Hstep as [_ Hstep].
  pose proof (live_step_closing _ _ _ Hstep). specialize (IH ltac:(lia)).
  pose proof (live_step_open s l IH ltac:(lia)) as Ho. rewrite Hstep in Ho. by apply Ho.
Qed.

(** In a reachable state a rule panics only by the nil tracker map. *)
Lemma reachable_rule_panics rs r s e ru rest p :
  reachable rs r s -> eng_at (eng s) = EngRules e (ru :: rest) ->
  process_rule (engine (eng s)) ru e = Panic p ->
  p = NilMapWrite /\ ru ∈ rs /\ matches_step e ru = true.
Proof.
  intros Hre Heq Hp. pose proof (reachable_inv rs r s Hre) as Hi.
  pose proof (engine_seen_containers rs s Hi) as Hcs.
  destruct Hi as [_ _ _ _ [_ _ Htr Hwork] _ _].
  destruct (Hwork e (ru :: rest)) as [Hin [before ->]]; [by rewrite Heq|].
  rewrite Forall_forall in Hcs. pose proof (process_rule_nil _ ru e Htr (Hcs e Hin)) as Hn.
  destruct (matches_step e ru).
  - rewrite Hn in Hp. injection Hp as <-. split_and!; [done| |done].
    apply elem_of_app. right. by left.
  - destruct Hn as (r' & Hr' & _). by rewrite Hr' in Hp.
Qed.

Lemma panics_before_signal (rs : list Rule) (r : Resolver) (s : sys) (l : label) (p : panic) :
  reachable rs r s -> closing s = 0%nat -> sys_step s l = Panic p ->
  (exists ev, l = LDocker ev) \/
  (l = LEngine /\ p = NilMapWrite /\
   exists e ru rest, eng_at (eng s) = EngRules e (ru :: rest) /\ ru ∈ rs /\ matches_step e ru = true).
Proof.
  intros Hre Hz Hp. unfold sys_step in Hp. destruct (exited s); [discriminate|].
  pose proof (live_step_open s l (reachable_open rs r s Hre Hz) Hz) as Ho. rewrite Hp in Ho.
  destruct Ho as [Ho|(-> & e & ru & rest & Heq & Hr)]; [by left|]. right. split; [done|].
  destruct (reachable_rule_panics rs r s e ru rest p Hre Heq Hr) as (-> & Hin & Hm).
  split; [done|]. by exists e, ru, rest.
Qed.

(** (C14) Until the program is told to stop, no interleaving makes it panic, except
    by a failure inside the Docker monitor, or by the engine's nil tracker map
    when the event in hand matches a step of the sequence of the rule at hand. *)
Theorem no_panic_before_signal (rs : list Rule) (r : Resolver) (s : sys) (l : label) (p : panic) :
  reachable rs r s -> closing s = 0%nat -> sys_step s l = Panic p ->
  (exists ev, l = LDocker ev) \/
  (l = LEngine /\ p = NilMapWrite /\
   exists e ru rest, eng_at (eng s) = EngRules e (ru :: rest) /\ ru ∈ rs /\ matches_step e ru = true).
Proof.
  apply panics_before_signal.
Qed.
End System.

(** Take apart a step [H : live_step s l = Ret (Some s')] into the cases in which
    its goroutine moves, [s'] being what it leaves. *)
Ltac step_inv H :=
  first
  [ discriminate H
  | apply then_inv in H as (? & ? & ->)
  | apply select_step_inv in H as (? & ? & ? & ? & ->)
  | injection H as <-
  | apply go_bind_Ret_inv in H as (? & ? & H); step_inv H
  | match type of H with context [match ?x with _ => _ end] => destruct x eqn:?; step_inv H end ].
Ltac live_step_inv H :=
  cbn [live_step] in H;
  unfold forward_step, fan_step, engine_step, out_event_step, out_alert_step, signal_step in H;
  step_inv H.

(** ** Delivery *)

(** The goroutines scheduled as [ls] says, until one cannot move. *)
Fixpoint run (bootTime : Z) (prefix : string) (zone : Z) (s : sys) (ls : list label) : go (option sys) :=
  match ls with
  | [] => Ret (Some s)
  | l :: ls =>
      match sys_step bootTime prefix zone s l with
      | Ret (Some s) => run bootTime prefix zone s ls
      | other => other
      end
  end.

Section Delivery.
Variables (bootTime : Z) (filterPrefixArg : string) (zone : Z).

(** One open record from the ring buffer to both consumers. *)
Definition delivery (record : list byte) : list label :=
  [LRead record; LHandle; LFan; LFan; LFan; LFan; LFan].

#[local] Opaque handle_record ParseEvent.

Lemma run_cons s l ls s1 :
  sys_step bootTime filterPrefixArg zone s l = Ret (Some s1) ->
  run bootTime filterPrefixArg zone s (l :: ls) = run bootTime filterPrefixArg zone s1 ls.
Proof. intros H. simpl. by rewrite H. Qed.

(** When the reader and the fan-out are waiting and there is room, the seven
    steps of the reader and the fan-out that a file or exec record takes reach
    both channels: the event gets there with its containers, exactly when its
    source is a known container and the filter lets it pass. *)
Theorem record_is_delivered (s : sys) (record : list byte) (event : Event)
    (srcInfo : ContainerInfo) :
  exited s = None -> rd_at s = RdReading -> fan_at s = FanReceiving -> closing s = 0%nat ->
  ch_buf (eventsCh (rdr s)) = [] -> room 1 (eventsCh (rdr s)) ->
  room 1 (outputCh s) -> room 1 (engineCh s) ->
  handle_record bootTime (rdr s) record = send_event (rdr s) event ->
  Resolve (resolver s) (SrcCgroupID event) = Some srcInfo ->
  filtered filterPrefixArg srcInfo (resolve_dst (resolver s) event) = false ->
  let event' := with_containers event srcInfo (resolve_dst (resolver s) event) in
  exists s', run bootTime filterPrefixArg zone s (delivery record) = Ret (Some s') /\
    ch_buf (outputCh s') = ch_buf (outputCh s) ++ [event'] /\
    ch_buf (engineCh s') = ch_buf (engineCh s) ++ [event'] /\
    rd_at s' = RdReading /\ fan_at s' = FanReceiving /\ ch_buf (eventsCh (rdr s')) = [].
Proof.
  destruct s as [[c ec] ra fw fa oc gc res don g o cl ex]. cbn [rdr rd_at fan_at outputCh engineCh
    resolver closing exited eventsCh].
  intros -> -> -> -> Hemp Hre Hro Hrg Hrec Hsrc Hfil. set (event' := with_containers _ _ _).
  destruct (room_send 0 _ event Hre) as (ec' & Hec & _ & Hecb). rewrite Hemp in Hecb.
  destruct (room_send 0 _ event' Hro) as (oc' & Hoc & _ & Hocb).
  destruct (room_send 0 _ event' Hrg) as (gc' & Hgc & _ & Hgcb).
  unfold send_event in Hrec. cbn [eventsCh corr] in Hrec. rewrite Hec in Hrec.
  unfold delivery. eexists.
  erewrite run_cons by reflexivity.
  erewrite run_cons by (cbn; rewrite Hrec; reflexivity).
  erewrite run_cons by (unfold sys_step; cbn; unfold fan_step; cbn; unfold ch_recv; rewrite Hecb; reflexivity).
  erewrite run_cons by (unfold sys_step; cbn; unfold fan_step; cbn; rewrite Hsrc; reflexivity).
  erewrite run_cons by (unfold sys_step; cbn; unfold fan_step; cbn; rewrite Hfil; reflexivity).
  erewrite run_cons by (unfold sys_step; cbn; unfold fan_step; cbn; fold event'; rewrite Hoc; reflexivity).
  erewrite run_cons by (unfold sys_step; cbn; unfold fan_step; cbn; rewrite Hgc; reflexivity).
  split; [reflexivity|]. cbn. by rewrite Hocb, Hgcb.
Qed.
#[local] Transparent handle_record ParseEvent.
End Delivery.

(** ** Concrete runs *)

Lemma run_reachable bootTime prefix zone rs r ls : forall s s',
  reachable bootTime prefix zone rs r s -> run bootTime prefix zone s ls = Ret (Some s') ->
  reachable bootTime prefix zone rs r s'.
Proof.
  induction ls as [|l ls IH]; intros s s' Hs; simpl; [by intros [= <-]|].
  destruct (sys_step bootTime prefix zone s l) as [[s1|]|p] eqn:E; try discriminate.
  intros H. apply (IH s1 s'); [|exact H]. by apply (reach_step _ _ _ _ _ s l).
Qed.

(** A file_open record of cgroup 77 for "/a", flags 0, at 5 s after boot. *)
Definition demo_record : list byte :=
  le_encode 4 7 ++ replicate 4 NUL ++ le_encode 8 77 ++ le_encode 8 5000000000 ++ le_encode 1 4 ++
  replicate 33 NUL ++ bytes_of "/a" ++ replicate 280 NUL.

Definition demo_parsed : MonitorEvent := {|
  Pid := 0; Pad1 := []; CgroupId := 0; EvTimestamp := 0; EvType := 0; Pad2 := []; EvSrcAddr := 0;
  EvSrcPort := 0; Pad3 := []; EvDstAddr := 0; EvDstPort := 0; Comm := []; Filepath := []; Pad4 := [];
  Ppid := 0; ParentComm := []; Flags := 0 |}.

Definition demo_resolver : Resolver := {| cache := <[77 := demo_web]> ∅ |}.

(** From the record to the engine's channel. *)
Definition demo_labels : list label :=
  [LRead demo_record; LHandle; LFan; LFan; LFan; LFan].

Definition demo_rules : list Rule :=
  [sample_rule "seq" (threshold_detect 2)
     (Some {| SC_Window := "5s"; SC_GroupBy := []; SC_Steps := [sample_block "/a"] |})].

(** A rule that alerts on every event it matches. *)
Definition each_rule : Rule :=
  sample_rule "each" {| DC_Mode := ""; DC_Count := 0; DC_Window := ""; DC_GroupBy := [] |} None.

(** The state after a run from the start. *)
Definition after (rs : list Rule) (ls : list label) : sys :=
  match run 0 "" 0 (sys_init rs demo_resolver) ls with
  | Ret (Some s) => s
  | _ => sys_init rs demo_resolver
  end.

Lemma after_reachable rs ls : reachable 0 "" 0 rs demo_resolver (after rs ls).
Proof.
  unfold after. destruct (run 0 "" 0 (sys_init rs demo_resolver) ls) as [[s|]|p] eqn:E;
    [|apply reach_init..].
  exact (run_reachable 0 "" 0 rs demo_resolver ls _ s (reach_init _ _ _ _ _) E).
Qed.

Lemma consumers_agree_witness :
  let s := after [each_rule] (demo_labels ++ [LFan; LEngine; LEngine; LOutEvent]) in
  out_seen s ++ ch_buf (outputCh s) =
    engine_seen (eng s) ++ ch_buf (engineCh s) ++ fan_in_flight (fan_at s) /\
  Forall (passes "") (out_seen s ++ ch_buf (outputCh s)) /\
  eng_finish (eng s) = ProcessLoop (NewEngine [each_rule]) (engine_seen (eng s)) /\
  alerts (engine (eng s)) =
    alerts_seen s ++ ch_buf (alertsCh (eng s)) ++ unsent_alerts (eng_at (eng s)) /\
  OutputLoop 0 out_init (out_cases (out s)) = Some (out_loop (out s)).
Proof. intros s. apply (consumers_agree 0 "" 0 [each_rule] demo_resolver s), after_reachable. Defined.

Lemma alerts_delivered_witness :
  let s := after [each_rule] (demo_labels ++ [LFan; LEngine; LEngine; LEngine; LOutAlert]) in
  length (alerts_seen s) = 1%nat /\
  (exists later,
    alerts_with retained each_rule [] (engine_seen (eng s)) =
      about each_rule (alerts_seen s) ++ about each_rule (ch_buf (alertsCh (eng s))) ++
      about each_rule (unsent_alerts (eng_at (eng s))) ++ later /\
    (eng_work (eng_at (eng s)) = None -> later = [])) /\
  (StronglySorted Z.le (match_times each_rule (engine_seen (eng s))) ->
   alerts_with retained each_rule [] (engine_seen (eng s)) =
   rule_alerts each_rule [] (engine_seen (eng s))).
Proof.
  intros s. split; [vm_compute; reflexivity|].
  refine (alerts_delivered 0 "" 0 [each_rule] demo_resolver s each_rule _ _ _ _).
  - apply after_reachable.
  - by apply (bool_decide_unpack _); vm_compute.
  - by apply (bool_decide_unpack _); vm_compute.
  - by left.
Defined.

Lemma no_panic_before_signal_witness :
  let s := after demo_rules (demo_labels ++ [LFan; LEngine]) in
  (exists ev, LEngine = LDocker ev) \/
  (LEngine = LEngine /\ NilMapWrite = NilMapWrite /\
   exists e ru rest, eng_at (eng s) = EngRules e (ru :: rest) /\ ru ∈ demo_rules /\
     matches_step e ru = true).
Proof.
  intros s. refine (no_panic_before_signal 0 "" 0 demo_rules demo_resolver s LEngine NilMapWrite _ _ _).
  - apply after_reachable.
  - vm_compute. reflexivity.
  - vm_compute. reflexivity.
Defined.

(** The signal handler closes the consumers' channels while their sender may be
    about to send: a reachable shutdown in which the fan-out panics. *)
Theorem shutdown_can_panic :
  exists s, reachable 0 "" 0 [] demo_resolver s /\ sys_step 0 "" 0 s LFan = Panic SendOnClosed.
Proof.
  exists (after [] (demo_labels ++ [LSignal; LSignal; LSignal; LSignal])).
  split; [apply after_reachable|]. vm_compute. reflexivity.
Qed.

(** And one in which the reader does, its record being in hand when the
    forwarder, seeing the correlator closed, closes the event channel. *)
Theorem shutdown_can_panic_reader :
  exists s, reachable 0 "" 0 [] demo_resolver s /\ sys_step 0 "" 0 s LHandle = Panic SendOnClosed.
Proof.
  exists (after [] [LRead demo_record; LSignal; LSignal; LForward]).
  split; [apply after_reachable|]. vm_compute. reflexivity.
Qed.

(** A stopped program may leave an alert it has raised unprinted: the reader
    exits as soon as the ring buffer is closed. *)
Theorem shutdown_can_lose_alerts :
  exists s, reachable 0 "" 0 [each_rule] demo_resolver s /\ exited s = Some (-1) /\
    length (ch_buf (alertsCh (eng s))) = 1%nat /\ forall l, sys_step 0 "" 0 s l = Ret None.
Proof.
  exists (after [each_rule] (demo_labels ++ [LFan; LEngine; LEngine; LEngine; LSignal; LReadErr])).
  split; [apply after_reachable|]. split_and!; [vm_compute; reflexivity..|].
  intros l. unfold sys_step. replace (exited _) with (Some (-1)) by (vm_compute; reflexivity). done.
Qed.

Lemma record_is_delivered_witness :
  let s := sys_init [] demo_resolver in
  exists event, handle_record 0 (rdr s) demo_record = send_event (rdr s) event /\
  exists s', run 0 "" 0 s (delivery demo_record) = Ret (Some s') /\
    ch_buf (outputCh s') = [] ++ [with_containers event demo_web None] /\
    ch_buf (engineCh s') = [] ++ [with_containers event demo_web None] /\
    rd_at s' = RdReading /\ fan_at s' = FanReceiving /\ ch_buf (eventsCh (rdr s')) = [].
Proof.
  intros s. exists (file_open_event 0 (default (demo_parsed) (ParseEvent demo_record))).
  assert (H : handle_record 0 (rdr s) demo_record =
    send_event (rdr s) (file_open_event 0 (default demo_parsed (ParseEvent demo_record))))
    by (vm_compute; reflexivity).
  split; [exact H|].
  refine (record_is_delivered 0 "" 0 s demo_record _ demo_web _ _ _ _ _ _ _ _ H _ _);
    first [reflexivity|split; [reflexivity|simpl; lia]|vm_compute; reflexivity].
Defined.
