(* ===== verification/Progress.v ===== *)
(** * Termination and progress of the goroutines

    The steps that need nothing from outside (no record, tick, Docker event or
    signal) end: a measure of the work left bounds them.  And they go on until
    nothing is left: before the signal, without sequence rules, a state in which
    no goroutine can move has every channel empty and every goroutine waiting. *)

From stdpp Require Import relations.
From S2P Require Import Prelude.
From S2P Require Import GoLib.
From S2P Require Import Channel.
From S2P Require Import Core.
From S2P Require Import Correlator.
From S2P Require Import Rule.
From S2P Require Import Engine.
From S2P Require Import Sequence.
From S2P Require Import Output.
From S2P Require Import Resolver.
From S2P Require Import Wire.
From S2P Require Import Main.
From S2P Require Import Pipeline.

Open Scope nat_scope.

(** The labels of the goroutines that wait for nothing but channels. *)
Definition internal_labels : list label := [LHandle; LForward; LFan; LEngine; LOutEvent; LOutAlert].

(** ** The work left *)

(** Steps of the engine and the output loop for the rules left of an event: one
    to apply each rule, one to go on to the next, and two for each alert. *)
Fixpoint rules_work (rest : list Rule) : nat :=
  match rest with
  | [] => 1
  | ru :: rest => 2 + 2 * alert_bound ru + rules_work rest
  end.

(** The work that one event is, from the engine's channel on, and upstream. *)
Definition engine_work (rs : list Rule) : nat := 1 + rules_work rs.
Definition event_work (rs : list Rule) : nat := 6 + engine_work rs.

Definition rd_work (rs : list Rule) (x : rd_state) : nat :=
  match x with RdReading => 0 | RdGot _ => 3 + event_work rs end.

Definition fwd_work (rs : list Rule) (x : fwd_state) : nat :=
  match x with FwdReceiving => 1 | FwdSending _ => 2 + event_work rs | FwdDone => 0 end.

Definition fan_work (rs : list Rule) (x : fan_state) : nat :=
  match x with
  | FanReceiving => 1
  | FanSrc _ => 6 + engine_work rs
  | FanDst _ _ => 5 + engine_work rs
  | FanOutput _ => 4 + engine_work rs
  | FanEngine _ => 2 + engine_work rs
  | FanDone => 0
  end.

Definition eng_at_work (x : eng_state) : nat :=
  match x with
  | EngReceiving => 1
  | EngRules _ rest => 1 + rules_work rest
  | EngSending unsent _ rest => 2 + 2 * length unsent + rules_work rest
  | EngDone => 0
  end.

(** The closed channels that the output loop has not seen. *)
Definition loop_work (x : loop_result) : nat :=
  match x with
  | Continues st => (if eventCh_nil st then 0 else 1) + (if alertCh_nil st then 0 else 1)
  | Returns _ => 0
  end.

Definition work (s : sys) : nat :=
  let rs := rules (engine (eng s)) in
  rd_work rs (rd_at s) +
  (1 + event_work rs + 1) * length (ch_buf (output (corr (rdr s)))) +
  fwd_work rs (fwd_at s) +
  event_work rs * length (ch_buf (eventsCh (rdr s))) +
  fan_work rs (fan_at s) +
  length (ch_buf (outputCh s)) +
  engine_work rs * length (ch_buf (engineCh s)) +
  eng_at_work (eng_at (eng s)) +
  length (ch_buf (alertsCh (eng s))) +
  loop_work (out_loop (out s)).

#[local] Arguments Nat.mul : simpl never.
#[local] Arguments Nat.add : simpl never.
#[local] Arguments engine_work : simpl never.
#[local] Arguments event_work : simpl never.

(** What a channel operation does to the buffer's length. *)
Lemma ch_send_length {A} (c c' : chan A) v :
  ch_send c v = Ret (Some c') -> length (ch_buf c') = S (length (ch_buf c)).
Proof.
  unfold ch_send. destruct (ch_closed c); [discriminate|]. destruct (_ <? _)%nat; [|discriminate].
  intros [= <-]. simpl. rewrite length_app. simpl. lia.
Qed.

Lemma ch_recv_length {A} (c c' : chan A) v :
  ch_recv c = RecvValue v c' -> length (ch_buf c) = S (length (ch_buf c')).
Proof. intros [-> _]%ch_recv_value. reflexivity. Qed.

Section Work.
Variables (bootTime : Z) (filterPrefixArg : string) (zone : Z).

(** One step of some goroutine that waits for nothing but channels. *)
Definition internal (s s' : sys) : Prop :=
  exists l, l ∈ internal_labels /\ sys_step bootTime filterPrefixArg zone s l = Ret (Some s').

#[local] Opaque output_text marshals.

Lemma turn_work st c res :
  turn zone st c = Some res ->
  loop_work res + match c with SelEvent None | SelAlert None => 1 | _ => 0 end <= loop_work (Continues st).
Proof.
  unfold turn, both_nil, println. destruct c as [[e|]|[a|]]; simpl.
  - destruct (eventCh_nil st) eqn:E; [discriminate|]. destruct (marshals _ _); intros [= <-]; simpl;
      rewrite ?E; simpl; rewrite ?E; lia.
  - destruct (eventCh_nil st); [discriminate|]. intros [= <-]. simpl. lia.
  - destruct (alertCh_nil st) eqn:E; [discriminate|]. destruct (marshals _ _); intros [= <-]; simpl;
      rewrite ?E, ?andb_false_r; simpl; rewrite ?E; lia.
  - destruct (alertCh_nil st); [discriminate|]. intros [= <-]. simpl. lia.
Qed.

(** Handling a record puts at most one event into a channel. *)
Lemma handle_record_lengths st r st' :
  handle_record bootTime st r = Ret (Some st') ->
  (length (ch_buf (output (corr st'))) + length (ch_buf (eventsCh st')) <=
     1 + length (ch_buf (output (corr st))) + length (ch_buf (eventsCh st))) /\
  (length (ch_buf (output (corr st))) <= length (ch_buf (output (corr st')))) /\
  (length (ch_buf (eventsCh st)) <= length (ch_buf (eventsCh st'))).
Proof.
  unfold handle_record. destruct (ParseEvent r) as [m|]; [|intros [= <-]; lia].
  destruct (_ =? _)%Z; [intros [= <-]; simpl; lia|]. destruct (_ =? _)%Z.
  - unfold HandleAccept. intros (c & Hc & H)%go_bind_Ret_inv.
    destruct (_ !! _) as [entry|]; [|injection Hc as <-; injection H as <-; simpl; lia].
    apply go_bind_Ret_inv in Hc as (o & Ho & Hc).
    destruct o as [o|]; injection Hc as <-; [|discriminate]. injection H as <-.
    apply ch_send_length in Ho. simpl in *. lia.
  - unfold send_event.
    destruct (_ =? _)%Z; [|destruct (_ =? _)%Z; [|intros [= <-]; lia]].
    all: intros (o & Ho & H)%go_bind_Ret_inv; destruct o as [o|]; [|discriminate];
      injection H as <-; apply ch_send_length in Ho; simpl; lia.
Qed.

Lemma fan_step_work s s' : fan_step filterPrefixArg s = Ret (Some s') -> work s' < work s.
Proof.
  unfold fan_step, work. destruct (fan_at s) as [|e|e src|e|e|].
  - destruct (ch_recv _) as [| |e c] eqn:Hr; [discriminate|intros [= <-]..]; simpl; [lia|].
    apply ch_recv_length in Hr. rewrite Hr. unfold event_work. lia.
  - destruct (Resolve _ _); intros [= <-]; simpl; lia.
  - destruct (filtered _ _ _); intros [= <-]; simpl; lia.
  - intros (c & Hc & ->)%then_inv. apply ch_send_length in Hc. simpl. lia.
  - intros (c & Hc & ->)%then_inv. apply ch_send_length in Hc. simpl. rewrite Hc. lia.
  - discriminate.
Qed.

Lemma engine_step_work s s' : engine_step s = Ret (Some s') -> work s' < work s.
Proof.
  unfold engine_step, work. destruct (eng_at (eng s)) as [|e [|ru rest]|[|a unsent] e rest|].
  - destruct (ch_recv _) as [| |e c] eqn:Hr; [discriminate|intros [= <-]..]; simpl; [lia|].
    apply ch_recv_length in Hr. rewrite Hr. unfold engine_work. lia.
  - intros [= <-]. simpl. lia.
  - intros (r & Hr & H)%go_bind_Ret_inv. injection H as <-. simpl.
    apply process_rule_grows in Hr as [-> (new & Hn & Hl)]. unfold raised. rewrite Hn, drop_app_length. lia.
  - intros [= <-]. simpl. lia.
  - intros (c & Hc & ->)%then_inv. apply ch_send_length in Hc. simpl. lia.
  - discriminate.
Qed.

Lemma out_event_step_work s s' : out_event_step zone s = Ret (Some s') -> work s' < work s.
Proof.
  unfold out_event_step. destruct (ch_recv _) as [| |e c] eqn:Hr; [discriminate|..];
    intros (st & res & Hst & Ht & ->)%select_step_inv; apply turn_work in Ht; unfold work; simpl;
    rewrite Hst; [|apply ch_recv_length in Hr]; simpl in *; lia.
Qed.

Lemma out_alert_step_work s s' : out_alert_step zone s = Ret (Some s') -> work s' < work s.
Proof.
  unfold out_alert_step. destruct (ch_recv _) as [| |a c] eqn:Hr; [discriminate|..];
    intros (st & res & Hst & Ht & ->)%select_step_inv; apply turn_work in Ht; unfold work; simpl;
    rewrite Hst; [|apply ch_recv_length in Hr]; simpl in *; lia.
Qed.

Lemma forward_step_work s s' : forward_step s = Ret (Some s') -> work s' < work s.
Proof.
  unfold forward_step, work. destruct (fwd_at s) as [|e|].
  - destruct (ch_recv _) as [| |e c] eqn:Hr; [discriminate|..].
    + unfold ch_close. destruct (ch_closed _); [discriminate|]. intros [= <-]. simpl. lia.
    + intros [= <-]. simpl. apply ch_recv_length in Hr. rewrite Hr. lia.
  - intros (c & Hc & ->)%then_inv. apply ch_send_length in Hc. simpl. rewrite Hc. lia.
  - discriminate.
Qed.

(** Every internal step leaves less work. *)
Lemma internal_work s s' : internal s s' -> work s' < work s.
Proof.
  intros (l & Hl & [_ H]%sys_step_live). unfold internal_labels in Hl.
  repeat (apply elem_of_cons in Hl as [->|Hl]); [..|by apply elem_of_nil in Hl]; cbn [live_step] in H.
  - destruct (rd_at s) as [|r] eqn:Er; [discriminate|]. apply then_inv in H as (st & Hst & ->).
    apply handle_record_lengths in Hst. unfold work. simpl. rewrite Er. unfold rd_work. nia.
  - by apply forward_step_work.
  - by apply fan_step_work.
  - by apply engine_step_work.
  - by apply out_event_step_work.
  - by apply out_alert_step_work.
Qed.

(** (C15) The program does not run by itself: from any state, however the
    goroutines interleave, at most [work s] steps are made before every
    goroutine waits for something from outside. *)
Theorem internal_terminates (n : nat) (s s' : sys) : nsteps internal n s s' -> n + work s' <= work s.
Proof.
  induction 1 as [s|n s1 s2 s3 H12 _ IH]; [lia|]. apply internal_work in H12. lia.
Qed.

(** ** What keeps a goroutine from moving *)

(** Before the signal no goroutine has returned, and every channel has room for
    something. *)
Record running (s : sys) : Prop := {
  ru_output : ch_cap (output (corr (rdr s))) = 1024;
  ru_events : ch_cap (eventsCh (rdr s)) = 1024;
  ru_out : ch_cap (outputCh s) = 1024;
  ru_engine : ch_cap (engineCh s) = 1024;
  ru_alerts : ch_cap (alertsCh (eng s)) = 100;
  ru_fwd : fwd_at s <> FwdDone;
  ru_fan : fan_at s <> FanDone;
  ru_eng : eng_at (eng s) <> EngDone;
  ru_loop : exists st, out_loop (out s) = Continues st /\ eventCh_nil st = false /\ alertCh_nil st = false
}.

Lemma ch_send_cap {A} (c c' : chan A) v : ch_send c v = Ret (Some c') -> ch_cap c' = ch_cap c.
Proof.
  unfold ch_send. destruct (ch_closed c); [discriminate|]. destruct (_ <? _); [|discriminate].
  by intros [= <-].
Qed.

Lemma ch_recv_cap {A} (c c' : chan A) v : ch_recv c = RecvValue v c' -> ch_cap c' = ch_cap c.
Proof.
  unfold ch_recv. destruct (ch_buf c); [by destruct (ch_closed c)|]. by intros [= _ <-].
Qed.

(** An open channel is not received from as a closed one. *)
Lemma ch_recv_not_closed {A} (c : chan A) : ch_closed c = false -> ch_recv c <> RecvClosed.
Proof. intros H E. pose proof (ch_recv_open c H) as Hr. by rewrite E in Hr. Qed.

Lemma handle_record_caps st r st' :
  handle_record bootTime st r = Ret (Some st') ->
  ch_cap (output (corr st')) = ch_cap (output (corr st)) /\ ch_cap (eventsCh st') = ch_cap (eventsCh st).
Proof.
  unfold handle_record. destruct (ParseEvent r) as [m|]; [|by intros [= <-]].
  destruct (_ =? _)%Z; [by intros [= <-]|]. destruct (_ =? _)%Z.
  - unfold HandleAccept. intros (c & Hc & H)%go_bind_Ret_inv.
    destruct (_ !! _) as [entry|]; [|injection Hc as <-; by injection H as <-].
    apply go_bind_Ret_inv in Hc as (o & Ho & Hc).
    destruct o as [o|]; injection Hc as <-; [|discriminate]. injection H as <-.
    split; [exact (ch_send_cap _ _ _ Ho)|done].
  - unfold send_event.
    destruct (_ =? _)%Z; [|destruct (_ =? _)%Z; [|by intros [= <-]]].
    all: intros (o & Ho & H)%go_bind_Ret_inv; destruct o as [o|]; [|discriminate];
      injection H as <-; split; [done|exact (ch_send_cap _ _ _ Ho)].
Qed.

(** A value never makes the output loop drop a channel. *)
Lemma turn_value_keeps st c res :
  turn zone st c = Some res -> c <> SelEvent None -> c <> SelAlert None ->
  eventCh_nil st = false -> alertCh_nil st = false ->
  exists st', res = Continues st' /\ eventCh_nil st' = false /\ alertCh_nil st' = false.
Proof.
  intros Ht Hc1 Hc2 He Ha. destruct c as [[e|]|[a|]]; [|done| |done];
    unfold turn, both_nil in Ht; rewrite ?He, ?Ha in Ht; destruct (marshals _ _); simpl in Ht;
    rewrite ?He, ?Ha in Ht; simpl in Ht; injection Ht as <-; simpl; eauto.
Qed.

Lemma select_step_running s s' c s'' :
  select_step zone s s' c = Ret (Some s'') -> c <> SelEvent None -> c <> SelAlert None ->
  running s' -> out_loop (out s') = out_loop (out s) -> running s''.
Proof.
  intros (st & res & Hst & Ht & ->)%select_step_inv Hc1 Hc2 Hr Hl. destruct Hr as [].
  constructor; try done. rewrite Hl, Hst in ru_loop0. destruct ru_loop0 as (? & [= <-] & He & Ha).
  simpl. exact (turn_value_keeps _ _ _ Ht Hc1 Hc2 He Ha).
Qed.

Lemma forward_step_running s s' :
  all_open s -> running s -> forward_step s = Ret (Some s') -> running s'.
Proof.
  intros (Hc & He & Ho & Hg & Ha) []. unfold forward_step. destruct (fwd_at s) as [|e|] eqn:Ef; [| |done].
  - destruct (ch_recv _) as [| |e c] eqn:Hr; [discriminate| |].
    + by apply ch_recv_not_closed in Hr.
    + intros [= <-]. apply ch_recv_cap in Hr. constructor; simpl; congruence.
  - intros (c & Hs & ->)%then_inv. apply ch_send_cap in Hs. constructor; simpl; congruence.
Qed.

Lemma fan_step_running s s' :
  all_open s -> running s -> fan_step filterPrefixArg s = Ret (Some s') -> running s'.
Proof.
  intros (Hc & He & Ho & Hg & Ha) []. unfold fan_step. destruct (fan_at s) as [|e|e src|e|e|] eqn:Ef; [| | | | |done].
  - destruct (ch_recv _) as [| |e c] eqn:Hr; [discriminate| |].
    + by apply ch_recv_not_closed in Hr.
    + intros [= <-]. apply ch_recv_cap in Hr. constructor; simpl; congruence.
  - destruct (Resolve _ _); intros [= <-]; constructor; simpl; congruence.
  - destruct (filtered _ _ _); intros [= <-]; constructor; simpl; congruence.
  - intros (c & Hs & ->)%then_inv. apply ch_send_cap in Hs. constructor; simpl; congruence.
  - intros (c & Hs & ->)%then_inv. apply ch_send_cap in Hs. constructor; simpl; congruence.
Qed.

Lemma engine_step_running s s' :
  all_open s -> running s -> engine_step s = Ret (Some s') -> running s'.
Proof.
  intros (Hc & He & Ho & Hg & Ha) []. unfold engine_step.
  destruct (eng_at (eng s)) as [|e [|ru rest]|[|a unsent] e rest|] eqn:Ef; [| | | | |done].
  - destruct (ch_recv _) as [| |e c] eqn:Hr; [discriminate| |].
    + by apply ch_recv_not_closed in Hr.
    + intros [= <-]. apply ch_recv_cap in Hr. constructor; simpl; congruence.
  - intros [= <-]. constructor; simpl; congruence.
  - intros (r & _ & H)%go_bind_Ret_inv. injection H as <-. constructor; simpl; congruence.
  - intros [= <-]. constructor; simpl; congruence.
  - intros (c & Hs & ->)%then_inv. apply ch_send_cap in Hs. constructor; simpl; congruence.
Qed.

Lemma out_steps_running s s' :
  all_open s -> running s ->
  out_event_step zone s = Ret (Some s') \/ out_alert_step zone s = Ret (Some s') -> running s'.
Proof.
  intros (Hc & He & Ho & Hg & Ha) Hru. unfold out_event_step, out_alert_step. intros [H|H].
  - destruct (ch_recv _) as [| |e c] eqn:Hr; [discriminate| |].
    + by apply ch_recv_not_closed in Hr.
    + apply select_step_running in H; [exact H|done..| |done].
      destruct Hru. apply ch_recv_cap in Hr. constructor; simpl; congruence.
  - destruct (ch_recv _) as [| |a c] eqn:Hr; [discriminate| |].
    + by apply ch_recv_not_closed in Hr.
    + apply select_step_running in H; [exact H|done..| |done].
      destruct Hru. apply ch_recv_cap in Hr. constructor; simpl; congruence.
Qed.

Lemma live_step_running s l s' :
  all_open s -> running s -> closing s = 0 -> closing s' = 0 ->
  live_step bootTime filterPrefixArg zone s l = Ret (Some s') -> running s'.
Proof.
  intros Ho Hr Hz Hz' H. destruct l; cbn [live_step] in H.
  - destruct Hr, (rd_at s); [|discriminate]. rewrite Hz in H. injection H as <-. by constructor.
  - destruct Hr, (rd_at s); [|discriminate]. injection H as <-. by constructor.
  - destruct Hr, (rd_at s); [discriminate|]. apply then_inv in H as (st & Hst & ->).
    apply handle_record_caps in Hst as [H1 H2]. constructor; simpl; congruence.
  - by apply (forward_step_running s).
  - by apply (fan_step_running s).
  - by apply (engine_step_running s).
  - apply (out_steps_running s); auto.
  - apply (out_steps_running s); auto.
  - destruct Hr. injection H as <-. by constructor.
  - destruct Hr, (docker_on s); [|discriminate]. go_inv H. by constructor.
  - unfold signal_step in H. rewrite Hz in H. by injection H as <-.
Qed.

Lemma reachable_running rs r s :
  reachable bootTime filterPrefixArg zone rs r s -> closing s = 0 -> running s.
Proof.
  induction 1 as [|s l s' Hre IH Hstep]; intros Hz; [constructor; try done; by eexists|].
  apply sys_step_live in Hstep as [_ Hstep]. pose proof (live_step_closing _ _ _ _ _ _ Hstep).
  assert (Hz0 : closing s = 0) by lia.
  apply (live_step_running s l); auto. by apply (reachable_open bootTime filterPrefixArg zone rs r).
Qed.

(** ** Draining *)

(** Every goroutine waits to receive and every channel is empty. *)
Definition quiet (s : sys) : Prop :=
  rd_at s = RdReading /\ fwd_at s = FwdReceiving /\ fan_at s = FanReceiving /\
  eng_at (eng s) = EngReceiving /\
  ch_buf (output (corr (rdr s))) = [] /\ ch_buf (eventsCh (rdr s)) = [] /\
  ch_buf (outputCh s) = [] /\ ch_buf (engineCh s) = [] /\ ch_buf (alertsCh (eng s)) = [].

(** No rule has a sequence, as in the rules of the repository. *)
Definition no_sequences (rs : list Rule) : Prop := Forall (fun ru => R_Sequence ru = None) rs.

Lemma ch_send_blocked {A} (c : chan A) v :
  ch_closed c = false -> ch_buf c = [] -> 0 < ch_cap c ->
  ch_send c v = Ret (Some (Chan (ch_cap c) [v] false)).
Proof. intros Hc Hb Hl. rewrite ch_send_room by (try done; rewrite Hb; simpl; lia). by rewrite Hb. Qed.

Lemma ch_recv_blocked {A} (c : chan A) : ch_closed c = false -> ch_recv c = RecvBlocks -> ch_buf c = [].
Proof. intros Hc. unfold ch_recv. destruct (ch_buf c); [done|discriminate]. Qed.

(** What a goroutine that cannot move waits for. *)
Definition stuck (res : go (option sys)) : Prop := forall s', res <> Ret (Some s').

Lemma select_step_moves s s' c :
  running s -> c <> SelEvent None -> c <> SelAlert None -> ~ stuck (select_step zone s s' c).
Proof.
  intros [] Hc1 Hc2 Hs. destruct ru_loop0 as (st & Hst & He & Ha). unfold stuck, select_step in Hs.
  rewrite Hst in Hs. enough (exists res, turn zone st c = Some res) as [res Hres].
  { rewrite Hres in Hs. by eapply Hs. }
  unfold turn. destruct c as [[e|]|[a|]]; [|done| |done]; rewrite ?He, ?Ha;
    destruct (marshals _ _); by eexists.
Qed.

Lemma out_alert_stuck s : all_open s -> running s -> stuck (out_alert_step zone s) ->
  ch_buf (alertsCh (eng s)) = [].
Proof.
  intros (_ & _ & _ & _ & Ha) Hr Hs. unfold out_alert_step in Hs.
  destruct (ch_recv (alertsCh (eng s))) as [| |a c] eqn:E; [by apply ch_recv_blocked|..].
  - by apply ch_recv_not_closed in E.
  - by apply select_step_moves in Hs.
Qed.

Lemma out_event_stuck s : all_open s -> running s -> stuck (out_event_step zone s) ->
  ch_buf (outputCh s) = [].
Proof.
  intros (_ & _ & Ho & _ & _) Hr Hs. unfold out_event_step in Hs.
  destruct (ch_recv (outputCh s)) as [| |e c] eqn:E; [by apply ch_recv_blocked|..].
  - by apply ch_recv_not_closed in E.
  - by apply select_step_moves in Hs.
Qed.

(** The engine moves unless it waits for an event, if its rules do not panic. *)
Lemma engine_stuck s :
  all_open s -> running s ->
  (forall e ru rest, eng_at (eng s) = EngRules e (ru :: rest) ->
     exists r, process_rule (engine (eng s)) ru e = Ret r) ->
  ch_buf (alertsCh (eng s)) = [] -> stuck (engine_step s) ->
  eng_at (eng s) = EngReceiving /\ ch_buf (engineCh s) = [].
Proof.
  intros (_ & _ & _ & Hg & Ha) [] Hrules Hb Hs. unfold engine_step in Hs.
  destruct (eng_at (eng s)) as [|e [|ru rest]|[|a unsent] e rest|]; [| | | | |done].
  - destruct (ch_recv (engineCh s)) as [| |e c] eqn:E; [split; [done|by apply ch_recv_blocked]|..].
    + by apply ch_recv_not_closed in E.
    + by edestruct Hs.
  - by edestruct Hs.
  - destruct (Hrules e ru rest eq_refl) as [r Hr]. rewrite Hr in Hs. by edestruct Hs.
  - by edestruct Hs.
  - rewrite ch_send_blocked in Hs by (try done; rewrite ru_alerts0; lia). by edestruct Hs.
Qed.

Lemma fan_stuck s :
  all_open s -> running s -> ch_buf (outputCh s) = [] -> ch_buf (engineCh s) = [] ->
  stuck (fan_step filterPrefixArg s) -> fan_at s = FanReceiving /\ ch_buf (eventsCh (rdr s)) = [].
Proof.
  intros (_ & He & Ho & Hg & _) [] Hbo Hbg Hs. unfold fan_step in Hs.
  destruct (fan_at s) as [|e|e src|e|e|]; [| | | | |done].
  - destruct (ch_recv (eventsCh (rdr s))) as [| |e c] eqn:E; [split; [done|by apply ch_recv_blocked]|..].
    + by apply ch_recv_not_closed in E.
    + by edestruct Hs.
  - destruct (Resolve _ _); by edestruct Hs.
  - destruct (filtered _ _ _); by edestruct Hs.
  - rewrite ch_send_blocked in Hs by (try done; rewrite ru_out0; lia). by edestruct Hs.
  - rewrite ch_send_blocked in Hs by (try done; rewrite ru_engine0; lia). by edestruct Hs.
Qed.

Lemma forward_stuck s :
  all_open s -> running s -> ch_buf (eventsCh (rdr s)) = [] -> stuck (forward_step s) ->
  fwd_at s = FwdReceiving /\ ch_buf (output (corr (rdr s))) = [].
Proof.
  intros (Hc & He & _ & _ & _) [] Hb Hs. unfold forward_step in Hs.
  destruct (fwd_at s) as [|e|]; [| |done].
  - destruct (ch_recv (output (corr (rdr s)))) as [| |e c] eqn:E;
      [split; [done|by apply ch_recv_blocked]|..].
    + by apply ch_recv_not_closed in E.
    + by edestruct Hs.
  - rewrite ch_send_blocked in Hs by (try done; rewrite ru_events0; lia). by edestruct Hs.
Qed.

Lemma reader_stuck s :
  all_open s -> running s -> ch_buf (output (corr (rdr s))) = [] -> ch_buf (eventsCh (rdr s)) = [] ->
  stuck (live_step bootTime filterPrefixArg zone s LHandle) -> rd_at s = RdReading.
Proof.
  intros (Hc & He & _ & _ & _) [] Hb1 Hb2 Hs. cbn [live_step] in Hs.
  destruct (rd_at s) as [|r]; [done|].
  destruct (handle_record_room bootTime (rdr s) r 0) as (st & Hst & _).
  - split; (split; [done|]); rewrite ?Hb1, ?Hb2, ?ru_output0, ?ru_events0; simpl; lia.
  - rewrite Hst in Hs. by edestruct Hs.
Qed.

(** A reachable state before the signal in which no goroutine can move is quiet. *)
Lemma stuck_quiet rs r s :
  reachable bootTime filterPrefixArg zone rs r s -> closing s = 0 -> exited s = None ->
  no_sequences rs ->
  (forall l, l ∈ internal_labels -> stuck (sys_step bootTime filterPrefixArg zone s l)) -> quiet s.
Proof.
  intros Hre Hz Hex Hns Hs. pose proof (reachable_open _ _ _ _ _ _ Hre Hz) as Ho.
  pose proof (reachable_running rs r s Hre Hz) as Hr.
  assert (Hl : forall l, l ∈ internal_labels -> stuck (live_step bootTime filterPrefixArg zone s l)).
  { intros l Hin. specialize (Hs l Hin). unfold sys_step in Hs. by rewrite Hex in Hs. }
  unfold internal_labels in Hl.
  assert (Hba := out_alert_stuck s Ho Hr (Hl LOutAlert ltac:(set_solver))).
  assert (Hbo := out_event_stuck s Ho Hr (Hl LOutEvent ltac:(set_solver))).
  destruct (engine_stuck s Ho Hr) as [Hg Hbg]; [|exact Hba|apply (Hl LEngine); set_solver|].
  { intros e ru rest Heq. destruct (process_rule (engine (eng s)) ru e) as [r'|p] eqn:Hp; [by exists r'|].
    destruct (reachable_rule_panics _ _ _ _ _ _ _ _ _ _ Hre Heq Hp) as (_ & Hin & Hm).
    unfold no_sequences in Hns. rewrite Forall_forall in Hns. unfold matches_step in Hm.
    by rewrite (Hns ru Hin) in Hm. }
  destruct (fan_stuck s Ho Hr Hbo Hbg) as [Hf Hbe]; [apply (Hl LFan); set_solver|].
  destruct (forward_stuck s Ho Hr Hbe) as [Hw Hbc]; [apply (Hl LForward); set_solver|].
  pose proof (reader_stuck s Ho Hr Hbc Hbe (Hl LHandle ltac:(set_solver))) as Hrd.
  by split_and!.
Qed.

(** Either some goroutine moves or none does. *)
Lemma internal_or_stuck s :
  (exists s', internal s s') \/
  (forall l, l ∈ internal_labels -> stuck (sys_step bootTime filterPrefixArg zone s l)).
Proof.
  unfold internal. induction internal_labels as [|l ls IH].
  - right. by intros l ?%elem_of_nil.
  - destruct IH as [(s' & l' & Hin & Hs')|IH]; [left; exists s', l'; split; [by right|done]|].
    destruct (sys_step bootTime filterPrefixArg zone s l) as [[s'|]|p] eqn:E.
    + left. exists s', l. split; [by left|done].
    + right. intros l' [->|Hin]%elem_of_cons; [|by apply IH]. intros s'. by rewrite E.
    + right. intros l' [->|Hin]%elem_of_cons; [|by apply IH]. intros s'. by rewrite E.
Qed.

Lemma internal_control s s' : internal s s' -> closing s' = closing s /\ exited s' = exited s.
Proof.
  intros (l & Hl & [_ H]%sys_step_live). apply live_step_control in H. unfold internal_labels in Hl.
  repeat (apply elem_of_cons in Hl as [->|Hl]); [..|by apply elem_of_nil in Hl]; exact H.
Qed.

Lemma internals_reachable rs r s s' :
  rtc internal s s' -> reachable bootTime filterPrefixArg zone rs r s ->
  reachable bootTime filterPrefixArg zone rs r s' /\ closing s' = closing s /\ exited s' = exited s.
Proof.
  induction 1 as [s|s1 s2 s3 H12 _ IH]; intros Hre; [done|].
  destruct (internal_control _ _ H12) as [<- <-]. apply IH.
  destruct H12 as (l & _ & H). by apply (reach_step _ _ _ _ _ s1 l).
Qed.

(** Some run of the goroutines goes as far as it can. *)
Lemma internal_normal s : exists s', rtc internal s s' /\ nf internal s'.
Proof.
  remember (work s) as w eqn:Hw. revert s Hw. induction (lt_wf w) as [w _ IH]. intros s ->.
  destruct (internal_or_stuck s) as [[s1 H1]|Hs].
  - destruct (IH (work s1) (internal_work _ _ H1) s1 eq_refl) as (s' & H & Hn).
    exists s'. split; [by apply (rtc_l _ s s1)|done].
  - exists s. split; [apply rtc_refl|]. intros (s' & l & Hl & H). by apply (Hs l Hl s').
Qed.

Lemma run_ends_quiet rs r s s' :
  reachable bootTime filterPrefixArg zone rs r s -> closing s = 0 -> exited s = None ->
  no_sequences rs -> rtc internal s s' -> nf internal s' ->
  quiet s' /\ out_seen s' = engine_seen (eng s') /\
  ProcessLoop (NewEngine rs) (out_seen s') = Ret (engine (eng s')) /\
  alerts (engine (eng s')) = alerts_seen s'.
Proof.
  intros Hre Hz Hex Hns Hrun Hnf.
  destruct (internals_reachable rs r s s' Hrun Hre) as (Hre' & Hz' & Hex').
  assert (Hquiet : quiet s').
  { apply (stuck_quiet rs r); [done|congruence|congruence|done|].
    intros l Hl s1 H1. apply Hnf. by exists s1, l. }
  split; [done|]. destruct Hquiet as (_ & _ & Hf & Hg & _ & _ & Hbo & Hbg & Hba).
  destruct (reachable_inv _ _ _ _ _ _ Hre') as [_ Hsame _ _ [Hloop _ _ _] Hal _].
  rewrite Hbo, Hbg, Hf, !app_nil_r in Hsame. rewrite Hba, Hg, !app_nil_r in Hal.
  split_and!; [done| |done]. rewrite Hsame, <- Hloop. unfold eng_finish. by rewrite Hg.
Qed.

(** Nothing gets stuck on the way: before the signal, with rules without
    sequences, the goroutines go on until every channel is empty, and wherever
    they stop on the way to it, by any interleaving, they are all waiting and
    everything received has been handled: the loop has printed exactly the
    events the engine has processed and exactly the alerts it has raised. *)
Theorem everything_is_delivered (rs : list Rule) (r : Resolver) (s : sys) :
  reachable bootTime filterPrefixArg zone rs r s -> closing s = 0 -> exited s = None ->
  no_sequences rs ->
  (exists s', rtc internal s s' /\ quiet s') /\
  forall s', rtc internal s s' -> nf internal s' ->
    quiet s' /\ out_seen s' = engine_seen (eng s') /\
    ProcessLoop (NewEngine rs) (out_seen s') = Ret (engine (eng s')) /\
    alerts (engine (eng s')) = alerts_seen s'.
Proof.
  intros Hre Hz Hex Hns. split.
  - destruct (internal_normal s) as (s' & Hrun & Hnf). exists s'. split; [done|].
    by apply (run_ends_quiet rs r s s').
  - intros s'. by apply (run_ends_quiet rs r s).
Qed.
End Work.

(** The state in which the demonstration run has taken one record to the
    engine, whose rule alerts on it. *)
Definition demo_state : sys := after [each_rule] (demo_labels ++ [LFan; LEngine]).

Lemma internal_terminates_witness :
  let s' := after [each_rule] (demo_labels ++ [LFan; LEngine; LEngine]) in
  1 + work s' <= work demo_state.
Proof.
  intros s'. refine (internal_terminates 0 "" 0 1 demo_state s' _).
  apply nsteps_once. exists LEngine. split; [unfold internal_labels; set_solver|].
  vm_compute. reflexivity.
Defined.

Lemma everything_is_delivered_witness :
  (exists s', rtc (internal 0 "" 0) demo_state s' /\ quiet s') /\
  forall s', rtc (internal 0 "" 0) demo_state s' -> nf (internal 0 "" 0) s' ->
    quiet s' /\ out_seen s' = engine_seen (eng s') /\
    ProcessLoop (NewEngine [each_rule]) (out_seen s') = Ret (engine (eng s')) /\
    alerts (engine (eng s')) = alerts_seen s'.
Proof.
  refine (everything_is_delivered 0 "" 0 [each_rule] demo_resolver demo_state _ _ _ _).
  - apply after_reachable.
  - vm_compute. reflexivity.
  - vm_compute. reflexivity.
  - by repeat constructor.
Defined.
