(* ===== verification/Flow.v ===== *)
(** * From the ring buffer to the output

    What is on its way through the goroutines, as the list of events that the
    output loop is still to receive: no step of theirs loses, repeats or invents
    one.  With the termination of their runs, the probes' records become lines
    of the output. *)

From stdpp Require Import relations.
From S2P Require Import Prelude.
From S2P Require Import Bytes.
From S2P Require Import GoLib.
From S2P Require Import Channel.
From S2P Require Import Core.
From S2P Require Import Helpers.
From S2P Require Import BpfRuntime.
From S2P Require Import Monitor.
From S2P Require Import Wire.
From S2P Require Import Correlator.
From S2P Require Import Rule.
From S2P Require Import Engine.
From S2P Require Import Sequence.
From S2P Require Import Json.
From S2P Require Import Output.
From S2P Require Import Resolver.
From S2P Require Import Main.
From S2P Require Import Pipeline.
From S2P Require Import Progress.

Open Scope Z_scope.

Section Flow.
Variables (bootTime : Z) (filterPrefixArg : string) (zone : Z).

(** ** What is on its way *)

(** What the fan-out makes of an event, if it keeps it. *)
Definition enrich_dst (r : Resolver) (event : Event) (srcInfo : ContainerInfo) : option Event :=
  if filtered filterPrefixArg srcInfo (resolve_dst r event) then None
  else Some (with_containers event srcInfo (resolve_dst r event)).
Definition enrich (r : Resolver) (event : Event) : option Event :=
  srcInfo ← Resolve r (SrcCgroupID event); enrich_dst r event srcInfo.

(** The event that a record in hand becomes, the correlator being as it is. *)
Definition record_events (st : reader) (record : list byte) : list Event :=
  match ParseEvent record with
  | None => []
  | Some m =>
      if EvType m =? GO_EVENT_NET_CONNECT then []
      else if EvType m =? GO_EVENT_NET_ACCEPT then
        match pending (corr st) !! {| IC_SrcAddr := EvDstAddr m; IC_SrcPort := EvDstPort m;
                                      IC_DstAddr := EvSrcAddr m; IC_DstPort := EvSrcPort m |} with
        | None => []
        | Some entry =>
            [connection_event entry (EvSrcAddr m) (EvSrcPort m) (EvDstAddr m) (EvDstPort m)
               (CgroupId m) (Pid m) (Comm m)]
        end
      else if EvType m =? GO_EVENT_FILE_OPEN then [file_open_event bootTime m]
      else if EvType m =? GO_EVENT_EXEC then [exec_event bootTime m]
      else []
  end.

Definition rd_events (s : sys) : list Event :=
  match rd_at s with RdReading => [] | RdGot record => record_events (rdr s) record end.

Definition fwd_events (x : fwd_state) : list Event :=
  match x with FwdSending e => [e] | _ => [] end.

(** The events that have not reached the fan-out. *)
Definition incoming (s : sys) : list Event :=
  ch_buf (eventsCh (rdr s)) ++ fwd_events (fwd_at s) ++ ch_buf (output (corr (rdr s))) ++ rd_events s.

Definition fan_events (r : Resolver) (x : fan_state) : list Event :=
  match x with
  | FanSrc e => omap (enrich r) [e]
  | FanDst e srcInfo => option_list (enrich_dst r e srcInfo)
  | FanOutput e => [e]
  | FanReceiving | FanEngine _ | FanDone => []
  end.

(** What the output loop has received and what is on its way to it. *)
Definition flow (s : sys) : list Event :=
  out_seen s ++ ch_buf (outputCh s) ++ fan_events (resolver s) (fan_at s) ++
  omap (enrich (resolver s)) (incoming s).

(** ** Each goroutine keeps it *)

Lemma ch_send_buf {A} (c c' : chan A) v :
  ch_send c v = Ret (Some c') -> ch_buf c' = ch_buf c ++ [v].
Proof.
  unfold ch_send. destruct (ch_closed c); [discriminate|]. destruct (_ <? _)%nat; [|discriminate].
  by intros [= <-].
Qed.

Lemma ch_close_buf {A} (c c' : chan A) : ch_close c = Ret c' -> ch_buf c' = ch_buf c.
Proof. unfold ch_close. destruct (ch_closed c); [discriminate|]. by intros [= <-]. Qed.

(** Handling a record appends its event to one of the two channels. *)
Lemma handle_record_events st r st' :
  handle_record bootTime st r = Ret (Some st') ->
  exists es1 es2, record_events st r = es1 ++ es2 /\
    ch_buf (eventsCh st') = ch_buf (eventsCh st) ++ es1 /\
    ch_buf (output (corr st')) = ch_buf (output (corr st)) ++ es2.
Proof.
  assert (Hnone : forall st1, st1 = st -> exists es1 es2, [] = es1 ++ es2 /\
    ch_buf (eventsCh st1) = ch_buf (eventsCh st) ++ es1 /\
    ch_buf (output (corr st1)) = ch_buf (output (corr st)) ++ es2).
  { intros st1 ->. exists [], []. by rewrite !app_nil_r. }
  unfold handle_record, record_events. destruct (ParseEvent r) as [m|]; [|intros [= <-]; by apply Hnone].
  destruct (_ =? _).
  { intros [= <-]. exists [], []. by rewrite !app_nil_r. }
  destruct (_ =? _).
  - unfold HandleAccept. intros (c & Hc & H)%go_bind_Ret_inv.
    destruct (_ !! _) as [entry|].
    + apply go_bind_Ret_inv in Hc as (o & Ho & Hc).
      destruct o as [o|]; injection Hc as <-; [|discriminate]. injection H as <-.
      apply ch_send_buf in Ho. eexists [], _. split_and!; [reflexivity| |exact Ho]. by rewrite app_nil_r.
    + injection Hc as <-. injection H as <-. exists [], []. by rewrite !app_nil_r.
  - unfold send_event. destruct (_ =? _); [|destruct (_ =? _); [|intros [= <-]; by apply Hnone]].
    all: intros (o & Ho & H)%go_bind_Ret_inv; destruct o as [o|]; [|discriminate];
      injection H as <-; apply ch_send_buf in Ho; eexists _, [];
      split_and!; [by rewrite app_nil_r|exact Ho|by rewrite app_nil_r].
Qed.

Lemma incoming_flow s s' :
  out_seen s' = out_seen s -> outputCh s' = outputCh s -> resolver s' = resolver s ->
  fan_at s' = fan_at s -> incoming s' ≡ₚ incoming s -> flow s' ≡ₚ flow s.
Proof. intros H1 H2 H3 H4 H5. unfold flow. by rewrite H1, H2, H3, H4, H5. Qed.

Lemma handle_flow s s' :
  live_step bootTime filterPrefixArg zone s LHandle = Ret (Some s') -> flow s' ≡ₚ flow s.
Proof.
  cbn [live_step]. destruct (rd_at s) as [|r] eqn:Er; [discriminate|].
  intros (st & Hst & ->)%then_inv. apply incoming_flow; try done.
  destruct (handle_record_events _ _ _ Hst) as (es1 & es2 & Hes & H1 & H2).
  unfold incoming, rd_events. rewrite Er. simpl. rewrite Hes, H1, H2, app_nil_r, <- app_assoc.
  solve_Permutation.
Qed.

Lemma forward_flow s s' : forward_step s = Ret (Some s') -> flow s' ≡ₚ flow s.
Proof.
  unfold forward_step. destruct (fwd_at s) as [|e|] eqn:Ef.
  - destruct (ch_recv _) as [| |e c] eqn:Hr; [discriminate|..].
    + intros (c & Hc & H)%go_bind_Ret_inv. injection H as <-. apply incoming_flow; try done.
      apply ch_close_buf in Hc. unfold incoming, rd_events. simpl. by rewrite Hc, Ef.
    + intros [= <-]. apply ch_recv_value in Hr as [Hb _]. apply incoming_flow; try done.
      unfold incoming, rd_events. simpl. by rewrite Ef, Hb.
  - intros (c & Hc & ->)%then_inv. apply ch_send_buf in Hc. apply incoming_flow; try done.
    unfold incoming, rd_events. simpl. rewrite Ef, Hc, <- app_assoc. done.
  - discriminate.
Qed.

Lemma fan_flow s s' : fan_step filterPrefixArg s = Ret (Some s') -> flow s' ≡ₚ flow s.
Proof.
  unfold fan_step, flow, out_seen, incoming, rd_events. destruct (fan_at s) as [|e|e src|e|e|] eqn:Ef.
  - destruct (ch_recv _) as [| |e c] eqn:Hr; [discriminate|intros [= <-]..]; simpl; [done|].
    apply ch_recv_value in Hr as [-> _]. rewrite <- app_comm_cons. cbn [omap list_omap].
    by destruct (enrich (resolver s) e).
  - destruct (Resolve _ _) as [src|] eqn:Hs; intros [= <-]; simpl; unfold enrich; rewrite Hs; simpl; [|done].
    by destruct (enrich_dst _ _ _).
  - destruct (filtered _ _ _) eqn:Hf; intros [= <-]; simpl; unfold enrich_dst; by rewrite Hf.
  - intros (c & Hc & ->)%then_inv. apply ch_send_buf in Hc. simpl. by rewrite Hc, <- app_assoc.
  - intros (c & Hc & ->)%then_inv. done.
  - discriminate.
Qed.

Lemma engine_flow s s' : engine_step s = Ret (Some s') -> flow s' ≡ₚ flow s.
Proof.
  unfold engine_step. destruct (eng_at (eng s)) as [|e [|ru rest]|[|a unsent] e rest|].
  - destruct (ch_recv _); [discriminate|intros [= <-]; done..].
  - by intros [= <-].
  - intros (r & _ & H)%go_bind_Ret_inv. by injection H as <-.
  - by intros [= <-].
  - by intros (c & _ & ->)%then_inv.
  - discriminate.
Qed.

Lemma out_event_flow s s' : out_event_step zone s = Ret (Some s') -> flow s' ≡ₚ flow s.
Proof.
  unfold out_event_step. destruct (ch_recv _) as [| |e c] eqn:Hr; [discriminate|..];
    intros (st & res & _ & _ & ->)%select_step_inv; unfold flow, out_seen; simpl;
    rewrite omap_app; simpl; [by rewrite app_nil_r|].
  apply ch_recv_value in Hr as [-> _]. by rewrite <- app_assoc.
Qed.

Lemma out_alert_flow s s' : out_alert_step zone s = Ret (Some s') -> flow s' ≡ₚ flow s.
Proof.
  unfold out_alert_step. destruct (ch_recv _) as [| |a c] eqn:Hr; [discriminate|..];
    intros (st & res & _ & _ & ->)%select_step_inv; unfold flow, out_seen; simpl;
    rewrite omap_app; simpl; by rewrite app_nil_r.
Qed.

Lemma internal_flow s s' : internal bootTime filterPrefixArg zone s s' -> flow s' ≡ₚ flow s.
Proof.
  intros (l & Hl & [_ H]%sys_step_live). unfold internal_labels in Hl.
  repeat (apply elem_of_cons in Hl as [->|Hl]); [..|by apply elem_of_nil in Hl].
  - by apply handle_flow.
  - by apply forward_flow.
  - by apply fan_flow.
  - by apply engine_flow.
  - by apply out_event_flow.
  - by apply out_alert_flow.
Qed.

Lemma internals_flow s s' :
  rtc (internal bootTime filterPrefixArg zone) s s' -> flow s' ≡ₚ flow s.
Proof. induction 1 as [|s1 s2 s3 H _ IH]; [done|]. by rewrite IH, (internal_flow s1 s2). Qed.

(** The goroutines conserve events: whatever their interleaving, what the
    output loop has received together with what is on its way to it, filtered
    and enriched, stays the same, so none is lost, repeated or invented. *)
Theorem flow_conserved (s s' : sys) :
  rtc (internal bootTime filterPrefixArg zone) s s' -> flow s' ≡ₚ flow s.
Proof. apply internals_flow. Qed.

(** ** From a probe to the output *)

(** A run only adds to what the output loop has received. *)
Lemma live_step_out s l s' :
  live_step bootTime filterPrefixArg zone s l = Ret (Some s') ->
  exists more, out_cases (out s') = out_cases (out s) ++ more.
Proof.
  intros H. destruct l; live_step_inv H; (by eexists) || (exists []; by rewrite app_nil_r).
Qed.

Lemma internals_out s s' :
  rtc (internal bootTime filterPrefixArg zone) s s' ->
  exists more, out_cases (out s') = out_cases (out s) ++ more.
Proof.
  induction 1 as [|s1 s2 s3 (l & _ & [_ H]%sys_step_live) _ (more & IH)];
    [exists []; by rewrite app_nil_r|].
  apply live_step_out in H as [more1 H1]. exists (more1 ++ more). by rewrite IH, H1, app_assoc.
Qed.

(** The bytes printed so far. *)
Definition printed_bytes (s : sys) : list byte :=
  match out_loop (out s) with Continues st | Returns st => stdout st end.

Lemma reachable_printed rs r s :
  reachable bootTime filterPrefixArg zone rs r s ->
  printed_bytes s = lines zone (printed zone (out_cases (out s))).
Proof.
  intros H. destruct (reachable_inv _ _ _ _ _ _ H) as [_ _ _ _ _ _ Hout].
  apply OutputLoop_stdout in Hout as (st & Heq & Hst). unfold printed_bytes. rewrite Heq. exact Hst.
Qed.

Lemma quiet_flow s : quiet s -> flow s = out_seen s.
Proof.
  intros (Hr & Hf & Hn & _ & Hc & He & Ho & _ & _). unfold flow, incoming, rd_events.
  rewrite Hr, Hf, Hn, Hc, He, Ho. simpl. by rewrite app_nil_r.
Qed.

(** With a record in hand in an otherwise quiet program, what is on its way is
    what the fan-out makes of the record's event. *)
Lemma quiet_read s record :
  quiet s -> closing s = 0%nat -> exited s = None ->
  exists s1, sys_step bootTime filterPrefixArg zone s (LRead record) = Ret (Some s1) /\
    flow s1 = out_seen s ++ omap (enrich (resolver s)) (record_events (rdr s) record) /\
    out s1 = out s.
Proof.
  intros (Hr & Hf & Hn & _ & Hc & He & Ho & _ & _) Hz Hex.
  exists (set_rd_at s (RdGot record)). split_and!; [|clear Hz Hex|done].
  - unfold sys_step. rewrite Hex. cbn [live_step]. by rewrite Hr, Hz.
  - unfold flow, incoming, rd_events, out_seen. simpl. by rewrite Hf, Hn, Hc, He, Ho.
Qed.

(** The output of a record that is one kept event: once the goroutines have come
    to rest, by whatever interleaving, one more event has been received by the
    output loop and the engine alike, and no other. *)
Lemma record_is_printed rs r s record event event' :
  reachable bootTime filterPrefixArg zone rs r s -> closing s = 0%nat -> exited s = None ->
  no_sequences rs -> quiet s ->
  record_events (rdr s) record = [event] -> enrich (resolver s) event = Some event' ->
  exists s1, sys_step bootTime filterPrefixArg zone s (LRead record) = Ret (Some s1) /\
    (exists s', rtc (internal bootTime filterPrefixArg zone) s1 s' /\
                nf (internal bootTime filterPrefixArg zone) s') /\
    forall s', rtc (internal bootTime filterPrefixArg zone) s1 s' ->
      nf (internal bootTime filterPrefixArg zone) s' ->
      engine_seen (eng s') = engine_seen (eng s) ++ [event'] /\
      exists more, omap case_event more = [event'] /\
        printed_bytes s' = printed_bytes s ++ lines zone (printed zone more).
Proof.
  intros Hre Hz Hex Hns Hq Hrec Hen.
  destruct (quiet_read s record Hq Hz Hex) as (s1 & Hs1 & Hflow & Hout).
  exists s1. split; [done|]. split; [apply internal_normal|]. intros s' Hrun Hnf.
  assert (Hre1 : reachable bootTime filterPrefixArg zone rs r s1) by by apply (reach_step _ _ _ _ _ s (LRead record)).
  pose proof Hs1 as [_ [Hz1 Hex1]%live_step_control]%sys_step_live.
  destruct (run_ends_quiet bootTime filterPrefixArg zone rs r s1 s') as (Hq' & Hsame & _ & _);
    [done|congruence|congruence|done..|].
  destruct (internals_reachable _ _ _ _ _ _ _ Hrun Hre1) as (Hre' & _ & _).
  pose proof (internals_flow s1 s' Hrun) as Hp. rewrite (quiet_flow s' Hq'), Hflow, Hrec in Hp.
  cbn [omap list_omap] in Hp. rewrite Hen in Hp.
  destruct (internals_out s1 s' Hrun) as [more Hmore]. rewrite Hout in Hmore.
  assert (Hseen : out_seen s' = out_seen s ++ omap case_event more)
    by (unfold out_seen; by rewrite Hmore, omap_app).
  rewrite Hseen in Hp. apply (inj (app (out_seen s))) in Hp. apply Permutation_singleton_r in Hp.
  split.
  - rewrite <- Hsame, Hseen, Hp. f_equal.
    destruct (reachable_inv _ _ _ _ _ _ Hre) as [_ Hs _ _ _ _ _].
    destruct Hq as (_ & _ & Hn & _ & _ & _ & Ho & Hg & _). rewrite Ho, Hg, Hn, !app_nil_r in Hs. done.
  - exists more. split; [done|]. rewrite (reachable_printed _ _ _ Hre), (reachable_printed _ _ _ Hre'), Hmore.
    unfold printed. by rewrite omap_app, List.filter_app, lines_app.
Qed.

Section FromProbes.
Context `{Laws : bpf_runtime_laws}.

(** What holds of a program at rest before the signal. *)
Record at_rest (rs : list Rule) (r : Resolver) (s : sys) : Prop := {
  ar_reachable : reachable bootTime filterPrefixArg zone rs r s;
  ar_running : closing s = 0%nat /\ exited s = None;
  ar_quiet : quiet s
}.

(** The record read in the state [s] makes the output loop and the engine
    receive the event [event] and nothing else: the goroutines come to rest, and
    however they do, the event is the one that was received, and its line, if
    its time can be printed, is printed among the alerts' lines. *)
Definition prints (s : sys) (record : list byte) (event : Event) : Prop :=
  exists s1, sys_step bootTime filterPrefixArg zone s (LRead record) = Ret (Some s1) /\
    (exists s', rtc (internal bootTime filterPrefixArg zone) s1 s' /\
                nf (internal bootTime filterPrefixArg zone) s') /\
    forall s', rtc (internal bootTime filterPrefixArg zone) s1 s' ->
      nf (internal bootTime filterPrefixArg zone) s' ->
      engine_seen (eng s') = engine_seen (eng s) ++ [event] /\
      exists more, omap case_event more = [event] /\
        printed_bytes s' = printed_bytes s ++ lines zone (printed zone more).

Lemma rest_prints rs r s record event event' :
  at_rest rs r s -> no_sequences rs ->
  record_events (rdr s) record = [event] -> enrich (resolver s) event = Some event' ->
  prints s record event'.
Proof. intros [Hre [Hz Hex] Hq] Hns Hrec Hen. by apply (record_is_printed rs r s record event). Qed.

(** An event without a destination is kept, whatever the filter. *)
Lemma enrich_source r event src :
  DstCgroupID event = 0 -> Resolve r (SrcCgroupID event) = Some src ->
  enrich r event = Some (with_containers event src None).
Proof.
  intros Hd Hs. unfold enrich. rewrite Hs. simpl. unfold enrich_dst, resolve_dst. rewrite Hd. simpl.
  unfold filtered. by rewrite !andb_false_r.
Qed.

(** From the system call to the line of output: an open or an execution that
    a probe submits from a known container is printed, and given to the rules,
    exactly once, with the path, the caller and the container, whatever the
    filter, the ring buffer's old bytes and the goroutines' interleaving. *)
Theorem syscall_is_printed (rs : list Rule) (r : Resolver) (s : sys) (iv : invocation)
    (stale : list byte) (ctx : Z) (record : list byte) (src : ContainerInfo) :
  at_rest rs r s -> no_sequences rs -> invocation_ok iv -> event_bytes stale ->
  Resolve (resolver s) (cur_cgroup_id iv) = Some src ->
  (handle_openat iv (Some stale) ctx = Submitted record ->
   prints s record (with_containers (openat_core_event bootTime iv ctx) src None)) /\
  (handle_execve iv (Some stale) ctx = Submitted record ->
   prints s record (with_containers (execve_core_event bootTime iv ctx) src None)).
Proof.
  intros Hrest Hns Hiv Hst Hsrc. split; intros Hr.
  - destruct (openat_record bootTime iv stale ctx record Hiv Hst Hr) as (m & Hm & Hty & He).
    apply (rest_prints rs r s record (openat_core_event bootTime iv ctx)); [done|done| |by apply enrich_source].
    unfold record_events. by rewrite Hm, Hty, <- He.
  - destruct (execve_record bootTime iv stale ctx record Hiv Hst Hr) as (m & Hm & Hty & He).
    apply (rest_prints rs r s record (execve_core_event bootTime iv ctx)); [done|done| |by apply enrich_source].
    unfold record_events. by rewrite Hm, Hty, <- He.
Qed.

Lemma record_op_events st record la lp ra rp cg pid comm entry :
  record_op record = Some (OpAccept la lp ra rp cg pid comm) ->
  pending (corr st) !! {| IC_SrcAddr := ra; IC_SrcPort := rp; IC_DstAddr := la; IC_DstPort := lp |} = Some entry ->
  record_events st record = [connection_event entry la lp ra rp cg pid comm].
Proof.
  unfold record_op, record_events. destruct (ParseEvent record) as [m|]; simpl; [|discriminate].
  unfold values_op. simpl. destruct (_ =? _); [discriminate|]. destruct (_ =? _); [|discriminate].
  intros [= <- <- <- <- <- <- <-] Hp. by rewrite Hp.
Qed.

(** Likewise a connection: when the connect of the one end is pending, the
    accept of the other end that the probe submits is printed, and given to the
    rules, exactly once, as the connection between both ends, if the source is
    a known container and the filter keeps the two. *)
Theorem connection_is_printed (rs : list Rule) (r : Resolver) (s : sys) (iv1 iv2 : invocation)
    (stale record : list byte) (sk1 sk2 : Z) (src : ContainerInfo) :
  let event := connection_core_event bootTime iv1 iv2 sk1 in
  let dst := resolve_dst (resolver s) event in
  at_rest rs r s -> no_sequences rs -> invocation_ok iv2 -> event_bytes stale ->
  pending (corr (rdr s)) !! sock_key sk1 =
    Some (connect_entry bootTime (cur_cgroup_id iv1) (tgid_of (cur_pid_tgid iv1)) (cur_comm iv1) (ktime_ns iv1)) ->
  inet_csk_accept iv2 (Some stale) sk2 = Submitted record -> two_ends sk1 sk2 ->
  Resolve (resolver s) (cur_cgroup_id iv1) = Some src -> filtered filterPrefixArg src dst = false ->
  prints s record (with_containers event src dst).
Proof.
  intros event dst Hrest Hns Hiv Hst Hpend Hr (E1 & E2 & E3 & E4) Hsrc Hf.
  apply (rest_prints rs r s record event); [done|done| |].
  - unfold sock_key in Hpend. rewrite E1, E2, E3, E4 in Hpend.
    rewrite (record_op_events _ _ _ _ _ _ _ _ _ _ (record_op_accept iv2 sk2 stale record Hiv Hst Hr) Hpend).
    unfold event, connection_core_event. by rewrite E1, E2, E3, E4.
  - unfold enrich. change (SrcCgroupID event) with (cur_cgroup_id iv1). rewrite Hsrc. simpl.
    unfold enrich_dst. fold dst. by rewrite Hf.
Qed.
End FromProbes.
End Flow.

(** ** Concrete instances *)

Lemma flow_conserved_witness :
  flow 0 "" (after [each_rule] (demo_labels ++ [LFan; LEngine; LEngine])) ≡ₚ flow 0 "" demo_state.
Proof.
  refine (flow_conserved 0 "" 0 demo_state _ _). apply rtc_once. exists LEngine.
  split; [unfold internal_labels; set_solver|]. vm_compute. reflexivity.
Defined.

(** The demonstration container is cgroup 77, from which the demonstration
    context makes its calls. *)
Lemma init_at_rest rs : at_rest 0 "" 0 rs demo_resolver (sys_init rs demo_resolver).
Proof. constructor; [constructor|done|by split_and!]. Qed.

Lemma syscall_is_printed_witness :
  exists record, @handle_openat Demo.runtime Demo.iv (Some Demo.stale) 8192 = Submitted record /\
    prints 0 "" 0 (sys_init [each_rule] demo_resolver) record
      (with_containers (@openat_core_event Demo.runtime 0 Demo.iv 8192) demo_web None).
Proof.
  eexists. split; [reflexivity|].
  refine (proj1 (@syscall_is_printed 0 "" 0 Demo.runtime Demo.runtime_laws [each_rule] demo_resolver
    (sys_init [each_rule] demo_resolver) Demo.iv Demo.stale 8192 _ demo_web _ _ _ _ _) _).
  - apply init_at_rest.
  - by repeat constructor.
  - exact Demo.iv_ok.
  - by apply Demo.stale_ok.
  - vm_compute. reflexivity.
  - reflexivity.
Defined.

(** The program at rest again after the connect of the demonstration sockets. *)
Definition connected : sys := after [each_rule] [LRead Ends.r1; LHandle].

Lemma connected_at_rest : at_rest 0 "" 0 [each_rule] demo_resolver connected.
Proof.
  constructor; [apply after_reachable|by split; vm_compute|].
  unfold quiet. split_and!; vm_compute; reflexivity.
Qed.

Lemma connection_is_printed_witness :
  let event := @connection_core_event Ends.runtime 0 Demo.iv Demo.iv 4096 in
  prints 0 "" 0 connected Ends.r2
    (with_containers event demo_web (resolve_dst (resolver connected) event)).
Proof.
  refine (@connection_is_printed 0 "" 0 Ends.runtime Ends.runtime_laws [each_rule] demo_resolver connected
    Demo.iv Demo.iv Demo.stale Ends.r2 4096 8192 demo_web _ _ _ _ _ _ _ _ _).
  - exact connected_at_rest.
  - by repeat constructor.
  - exact Demo.iv_ok.
  - by apply Demo.stale_ok.
  - vm_compute. reflexivity.
  - vm_compute. reflexivity.
  - split_and!; vm_compute; reflexivity.
  - vm_compute. reflexivity.
  - vm_compute. reflexivity.
Defined.
