(* ===== verification/Sequential.v ===== *)
(** * The goroutines against a sequential program

    A sequential reference of what the program computes: a list of the things
    that reach it from outside (records, ticks of the correlator's clean-up,
    Docker events), in the order in which it takes them up, and three folds over
    it: the file and exec events, in record order; the connections that the
    accepts complete; the states of the container cache.  In every interleaving
    of the goroutines of [Pipeline], the events that the consumers receive are an
    interleaving of the first two, each enriched and filtered with a state of
    the third; the channels neither lose, repeat nor reorder within the two. *)

From S2P Require Import Prelude.
From S2P Require Import Bytes.
From S2P Require Import GoLib.
From S2P Require Import Channel.
From S2P Require Import Core.
From S2P Require Import Helpers.
From S2P Require Import Wire.
From S2P Require Import Correlator.
From S2P Require Import Rule.
From S2P Require Import Engine.
From S2P Require Import Sequence.
From S2P Require Import Output.
From S2P Require Import Resolver.
From S2P Require Import Main.
From S2P Require Import Pipeline.
From S2P Require Import Progress.
From S2P Require Import Flow.

Open Scope Z_scope.

(** ** Interleavings of two lists *)

Inductive interleaving {A} : list A -> list A -> list A -> Prop :=
| il_nil : interleaving [] [] []
| il_left x l1 l2 l : interleaving l1 l2 l -> interleaving (x :: l1) l2 (x :: l)
| il_right x l1 l2 l : interleaving l1 l2 l -> interleaving l1 (x :: l2) (x :: l).

Create HintDb il.
#[export] Hint Constructors interleaving : il.

Lemma il_snoc_left {A} (l1 l2 l : list A) x : interleaving l1 l2 l -> interleaving (l1 ++ [x]) l2 (l ++ [x]).
Proof. induction 1; simpl; auto with il. Qed.

Lemma il_snoc_right {A} (l1 l2 l : list A) x : interleaving l1 l2 l -> interleaving l1 (l2 ++ [x]) (l ++ [x]).
Proof. induction 1; simpl; auto with il. Qed.

Lemma il_omap {A B} (f : A -> option B) l1 l2 l :
  interleaving l1 l2 l -> interleaving (omap f l1) (omap f l2) (omap f l).
Proof. induction 1; cbn [omap list_omap]; [auto with il|destruct (f x); auto with il..]. Qed.

Lemma il_filter {A} (p : A -> bool) l1 l2 l :
  interleaving l1 l2 l -> interleaving (List.filter p l1) (List.filter p l2) (List.filter p l).
Proof. induction 1; cbn [List.filter]; [auto with il|destruct (p x); auto with il..]. Qed.

Lemma il_nil_left {A} (l2 l : list A) : interleaving [] l2 l -> l = l2.
Proof. remember [] as l1 eqn:E. induction 1; [done|done|by rewrite IHinterleaving]. Qed.

Lemma il_nil_right {A} (l1 l : list A) : interleaving l1 [] l -> l = l1.
Proof. remember [] as l2 eqn:E. induction 1; [done|by rewrite IHinterleaving|done]. Qed.

#[export] Hint Resolve il_snoc_left il_snoc_right : il.

(** ** The sequential reference *)

#[local] Abbreviation pending_map := (gmap IncompleteConnection PendingConnectionEntry).

(** What the program takes up from outside. *)
Inductive stimulus :=
| StRecord (record : list byte)
| StTick (now : Z)
| StDocker (ev : docker_event).

Section Reference.
Variables (bootTime : Z) (filterPrefixArg : string).

(** The file or exec event that a record is. *)
Definition direct_event (record : list byte) : option Event :=
  match ParseEvent record with
  | None => None
  | Some m =>
      if EvType m =? GO_EVENT_NET_CONNECT then None
      else if EvType m =? GO_EVENT_NET_ACCEPT then None
      else if EvType m =? GO_EVENT_FILE_OPEN then Some (file_open_event bootTime m)
      else if EvType m =? GO_EVENT_EXEC then Some (exec_event bootTime m)
      else None
  end.

Definition direct_of (x : stimulus) : option Event :=
  match x with StRecord record => direct_event record | _ => None end.

Definition direct_events (xs : list stimulus) : list Event := omap direct_of xs.

(** The correlator's operation that a stimulus is; a clean-up looks at the whole map. *)
Definition op_of (x : stimulus) : option corr_op :=
  match x with
  | StRecord record => record_op record
  | StTick now => Some (OpTick now [])
  | StDocker _ => None
  end.

(** A correlator with no channel to wait for: the connects pending and the
    connections completed. *)
Definition pair_op (st : pending_map * list Event) (op : corr_op) : pending_map * list Event :=
  let '(m, done) := st in
  match op with
  | OpConnect sa sp da dp cg pid comm ts =>
      (<[{| IC_SrcAddr := sa; IC_SrcPort := sp; IC_DstAddr := da; IC_DstPort := dp |} :=
         connect_entry bootTime cg pid comm ts]> m, done)
  | OpAccept la lp ra rp cg pid comm =>
      let k := {| IC_SrcAddr := ra; IC_SrcPort := rp; IC_DstAddr := la; IC_DstPort := lp |} in
      match m !! k with
      | Some entry => (delete k m, done ++ [connection_event entry la lp ra rp cg pid comm])
      | None => (m, done)
      end
  | OpTick now _ => (filter (fun kv => expired now (5 * Second) (snd kv) = false) m, done)
  end.

Definition pair_step (st : pending_map * list Event) (x : stimulus) : pending_map * list Event :=
  match op_of x with Some op => pair_op st op | None => st end.

Definition pair_run (xs : list stimulus) : pending_map * list Event := fold_left pair_step xs (∅, []).

(** The cache, whether the Docker monitor still runs, and the caches so far. *)
Record docker_run := { dr_now : Resolver; dr_on : bool; dr_seen : list Resolver }.

Definition docker_step (d : docker_run) (x : stimulus) : docker_run :=
  match x with
  | StDocker ev =>
      if dr_on d then
        match monitor_step (dr_now d) ev with
        | Ret (r, on) => {| dr_now := r; dr_on := on; dr_seen := dr_seen d ++ [r] |}
        | Panic _ => d
        end
      else d
  | _ => d
  end.

Definition resolvers (r : Resolver) (xs : list stimulus) : docker_run :=
  fold_left docker_step xs {| dr_now := r; dr_on := true; dr_seen := [r] |}.

(** ** What the fan-out makes of an event

    Its two lookups may see different caches. *)

Inductive fate (R : list Resolver) (e : Event) : option Event -> Prop :=
| fate_unknown r :
    r ∈ R -> Resolve r (SrcCgroupID e) = None -> fate R e None
| fate_dropped r1 r2 src :
    r1 ∈ R -> r2 ∈ R -> Resolve r1 (SrcCgroupID e) = Some src ->
    filtered filterPrefixArg src (resolve_dst r2 e) = true -> fate R e None
| fate_kept r1 r2 src :
    r1 ∈ R -> r2 ∈ R -> Resolve r1 (SrcCgroupID e) = Some src ->
    filtered filterPrefixArg src (resolve_dst r2 e) = false ->
    fate R e (Some (with_containers e src (resolve_dst r2 e))).

(** The events [es], each with its fate, leave the events [es']. *)
Inductive fanned (R : list Resolver) : list Event -> list Event -> Prop :=
| fanned_nil : fanned R [] []
| fanned_snoc es es' e o :
    fanned R es es' -> fate R e o -> fanned R (es ++ [e]) (es' ++ option_list o).

Lemma fate_mono R R' e o : R ⊆ R' -> fate R e o -> fate R' e o.
Proof.
  intros Hs. destruct 1 as [r Hr|r1 r2 src H1 H2|r1 r2 src H1 H2]; [apply (fate_unknown _ _ r)|
    apply (fate_dropped _ _ r1 r2 src)|apply (fate_kept _ _ r1 r2 src)]; auto.
Qed.

Lemma fanned_mono R R' es es' : R ⊆ R' -> fanned R es es' -> fanned R' es es'.
Proof. intros Hs. induction 1; [constructor|]. constructor; [done|]. by apply (fate_mono R). Qed.

(** With one cache, the fan-out is a function. *)
Lemma fate_one r e o : fate [r] e o -> o = enrich filterPrefixArg r e.
Proof.
  unfold enrich, enrich_dst. destruct 1 as [r' Hr Hs|r1 r2 src H1 H2 Hs Hf|r1 r2 src H1 H2 Hs Hf];
    repeat match goal with H : _ ∈ [_] |- _ => apply list_elem_of_singleton in H; subst end;
    rewrite Hs; simpl; [done|by rewrite Hf..].
Qed.

Lemma fanned_one r es es' : fanned [r] es es' -> es' = omap (enrich filterPrefixArg r) es.
Proof.
  induction 1 as [|es es' e o _ -> Hf]; [done|]. apply fate_one in Hf as ->. rewrite omap_app. simpl.
  by destruct (enrich _ _ _).
Qed.
End Reference.

(** ** Runs and what they take up *)

Section Runs.
Variables (bootTime : Z) (filterPrefixArg : string) (zone : Z).

(** What the goroutine takes up that moves: the reader its record, the clean-up
    its tick, the Docker monitor its event. *)
Definition taken_up (s : sys) (l : label) : list stimulus :=
  match l with
  | LHandle => match rd_at s with RdGot record => [StRecord record] | RdReading => [] end
  | LTick now => [StTick now]
  | LDocker ev => [StDocker ev]
  | _ => []
  end.

(** [ran rs r xs s]: some run has come to [s], taking up [xs] on the way. *)
Inductive ran (rs : list Rule) (r : Resolver) : list stimulus -> sys -> Prop :=
| ran_init : ran rs r [] (sys_init rs r)
| ran_step xs s l s' :
    ran rs r xs s -> sys_step bootTime filterPrefixArg zone s l = Ret (Some s') ->
    ran rs r (xs ++ taken_up s l) s'.

Lemma ran_reachable rs r xs s : ran rs r xs s -> reachable bootTime filterPrefixArg zone rs r s.
Proof. induction 1 as [|xs s l s' _ IH Hs]; [constructor|]. by apply (reach_step _ _ _ _ _ s l). Qed.

Lemma reachable_ran rs r s : reachable bootTime filterPrefixArg zone rs r s -> exists xs, ran rs r xs s.
Proof.
  induction 1 as [|s l s' _ [xs IH] Hs]; [exists []; constructor|].
  exists (xs ++ taken_up s l). by apply (ran_step rs r xs s l).
Qed.

(** The event that the fan-out has taken and whose fate is open. *)
Definition undecided (x : fan_state) : list Event :=
  match x with FanSrc e | FanDst e _ => [e] | _ => [] end.
(** The event it is about to send to the output loop. *)
Definition decided (x : fan_state) : list Event :=
  match x with FanOutput e => [e] | _ => [] end.

(** The events that have entered the event channel, each with the goroutine it
    came from: the reader ([true]) or the forwarder. *)
Definition tagged (b : bool) (en : list (bool * Event)) : list Event :=
  map snd (List.filter (fun p => Bool.eqb (fst p) b) en).

Definition entering (s : sys) (l : label) (s' : sys) : list (bool * Event) :=
  let new := drop (length (ch_buf (eventsCh (rdr s)))) (ch_buf (eventsCh (rdr s'))) in
  match l with LHandle => map (pair true) new | LForward => map (pair false) new | _ => [] end.

Lemma tagged_app b en en' : tagged b (en ++ en') = tagged b en ++ tagged b en'.
Proof. unfold tagged. by rewrite List.filter_app, map_app. Qed.

Lemma tagged_same b l : tagged b (map (pair b) l) = l.
Proof. unfold tagged. induction l as [|e l IH]; [done|]. simpl. rewrite eqb_reflx. simpl. by rewrite IH. Qed.

Lemma tagged_other b l : tagged b (map (pair (negb b)) l) = [].
Proof. unfold tagged. induction l as [|e l IH]; [done|]. simpl. by destruct b. Qed.

Lemma tagged_snd (b : bool) (l : list Event) : map snd (map (pair b) l) = l.
Proof. rewrite map_map. apply map_id. Qed.

Lemma tagged_interleave en : interleaving (tagged true en) (tagged false en) (map snd en).
Proof.
  unfold tagged. induction en as [|[[|] e] en IH]; simpl; auto with il.
Qed.

(** The goroutines' state against the reference on what they have taken up and
    what has entered the event channel. *)
Record refines (r : Resolver) (xs : list stimulus) (en : list (bool * Event)) (s : sys) : Prop := {
  rf_pending : pending (corr (rdr s)) = fst (pair_run bootTime xs);
  rf_timeout : timeout (corr (rdr s)) = 5 * Second;
  rf_resolver : resolver s = dr_now (resolvers r xs);
  rf_docker : docker_on s = dr_on (resolvers r xs);
  rf_src : forall e src, fan_at s = FanDst e src ->
    exists r1, r1 ∈ dr_seen (resolvers r xs) /\ Resolve r1 (SrcCgroupID e) = Some src;
  rf_direct : tagged true en = direct_events bootTime xs;
  rf_connections : snd (pair_run bootTime xs) =
    tagged false en ++ fwd_events (fwd_at s) ++ ch_buf (output (corr (rdr s)));
  rf_gone : exists gone,
    map snd en = gone ++ undecided (fan_at s) ++ ch_buf (eventsCh (rdr s)) /\
    fanned filterPrefixArg (dr_seen (resolvers r xs)) gone
      (out_seen s ++ ch_buf (outputCh s) ++ decided (fan_at s))
}.

Lemma dr_now_seen r xs : dr_now (resolvers r xs) ∈ dr_seen (resolvers r xs).
Proof.
  unfold resolvers. induction xs as [|x xs IH] using rev_ind; [by left|].
  rewrite fold_left_app. simpl. set (d := fold_left _ _ _) in *. unfold docker_step.
  destruct x; try done. destruct (dr_on d); [|done].
  destruct (monitor_step _ _) as [[r' on]|]; [|done]. simpl. apply elem_of_app. right. by left.
Qed.

(** ** The steps *)

Lemma CloseCorrelator_same c c' :
  CloseCorrelator c = Ret c' ->
  pending c' = pending c /\ timeout c' = timeout c /\ ch_buf (output c') = ch_buf (output c).
Proof.
  unfold CloseCorrelator. intros (o & Ho%ch_close_buf & H)%go_bind_Ret_inv. injection H as <-. done.
Qed.

(** A record, seen by the two references. *)
Lemma handle_record_pair st record st' m done :
  timeout (corr st) = 5 * Second -> pending (corr st) = m ->
  handle_record bootTime st record = Ret (Some st') ->
  ch_buf (eventsCh st') = ch_buf (eventsCh st) ++ option_list (direct_event bootTime record) /\
  timeout (corr st') = 5 * Second /\
  exists more, pair_step bootTime (m, done) (StRecord record) = (pending (corr st'), done ++ more) /\
    ch_buf (output (corr st')) = ch_buf (output (corr st)) ++ more.
Proof.
  intros Ht <-. unfold handle_record, direct_event, pair_step, op_of, record_op, values_op.
  destruct (ParseEvent record) as [ev|]; simpl.
  2:{ intros [= <-]. rewrite app_nil_r. split_and!; [done..|]. exists []. by rewrite !app_nil_r. }
  destruct (_ =? GO_EVENT_NET_CONNECT).
  { intros [= <-]. simpl. rewrite app_nil_r. split_and!; [done..|]. exists []. by rewrite !app_nil_r. }
  destruct (_ =? GO_EVENT_NET_ACCEPT).
  - unfold HandleAccept. simpl. intros (c & Hc & H)%go_bind_Ret_inv.
    destruct (_ !! _) as [entry|].
    + apply go_bind_Ret_inv in Hc as (o & Ho & Hc).
      destruct o as [o|]; injection Hc as <-; [|discriminate]. injection H as <-. simpl.
      apply ch_send_buf in Ho. rewrite app_nil_r. split_and!; [done..|]. by eexists.
    + injection Hc as <-. injection H as <-. simpl. rewrite app_nil_r. split_and!; [done..|].
      exists []. by rewrite !app_nil_r.
  - unfold send_event. destruct (_ =? GO_EVENT_FILE_OPEN); [|destruct (_ =? GO_EVENT_EXEC)].
    3:{ intros [= <-]. simpl. rewrite app_nil_r. split_and!; [done..|]. exists []. by rewrite !app_nil_r. }
    all: intros (o & Ho & H)%go_bind_Ret_inv; destruct o as [o|]; [|discriminate];
      injection H as <-; apply ch_send_buf in Ho; simpl; split_and!; [done..|];
      exists []; by rewrite !app_nil_r.
Qed.

Lemma Cleanup_filter now c :
  pending (Cleanup_tick now (map_to_list (pending c)) c) =
  filter (fun kv => expired now (timeout c) (snd kv) = false) (pending c).
Proof.
  apply map_eq. intros k. rewrite Cleanup_lookup by done. rewrite map_lookup_filter.
  destruct (pending c !! k) as [e|]; simpl; [|done].
  destruct (expired now (timeout c) e) eqn:E; simpl; repeat case_guard; simpl in *; congruence.
Qed.

Lemma pair_run_snoc xs x : pair_run bootTime (xs ++ [x]) = pair_step bootTime (pair_run bootTime xs) x.
Proof. unfold pair_run. by rewrite fold_left_app. Qed.

Lemma resolvers_snoc r xs x : resolvers r (xs ++ [x]) = docker_step (resolvers r xs) x.
Proof. unfold resolvers. by rewrite fold_left_app. Qed.

Lemma direct_events_snoc xs x :
  direct_events bootTime (xs ++ [x]) = direct_events bootTime xs ++ option_list (direct_of bootTime x).
Proof. unfold direct_events. rewrite omap_app. simpl. by destruct (direct_of bootTime x). Qed.

Lemma handle_refines r xs en s record s' :
  refines r xs en s -> rd_at s = RdGot record ->
  live_step bootTime filterPrefixArg zone s LHandle = Ret (Some s') ->
  refines r (xs ++ [StRecord record]) (en ++ entering s LHandle s') s'.
Proof.
  intros [Hp Ht Hr Hd Hs He Hc (gone & Hi & Hf)] Hrd. cbn [live_step]. rewrite Hrd.
  intros (st & Hst & ->)%then_inv.
  destruct (handle_record_pair _ _ _ _ (snd (pair_run bootTime xs)) Ht Hp Hst) as (Hev & Ht' & more & Hpair & Ho).
  rewrite <- surjective_pairing in Hpair.
  assert (Hen : entering s LHandle (set_rd_at (set_rdr s st) RdReading) =
    map (pair true) (option_list (direct_event bootTime record))).
  { unfold entering. simpl. by rewrite Hev, drop_app_length. }
  rewrite Hen. constructor; rewrite ?pair_run_snoc, ?resolvers_snoc, ?Hpair, ?tagged_app; try done; simpl.
  - by rewrite tagged_same, He, direct_events_snoc.
  - rewrite (tagged_other false), app_nil_r, Ho, Hc. by rewrite <- !app_assoc.
  - exists gone. split; [|done]. by rewrite map_app, tagged_snd, Hi, Hev, <- !app_assoc.
Qed.

(** Only these parts of the state matter. *)
Lemma refines_frame r xs en s s' :
  pending (corr (rdr s')) = pending (corr (rdr s)) -> timeout (corr (rdr s')) = timeout (corr (rdr s)) ->
  ch_buf (output (corr (rdr s'))) = ch_buf (output (corr (rdr s))) ->
  ch_buf (eventsCh (rdr s')) = ch_buf (eventsCh (rdr s)) ->
  fwd_events (fwd_at s') = fwd_events (fwd_at s) -> fan_at s' = fan_at s ->
  out_seen s' ++ ch_buf (outputCh s') = out_seen s ++ ch_buf (outputCh s) ->
  resolver s' = resolver s -> docker_on s' = docker_on s ->
  refines r xs en s -> refines r xs en s'.
Proof.
  intros H1 H2 H3 H4 H5 H6 H7 H8 H9 [Hp Ht Hr Hd Hs He Hc (gone & Hi & Hf)].
  constructor; [congruence|congruence|congruence|congruence|by rewrite H6|done|by rewrite H3, H5|].
  exists gone. by rewrite H4, H6, (app_assoc (out_seen s')), H7, <- app_assoc.
Qed.

Lemma forward_refines r xs en s s' :
  refines r xs en s -> forward_step s = Ret (Some s') -> refines r xs (en ++ entering s LForward s') s'.
Proof.
  intros Hi. pose proof Hi as [Hp Ht Hr Hd Hs He Hc (gone & Hg & Hf)].
  unfold forward_step. destruct (fwd_at s) as [|e|] eqn:Ef.
  - destruct (ch_recv _) as [| |e c] eqn:Hrec; [discriminate|..].
    + intros (c & Hcl & H)%go_bind_Ret_inv. injection H as <-. apply ch_close_buf in Hcl.
      unfold entering. simpl. rewrite Hcl, drop_all, app_nil_r.
      apply (refines_frame r xs en s); simpl; rewrite ?Hcl, ?Ef; done.
    + intros [= <-]. apply ch_recv_value in Hrec as [Hb _]. unfold entering. simpl.
      rewrite drop_all, app_nil_r. constructor; try done; [simpl; by rewrite Hc, Hb|by exists gone].
  - intros (c & Hsend & ->)%then_inv. apply ch_send_buf in Hsend. unfold entering. simpl.
    rewrite Hsend, drop_app_length. simpl. constructor; try done; simpl.
    + rewrite tagged_app, He. apply app_nil_r.
    + rewrite tagged_app, Hc, <- app_assoc. reflexivity.
    + exists gone. by rewrite map_app, Hg, Hsend, <- !app_assoc.
  - discriminate.
Qed.

Lemma fan_refines r xs en s s' :
  refines r xs en s -> fan_step filterPrefixArg s = Ret (Some s') -> refines r xs en s'.
Proof.
  intros [Hp Ht Hr Hd Hs He Hc (gone & Hg & Hf)].
  pose proof (dr_now_seen r xs) as Hnow. rewrite <- Hr in Hnow.
  unfold fan_step. destruct (fan_at s) as [|e|e src|e|e|] eqn:Ef; simpl in *.
  - destruct (ch_recv _) as [| |e c] eqn:Hrec; [discriminate|intros [= <-]..].
    + constructor; try done. by exists gone.
    + apply ch_recv_value in Hrec as [Hb _]. constructor; try done. exists gone. simpl. by rewrite <- Hb.
  - destruct (Resolve _ _) as [src|] eqn:Hsrc; intros [= <-].
    + constructor; try done; [intros e' src' [= <- <-]; by exists (resolver s)|]. by exists gone.
    + constructor; try done. exists (gone ++ [e]). simpl. rewrite <- app_assoc.
      split; [done|]. rewrite <- (app_nil_r (_ ++ ch_buf _ ++ [])).
      apply (fanned_snoc _ _ _ _ _ None); [done|]. by apply (fate_unknown _ _ _ (resolver s)).
  - destruct (Hs e src eq_refl) as (r1 & Hr1 & Hsrc).
    destruct (filtered _ _ _) eqn:Hfil; intros [= <-]; (constructor; try done);
      exists (gone ++ [e]); simpl; rewrite <- app_assoc; (split; [done|]).
    + rewrite <- (app_nil_r (_ ++ ch_buf _ ++ [])).
      apply (fanned_snoc _ _ _ _ _ None); [done|]. by apply (fate_dropped _ _ _ r1 (resolver s) src).
    + rewrite app_nil_r in Hf. rewrite app_assoc.
      apply (fanned_snoc _ _ _ _ _ (Some _)); [done|]. by apply (fate_kept _ _ _ r1 (resolver s) src).
  - intros (c & Hsend & ->)%then_inv. apply ch_send_buf in Hsend. constructor; try done.
    exists gone. simpl. by rewrite Hsend, app_nil_r.
  - intros (c & Hsend & ->)%then_inv. constructor; try done. by exists gone.
  - discriminate.
Qed.

Lemma tick_refines r xs en s now s' :
  refines r xs en s -> live_step bootTime filterPrefixArg zone s (LTick now) = Ret (Some s') ->
  refines r (xs ++ [StTick now]) en s'.
Proof.
  intros [Hp Ht Hr Hd Hs He Hc Hg]. cbn [live_step]. intros [= <-].
  pose proof (Cleanup_filter now (corr (rdr s))) as Hcl. rewrite Ht in Hcl.
  constructor; rewrite ?pair_run_snoc, ?resolvers_snoc; try done.
  - cbn [rdr set_corr set_rdr corr]. rewrite Hcl, Hp. unfold pair_step. simpl. by destruct (pair_run bootTime xs).
  - by rewrite direct_events_snoc, app_nil_r.
  - simpl. rewrite <- Hc. unfold pair_step. simpl. by destruct (pair_run bootTime xs).
Qed.

Lemma docker_refines r xs en s ev s' :
  refines r xs en s -> live_step bootTime filterPrefixArg zone s (LDocker ev) = Ret (Some s') ->
  refines r (xs ++ [StDocker ev]) en s'.
Proof.
  intros [Hp Ht Hr Hd Hs He Hc (gone & Hg & Hf)]. cbn [live_step].
  destruct (docker_on s) eqn:Hon; [|discriminate].
  intros ([r' on] & Hm & H)%go_bind_Ret_inv. injection H as <-.
  assert (Hstep : docker_step (resolvers r xs) (StDocker ev) =
    {| dr_now := r'; dr_on := on; dr_seen := dr_seen (resolvers r xs) ++ [r'] |}).
  { unfold docker_step. by rewrite <- Hd, <- Hr, Hm. }
  assert (Hsub : dr_seen (resolvers r xs) ⊆ dr_seen (resolvers r xs) ++ [r']) by set_solver.
  constructor; rewrite ?pair_run_snoc, ?resolvers_snoc, ?Hstep; try done.
  - intros e src Hfan. destruct (Hs e src Hfan) as (r1 & H1 & H2). exists r1. split; [by apply Hsub|done].
  - by rewrite direct_events_snoc, app_nil_r.
  - exists gone. split; [done|]. by apply (fanned_mono _ _ _ _ _ Hsub).
Qed.

(** The rest of the goroutines touch none of this. *)
Lemma other_refines r xs en s l s' :
  refines r xs en s ->
  match l with LHandle | LForward | LFan | LTick _ | LDocker _ => False | _ => True end ->
  live_step bootTime filterPrefixArg zone s l = Ret (Some s') -> refines r xs en s'.
Proof.
  intros Hi Hl H. apply (refines_frame r xs en s); [..|exact Hi];
    destruct l; try done; live_step_inv H; try done; unfold out_seen; simpl;
    repeat match goal with
    | E : ch_recv _ = RecvValue _ _ |- _ => apply ch_recv_value in E as [-> _]
    | E : ch_close _ = Ret _ |- _ => apply ch_close_buf in E
    | E : CloseCorrelator _ = Ret _ |- _ => apply CloseCorrelator_same in E as (? & ? & ?)
    end; rewrite ?omap_app; simpl; rewrite ?app_nil_r, <- ?app_assoc; simpl; congruence.
Qed.

Lemma step_refines r xs en s l s' :
  refines r xs en s -> sys_step bootTime filterPrefixArg zone s l = Ret (Some s') ->
  refines r (xs ++ taken_up s l) (en ++ entering s l s') s'.
Proof.
  intros Hi [_ Hs]%sys_step_live.
  destruct l; cbn [taken_up];
    try (cbn [entering]; rewrite ?app_nil_r; apply (fun K => other_refines r xs en s _ _ Hi K Hs); exact I).
  - destruct (rd_at s) as [|record] eqn:Er; [cbn [live_step] in Hs; by rewrite Er in Hs|].
    by apply (handle_refines r xs en s).
  - rewrite app_nil_r. by apply (forward_refines r xs en s).
  - cbn [entering]. rewrite !app_nil_r. by apply (fan_refines r xs en s).
  - cbn [entering]. rewrite app_nil_r. by apply (tick_refines r xs en s).
  - cbn [entering]. rewrite app_nil_r. by apply (docker_refines r xs en s).
Qed.

Lemma init_refines rs r : refines r [] [] (sys_init rs r).
Proof. constructor; try done. exists []. by split; [|constructor]. Qed.

Lemma ran_refines rs r xs s : ran rs r xs s -> exists en, refines r xs en s.
Proof.
  induction 1 as [|xs s l s' _ [en IH] Hs]; [exists []; apply init_refines|].
  exists (en ++ entering s l s'). by apply step_refines.
Qed.

Lemma ran_reference rs r xs s :
  ran rs r xs s ->
  pending (corr (rdr s)) = fst (pair_run bootTime xs) /\
  exists connected gone,
    snd (pair_run bootTime xs) = connected ++ fwd_events (fwd_at s) ++ ch_buf (output (corr (rdr s))) /\
    interleaving (direct_events bootTime xs) connected
      (gone ++ undecided (fan_at s) ++ ch_buf (eventsCh (rdr s))) /\
    fanned filterPrefixArg (dr_seen (resolvers r xs)) gone
      (out_seen s ++ ch_buf (outputCh s) ++ decided (fan_at s)).
Proof.
  intros [en [Hp _ _ _ _ He Hc (gone & Hg & Hf)]]%ran_refines. split; [done|].
  exists (tagged false en), gone. rewrite <- He, <- Hg. split_and!; [done|apply tagged_interleave|done].
Qed.

(** (C4) In every interleaving of the goroutines, signals and Docker events
    included, the program is at each point the sequential reference on what it
    has taken up so far: its pending connects are the reference's; the events
    that the fan-out has taken, or will find in its channel, interleave the
    file and exec events of the records with those of the reference's
    connections that are no longer on their way to it; and of the events the
    fan-out is done with, exactly those that the cache and the filter keep have
    been sent to the output loop, enriched, in the same order. *)
Theorem goroutines_refine_reference (rs : list Rule) (r : Resolver) (xs : list stimulus) (s : sys) :
  ran rs r xs s ->
  pending (corr (rdr s)) = fst (pair_run bootTime xs) /\
  exists connected gone,
    snd (pair_run bootTime xs) = connected ++ fwd_events (fwd_at s) ++ ch_buf (output (corr (rdr s))) /\
    interleaving (direct_events bootTime xs) connected
      (gone ++ undecided (fan_at s) ++ ch_buf (eventsCh (rdr s))) /\
    fanned filterPrefixArg (dr_seen (resolvers r xs)) gone
      (out_seen s ++ ch_buf (outputCh s) ++ decided (fan_at s)).
Proof. apply ran_reference. Qed.

(** ** At rest *)

Lemma quiet_reference rs r xs s :
  ran rs r xs s -> quiet s ->
  exists events,
    interleaving (direct_events bootTime xs) (snd (pair_run bootTime xs)) events /\
    fanned filterPrefixArg (dr_seen (resolvers r xs)) events (out_seen s) /\
    out_seen s = engine_seen (eng s).
Proof.
  intros Hran (_ & Hw & Hf & _ & Hbc & Hbe & Hbo & Hbg & _).
  destruct (ran_refines rs r xs s Hran) as [en [_ _ _ _ _ He Hc (gone & Hg & Hfan)]].
  pose proof (tagged_interleave en) as Hi.
  rewrite Hw, Hbc in Hc. simpl in Hc. rewrite app_nil_r in Hc. rewrite He, <- Hc, Hg, Hf, Hbe in Hi.
  rewrite Hbo, Hf in Hfan. simpl in *. rewrite !app_nil_r in *.
  exists gone. split_and!; [done..|].
  destruct (reachable_inv _ _ _ _ _ _ (ran_reachable rs r xs s Hran)) as [_ Hsame _ _ _ _ _].
  by rewrite Hbo, Hbg, Hf, !app_nil_r in Hsame.
Qed.

(** Enriching does not change what [p] sees. *)
Definition ignores_containers (p : Event -> bool) : Prop :=
  forall e src dst, p (with_containers e src dst) = p e.

Lemma fanned_filter p R es es' :
  ignores_containers p -> fanned filterPrefixArg R es es' ->
  fanned filterPrefixArg R (List.filter p es) (List.filter p es').
Proof.
  intros Hp. induction 1 as [|es es' e o _ IH Hf]; [constructor|].
  rewrite !List.filter_app. simpl. destruct (p e) eqn:He.
  - replace (List.filter p (option_list o)) with (option_list o); [by constructor|].
    destruct Hf as [| |r1 r2 src _ _ _ _]; [done..|]. simpl. by rewrite Hp, He.
  - replace (List.filter p (option_list o)) with (@nil Event); [by rewrite !app_nil_r|].
    destruct Hf as [| |r1 r2 src _ _ _ _]; [done..|]. simpl. by rewrite Hp, He.
Qed.

Lemma fanned_times R es es' :
  fanned filterPrefixArg R es es' -> map Timestamp es' `sublist_of` map Timestamp es.
Proof.
  induction 1 as [|es es' e o _ IH Hf]; [done|]. rewrite !map_app. apply sublist_app; [exact IH|].
  destruct Hf; simpl; [apply sublist_nil_l..|]. done.
Qed.
End Runs.

(** ** The two sources apart *)

Definition is_connection (e : Event) : bool := bool_decide (EventType e = "connection").
Definition is_direct (e : Event) : bool := negb (is_connection e).

Section Sources.
Variable bootTime : Z.

Lemma BytesToIPv4_nonempty a : BytesToIPv4 a <> "".
Proof.
  intros H%(f_equal bytes_of). unfold BytesToIPv4, ip_string in H. cbn [le_encode map] in H.
  rewrite bytes_of_join_cons in H. by apply app_nil in H as [_ ?].
Qed.

Lemma direct_event_direct record e :
  direct_event bootTime record = Some e -> is_direct e = true /\ forall k, event_of k e = false.
Proof.
  unfold direct_event. destruct (ParseEvent record) as [m|]; [|done].
  destruct (_ =? _); [done|]. destruct (_ =? _); [done|].
  destruct (_ =? _); [|destruct (_ =? _); [|done]]; intros [= <-]; (split; [done|]);
    intros k; apply bool_decide_false; intros (H & _); by apply (BytesToIPv4_nonempty (IC_SrcAddr k)).
Qed.

Lemma direct_events_filters xs :
  List.filter is_direct (direct_events bootTime xs) = direct_events bootTime xs /\
  forall k, List.filter (event_of k) (direct_events bootTime xs) = [].
Proof.
  induction xs as [|x xs [IH1 IH2]]; [done|]. unfold direct_events in *. cbn [omap list_omap].
  destruct (direct_of bootTime x) as [e|] eqn:Hx; [|done].
  destruct x; try discriminate. apply direct_event_direct in Hx as [H1 H2]. cbn [List.filter].
  rewrite H1. split; [by rewrite IH1|]. intros k. by rewrite H2.
Qed.

(** The connections a quadruple has completed are those of its automaton. *)
Lemma pair_op_key m done op k :
  addrs_u32 k -> op_u32 op ->
  let '(m', done') := pair_op bootTime (m, done) op in
  exists more, done' = done ++ more /\ Forall (fun e => is_direct e = false) more /\
    key_step bootTime (5 * Second) k (m !! k) op = (m' !! k, List.filter (event_of k) more).
Proof.
  intros Hk Hop. destruct op as [sa sp da dp cg pid comm ts|la lp ra rp cg pid comm|now entries]; simpl.
  - exists []. rewrite app_nil_r. split_and!; [done..|]. case_decide as Hd.
    + injection Hd as <-. by rewrite lookup_insert_eq.
    + rewrite lookup_insert_ne by congruence. done.
  - destruct Hop as [Hl Hr]. destruct (m !! _) as [entry|] eqn:Hm.
    + eexists. split_and!; [done|by repeat constructor|]. simpl.
      rewrite event_of_connection_event by assumption. case_decide as Hd.
      * injection Hd as Hd. rewrite bool_decide_true by assumption. subst k.
        by rewrite Hm, lookup_delete_eq.
      * rewrite bool_decide_false by congruence. by rewrite lookup_delete_ne by congruence.
    + exists []. rewrite app_nil_r. split_and!; [done..|]. case_decide as Hd; [|done].
      injection Hd as <-. by rewrite Hm.
  - exists []. rewrite app_nil_r. split_and!; [done..|]. rewrite map_lookup_filter.
    destruct (m !! k) as [e|]; simpl; [|done].
    destruct (expired now (5 * Second) e) eqn:E; simpl; repeat case_guard; simpl in *; congruence.
Qed.

Lemma pair_ops_key k ops : forall m done,
  addrs_u32 k -> Forall op_u32 ops ->
  let '(m', done') := fold_left (pair_op bootTime) ops (m, done) in
  exists more, done' = done ++ more /\ Forall (fun e => is_direct e = false) more /\
    key_run bootTime (5 * Second) k (m !! k) ops = (m' !! k, List.filter (event_of k) more).
Proof.
  induction ops as [|op ops IH]; intros m done Hk Hops; cbn [fold_left key_run].
  { exists []. by rewrite app_nil_r. }
  apply Forall_cons_1 in Hops as [Hop Hops]. pose proof (pair_op_key m done op k Hk Hop) as H1.
  destruct (pair_op bootTime (m, done) op) as [m1 done1]. destruct H1 as (more1 & -> & Hd1 & Hs1).
  specialize (IH m1 (done ++ more1) Hk Hops).
  destruct (fold_left (pair_op bootTime) ops (m1, done ++ more1)) as [m2 done2].
  destruct IH as (more2 & -> & Hd2 & Hs2). exists (more1 ++ more2). rewrite Hs1, Hs2, List.filter_app.
  split_and!; [by rewrite app_assoc|by apply Forall_app|done].
Qed.

Lemma pair_run_ops xs : pair_run bootTime xs = fold_left (pair_op bootTime) (omap op_of xs) (∅, []).
Proof.
  unfold pair_run. generalize (@empty pending_map _, @nil Event) as st.
  induction xs as [|x xs IH]; intros st; [done|]. cbn [fold_left omap list_omap]. rewrite IH.
  unfold pair_step. by destruct (op_of x).
Qed.

Lemma op_of_u32 xs : Forall op_u32 (omap op_of xs).
Proof.
  induction xs as [|x xs IH]; [constructor|]. cbn [omap list_omap].
  destruct (op_of x) as [op|] eqn:Hx; [|done]. constructor; [|done].
  destruct x; [by apply (record_op_u32 record)|by injection Hx as <-|discriminate].
Qed.

Lemma pair_run_key k xs :
  addrs_u32 k ->
  key_run bootTime (5 * Second) k None (omap op_of xs) =
    (fst (pair_run bootTime xs) !! k, List.filter (event_of k) (snd (pair_run bootTime xs))).
Proof.
  intros Hk. rewrite pair_run_ops. pose proof (pair_ops_key k (omap op_of xs) ∅ [] Hk (op_of_u32 xs)) as H.
  destruct (fold_left _ _ _) as [m' done']. destruct H as (more & -> & _ & H).
  rewrite lookup_empty in H. exact H.
Qed.

Lemma pair_run_connections xs : List.filter is_direct (snd (pair_run bootTime xs)) = [].
Proof.
  rewrite pair_run_ops.
  pose proof (pair_ops_key {| IC_SrcAddr := 0; IC_SrcPort := 0; IC_DstAddr := 0; IC_DstPort := 0 |}
    (omap op_of xs) ∅ [] ltac:(done) (op_of_u32 xs)) as H.
  destruct (fold_left _ _ _) as [m' done']. destruct H as (more & -> & H & _). simpl.
  induction H as [|e l He _ IH]; [done|]. simpl. by rewrite He.
Qed.
End Sources.

Section AtRest.
Variables (bootTime : Z) (filterPrefixArg : string) (zone : Z).

Lemma quiet_sources rs r xs s :
  ran bootTime filterPrefixArg zone rs r xs s -> quiet s ->
  fanned filterPrefixArg (dr_seen (resolvers r xs)) (direct_events bootTime xs)
    (List.filter is_direct (out_seen s)) /\
  forall k, addrs_u32 k ->
    fanned filterPrefixArg (dr_seen (resolvers r xs))
      (snd (key_run bootTime (5 * Second) k None (omap op_of xs)))
      (List.filter (event_of k) (out_seen s)).
Proof.
  intros Hran Hq. destruct (quiet_reference _ _ _ _ _ _ _ Hran Hq) as (events & Hi & Hf & _).
  destruct (direct_events_filters bootTime xs) as [Hd Hk]. split.
  - apply (fanned_filter _ is_direct) in Hf; [|done]. apply (il_filter is_direct) in Hi.
    rewrite Hd, pair_run_connections in Hi. apply il_nil_right in Hi. by rewrite Hi in Hf.
  - intros k Hu. apply (fanned_filter _ (event_of k)) in Hf; [|done]. apply (il_filter (event_of k)) in Hi.
    rewrite Hk in Hi. apply il_nil_left in Hi. rewrite Hi in Hf. by rewrite (pair_run_key bootTime k xs Hu).
Qed.

(** Once the program is at rest, after any run, what has been output is known
    from what it has taken up.  The file and exec events are those of the
    records, in their order, each enriched or left out as the cache and the
    filter say.  The connections between any two endpoints are, in order, those
    that the automaton of the quadruple makes of the connects, accepts and
    clean-ups, whatever else goes on.  The engine has received the same. *)
Theorem output_by_source (rs : list Rule) (r : Resolver) (xs : list stimulus) (s : sys) :
  ran bootTime filterPrefixArg zone rs r xs s -> quiet s ->
  let R := dr_seen (resolvers r xs) in
  fanned filterPrefixArg R (direct_events bootTime xs) (List.filter is_direct (out_seen s)) /\
  (forall k, addrs_u32 k ->
     fanned filterPrefixArg R (snd (key_run bootTime (5 * Second) k None (omap op_of xs)))
       (List.filter (event_of k) (out_seen s))) /\
  out_seen s = engine_seen (eng s).
Proof.
  intros Hran Hq R. destruct (quiet_sources rs r xs s Hran Hq) as [H1 H2].
  destruct (quiet_reference _ _ _ _ _ _ _ Hran Hq) as (_ & _ & _ & H3). done.
Qed.

(** The stimuli of a schedule. *)
Fixpoint stimuli (s : sys) (ls : list label) : list stimulus :=
  match ls with
  | [] => []
  | l :: ls =>
      match sys_step bootTime filterPrefixArg zone s l with
      | Ret (Some s') => taken_up s l ++ stimuli s' ls
      | _ => []
      end
  end.

Lemma run_ran rs r ls : forall xs s s',
  ran bootTime filterPrefixArg zone rs r xs s ->
  run bootTime filterPrefixArg zone s ls = Ret (Some s') ->
  ran bootTime filterPrefixArg zone rs r (xs ++ stimuli s ls) s'.
Proof.
  induction ls as [|l ls IH]; intros xs s s' Hs; simpl; [intros [= <-]; by rewrite app_nil_r|].
  destruct (sys_step bootTime filterPrefixArg zone s l) as [[s1|]|p] eqn:E; try discriminate.
  intros H. rewrite app_assoc. apply (IH _ s1 s'); [|exact H]. by apply (ran_step _ _ _ _ _ xs s l).
Qed.
End AtRest.

(** ** A concrete run

    A connection and an open, the open's record being read before the accept's
    but handled by the fan-out first; then everything drains. *)

Definition demo_stream : list label :=
  [LRead Ends.r1; LHandle; LRead demo_record; LHandle; LTick Second; LRead Ends.r2; LHandle;
   LForward; LFan; LFan; LFan; LForward; LFan; LFan; LFan; LFan; LFan; LFan; LFan;
   LOutEvent; LEngine; LEngine; LEngine; LEngine; LEngine; LOutEvent; LOutAlert;
   LEngine; LEngine; LEngine; LEngine].

Definition demo_stimuli : list stimulus := stimuli 0 "" 0 (sys_init [each_rule] demo_resolver) demo_stream.

Lemma demo_ran :
  ran 0 "" 0 [each_rule] demo_resolver demo_stimuli (after [each_rule] demo_stream).
Proof.
  apply (run_ran 0 "" 0 [each_rule] demo_resolver demo_stream [] _ _ (ran_init _ _ _ _ _)).
  vm_compute. reflexivity.
Qed.

Lemma goroutines_refine_reference_witness :
  let s := after [each_rule] demo_stream in
  pending (corr (rdr s)) = fst (pair_run 0 demo_stimuli) /\
  exists connected gone,
    snd (pair_run 0 demo_stimuli) = connected ++ fwd_events (fwd_at s) ++ ch_buf (output (corr (rdr s))) /\
    interleaving (direct_events 0 demo_stimuli) connected
      (gone ++ undecided (fan_at s) ++ ch_buf (eventsCh (rdr s))) /\
    fanned "" (dr_seen (resolvers demo_resolver demo_stimuli)) gone
      (out_seen s ++ ch_buf (outputCh s) ++ decided (fan_at s)).
Proof. intros s. exact (goroutines_refine_reference 0 "" 0 [each_rule] demo_resolver demo_stimuli s demo_ran). Defined.

Lemma output_by_source_witness :
  let s := after [each_rule] demo_stream in
  map EventType (out_seen s) = ["file_open"; "connection"] /\
  let R := dr_seen (resolvers demo_resolver demo_stimuli) in
  fanned "" R (direct_events 0 demo_stimuli) (List.filter is_direct (out_seen s)) /\
  (forall k, addrs_u32 k ->
     fanned "" R (snd (key_run 0 (5 * Second) k None (omap op_of demo_stimuli)))
       (List.filter (event_of k) (out_seen s))) /\
  out_seen s = engine_seen (eng s).
Proof.
  intros s. split; [vm_compute; reflexivity|].
  refine (output_by_source 0 "" 0 [each_rule] demo_resolver demo_stimuli s demo_ran _).
  unfold quiet. split_and!; vm_compute; reflexivity.
Defined.
