(* ===== verification/System.v ===== *)
(** * The whole: probes, ring buffer, goroutines

    The two halves of the program share the ring buffer [events], a map of the
    kernel ([bpf/monitor.c] declares it, [rd.Read] of cmd/main.go reads it).
    Its operations are an interface here, with what its documentation says of
    it as laws; the machine of this file is any ring buffer of that interface
    between the probes of [Monitor], which run concurrently, each on a kernel
    memory of its own, and the goroutines of [Pipeline].  A probe reserves a slot
    and submits its record later; others may do both in between.  What comes out
    of the machine is then a function of the probes that got a slot, in the order
    of the slots, the clean-ups and the cache: neither the interleaving, nor the
    bytes that the reservations held, nor the ring buffer's workings show. *)

From stdpp Require Import relations.
From S2P Require Import Prelude.
From S2P Require Import Bytes.
From S2P Require Import GoLib.
From S2P Require Import Channel.
From S2P Require Import Core.
From S2P Require Import Helpers.
From S2P Require Import BpfRuntime.
From S2P Require Import Monitor.
From S2P Require Import Wire.
From S2P Require Import Correlator.
From S2P Require Import Rule.
From S2P Require Import Engine.
From S2P Require Import Sequence.
From S2P Require Import Lateness.
From S2P Require Import Output.
From S2P Require Import Resolver.
From S2P Require Import Main.
From S2P Require Import Pipeline.
From S2P Require Import Progress.
From S2P Require Import Flow.
From S2P Require Import Sequential.

Open Scope Z_scope.

(** ** The ring buffer *)

(** - [rb_reserve b]: the slot of a reservation of [sizeof(struct event)], the
      bytes it holds and the buffer with it, or none when there is no room
      ([bpf_ringbuf_reserve]).
    - [rb_submit b n record]: after the submission of [record] in slot [n]
      ([bpf_ringbuf_submit]).
    - [rb_read b]: the next record and what is left ([rd.Read], which waits
      while there is none). *)
Class ring_buffer := RingBuffer {
  ring : Type;
  rb_reserve : ring -> option (nat * list byte * ring);
  rb_submit : ring -> nat -> list byte -> ring;
  rb_read : ring -> option (list byte * ring)
}.

Definition fill_slot (n : nat) (record : list byte) (slot : nat * option (list byte)) : (nat * option (list byte)) :=
  if decide (slot.1 = n) then (n, Some record) else slot.

Definition ready (slots : list (nat * option (list byte))) : Prop :=
  match slots with (_, Some _) :: _ => True | _ => False end.

(** Slots in the order of reservation, each with its record once that has been
    submitted.  Records are read in this order, each once; one that has not been
    submitted holds up those behind it. *)
Class ring_buffer_laws (B : ring_buffer) := RingBufferLaws {
  rb_slots : ring -> list (nat * option (list byte));
  reserve_slot b n stale b' :
    rb_reserve b = Some (n, stale, b') ->
    event_bytes stale /\ (n ∉ map fst (rb_slots b)) /\ rb_slots b' = rb_slots b ++ [(n, None)];
  submit_fills b n record : rb_slots (rb_submit b n record) = map (fill_slot n record) (rb_slots b);
  read_first b : rb_read b = None <-> ~ ready (rb_slots b);
  read_rest b record b' : rb_read b = Some (record, b') -> exists n, rb_slots b = (n, Some record) :: rb_slots b'
}.

(** A ring buffer with [room] slots whose reservations hold the byte [fill]: the
    interface has instances. *)
Definition fresh_slot (slots : list (nat * option (list byte))) : nat := S (list_max (map fst slots)).

Definition list_ring (room : nat) (fill : byte) : ring_buffer := {|
  ring := list (nat * option (list byte));
  rb_reserve b := if (length b <? room)%nat
                  then Some (fresh_slot b, replicate 344 fill, b ++ [(fresh_slot b, None)]) else None;
  rb_submit b n record := map (fill_slot n record) b;
  rb_read b := match b with (_, Some record) :: b => Some (record, b) | _ => None end
|}.

Lemma fresh_slot_fresh slots : fresh_slot slots ∉ map fst slots.
Proof.
  intros Hin. pose proof (list_max_le (map fst slots) (list_max (map fst slots))) as [H _].
  specialize (H (le_n _)). rewrite List.Forall_forall in H. apply list_elem_of_In, H in Hin.
  unfold fresh_slot in Hin. lia.
Qed.

#[export] Instance list_ring_laws room fill : ring_buffer_laws (list_ring room fill).
Proof.
  refine {| rb_slots b := b : @ring (list_ring room fill) |}; simpl; [|done|..].
  - intros b n stale b'. destruct (_ <? _)%nat; [|done]. intros [= <- <- <-].
    split_and!; [by apply event_bytes_344|apply fresh_slot_fresh|done].
  - intros [|[n [record|]] b]; simpl; split; naive_solver.
  - intros [|[n [record'|]] b] record b'; [done| |done]. intros [= -> ->]. by exists n.
Defined.

(** ** The probes *)

(** Where a probe is attached, and its argument. *)
Inductive probe_site :=
| AtConnect (sk : Z)
| AtAccept (sk : Z)
| AtOpenat (ctx : Z)
| AtExecve (ctx : Z).

(** A probe that fires: the kernel's memory then, and the helpers' answers. *)
Record hit := {
  hit_kernel : bpf_runtime;
  hit_iv : invocation;
  hit_site : probe_site
}.

Definition fire (h : hit) (reserve : option (list byte)) : verdict :=
  let R := hit_kernel h in
  match hit_site h with
  | AtConnect sk => tcp_connect (hit_iv h) reserve sk
  | AtAccept sk => inet_csk_accept (hit_iv h) reserve sk
  | AtOpenat ctx => handle_openat (hit_iv h) reserve ctx
  | AtExecve ctx => handle_execve (hit_iv h) reserve ctx
  end.

Definition hit_ok (h : hit) : Prop := bpf_runtime_laws (hit_kernel h) /\ invocation_ok (hit_iv h).

Section Meaning.
Variable bootTime : Z.

(** What the record of a probe means to user space. *)
Definition hit_event (h : hit) : option Event :=
  let R := hit_kernel h in
  match hit_site h with
  | AtOpenat ctx => Some (openat_core_event bootTime (hit_iv h) ctx)
  | AtExecve ctx => Some (execve_core_event bootTime (hit_iv h) ctx)
  | AtConnect _ | AtAccept _ => None
  end.

Definition hit_op (h : hit) : option corr_op :=
  let R := hit_kernel h in
  match hit_site h with
  | AtConnect sk => Some (connect_op (hit_iv h) sk)
  | AtAccept sk => Some (accept_op (hit_iv h) sk)
  | AtOpenat _ | AtExecve _ => None
  end.

Lemma fire_means h stale record :
  hit_ok h -> event_bytes stale -> fire h (Some stale) = Submitted record ->
  direct_event bootTime record = hit_event h /\ record_op record = hit_op h.
Proof.
  intros [Hl Hiv] Hst. unfold fire, hit_event, hit_op. destruct (hit_site h) as [sk|sk|ctx|ctx]; intros Hf.
  - assert (Ho := record_op_connect _ _ _ _ Hiv Hst Hf). split; [|exact Ho].
    revert Ho. unfold record_op, direct_event, values_op. destruct (ParseEvent record) as [m|]; simpl; [|done].
    destruct (EvType m =? GO_EVENT_NET_CONNECT); [done|]. destruct (EvType m =? GO_EVENT_NET_ACCEPT); done.
  - assert (Ho := record_op_accept _ _ _ _ Hiv Hst Hf). split; [|exact Ho].
    revert Ho. unfold record_op, direct_event, values_op. destruct (ParseEvent record) as [m|]; simpl; [|done].
    destruct (EvType m =? GO_EVENT_NET_CONNECT); [done|]. destruct (EvType m =? GO_EVENT_NET_ACCEPT); done.
  - destruct (openat_record bootTime _ _ _ _ Hiv Hst Hf) as (m & Hm & Hty & He).
    unfold direct_event, record_op, values_op. rewrite Hm. simpl. rewrite Hty, <- He. split; reflexivity.
  - destruct (execve_record bootTime _ _ _ _ Hiv Hst Hf) as (m & Hm & Hty & He).
    unfold direct_event, record_op, values_op. rewrite Hm. simpl. rewrite Hty, <- He. split; reflexivity.
Qed.
End Meaning.

(** ** The machine *)

Section Machine.
Context {B : ring_buffer} {Laws : ring_buffer_laws B}.
Variables (bootTime : Z) (filterPrefixArg : string) (zone : Z).

(** [filling]: the probes that have reserved a slot and not yet submitted it, each
    with the record it is to submit; [fired] is the history of the probes that
    have reserved one. *)
Record machine := {
  events : ring;
  filling : gmap nat (list byte);
  program : sys;
  fired : list hit
}.

(** What moves: a probe up to its reservation, a probe from there to its end, the
    goroutine that reads the ring buffer, or another. *)
Inductive mlabel :=
| MEnter (h : hit)
| MSubmit (n : nat)
| MRead
| MProgram (l : label).

Definition moved (m : machine) (b : ring) (s : option sys) : option machine :=
  match s with
  | Some s => Some {| events := b; filling := filling m; program := s; fired := fired m |}
  | None => None
  end.

Definition machine_step (m : machine) (x : mlabel) : go (option machine) :=
  match x with
  | MEnter h =>
      Ret (Some (match rb_reserve (events m), fire h (snd ∘ fst <$> rb_reserve (events m)) with
                 | Some (n, _, b), Submitted record =>
                     {| events := b; filling := <[n := record]> (filling m);
                        program := program m; fired := fired m ++ [h] |}
                 | _, _ => m
                 end))
  | MSubmit n =>
      Ret (match filling m !! n with
           | Some record => Some {| events := rb_submit (events m) n record; filling := delete n (filling m);
                                    program := program m; fired := fired m |}
           | None => None
           end)
  | MRead =>
      match rb_read (events m) with
      | None => Ret None
      | Some (record, b) =>
          s ← sys_step bootTime filterPrefixArg zone (program m) (LRead record);
          Ret (moved m b s)
      end
  | MProgram (LRead _) => Ret None
  | MProgram l =>
      s ← sys_step bootTime filterPrefixArg zone (program m) l;
      Ret (moved m (events m) s)
  end.

(** What the program takes up in a step of the machine. *)
Definition machine_takes (m : machine) (x : mlabel) : list stimulus :=
  match x with MProgram l => taken_up (program m) l | _ => [] end.

Definition mlabel_ok (x : mlabel) : Prop := match x with MEnter h => hit_ok h | _ => True end.

(** [machine_ran rs r xs m]: some run from an empty ring buffer and the program
    just started has come to [m]; the program took up [xs] on the way. *)
Inductive machine_ran (rs : list Rule) (r : Resolver) : list stimulus -> machine -> Prop :=
| mran_init b :
    rb_slots b = [] ->
    machine_ran rs r [] {| events := b; filling := ∅; program := sys_init rs r; fired := [] |}
| mran_step xs m x m' :
    machine_ran rs r xs m -> mlabel_ok x -> machine_step m x = Ret (Some m') ->
    machine_ran rs r (xs ++ machine_takes m x) m'.

Definition stimulus_record (x : stimulus) : option (list byte) :=
  match x with StRecord record => Some record | _ => None end.
Definition records_of (xs : list stimulus) : list (list byte) := omap stimulus_record xs.

Definition stimulus_tick (x : stimulus) : option corr_op :=
  match x with StTick now => Some (OpTick now []) | _ => None end.
(** The clean-ups among what was taken up. *)
Definition clean_ups (xs : list stimulus) : list corr_op := omap stimulus_tick xs.

Definition in_hand (x : rd_state) : list (list byte) :=
  match x with RdReading => [] | RdGot record => [record] end.

(** The record of a slot, submitted or to be. *)
Definition slot_record (f : gmap nat (list byte)) (slot : nat * option (list byte)) : list byte :=
  match slot.2 with Some record => record | None => default [] (f !! slot.1) end.

(** Every record that a probe has made has been handled, or is in hand, or in the
    buffer or on its way to it. *)
Definition accounted (xs : list stimulus) (m : machine) : list (list byte) :=
  records_of xs ++ in_hand (rd_at (program m)) ++ map (slot_record (filling m)) (rb_slots (events m)).

(** A slot is open as long as its probe runs. *)
Record slots_ok (m : machine) : Prop := {
  so_distinct : NoDup (map fst (rb_slots (events m)));
  so_open n : is_Some (filling m !! n) <-> (n, None) ∈ rb_slots (events m)
}.

Definition means (h : hit) (record : list byte) : Prop :=
  direct_event bootTime record = hit_event bootTime h /\ record_op record = hit_op h.

(** A step of the program that is not a read moves a record at most from the
    reader's hand to the stimuli. *)
Lemma step_accounted s l s' :
  sys_step bootTime filterPrefixArg zone s l = Ret (Some s') ->
  match l with LRead record => in_hand (rd_at s) = [] /\ rd_at s' = RdGot record
  | _ => in_hand (rd_at s) = records_of (taken_up s l) ++ in_hand (rd_at s') end.
Proof.
  intros [_ H]%sys_step_live. destruct l; live_step_inv H; simpl in *;
    repeat match goal with E : rd_at _ = _ |- _ => rewrite E end; done.
Qed.

Lemma moved_inv m b s m' :
  Ret (moved m b s) = Ret (Some m') ->
  exists s', s = Some s' /\ m' = {| events := b; filling := filling m; program := s'; fired := fired m |}.
Proof. destruct s as [s'|]; [|discriminate]. intros [= <-]. by exists s'. Qed.

Lemma machine_step_inv m x m' :
  machine_step m x = Ret (Some m') ->
  match x with
  | MEnter h =>
      m' = m \/ exists n stale b record, rb_reserve (events m) = Some (n, stale, b) /\
        fire h (Some stale) = Submitted record /\
        m' = {| events := b; filling := <[n := record]> (filling m);
                program := program m; fired := fired m ++ [h] |}
  | MSubmit n => exists record, filling m !! n = Some record /\
      m' = {| events := rb_submit (events m) n record; filling := delete n (filling m);
              program := program m; fired := fired m |}
  | MRead => exists record b s',
      rb_read (events m) = Some (record, b) /\
      sys_step bootTime filterPrefixArg zone (program m) (LRead record) = Ret (Some s') /\
      m' = {| events := b; filling := filling m; program := s'; fired := fired m |}
  | MProgram l => exists s',
      sys_step bootTime filterPrefixArg zone (program m) l = Ret (Some s') /\
      m' = {| events := events m; filling := filling m; program := s'; fired := fired m |} /\
      match l with LRead _ => False | _ => True end
  end.
Proof.
  destruct x as [h|n| |l]; simpl.
  - destruct (rb_reserve (events m)) as [[[n stale] b]|]; simpl; [|intros [= <-]; by left].
    destruct (fire h _) as [| |record] eqn:Hf; intros [= <-]; [by left..|]. right.
    by exists n, stale, b, record.
  - destruct (filling m !! n) as [record|]; [|discriminate]. intros [= <-]. by exists record.
  - destruct (rb_read _) as [[record b]|]; [|discriminate].
    intros (s & Hs & (s' & -> & ->)%moved_inv)%go_bind_Ret_inv. by exists record, b, s'.
  - destruct l; try discriminate;
      intros (s & Hs & (s' & -> & ->)%moved_inv)%go_bind_Ret_inv; by exists s'.
Qed.

Lemma records_of_app xs ys : records_of (xs ++ ys) = records_of xs ++ records_of ys.
Proof. apply omap_app. Qed.

(** What the operations of the ring buffer do to the slots' records. *)

Lemma slot_record_insert f n record slots :
  n ∉ map fst slots -> map (slot_record (<[n := record]> f)) slots = map (slot_record f) slots.
Proof.
  intros Hn. apply map_ext_in. intros [n' o] Hin. unfold slot_record. simpl. destruct o; [done|].
  rewrite lookup_insert_ne; [done|]. intros ->. apply Hn, list_elem_of_In. by apply (in_map fst _ (n', None)).
Qed.

Lemma open_unique (slots : list (nat * option (list byte))) n o :
  NoDup (map fst slots) -> (n, None) ∈ slots -> (n, o) ∈ slots -> o = None.
Proof.
  induction slots as [|[n' o'] slots IH]; simpl; intros Hnd H1 H2; [by apply elem_of_nil in H1|].
  apply NoDup_cons in Hnd as [Hnot Hnd].
  assert (Hfst : forall x, (n, x) ∈ slots -> n ∈ map fst slots)
    by (intros x Hx; apply list_elem_of_In, (in_map fst _ (n, x)); by apply list_elem_of_In).
  apply elem_of_cons in H1 as [H1|H1]; apply elem_of_cons in H2 as [H2|H2]; [congruence|..|by apply IH];
    destruct Hnot; [injection H1 as <- <-; by apply (Hfst o)|injection H2 as <- <-; by apply (Hfst None)].
Qed.

Lemma slot_record_fill f n record slots :
  NoDup (map fst slots) -> (n, None) ∈ slots -> f !! n = Some record ->
  map (slot_record (delete n f)) (map (fill_slot n record) slots) = map (slot_record f) slots.
Proof.
  intros Hnd Hin Hf. rewrite map_map. apply map_ext_in. intros [n' o] Ho%list_elem_of_In.
  unfold fill_slot. simpl. case_decide as E; unfold slot_record; simpl.
  - subst n'. by rewrite (open_unique slots n o), Hf.
  - destruct o; [done|]. by rewrite lookup_delete_ne.
Qed.

Lemma fill_slot_fst n record slots : map fst (map (fill_slot n record) slots) = map fst slots.
Proof. rewrite map_map. apply map_ext. intros [n' o]. unfold fill_slot. simpl. by case_decide; subst. Qed.

Lemma fill_slot_open n n' record slots :
  (n', None) ∈ map (fill_slot n record) slots <-> n' <> n /\ (n', None) ∈ slots.
Proof.
  rewrite !list_elem_of_In, in_map_iff. unfold fill_slot. split.
  - intros ([n0 o] & E & Hin). simpl in E. case_decide; [discriminate|]. injection E as -> ->. done.
  - intros [Hne Hin]. exists (n', None). simpl. by case_decide.
Qed.

Lemma slots_step m x m' : slots_ok m -> machine_step m x = Ret (Some m') -> slots_ok m'.
Proof.
  intros [Hnd Ho] Hs%machine_step_inv. destruct x as [h|n| |l].
  - destruct Hs as [->|(n & stale & b & record & Hr & _ & ->)]; [done|].
    apply reserve_slot in Hr as (_ & Hnew & Hb). constructor; simpl; rewrite Hb.
    + rewrite map_app. apply NoDup_app. split_and!; [done| |apply NoDup_singleton].
      intros n' Hin ->%list_elem_of_singleton. done.
    + intros n'. rewrite elem_of_app, list_elem_of_singleton, <- Ho, lookup_insert_is_Some'.
      split; intros [H|H]; auto; [right|left]; congruence.
  - destruct Hs as (record & Hf & ->). constructor; simpl; rewrite submit_fills.
    + by rewrite fill_slot_fst.
    + intros n'. rewrite fill_slot_open, <- Ho, lookup_delete_is_Some.
      split; intros [Hne H]; split; congruence.
  - destruct Hs as (record & b & s' & (n & Hb)%read_rest & _ & ->). rewrite Hb in Hnd, Ho.
    apply NoDup_cons in Hnd as [_ Hnd]. constructor; simpl; [done|]. intros n'. rewrite Ho, elem_of_cons.
    split; [by intros [?|?]|by right].
  - destruct Hs as (s' & _ & -> & _). by constructor.
Qed.

(** The program's part of a run, and the records of the probes. *)
Lemma machine_ran_inv rs r xs m :
  machine_ran rs r xs m ->
  ran bootTime filterPrefixArg zone rs r xs (program m) /\ slots_ok m /\
  Forall2 means (fired m) (accounted xs m).
Proof.
  induction 1 as [b Hb|xs m x m' _ (IH1 & Hok & IH2) Hx Hstep].
  { split; [constructor|]. unfold accounted. simpl. rewrite Hb. split; [|constructor].
    constructor; simpl; rewrite Hb; [constructor|]. intros n. rewrite lookup_empty, elem_of_nil.
    split; [by intros []|done]. }
  pose proof (slots_step m x m' Hok Hstep) as Hok'. destruct Hok as [Hnd Hopen].
  apply machine_step_inv in Hstep. destruct x as [h|n| |l]; simpl machine_takes.
  - rewrite app_nil_r. destruct Hstep as [->|(n & stale & b & record & Hres & Hf & ->)]; [done|].
    split_and!; [done..|]. apply reserve_slot in Hres as (Hst & Hnew & Hb). unfold accounted. simpl.
    rewrite Hb, map_app, slot_record_insert, !app_assoc by done.
    apply Forall2_app; [by rewrite <- !app_assoc|]. constructor; [|done].
    unfold slot_record. simpl. rewrite lookup_insert_eq. by apply (fire_means bootTime h stale record Hx).
  - rewrite app_nil_r. destruct Hstep as (record & Hf & ->). split_and!; [done..|]. unfold accounted in *. simpl.
    rewrite submit_fills, slot_record_fill; [done..| |done]. apply Hopen. by eexists.
  - destruct Hstep as (record & b & s' & Hread & Hs & ->).
    split; [by apply (ran_step _ _ _ _ _ xs (program m) (LRead record))|]. split; [done|].
    apply step_accounted in Hs as [H1 H2]. destruct (read_rest _ _ _ Hread) as [n Hb].
    unfold accounted in *. simpl. rewrite H1, Hb in IH2. rewrite H2, app_nil_r. exact IH2.
  - destruct Hstep as (s' & Hs & -> & Hl). split; [by apply (ran_step _ _ _ _ _ xs _ l)|]. split; [done|].
    apply step_accounted in Hs. unfold accounted in *. simpl. rewrite records_of_app, <- app_assoc.
    destruct l; try done; by rewrite Hs, <- app_assoc in IH2.
Qed.

(** ** At rest: the output as a function of the probes *)

(** Nothing is left in the ring buffer or among the goroutines. *)
Definition drained (m : machine) : Prop := rb_slots (events m) = [] /\ quiet (program m).

Lemma direct_records xs : direct_events bootTime xs = omap (direct_event bootTime) (records_of xs).
Proof.
  unfold direct_events, records_of. induction xs as [|x xs IH]; [done|]. cbn [omap list_omap].
  rewrite IH. destruct x as [record|now|ev]; cbn [stimulus_record direct_of]; [|done..].
  reflexivity.
Qed.

Lemma ops_interleave xs :
  interleaving (omap record_op (records_of xs)) (clean_ups xs) (omap op_of xs).
Proof.
  unfold records_of, clean_ups. induction xs as [|x xs IH]; [constructor|]. cbn [omap list_omap].
  destruct x as [record|now|ev]; cbn [stimulus_record stimulus_tick op_of]; [|auto with il..].
  cbn [omap list_omap]. destruct (record_op record); auto with il.
Qed.

Lemma means_omap hs records :
  Forall2 means hs records ->
  omap (direct_event bootTime) records = omap (hit_event bootTime) hs /\
  omap record_op records = omap hit_op hs.
Proof.
  induction 1 as [|h record hs records [He Ho] _ [IH1 IH2]]; [done|]. cbn [omap list_omap].
  by rewrite He, Ho, IH1, IH2.
Qed.

(** What has come out of the machine, for the probes that fired and the
    clean-ups: the caches [R] that were there decide what is kept.  The opens and
    executions come in their order; the connections, those of a correlator that
    runs on the connects and accepts in their order, with the clean-ups in
    between, and so for each quadruple those of its automaton; the two kinds
    interleave. *)
Record outcome (R : list Resolver) (hits : list hit) (ticks : list corr_op) (es : list Event) : Prop := {
  oc_direct : fanned filterPrefixArg R (omap (hit_event bootTime) hits) (List.filter is_direct es);
  oc_connections : exists ops events,
    interleaving (omap hit_op hits) ticks ops /\
    (forall k, addrs_u32 k ->
      fanned filterPrefixArg R (snd (key_run bootTime (5 * Second) k None ops))
        (List.filter (event_of k) es)) /\
    interleaving (omap (hit_event bootTime) hits) (snd (fold_left (pair_op bootTime) ops (∅, []))) events /\
    fanned filterPrefixArg R events es
}.

(** With one cache the output is a function. *)
Lemma outcome_one r hits ticks es :
  outcome [r] hits ticks es ->
  List.filter is_direct es = omap (enrich filterPrefixArg r) (omap (hit_event bootTime) hits) /\
  exists ops, interleaving (omap hit_op hits) ticks ops /\
    forall k, addrs_u32 k ->
      List.filter (event_of k) es =
      omap (enrich filterPrefixArg r) (snd (key_run bootTime (5 * Second) k None ops)).
Proof.
  intros [H1%fanned_one (ops & _ & Hi & H2 & _)]. split; [done|]. exists ops. split; [done|].
  intros k Hk. by apply fanned_one, H2.
Qed.

Lemma drained_outcome rs r xs m :
  machine_ran rs r xs m -> drained m ->
  outcome (dr_seen (resolvers r xs)) (fired m) (clean_ups xs) (out_seen (program m)) /\
  out_seen (program m) = engine_seen (eng (program m)).
Proof.
  intros Hran [Hb Hq]. destruct (machine_ran_inv rs r xs m Hran) as (Hprog & _ & Hacc).
  unfold accounted in Hacc. rewrite Hb, (proj1 Hq), !app_nil_r in Hacc.
  apply means_omap in Hacc as [Hd Ho]. rewrite <- direct_records in Hd.
  destruct (quiet_sources _ _ _ _ _ _ _ Hprog Hq) as [H1 H2].
  destruct (quiet_reference _ _ _ _ _ _ _ Hprog Hq) as (events & Hi & Hf & H3). split; [|done].
  rewrite pair_run_ops in Hi. rewrite Hd in H1, Hi.
  constructor; [done|]. exists (omap op_of xs), events. split_and!; [|done..].
  rewrite <- Ho. apply ops_interleave.
Qed.

(** ** The way to rest *)

(** A step that needs no new probe, tick, Docker event or signal. *)
Definition machine_internal (m m' : machine) : Prop :=
  exists x, match x with MEnter _ => False | MSubmit _ | MRead => True | MProgram l => l ∈ internal_labels end /\
    machine_step m x = Ret (Some m').

Definition machine_work (rs : list Rule) (m : machine) : nat :=
  work (program m) + (4 + event_work rs) * length (rb_slots (events m)) + size (filling m).

(** The state of a machine that runs on rules [rs]. *)
Definition live_machine (rs : list Rule) (r : Resolver) (m : machine) : Prop :=
  (exists xs, machine_ran rs r xs m) /\ closing (program m) = 0%nat /\ exited (program m) = None.

Lemma live_reachable rs r m :
  live_machine rs r m -> reachable bootTime filterPrefixArg zone rs r (program m).
Proof.
  intros ((xs & H) & _). apply (ran_reachable _ _ _ rs r xs). by apply machine_ran_inv in H as [? _].
Qed.

Lemma internal_live rs r m m' :
  live_machine rs r m -> machine_internal m m' -> live_machine rs r m'.
Proof.
  intros ((xs & Hran) & Hz & Hex) (x & Hx & Hs).
  split; [exists (xs ++ machine_takes m x); apply (mran_step rs r xs m x m'); [done|by destruct x|done]|].
  apply machine_step_inv in Hs. destruct x as [h|n| |l]; [done|..].
  - by destruct Hs as (record & _ & ->).
  - destruct Hs as (record & b & s' & _ & [_ Hs]%sys_step_live & ->).
    apply live_step_control in Hs as [Hc He]. simpl. by rewrite Hc, He.
  - destruct Hs as (s' & Hs & -> & _).
    destruct (internal_control bootTime filterPrefixArg zone (program m) s') as [Hc He]; [by exists l|].
    simpl. by rewrite Hc, He.
Qed.

Lemma read_work rs s record s' :
  sys_step bootTime filterPrefixArg zone s (LRead record) = Ret (Some s') -> rules (engine (eng s)) = rs ->
  (work s' = work s + 3 + event_work rs)%nat.
Proof.
  intros [_ H]%sys_step_live Hrs. live_step_inv H. unfold work. cbn -[Nat.mul Nat.add event_work engine_work].
  rewrite Hrs. match goal with E : rd_at _ = _ |- _ => rewrite E end. unfold rd_work. lia.
Qed.

Lemma machine_internal_work rs r m m' :
  live_machine rs r m -> machine_internal m m' -> (machine_work rs m' < machine_work rs m)%nat.
Proof.
  intros Hm (x & Hx & Hs). apply machine_step_inv in Hs. unfold machine_work. destruct x as [h|n| |l]; [done|..].
  - destruct Hs as (record & Hf & ->). simpl. rewrite submit_fills, length_map, map_size_delete_Some by done.
    assert (size (filling m) <> 0%nat) by (apply map_size_ne_0_lookup; by exists n, record). lia.
  - destruct Hs as (record & b & s' & Hread & Hs & ->).
    destruct (reachable_inv _ _ _ _ _ _ (live_reachable rs r m Hm)) as [_ _ _ _ [_ Hrs _ _] _ _].
    apply (read_work rs) in Hs; [|done]. apply read_rest in Hread as [n Hread].
    cbn [events program filling]. rewrite Hs, Hread. cbn [length]. rewrite Nat.mul_succ_r. lia.
  - destruct Hs as (s' & Hs & -> & _).
    pose proof (internal_work bootTime filterPrefixArg zone (program m) s') as Hw.
    simpl. assert (work s' < work (program m))%nat; [apply Hw; by exists l|]. lia.
Qed.

Lemma machine_run_work rs r n m m' :
  live_machine rs r m -> nsteps machine_internal n m m' ->
  live_machine rs r m' /\ (n + machine_work rs m' <= machine_work rs m)%nat.
Proof.
  intros Hm H. induction H as [m|n m1 m2 m3 H12 _ IH]; [done|].
  pose proof (machine_internal_work rs r m1 m2 Hm H12).
  destruct (IH (internal_live rs r m1 m2 Hm H12)). split; [done|lia].
Qed.

Lemma live_slots rs r m : live_machine rs r m -> slots_ok m.
Proof. intros ((xs & H) & _). by apply machine_ran_inv in H as (_ & ? & _). Qed.

(** Where the machine stops nothing is left: the probes have ended, so the first
    slot holds a record, which the reader can take. *)
Lemma stopped_drained rs r m :
  live_machine rs r m -> no_sequences rs -> nf machine_internal m -> drained m.
Proof.
  intros Hm Hns Hnf. pose proof (live_reachable rs r m Hm) as Hre. pose proof (live_slots rs r m Hm) as [_ Hopen].
  destruct Hm as (_ & Hz & Hex). assert (Hq : quiet (program m)).
  { apply (stuck_quiet bootTime filterPrefixArg zone rs r); try done. intros l Hl s' Hs. apply Hnf.
    exists {| events := events m; filling := filling m; program := s'; fired := fired m |}, (MProgram l).
    split; [done|]. unfold machine_step. rewrite Hs. unfold internal_labels in Hl.
    by repeat (apply elem_of_cons in Hl as [->|Hl]); [..|apply elem_of_nil in Hl]. }
  split; [|done]. destruct (rb_slots (events m)) as [|[n [record|]] slots] eqn:Hb; [done|exfalso..]; apply Hnf.
  - destruct (rb_read (events m)) as [[record' b]|] eqn:Hread.
    2:{ apply read_first in Hread. rewrite Hb in Hread. by destruct Hread. }
    exists {| events := b; filling := filling m; program := set_rd_at (program m) (RdGot record'); fired := fired m |}, MRead.
    split; [done|]. unfold machine_step. rewrite Hread. unfold sys_step. rewrite Hex. cbn [live_step].
    by rewrite (proj1 Hq), Hz.
  - destruct (proj2 (Hopen n)) as [record Hf]; [by left|].
    eexists _, (MSubmit n). split; [done|]. simpl. by rewrite Hf.
Qed.

Lemma machine_move_dec m : (exists m', machine_internal m m') \/ nf machine_internal m.
Proof.
  assert (Hfind : forall xs : list mlabel,
    (exists x m', x ∈ xs /\ machine_step m x = Ret (Some m')) \/
    (forall x m', x ∈ xs -> machine_step m x <> Ret (Some m'))).
  { induction xs as [|x xs IH]; [right; by intros x m' ?%elem_of_nil|].
    destruct IH as [(x' & m' & Hin & H)|IH]; [left; exists x', m'; split; [by right|done]|].
    destruct (machine_step m x) as [[m'|]|p] eqn:E; [left; exists x, m'; split; [by left|done]|right..];
      intros x' m' [->|Hin]%elem_of_cons; try congruence; by apply IH. }
  destruct (Hfind (MRead :: map (fun p => MSubmit p.1) (map_to_list (filling m)) ++ map MProgram internal_labels))
    as [(x & m' & Hin & H)|Hno].
  - left. exists m', x. split; [|done]. apply elem_of_cons in Hin as [->|Hin]; [done|].
    by apply elem_of_app in Hin as [(p & -> & _)%list_elem_of_fmap|(l & -> & Hl)%list_elem_of_fmap].
  - right. intros (m' & x & Hx & H). apply (Hno x m'); [|done]. destruct x as [h|n| |l]; [done|..|by left|].
    + right. apply elem_of_app. left. simpl in H. destruct (filling m !! n) as [record|] eqn:Hf; [|done].
      apply list_elem_of_fmap. exists (n, record). by rewrite elem_of_map_to_list.
    + right. apply elem_of_app. right. by apply list_elem_of_fmap_2.
Qed.

Lemma machine_normal rs r m :
  live_machine rs r m -> exists m', rtc machine_internal m m' /\ nf machine_internal m'.
Proof.
  remember (machine_work rs m) as w eqn:Hw. revert m Hw.
  induction (lt_wf w) as [w _ IH]. intros m -> Hm.
  destruct (machine_move_dec m) as [[m1 H1]|Hnf]; [|exists m; split; [apply rtc_refl|done]].
  destruct (IH _ (machine_internal_work rs r m m1 Hm H1) m1 eq_refl (internal_live rs r m m1 Hm H1))
    as (m' & Hrun & Hnf).
  exists m'. split; [by apply (rtc_l _ m m1)|done].
Qed.

(** Such steps take up records only. *)
Lemma internal_history rs r xs m m' :
  machine_ran rs r xs m -> rtc machine_internal m m' ->
  exists ys, machine_ran rs r (xs ++ ys) m' /\ fired m' = fired m /\
    clean_ups (xs ++ ys) = clean_ups xs /\ resolvers r (xs ++ ys) = resolvers r xs.
Proof.
  intros Hran H. revert xs Hran. induction H as [m|m1 m2 m3 (x & Hx & Hs) _ IH]; intros xs Hran.
  { exists []. by rewrite app_nil_r. }
  destruct (IH (xs ++ machine_takes m1 x)) as (ys & Hran' & Hf & Hc & Hr);
    [apply (mran_step rs r xs m1 x m2); [done|by destruct x|done]|].
  exists (machine_takes m1 x ++ ys). rewrite app_assoc, Hf, Hc, Hr. split; [done|].
  assert (Htakes : machine_takes m1 x = [] \/ exists record, machine_takes m1 x = [StRecord record]).
  { destruct x as [h|n| |l]; [by left..|]. simpl. unfold internal_labels in Hx.
    repeat (apply elem_of_cons in Hx as [->|Hx]); [..|by apply elem_of_nil in Hx]; simpl; try by left.
    destruct (rd_at (program m1)); [by left|]. right. by eexists. }
  split; [apply machine_step_inv in Hs; destruct x as [h|n| |l]; [done|..];
    [by destruct Hs as (? & _ & ->)|by destruct Hs as (? & ? & ? & _ & _ & ->)|by destruct Hs as (? & _ & -> & _)]|].
  destruct Htakes as [->|[record ->]]; [by rewrite app_nil_r|].
  unfold clean_ups. rewrite omap_app, resolvers_snoc. by rewrite app_nil_r.
Qed.

(** (C1) Everything that the probes record comes out, as it should.  Let the whole
    have run in any way, probes running concurrently, with rules without
    sequences and before the signal.  Left alone it comes to rest within a
    bounded number of steps, by whatever interleaving; then the ring buffer and
    every channel is empty, and what the output loop and the engine have received
    is: for the opens and executions, the event of each probe that got a slot, in
    the order of the slots, enriched or left out as the cache and the filter say;
    and for the connections between any two endpoints, those that the automaton
    of the quadruple makes of the connects and accepts that fired, and the
    clean-ups. *)
Theorem everything_fired_is_output (rs : list Rule) (r : Resolver) (xs : list stimulus) (m : machine) :
  machine_ran rs r xs m -> closing (program m) = 0%nat -> exited (program m) = None ->
  no_sequences rs ->
  (exists m', rtc machine_internal m m' /\ nf machine_internal m') /\
  (forall n m', nsteps machine_internal n m m' -> (n <= machine_work rs m)%nat) /\
  forall m', rtc machine_internal m m' -> nf machine_internal m' ->
    drained m' /\
    outcome (dr_seen (resolvers r xs)) (fired m) (clean_ups xs) (out_seen (program m')) /\
    out_seen (program m') = engine_seen (eng (program m')).
Proof.
  intros Hran Hz Hex Hns. assert (Hm : live_machine rs r m) by (split; [by exists xs|done]).
  split_and!; [by apply (machine_normal rs r)| |].
  - intros n m' [_ H]%(machine_run_work rs r n m m' Hm). lia.
  - intros m' Hrun Hnf. destruct (internal_history rs r xs m m' Hran Hrun) as (ys & Hran' & Hf & Hc & Hr).
    apply rtc_nsteps in Hrun as [n Hrun]. destruct (machine_run_work rs r n m m' Hm Hrun) as [Hm' _].
    pose proof (stopped_drained rs r m' Hm' Hns Hnf) as Hd. split; [done|].
    pose proof (drained_outcome rs r _ m' Hran' Hd) as Ho. by rewrite Hf, Hc, Hr in Ho.
Qed.

Lemma drained_alerts rs r m rule :
  live_machine rs r m -> drained m -> plain_rules rs -> NoDup (map R_Name rs) -> rule ∈ rs ->
  about rule (alerts_seen (program m)) = alerts_with retained rule [] (out_seen (program m)).
Proof.
  intros Hm [_ Hq] Hp Hnd Hin. pose proof (live_reachable rs r m Hm) as Hre.
  destruct (printed_alerts_any _ _ _ rs r _ rule Hre Hp Hnd Hin) as (later & Ha & Hl).
  destruct Hq as (_ & _ & Hf & Hg & _ & _ & Hbo & Hbg & Hba).
  destruct (reachable_inv _ _ _ _ _ _ Hre) as [_ Hsame _ _ _ _ _].
  rewrite Hbo, Hbg, Hf, !app_nil_r in Hsame. rewrite Hsame, Ha, Hba, Hg, Hl by (by rewrite Hg).
  by rewrite !app_nil_r.
Qed.

(** (C5) And what the rules detect in it is printed: with distinct colon-free rules
    without sequences, once all is at rest the output loop has received, of each
    rule, exactly the alerts that the rule's own matches among the events call
    for, in order, a threshold counting the times that stay of a group.  When the
    matches came in time order those are the times in the sliding window; when
    none came more than [d] late, there are at least the alerts of the window
    shortened by [d] and at most those of the window widened by [d].  The output
    is the lines of the events and alerts received. *)
Theorem detections_are_printed (rs : list Rule) (r : Resolver) (xs : list stimulus) (m m' : machine) :
  machine_ran rs r xs m -> closing (program m) = 0%nat -> exited (program m) = None ->
  plain_rules rs -> NoDup (map R_Name rs) ->
  rtc machine_internal m m' -> nf machine_internal m' ->
  (forall rule, rule ∈ rs ->
     let received := out_seen (program m') in let raised := about rule (alerts_seen (program m')) in
     raised = alerts_with retained rule [] received /\
     (StronglySorted Z.le (match_times rule received) -> raised = rule_alerts rule [] received) /\
     forall d, 0 <= d -> late_by d (match_times rule received) ->
       alerts_with (widened (- d)) rule [] received `sublist_of` raised /\
       raised `sublist_of` alerts_with (widened d) rule [] received) /\
  printed_bytes (program m') = lines zone (printed zone (out_cases (out (program m')))).
Proof.
  intros Hran Hz Hex Hp Hnd Hrun Hnf.
  assert (Hns : no_sequences rs) by (eapply Forall_impl; [exact Hp|]; by intros ru []).
  assert (Hm : live_machine rs r m) by (split; [by exists xs|done]).
  apply rtc_nsteps in Hrun as [n Hrun]. destruct (machine_run_work rs r n m m' Hm Hrun) as [Hm' _].
  pose proof (stopped_drained rs r m' Hm' Hns Hnf) as Hd. split.
  - intros rule Hin received raised. unfold raised. rewrite (drained_alerts rs r m' rule) by done. clear raised.
    split_and!; [done| |].
    + by apply (alerts_sorted rule _ []).
    + by apply retained_widened.
  - apply (reachable_printed bootTime filterPrefixArg zone rs r), (live_reachable rs r m' Hm').
Qed.

(** ** Times

    The probes stamp their records with the kernel's clock.  The fan-out keeps
    times and order, so the opens and executions come out in time order when the
    probes have reserved their slots so; connections need not, nor need the
    others when CPUs race: [Lateness] and [Age] bound what that does to a
    threshold. *)

Definition hit_time (h : hit) : Z := ktime_ns (hit_iv h).

(** The probes got their slots in the order of the clock, which has not overflowed an
    [int64] of nanoseconds. *)
Definition clock_ok (hits : list hit) : Prop :=
  StronglySorted Z.le (map hit_time hits) /\ Forall (fun t => 0 <= t < 2 ^ 63) (map hit_time hits).

Lemma hit_event_time h e :
  0 <= hit_time h < 2 ^ 63 -> hit_event bootTime h = Some e -> Timestamp e = bootTime + hit_time h.
Proof.
  intros Ht. unfold hit_event. destruct (hit_site h); [done|done|..]; intros [= <-]; by apply KTimeToTime_small.
Qed.

Lemma hit_events_sorted hits :
  clock_ok hits -> StronglySorted Z.le (map Timestamp (omap (hit_event bootTime) hits)).
Proof.
  intros [Hs Hb]. apply (proj1 (Forall_fmap _ _ _)) in Hb. induction hits as [|h hits IH]; [constructor|].
  cbn [map] in Hs. apply StronglySorted_inv in Hs as [Hs Hall]. apply Forall_cons_1 in Hb as [Hh Hb].
  specialize (IH Hs Hb). cbn [omap list_omap]. destruct (hit_event bootTime h) as [e|] eqn:He; [|exact IH].
  simpl. constructor; [exact IH|]. rewrite (hit_event_time h e Hh He). apply Forall_forall.
  intros t (e' & -> & Hin)%list_elem_of_fmap. apply list_elem_of_omap in Hin as (h' & Hh' & He').
  rewrite Forall_forall in Hb. rewrite Forall_forall in Hall. rewrite (hit_event_time h' e' (Hb h' Hh') He').
  enough (hit_time h <= hit_time h') by lia. apply Hall. by apply list_elem_of_fmap_2.
Qed.

(** (C6) A threshold rule on opens or executions counts the sliding window: once all
    is at rest, if the probes got their slots in the order of the clock, the alerts
    received of a rule that matches no connection are those its window and count
    call for, as written, whatever the interleaving of the goroutines. *)
Theorem file_rules_are_exact (rs : list Rule) (r : Resolver) (xs : list stimulus) (m : machine) (rule : Rule) :
  machine_ran rs r xs m -> closing (program m) = 0%nat -> exited (program m) = None -> drained m ->
  plain_rules rs -> NoDup (map R_Name rs) -> rule ∈ rs ->
  (forall e, R_MatchEvent rule e = true -> is_direct e = true) -> clock_ok (fired m) ->
  about rule (alerts_seen (program m)) = rule_alerts rule [] (out_seen (program m)).
Proof.
  intros Hran Hz Hex Hd Hp Hnd Hin Hmatch Hclock.
  destruct (drained_outcome rs r xs m Hran Hd) as [[Hdirect _] _].
  rewrite (drained_alerts rs r m) by (done || (by split; [exists xs|])).
  apply alerts_sorted. unfold match_times. simpl. rewrite <- (filter_filter_weaker _ _ _ Hmatch).
  apply StronglySorted_map_filter, (sublist_StronglySorted _ _ _ (fanned_times _ _ _ _ Hdirect)).
  by apply hit_events_sorted.
Qed.
End Machine.

(** ** A concrete machine

    A ring buffer for eight records; the connect of a connection fires, then an
    open, then the accept of the other end: three probes on their way, each with
    its slot, of which none has submitted its record yet. *)

Definition demo_hits : list hit := [
  {| hit_kernel := Ends.runtime; hit_iv := Demo.iv; hit_site := AtConnect 4096 |};
  {| hit_kernel := Demo.runtime; hit_iv := Demo.iv; hit_site := AtOpenat 8192 |};
  {| hit_kernel := Ends.runtime; hit_iv := Demo.iv; hit_site := AtAccept 8192 |} ].

Definition demo_ring : ring_buffer := list_ring 8 "Z"%char.

Fixpoint fire_all (m : @machine demo_ring) (hs : list hit) : @machine demo_ring :=
  match hs with
  | [] => m
  | h :: hs => match @machine_step demo_ring 0 "" 0 m (MEnter h) with
               | Ret (Some m) => fire_all m hs
               | _ => m
               end
  end.

Definition demo_start : @machine demo_ring :=
  @Build_machine demo_ring [] ∅ (sys_init [each_rule] demo_resolver) [].

Lemma demo_hits_ok : Forall hit_ok demo_hits.
Proof.
  repeat (apply Forall_cons_2; [split; [|exact Demo.iv_ok]|]); [exact Ends.runtime_laws|exact Demo.runtime_laws| |
    by constructor]. exact Ends.runtime_laws.
Qed.

Lemma fire_all_ran hs : forall m,
  @machine_ran demo_ring _ 0 "" 0 [each_rule] demo_resolver [] m -> Forall hit_ok hs ->
  @machine_ran demo_ring _ 0 "" 0 [each_rule] demo_resolver [] (fire_all m hs).
Proof.
  induction hs as [|h hs IH]; intros m Hm Hok; [done|]. apply Forall_cons_1 in Hok as [Hh Hok].
  cbn [fire_all]. destruct (machine_step 0 "" 0 m (MEnter h)) as [[m'|]|p] eqn:E; [|done..].
  apply IH; [|done]. exact (mran_step _ _ _ _ _ [] m (MEnter h) m' Hm Hh E).
Qed.

Lemma demo_start_ran : @machine_ran demo_ring _ 0 "" 0 [each_rule] demo_resolver [] demo_start.
Proof. exact (@mran_init demo_ring _ 0 "" 0 [each_rule] demo_resolver [] eq_refl). Qed.

Lemma everything_fired_is_output_witness :
  let m := fire_all demo_start demo_hits in
  map hit_site (fired m) = map hit_site demo_hits /\ map fst (map_to_list (filling m)) ≡ₚ [1; 2; 3]%nat /\
  length (omap (hit_event 0) (fired m)) = 1%nat /\
  (exists m', rtc (@machine_internal demo_ring 0 "" 0) m m' /\ nf (@machine_internal demo_ring 0 "" 0) m') /\
  (forall n m', nsteps (@machine_internal demo_ring 0 "" 0) n m m' -> (n <= machine_work [each_rule] m)%nat) /\
  forall m', rtc (@machine_internal demo_ring 0 "" 0) m m' -> nf (@machine_internal demo_ring 0 "" 0) m' ->
    drained m' /\
    outcome 0 "" [demo_resolver] (fired m) [] (out_seen (program m')) /\
    out_seen (program m') = engine_seen (eng (program m')).
Proof.
  intros m. split; [vm_compute; reflexivity|]. split; [by apply (bool_decide_unpack _); vm_compute|].
  split; [vm_compute; reflexivity|].
  refine (@everything_fired_is_output demo_ring _ 0 "" 0 [each_rule] demo_resolver [] m _ _ _ _).
  - exact (fire_all_ran demo_hits demo_start demo_start_ran demo_hits_ok).
  - vm_compute. reflexivity.
  - vm_compute. reflexivity.
  - by repeat constructor.
Defined.

Lemma demo_live : @live_machine demo_ring _ 0 "" 0 [each_rule] demo_resolver (fire_all demo_start demo_hits).
Proof.
  split; [exists []; exact (fire_all_ran demo_hits demo_start demo_start_ran demo_hits_ok)|].
  split; vm_compute; reflexivity.
Qed.

Lemma detections_are_printed_witness :
  let m := fire_all demo_start demo_hits in
  exists m', rtc (@machine_internal demo_ring 0 "" 0) m m' /\ nf (@machine_internal demo_ring 0 "" 0) m' /\
  (forall rule, rule ∈ [each_rule] ->
     let received := out_seen (program m') in let raised := about rule (alerts_seen (program m')) in
     raised = alerts_with retained rule [] received /\
     (StronglySorted Z.le (match_times rule received) -> raised = rule_alerts rule [] received) /\
     forall d, 0 <= d -> late_by d (match_times rule received) ->
       alerts_with (widened (- d)) rule [] received `sublist_of` raised /\
       raised `sublist_of` alerts_with (widened d) rule [] received) /\
  printed_bytes (program m') = lines 0 (printed 0 (out_cases (out (program m')))).
Proof.
  intros m.
  destruct (@machine_normal demo_ring _ 0 "" 0 [each_rule] demo_resolver m demo_live) as (m' & Hrun & Hnf).
  exists m'. split; [exact Hrun|]. split; [exact Hnf|].
  refine (@detections_are_printed demo_ring _ 0 "" 0 [each_rule] demo_resolver [] m m' _ _ _ _ _ Hrun Hnf).
  - exact (fire_all_ran demo_hits demo_start demo_start_ran demo_hits_ok).
  - vm_compute. reflexivity.
  - vm_compute. reflexivity.
  - by apply (bool_decide_unpack _); vm_compute.
  - by apply (bool_decide_unpack _); vm_compute.
Defined.

Lemma each_rule_direct e : R_MatchEvent each_rule e = true -> is_direct e = true.
Proof.
  unfold is_direct, is_connection. case_bool_decide as E; [|done]. unfold R_MatchEvent, each_rule. simpl.
  by rewrite E.
Qed.

Lemma file_rules_are_exact_witness :
  let m := fire_all demo_start demo_hits in
  exists m', rtc (@machine_internal demo_ring 0 "" 0) m m' /\
    about each_rule (alerts_seen (program m')) = rule_alerts each_rule [] (out_seen (program m')).
Proof.
  intros m.
  destruct (@machine_normal demo_ring _ 0 "" 0 [each_rule] demo_resolver m demo_live) as (m' & Hrun & Hnf).
  pose proof (fire_all_ran demo_hits demo_start demo_start_ran demo_hits_ok) as Hran.
  destruct (@internal_history demo_ring _ 0 "" 0 [each_rule] demo_resolver [] m m' Hran Hrun)
    as (ys & Hran' & Hf & _).
  destruct (rtc_nsteps_1 _ _ Hrun) as [n Hn].
  destruct (@machine_run_work demo_ring _ 0 "" 0 [each_rule] demo_resolver n m m' demo_live Hn) as [Hm' _].
  exists m'. split; [exact Hrun|].
  refine (@file_rules_are_exact demo_ring _ 0 "" 0 [each_rule] demo_resolver _ m' each_rule Hran' _ _ _ _ _ _ each_rule_direct _).
  - apply Hm'.
  - apply Hm'.
  - apply (@stopped_drained demo_ring _ 0 "" 0 [each_rule] demo_resolver m' Hm'); [by repeat constructor|exact Hnf].
  - by apply (bool_decide_unpack _); vm_compute.
  - by apply (bool_decide_unpack _); vm_compute.
  - by left.
  - rewrite Hf. unfold clock_ok.
    replace (map hit_time (fired m)) with [5000000000; 5000000000; 5000000000] by (vm_compute; reflexivity).
    split; repeat constructor; lia.
Defined.
