(* ===== verification/Turns.v ===== *)
(** * What a step adds, and what it waits for

    Facts about single steps of the goroutines that hold whatever the others do:
    which parts of the state a step leaves alone, when a goroutine waits and when
    a full channel holds it up, how each receiver empties its channel, and what a
    step adds to the histories.  [Fairness] makes runs of them. *)

From S2P Require Import Prelude.
From S2P Require Import Bytes.
From S2P Require Import GoLib.
From S2P Require Import Channel.
From S2P Require Import Core.
From S2P Require Import Wire.
From S2P Require Import Correlator.
From S2P Require Import Rule.
From S2P Require Import Engine.
From S2P Require Import Sequence.
From S2P Require Import Output.
From S2P Require Import Resolver.
From S2P Require Import Main.
From S2P Require Import Pipeline.
From S2P Require Import Progress.
From S2P Require Import Flow.
From S2P Require Import Sequential.

Open Scope nat_scope.

Section Steps.
Variables (bootTime : Z) (filterPrefixArg : string) (zone : Z).

(** ** What each step leaves alone *)

Lemma step_keeps s l s' :
  sys_step bootTime filterPrefixArg zone s l = Ret (Some s') ->
  (l <> LEngine -> eng_at (eng s') = eng_at (eng s)) /\
  (l <> LFan -> fan_at s' = fan_at s) /\
  (l <> LForward -> fwd_at s' = fwd_at s) /\
  (forall record, rd_at s = RdGot record -> l <> LHandle -> rd_at s' = rd_at s).
Proof.
  intros [_ H]%sys_step_live. destruct l; live_step_inv H; simpl; split_and!; try done; congruence.
Qed.

(** ** Waiting, and being held up *)

(** The goroutine waits for input and there is none. *)
Definition waits (l : label) (s : sys) : Prop :=
  match l with
  | LHandle => rd_at s = RdReading
  | LForward => fwd_at s = FwdReceiving /\ ch_buf (output (corr (rdr s))) = []
  | LFan => fan_at s = FanReceiving /\ ch_buf (eventsCh (rdr s)) = []
  | LEngine => eng_at (eng s) = EngReceiving /\ ch_buf (engineCh s) = []
  | LOutEvent => ch_buf (outputCh s) = []
  | LOutAlert => ch_buf (alertsCh (eng s)) = []
  | _ => False
  end.

Definition full {A} (c : chan A) : Prop := ch_cap c <= length (ch_buf c).

(** The full channel that a goroutine that does not wait is held up by. *)
Definition held_up (l : label) (s : sys) : Prop :=
  match l with
  | LHandle => exists record, rd_at s = RdGot record /\
      match direct_event bootTime record with
      | Some _ => full (eventsCh (rdr s)) | None => full (output (corr (rdr s))) end
  | LForward => (exists e, fwd_at s = FwdSending e) /\ full (eventsCh (rdr s))
  | LFan => (exists e, fan_at s = FanOutput e) /\ full (outputCh s) \/
            (exists e, fan_at s = FanEngine e) /\ full (engineCh s)
  | LEngine => (exists a unsent e rest, eng_at (eng s) = EngSending (a :: unsent) e rest) /\
               full (alertsCh (eng s))
  | _ => False
  end.

Lemma send_stuck {A} (c : chan A) v (k : chan A -> sys) :
  ch_closed c = false -> stuck (then_ (ch_send c v) k) -> full c.
Proof.
  intros Hc Hs. unfold full. destruct (Nat.le_gt_cases (ch_cap c) (length (ch_buf c))); [done|].
  rewrite ch_send_room in Hs by done. by edestruct Hs.
Qed.

Lemma handle_stuck st record (k : reader -> sys) :
  ch_closed (output (corr st)) = false -> ch_closed (eventsCh st) = false ->
  stuck (then_ (handle_record bootTime st record) k) ->
  match direct_event bootTime record with
  | Some _ => full (eventsCh st) | None => full (output (corr st)) end.
Proof.
  intros Hc He Hs. unfold handle_record, direct_event in *.
  destruct (ParseEvent record) as [m|]; [|by edestruct Hs].
  destruct (_ =? GO_EVENT_NET_CONNECT)%Z; [by edestruct Hs|].
  destruct (_ =? GO_EVENT_NET_ACCEPT)%Z.
  - unfold HandleAccept in Hs. destruct (_ !! _) as [entry|]; [|by edestruct Hs].
    unfold full. destruct (Nat.le_gt_cases (ch_cap (output (corr st))) (length (ch_buf (output (corr st)))));
      [done|]. rewrite ch_send_room in Hs by done. by edestruct Hs.
  - unfold send_event in Hs. unfold full.
    destruct (Nat.le_gt_cases (ch_cap (eventsCh st)) (length (ch_buf (eventsCh st))));
      [by destruct (_ =? _)%Z; [|destruct (_ =? _)%Z; [|by edestruct Hs]]|].
    rewrite !ch_send_room in Hs by done.
    destruct (_ =? GO_EVENT_FILE_OPEN)%Z; [by edestruct Hs|].
    destruct (_ =? GO_EVENT_EXEC)%Z; by edestruct Hs.
Qed.

(** In a running program a goroutine that cannot move waits or is held up. *)
Lemma stuck_because l s :
  all_open s -> running s -> exited s = None ->
  (forall e ru rest, eng_at (eng s) = EngRules e (ru :: rest) ->
     exists r, process_rule (engine (eng s)) ru e = Ret r) ->
  l ∈ internal_labels -> stuck (sys_step bootTime filterPrefixArg zone s l) -> waits l s \/ held_up l s.
Proof.
  intros Ho Hr Hex Hrules Hl Hs. unfold sys_step in Hs. rewrite Hex in Hs.
  pose proof Ho as (Hc & He & Hoc & Hg & Ha). pose proof Hr as [].
  unfold internal_labels in Hl.
  repeat (apply elem_of_cons in Hl as [->|Hl]); [..|by apply elem_of_nil in Hl]; cbn [live_step] in Hs; simpl.
  - destruct (rd_at s) as [|record]; [by left|]. right. exists record. split; [done|].
    by apply (handle_stuck (rdr s) record _ Hc He Hs).
  - unfold forward_step in Hs. destruct (fwd_at s) as [|e|]; [left|right|done].
    + split; [done|]. destruct (ch_recv _) as [| |e c] eqn:E; [by apply ch_recv_blocked|..].
      * by apply ch_recv_not_closed in E.
      * by edestruct Hs.
    + split; [by exists e|]. by apply send_stuck in Hs.
  - unfold fan_step in Hs. destruct (fan_at s) as [|e|e src|e|e|]; [left| | |right; left|right; right|done].
    + split; [done|]. destruct (ch_recv _) as [| |e c] eqn:E; [by apply ch_recv_blocked|..].
      * by apply ch_recv_not_closed in E.
      * by edestruct Hs.
    + destruct (Resolve _ _); by edestruct Hs.
    + destruct (filtered _ _ _); by edestruct Hs.
    + split; [by exists e|]. by apply send_stuck in Hs.
    + split; [by exists e|]. by apply send_stuck in Hs.
  - unfold engine_step in Hs. destruct (eng_at (eng s)) as [|e [|ru rest]|[|a unsent] e rest|] eqn:Eg;
      [left| | | |right|done].
    + split; [done|]. destruct (ch_recv _) as [| |e c] eqn:E; [by apply ch_recv_blocked|..].
      * by apply ch_recv_not_closed in E.
      * by edestruct Hs.
    + by edestruct Hs.
    + destruct (Hrules e ru rest eq_refl) as [r' Hr']. rewrite Hr' in Hs. by edestruct Hs.
    + by edestruct Hs.
    + split; [by exists a, unsent, e, rest|]. by apply send_stuck in Hs.
  - left. by apply (out_event_stuck zone s).
  - left. by apply (out_alert_stuck zone s).
Qed.

(** ** How each goroutine empties its channel

    Every step of the receiver either takes from the channel or brings it nearer
    to the point where it does. *)

Definition fwd_phase (x : fwd_state) : nat := match x with FwdSending _ => 1 | _ => 0 end.
Definition fan_phase (x : fan_state) : nat :=
  match x with FanSrc _ => 4 | FanDst _ _ => 3 | FanOutput _ => 2 | FanEngine _ => 1 | _ => 0 end.

Record drains {A} (l : label) (c : sys -> chan A) (phase : sys -> nat) : Prop := {
  dr_moves s s' :
    all_open s -> sys_step bootTime filterPrefixArg zone s l = Ret (Some s') ->
    length (ch_buf (c s)) = S (length (ch_buf (c s'))) \/ phase s' < phase s;
  dr_other s l' s' :
    l' <> l -> sys_step bootTime filterPrefixArg zone s l' = Ret (Some s') -> phase s' <= phase s;
  dr_waits s : waits l s -> ch_buf (c s) = []
}.

Lemma recv_length {A} (c c' : chan A) v :
  ch_recv c = RecvValue v c' -> length (ch_buf c) = S (length (ch_buf c')).
Proof. intros [-> _]%ch_recv_value. done. Qed.

Lemma open_not_closed {A} (c : chan A) : ch_closed c = false -> ch_recv c = RecvClosed -> False.
Proof. intros H E. by apply (ch_recv_not_closed c H). Qed.

#[local] Hint Resolve recv_length : core.

(** A running program receives from no closed channel. *)
#[local] Ltac not_closed :=
  try match goal with
  | Ho : ch_closed ?c = false, E : ch_recv ?c = RecvClosed |- _ => destruct (open_not_closed c Ho E)
  end.

Lemma drains_alerts : drains LOutAlert (fun s => alertsCh (eng s)) (fun _ => 0).
Proof.
  constructor; [|done|done]. intros s s' (_ & _ & _ & _ & Ha) [_ H]%sys_step_live.
  live_step_inv H; not_closed; left; simpl; eauto.
Qed.

Lemma drains_output : drains LOutEvent outputCh (fun _ => 0).
Proof.
  constructor; [|done|done]. intros s s' (_ & _ & Ho & _) [_ H]%sys_step_live.
  live_step_inv H; not_closed; left; simpl; eauto.
Qed.

Lemma drains_engine : drains LEngine engineCh (fun s => eng_at_work (eng_at (eng s))).
Proof.
  constructor.
  - intros s s' (_ & _ & _ & Hg & _) [_ H]%sys_step_live. live_step_inv H;
      not_closed; try (left; simpl; by eauto); right; simpl; try lia.
    match goal with E : process_rule _ _ _ = Ret _ |- _ => apply process_rule_grows in E as [_ (new & Hn & Hl)] end.
    unfold raised. rewrite Hn, drop_app_length. lia.
  - intros s l s' Hl H. destruct (step_keeps _ _ _ H) as [He _]. by rewrite He.
  - by intros s [_ ?].
Qed.

Lemma drains_events : drains LFan (fun s => eventsCh (rdr s)) (fun s => fan_phase (fan_at s)).
Proof.
  constructor.
  - intros s s' (_ & He & _) [_ H]%sys_step_live. live_step_inv H;
      not_closed; try (left; simpl; by eauto); right; simpl; lia.
  - intros s l s' Hl H. destruct (step_keeps _ _ _ H) as (_ & Hf & _). by rewrite Hf.
  - by intros s [_ ?].
Qed.

Lemma drains_connections : drains LForward (fun s => output (corr (rdr s))) (fun s => fwd_phase (fwd_at s)).
Proof.
  constructor.
  - intros s s' (Hc & _) [_ H]%sys_step_live. live_step_inv H;
      not_closed; try (left; simpl; by eauto); right; simpl; lia.
  - intros s l s' Hl H. destruct (step_keeps _ _ _ H) as (_ & _ & Hf & _). by rewrite Hf.
  - by intros s [_ ?].
Qed.

(** No channel ever holds more than its capacity. *)
Definition chans_ok (s : sys) : Prop :=
  chan_ok (eventsCh (rdr s)) /\ chan_ok (output (corr (rdr s))).

Lemma recv_ok {A} (c c' : chan A) v : chan_ok c -> ch_recv c = RecvValue v c' -> chan_ok c'.
Proof. intros H [_ Hok]%ch_recv_value. auto. Qed.
Lemma send_ok {A} (c c' : chan A) v : chan_ok c -> ch_send c v = Ret (Some c') -> chan_ok c'.
Proof. intros H Hs. by apply (ch_send_ok c c' v H). Qed.
Lemma close_ok {A} (c c' : chan A) : chan_ok c -> ch_close c = Ret c' -> chan_ok c'.
Proof. unfold ch_close, chan_ok. destruct (ch_closed c); [done|]. by intros H [= <-]. Qed.
#[local] Hint Resolve recv_ok send_ok close_ok : core.

Lemma handle_record_ok st record st' :
  handle_record bootTime st record = Ret (Some st') ->
  chan_ok (eventsCh st) -> chan_ok (output (corr st)) ->
  chan_ok (eventsCh st') /\ chan_ok (output (corr st')).
Proof.
  intros H He Hc. unfold handle_record in H.
  destruct (ParseEvent record) as [m|]; [|by injection H as <-].
  destruct (_ =? _)%Z; [by injection H as <-|]. destruct (_ =? _)%Z.
  - unfold HandleAccept in H. apply go_bind_Ret_inv in H as (c & Hh & H).
    destruct (_ !! _); [|injection Hh as <-; by injection H as <-].
    apply go_bind_Ret_inv in Hh as (o & Ho & Hh). destruct o as [o|]; injection Hh as <-; [|discriminate].
    injection H as <-. simpl. eauto.
  - unfold send_event in H. destruct (_ =? _)%Z; [|destruct (_ =? _)%Z; [|by injection H as <-]].
    all: apply go_bind_Ret_inv in H as (o & Ho & H); destruct o as [o|]; [|discriminate];
      injection H as <-; simpl; eauto.
Qed.

Lemma reachable_chans rs r s : reachable bootTime filterPrefixArg zone rs r s -> chans_ok s.
Proof.
  induction 1 as [|s l s' _ [He Hc] [_ H]%sys_step_live]; [split; apply make_chan_ok|].
  unfold chans_ok. destruct l; live_step_inv H; simpl; try done; eauto.
  - by eapply handle_record_ok.
  - match goal with E : CloseCorrelator _ = Ret _ |- _ => unfold CloseCorrelator in E; go_inv E end.
    simpl. eauto.
Qed.
(** ** What each step adds *)

(** The events that have been sent, or are about to be, to the output loop. *)
Definition sent (s : sys) : list Event := out_seen s ++ ch_buf (outputCh s) ++ decided (fan_at s).

Lemma step_sent s l s' :
  sys_step bootTime filterPrefixArg zone s l = Ret (Some s') ->
  sent s `prefix_of` sent s'.
Proof.
  intros [_ H]%sys_step_live. unfold sent, out_seen. destruct l; live_step_inv H; simpl;
    repeat match goal with
    | E : ch_recv _ = RecvValue _ _ |- _ => apply ch_recv_value in E as [-> _]
    | E : ch_send _ _ = Ret (Some _) |- _ => apply ch_send_buf in E as ->
    | E : ch_close _ = Ret _ |- _ => apply ch_close_buf in E as ->
    end; rewrite ?omap_app; simpl; rewrite ?app_nil_r, <- ?app_assoc; simpl;
    first [done|by eexists|apply prefix_app; by eexists|apply prefix_app, prefix_app; by eexists].
Qed.

Lemma step_queued s l s' :
  sys_step bootTime filterPrefixArg zone s l = Ret (Some s') ->
  length (out_seen s ++ ch_buf (outputCh s)) <= length (out_seen s' ++ ch_buf (outputCh s')).
Proof.
  intros [_ H]%sys_step_live. unfold out_seen. destruct l; live_step_inv H; simpl; try done;
    repeat match goal with
    | E : ch_recv _ = RecvValue _ _ |- _ => apply ch_recv_value in E as [-> _]
    | E : ch_send _ _ = Ret (Some _) |- _ => apply ch_send_buf in E as ->
    | E : ch_close _ = Ret _ |- _ => apply ch_close_buf in E as ->
    end; rewrite ?omap_app, ?length_app; simpl; rewrite ?length_app; simpl; lia.
Qed.

(** What enters the event channel lengthens it, unless the fan-out receives. *)
Lemma step_entering s l s' :
  sys_step bootTime filterPrefixArg zone s l = Ret (Some s') -> l <> LFan ->
  length (ch_buf (eventsCh (rdr s'))) = length (ch_buf (eventsCh (rdr s))) + length (entering s l s').
Proof.
  intros [_ H]%sys_step_live Hl. destruct l; live_step_inv H; cbn [entering]; simpl; try lia; try done.
  - match goal with E : handle_record _ _ _ = Ret _ |- _ => apply handle_record_events in E as (es & _ & _ & -> & _) end.
    rewrite length_map, drop_app_length, length_app. lia.
  - match goal with E : ch_close _ = Ret _ |- _ => apply ch_close_buf in E as -> end.
    rewrite length_map, drop_all. simpl. lia.
  - rewrite length_map, drop_all. simpl. lia.
  - match goal with E : ch_send _ _ = Ret (Some _) |- _ => apply ch_send_buf in E as -> end.
    rewrite length_map, drop_app_length, length_app. simpl. lia.
Qed.

(** A step of the fan-out receives the next event or goes on with the one in hand. *)
Definition fan_distance (x : fan_state) : nat :=
  match x with FanReceiving => 2 | FanSrc _ => 1 | FanDst _ _ => 0 | FanOutput _ => 4 | FanEngine _ => 3 | FanDone => 0 end.

(** The events that the fan-out has not done with. *)
Definition to_decide (s : sys) : nat := length (undecided (fan_at s)) + length (ch_buf (eventsCh (rdr s))).

Lemma fan_step_decides s s' :
  all_open s -> sys_step bootTime filterPrefixArg zone s LFan = Ret (Some s') ->
  to_decide s' <= to_decide s /\
  6 * to_decide s' + fan_distance (fan_at s') < 6 * to_decide s + fan_distance (fan_at s).
Proof.
  intros (_ & He & _) [_ H]%sys_step_live. unfold to_decide.
  live_step_inv H; not_closed; simpl;
    try (match goal with E : ch_recv _ = RecvValue _ _ |- _ => apply recv_length in E; rewrite E end); simpl; lia.
Qed.
(** A step of the forwarder takes a connection or brings one to the event
    channel; no other step does. *)
Definition fwd_distance (x : fwd_state) : nat := match x with FwdReceiving => 1 | _ => 0 end.

Lemma forward_step_enters s s' :
  all_open s -> sys_step bootTime filterPrefixArg zone s LForward = Ret (Some s') ->
  fwd_distance (fwd_at s') < fwd_distance (fwd_at s) + 2 * length (tagged false (entering s LForward s')).
Proof.
  intros (Hc & _) [_ H]%sys_step_live. live_step_inv H; not_closed; cbn [entering]; simpl; [lia|].
  match goal with E : ch_send _ _ = Ret (Some _) |- _ => apply ch_send_buf in E as -> end.
  rewrite drop_app_length. simpl. lia.
Qed.

Lemma step_tagged s l s' : l <> LForward -> tagged false (entering s l s') = [].
Proof. intros Hl. destruct l; try done. apply (tagged_other false). Qed.

(** The output loop receives in each of its steps on the event channel. *)
Lemma step_out_seen s l s' :
  all_open s -> sys_step bootTime filterPrefixArg zone s l = Ret (Some s') ->
  out_seen s `prefix_of` out_seen s' /\ (l = LOutEvent -> length (out_seen s) < length (out_seen s')).
Proof.
  intros (_ & _ & Ho & _) [_ H]%sys_step_live. unfold out_seen.
  destruct l; live_step_inv H; not_closed; simpl; rewrite ?omap_app; simpl;
    (split; [first [done|by eexists]|intros Hl; try done; rewrite length_app; simpl; lia]).
Qed.
(** Every step of the engine brings it nearer to the next event, which it takes
    when there is one. *)
Lemma engine_step_rest rs s s' :
  all_open s -> rules (engine (eng s)) = rs ->
  sys_step bootTime filterPrefixArg zone s LEngine = Ret (Some s') ->
  (eng_at (eng s) = EngReceiving /\ length (engine_seen (eng s')) = S (length (engine_seen (eng s))) /\
   eng_at_work (eng_at (eng s')) <= engine_work rs) \/
  (eng_at (eng s) <> EngReceiving /\ engine_seen (eng s') = engine_seen (eng s) /\
   eng_at_work (eng_at (eng s')) < eng_at_work (eng_at (eng s))).
Proof.
  intros Ho Hrs H. destruct (drains_engine) as [Hmoves _ _].
  specialize (Hmoves s s' Ho H). apply sys_step_live in H as [_ H]. destruct Ho as (_ & _ & _ & Hg & _).
  live_step_inv H; not_closed; simpl in *;
    try (left; rewrite length_app, Hrs; unfold engine_work; simpl; split_and!; [done|lia|lia]);
    right; split_and!; try done; destruct Hmoves as [Hm|Hm]; lia.
Qed.

(** The alerts that have left the engine. *)
Definition alerts_out (s : sys) : list Alert := alerts_seen s ++ ch_buf (alertsCh (eng s)).

Lemma step_alerts_out s l s' :
  sys_step bootTime filterPrefixArg zone s l = Ret (Some s') ->
  length (alerts_out s) <= length (alerts_out s') /\
  (l = LEngine -> forall a unsent e rest, eng_at (eng s) = EngSending (a :: unsent) e rest ->
     length (alerts_out s) < length (alerts_out s')).
Proof.
  intros [_ H]%sys_step_live. unfold alerts_out, alerts_seen. destruct l; live_step_inv H; simpl;
    repeat match goal with
    | E : ch_recv _ = RecvValue _ _ |- _ => apply ch_recv_value in E as [-> _]
    | E : ch_send _ _ = Ret (Some _) |- _ => apply ch_send_buf in E as ->
    end; rewrite ?omap_app, ?length_app; simpl; rewrite ?length_app; simpl;
    (split; [lia|]); intros Hl; try done; intros; try congruence; lia.
Qed.

Lemma step_alerts_seen s l s' :
  all_open s -> sys_step bootTime filterPrefixArg zone s l = Ret (Some s') ->
  alerts_seen s `prefix_of` alerts_seen s' /\ (l = LOutAlert -> length (alerts_seen s) < length (alerts_seen s')).
Proof.
  intros (_ & _ & _ & _ & Ha) [_ H]%sys_step_live. unfold alerts_seen.
  destruct l; live_step_inv H; not_closed; simpl; rewrite ?omap_app; simpl;
    (split; [first [done|by eexists]|intros Hl; try done; rewrite length_app; simpl; lia]).
Qed.

(** What the engine has received and raised only grows. *)
Lemma step_engine_grows s l s' :
  sys_step bootTime filterPrefixArg zone s l = Ret (Some s') ->
  engine_seen (eng s) `prefix_of` engine_seen (eng s') /\
  alerts (engine (eng s)) `prefix_of` alerts (engine (eng s')).
Proof.
  intros [_ H]%sys_step_live. destruct l; live_step_inv H; simpl; try done; try (split; [by eexists|done]).
  split; [done|].
  match goal with E : process_rule _ _ _ = Ret _ |- _ => apply process_rule_grows in E as [_ (new & -> & _)] end.
  by eexists.
Qed.
(** The events sent to the engine, whether it has received them or not. *)
Definition to_engine (s : sys) : list Event := engine_seen (eng s) ++ ch_buf (engineCh s).

Lemma step_to_engine s l s' :
  sys_step bootTime filterPrefixArg zone s l = Ret (Some s') -> length (to_engine s) <= length (to_engine s').
Proof.
  intros [_ H]%sys_step_live. unfold to_engine. destruct l; live_step_inv H; simpl; try done;
    repeat match goal with
    | E : ch_recv _ = RecvValue _ _ |- _ => apply ch_recv_value in E as [-> _]
    | E : ch_send _ _ = Ret (Some _) |- _ => apply ch_send_buf in E as ->
    | E : ch_close _ = Ret _ |- _ => apply ch_close_buf in E as ->
    end; rewrite ?length_app; simpl; rewrite ?length_app; simpl; lia.
Qed.
End Steps.
