(* ===== verification/Fairness.v ===== *)
(** * Delivery under load

    [Progress] and [System] show that the program, left alone, comes to rest with
    everything handled.  Here records keep coming.  A run is then infinite, and
    what it needs to deliver is fairness: a goroutine that can move again and
    again moves at last, which is how the Go scheduler, the waiting queues of
    channels and [select] treat them.  In every fair run whatever the program has
    taken up is output at some later point, and so are the alerts it calls for. *)

From S2P Require Import Prelude.
From S2P Require Import Bytes.
From S2P Require Import GoLib.
From S2P Require Import Channel.
From S2P Require Import Core.
From S2P Require Import Wire.
From S2P Require Import Correlator.
From S2P Require Import Rule.
From S2P Require Import Engine.
From S2P Require Import Sequence.
From S2P Require Import Output.
From S2P Require Import Resolver.
From S2P Require Import Main.
From S2P Require Import Pipeline.
From S2P Require Import Progress.
From S2P Require Import Flow.
From S2P Require Import Sequential.
From S2P Require Import Turns.

Open Scope nat_scope.

(** ** Fair runs *)

Section FairRuns.
Variables (bootTime : Z) (filterPrefixArg : string) (zone : Z).
Variables (rs : list Rule) (r : Resolver).

(** [state n] after the step of [who n]; [None] when nothing happens then.  The
    signal has not come, and no read has failed. *)
Record fair_run (state : nat -> sys) (who : nat -> option label) : Prop := {
  fr_start : state 0 = sys_init rs r;
  fr_step n :
    match who n with
    | Some l => sys_step bootTime filterPrefixArg zone (state n) l = Ret (Some (state (S n)))
    | None => state (S n) = state n
    end;
  fr_running n : closing (state n) = 0 /\ exited (state n) = None;
  (** A goroutine moves again, or there is a time after which it never can. *)
  fr_fair l n :
    l ∈ internal_labels ->
    (exists m, n <= m /\ who m = Some l) \/
    (exists m, n <= m /\ forall k, m <= k -> stuck (sys_step bootTime filterPrefixArg zone (state k) l))
}.

Variables (state : nat -> sys) (who : nat -> option label).
Hypothesis Hrun : fair_run state who.
Hypothesis Hns : no_sequences rs.

Lemma state_step l n :
  who n = Some l -> sys_step bootTime filterPrefixArg zone (state n) l = Ret (Some (state (S n))).
Proof. intros H. pose proof (fr_step _ _ Hrun n) as Hs. by rewrite H in Hs. Qed.

Lemma state_reachable n : reachable bootTime filterPrefixArg zone rs r (state n).
Proof.
  induction n as [|n IH]; [rewrite (fr_start _ _ Hrun); constructor|].
  destruct (who n) as [l|] eqn:Hw; [by apply (reach_step _ _ _ _ _ (state n) l _ IH), state_step|].
  pose proof (fr_step _ _ Hrun n) as Hs. rewrite Hw in Hs. by rewrite Hs.
Qed.

Lemma state_open n : all_open (state n).
Proof. apply (reachable_open bootTime filterPrefixArg zone rs r); [apply state_reachable|apply (fr_running _ _ Hrun n)]. Qed.

Lemma state_running n : running (state n).
Proof. apply (reachable_running bootTime filterPrefixArg zone rs r); [apply state_reachable|apply (fr_running _ _ Hrun n)]. Qed.

(** Something that only the steps of [l] change stays while it does not move. *)
Lemma stays {A} (f : sys -> A) (P : label -> Prop) m :
  (forall s l s', ~ P l -> sys_step bootTime filterPrefixArg zone s l = Ret (Some s') -> f s' = f s) ->
  (forall k l, m <= k -> who k = Some l -> ~ P l) ->
  forall k, m <= k -> f (state k) = f (state m).
Proof.
  intros Hf Hno k Hk. induction Hk as [|k Hk IH]; [done|]. rewrite <- IH.
  destruct (who k) as [l|] eqn:Hw.
  - by apply (Hf _ l _ (Hno k l Hk Hw)), state_step.
  - pose proof (fr_step _ _ Hrun k) as Hs. rewrite Hw in Hs. by rewrite Hs.
Qed.

(** ** Leads-to

    [l] goes on for ever, but for the times at which [W] holds from then on. *)
Definition goes_on (l : label) (W : sys -> Prop) : Prop :=
  forall n, (exists m, n <= m /\ who m = Some l) \/ (exists m, n <= m /\ forall k, m <= k -> W (state k)).

(** If each step of [l] brings [Q] nearer, no other step takes it away, and [Q]
    holds where [l] waits for ever, then [Q] comes. *)
Lemma eventually l W (Q : nat -> Prop) (measure : nat -> nat) n0 :
  goes_on l W ->
  (forall k, n0 <= k -> W (state k) -> Q k) ->
  (forall k, n0 <= k -> Q k \/ Q (S k) \/
     measure (S k) <= measure k /\ (who k = Some l -> measure (S k) < measure k)) ->
  forall n, n0 <= n -> exists m, n <= m /\ Q m.
Proof.
  intros Hgo HW Hstep.
  assert (Hwalk : forall d n, n0 <= n ->
    (exists m, n <= m /\ Q m) \/ measure (n + d) <= measure n).
  { induction d as [|d IH]; intros n Hn; [right; by rewrite Nat.add_0_r|].
    destruct (IH n Hn) as [HQ|Hm]; [by left|].
    destruct (Hstep (n + d) ltac:(lia)) as [HQ|[HQ|[Hle _]]].
    - left. exists (n + d). split; [lia|done].
    - left. exists (S (n + d)). split; [lia|done].
    - right. replace (n + S d) with (S (n + d)) by lia. lia. }
  intros n. remember (measure n) as w eqn:Hw. revert n Hw.
  induction (lt_wf w) as [w _ IH]. intros n -> Hn.
  destruct (Hgo n) as [(m & Hm & Hl)|(m & Hm & Hwait)].
  - destruct (Hwalk (m - n) n Hn) as [HQ|Hle]; [done|]. replace (n + (m - n)) with m in Hle by lia.
    destruct (Hstep m ltac:(lia)) as [HQ|[HQ|[_ Hlt]]].
    + exists m. split; [lia|done].
    + exists (S m). split; [lia|done].
    + specialize (Hlt Hl). destruct (IH (measure (S m)) ltac:(lia) (S m) eq_refl ltac:(lia)) as (m' & Hm' & HQ).
      exists m'. split; [lia|done].
  - exists m. split; [done|]. apply HW; [lia|]. by apply Hwait.
Qed.

Lemma label_is l l' : l ∈ internal_labels -> l' = l \/ l' <> l.
Proof.
  unfold internal_labels. intros Hl.
  repeat (apply elem_of_cons in Hl as [->|Hl]); [..|by apply elem_of_nil in Hl];
    destruct l'; (by left) || (by right).
Qed.

(** A channel whose receiver goes on is not full for ever. *)
Lemma not_full_forever {A} l (c : sys -> chan A) phase m :
  l ∈ internal_labels -> drains bootTime filterPrefixArg zone l c phase -> goes_on l (waits l) ->
  (forall k, chan_ok (c (state k))) -> (forall k, 0 < ch_cap (c (state k))) ->
  (forall k, ch_cap (c (state (S k))) = ch_cap (c (state k))) ->
  ~ forall k, m <= k -> full (c (state k)).
Proof.
  intros Hl [Hmoves Hother Hwaits] Hgo Hok Hcap Hsame Hfull.
  destruct (eventually l (waits l) (fun _ => False) (fun k => phase (state k)) m Hgo) with (n := m)
    as (_ & _ & []); [|intros k Hk|done].
  - intros k Hk Hw. specialize (Hfull k Hk). unfold full in Hfull. rewrite (Hwaits _ Hw) in Hfull.
    specialize (Hcap k). simpl in Hfull. lia.
  - right; right. destruct (who k) as [l'|] eqn:Hw.
    + apply state_step in Hw. destruct (label_is l l' Hl) as [->|Hne].
      * destruct (Hmoves _ _ (state_open k) Hw) as [Hlen|Hlt]; [|split; [lia|done]].
        specialize (Hok k). specialize (Hfull (S k) ltac:(lia)). unfold chan_ok, full in *.
        rewrite Hsame in Hfull. lia.
      * split; [by apply (Hother _ l')|congruence].
    + pose proof (fr_step _ _ Hrun k) as Hs. rewrite Hw in Hs. rewrite Hs. done.
Qed.

(** ** Every goroutine goes on *)

(** Why a goroutine stands still for ever. *)
Lemma held_or_waits l k :
  l ∈ internal_labels -> stuck (sys_step bootTime filterPrefixArg zone (state k) l) ->
  waits l (state k) \/ held_up bootTime l (state k).
Proof.
  intros Hl Hs. apply (stuck_because bootTime filterPrefixArg zone); try done;
    [apply state_open|apply state_running|apply (fr_running _ _ Hrun k)|].
  intros e ru rest Heq. destruct (process_rule (engine (eng (state k))) ru e) as [r'|p] eqn:Hp; [by exists r'|].
  destruct (reachable_rule_panics _ _ _ _ _ _ _ _ _ _ (state_reachable k) Heq Hp) as (_ & Hin & Hm).
  unfold no_sequences in Hns. rewrite Forall_forall in Hns. unfold matches_step in Hm.
  by rewrite (Hns ru Hin) in Hm.
Qed.

Lemma stuck_never_moves l m :
  (forall k, m <= k -> stuck (sys_step bootTime filterPrefixArg zone (state k) l)) ->
  forall k l', m <= k -> who k = Some l' -> ~ l' = l.
Proof. intros Hs k l' Hk Hw ->. apply state_step in Hw. by apply (Hs k Hk (state (S k))). Qed.

(** It is enough to rule out that it is held up for ever. *)
Lemma goes_on_unless l :
  l ∈ internal_labels ->
  (forall m, (forall k, m <= k -> stuck (sys_step bootTime filterPrefixArg zone (state k) l)) ->
     forall k, m <= k -> held_up bootTime l (state k) -> False) ->
  goes_on l (waits l).
Proof.
  intros Hl Hno n. destruct (fr_fair _ _ Hrun l n Hl) as [H|(m & Hm & Hs)]; [by left|].
  right. exists m. split; [done|]. intros k Hk.
  destruct (held_or_waits l k Hl (Hs k Hk)) as [H|H]; [done|]. by destruct (Hno m Hs k Hk H).
Qed.

#[local] Ltac internal := unfold internal_labels; set_solver.
#[local] Ltac caps := intros k; pose proof (state_running k) as []; pose proof (state_running (S k)) as []; simpl; lia.

Lemma state_chans k : chans_ok (state k).
Proof. apply (reachable_chans bootTime filterPrefixArg zone rs r), state_reachable. Qed.
Lemma state_inv k : sys_inv filterPrefixArg zone rs (state k).
Proof. apply (reachable_inv bootTime filterPrefixArg zone rs r), state_reachable. Qed.

Lemma alerts_go_on : goes_on LOutAlert (waits LOutAlert).
Proof. apply goes_on_unless; [internal|]. by intros m Hs k Hk. Qed.

Lemma output_goes_on : goes_on LOutEvent (waits LOutEvent).
Proof. apply goes_on_unless; [internal|]. by intros m Hs k Hk. Qed.

Lemma alerts_not_full m : ~ forall k, m <= k -> full (alertsCh (eng (state k))).
Proof.
  apply (not_full_forever LOutAlert _ _ m ltac:(internal) (drains_alerts _ _ _) alerts_go_on); [|caps..].
  intros k. by destruct (state_inv k) as [(_ & _ & Ha) _ _ _ _ _ _].
Qed.

Lemma output_not_full m : ~ forall k, m <= k -> full (outputCh (state k)).
Proof.
  apply (not_full_forever LOutEvent _ _ m ltac:(internal) (drains_output _ _ _) output_goes_on); [|caps..].
  intros k. by destruct (state_inv k) as [(Ho & _ & _) _ _ _ _ _ _].
Qed.

Lemma engine_goes_on : goes_on LEngine (waits LEngine).
Proof.
  apply goes_on_unless; [internal|]. intros m Hs k Hk [(a & u & e & rest & Hat) _].
  apply (alerts_not_full k). intros k' Hk'.
  destruct (held_or_waits LEngine k' ltac:(internal) (Hs k' ltac:(lia))) as [[Hw _]|[_ Hf]]; [|done].
  rewrite (stays (fun s => eng_at (eng s)) (eq LEngine) k) in Hw; [congruence| | |done].
  - intros s l s' Hl H. apply (step_keeps _ _ _ _ _ _ H). congruence.
  - intros j l Hj Hw' <-. by apply (stuck_never_moves LEngine m Hs j LEngine ltac:(lia) Hw').
Qed.

Lemma engine_not_full m : ~ forall k, m <= k -> full (engineCh (state k)).
Proof.
  apply (not_full_forever LEngine _ _ m ltac:(internal) (drains_engine _ _ _) engine_goes_on); [|caps..].
  intros k. by destruct (state_inv k) as [(_ & Hg & _) _ _ _ _ _ _].
Qed.

Lemma fan_stays m :
  (forall k, m <= k -> stuck (sys_step bootTime filterPrefixArg zone (state k) LFan)) ->
  forall k k', m <= k -> k <= k' -> fan_at (state k') = fan_at (state k).
Proof.
  intros Hs k k' Hk Hk'. apply (stays fan_at (eq LFan) k); [| |done].
  - intros s l s' Hl H. apply (step_keeps _ _ _ _ _ _ H). congruence.
  - intros j l Hj Hw' <-. by apply (stuck_never_moves LFan m Hs j LFan ltac:(lia) Hw').
Qed.

Lemma fan_goes_on : goes_on LFan (waits LFan).
Proof.
  apply goes_on_unless; [internal|].
  intros m Hs k Hk [[[e He] _]|[[e He] _]]; [apply (output_not_full k)|apply (engine_not_full k)];
    intros k' Hk'; pose proof (fan_stays m Hs k k' Hk Hk') as Hat; rewrite He in Hat;
    destruct (held_or_waits LFan k' ltac:(internal) (Hs k' ltac:(lia))) as [[Hw _]|[[[e' He'] Hf]|[[e' He'] Hf]]];
    first [done|congruence].
Qed.

Lemma events_not_full m : ~ forall k, m <= k -> full (eventsCh (rdr (state k))).
Proof.
  apply (not_full_forever LFan (fun s => eventsCh (rdr s)) _ m ltac:(internal) (drains_events _ _ _) fan_goes_on);
    [|caps..]. intros k. apply (state_chans k).
Qed.

Lemma forward_goes_on : goes_on LForward (waits LForward).
Proof.
  apply goes_on_unless; [internal|]. intros m Hs k Hk [[e He] _]. apply (events_not_full k). intros k' Hk'.
  destruct (held_or_waits LForward k' ltac:(internal) (Hs k' ltac:(lia))) as [[Hw _]|[_ Hf]]; [|done].
  rewrite (stays fwd_at (eq LForward) k) in Hw; [congruence| | |done].
  - intros s l s' Hl H. apply (step_keeps _ _ _ _ _ _ H). congruence.
  - intros j l Hj Hw' <-. by apply (stuck_never_moves LForward m Hs j LForward ltac:(lia) Hw').
Qed.

Lemma connections_not_full m : ~ forall k, m <= k -> full (output (corr (rdr (state k)))).
Proof.
  apply (not_full_forever LForward (fun s => output (corr (rdr s))) _ m ltac:(internal) (drains_connections _ _ _) forward_goes_on);
    [|caps..]. intros k. apply (state_chans k).
Qed.

Lemma reader_goes_on : goes_on LHandle (waits LHandle).
Proof.
  apply goes_on_unless; [internal|]. intros m Hs k Hk (record & Hrec & _).
  assert (Hat : forall k', k <= k' -> rd_at (state k') = RdGot record).
  { intros k' Hk'. induction Hk' as [|k' Hk' IH]; [done|].
    destruct (who k') as [l|] eqn:Hw.
    - rewrite <- IH. apply (step_keeps _ _ _ _ _ _ (state_step l k' Hw)) with (record := record); [done|].
      apply (stuck_never_moves LHandle m Hs k' l ltac:(lia) Hw).
    - pose proof (fr_step _ _ Hrun k') as Hst. rewrite Hw in Hst. by rewrite Hst. }
  assert (Hfull : forall k', k <= k' -> match direct_event bootTime record with
    | Some _ => full (eventsCh (rdr (state k'))) | None => full (output (corr (rdr (state k')))) end).
  { intros k' Hk'. destruct (held_or_waits LHandle k' ltac:(internal) (Hs k' ltac:(lia))) as [Hw|(rec' & Hrec' & Hf)].
    - simpl in Hw. by rewrite (Hat k' Hk') in Hw.
    - rewrite (Hat k' Hk') in Hrec'. by injection Hrec' as <-. }
  destruct (direct_event bootTime record); [by apply (events_not_full k)|by apply (connections_not_full k)].
Qed.

(** ** What the run has done so far *)

(** What it has taken up, and what has entered the event channel. *)
Fixpoint taken (n : nat) : list stimulus :=
  match n with
  | 0 => []
  | S n => taken n ++ match who n with Some l => taken_up (state n) l | None => [] end
  end.

Fixpoint entered (n : nat) : list (bool * Event) :=
  match n with
  | 0 => []
  | S n => entered n ++ match who n with Some l => entering (state n) l (state (S n)) | None => [] end
  end.

Lemma run_refines n : refines bootTime filterPrefixArg r (taken n) (entered n) (state n).
Proof.
  induction n as [|n IH]; [rewrite (fr_start _ _ Hrun); apply init_refines|]. simpl.
  destruct (who n) as [l|] eqn:Hw.
  - apply (step_refines bootTime filterPrefixArg zone); [done|by apply state_step].
  - pose proof (fr_step _ _ Hrun n) as Hs. rewrite Hw in Hs. by rewrite Hs, !app_nil_r.
Qed.

(** A history that every step extends. *)
Lemma grows_along {A} (f : nat -> list A) :
  (forall n, f n `prefix_of` f (S n)) -> forall n m, n <= m -> f n `prefix_of` f m.
Proof. intros Hf n m Hm. induction Hm as [|m _ IH]; [done|]. by transitivity (f m). Qed.

Lemma taken_grows n m : n <= m -> taken n `prefix_of` taken m.
Proof. apply grows_along. intros k. by eexists. Qed.
Lemma entered_grows n m : n <= m -> entered n `prefix_of` entered m.
Proof. apply grows_along. intros k. by eexists. Qed.

Lemma prefix_omap {A B} (f : A -> option B) l l' : l `prefix_of` l' -> omap f l `prefix_of` omap f l'.
Proof. intros [k ->]. rewrite omap_app. by eexists. Qed.

Lemma tagged_grows b en en' : en `prefix_of` en' -> tagged b en `prefix_of` tagged b en'.
Proof. intros [k ->]. rewrite tagged_app. by eexists. Qed.

Lemma pair_run_grows xs xs' : xs `prefix_of` xs' ->
  snd (pair_run bootTime xs) `prefix_of` snd (pair_run bootTime xs').
Proof.
  intros [ys ->]. induction ys as [|y ys IH] using rev_ind; [by rewrite app_nil_r|].
  rewrite app_assoc, pair_run_snoc. etransitivity; [exact IH|].
  destruct (pair_run bootTime (xs ++ ys)) as [m done]. unfold pair_step.
  destruct (op_of y) as [[]|]; simpl; [done| |done|done]. destruct (_ !! _); [by eexists|done].
Qed.

(** Of two prefixes the shorter is a prefix of the longer. *)
Lemma prefix_shorter {A} (l1 l2 l : list A) :
  l1 `prefix_of` l -> l2 `prefix_of` l -> length l1 <= length l2 -> l1 `prefix_of` l2.
Proof.
  intros H1 H2 Hlen. destruct (prefix_weak_total l1 l2 l H1 H2) as [H|H]; [done|].
  destruct H as [k ->]. rewrite length_app in Hlen. destruct k; [by rewrite app_nil_r|simpl in Hlen; lia].
Qed.


(** ** What is taken up is delivered *)

(** What a step of the run does, whoever moves. *)
Lemma run_step (P : option label -> sys -> sys -> Prop) k :
  (forall s, P None s s) ->
  (forall s l s', all_open s -> sys_step bootTime filterPrefixArg zone s l = Ret (Some s') -> P (Some l) s s') ->
  P (who k) (state k) (state (S k)).
Proof.
  intros Hnone Hsome. destruct (who k) as [l|] eqn:Hw.
  - apply Hsome; [apply state_open|by apply state_step].
  - pose proof (fr_step _ _ Hrun k) as Hs. rewrite Hw in Hs. rewrite Hs. apply Hnone.
Qed.

Lemma sent_grows n m : n <= m -> sent (state n) `prefix_of` sent (state m).
Proof.
  apply (grows_along (fun n => sent (state n))). intros k.
  apply (run_step (fun _ s s' => sent s `prefix_of` sent s') k); [done|].
  intros s l s' _ H. by apply (step_sent _ _ _ _ _ _ H).
Qed.

Lemma out_seen_grows n m : n <= m -> out_seen (state n) `prefix_of` out_seen (state m).
Proof.
  apply (grows_along (fun n => out_seen (state n))). intros k.
  apply (run_step (fun _ s s' => out_seen s `prefix_of` out_seen s') k); [done|].
  intros s l s' Ho H. by apply (step_out_seen _ _ _ _ _ _ Ho H).
Qed.

(** The connections completed by now enter the event channel. *)
Lemma connections_enter n :
  exists m, n <= m /\ snd (pair_run bootTime (taken n)) `prefix_of` tagged false (entered m).
Proof.
  set (target := snd (pair_run bootTime (taken n))).
  assert (Hpre : forall k, n <= k -> target `prefix_of` snd (pair_run bootTime (taken k)))
    by (intros k Hk; by apply pair_run_grows, taken_grows).
  destruct (eventually LForward (waits LForward)
    (fun k => length target <= length (tagged false (entered k)))
    (fun k => 2 * length target - 2 * length (tagged false (entered k)) + fwd_distance (fwd_at (state k))) n
    forward_goes_on) with (n := n) as (m & Hm & HQ); [| |done|].
  - intros k Hk [Hat Hbuf]. pose proof (rf_connections _ _ _ _ _ _ (run_refines k)) as Hc.
    rewrite Hat, Hbuf in Hc. simpl in Hc. rewrite app_nil_r in Hc. rewrite <- Hc.
    by apply prefix_length, Hpre.
  - intros k Hk. destruct (Nat.le_gt_cases (length target) (length (tagged false (entered k)))) as [HQ|Hlt]; [by left|].
    destruct (Nat.le_gt_cases (length target) (length (tagged false (entered (S k))))) as [HQ|Hlt'];
      [by right; left|]. right; right. cbn [entered] in *. rewrite tagged_app, length_app in *.
    destruct (who k) as [l|] eqn:Hw.
    + apply state_step in Hw. destruct (label_is LForward l ltac:(internal)) as [->|Hne].
      * pose proof (forward_step_enters _ _ _ _ _ (state_open k) Hw). split; [lia|]. intros _. lia.
      * rewrite (step_tagged (state k) l _ Hne). destruct (step_keeps _ _ _ _ _ _ Hw) as (_ & _ & Hf & _).
        rewrite (Hf Hne). simpl. split; [lia|congruence].
    + pose proof (fr_step _ _ Hrun k) as Hs. rewrite Hw in Hs. rewrite Hs. simpl. split; [lia|done].
  - exists m. split; [done|]. pose proof (rf_connections _ _ _ _ _ _ (run_refines m)) as Hc.
    apply (prefix_shorter _ _ _ (Hpre m Hm)); [|done]. rewrite Hc. by eexists.
Qed.

(** The fan-out decides on what has entered by now. *)
Lemma fan_decides n :
  exists m, n <= m /\ length (entered n) + to_decide (state m) <= length (entered m).
Proof.
  apply (eventually LFan (waits LFan)
    (fun k => length (entered n) + to_decide (state k) <= length (entered k))
    (fun k => 6 * length (entered n) + 6 * to_decide (state k) + fan_distance (fan_at (state k))
              - 6 * length (entered k)) n fan_goes_on); [| |done].
  - intros k Hk [Hat Hbuf]. unfold to_decide. rewrite Hat, Hbuf. simpl.
    pose proof (prefix_length _ _ (entered_grows n k Hk)). lia.
  - intros k Hk.
    destruct (Nat.le_gt_cases (length (entered n) + to_decide (state k)) (length (entered k))) as [HQ|Hlt]; [by left|].
    right; right. cbn [entered]. rewrite length_app. destruct (who k) as [l|] eqn:Hw.
    + apply state_step in Hw. destruct (label_is LFan l ltac:(internal)) as [->|Hne].
      * destruct (fan_step_decides _ _ _ _ _ (state_open k) Hw). cbn [entering length]. split; [lia|]. intros _. lia.
      * pose proof (step_entering _ _ _ _ _ _ Hw Hne) as He.
        destruct (step_keeps _ _ _ _ _ _ Hw) as (_ & Hf & _). unfold to_decide. rewrite He, (Hf Hne).
        split; [lia|congruence].
    + pose proof (fr_step _ _ Hrun k) as Hs. rewrite Hw in Hs. rewrite Hs. simpl. split; [lia|done].
Qed.

(** What is sent, or about to be, is received by the output loop. *)
Lemma sent_is_queued n :
  exists m, n <= m /\
    length (sent (state n)) <= length (out_seen (state m) ++ ch_buf (outputCh (state m))).
Proof.
  assert (Hdone : forall k, n <= k -> decided (fan_at (state k)) = [] ->
    length (sent (state n)) <= length (out_seen (state k) ++ ch_buf (outputCh (state k)))).
  { intros k Hk Hd. pose proof (prefix_length _ _ (sent_grows n k Hk)) as H.
    unfold sent at 2 in H. by rewrite Hd, app_nil_r in H. }
  apply (eventually LFan (waits LFan)
    (fun k => length (sent (state n)) <= length (out_seen (state k) ++ ch_buf (outputCh (state k))))
    (fun _ => 0) n fan_goes_on); [| |done].
  - intros k Hk [Hat _]. apply Hdone; [done|]. by rewrite Hat.
  - intros k Hk. destruct (decided (fan_at (state k))) as [|e l] eqn:Hd; [left; by apply Hdone|].
    destruct (who k) as [l'|] eqn:Hw; [|by right; right].
    apply state_step in Hw. destruct (label_is LFan l' ltac:(internal)) as [->|Hne].
    + right; left. apply Hdone; [lia|]. apply sys_step_live in Hw as [_ H].
      destruct (fan_at (state k)) eqn:Hat; try discriminate. cbn [live_step] in H. unfold fan_step in H.
      rewrite Hat in H. by apply then_inv in H as (c & _ & ->).
    + right; right. split; [done|congruence].
Qed.

Lemma queued_is_seen n :
  exists m, n <= m /\ length (out_seen (state n) ++ ch_buf (outputCh (state n))) <= length (out_seen (state m)).
Proof.
  set (target := length (out_seen (state n) ++ ch_buf (outputCh (state n)))).
  apply (eventually LOutEvent (waits LOutEvent) (fun k => target <= length (out_seen (state k)))
    (fun k => target - length (out_seen (state k))) n output_goes_on); [| |done].
  - intros k Hk Hbuf. simpl in Hbuf.
    enough (H : target <= length (out_seen (state k) ++ ch_buf (outputCh (state k)))) by (by rewrite Hbuf, app_nil_r in H).
    clear Hbuf. induction Hk as [|k Hk IH]; [done|]. etransitivity; [exact IH|].
    apply (run_step (fun _ s s' => length (out_seen s ++ ch_buf (outputCh s)) <= length (out_seen s' ++ ch_buf (outputCh s'))) k);
      [done|]. intros s l s' _ H. by apply (step_queued _ _ _ _ _ _ H).
  - intros k Hk. destruct (Nat.le_gt_cases target (length (out_seen (state k)))) as [HQ|Hlt]; [by left|].
    right; right. destruct (who k) as [l|] eqn:Hw.
    + apply state_step in Hw. destruct (step_out_seen _ _ _ _ _ _ (state_open k) Hw) as [Hp Hl].
      apply prefix_length in Hp. split; [lia|]. intros [= ->]. specialize (Hl eq_refl). lia.
    + pose proof (fr_step _ _ Hrun k) as Hs. rewrite Hw in Hs. by rewrite Hs.
Qed.

Lemma sent_is_seen n : exists m, n <= m /\ sent (state n) `prefix_of` out_seen (state m).
Proof.
  destruct (sent_is_queued n) as (m1 & Hm1 & H1). destruct (queued_is_seen m1) as (m2 & Hm2 & H2).
  exists m2. split; [lia|]. apply (prefix_shorter _ _ (sent (state m2))); [apply sent_grows; lia| |lia].
  unfold sent. by eexists.
Qed.

Lemma tagged_take_prefix b k en : tagged b (take k en) `prefix_of` tagged b en.
Proof. apply tagged_grows. exists (drop k en). by rewrite take_drop. Qed.

Lemma resolvers_grow xs ys : dr_seen (resolvers r xs) ⊆ dr_seen (resolvers r (xs ++ ys)).
Proof.
  induction ys as [|y ys IH] using rev_ind; [by rewrite app_nil_r|]. rewrite app_assoc, resolvers_snoc.
  etransitivity; [exact IH|]. unfold docker_step. destruct y; try done.
  destruct (dr_on _); [|done]. destruct (monitor_step _ _) as [[r' on]|]; [|done]. simpl. set_solver.
Qed.

(** A record in hand is taken up. *)
Lemma reader_returns n : exists m, n <= m /\ rd_at (state m) = RdReading.
Proof.
  apply (eventually LHandle (waits LHandle) (fun k => rd_at (state k) = RdReading) (fun _ => 0) n reader_goes_on);
    [done| |done].
  intros k Hk. destruct (rd_at (state k)) as [|record] eqn:Hrec; [by left|].
  destruct (who k) as [l|] eqn:Hw; [|by right; right].
  apply state_step in Hw. destruct (label_is LHandle l ltac:(internal)) as [->|Hne].
  - right; left. apply sys_step_live in Hw as [_ H]. cbn [live_step] in H. rewrite Hrec in H.
    by apply then_inv in H as (c & _ & ->).
  - right; right. split; [done|congruence].
Qed.

(** (C11) In a fair run, records and clean-ups, Docker events and other work coming
    in without end, everything taken up is delivered: for every point [n] there
    is a later one, [m], at which the output loop has received what the fan-out
    has made of an interleaving of file and exec events with connections that
    contains all that the records taken up by [n] give, and nothing that those
    taken up by [m] do not. *)
Theorem fair_runs_deliver (n : nat) :
  (exists k, n <= k /\ rd_at (state k) = RdReading) /\
  exists m D C es outs,
    n <= m /\
    direct_events bootTime (taken n) `prefix_of` D /\ D `prefix_of` direct_events bootTime (taken m) /\
    snd (pair_run bootTime (taken n)) `prefix_of` C /\ C `prefix_of` snd (pair_run bootTime (taken m)) /\
    interleaving D C es /\
    fanned filterPrefixArg (dr_seen (resolvers r (taken m))) es outs /\
    outs `prefix_of` out_seen (state m).
Proof.
  split; [apply reader_returns|].
  destruct (connections_enter n) as (m1 & Hm1 & Hconn). destruct (fan_decides m1) as (m2 & Hm2 & Hdec).
  destruct (sent_is_seen m2) as (m3 & Hm3 & Hseen).
  destruct (run_refines m2) as [_ _ _ _ _ He Hc (gone & Hg & Hfan)].
  set (g := take (length gone) (entered m2)).
  assert (Hgone : map snd g = gone).
  { unfold g. rewrite <- firstn_map. change (firstn (length gone) (map snd (entered m2)) = gone).
    rewrite Hg. apply take_app_length. }
  assert (Hin : entered m1 `prefix_of` g).
  { apply (prefix_shorter _ _ (entered m2)); [by apply entered_grows| |].
    - exists (drop (length gone) (entered m2)). unfold g. by rewrite take_drop.
    - unfold g. rewrite length_take. apply (f_equal length) in Hg.
      rewrite length_map, !length_app in Hg. unfold to_decide in Hdec. lia. }
  exists m3, (tagged true g), (tagged false g), gone, (sent (state m2)). split_and!.
  - lia.
  - transitivity (tagged true (entered m1)); [|by apply tagged_grows].
    rewrite (rf_direct _ _ _ _ _ _ (run_refines m1)). unfold direct_events. by apply prefix_omap, taken_grows.
  - transitivity (tagged true (entered m2)); [apply tagged_take_prefix|]. rewrite He. unfold direct_events.
    by apply prefix_omap, taken_grows.
  - transitivity (tagged false (entered m1)); [done|by apply tagged_grows].
  - transitivity (tagged false (entered m2)); [apply tagged_take_prefix|].
    transitivity (snd (pair_run bootTime (taken m2))); [rewrite Hc; by eexists|by apply pair_run_grows, taken_grows].
  - rewrite <- Hgone. apply tagged_interleave.
  - apply (fanned_mono _ (dr_seen (resolvers r (taken m2)))); [|done].
    destruct (taken_grows m2 m3 Hm3) as [ys ->]. apply resolvers_grow.
  - done.
Qed.

(** ** And so are the alerts *)

Lemma run_grows (f : sys -> nat) n :
  (forall s l s', all_open s -> sys_step bootTime filterPrefixArg zone s l = Ret (Some s') -> f s <= f s') ->
  forall m, n <= m -> f (state n) <= f (state m).
Proof.
  intros Hf m Hm. induction Hm as [|m _ IH]; [done|]. etransitivity; [exact IH|].
  by apply (run_step (fun _ s s' => f s <= f s') m).
Qed.

Lemma engine_seen_grows n m : n <= m -> engine_seen (eng (state n)) `prefix_of` engine_seen (eng (state m)).
Proof.
  apply (grows_along (fun n => engine_seen (eng (state n)))). intros k.
  apply (run_step (fun _ s s' => engine_seen (eng s) `prefix_of` engine_seen (eng s')) k); [done|].
  intros s l s' _ H. by apply (step_engine_grows _ _ _ _ _ _ H).
Qed.

Lemma raised_grows n m : n <= m -> alerts (engine (eng (state n))) `prefix_of` alerts (engine (eng (state m))).
Proof.
  apply (grows_along (fun n => alerts (engine (eng (state n))))). intros k.
  apply (run_step (fun _ s s' => alerts (engine (eng s)) `prefix_of` alerts (engine (eng s'))) k); [done|].
  intros s l s' _ H. by apply (step_engine_grows _ _ _ _ _ _ H).
Qed.

Lemma seen_reaches_engine n :
  exists m, n <= m /\ length (out_seen (state n)) <= length (to_engine (state m)).
Proof.
  assert (Hdone : forall k, n <= k -> fan_in_flight (fan_at (state k)) = [] ->
    length (out_seen (state n)) <= length (to_engine (state k))).
  { intros k Hk Hd. destruct (state_inv k) as [_ Hsame _ _ _ _ _]. rewrite Hd, app_nil_r in Hsame.
    unfold to_engine. rewrite <- Hsame, length_app. pose proof (prefix_length _ _ (out_seen_grows n k Hk)). lia. }
  apply (eventually LFan (waits LFan) (fun k => length (out_seen (state n)) <= length (to_engine (state k)))
    (fun _ => 0) n fan_goes_on); [| |done].
  - intros k Hk [Hat _]. apply Hdone; [done|]. by rewrite Hat.
  - intros k Hk. destruct (fan_in_flight (fan_at (state k))) as [|e l] eqn:Hd; [left; by apply Hdone|].
    destruct (who k) as [l'|] eqn:Hw; [|by right; right].
    apply state_step in Hw. destruct (label_is LFan l' ltac:(internal)) as [->|Hne].
    + right; left. apply Hdone; [lia|]. apply sys_step_live in Hw as [_ H].
      destruct (fan_at (state k)) eqn:Hat; try discriminate. cbn [live_step] in H. unfold fan_step in H.
      rewrite Hat in H. by apply then_inv in H as (c & _ & ->).
    + right; right. split; [done|congruence].
Qed.

Lemma engine_receives n :
  exists m, n <= m /\ length (to_engine (state n)) <= length (engine_seen (eng (state m))).
Proof.
  set (target := length (to_engine (state n))).
  apply (eventually LEngine (waits LEngine) (fun k => target <= length (engine_seen (eng (state k))))
    (fun k => (target - length (engine_seen (eng (state k)))) * S (engine_work rs) +
              eng_at_work (eng_at (eng (state k)))) n engine_goes_on); [| |done].
  - intros k Hk [_ Hbuf]. assert (H : target <= length (to_engine (state k))).
    { apply (run_grows (fun s => length (to_engine s))); [|done]. intros s l s' _. apply step_to_engine. }
    unfold to_engine in H. by rewrite Hbuf, app_nil_r in H.
  - intros k Hk. destruct (Nat.le_gt_cases target (length (engine_seen (eng (state k))))) as [HQ|Hlt]; [by left|].
    right; right. destruct (who k) as [l|] eqn:Hw.
    + apply state_step in Hw. destruct (label_is LEngine l ltac:(internal)) as [->|Hne].
      * destruct (state_inv k) as [_ _ _ _ [_ Hrs _ _] _ _].
        destruct (engine_step_rest _ _ _ rs _ _ (state_open k) Hrs Hw) as [(_ & -> & Hle)|(_ & -> & Hdec)];
          (split; [|intros _]); nia.
      * destruct (step_keeps _ _ _ _ _ _ Hw) as [He _].
        assert (Hseen : engine_seen (eng (state (S k))) = engine_seen (eng (state k))).
        { apply sys_step_live in Hw as [_ H]. clear He. revert H. generalize (state (S k)) as s'. intros s' H.
          destruct l; try done; live_step_inv H; done. }
        rewrite Hseen, (He Hne). split; [done|congruence].
    + pose proof (fr_step _ _ Hrun k) as Hs. rewrite Hw in Hs. by rewrite Hs.
Qed.

(** The engine finishes the event in hand. *)
Lemma engine_rests n : exists m, n <= m /\ eng_at (eng (state m)) = EngReceiving.
Proof.
  apply (eventually LEngine (waits LEngine) (fun k => eng_at (eng (state k)) = EngReceiving)
    (fun k => eng_at_work (eng_at (eng (state k)))) n engine_goes_on); [by intros k Hk [? _]| |done].
  intros k Hk. destruct (who k) as [l|] eqn:Hw.
  - apply state_step in Hw. destruct (label_is LEngine l ltac:(internal)) as [->|Hne].
    + destruct (state_inv k) as [_ _ _ _ [_ Hrs _ _] _ _].
      destruct (engine_step_rest _ _ _ rs _ _ (state_open k) Hrs Hw) as [(Hat & _)|(_ & _ & Hdec)]; [by left|].
      right; right. split; [lia|done].
    + right; right. destruct (step_keeps _ _ _ _ _ _ Hw) as [He _]. rewrite (He Hne). split; [done|congruence].
  - right; right. pose proof (fr_step _ _ Hrun k) as Hs. rewrite Hw in Hs. by rewrite Hs.
Qed.

Lemma alerts_leave n :
  exists m, n <= m /\ length (alerts (engine (eng (state n)))) <= length (alerts_out (state m)).
Proof.
  assert (Hdone : forall k, n <= k -> unsent_alerts (eng_at (eng (state k))) = [] ->
    length (alerts (engine (eng (state n)))) <= length (alerts_out (state k))).
  { intros k Hk Hu. destruct (state_inv k) as [_ _ _ _ _ Hal _]. rewrite Hu, app_nil_r in Hal.
    unfold alerts_out. rewrite <- Hal. by apply prefix_length, raised_grows. }
  apply (eventually LEngine (waits LEngine)
    (fun k => length (alerts (engine (eng (state n)))) <= length (alerts_out (state k)))
    (fun k => length (unsent_alerts (eng_at (eng (state k))))) n engine_goes_on); [| |done].
  - intros k Hk [Hat _]. apply Hdone; [done|]. by rewrite Hat.
  - intros k Hk. destruct (unsent_alerts (eng_at (eng (state k)))) as [|a u] eqn:Hu; [left; by apply Hdone|].
    right; right. destruct (who k) as [l|] eqn:Hw.
    + apply state_step in Hw. destruct (label_is LEngine l ltac:(internal)) as [->|Hne].
      * apply sys_step_live in Hw as [_ H]. cbn [live_step] in H. unfold engine_step in H.
        destruct (eng_at (eng (state k))) as [| |u' e rest|]; try discriminate. simpl in Hu. subst u'.
        apply then_inv in H as (c & _ & ->). simpl. split; [lia|]. intros _. lia.
      * destruct (step_keeps _ _ _ _ _ _ Hw) as [He _]. rewrite (He Hne), Hu. split; [done|congruence].
    + pose proof (fr_step _ _ Hrun k) as Hs. rewrite Hw in Hs. rewrite Hs, Hu. by split.
Qed.

Lemma alerts_seen_grows n m : n <= m -> alerts_seen (state n) `prefix_of` alerts_seen (state m).
Proof.
  apply (grows_along (fun n => alerts_seen (state n))). intros k.
  apply (run_step (fun _ s s' => alerts_seen s `prefix_of` alerts_seen s') k); [done|].
  intros s l s' Ho H. by apply (step_alerts_seen _ _ _ _ _ _ Ho H).
Qed.

Lemma alerts_are_seen n :
  exists m, n <= m /\ length (alerts_out (state n)) <= length (alerts_seen (state m)).
Proof.
  set (target := length (alerts_out (state n))).
  apply (eventually LOutAlert (waits LOutAlert) (fun k => target <= length (alerts_seen (state k)))
    (fun k => target - length (alerts_seen (state k))) n alerts_go_on); [| |done].
  - intros k Hk Hbuf. assert (H : target <= length (alerts_out (state k))).
    { apply (run_grows (fun s => length (alerts_out s))); [|done]. intros s l s' _ H.
      by apply (step_alerts_out _ _ _ _ _ _ H). }
    unfold alerts_out in H. simpl in Hbuf. by rewrite Hbuf, app_nil_r in H.
  - intros k Hk. destruct (Nat.le_gt_cases target (length (alerts_seen (state k)))) as [HQ|Hlt]; [by left|].
    right; right. destruct (who k) as [l|] eqn:Hw.
    + apply state_step in Hw. destruct (step_alerts_seen _ _ _ _ _ _ (state_open k) Hw) as [Hp Hl].
      apply prefix_length in Hp. split; [lia|]. intros [= ->]. specialize (Hl eq_refl). lia.
    + pose proof (fr_step _ _ Hrun k) as Hs. rewrite Hw in Hs. by rewrite Hs.
Qed.

(** The alerts of a rule that the events output so far call for. *)
Definition called_for (rule : Rule) (s : sys) : list Alert :=
  alerts_with retained rule [] (out_seen s).

Lemma alerts_with_prefix count rule past es es' :
  es `prefix_of` es' -> alerts_with count rule past es `prefix_of` alerts_with count rule past es'.
Proof.
  intros [k ->]. induction k as [|e k IH] using rev_ind; [by rewrite app_nil_r|].
  rewrite app_assoc, alerts_with_snoc. etransitivity; [exact IH|]. by eexists.
Qed.

Lemma about_prefix rule l l' : l `prefix_of` l' -> about rule l `prefix_of` about rule l'.
Proof. intros [k ->]. rewrite about_app. by eexists. Qed.

(** (C12) And the alerts of what is delivered are delivered too: for every point of a
    fair run there is a later one at which the output loop has received, of each
    rule, the alerts that its own matches call for among the events output by
    then. *)
Theorem fair_runs_alert (rule : Rule) (n : nat) :
  plain_rules rs -> NoDup (map R_Name rs) -> rule ∈ rs ->
  exists m, n <= m /\
    called_for rule (state n) `prefix_of` about rule (alerts_seen (state m)).
Proof.
  intros Hp Hnd Hin. destruct (seen_reaches_engine n) as (m0 & Hm0 & H0).
  destruct (engine_receives m0) as (m1 & Hm1 & H1). destruct (engine_rests m1) as (m2 & Hm2 & Hat).
  destruct (alerts_leave m2) as (m3 & Hm3 & H3). destruct (alerts_are_seen m3) as (m4 & Hm4 & H4).
  exists m4. split; [lia|].
  assert (Hseen : out_seen (state n) `prefix_of` engine_seen (eng (state m2))).
  { transitivity (engine_seen (eng (state m1))); [|by apply engine_seen_grows].
    destruct (state_inv m1) as [_ Hsame _ _ _ _ _].
    apply (prefix_shorter _ _ (out_seen (state m1) ++ ch_buf (outputCh (state m1)))); [| |lia].
    - transitivity (out_seen (state m1)); [apply out_seen_grows; lia|by eexists].
    - rewrite Hsame. by eexists. }
  transitivity (alerts_with retained rule [] (engine_seen (eng (state m2)))); [by apply alerts_with_prefix|].
  destruct (printed_alerts_any _ _ _ rs r _ rule (state_reachable m2) Hp Hnd Hin) as (later & -> & Hl).
  rewrite Hl by (by rewrite Hat). rewrite app_nil_r, <- !about_app.
  destruct (state_inv m2) as [_ _ _ _ _ Hal _]. rewrite <- Hal. apply about_prefix.
  destruct (state_inv m4) as [_ _ _ _ _ Hal4 _].
  apply (prefix_shorter _ _ (alerts (engine (eng (state m4))))); [apply raised_grows; lia| |lia].
  rewrite Hal4. by eexists.
Qed.
End FairRuns.

(** ** A concrete fair run

    The demonstration schedule of [Sequential], then nothing for ever: all
    goroutines wait. *)

Definition demo_run (n : nat) : sys := after [each_rule] (take n demo_stream).
Definition demo_who (n : nat) : option label := demo_stream !! n.

Definition demo_at (n : nat) : go (option sys) :=
  run 0 "" 0 (sys_init [each_rule] demo_resolver) (take n demo_stream).

(** The schedule runs through, and the program goes on. *)
Definition demo_ok (n : nat) : bool :=
  match demo_at n with
  | Ret (Some s) => (closing s =? 0)%nat && bool_decide (exited s = None)
  | _ => false
  end.

Lemma demo_all_ok n : demo_ok n = true.
Proof.
  assert (H : forallb demo_ok (List.seq 0 (S (length demo_stream))) = true) by (vm_compute; reflexivity).
  rewrite forallb_forall in H. destruct (Nat.le_gt_cases n (length demo_stream)) as [Hn|Hn].
  - apply H, in_seq. lia.
  - replace (demo_ok n) with (demo_ok (length demo_stream)); [apply H, in_seq; lia|].
    unfold demo_ok, demo_at. by rewrite !take_ge by lia.
Qed.

Lemma demo_at_run n : demo_at n = Ret (Some (demo_run n)).
Proof.
  pose proof (demo_all_ok n) as H. unfold demo_ok in H. unfold demo_run, after. unfold demo_at in *.
  by destruct (run _ _ _ _ _) as [[s|]|p].
Qed.

Lemma run_snoc s ls l s1 :
  run 0 "" 0 s ls = Ret (Some s1) -> run 0 "" 0 s (ls ++ [l]) = sys_step 0 "" 0 s1 l.
Proof.
  revert s. induction ls as [|l' ls IH]; intros s; simpl.
  - intros [= <-]. by destruct (sys_step 0 "" 0 s l) as [[s'|]|p].
  - destruct (sys_step 0 "" 0 s l') as [[s'|]|p]; try discriminate. apply IH.
Qed.

Lemma demo_ends_stuck l : l ∈ internal_labels -> sys_step 0 "" 0 (after [each_rule] demo_stream) l = Ret None.
Proof.
  unfold internal_labels. intros Hl.
  repeat (apply elem_of_cons in Hl as [->|Hl]; [vm_compute; reflexivity|]). by apply elem_of_nil in Hl.
Qed.

Lemma demo_fair : fair_run 0 "" 0 [each_rule] demo_resolver demo_run demo_who.
Proof.
  constructor; [reflexivity|intros n..|intros l n Hl].
  - unfold demo_who. destruct (demo_stream !! n) as [l|] eqn:Hl.
    + pose proof (demo_at_run (S n)) as H. unfold demo_at in H. rewrite (take_S_r _ _ l Hl) in H.
      by rewrite (run_snoc _ _ _ _ (demo_at_run n)) in H.
    + apply lookup_ge_None in Hl. unfold demo_run. by rewrite !take_ge by lia.
  - pose proof (demo_all_ok n) as H. unfold demo_ok in H. rewrite demo_at_run in H.
    apply andb_true_iff in H as [H1%Nat.eqb_eq H2%bool_decide_eq_true]. done.
  - right. exists (n + length demo_stream). split; [lia|]. intros k Hk s' H.
    unfold demo_run in H. rewrite take_ge in H by lia. by rewrite (demo_ends_stuck l Hl) in H.
Qed.

Lemma fair_runs_deliver_witness :
  length (direct_events 0 (taken demo_run demo_who 7)) = 1 /\
  (exists k, 7 <= k /\ rd_at (demo_run k) = RdReading) /\
  exists m D C es outs,
    7 <= m /\
    direct_events 0 (taken demo_run demo_who 7) `prefix_of` D /\
    D `prefix_of` direct_events 0 (taken demo_run demo_who m) /\
    snd (pair_run 0 (taken demo_run demo_who 7)) `prefix_of` C /\
    C `prefix_of` snd (pair_run 0 (taken demo_run demo_who m)) /\
    interleaving D C es /\
    fanned "" (dr_seen (resolvers demo_resolver (taken demo_run demo_who m))) es outs /\
    outs `prefix_of` out_seen (demo_run m).
Proof.
  split; [vm_compute; reflexivity|].
  refine (fair_runs_deliver 0 "" 0 [each_rule] demo_resolver demo_run demo_who demo_fair _ 7).
  by repeat constructor.
Defined.

Lemma fair_runs_alert_witness :
  length (called_for each_rule (demo_run 20)) = 1 /\
  exists m, 20 <= m /\
    called_for each_rule (demo_run 20) `prefix_of`
      about each_rule (alerts_seen (demo_run m)).
Proof.
  split; [vm_compute; reflexivity|].
  refine (fair_runs_alert 0 "" 0 [each_rule] demo_resolver demo_run demo_who demo_fair _ each_rule 20 _ _ _).
  - by repeat constructor.
  - by apply (bool_decide_unpack _); vm_compute.
  - by apply (bool_decide_unpack _); vm_compute.
  - by left.
Defined.
