(* ===== verification/Shutdown.v ===== *)
(** * Stopping the program

    What the signal handler does to a program at rest, into which no further
    record is read: whatever the interleaving of its statements with the
    goroutines and with the failing read, nothing panics but what can fail in the
    Docker monitor anyway, nothing more is printed, and the handler is never held
    up.  ([shutdown_can_panic] in [Pipeline] shows that rest is needed.) *)

From stdpp Require Import relations.
From S2P Require Import Prelude.
From S2P Require Import Bytes.
From S2P Require Import GoLib.
From S2P Require Import Channel.
From S2P Require Import Core.
From S2P Require Import Correlator.
From S2P Require Import Rule.
From S2P Require Import Engine.
From S2P Require Import Sequence.
From S2P Require Import Output.
From S2P Require Import Resolver.
From S2P Require Import Main.
From S2P Require Import Pipeline.
From S2P Require Import Progress.
From S2P Require Import Flow.

Open Scope nat_scope.

Section Shutdown.
Variables (bootTime : Z) (filterPrefixArg : string) (zone : Z).

(** All goroutines, without new records: a read can only fail. *)
Definition shutdown_label (l : label) : bool :=
  match l with LRead _ => false | _ => true end.

Definition shutdown_step (s s' : sys) : Prop :=
  exists l, shutdown_label l = true /\
    sys_step bootTime filterPrefixArg zone s l = Ret (Some s').

(** Nothing is on its way, and each channel is open until its closer's turn. *)
Record idle (s : sys) : Prop := {
  id_rd : rd_at s = RdReading;
  id_fwd : fwd_at s = FwdReceiving \/ fwd_at s = FwdDone;
  id_fan : fan_at s = FanReceiving \/ fan_at s = FanDone;
  id_eng : eng_at (eng s) = EngReceiving \/ eng_at (eng s) = EngDone;
  id_empty : ch_buf (output (corr (rdr s))) = [] /\ ch_buf (eventsCh (rdr s)) = [] /\
             ch_buf (outputCh s) = [] /\ ch_buf (engineCh s) = [] /\ ch_buf (alertsCh (eng s)) = [];
  id_events : fwd_at s = FwdReceiving -> ch_closed (eventsCh (rdr s)) = false;
  id_output : closing s <= 1 -> ch_closed (output (corr (rdr s))) = false;
  id_engineCh : closing s <= 3 -> ch_closed (engineCh s) = false;
  id_outputCh : closing s <= 4 -> ch_closed (outputCh s) = false;
  id_alertsCh : ch_closed (alertsCh (eng s)) = false
}.

Lemma quiet_idle s : quiet s -> all_open s -> idle s.
Proof.
  intros (H1 & H2 & H3 & H4 & H5 & H6 & H7 & H8 & H9) (O1 & O2 & O3 & O4 & O5).
  constructor; auto.
Qed.

Lemma ch_recv_empty {A} (c : chan A) :
  ch_buf c = [] -> ch_recv c = if ch_closed c then RecvClosed else RecvBlocks.
Proof. intros H. unfold ch_recv. by rewrite H. Qed.

(** What a step of an idle program may be: it stays idle and prints nothing. *)
Definition stays_idle (s : sys) (res : go (option sys)) : Prop :=
  match res with
  | Ret (Some s') => idle s' /\ printed_bytes s' = printed_bytes s
  | Ret None => True
  | Panic _ => False
  end.

(** The members of [idle] after a step, from those before it. *)
Ltac idle_members :=
  constructor; simpl; auto; try (by split_and!);
  try (intros; first [discriminate|lia|match goal with H : _ -> ?x = false |- ?x = false => apply H; lia end]);
  try (intros Hx; match goal with H : _ -> true = false |- _ => by specialize (H Hx) end).

#[local] Hint Extern 0 (stays_idle _ (Ret None)) => exact I : core.

Lemma forward_idle s : idle s -> stays_idle s (forward_step s).
Proof.
  intros [Hr [Hw|Hw] Hn Hg (He1 & He) H1 H2 H3 H4 H5]; unfold forward_step; rewrite Hw; [|exact I].
  rewrite ch_recv_empty by done. destruct (ch_closed (output (corr (rdr s)))) eqn:Ec; [|exact I].
  unfold ch_close. rewrite (H1 Hw). split; [|done]. idle_members.
Qed.

Lemma fan_idle s : idle s -> stays_idle s (fan_step filterPrefixArg s).
Proof.
  intros [Hr Hw [Hn|Hn] Hg (He1 & He2 & He) H1 H2 H3 H4 H5]; unfold fan_step; rewrite Hn; [|exact I].
  rewrite ch_recv_empty by done. destruct (ch_closed (eventsCh (rdr s))) eqn:Ec; [|exact I].
  split; [|done]. idle_members.
Qed.

Lemma engine_idle s : idle s -> stays_idle s (engine_step s).
Proof.
  intros [Hr Hw Hn [Hg|Hg] (He1 & He2 & He3 & He4 & He5) H1 H2 H3 H4 H5];
    unfold engine_step; rewrite Hg; [|exact I].
  rewrite ch_recv_empty by done. destruct (ch_closed (engineCh s)) eqn:Ec; [|exact I].
  split; [|done]. idle_members.
Qed.

Lemma out_event_idle s : idle s -> stays_idle s (out_event_step zone s).
Proof.
  intros [Hr Hw Hn Hg (He1 & He2 & He3 & He4 & He5) H1 H2 H3 H4 H5]. unfold out_event_step.
  rewrite ch_recv_empty by done. destruct (ch_closed (outputCh s)) eqn:Ec; [|exact I].
  unfold select_step. destruct (out_loop (out s)) as [st|st] eqn:Eo; [|exact I].
  simpl. destruct (eventCh_nil st); [exact I|]. simpl. split; [idle_members|].
  unfold printed_bytes. simpl. by rewrite Eo.
Qed.

Lemma out_alert_idle s : idle s -> stays_idle s (out_alert_step zone s).
Proof.
  intros [Hr Hw Hn Hg (He1 & He2 & He3 & He4 & He5) H1 H2 H3 H4 H5]. unfold out_alert_step.
  by rewrite ch_recv_empty, H5 by done.
Qed.

(** The handler's next statement closes a channel that is still open. *)
Lemma signal_idle s :
  idle s -> stays_idle s (signal_step s) /\
  (closing s < 5 -> exists s', signal_step s = Ret (Some s')).
Proof.
  intros [Hr Hw Hn Hg He H1 H2 H3 H4 H5]. unfold signal_step, CloseCorrelator, ch_close.
  destruct (closing s) as [|[|[|[|[|n]]]]]; [| | | | |split; [exact I|lia]];
    rewrite ?H2, ?H3, ?H4 by lia; simpl; (split; [|by eexists]); (split; [|done]); idle_members.
Qed.

(** The Docker monitor can fail on its own account; else it only fills the cache. *)
Lemma docker_idle s ev :
  idle s -> (forall p, live_step bootTime filterPrefixArg zone s (LDocker ev) <> Panic p) ->
  stays_idle s (live_step bootTime filterPrefixArg zone s (LDocker ev)).
Proof.
  intros Hi Hp. revert Hp. cbn [live_step]. destruct (docker_on s); [|done].
  destruct (monitor_step (resolver s) ev) as [[r on]|p]; simpl; intros Hp; [clear Hp|by destruct (Hp p)].
  split; [|done]. by destruct Hi; constructor.
Qed.

Lemma live_step_idle s l :
  idle s -> shutdown_label l = true -> (forall ev, l <> LDocker ev) ->
  stays_idle s (live_step bootTime filterPrefixArg zone s l).
Proof.
  intros Hi Hl Hd. destruct l as [| | | | | | | | |ev|]; try done; try (by destruct (Hd ev)); cbn [live_step].
  - rewrite (id_rd s Hi). split; [|done]. by destruct Hi; constructor.
  - by rewrite (id_rd s Hi).
  - by apply forward_idle.
  - by apply fan_idle.
  - by apply engine_idle.
  - by apply out_event_idle.
  - by apply out_alert_idle.
  - split; [|done]. by destruct Hi; constructor.
  - by apply signal_idle.
Qed.

Lemma idle_step_panics s l p :
  idle s -> sys_step bootTime filterPrefixArg zone s l = Panic p -> exists ev, l = LDocker ev.
Proof.
  intros Hi Hp. unfold sys_step in Hp. destruct (exited s); [done|].
  destruct (shutdown_label l) eqn:Hl; [|destruct l; try done].
  - destruct l as [| | | | | | | | |ev|]; try (by exists ev); exfalso;
      match type of Hp with live_step _ _ _ _ ?l = _ => pose proof (live_step_idle s l Hi Hl) as Hs end;
      rewrite Hp in Hs; by apply Hs.
  - cbn [live_step] in Hp. by destruct (rd_at s), (closing s).
Qed.

Lemma shutdown_idle s s' :
  rtc shutdown_step s s' -> idle s -> idle s' /\ printed_bytes s' = printed_bytes s.
Proof.
  induction 1 as [|s1 s2 s3 (l & Hl & [_ H]%sys_step_live) _ IH]; intros Hi; [done|].
  assert (Hs : stays_idle s1 (live_step bootTime filterPrefixArg zone s1 l)).
  { destruct l as [| | | | | | | | |ev|]; try done; try (by apply live_step_idle).
    apply docker_idle; [done|]. by rewrite H. }
  rewrite H in Hs. destruct Hs as [Hi2 <-]. by apply IH.
Qed.

(** (C23) A program at rest can be stopped.  As long as no further record is read
    (none can be, once the handler has closed the reader), however the signal
    handler's statements interleave with the goroutines, the Docker monitor
    included, and with the failing read: a panic can only come from the Docker
    monitor, the handler's next statement can always be executed, the read can
    always fail and end the program, and nothing more is printed. *)
Theorem shutdown_at_rest (rs : list Rule) (r : Resolver) (s s' : sys) :
  at_rest bootTime filterPrefixArg zone rs r s -> rtc shutdown_step s s' ->
  (forall l p, sys_step bootTime filterPrefixArg zone s' l = Panic p -> exists ev, l = LDocker ev) /\
  (exited s' = None -> closing s' < 5 ->
   exists s2, sys_step bootTime filterPrefixArg zone s' LSignal = Ret (Some s2)) /\
  (exited s' = None ->
   exists s2, sys_step bootTime filterPrefixArg zone s' LReadErr = Ret (Some s2) /\ exited s2 = Some (-1)%Z) /\
  printed_bytes s' = printed_bytes s.
Proof.
  intros [Hre [Hz _] Hq] Hrun.
  destruct (shutdown_idle s s' Hrun) as [Hi Hp].
  { apply quiet_idle; [exact Hq|]. by apply (reachable_open bootTime filterPrefixArg zone rs r). }
  split_and!; [by intros l p; apply idle_step_panics| | |exact Hp]; unfold sys_step; intros ->.
  - intros Hc. destruct (signal_idle s' Hi) as [_ Hs]. by apply Hs.
  - cbn [live_step]. rewrite (id_rd s' Hi). by eexists.
Qed.
End Shutdown.

Lemma shutdown_at_rest_witness :
  let s := sys_init [each_rule] demo_resolver in
  let s' := after [each_rule] [LSignal; LSignal; LForward; LFan] in
  (forall l p, sys_step 0 "" 0 s' l = Panic p -> exists ev, l = LDocker ev) /\
  (exited s' = None -> closing s' < 5 -> exists s2, sys_step 0 "" 0 s' LSignal = Ret (Some s2)) /\
  (exited s' = None -> exists s2, sys_step 0 "" 0 s' LReadErr = Ret (Some s2) /\ exited s2 = Some (-1)%Z) /\
  printed_bytes s' = printed_bytes s.
Proof.
  intros s s'. refine (shutdown_at_rest 0 "" 0 [each_rule] demo_resolver s s' _ _).
  - apply init_at_rest.
  - apply (rtc_l _ _ (after [each_rule] [LSignal])).
    { exists LSignal. split; [reflexivity|]. vm_compute. reflexivity. }
    apply (rtc_l _ _ (after [each_rule] [LSignal; LSignal])).
    { exists LSignal. split; [reflexivity|]. vm_compute. reflexivity. }
    apply (rtc_l _ _ (after [each_rule] [LSignal; LSignal; LForward])).
    { exists LForward. split; [reflexivity|]. vm_compute. reflexivity. }
    apply rtc_once. exists LFan. split; [reflexivity|]. vm_compute. reflexivity.
Defined.
