(* ===== verification/Startup.v ===== *)
(** * Starting the program

    What [main] of [cmd/main.go] does before its read loop: build the engine, load
    the compiled probes, attach them, build the resolver, start the goroutines
    and open the ring buffer.  What the cilium/ebpf and Docker libraries answer
    is the record [environment]; every failure ends in [os.Exit(-1)], which
    skips the deferred closes. *)

From S2P Require Import Prelude.
From S2P Require Import Bytes.
From S2P Require Import GoLib.
From S2P Require Import Rule.
From S2P Require Import Engine.
From S2P Require Import LoadRules.
From S2P Require Import Resolver.
From S2P Require Import Pipeline.

Open Scope Z_scope.

(** The programs of the loaded objects, by their fields of [MonitorObjects]. *)
Inductive probe_program := TcpConnect | InetCskAccept | HandleOpenat | HandleExecve.

#[export] Instance probe_program_eq_dec : EqDecision probe_program.
Proof. solve_decision. Defined.

(** [link.Kprobe], [link.Kretprobe] and [link.Tracepoint]. *)
Inductive attachment :=
| Kprobe (symbol : string) (prog : probe_program)
| Kretprobe (symbol : string) (prog : probe_program)
| Tracepoint (group name : string) (prog : probe_program).

Definition attachments : list attachment :=
  [Kprobe "tcp_connect" TcpConnect;
   Kretprobe "inet_csk_accept" InetCskAccept;
   Tracepoint "syscalls" "sys_enter_openat" HandleOpenat;
   Tracepoint "syscalls" "sys_enter_execve" HandleExecve].

(** What the outside answers. *)
Record environment := {
  rules_root : option node;                    (* the folder of the -rules flag *)
  unmarshal_rule : list byte -> option Rule;   (* yaml.Unmarshal *)
  load_ok : bool;                              (* LoadMonitorObjects *)
  attach_ok : attachment -> bool;
  client_ok : bool;                            (* client.NewClientWithOpts *)
  docker_host : host;
  reader_ok : bool                             (* ringbuf.NewReader *)
}.

Inductive action :=
| MakeEngine | LoadObjects | Attach (a : attachment) | MakeResolver | StartGoroutines | OpenReader.

Inductive started :=
| Exited (status : Z) (done : list action)
| Started (done : list action) (s : sys).

(** The attachments in order, until one fails. *)
Fixpoint attach_all (w : environment) (todo : list attachment) (done : list action)
    : list action * bool :=
  match todo with
  | [] => (done, true)
  | a :: todo => if attach_ok w a then attach_all w todo (done ++ [Attach a]) else (done, false)
  end.

(** [resolver.New]. *)
Definition make_resolver (w : environment) : go (option Resolver) :=
  if client_ok w then
    res ← NewResolver (docker_host w);
    Ret (match res with inl r => Some r | inr _ => None end)
  else Ret None.

Definition main_startup (w : environment) : go started :=
  engine ← New (unmarshal_rule w) (rules_root w);
  match engine with
  | None => Ret (Exited (-1) [])
  | Some engine =>
      if negb (load_ok w) then Ret (Exited (-1) [MakeEngine])
      else
        match attach_all w attachments [MakeEngine; LoadObjects] with
        | (done, false) => Ret (Exited (-1) done)
        | (done, true) =>
            r ← make_resolver w;
            match r with
            | None => Ret (Exited (-1) done)
            | Some r =>
                let done := done ++ [MakeResolver; StartGoroutines] in
                if negb (reader_ok w) then Ret (Exited (-1) done)
                else Ret (Started (done ++ [OpenReader]) (sys_start engine r))
            end
        end
  end.

(** ** The order of the actions *)

Definition startup_actions : list action :=
  [MakeEngine; LoadObjects] ++ map Attach attachments ++ [MakeResolver; StartGoroutines; OpenReader].

(** The rules in the folder, when all can be read and decoded. *)
Definition folder_rules (w : environment) : option (list Rule) :=
  n ← rules_root w; mapM (file_rule (unmarshal_rule w)) (rule_files n).

Definition succeeds (w : environment) (a : action) : Prop :=
  match a with
  | MakeEngine => is_Some (folder_rules w)
  | LoadObjects => load_ok w = true
  | Attach a => attach_ok w a = true
  | MakeResolver => exists r, make_resolver w = Ret (Some r)
  | StartGoroutines => True
  | OpenReader => reader_ok w = true
  end.

(** [done] is what is done when the first of [todo] to fail stops the program. *)
Inductive stops (w : environment) : list action -> list action -> Prop :=
| stops_here a todo : ~ succeeds w a -> stops w (a :: todo) []
| stops_later a todo done : succeeds w a -> stops w todo done -> stops w (a :: todo) (a :: done).

Lemma stops_app w done todo rest :
  Forall (succeeds w) done -> stops w todo rest -> stops w (done ++ todo) (done ++ rest).
Proof. induction 1 as [|a done Ha _ IH]; intros Hs; simpl; [done|]. constructor; auto. Qed.

Lemma attach_all_spec w todo : forall done,
  match attach_all w todo done with
  | (done', true) => done' = done ++ map Attach todo /\ Forall (succeeds w) (map Attach todo)
  | (done', false) => exists more, done' = done ++ more /\ stops w (map Attach todo) more
  end.
Proof.
  induction todo as [|a todo IH]; intros done; simpl; [by rewrite app_nil_r|].
  destruct (attach_ok w a) eqn:Ha.
  - specialize (IH (done ++ [Attach a])). destruct (attach_all w todo _) as [done' []].
    + destruct IH as [-> Hall]. rewrite <- app_assoc. split; [done|]. by constructor.
    + destruct IH as (more & -> & Hs). exists (Attach a :: more). rewrite <- app_assoc.
      split; [done|]. by constructor.
  - exists []. rewrite app_nil_r. split; [done|]. constructor. simpl. congruence.
Qed.

#[local] Arguments attach_all : simpl never.

Lemma stops_tail w todo rest done : stops w todo done -> stops w (todo ++ rest) done.
Proof. induction 1; simpl; by constructor. Qed.

Lemma New_folder w n :
  rules_root w = Some n ->
  New (unmarshal_rule w) (rules_root w) = Ret (rs ← folder_rules w; Some (NewEngine rs)).
Proof.
  intros Hn. unfold folder_rules. rewrite Hn. exact (New_eq (unmarshal_rule w) (Some n)).
Qed.

(** (C24) With an existing rules folder, and no panic in reading the cgroup files,
    the program either exits with status -1 at the first action that fails,
    the ones before it done in order and none after it tried, or everything
    succeeds and its goroutines run with the rules of the folder. *)
Theorem main_startup_outcome (w : environment) (n : node) :
  rules_root w = Some n -> (forall p, make_resolver w <> Panic p) ->
  (exists done, main_startup w = Ret (Exited (-1) done) /\ stops w startup_actions done) \/
  (exists rs r, main_startup w = Ret (Started startup_actions (sys_init rs r)) /\
     folder_rules w = Some rs /\ make_resolver w = Ret (Some r) /\
     Forall (succeeds w) startup_actions).
Proof.
  intros Hn Hp. unfold main_startup. rewrite (New_folder w n Hn). simpl.
  destruct (folder_rules w) as [rs|] eqn:Hrs; simpl.
  2:{ left. exists []. split; [done|]. constructor. simpl. rewrite Hrs. by intros [? ?]. }
  assert (H0 : succeeds w MakeEngine) by (exists rs; exact Hrs).
  destruct (load_ok w) eqn:Hl; simpl.
  2:{ left. exists [MakeEngine]. split; [done|]. constructor; [done|]. constructor. simpl. congruence. }
  assert (H1 : Forall (succeeds w) [MakeEngine; LoadObjects]) by (constructor; [exact H0|by constructor]).
  pose proof (attach_all_spec w attachments [MakeEngine; LoadObjects]) as Ha.
  destruct (attach_all w attachments _) as [done []].
  2:{ destruct Ha as (more & -> & Hs). left. eexists. split; [done|].
      apply stops_app; [done|]. by apply stops_tail. }
  destruct Ha as [-> Hall]. pose proof (Forall_app_2 _ _ _ H1 Hall) as H2.
  destruct (make_resolver w) as [[r|]|p] eqn:Hr; [| |by edestruct Hp]; simpl.
  2:{ left. eexists. split; [reflexivity|].
      apply (stops_app w ([MakeEngine; LoadObjects] ++ map Attach attachments)
               [MakeResolver; StartGoroutines; OpenReader] []); [exact H2|].
      constructor. intros [r Hr']. congruence. }
  assert (H3 : Forall (succeeds w) [MakeResolver; StartGoroutines]).
  { constructor; [by exists r|by constructor]. }
  pose proof (Forall_app_2 _ _ _ H2 H3) as H4. destruct (reader_ok w) eqn:Hrd; simpl.
  - right. exists rs, r. split_and!; [reflexivity..|].
    apply (Forall_app_2 _ _ [OpenReader] H4). by constructor.
  - left. eexists. split; [reflexivity|].
    apply (stops_app w (([MakeEngine; LoadObjects] ++ map Attach attachments) ++ [MakeResolver; StartGoroutines])
             [OpenReader] []); [exact H4|constructor; simpl; congruence].
Qed.

(** ** The probes' sections *)

Definition tcp_connect_section : string := "kprobe/tcp_connect".
Definition inet_csk_accept_section : string := "kretprobe/inet_csk_accept".
Definition handle_openat_section : string := "tracepoint/syscalls/sys_enter_openat".
Definition handle_execve_section : string := "tracepoint/syscalls/sys_enter_execve".

(** The section of bpf/monitor.c that each program is in. *)
Definition section_of (p : probe_program) : string :=
  match p with
  | TcpConnect => tcp_connect_section
  | InetCskAccept => inet_csk_accept_section
  | HandleOpenat => handle_openat_section
  | HandleExecve => handle_execve_section
  end.

(** The section name by which libbpf denotes an attachment. *)
Definition attachment_section (a : attachment) : string :=
  match a with
  | Kprobe symbol _ => join "/" ["kprobe"; symbol]
  | Kretprobe symbol _ => join "/" ["kretprobe"; symbol]
  | Tracepoint group name _ => join "/" ["tracepoint"; group; name]
  end.

Definition attachment_program (a : attachment) : probe_program :=
  match a with Kprobe _ p | Kretprobe _ p | Tracepoint _ _ p => p end.

(** Every program is attached exactly once, to what its section in the C
    source declares. *)
Theorem attachments_match_sections :
  (forall a, a ∈ attachments -> attachment_section a = section_of (attachment_program a)) /\
  (forall p, exists a, a ∈ attachments /\ attachment_program a = p /\
     forall a', a' ∈ attachments -> attachment_program a' = p -> a' = a).
Proof.
  unfold attachments. split.
  - intros a Ha. repeat (apply elem_of_cons in Ha as [->|Ha]; [reflexivity|]). by apply elem_of_nil in Ha.
  - intros p.
    destruct p; [exists (Kprobe "tcp_connect" TcpConnect)|exists (Kretprobe "inet_csk_accept" InetCskAccept)
      |exists (Tracepoint "syscalls" "sys_enter_openat" HandleOpenat)
      |exists (Tracepoint "syscalls" "sys_enter_execve" HandleExecve)];
      (split_and!; [set_solver|reflexivity|]); intros a' Ha';
      repeat (apply elem_of_cons in Ha' as [->|Ha']; [first [reflexivity|discriminate]|]);
      by apply elem_of_nil in Ha'.
Qed.

(** An environment in which all is well but the ring buffer. *)
Definition demo_environment (reader : bool) : environment := {|
  rules_root := Some (DirNode "rules" false []);
  unmarshal_rule := fun _ => None;
  load_ok := true;
  attach_ok := fun _ => true;
  client_ok := true;
  docker_host := {| ContainerList := Some []; ContainerInspect := fun _ => None;
                    proc_cgroup := fun _ => None; stat_ino := fun _ => None |};
  reader_ok := reader
|}.

Lemma main_startup_outcome_witness :
  (exists done, main_startup (demo_environment true) = Ret (Exited (-1) done) /\
     stops (demo_environment true) startup_actions done) \/
  (exists rs r, main_startup (demo_environment true) = Ret (Started startup_actions (sys_init rs r)) /\
     folder_rules (demo_environment true) = Some rs /\ make_resolver (demo_environment true) = Ret (Some r) /\
     Forall (succeeds (demo_environment true)) startup_actions).
Proof.
  apply (main_startup_outcome (demo_environment true) (DirNode "rules" false []) eq_refl).
  intros p. vm_compute. discriminate.
Defined.
