(* ===== verification/RuleFiles.v ===== *)
(** * The rules of the repository

    The folder src/rules: each file as the [Rule] that a YAML decoder makes of it
    by the tags of internal/ruleengine/rule.go, and what these rules mean for the
    program.  A member the file leaves out keeps its zero value. *)

From S2P Require Import Prelude.
From S2P Require Import Bytes.
From S2P Require Import GoLib.
From S2P Require Import Duration.
From S2P Require Import PathMatch.
From S2P Require Import Core.
From S2P Require Import PortExpr.
From S2P Require Import Rule.
From S2P Require Import Engine.
From S2P Require Import Sequence.
From S2P Require Import LoadRules.
From S2P Require Import Resolver.
From S2P Require Import Pipeline.

Open Scope Z_scope.

(** ** Reading the files *)

(** A folded block: its lines joined by spaces, with a line feed at the end. *)
Definition folded (lines : list string) : string :=
  String.append (join " " lines) (String (b 10) EmptyString).

(** A text with double quotes between its parts. *)
Definition quoted (parts : list string) : string := join (String (b 34) EmptyString) parts.

(** The member dst_port: what its node is decoded to. *)
Definition dst_port (n : yaml_node) : PortExpr := fst (UnmarshalYAML zero_port_expr n).

Definition exec_block (src_process parent_process exec_path : string) : MatchBlock :=
  mkMatchBlock "exec" src_process "" "" "" zero_port_expr zero_port_expr "" "" exec_path parent_process None.
Definition open_block (src_process file_path file_op : string) : MatchBlock :=
  mkMatchBlock "file_open" src_process "" "" "" zero_port_expr zero_port_expr file_path file_op "" "" None.
Definition conn_block (src_process : string) (port : yaml_node) : MatchBlock :=
  mkMatchBlock "connection" src_process "" "" "" zero_port_expr (dst_port port) "" "" "" "" None.

Definition no_detect : DetectConfig := {| DC_Mode := ""; DC_Count := 0; DC_Window := ""; DC_GroupBy := [] |}.

(** ** The files *)

(** http_daemon_shell.yaml *)
Definition http_daemon_shell : Rule := {|
  R_Name := "http_daemon_shell";
  R_Description := "HTTP daemon (apache2 or nginx) launched system shell. This behavior is indicative of a web shell attack.";
  R_Severity := "HIGH"; R_Mitre := "T1505.003";
  R_Match := None;
  R_Any := [exec_block "" "apache2" "/bin/bash";
            exec_block "" "apache2" "/bin/sh";
            exec_block "" "nginx" "/bin/bash";
            exec_block "" "nginx" "/bin/sh"];
  R_All := [];
  R_Detect := no_detect;
  R_Sequence := None
|}.

(** lab02_ssh_key_reuse.yaml *)
Definition ssh_private_key_read : Rule := {|
  R_Name := "ssh_private_key_read";
  R_Description := folded [
    "A process opened an SSH private key file for reading.";
    "Legitimate use of a private key goes through ssh-agent or a direct";
    "ssh invocation — raw reading of the key file (e.g. via cat, cp, scp)";
    "strongly suggests exfiltration for reuse on another host."];
  R_Severity := "HIGH"; R_Mitre := "T1552.004";
  R_Match := None;
  R_Any := [open_block "" "/root/.ssh/id_rsa" "read";
            open_block "" "/root/.ssh/id_ed25519" "read";
            open_block "" "/home/*/.ssh/id_rsa" "read";
            open_block "" "/home/*/.ssh/id_ed25519" "read"];
  R_All := [];
  R_Detect := no_detect;
  R_Sequence := None
|}.

(** lab03_ssh_agent_hijack.yaml *)
Definition ssh_invoked_under_sudo : Rule := {|
  R_Name := "ssh_invoked_under_sudo";
  R_Description := folded [
    "An SSH binary was executed with sudo as its direct parent process.";
    "Legitimate SSH use does not go through sudo. This pattern is the";
    "fingerprint of SSH agent socket hijacking: the attacker escalates to root";
    quoted ["via NOPASSWD sudo, then runs "; "sudo env SSH_AUTH_SOCK=<stolen_socket> ssh ..."; EmptyString];
    "to authenticate using another user's forwarded agent without possessing";
    "the private key. Covers Lab 03 (SSH_AUTH_SOCK hijack on jumphost)."];
  R_Severity := "HIGH"; R_Mitre := "T1563.001";
  R_Match := None;
  R_Any := [exec_block "" "sudo" "/usr/bin/ssh";
            exec_block "" "sudo" "/bin/ssh"];
  R_All := [];
  R_Detect := no_detect;
  R_Sequence := None
|}.

(** lab04_ssh_port_forward.yaml *)
Definition sshd_outbound_non_ssh_port : Rule := {|
  R_Name := "sshd_outbound_non_ssh_port";
  R_Description := folded [
    "The SSH daemon (sshd) initiated an outbound TCP connection to a port";
    "other than 22. sshd normally only listens and accepts inbound connections —";
    "an outbound connection to a non-SSH port is a strong indicator that an";
    "authenticated session is using local port forwarding (-L flag) to proxy";
    "traffic to an otherwise unreachable host or service.";
    quoted ["Covers Lab 04: attacker sets up "; "ssh -L 18080:victim2:80 root@victim1"; ","];
    "causing sshd on victim1 to connect to victim2:80 on behalf of the tunnel."];
  R_Severity := "HIGH"; R_Mitre := "T1572";
  R_Match := Some (conn_block "sshd" (ScalarNode "!22"));
  R_Any := [];
  R_All := [];
  R_Detect := no_detect;
  R_Sequence := None
|}.

(** lab05_redis_rce.yaml *)
Definition redis_authorized_keys_write : Rule := {|
  R_Name := "redis_authorized_keys_write";
  R_Description := folded [
    "Detection of the Redis CONFIG SET / BGSAVE authorized_keys injection attack.";
    "Redis writes its RDB dump via a temp file (temp-N.rdb) then renames it — so the";
    "direct authorized_keys write is never visible via openat. The reliable signal is";
    "redis-cli (the CLI tool, not the server) connecting to port 6379 from a container";
    "that is not the Redis server itself: this is the attacker issuing CONFIG SET commands.";
    "The secondary signal (direct authorized_keys write) is kept for edge cases where a";
    "different Redis client triggers a direct file write without the temp-file pattern.";
    "Covers Lab 05."];
  R_Severity := "CRITICAL"; R_Mitre := "T1098.004";
  R_Match := None;
  R_Any := [conn_block "redis-cli" (ScalarNode "6379");
            open_block "redis-server" "/root/.ssh/authorized_keys" "write";
            open_block "redis-server" "/home/*/.ssh/authorized_keys" "write"];
  R_All := [];
  R_Detect := no_detect;
  R_Sequence := None
|}.

(** lab06_postgres_rce.yaml *)
Definition postgres_shell_execution : Rule := {|
  R_Name := "postgres_shell_execution";
  R_Description := folded [
    "A PostgreSQL backend process executed a shell binary.";
    "postgres has no legitimate reason to spawn an interactive shell.";
    "This is the direct eBPF fingerprint of the COPY TO PROGRAM attack:";
    quoted ["the postgres backend calls popen("; "/bin/sh -c <command>"; ") which produces"];
    quoted ["an execve event where the calling process is "; "postgres"; " and the"];
    "spawned binary is /bin/sh. A superuser can trigger this with:";
    "COPY (SELECT 'x') TO PROGRAM 'touch /tmp/pwned'";
    "Covers Lab 06."];
  R_Severity := "CRITICAL"; R_Mitre := "T1059";
  R_Match := None;
  R_Any := [exec_block "postgres" "" "/bin/sh";
            exec_block "postgres" "" "/bin/bash";
            exec_block "postgres" "" "/usr/bin/bash"];
  R_All := [];
  R_Detect := no_detect;
  R_Sequence := None
|}.

(** lab08_mongodb_noauth.yaml *)
Definition mongodb_unauthenticated_access : Rule := {|
  R_Name := "mongodb_unauthenticated_access";
  R_Description := folded [
    "The mongosh client connected to MongoDB port 27017.";
    "In production, application drivers use their own connection strings and";
    "mongosh is only used for administrative access. An inter-container";
    "mongosh connection suggests direct manual enumeration of the database,";
    "which in a no-auth deployment gives full read/write access to all collections.";
    "In Lab 08, the attacker extracts credentials stored in MongoDB collections,";
    quoted ["then pivots to victim2. Note: the kernel comm for mongosh is "; "mongosh mongodb"; EmptyString];
    quoted ["(15 chars including the space) so the glob "; "mongosh*"; " is required."];
    "Network-level detection only — data volume or query content not inspectable."];
  R_Severity := "HIGH"; R_Mitre := "T1213";
  R_Match := Some (conn_block "mongosh*" (ScalarNode "27017"));
  R_Any := [];
  R_All := [];
  R_Detect := no_detect;
  R_Sequence := None
|}.

(** lab09_couchdb_rce.yaml *)
Definition couchdb_shell_execution : Rule := {|
  R_Name := "couchdb_shell_execution";
  R_Description := folded [
    "CouchDB Erlang VM spawned an OS shell via its child process helper.";
    "The actual exec chain is: beam.smp → erl_child_setup → sh → execve(/bin/sh).";
    quoted ["The parent_process for the final shell exec is "; "erl_child_setup"; ", not "; "beam.smp"; ","];
    "because Erlang uses erl_child_setup as a POSIX process spawn helper.";
    "Detecting parent_process=erl_child_setup is the correct signal: any exec from";
    "an Erlang child setup process is anomalous — the CouchDB Erlang VM has no";
    "legitimate reason to spawn OS shells through this path.";
    "Covers Lab 09 (query_server / os_daemons RCE via CouchDB config API)."];
  R_Severity := "CRITICAL"; R_Mitre := "T1059";
  R_Match := None;
  R_Any := [exec_block "" "erl_child_setup" "/bin/sh";
            exec_block "" "erl_child_setup" "/bin/bash";
            exec_block "" "erl_child_setup" "/usr/bin/bash";
            exec_block "beam.smp" "" "/bin/sh";
            exec_block "beam.smp" "" "/bin/bash"];
  R_All := [];
  R_Detect := no_detect;
  R_Sequence := None
|}.

(** lab10_jenkins_rce.yaml *)
Definition java_jvm_shell_execution : Rule := {|
  R_Name := "java_jvm_shell_execution";
  R_Description := folded [
    "A Java JVM process executed a shell binary.";
    "The JVM has no legitimate reason to spawn /bin/bash or /bin/sh directly —";
    "build systems call specific tools, not bare shells.";
    "This is the eBPF fingerprint of Groovy/JSP Runtime.exec() RCE:";
    quoted ["Groovy's ["; "bash"; ", "; "-c"; ", "; "cmd"; "].execute() and JSP's Runtime.getRuntime().exec()"];
    quoted ["both result in the JVM process (comm="; "java"; ") calling fork()+execve("; "/bin/bash"; ")."];
    "In JDK 17+, the JVM uses jspawnhelper as an intermediary process for fork/exec:";
    "the exec chain is java-thread → jspawnhelper → /bin/bash. The src_process for";
    quoted ["the final exec is "; "jspawnhelper"; ", not "; "java"; ". Both patterns are required."];
    "Covers Lab 10 (Jenkins /scriptText unauthenticated Groovy execution) and";
    "Lab 12 (Tomcat Manager WAR → JSP shell), since both run as java."];
  R_Severity := "CRITICAL"; R_Mitre := "T1059";
  R_Match := None;
  R_Any := [exec_block "java" "" "/bin/bash";
            exec_block "java" "" "/bin/sh";
            exec_block "java" "" "/usr/bin/bash";
            exec_block "jspawnhelper" "" "/bin/bash";
            exec_block "jspawnhelper" "" "/bin/sh";
            exec_block "jspawnhelper" "" "/usr/bin/bash"];
  R_All := [];
  R_Detect := no_detect;
  R_Sequence := None
|}.

(** lab11_jupyter_rce.yaml *)
Definition python_shell_execution : Rule := {|
  R_Name := "python_shell_execution";
  R_Description := folded [
    "A Python interpreter process executed a shell binary.";
    "This is the eBPF fingerprint of Python RCE via os.system() / subprocess / exec:";
    quoted ["the Python process forks and the child calls execve("; "/bin/sh"; ", ["; "-c"; ", "; "cmd"; "])."];
    "Covers Lab 11 (Jupyter unauthenticated kernel API — Python kernel calls os.system())";
    quoted ["and Lab 23 (sudo NOPASSWD python3 GTFOBins — sudo python3 -c 'os.system("; "/bin/bash"; ")')."];
    "Legitimate Python processes in these environments have no reason to spawn a shell."];
  R_Severity := "CRITICAL"; R_Mitre := "T1059.006";
  R_Match := None;
  R_Any := [exec_block "python3" "" "/bin/sh";
            exec_block "python3" "" "/bin/bash";
            exec_block "python" "" "/bin/sh";
            exec_block "python" "" "/bin/bash"];
  R_All := [];
  R_Detect := no_detect;
  R_Sequence := None
|}.

(** lab13_gitea_key.yaml *)
Definition ssh_nonstandard_key_usage : Rule := {|
  R_Name := "ssh_nonstandard_key_usage";
  R_Description := folded [
    "The SSH client read a private key file from an unexpected location outside ~/.ssh.";
    "Legitimate SSH key usage reads keys from ~/.ssh/ or /etc/ssh/. Reading a key from /tmp";
    "is a strong indicator that a key was recently exfiltrated (e.g. cloned from a Git";
    "repository) and is being used immediately for lateral movement.";
    "Covers Lab 13: attacker clones a Gitea repo containing a committed deploy key, copies";
    "it to /tmp/found_deploy_key, and authenticates to victim2 with ssh -i /tmp/found_deploy_key."];
  R_Severity := "HIGH"; R_Mitre := "T1552.004";
  R_Match := None;
  R_Any := [open_block "ssh" "/tmp/*key*" "read";
            open_block "ssh" "/tmp/*rsa*" "read";
            open_block "ssh" "/tmp/*ed25519*" "read";
            open_block "ssh" "/tmp/*ecdsa*" "read"];
  R_All := [];
  R_Detect := no_detect;
  R_Sequence := None
|}.

(** lab15_privileged_escape.yaml *)
Definition privileged_container_proc_escape : Rule := {|
  R_Name := "privileged_container_proc_escape";
  R_Description := folded [
    "A process accessed the host filesystem via /proc/1/root — the classic privileged";
    "container escape path. Inside a --privileged container, /proc/1/root is a symlink";
    "to host PID 1's root filesystem, giving full read/write access to the host.";
    "Any openat() call with a path under /proc/1/root that creates or writes a file is";
    "unambiguous: no legitimate workload uses /proc/1/root as a filesystem path.";
    "Covers Lab 15: attacker inside privileged container writes /proc/1/root/tmp/pwned.";
    "Also detects nsenter usage via exec."];
  R_Severity := "CRITICAL"; R_Mitre := "T1611";
  R_Match := None;
  R_Any := [open_block "" "/proc/1/root/*" "write";
            open_block "" "/proc/1/root/*/*" "write";
            open_block "" "/proc/1/root/*/*/*" "write";
            exec_block "" "" "/usr/bin/nsenter";
            exec_block "" "" "/bin/nsenter"];
  R_All := [];
  R_Detect := no_detect;
  R_Sequence := None
|}.

(** lab16_docker_tcp_api.yaml *)
Definition docker_tcp_api_access : Rule := {|
  R_Name := "docker_tcp_api_access";
  R_Description := folded [
    "A TCP connection was made to port 2375 — the Docker daemon's unauthenticated HTTP API";
    "port. When Docker is configured with -H tcp://0.0.0.0:2375 and no TLS, any client";
    "on the network has full unauthenticated control over container lifecycle, including";
    "creating privileged containers with the host filesystem mounted (equivalent to remote root).";
    "No legitimate traffic should reach port 2375 in a properly hardened environment.";
    "Covers Lab 16: attacker uses curl to the Docker TCP API to spawn a privileged container."];
  R_Severity := "CRITICAL"; R_Mitre := "T1611";
  R_Match := Some (conn_block "" (ScalarNode "2375"));
  R_Any := [];
  R_All := [];
  R_Detect := no_detect;
  R_Sequence := None
|}.

(** lab17_nfs_abuse.yaml *)
Definition nfs_authorized_keys_write : Rule := {|
  R_Name := "nfs_authorized_keys_write";
  R_Description := folded [
    "A file named authorized_keys was written via an NFS-mounted path (/mnt/*).";
    "When an NFS export has no_root_squash, a root user on the client preserves root UID";
    "on the server, allowing overwrite of authorized_keys in any exported directory.";
    "The attacker mounts the NFS share, writes their public key to";
    "/mnt/<share>/authorized_keys, then SSHes without a password.";
    "The write appears on the NFS client side at the mountpoint path /mnt/*/authorized_keys.";
    "Covers Lab 17."];
  R_Severity := "CRITICAL"; R_Mitre := "T1098.004";
  R_Match := None;
  R_Any := [open_block "" "/mnt/*/authorized_keys" "write";
            conn_block "" (ScalarNode "2049")];
  R_All := [];
  R_Detect := no_detect;
  R_Sequence := None
|}.

(** lab18_rsync_unauth.yaml *)
Definition rsync_authorized_keys_write : Rule := {|
  R_Name := "rsync_authorized_keys_write";
  R_Description := folded [
    "The rsync daemon wrote to an authorized_keys file. rsync modules exposed without";
    "authentication allow any client to push arbitrary files to the module's root directory.";
    "If the module root is or contains ~/.ssh/, the attacker can inject their public key";
    "and gain passwordless SSH access.";
    "The write appears as: src_process=rsync writing to the configured SSH directory path.";
    "NOTE: rsync actually writes a temp file (e.g. .authorized_keys.H8gpGF) and then";
    "renames it to authorized_keys via renameat. The BPF openat hook never sees the";
    "final authorized_keys path. The reliable signal is the rsync client connecting";
    "to port 873 (rsync daemon port). The direct file-write patterns are kept as a";
    "fallback for configurations that bypass the temp-file-rename path.";
    "Covers Lab 18: attacker pushes public key to rsync://victim/rootssh/authorized_keys."];
  R_Severity := "CRITICAL"; R_Mitre := "T1098.004";
  R_Match := None;
  R_Any := [conn_block "rsync" (ScalarNode "873");
            open_block "rsync" "/root/.ssh/authorized_keys" "write";
            open_block "rsync" "/home/*/.ssh/authorized_keys" "write";
            open_block "rsync" "/*/.ssh/authorized_keys" "write"];
  R_All := [];
  R_Detect := no_detect;
  R_Sequence := None
|}.

(** lab19_ftp_webshell.yaml *)
Definition ftp_php_webshell_upload : Rule := {|
  R_Name := "ftp_php_webshell_upload";
  R_Description := folded [
    "The FTP daemon (vsftpd) wrote a PHP file to a web-accessible directory.";
    "Anonymous FTP write access to a directory served by a web server allows an attacker";
    "to upload a PHP web shell, then trigger OS command execution via HTTP.";
    "vsftpd writing .php files to /var/www is unambiguous: the FTP server has no";
    "legitimate reason to write PHP source files.";
    "Covers Lab 19: attacker uploads shell.php via anonymous FTP to victim's web root."];
  R_Severity := "CRITICAL"; R_Mitre := "T1505.003";
  R_Match := None;
  R_Any := [open_block "vsftpd" "/var/www/html/*.php" "write";
            open_block "vsftpd" "/var/www/html/uploads/*.php" "write";
            open_block "vsftpd" "/var/www/html/pub/*.php" "write";
            open_block "vsftpd" "/var/ftp/pub/*.php" "write";
            open_block "vsftpd" "*.php" "write"];
  R_All := [];
  R_Detect := no_detect;
  R_Sequence := None
|}.

(** lab20_smb_impacket.yaml *)
Definition impacket_smb_access : Rule := {|
  R_Name := "impacket_smb_access";
  R_Description := folded [
    "A Python process connected to SMB port 445. This is the signature of Impacket-based";
    "SMB attacks: smbclient.py, psexec.py, ntlmrelayx.py, and related tools all run as";
    "Python and open TCP connections to port 445. Unlike the system smbclient binary";
    quoted ["(which appears as "; "smbclient"; "), Impacket tools show as "; "python3"; "."];
    "Covers Lab 20 (pass-the-hash via impacket smbclient.py with NTLM hash),";
    "Lab 21 (PsExec payload upload via impacket admin share access), and";
    "Lab 22 (NTLM relay — Python relaying authentication to port 445 on victim2)."];
  R_Severity := "HIGH"; R_Mitre := "T1550.002";
  R_Match := Some (conn_block "python3" (ScalarNode "445"));
  R_Any := [];
  R_All := [];
  R_Detect := no_detect;
  R_Sequence := None
|}.

(** lab24_suid_abuse.yaml *)
Definition suid_cp_passwd_write : Rule := {|
  R_Name := "suid_cp_passwd_write";
  R_Description := folded [
    "The cp binary wrote to /etc/passwd or /etc/shadow. cp is sometimes given the SUID";
    "bit as a misconfiguration, allowing any user to overwrite root-owned files.";
    "The classic exploit: craft a /etc/passwd with a new zero-UID entry (no password),";
    "cp it over the real /etc/passwd, then su to the new user for a root shell.";
    "cp writing to /etc/passwd is always anomalous — the system installer or package";
    "manager (not cp) manages this file.";
    "Covers Lab 24: lowuser abuses SUID /bin/cp to overwrite /etc/passwd with backdoor entry."];
  R_Severity := "CRITICAL"; R_Mitre := "T1548.001";
  R_Match := None;
  R_Any := [open_block "cp" "/etc/passwd" "write";
            open_block "cp" "/etc/shadow" "write"];
  R_All := [];
  R_Detect := no_detect;
  R_Sequence := None
|}.

(** lab25_proc_environ.yaml *)
Definition proc_environ_enumeration : Rule := {|
  R_Name := "proc_environ_enumeration";
  R_Description := folded [
    "A process read /proc/<pid>/environ — the environment variable file of another process.";
    "Applications store secrets in environment variables (12-factor app pattern), making";
    "/proc/*/environ a goldmine: database passwords, API tokens, cloud credentials, and";
    "Vault tokens are all commonly found there.";
    "Enumerating /proc/*/environ is anomalous for non-privileged processes; a loop over";
    "all PIDs appears as a burst of these reads.";
    "Covers Lab 25 (/proc/environ credential extraction → PostgreSQL lateral movement) and";
    "Lab 30 (extracting VAULT_TOKEN from /proc/*/environ to dump HashiCorp Vault secrets)."];
  R_Severity := "HIGH"; R_Mitre := "T1552.007";
  R_Match := Some (open_block "" "/proc/*/environ" "read");
  R_Any := [];
  R_All := [];
  R_Detect := no_detect;
  R_Sequence := None
|}.

(** lab26_ansible_unrestricted.yaml *)
Definition ansible_adhoc_execution : Rule := {|
  R_Name := "ansible_adhoc_execution";
  R_Description := folded [
    "The ansible binary was executed on the Ansible control node. When an AWX/Tower-like";
    "REST API accepts ad-hoc command requests without authentication, an attacker calls";
    "the API with module_name=shell and arbitrary arguments. The server then execs ansible";
    "to run the command across all managed nodes via SSH.";
    "Seeing ansible exec'd from a web service process (Python Flask, gunicorn, uwsgi) is";
    "the eBPF signal for unauthenticated API abuse.";
    "Covers Lab 26: attacker POSTs to /api/v2/ad_hoc_commands/ without authentication,";
    "triggering ansible to SSH into managed-node and run the attacker's shell command."];
  R_Severity := "HIGH"; R_Mitre := "T1072";
  R_Match := None;
  R_Any := [exec_block "" "" "/usr/bin/ansible";
            exec_block "" "" "/usr/local/bin/ansible";
            exec_block "" "" "/usr/bin/ansible-playbook";
            exec_block "" "" "/usr/local/bin/ansible-playbook"];
  R_All := [];
  R_Detect := no_detect;
  R_Sequence := None
|}.

(** lab27_etcd_noauth.yaml *)
Definition etcd_noauth_access : Rule := {|
  R_Name := "etcd_noauth_access";
  R_Description := folded [
    "A TCP connection was made to etcd's client port 2379. etcd stores all Kubernetes";
    "cluster state, including Secrets (service account tokens, TLS certificates, application";
    "passwords). Without client certificate authentication, any process with network access";
    "can dump every key via a simple GET request.";
    "Connection to port 2379 from an etcdctl client or any non-etcd process is anomalous.";
    "NOTE: TCP connection events to port 2379 may not be captured in all environments";
    "(no connection events observed in lab tests). The reliable signal is the exec of";
    "the etcdctl binary itself — etcdctl is not part of any normal container workload";
    "and its execution is always an administrative or attacker action.";
    "Covers Lab 27: attacker uses etcdctl to dump all /registry/secrets/ keys from etcd,";
    "extracts a cluster-admin JWT, and uses it against the Kubernetes API."];
  R_Severity := "CRITICAL"; R_Mitre := "T1552.007";
  R_Match := None;
  R_Any := [exec_block "" "" "/usr/local/bin/etcdctl";
            exec_block "" "" "/usr/bin/etcdctl";
            exec_block "" "" "/bin/etcdctl";
            conn_block "" (ScalarNode "2379")];
  R_All := [];
  R_Detect := no_detect;
  R_Sequence := None
|}.

(** lab28_vnc_weak.yaml *)
Definition vnc_authentication : Rule := {|
  R_Name := "vnc_authentication";
  R_Description := folded [
    "A TCP connection was made to VNC port 5900. VNC with a weak or default password";
    "gives full graphical desktop control, allowing arbitrary command execution via the";
    "session (xdotool, xterm, keyboard input). Unlike SSH brute-force, VNC has no";
    "account lockout by default.";
    "A connection to port 5900 from any non-vncviewer-test process is anomalous in";
    "a server environment where VNC is not a legitimate remote access channel.";
    quoted ["Covers Lab 28: attacker connects with Python (vncdotool) using weak password "; "password"; EmptyString];
    "and executes commands on the VNC desktop session."];
  R_Severity := "HIGH"; R_Mitre := "T1021.005";
  R_Match := Some (conn_block "" (ScalarNode "5900"));
  R_Any := [];
  R_All := [];
  R_Detect := no_detect;
  R_Sequence := None
|}.

(** lab29_memcached_inject.yaml *)
Definition memcached_noauth_access : Rule := {|
  R_Name := "memcached_noauth_access";
  R_Description := folded [
    "A TCP connection was made to Memcached port 11211. Memcached has no authentication.";
    "Any process on the network can read, write, or delete any cached key — including";
    "application session data, user tokens, and transient secrets.";
    "By injecting a crafted admin session into Memcached, an attacker hijacks admin";
    "privileges in the web application, which may expose RCE (e.g. admin ping/backup";
    "features that execute shell commands).";
    "Covers Lab 29: attacker uses netcat to inject an admin session into Memcached,";
    "then uses the hijacked session cookie to access the admin panel and trigger RCE."];
  R_Severity := "HIGH"; R_Mitre := "T1563";
  R_Match := Some (conn_block "" (ScalarNode "11211"));
  R_Any := [];
  R_All := [];
  R_Detect := no_detect;
  R_Sequence := None
|}.

(** lab30_vault_misconfig.yaml *)
Definition vault_api_access : Rule := {|
  R_Name := "vault_api_access";
  R_Description := folded [
    "A TCP connection was made to HashiCorp Vault's API port 8200. In this lab,";
    "the Vault root token is stored in VAULT_TOKEN environment variable of a running";
    "process, readable via /proc/<pid>/environ. Once extracted, the token grants full";
    "access to all Vault secrets (SSH keys, DB passwords, TLS certs).";
    "A connection to port 8200 from a non-Vault service process (e.g., shell script,";
    "curl, Python) indicates credential theft and secret dumping in progress.";
    "Covers Lab 30: attacker reads VAULT_TOKEN from /proc/*/environ on victim1,";
    "calls vault:8200/v1/secret/data/ssh-key to extract an SSH private key,";
    "and uses it to SSH into victim2.";
    "Note: /proc/environ enumeration (first step) is also detected by proc_environ_enumeration."];
  R_Severity := "CRITICAL"; R_Mitre := "T1552.007";
  R_Match := Some (conn_block "" (ScalarNode "8200"));
  R_Any := [];
  R_All := [];
  R_Detect := no_detect;
  R_Sequence := None
|}.

(** mysql_webshell_upload.yaml *)
Definition mysqld_php_file_write : Rule := {|
  R_Name := "mysqld_php_file_write";
  R_Description := folded [
    "The MySQL connection wrote a .php file to the web root directory.";
    "mysqld has no legitimate reason to write PHP files to /var/www.";
    "This is the eBPF fingerprint of the SELECT INTO OUTFILE web shell attack:";
    quoted [EmptyString; "SELECT '<?php system($_GET[cmd]); ?>' INTO OUTFILE '/var/www/html/shell.php'"; EmptyString];
    "causes mysqld itself to open the file with O_WRONLY|O_CREAT, producing a";
    "file_open write event. The shell is then triggered via HTTP. Covers Lab 07."];
  R_Severity := "CRITICAL"; R_Mitre := "T1505.003";
  R_Match := Some (open_block "connection" "/var/www/html/*.php" "write");
  R_Any := [];
  R_All := [];
  R_Detect := no_detect;
  R_Sequence := None
|}.

(** ssh_bruteforce.yaml *)
Definition ssh_brute_force : Rule := {|
  R_Name := "ssh_brute_force";
  R_Description := folded [
    "SSH brute-force attack launched from container"];
  R_Severity := "HIGH"; R_Mitre := "T1110.001";
  R_Match := Some (conn_block "" (ScalarNode "22"));
  R_Any := [];
  R_All := [];
  R_Detect := {| DC_Mode := "threshold"; DC_Count := 3; DC_Window := "10s";
                 DC_GroupBy := ["src_container"; "dst_container"] |};
  R_Sequence := None
|}.

(** The files in the lexical order in which the folder is walked. *)
Definition shipped_files : list (string * Rule) :=
  [("http_daemon_shell.yaml", http_daemon_shell);
   ("lab02_ssh_key_reuse.yaml", ssh_private_key_read);
   ("lab03_ssh_agent_hijack.yaml", ssh_invoked_under_sudo);
   ("lab04_ssh_port_forward.yaml", sshd_outbound_non_ssh_port);
   ("lab05_redis_rce.yaml", redis_authorized_keys_write);
   ("lab06_postgres_rce.yaml", postgres_shell_execution);
   ("lab08_mongodb_noauth.yaml", mongodb_unauthenticated_access);
   ("lab09_couchdb_rce.yaml", couchdb_shell_execution);
   ("lab10_jenkins_rce.yaml", java_jvm_shell_execution);
   ("lab11_jupyter_rce.yaml", python_shell_execution);
   ("lab13_gitea_key.yaml", ssh_nonstandard_key_usage);
   ("lab15_privileged_escape.yaml", privileged_container_proc_escape);
   ("lab16_docker_tcp_api.yaml", docker_tcp_api_access);
   ("lab17_nfs_abuse.yaml", nfs_authorized_keys_write);
   ("lab18_rsync_unauth.yaml", rsync_authorized_keys_write);
   ("lab19_ftp_webshell.yaml", ftp_php_webshell_upload);
   ("lab20_smb_impacket.yaml", impacket_smb_access);
   ("lab24_suid_abuse.yaml", suid_cp_passwd_write);
   ("lab25_proc_environ.yaml", proc_environ_enumeration);
   ("lab26_ansible_unrestricted.yaml", ansible_adhoc_execution);
   ("lab27_etcd_noauth.yaml", etcd_noauth_access);
   ("lab28_vnc_weak.yaml", vnc_authentication);
   ("lab29_memcached_inject.yaml", memcached_noauth_access);
   ("lab30_vault_misconfig.yaml", vault_api_access);
   ("mysql_webshell_upload.yaml", mysqld_php_file_write);
   ("ssh_bruteforce.yaml", ssh_brute_force)].

Definition shipped_rules : list Rule := map snd shipped_files.

(** ** Well-formedness *)

Definition plain_charb (c : byte) : bool :=
  negb (bool_decide (c = QUESTION)) && negb (bool_decide (c = LBRACKET)) &&
  negb (bool_decide (c = RBRACKET)) && negb (bool_decide (c = BACKSLASH)).

(** A pattern without question marks, classes and escapes. *)
Definition plain_pattern (s : string) : bool := forallb plain_charb (bytes_of s).

Lemma plain_pattern_plain s : plain_pattern s = true -> plain (bytes_of s).
Proof.
  intros H. unfold plain_pattern in H. rewrite forallb_forall in H. apply Forall_forall. intros c Hc.
  specialize (H c ltac:(by apply list_elem_of_In)). unfold plain_charb in H.
  rewrite !andb_true_iff, !negb_true_iff, !bool_decide_eq_false in H. unfold plain_char. tauto.
Qed.

(** A block says what event it is about, its patterns are plain, and a
    connection's port has been decoded to a constraint. *)
Definition block_wf (m : MatchBlock) : bool :=
  bool_decide (MB_EventType m ∈ ["connection"; "file_open"; "exec"]) &&
  forallb plain_pattern [MB_SrcProcess m; MB_DstProcess m; MB_SrcContainer m; MB_DstContainer m;
                         MB_FilePath m; MB_FileOp m; MB_ExecPath m; MB_ParentProcess m] &&
  (negb (bool_decide (MB_EventType m = "connection")) || negb (IsZero (MB_DstPort m))).

(** The blocks of a rule that [MatchEvent] looks at. *)
Definition rule_blocks (r : Rule) : list MatchBlock :=
  match R_Match r with
  | Some m => [m]
  | None => match R_Any r with [] => R_All r | ms => ms end
  end.

Definition rule_wf (r : Rule) : bool :=
  negb (bool_decide (rule_blocks r = [])) && forallb block_wf (rule_blocks r) &&
  bool_decide (R_Severity r ∈ ["HIGH"; "CRITICAL"]) && bool_decide (R_Sequence r = None) &&
  (negb (is_threshold r) || bool_decide (is_Some (ParseDuration (DC_Window (R_Detect r))))).

(** The rules of the repository are well formed: their names are distinct
    and without colons, none has a sequence, and each has blocks to match, with
    plain patterns, decoded ports and a window that parses. *)
Theorem shipped_rules_well_formed :
  NoDup (map R_Name shipped_rules) /\ plain_rules shipped_rules /\
  forallb rule_wf shipped_rules = true.
Proof.
  split_and!; [by apply (bool_decide_unpack _); vm_compute..|vm_compute; reflexivity].
Qed.

Lemma shipped_names : NoDup (map R_Name shipped_rules).
Proof. by apply (bool_decide_unpack _); vm_compute. Qed.

Lemma shipped_plain : plain_rules shipped_rules.
Proof. by apply (bool_decide_unpack _); vm_compute. Qed.

(** ** Loading them *)

(** The folder with the contents [data] of each file. *)
Definition rules_folder (data : string -> list byte) : node :=
  DirNode "rules" false (map (fun f => FileNode (fst f) (Some (data (fst f)))) shipped_files).

Lemma mapM_cons_some {A B} (f : A -> option B) x y l :
  f x = Some y -> mapM f (x :: l) = (ys ← mapM f l; Some (y :: ys)).
Proof. intros H. simpl. by rewrite H. Qed.

(** A decoder that makes of each file what is written here loads the folder
    into an engine with these rules, in the order of the file names. *)
Theorem shipped_rules_load (unmarshal : list byte -> option Rule) (data : string -> list byte) :
  (forall file ru, (file, ru) ∈ shipped_files -> unmarshal (data file) = Some ru) ->
  New unmarshal (Some (rules_folder data)) = Ret (Some (NewEngine shipped_rules)).
Proof.
  intros Hdec. rewrite New_eq. unfold rules_folder, shipped_rules. rewrite rule_files_entries.
  assert (Hall : Forall (fun f => bool_decide (yaml_name (fst f)) = true) shipped_files)
    by (apply (bool_decide_unpack _); vm_compute; reflexivity).
  enough (Hm : forall fs, fs ⊆ shipped_files ->
    mapM (file_rule unmarshal)
      (concat (map rule_files (map (fun f => FileNode (fst f) (Some (data (fst f)))) fs))) =
    Some (map snd fs)) by by rewrite Hm.
  rewrite Forall_forall in Hall. induction fs as [|[file ru] fs IH]; intros Hsub; [reflexivity|].
  apply list_subseteq_cons_iff in Hsub as [Hin Hsub]. pose proof (Hall (file, ru) Hin) as Hf. cbn [fst] in Hf.
  cbn [map concat fst]. unfold rule_files at 1. cbn [files List.filter fst]. rewrite Hf. cbn [map app snd].
  rewrite (mapM_cons_some _ _ ru), (IH Hsub) by exact (Hdec file ru Hin). reflexivity.
Qed.

(** ** Running them *)

(** (C29) With these rules nothing panics before the signal but a failure in the
    Docker monitor, and the alerts of each rule whose matches come in time order
    that have been printed are a prefix of those its own matches call for. *)
Theorem shipped_program_runs (bootTime : Z) (prefix : string) (zone : Z) (r : Resolver) (s : sys) :
  reachable bootTime prefix zone shipped_rules r s -> closing s = 0%nat ->
  (forall l p, sys_step bootTime prefix zone s l = Panic p -> exists ev, l = LDocker ev) /\
  (forall ru, ru ∈ shipped_rules -> StronglySorted Z.le (match_times ru (engine_seen (eng s))) ->
   exists later, rule_alerts ru [] (engine_seen (eng s)) = about ru (alerts_seen s) ++ later).
Proof.
  intros Hre Hz. split.
  - intros l p Hp. destruct (panics_before_signal _ _ _ _ _ _ _ _ Hre Hz Hp) as [Hd|(_ & _ & e & ru & rest & _ & Hin & Hm)]; [done|].
    pose proof shipped_plain as Hpl. unfold plain_rules in Hpl. rewrite Forall_forall in Hpl.
    destruct (Hpl ru Hin) as [Hs _]. unfold matches_step in Hm. by rewrite Hs in Hm.
  - intros ru Hin Hsort.
    destruct (printed_alerts _ _ _ _ _ _ ru Hre shipped_plain shipped_names Hin Hsort) as (later & -> & _).
    by eexists.
Qed.

(** ** The brute-force rule *)

(** A TCP connection to port 22; a connection event without a port counts. *)
Definition ssh_conn (e : Event) : bool :=
  bool_decide (EventType e = "connection") && (bool_decide (DstPort e = 0) || bool_decide (DstPort e = 22)).

(** The two container names of an event, the empty one for no container. *)
Definition ends (e : Event) : string * string :=
  (from_option CI_Name "" (SrcContainer e), from_option CI_Name "" (DstContainer e)).

Definition docker_names (e : Event) : Prop :=
  is_Some (SrcContainer e) /\ no_colon (fst (ends e)) /\ no_colon (snd (ends e)).

Lemma conn_match n e :
  MB_MatchEvent (conn_block "" n) e =
  bool_decide (EventType e = "connection") &&
  (IsZero (dst_port n) || bool_decide (DstPort e = 0) || PortMatch (dst_port n) (DstPort e)).
Proof.
  unfold conn_block. cbn [MB_MatchEvent]. generalize (dst_port n) as p. intros p.
  replace (given "connection") with true by reflexivity.
  replace (given "") with false by reflexivity.
  replace (IsZero zero_port_expr) with true by reflexivity. cbn [negb andb].
  case_bool_decide as H1; case_bool_decide as H2; try congruence; cbn [negb andb]; [|done].
  destruct (IsZero p); cbn [negb andb orb]; [by destruct (SrcContainer e), (DstContainer e)|].
  case_bool_decide as H3; destruct (Z.eqb_spec (DstPort e) 0); try contradiction; cbn [negb andb orb];
    by destruct (SrcContainer e), (DstContainer e).
Qed.

Lemma ssh_match e : R_MatchEvent ssh_brute_force e = ssh_conn e.
Proof.
  change (R_MatchEvent ssh_brute_force e) with (MB_MatchEvent (conn_block "" (ScalarNode "22")) e).
  rewrite conn_match. unfold ssh_conn.
  replace (dst_port (ScalarNode "22")) with
    {| Ports := [22]; Ranges := []; Negate := false; Wildcard := false |} by (vm_compute; reflexivity).
  unfold PortMatch. cbn -[Z.eqb]. f_equal. f_equal.
  case_bool_decide; destruct (Z.eqb_spec 22 (DstPort e)); cbn -[Z.eqb]; first [done|lia].
Qed.

Lemma field_value_src e : is_Some (SrcContainer e) -> field_value e "src_container" = Some (fst (ends e)).
Proof. intros [c Hc]. unfold field_value, ends. rewrite decide_True by done. by rewrite Hc. Qed.

Lemma field_value_dst e : field_value e "dst_container" = Some (snd (ends e)).
Proof. unfold field_value. rewrite decide_False by done. by rewrite decide_True by done. Qed.

Lemma ssh_group_values e :
  is_Some (SrcContainer e) ->
  omap (field_value e) ["src_container"; "dst_container"] = [fst (ends e); snd (ends e)].
Proof.
  intros Hc. unfold omap, list_omap.
  by rewrite (field_value_src e Hc), (field_value_dst e).
Qed.

Lemma ssh_same_group e1 e2 k :
  docker_names e1 -> docker_names e2 -> group_of ssh_brute_force e1 = Ret k ->
  bool_decide (group_of ssh_brute_force e2 = Ret k) = bool_decide (ends e2 = ends e1).
Proof.
  intros (Hc1 & Hs1 & Hd1) (Hc2 & Hs2 & Hd2) Hk1.
  destruct (buildGroupKey_total "ssh_brute_force" ["src_container"; "dst_container"] e2 Hc2) as [k2 Hk2].
  change (group_of ssh_brute_force e2) with
    (buildGroupKey "ssh_brute_force" ["src_container"; "dst_container"] e2).
  rewrite Hk2. apply bool_decide_ext.
  assert (H := same_group_key "ssh_brute_force" ["src_container"; "dst_container"] e2 e1 k2 k).
  rewrite !ssh_group_values, !Forall_cons, !field_value_src, !field_value_dst in H by assumption.
  rewrite (surjective_pairing (ends e2)), (surjective_pairing (ends e1)).
  destruct H as [H1 H2]; [by apply (bool_decide_unpack _); vm_compute|by repeat split..|done|exact Hk1|].
  split.
  - intros [= ->]. destruct (H1 eq_refl) as (F1 & F2 & _). congruence.
  - intros [E1 E2]%pair_equal_spec. f_equal. apply H2. rewrite E1, E2. by repeat split.
Qed.

Lemma length_filter_map {A B} (f : A -> B) (p : B -> bool) l :
  length (List.filter p (map f l)) = length (List.filter (fun x => p (f x)) l).
Proof. induction l as [|x l IH]; [done|]. simpl. destruct (p (f x)); simpl; by rewrite IH. Qed.

(** The connections like [e] of the last ten seconds, among the events [es]. *)
Definition recent_like (e : Event) (es : list Event) : list Event :=
  List.filter (fun x => ssh_conn x && bool_decide (ends x = ends e) &&
                        (Timestamp e - Timestamp x <=? 10 * Second)) es.

Lemma within_ten now t : within now (10 * Second) t = (now - t <=? 10 * Second).
Proof.
  apply Bool.eq_iff_eq_true. unfold within, time_sub, min_duration, max_duration, Second.
  rewrite negb_true_iff, Z.gtb_ltb, Z.ltb_ge, Z.leb_le. lia.
Qed.

(** What the rule's specification says. *)
Lemma ssh_fires (past : list Event) (e : Event) :
  Forall docker_names (past ++ [e]) ->
  rule_fires ssh_brute_force past e = ssh_conn e && (3 <? length (recent_like e (past ++ [e])))%nat.
Proof.
  intros Hn. apply Bool.eq_iff_eq_true. rewrite andb_true_iff, Nat.ltb_lt.
  unfold rule_fires, fires_with. rewrite ssh_match, andb_true_iff.
  replace (is_threshold ssh_brute_force) with true by (vm_compute; reflexivity). cbn [negb orb].
  replace (window_of ssh_brute_force) with (10 * Second) by (vm_compute; reflexivity).
  assert (He : docker_names e) by (apply Forall_app in Hn as [_ Hn]; by apply Forall_cons_1 in Hn as [Hn _]).
  destruct (buildGroupKey_total "ssh_brute_force" ["src_container"; "dst_container"] e (proj1 He)) as [k Hk].
  change (buildGroupKey _ _ e) with (group_of ssh_brute_force e) in Hk. rewrite Hk.
  unfold sliding, group_times. rewrite length_filter_map, filter_filter_and.
  fold (recent_like e (past ++ [e])). rewrite (List.filter_ext_in _ (fun x => ssh_conn x && bool_decide (ends x = ends e) &&
                                (Timestamp e - Timestamp x <=? 10 * Second))).
  2:{ intros x Hx. rewrite Forall_forall in Hn. rewrite ssh_match, within_ten.
      by rewrite (ssh_same_group e x k He (Hn x ltac:(by apply list_elem_of_In)) Hk). }
  change (DC_Count (R_Detect ssh_brute_force)) with 3. rewrite Z.gtb_lt. unfold recent_like.
  apply and_iff_compat_l. split; intros H; lia.
Qed.

(** (C30) The engine with the repository's rules raises the SSH brute-force alert on an
    event, after any others, exactly when it is a connection to port 22 (or
    without a port) and at least the fourth such between the same two containers
    within the last ten seconds; then it raises it once.  The container names
    have no colons, and the connections to port 22 come in time order. *)
Theorem ssh_brute_force_fires (past : list Event) (e : Event) :
  Forall docker_names (past ++ [e]) ->
  StronglySorted Z.le (map Timestamp (List.filter ssh_conn (past ++ [e]))) ->
  exists r1 r2, ProcessLoop (NewEngine shipped_rules) past = Ret r1 /\ ProcessEvent r1 e = Ret r2 /\
    about ssh_brute_force (alerts r2) = about ssh_brute_force (alerts r1) ++
      (if ssh_conn e && (3 <? length (recent_like e (past ++ [e])))%nat
       then [rule_alert ssh_brute_force e] else []).
Proof.
  intros Hn Hs.
  assert (Hc : Forall (fun e => is_Some (SrcContainer e)) (past ++ [e]))
    by (eapply Forall_impl; [exact Hn|by intros x []]).
  apply Forall_app in Hc as [Hc [He _]%Forall_cons_1].
  assert (Hin : ssh_brute_force ∈ shipped_rules) by by apply (list_elem_of_lookup_2 _ 25%nat).
  destruct (rule_inv_run shipped_rules ssh_brute_force past [] (NewEngine shipped_rules)) as (r1 & H1 & Hi1);
    [done|exact shipped_plain|exact shipped_names|exact Hin|exact Hc|by apply rule_inv_start|].
  destruct (process_rules_inv shipped_rules ssh_brute_force past r1 e) as (r2 & H2 & Hi2);
    [exact shipped_plain|exact shipped_names|exact Hin|exact He|exact Hi1|].
  exists r1, r2. split_and!; [exact H1| |].
  - unfold ProcessEvent. by rewrite (ProcessLoop_rules _ _ _ H1).
  - rewrite (ri_alerts _ _ _ Hi2), (ri_alerts _ _ _ Hi1), alerts_with_snoc. f_equal. cbn [app].
    rewrite fires_sorted, ssh_fires; [done..|]. unfold match_times. by rewrite (List.filter_ext _ _ ssh_match).
Qed.

(** ** The container escape rule *)

Lemma text_ok_glob p v : p <> "" -> plain_pattern p = true ->
  text_ok p v <-> glob (bytes_of p) (bytes_of v).
Proof.
  intros Hp Hpl. unfold text_ok, matchPattern.
  destruct (Match_plain p v (plain_pattern_plain p Hpl)) as (m & -> & H). rewrite <- H. tauto.
Qed.

(** What a block about opened files asks for. *)
Lemma open_denotes path op e :
  block_ok (open_block "" path op) e <->
  EventType e = "file_open" /\ text_ok path (FilePath e) /\ text_ok op (FileOp e).
Proof.
  unfold block_ok, open_block. cbn.
  assert (Hc : forall c, container_ok "" c) by (intros [c|]; [by left|done]).
  assert (Ht : forall v, text_ok "" v) by by left.
  assert (Hz : forall port, port_ok zero_port_expr port) by by left.
  split; [intros (H & _ & _ & _ & _ & _ & _ & _ & _ & H1 & H2); destruct H; [done|by split_and!]|].
  intros (-> & H1 & H2). split_and!; auto.
Qed.

(** Stars between slashes: as many components. *)
Lemma glob_components n s :
  glob (STAR :: concat (replicate n [SLASH; STAR])) s <->
  exists a rest, length rest = n /\ Forall (fun c => SLASH ∉ c) (a :: rest) /\
    s = a ++ concat (map (cons SLASH) rest).
Proof.
  revert s. induction n as [|n IH]; intros s; rewrite glob_star_inv; simpl.
  - split.
    + intros (s1 & s2 & -> & H1 & H2). inversion H2; subst. exists s1, []. by split_and!; [|repeat constructor|].
    + intros (a & [|b rest] & Hl & Hall & ->); [|discriminate]. apply Forall_cons_1 in Hall as [Ha _].
      exists a, []. simpl. split_and!; [done|done|constructor].
  - split.
    + intros (s1 & s2 & -> & H1 & H2). apply (glob_literal [SLASH]) in H2 as (t & -> & H2); [|by apply (bool_decide_unpack _); vm_compute].
      apply IH in H2 as (a & rest & <- & Hall & ->). exists s1, (a :: rest).
      split_and!; [done|by constructor|done].
    + intros (a & [|a' rest] & Hl & Hall & ->); [discriminate|]. injection Hl as Hl.
      apply Forall_cons_1 in Hall as [Ha Hall]. eexists a, _. split_and!; [done|done|]. simpl.
      constructor; [done|]. apply IH. by exists a', rest.
Qed.

Definition proc_root : string := "/proc/1/root/".

Lemma proc_glob n pattern path :
  bytes_of pattern = bytes_of proc_root ++ STAR :: concat (replicate n [SLASH; STAR]) ->
  glob (bytes_of pattern) (bytes_of path) <->
  exists a rest, length rest = n /\ Forall (fun c => SLASH ∉ c) (a :: rest) /\
    bytes_of path = bytes_of proc_root ++ a ++ concat (map (cons SLASH) rest).
Proof.
  intros ->. rewrite glob_literal by (by apply (bool_decide_unpack _); vm_compute).
  setoid_rewrite glob_components. split.
  - intros (t & -> & a & rest & H1 & H2 & ->). by exists a, rest.
  - intros (a & rest & H1 & H2 & ->). eexists. split; [done|]. by exists a, rest.
Qed.

(** (C31) The rule for writes below /proc/1/root sees paths of at most three
    components below it, since a star stays within one component. *)
Theorem proc_escape_depth (e : Event) :
  EventType e = "file_open" -> FileOp e = "write" ->
  R_MatchEvent privileged_container_proc_escape e = true <->
  exists a rest, (length rest <= 2)%nat /\ Forall (fun c => SLASH ∉ c) (a :: rest) /\
    bytes_of (FilePath e) = bytes_of proc_root ++ a ++ concat (map (cons SLASH) rest).
Proof.
  intros Het Hop.
  change (R_MatchEvent privileged_container_proc_escape e) with
    (any_loop (R_Any privileged_container_proc_escape) e).
  rewrite any_loop_spec. unfold privileged_container_proc_escape. cbn [R_Any].
  rewrite !Exists_cons, Exists_nil.
  assert (Hx : forall p, ~ denotes (exec_block "" "" p) e).
  { intros p (Hty & _). destruct Hty as [|Hty]; [done|]. rewrite Het in Hty. done. }
  assert (Ho : forall n p, p <> "" -> plain_pattern p = true ->
    bytes_of p = bytes_of proc_root ++ STAR :: concat (replicate n [SLASH; STAR]) ->
    denotes (open_block "" p "write") e <->
    exists a rest, length rest = n /\ Forall (fun c => SLASH ∉ c) (a :: rest) /\
      bytes_of (FilePath e) = bytes_of proc_root ++ a ++ concat (map (cons SLASH) rest)).
  { intros n p Hne Hpl Hp. rewrite denotes_block, open_denotes, text_ok_glob by done.
    rewrite (proc_glob n p _ Hp), Hop. assert (text_ok "write" "write") by (right; vm_compute; reflexivity).
    tauto. }
  rewrite (Ho 0%nat), (Ho 1%nat), (Ho 2%nat) by (done || reflexivity).
  split.
  - intros [(a & rest & Hl & H)|[(a & rest & Hl & H)|[(a & rest & Hl & H)|[H|[H|[]]]]]];
      [exists a, rest; split; [lia|done]..|by apply Hx in H|by apply Hx in H].
  - intros (a & rest & Hl & H).
    destruct rest as [|x [|y [|z rest]]]; [left|right; left|right; right; left|simpl in Hl; lia];
      eexists a, _; split; try exact H; reflexivity.
Qed.

(** A write of a file. *)
Definition write_event (path : string) : Event := {|
  EventType := "file_open"; Timestamp := 0;
  SrcContainer := Some {| CI_ID := "1"; CI_Name := "web"; CI_Image := "nginx" |};
  SrcProcessName := "sh"; SrcPID := 7; SrcCgroupID := 9; SrcAddr := ""; SrcPort := 0;
  DstContainer := None; DstProcessName := ""; DstPID := 0; DstCgroupID := 0;
  DstAddr := ""; DstPort := 0; FilePath := path; FileOp := "write"; ExecPath := "";
  ParentPID := 0; ParentProcessName := ""
|}.

(** So the keys of a host user are written unseen through the escape path. *)
Example proc_escape_missed :
  R_MatchEvent privileged_container_proc_escape (write_event "/proc/1/root/tmp/pwned") = true /\
  R_MatchEvent privileged_container_proc_escape
    (write_event "/proc/1/root/home/user/.ssh/authorized_keys") = false.
Proof. split; vm_compute; reflexivity. Qed.

(** ** Concrete instances *)

(** A decoder that knows the files by their names. *)
Definition by_name (file : list byte) : option Rule :=
  snd <$> List.find (fun f => bool_decide (bytes_of (fst f) = file)) shipped_files.

Lemma shipped_rules_load_witness :
  New by_name (Some (rules_folder bytes_of)) = Ret (Some (NewEngine shipped_rules)).
Proof.
  refine (shipped_rules_load by_name bytes_of _). intros file ru Hin. unfold shipped_files in Hin.
  repeat (apply elem_of_cons in Hin as [[= -> ->]|Hin]; [vm_compute; reflexivity|]).
  by apply elem_of_nil in Hin.
Defined.

Lemma shipped_program_runs_witness :
  let s := after shipped_rules (demo_labels ++ [LFan; LEngine; LEngine]) in
  (forall l p, sys_step 0 "" 0 s l = Panic p -> exists ev, l = LDocker ev) /\
  (forall ru, ru ∈ shipped_rules -> StronglySorted Z.le (match_times ru (engine_seen (eng s))) ->
   exists later, rule_alerts ru [] (engine_seen (eng s)) = about ru (alerts_seen s) ++ later).
Proof.
  intros s. refine (shipped_program_runs 0 "" 0 demo_resolver s _ _).
  - apply after_reachable.
  - vm_compute. reflexivity.
Defined.

(** A connection from "web" to "db" on port 22 at [t] seconds. *)
Definition ssh_event (t : Z) : Event := {|
  EventType := "connection"; Timestamp := t * Second;
  SrcContainer := Some {| CI_ID := "1"; CI_Name := "web"; CI_Image := "nginx" |};
  SrcProcessName := "ssh"; SrcPID := 7; SrcCgroupID := 9; SrcAddr := "10.0.0.2"; SrcPort := 40000;
  DstContainer := Some {| CI_ID := "2"; CI_Name := "db"; CI_Image := "postgres" |};
  DstProcessName := "sshd"; DstPID := 8; DstCgroupID := 10;
  DstAddr := "10.0.0.3"; DstPort := 22; FilePath := ""; FileOp := ""; ExecPath := "";
  ParentPID := 0; ParentProcessName := ""
|}.

Lemma ssh_brute_force_fires_witness :
  let past := map ssh_event [1; 2; 3] in let e := ssh_event 11 in
  length (recent_like e (past ++ [e])) = 4%nat /\
  exists r1 r2, ProcessLoop (NewEngine shipped_rules) past = Ret r1 /\ ProcessEvent r1 e = Ret r2 /\
    about ssh_brute_force (alerts r2) = about ssh_brute_force (alerts r1) ++
      (if ssh_conn e && (3 <? length (recent_like e (past ++ [e])))%nat
       then [rule_alert ssh_brute_force e] else []).
Proof.
  intros past e. split; [vm_compute; reflexivity|].
  refine (ssh_brute_force_fires past e _ _).
  - repeat constructor; try (by eexists); by apply (bool_decide_unpack _); vm_compute.
  - repeat first [constructor | vm_compute; discriminate].
Defined.

Lemma proc_escape_depth_witness :
  let e := write_event "/proc/1/root/tmp/pwned" in
  R_MatchEvent privileged_container_proc_escape e = true <->
  exists a rest, (length rest <= 2)%nat /\ Forall (fun c => SLASH ∉ c) (a :: rest) /\
    bytes_of (FilePath e) = bytes_of proc_root ++ a ++ concat (map (cons SLASH) rest).
Proof. intros e. refine (proc_escape_depth e _ _); reflexivity. Defined.
