(* ===== verification/Age.v ===== *)
(** * How late connections come

    A connection carries the time of its connect and is made when its accept is
    seen ([internal/correlator/correlator.go]), so it may come late; [Lateness]
    bounds what that does to a threshold.  What bounds the lateness itself is the
    correlator's clean-up: a connect whose accept is not seen within the time-out
    goes at the next tick.  This file follows the ages of the pending connects
    through a run, and composes the two: what the rules of the repository detect,
    with numbers, as long as the reader and the ticker keep up. *)

From S2P Require Import Prelude.
From S2P Require Import Bytes.
From S2P Require Import GoLib.
From S2P Require Import Channel.
From S2P Require Import Core.
From S2P Require Import Helpers.
From S2P Require Import Wire.
From S2P Require Import Correlator.
From S2P Require Import Rule.
From S2P Require Import Engine.
From S2P Require Import Lateness.
From S2P Require Import Output.
From S2P Require Import Resolver.
From S2P Require Import Main.
From S2P Require Import Pipeline.
From S2P Require Import Progress.
From S2P Require Import Flow.
From S2P Require Import Sequential.
From S2P Require Import RuleFiles.

Open Scope Z_scope.

Section Ages.
Variables (bootTime : Z) (filterPrefixArg : string) (zone : Z).

(** The kernel's time in a record. *)
Definition record_clock (record : list byte) : option Z := option_map EvTimestamp (ParseEvent record).

(** The reader and the ticker keep up to within [d]: each record is at most [d]
    from the last tick, before or after.  The probes of different CPUs may stamp
    and reserve their records in different orders: a record's time is at most
    [skew] before that of one read earlier.  [tick] is the time of the last tick,
    [last] the latest time of a record so far.  The kernel's clock has not
    overflowed an [int64] of nanoseconds. *)
Fixpoint timely (d skew tick last : Z) (xs : list stimulus) : Prop :=
  match xs with
  | [] => True
  | StRecord record :: xs =>
      match record_clock record with
      | None => timely d skew tick last xs
      | Some t => 0 <= t < 2 ^ 63 /\ last - skew <= bootTime + t /\
                  tick - d <= bootTime + t <= tick + d /\ timely d skew tick (Z.max last (bootTime + t)) xs
      end
  | StTick now :: xs => timely d skew now last xs
  | StDocker _ :: xs => timely d skew tick last xs
  end.

(** How late a connection can be then: the time-out or the reader's lag, and the
    lag and the skew at the accept. *)
Definition latest (d skew : Z) : Z := Z.max (5 * Second) d + d + skew.

(** The ages while the program runs. *)
Record ages_ok (d skew tick last : Z) (st : gmap IncompleteConnection PendingConnectionEntry * list Event) : Prop := {
  ao_pending k entry : fst st !! k = Some entry ->
    tick - Z.max (5 * Second) d <= PE_Timestamp entry <= last;
  ao_late : late_by (latest d skew) (map Timestamp (snd st));
  ao_done : Forall (fun e => Timestamp e <= last) (snd st)
}.

Lemma ages_tick d skew tick last now st :
  ages_ok d skew tick last st -> ages_ok d skew now last (pair_op bootTime st (OpTick now [])).
Proof.
  destruct st as [m done]. intros [Hp Hl Hd]. constructor; try done. simpl. intros k entry Hk.
  apply map_lookup_filter_Some in Hk as [Hk Hx]. destruct (Hp k entry Hk) as [_ Hle]. simpl in Hx.
  unfold expired in Hx. rewrite Z.gtb_ltb, Z.ltb_ge in Hx.
  split; [|done]. unfold time_sub, min_duration, max_duration, Second in *. lia.
Qed.

Lemma late_by_snoc d ts now :
  late_by d ts -> Forall (fun t => t <= now + d) ts -> late_by d (ts ++ [now]).
Proof.
  induction 1 as [|t ts Hs IH Hall]; intros H; simpl; [by repeat constructor|].
  apply Forall_cons_1 in H as [Ht H]. constructor; [by apply IH|].
  apply Forall_app. split; [done|by repeat constructor].
Qed.

Lemma record_op_clock record op :
  record_op record = Some op ->
  exists t, record_clock record = Some t /\
    match op with OpConnect _ _ _ _ _ _ _ ts => ts = t | OpAccept _ _ _ _ _ _ _ => True | OpTick _ _ => False end.
Proof.
  unfold record_clock, record_op. destruct (ParseEvent record) as [m|]; [|done]. simpl. unfold values_op.
  destruct (_ =? _); [intros [= <-]; by eexists|]. destruct (_ =? _); [intros [= <-]; by eexists|done].
Qed.

Lemma ages_last d skew tick last last' st :
  last <= last' -> ages_ok d skew tick last st -> ages_ok d skew tick last' st.
Proof.
  intros Hle [Hp Hl Hd]. constructor; [|done|].
  - intros k entry Hk. specialize (Hp k entry Hk). lia.
  - eapply Forall_impl; [exact Hd|]. simpl. lia.
Qed.

Lemma ages_record d skew tick last st op t :
  0 <= d -> 0 <= skew -> ages_ok d skew tick last st -> 0 <= t < 2 ^ 63 ->
  last - skew <= bootTime + t -> tick - d <= bootTime + t <= tick + d ->
  match op with OpConnect _ _ _ _ _ _ _ ts => ts = t | OpAccept _ _ _ _ _ _ _ => True | OpTick _ _ => False end ->
  ages_ok d skew tick (Z.max last (bootTime + t)) (pair_op bootTime st op).
Proof.
  destruct st as [m done]. intros Hd0 Hsk [Hp Hl Hd] Ht Hlast Htick Hop. simpl in *.
  assert (Hlater : Forall (fun e => Timestamp e <= Z.max last (bootTime + t)) done)
    by (eapply Forall_impl; [exact Hd|]; simpl; lia).
  assert (Hpend : forall k entry, m !! k = Some entry ->
    tick - Z.max (5 * Second) d <= PE_Timestamp entry <= Z.max last (bootTime + t))
    by (intros k entry Hk; specialize (Hp k entry Hk); lia).
  destruct op as [sa sp da dp cg pid comm ts|la lp ra rp cg pid comm|]; [subst ts| |done]; simpl.
  - constructor; try done. simpl. intros k entry [[_ <-]|[_ Hk]]%lookup_insert_Some; [|by apply (Hpend k)].
    unfold connect_entry. simpl. rewrite KTimeToTime_small by done. lia.
  - destruct (m !! _) as [entry|] eqn:Hm; [|by constructor].
    specialize (Hpend _ _ Hm). constructor; simpl.
    + intros k entry' [_ Hk]%lookup_delete_Some. specialize (Hp k entry' Hk). lia.
    + rewrite map_app. apply late_by_snoc; [done|]. apply Forall_map. simpl.
      eapply Forall_impl; [exact Hd|]. simpl. unfold latest. lia.
    + apply Forall_app. split; [done|]. repeat constructor. simpl. lia.
Qed.

(** Along any timely run the pending connects are no older than the last clean-up
    left them, and the connections completed no later than [latest d skew]. *)
Lemma ages_run d skew xs : forall tick last st,
  0 <= d -> 0 <= skew -> ages_ok d skew tick last st -> timely d skew tick last xs ->
  exists tick' last', ages_ok d skew tick' last' (fold_left (pair_step bootTime) xs st).
Proof.
  induction xs as [|x xs IH]; intros tick last st Hd Hsk Hst Ht; simpl; [by exists tick, last|].
  destruct x as [record|now|ev]; simpl in Ht; unfold pair_step at 2; simpl.
  - destruct (record_op record) as [op|] eqn:Hop.
    + destruct (record_op_clock record op Hop) as (t & Hc & Hts). rewrite Hc in Ht.
      destruct Ht as (Hr & Hl & Hk & Ht). apply (IH tick (Z.max last (bootTime + t))); [done..| |done].
      by apply (ages_record d skew tick last st op t).
    + destruct (record_clock record) as [t|]; [|by apply (IH tick last)].
      destruct Ht as (_ & Hl & _ & Ht). apply (IH tick (Z.max last (bootTime + t))); [done..| |done].
      apply (ages_last d skew tick last); [lia|done].
  - apply (IH now last); [done..| |done]. by apply (ages_tick d skew tick).
  - by apply (IH tick last).
Qed.

Lemma connections_late d skew start xs :
  0 <= d -> 0 <= skew -> timely d skew start start xs ->
  late_by (latest d skew) (map Timestamp (snd (pair_run bootTime xs))).
Proof.
  intros Hd Hsk Ht.
  destruct (ages_run d skew xs start start (∅, []) Hd Hsk) as (tick' & last' & [_ H _]); [|done|done].
  constructor; simpl; [by intros k entry Hk|constructor..].
Qed.

(** ** Opens and executions come late by the skew only *)

Lemma direct_event_clock record e :
  direct_event bootTime record = Some e ->
  exists t, record_clock record = Some t /\ Timestamp e = KTimeToTime bootTime t.
Proof.
  unfold direct_event, record_clock. destruct (ParseEvent record) as [m|]; [|done]. simpl.
  destruct (_ =? _); [done|]. destruct (_ =? _); [done|].
  destruct (_ =? _); [intros [= <-]; by eexists|]. destruct (_ =? _); [intros [= <-]; by eexists|done].
Qed.

Lemma direct_after d skew xs : forall tick last,
  0 <= skew -> timely d skew tick last xs ->
  late_by skew (map Timestamp (direct_events bootTime xs)) /\
  Forall (fun t => last - skew <= t) (map Timestamp (direct_events bootTime xs)).
Proof.
  unfold direct_events. induction xs as [|x xs IH]; intros tick last Hsk Ht; [by split; constructor|].
  destruct x as [record|now|ev]; simpl in Ht; cbn [omap list_omap direct_of]; [|by apply (IH now)|by apply (IH tick)].
  destruct (direct_event bootTime record) as [e|] eqn:He.
  - destruct (direct_event_clock record e He) as (t & Hc & Hte). rewrite Hc in Ht.
    destruct Ht as (Hr & Hl & _ & Ht). destruct (IH _ _ Hsk Ht) as [Hs Hall]. simpl.
    rewrite Hte, KTimeToTime_small by done. split; [constructor; [done|]|constructor; [lia|]];
      (eapply Forall_impl; [exact Hall|]; simpl; lia).
  - destruct (record_clock record) as [t|]; [|by apply (IH tick)].
    destruct Ht as (_ & Hl & _ & Ht). destruct (IH _ _ Hsk Ht) as [Hs Hall]. split; [done|].
    eapply Forall_impl; [exact Hall|]. simpl. lia.
Qed.
End Ages.

(** ** Rules that look at one source *)

Section Rules.
Variables (bootTime : Z) (filterPrefixArg : string) (zone : Z).

Lemma direct_no_connection xs : List.filter is_connection (direct_events bootTime xs) = [].
Proof.
  destruct (direct_events_filters bootTime xs) as [<- _]. rewrite filter_filter_and.
  induction (direct_events bootTime xs) as [|e l IH]; [done|]. simpl. unfold is_direct at 1.
  by destruct (is_connection e).
Qed.

(** The events of one source that the engine has received have the times that the
    reference gives those of the source, in the same order. *)
Lemma engine_times p l rs r xs s :
  ran bootTime filterPrefixArg zone rs r xs s -> ignores_containers p ->
  (forall connected evs,
     connected `prefix_of` snd (pair_run bootTime xs) ->
     interleaving (direct_events bootTime xs) connected evs -> List.filter p evs `sublist_of` l) ->
  map Timestamp (List.filter p (engine_seen (eng s))) `sublist_of` map Timestamp l.
Proof.
  intros Hran Hp Hl. destruct (ran_reference _ _ _ _ _ _ _ Hran) as (_ & connected & gone & Hc & Hi & Hf).
  destruct (reachable_inv _ _ _ _ _ _ (ran_reachable _ _ _ _ _ _ _ Hran)) as [_ Hsame _ _ _ _ _].
  apply (fanned_filter _ p), fanned_times in Hf; [|done].
  etransitivity; [|etransitivity; [exact Hf|]]; apply map_sublist.
  - apply filter_sublist_mono. rewrite app_assoc, Hsame, <- app_assoc. by apply sublist_inserts_r.
  - etransitivity; [|refine (Hl connected _ _ Hi); by eexists].
    apply filter_sublist_mono. by apply sublist_inserts_r.
Qed.

Lemma engine_connection_times rs r xs s :
  ran bootTime filterPrefixArg zone rs r xs s ->
  map Timestamp (List.filter is_connection (engine_seen (eng s))) `sublist_of`
    map Timestamp (snd (pair_run bootTime xs)).
Proof.
  intros Hran. apply (engine_times is_connection _ rs r xs s Hran); [done|].
  intros connected evs [later ->] Hi. apply (il_filter is_connection) in Hi.
  rewrite direct_no_connection in Hi. apply il_nil_left in Hi as ->.
  apply sublist_inserts_r, filter_sublist.
Qed.

Lemma engine_direct_times rs r xs s :
  ran bootTime filterPrefixArg zone rs r xs s ->
  map Timestamp (List.filter is_direct (engine_seen (eng s))) `sublist_of`
    map Timestamp (direct_events bootTime xs).
Proof.
  intros Hran. apply (engine_times is_direct _ rs r xs s Hran); [done|].
  intros connected evs [later Hc] Hi. apply (il_filter is_direct) in Hi.
  pose proof (pair_run_connections bootTime xs) as Hn. rewrite Hc, List.filter_app in Hn.
  apply app_nil in Hn as [Hn _]. rewrite Hn in Hi. apply il_nil_right in Hi as ->. apply filter_sublist.
Qed.

(** The rule matches connections only, or opens and executions only. *)
Definition one_source (rule : Rule) : Prop :=
  (forall e, R_MatchEvent rule e = true -> is_connection e = true) \/
  (forall e, R_MatchEvent rule e = true -> is_direct e = true).

Lemma latest_nonneg d skew : 0 <= d -> 0 <= skew -> 0 <= latest d skew.
Proof. unfold latest, Second. lia. Qed.

Lemma matches_late rs r xs s d skew start rule :
  ran bootTime filterPrefixArg zone rs r xs s -> 0 <= d -> 0 <= skew -> timely bootTime d skew start start xs ->
  one_source rule -> late_by (latest d skew) (match_times rule (engine_seen (eng s))).
Proof.
  intros Hran Hd Hsk Ht Hone. unfold match_times.
  destruct Hone as [Hon|Hon]; rewrite <- (filter_filter_weaker _ _ _ Hon); apply StronglySorted_map_filter.
  - apply (sublist_StronglySorted _ _ _ (engine_connection_times rs r xs s Hran)).
    by apply (connections_late bootTime d skew start).
  - apply (sublist_StronglySorted _ _ _ (engine_direct_times rs r xs s Hran)).
    destruct (direct_after bootTime d skew xs start start Hsk Ht) as [Hs _].
    assert (skew <= latest d skew) by (unfold latest, Second; lia).
    induction Hs as [|t ts Hs IH Hall]; constructor; [done|].
    eapply Forall_impl; [exact Hall|]. simpl. lia.
Qed.

(** A rule that alerts on every match counts nothing. *)
Lemma alerts_uncounted c1 c2 rule es : forall past,
  is_threshold rule = false -> alerts_with c1 rule past es = alerts_with c2 rule past es.
Proof.
  induction es as [|e es IH]; intros past Ht; [done|]. simpl. rewrite (IH _ Ht). unfold fires_with. by rewrite Ht.
Qed.

Lemma detections_within rs r xs s d skew start rule :
  ran bootTime filterPrefixArg zone rs r xs s -> 0 <= d -> 0 <= skew -> timely bootTime d skew start start xs ->
  (is_threshold rule = true -> one_source rule) ->
  let es := engine_seen (eng s) in
  alerts_with (widened (- latest d skew)) rule [] es `sublist_of` alerts_with retained rule [] es /\
  alerts_with retained rule [] es `sublist_of` alerts_with (widened (latest d skew)) rule [] es.
Proof.
  intros Hran Hd Hsk Ht Hone es. destruct (is_threshold rule) eqn:Hth.
  - apply retained_widened; [by apply latest_nonneg|]. by apply (matches_late rs r xs s d skew start), Hone.
  - rewrite (alerts_uncounted (widened (- latest d skew)) retained),
      (alerts_uncounted (widened (latest d skew)) retained) by done. done.
Qed.

(** (C21) Detection end to end, with numbers.  If the reader and the ticker keep up
    to within [d] and the probes' stamps to within [skew], the alerts that have
    been printed for a rule that alerts on every match or looks at one source
    are at any time among those of its window widened by [latest d skew], and at
    rest they comprise those of its window shortened by it: no alert without
    about that many matches, and no such number of matches without its alert. *)
Theorem detections_bounded (rs : list Rule) (r : Resolver) (xs : list stimulus) (s : sys)
    (rule : Rule) (d skew start : Z) :
  ran bootTime filterPrefixArg zone rs r xs s ->
  plain_rules rs -> NoDup (map R_Name rs) -> rule ∈ rs ->
  (is_threshold rule = true -> one_source rule) ->
  0 <= d -> 0 <= skew -> timely bootTime d skew start start xs ->
  about rule (alerts_seen s) `sublist_of` alerts_with (widened (latest d skew)) rule [] (engine_seen (eng s)) /\
  (quiet s ->
   alerts_with (widened (- latest d skew)) rule [] (engine_seen (eng s)) `sublist_of` about rule (alerts_seen s)).
Proof.
  intros Hran Hp Hnd Hin Hone Hd Hsk Ht.
  destruct (detections_within rs r xs s d skew start rule Hran Hd Hsk Ht Hone) as [Hlow Hhigh].
  destruct (printed_alerts_any _ _ _ rs r s rule (ran_reachable _ _ _ _ _ _ _ Hran) Hp Hnd Hin)
    as (later & Ha & Hrest).
  rewrite Ha in Hlow, Hhigh. split.
  - etransitivity; [|exact Hhigh]. by apply sublist_inserts_r.
  - intros (_ & _ & _ & Hg & _ & _ & _ & _ & Hba).
    rewrite Hg, Hba, Hrest in Hlow by (by rewrite Hg). simpl in Hlow. by rewrite !app_nil_r in Hlow.
Qed.
End Rules.

(** ** The rules of the repository

    Those with a threshold look at one source, so the theorem covers them all. *)

(** All blocks that the rule looks at name an event type, of those that [p] has. *)
Definition blocks_of (p : string -> bool) (rule : Rule) : bool :=
  forallb (fun m => match MB_Not m with Some _ => false | None => given (MB_EventType m) && p (MB_EventType m) end)
    (rule_blocks rule).

Lemma blocks_of_match p rule e :
  blocks_of p rule = true -> R_MatchEvent rule e = true -> p (EventType e) = true.
Proof.
  unfold blocks_of. rewrite forallb_forall. intros Hall Hm.
  assert (exists m, In m (rule_blocks rule) /\ denotes m e) as (m & Hin & Hme).
  { unfold rule_blocks, R_MatchEvent in *. destruct (R_Match rule) as [m|].
    - exists m. split; [by left|]. by apply MatchEvent_denotes.
    - destruct (R_Any rule) as [|a any]; [destruct (R_All rule) as [|m all]; [done|]|].
      + apply all_loop_spec, Forall_cons_1 in Hm as [Hm _]. exists m. split; [by left|done].
      + apply any_loop_spec, List.Exists_exists in Hm. exact Hm. }
  specialize (Hall m Hin). destruct (MB_Not m) eqn:Hn; [done|]. rewrite (denotes_block m e Hn) in Hme.
  destruct Hme as [Hty _]. apply andb_true_iff in Hall as [Hg Hp]. unfold given in Hg.
  apply negb_true_iff, bool_decide_eq_false in Hg. destruct Hty as [Hty|Hty]; [done|]. by rewrite <- Hty.
Qed.

Lemma shipped_one_source rule : rule ∈ shipped_rules -> is_threshold rule = true -> one_source rule.
Proof.
  assert (H : forallb (fun ru => negb (is_threshold ru) ||
                                 blocks_of (fun t => bool_decide (t = "connection")) ru ||
                                 blocks_of (fun t => negb (bool_decide (t = "connection"))) ru)
                shipped_rules = true) by (vm_compute; reflexivity).
  rewrite forallb_forall in H. intros Hin%list_elem_of_In Ht. specialize (H rule Hin). rewrite Ht in H. simpl in H.
  apply orb_true_iff in H as [H|H]; [left|right]; intros e Hm; by apply (blocks_of_match _ rule e H).
Qed.

(** *** A flood of connections

    Four connections to port 22, a clean-up between each connect and its accept;
    the brute-force rule raises its alert, the other rules none. *)

Definition one_connection : list label :=
  [LRead Ends.r1; LHandle; LTick (6 * Second); LRead Ends.r2; LHandle; LForward; LForward;
   LFan; LFan; LFan; LFan; LFan; LOutEvent] ++ replicate 54 LEngine.
Definition brute_force : list label :=
  one_connection ++ one_connection ++ one_connection ++ one_connection ++ [LEngine; LOutAlert].

Definition brute_forced : go (option sys) :=
  run 0 "" 0 (sys_init shipped_rules demo_resolver) brute_force.

Definition flooded : sys :=
  match brute_forced with Ret (Some s) => s | _ => sys_init shipped_rules demo_resolver end.
Definition flood : list stimulus := stimuli 0 "" 0 (sys_init shipped_rules demo_resolver) brute_force.

Lemma flood_ran : ran 0 "" 0 shipped_rules demo_resolver flood flooded.
Proof.
  apply (run_ran 0 "" 0 shipped_rules demo_resolver brute_force [] _ _ (ran_init _ _ _ _ _)).
  vm_compute. reflexivity.
Qed.

Lemma flood_timely : timely 0 Second 0 (5 * Second) (5 * Second) flood.
Proof. vm_compute. repeat split; discriminate. Qed.

Lemma detections_bounded_witness :
  let rule := ssh_brute_force in
  map RuleName (alerts_seen flooded) = ["ssh_brute_force"] /\ length flood = 12%nat /\
  about rule (alerts_seen flooded) `sublist_of`
    alerts_with (widened (latest Second 0)) rule [] (engine_seen (eng flooded)) /\
  (quiet flooded ->
   alerts_with (widened (- latest Second 0)) rule [] (engine_seen (eng flooded)) `sublist_of`
     about rule (alerts_seen flooded)).
Proof.
  intros rule. split; [vm_compute; reflexivity|]. split; [vm_compute; reflexivity|].
  assert (Hin : rule ∈ shipped_rules) by (apply (list_elem_of_lookup_2 _ 25%nat); reflexivity).
  refine (detections_bounded 0 "" 0 shipped_rules demo_resolver flood flooded rule Second 0 (5 * Second)
    flood_ran shipped_plain shipped_names Hin (shipped_one_source rule Hin) _ _ flood_timely);
    by vm_compute.
Defined.
